(* ===== verification/_CoqProject ===== *)
-Q . S2P
Prelude.v
PyStr.v
PyFloat.v
Errors.v
Json.v
JsonFacts.v
PyValue.v
Sha256.v
Base64.v
Frame.v
FileData.v
Messages.v
SecurityEvents.v
EventBus.v
CryptoIface.v
ToyCrypto.v
Identity.v
TrustStore.v
Channel.v
Handshake.v
HandshakeFacts.v
Transport.v
SessionFacts.v
Establishment.v
FileSys.v
JsonIndent.v
TextFile.v
Transfer.v
TransferFacts.v
RecoveryCode.v
Peer.v
Chat.v
FileSession.v
FileSessionFacts.v
Vault.v
IdentityStore.v
FloatFacts.v
PyText.v
Discovery.v
Timestamps.v
DiscoveryLoops.v
App.v
Tasks.v
ChatApp.v
ChatLoop.v
ChatAppFacts.v
ChatAppRuns.v
ChatAppProps.v
ChatFileRuns.v
ChatFileProps.v
Startup.v
Selection.v
