(* ===== verification/Prelude.v ===== *)
(** * peerc: a verification development

    peerc (src/) is a peer-to-peer chat and file-transfer program. A device has an
    Ed25519 identity; two devices run an authenticated handshake over TCP, derive
    session keys, and exchange length-prefixed JSON and binary frames through an
    encrypted transport; a trust store remembers the keys of other devices;
    files are sent in chunks, resumed and verified; security events and
    application events are published on in-process buses.

    This file is the root of the library: the exceptions and result type of the
    program, the notations, the tactics and the facts on bytes and lists that
    every component shares.

    ** Layout

    Language and standard library (what the program uses of them):
    - [PyStr]: strings as lists of code points, UTF-8 and ASCII codecs, decimal
      and hexadecimal, case mapping, stripping. [PyText]: splitting, int(),
      sorted sets, dotted addresses. [PyFloat]: binary64 values and their
      shortest decimal repr. [FloatFacts]: quotients that do not overflow.
      [Timestamps]: time.time() as exact ticks.
      [PyValue]: decoded values as dictionary keys, as text and in string
      methods, quotients and their formatting.
      [Json], [JsonFacts], [JsonIndent]: json.dumps (with and without indent)
      and json.loads, and their round trip. [Sha256], [Base64]: the two codecs,
      executable. [FileSys]: names, inodes, buffered file handles, os.path.
      [TextFile]: os.makedirs, text-mode files, JSON files, and the monad of
      state and exceptions the storage components are written in. [Tasks]:
      coroutines that wait for the environment, their runs and interleavings,
      and a logic of the invariants they keep at every suspension and of the
      tokens they hold until they end.
    Third-party cryptography:
    - [CryptoIface]: Ed25519, X25519, ChaCha20-Poly1305, AES-GCM, HKDF, scrypt
      and the keyring as classes of operations with the documented laws the
      program relies on; [ToyCrypto]: concrete instances of the laws, used by
      the witnesses only.
    Components of the program:
    - [Errors] (core/transport/timeout.py, core/protocol/errors.py and the
      exception classes of the other modules): the classes with their bases,
      [isinstance], and the time limits.
    - [Frame] (core/protocol/frame.py): frames on a byte stream.
    - [FileData] (core/protocol/binary.py): the file_data payload and UUIDs.
    - [Messages] (core/protocol/messages.py): message factories and validation.
    - [SecurityEvents] (core/security/events.py), [EventBus] (core/events.py).
    - [Identity] (core/identity/device_identity.py, fingerprint.py, rotation.py).
    - [TrustStore] (core/trust): the device table, revocation, key rotation.
    - [Channel] (core/crypto/kdf.py, key_exchange.py, encryption.py): session
      keys and the ordered encrypted channel.
    - [Handshake], [HandshakeFacts] (core/crypto/handshake.py): the three-message
      mutual authentication, its replay cache and its use of the trust store.
    - [Transport], [SessionFacts] (core/transport): TCP connection, encrypted
      transport, the session object with its calls, and the session table.
      [Establishment]: a logic of the values and the exceptions of the handshake's
      monad, and with it how the establishment of a session can end.
    - [Transfer], [TransferFacts] (core/transfer): chunking, hashing, partial
      files, receiver, sender and the transfer manager.
    - [RecoveryCode] (core/vault/recovery_code.py): the vault recovery code.
    - [Vault] (core/vault/crypto.py, keyfile.py): the data key wrapped under the
      passphrase and the recovery code, and its keyfile.
    - [IdentityStore] (core/identity/key_storage.py, identity_file.py, and the
      identity functions of discovery.py): where the key and its metadata are
      kept, first creation, loading, rotation, renaming.
    - [Peer] (peer.py): the connection table, and the read loop with the faults
      its turns may meet, on [Frame], [Messages] and [FileData].
    - [Chat] (chat.py): delivery tracking, as a step relation over the
      interleavings of sends (that succeed, fail or raise), acknowledgements and
      timeouts.
    - [FileSession], [FileSessionFacts] (file_transfer.py): the offer, chunk and
      completion handlers over [Transfer] and [FileSys].
    - [Discovery] (discovery.py): announcements, the peer registry, mDNS records
      and broadcast targets. [DiscoveryLoops]: the running service, its sockets,
      its announce, listen, prune and mDNS loops, as a machine driven by inputs.
    - [App] (ui.py): command parsing, the /connect target, nicknames, the choice
      of the clipboard tool. [ChatApp]: the application's state and handlers as
      coroutines over the registry, the connection manager and the sessions.
      [ChatLoop]: the file session's handlers in the application, the event bus,
      what the event loop starts, and the start. [ChatAppFacts]: the invariant
      over all interleavings. [ChatAppRuns], [ChatAppProps]: what a line, a
      rename and unauthenticated messages do. [ChatFileRuns], [ChatFileProps]:
      a file from one user's command to the other's disk. [Startup]: the start of
      the application from the stored identity. [Selection]: the highlighting of
      selected text in the log.

    ** Modelling

    A call that may raise returns [result]; an exception is its class. Stateful
    objects are records passed and returned; an operation that changes state and
    may then raise returns the result together with the state it leaves. Time,
    randomness, user callbacks, the peer's bytes and the host (free disk space,
    canonical paths) are arguments. A stream is the list of bytes still to be
    read: a read past its end is the peer closing the connection. Integers are
    unbounded as in Python; where the code packs them the width is explicit.
    Recursion that is not structural has fuel: [Json.parse_value] uses twice the
    input length ([JsonFacts.parse_fuel] shows it never runs out);
    [TrustStore.chain_loop] the number of stored transitions
    ([rotation_chain_exact]); [Transfer.read_loop] and [hash_loop] the file
    length; [Transfer.next_candidate] twice the number of existing names
    ([dest_path_confined]); [Peer.read_loop] one more than the input length, as
    every frame consumes input ([read_loop_sound]); [TextFile.makedirs] the path
    length, a path being longer than its parent. An asynchronous function is
    split at its awaits where other handlers can run in between ([..._begin] and
    [..._end]), or is a coroutine of [Tasks] that waits there. The endless loops
    of discovery.py are turns of a machine. The answers of the outside to the
    application (times, random ids, the host) are functions of the number of
    questions asked before, part of the class [ChatApp.Platform]; so are the
    markup library and the log widget's text.

    Failures of the outside are arguments too: the exception with which a read of
    the connection or a drain of its writer fails, a frame or datagram too deeply
    nested for the interpreter ([Peer.read_fault], [DiscoveryLoops.overflow_turn]), a file write the system refuses after part
    of it ([FileSys.fh_write_failed]), a socket that cannot be made or bound, what a
    request to the mDNS library gives or raises.

    ** What is shown

    - Wire: any sequence of frames is read back exactly; arbitrary bytes yield a
      bounded frame or a known exception; every message a factory produces is
      accepted by validation; the file_data codec is a bijection.
    - Security: two honest parties complete the handshake and agree; each side
      that completes has authenticated the other and bound it to the trust
      store's verdict; signed transcripts determine the messages; replayed
      nonces are refused; the channel delivers in order, never repeats a nonce
      and accepts only the next frame; sessions deliver end to end. Whatever the
      peer sends, establishing a session ends in a sound session, or with the
      connection closed and an exception of a known list of classes.
    - Trust: over any history keys are kept, status only advances, revocation is
      permanent, trust is granted only by approval or verified rotation; the
      rotation chain and the decision over it are characterised exactly.
    - Transfer: a whole or resumed file arrives intact; nothing unverified is
      ever published, whatever calls are made and whichever writes fail; remote
      names stay inside the downloads directory; the manager's limits are exceeded
      by overlapping offers only, and by no more than these.
    - Storage: either secret opens the vault, before and after a change of the
      passphrase; a crash never damages the keyfile; errors leave it alone; the
      device identity is stable over runs, and rotation takes effect; the device
      that starts is the one its peers know from the earlier runs.
    - Application: what a connection sends its peer's read loop delivers; the
      connection table holds only open connections; every chat message is
      resolved unless its send raised; a file session stays well formed whatever
      peers send. A typed line reaches the other user's screen and comes back
      acknowledged; a file sent with /send to a session that accepts it arrives
      intact on the other disk and the sending task ends in success (the dialog
      of the application itself never gets to answer:
      [ChatFileProps.app_leaves_offers_unanswered]); over any interleaving of
      suspended handlers the application's tables, title, announcements and
      timeouts agree; peers never switch the active conversation; a new nickname
      reaches the disk and the other devices; exactly the selected cells of a log
      line are highlighted. Chat and hello messages are taken
      at their word: [ChatAppProps.claimed_sender_redirects_peer].
    - Discovery: only self-consistent peers are ever registered, however the
      loops run; one announcement makes two devices know each other and the
      exchange ends; presence follows the announcements, by the code's own float
      timestamps; cancelling the service stops it, unless one of its loops failed;
      a resolved mDNS service is treated as a datagram.
    - Events: redaction, canonical payloads, handler selection, posting.
    - Departures of the code from its intent are theorems too: see the manifest.

    ** Not modelled

    Of ui.py, the layout, the style sheet and the rendering of widgets (library
    code), and the subprocesses of the clipboard. The
    process entry points and the manual test programs at the end of the modules
    are input/output. When a time limit runs out is an input. A file being sent is
    read as it is when it is opened. Flushing and closing a file, creating it and
    removing it fail only for the reasons visible in the file system's state. Of
    peer.py, the server socket; of discovery.py, the contents of log messages.
    The vault's encrypted database does not exist in the code yet. The package
    __init__ modules only re-export names. *)

From stdpp Require Import base gmap strings list list_numbers numbers option.
From Stdlib Require Import ZArith Lia Strings.Byte.

Open Scope Z_scope.

#[export] Set Warnings "-clear-no-such-hyp".

(** ** Python exceptions and the result of a fallible call

    An exception is represented by its class; the message text carried by an
    exception is never inspected by the program and is not kept. *)

Inductive exn : Type :=
  | ProtocolError
  | ValueError
  | TypeError
  | KeyError
  | AttributeError
  | JSONDecodeError
  | UnicodeDecodeError
  | UnicodeEncodeError
  | OverflowError
  | RecursionError
  | StructError
  | IncompleteReadError
  | ConnectionResetError
  | TimeoutError
  | OSError
  | FileNotFoundError
  | TransportError
  | ConnectTimeoutError
  | ConnectionClosedError
  | EncryptionError
  | DecryptionError
  | ReplayOrReorderError
  | SequenceExhaustedError
  | InvalidTag
  | InvalidSignature
  | KDFError
  | HandshakeTimeoutError
  | IdentityVerificationError
  | SignatureVerificationError
  | DeviceRevokedError
  | KeyChangedError
  | HandshakeProtocolError
  | RotationError
  | RevocationError
  | IdentityError
  | RecoveryCodeError
  | WrongSecretError
  | WeakPassphraseError
  | VaultExistsError
  | TransferSecurityError
  | InsufficientDiskSpaceError
  | ChunkValidationError
  | ConnectionLimitError
  | IntegrityError
  | KeyringError
  | ZeroDivisionError
  | IndexError
  | BrokenPipeError
  | RuntimeError
  | NoActiveWorker.

#[export] Instance exn_eq_dec : EqDecision exn.
Proof. solve_decision. Defined.

(** [OSError] and its subclasses. *)
Definition is_oserror (e : exn) : bool :=
  match e with
  | OSError | FileNotFoundError | ConnectionResetError | BrokenPipeError | TimeoutError => true
  | _ => false
  end.

Inductive result (A : Type) : Type :=
  | Ok (a : A)
  | Err (e : exn).
Arguments Ok {A} a.
Arguments Err {A} e.

#[export] Instance result_eq_dec {A} `{EqDecision A} : EqDecision (result A).
Proof. solve_decision. Defined.

Definition rbind {A B} (r : result A) (f : A -> result B) : result B :=
  match r with
  | Ok a => f a
  | Err e => Err e
  end.

Definition is_ok {A} (r : result A) : bool :=
  match r with
  | Ok _ => true
  | Err _ => false
  end.

(** [try r except cls: handler]: [h] is the partial handler of the except
    clauses; an exception it does not name propagates. *)
Definition rcatch {A} (r : result A) (h : exn -> option (result A)) : result A :=
  match r with
  | Ok a => Ok a
  | Err e => match h e with
             | Some r' => r'
             | None => Err e
             end
  end.

Declare Scope peerc_scope.
Delimit Scope peerc_scope with peerc.
Open Scope peerc_scope.

Notation "'let*' x ':=' r 'in' k" := (rbind r (fun x => k))
  (at level 10, x pattern, r at level 100, k at level 200) : peerc_scope.
Notation "'guard' c 'else' e ';;' k" := (if c then k else Err e)
  (at level 10, c at level 100, e at level 9, k at level 200) : peerc_scope.

Lemma rbind_ok {A B} (r : result A) (f : A -> result B) b :
  rbind r f = Ok b -> exists a, r = Ok a /\ f a = Ok b.
Proof. destruct r; simpl; [eauto | discriminate]. Qed.

Lemma Ok_inj {A} (a b : A) : Ok a = Ok b -> a = b.
Proof. by intros [=]. Qed.

Lemma rbind_assoc {A B C} (r : result A) (f : A -> result B) (g : B -> result C) :
  rbind (rbind r f) g = rbind r (fun a => rbind (f a) g).
Proof. by destruct r. Qed.

(** Case analysis on the first [if]/[match] scrutinee of a hypothesis or goal. *)
Ltac case_in H :=
  match type of H with
  | context [match ?x with _ => _ end] => let Heq := fresh "E" in destruct x eqn:Heq
  end.
Ltac case_goal :=
  match goal with
  | |- context [match ?x with _ => _ end] => let Heq := fresh "E" in destruct x eqn:Heq
  end.
(** Inverts a successful chain of binds and guards. *)
Ltac inv_ok :=
  repeat match goal with
  | H : rbind _ _ = Ok _ |- _ => apply rbind_ok in H as (? & ? & ?)
  | H : Ok _ = Ok _ |- _ => injection H as H; try subst
  | H : Err _ = Ok _ |- _ => discriminate H
  | H : Ok _ = Err _ |- _ => discriminate H
  end.
Ltac zbool :=
  repeat match goal with
  | H : (_ && _)%bool = true |- _ => apply andb_prop in H; destruct H
  | H : (_ || _)%bool = false |- _ => apply orb_false_elim in H; destruct H
  | H : negb _ = true |- _ => apply negb_true_iff in H
  | H : negb _ = false |- _ => apply negb_false_iff in H
  | H : (_ =? _)%Z = true |- _ => apply Z.eqb_eq in H
  | H : (_ =? _)%Z = false |- _ => apply Z.eqb_neq in H
  | H : (_ <? _)%Z = true |- _ => apply Z.ltb_lt in H
  | H : (_ <? _)%Z = false |- _ => apply Z.ltb_ge in H
  | H : (_ <=? _)%Z = true |- _ => apply Z.leb_le in H
  | H : (_ <=? _)%Z = false |- _ => apply Z.leb_gt in H
  | H : bool_decide _ = true |- _ => apply bool_decide_eq_true in H
  | H : bool_decide _ = false |- _ => apply bool_decide_eq_false in H
  end.

(** Case analysis on every integer comparison of the goal. *)
Ltac zcases :=
  repeat match goal with
  | |- context [?a <? ?b] => destruct (Z.ltb_spec a b)
  | |- context [?a <=? ?b] => destruct (Z.leb_spec a b)
  | |- context [?a =? ?b] => destruct (Z.eqb_spec a b)
  end; cbn [andb orb negb].

(** ** Bytes *)

Abbreviation byte := Byte.byte.
Abbreviation bytes := (list Byte.byte).

#[export] Instance byte_eq_dec : EqDecision byte := Byte.byte_eq_dec.

Definition b2z (b : byte) : Z := Z.of_N (Byte.to_N b).
Definition z2b (z : Z) : byte :=
  match Byte.of_N (Z.to_N (z mod 256)) with
  | Some b => b
  | None => x00
  end.

Lemma b2z_range b : 0 <= b2z b < 256.
Proof. unfold b2z. pose proof (Byte.to_N_bounded b). lia. Qed.

Lemma z2b_b2z b : z2b (b2z b) = b.
Proof.
  unfold z2b. rewrite Z.mod_small by apply b2z_range.
  unfold b2z. by rewrite N2Z.id, Byte.of_to_N.
Qed.

Lemma b2z_z2b z : b2z (z2b z) = z mod 256.
Proof.
  unfold z2b. pose proof (Z.mod_pos_bound z 256 ltac:(lia)).
  destruct (Byte.of_N _) as [b|] eqn:E.
  - apply Byte.to_of_N in E. unfold b2z. rewrite E. lia.
  - apply Byte.of_N_None_iff in E. lia.
Qed.

Lemma b2z_inj a b : b2z a = b2z b -> a = b.
Proof. intros H. by rewrite <- (z2b_b2z a), H, z2b_b2z. Qed.

#[export] Instance byte_countable : Countable byte := inj_countable' b2z z2b z2b_b2z.

(** *** Big-endian unsigned integers

    [be_encode n z] is [int.to_bytes(n, "big")] of a value in range (and
    [struct.pack] with ">I", ">Q"); [be_decode] is [int.from_bytes]. *)

Fixpoint be_decode_acc (acc : Z) (bs : bytes) : Z :=
  match bs with
  | [] => acc
  | b :: bs => be_decode_acc (acc * 256 + b2z b) bs
  end.
Definition be_decode (bs : bytes) : Z := be_decode_acc 0 bs.

Fixpoint be_encode (n : nat) (z : Z) : bytes :=
  match n with
  | O => []
  | S n => be_encode n (z / 256) ++ [z2b z]
  end.

Lemma be_encode_length n z : length (be_encode n z) = n.
Proof.
  revert z; induction n as [|n IH]; intros z; simpl; [done|].
  rewrite length_app, IH. simpl. lia.
Qed.

Lemma be_decode_acc_app acc xs ys :
  be_decode_acc acc (xs ++ ys) = be_decode_acc (be_decode_acc acc xs) ys.
Proof. revert acc; induction xs; intros acc; simpl; auto. Qed.

Lemma be_decode_acc_shift acc xs :
  be_decode_acc acc xs = acc * 256 ^ Z.of_nat (length xs) + be_decode xs.
Proof.
  unfold be_decode. revert acc. induction xs as [|x xs IH]; intros acc; simpl length.
  - simpl. lia.
  - rewrite Nat2Z.inj_succ, Z.pow_succ_r by lia. cbn [be_decode_acc].
    rewrite (IH (acc * 256 + b2z x)), (IH (0 * 256 + b2z x)). lia.
Qed.

Lemma be_decode_snoc xs x : be_decode (xs ++ [x]) = be_decode xs * 256 + b2z x.
Proof. unfold be_decode. by rewrite be_decode_acc_app. Qed.

Lemma be_decode_app xs ys :
  be_decode (xs ++ ys) = be_decode xs * 256 ^ Z.of_nat (length ys) + be_decode ys.
Proof. unfold be_decode at 1. by rewrite be_decode_acc_app, be_decode_acc_shift. Qed.

Lemma be_decode_range xs : 0 <= be_decode xs < 256 ^ Z.of_nat (length xs).
Proof.
  induction xs as [|x xs IH] using rev_ind; [done|].
  rewrite be_decode_snoc, length_app. simpl length.
  replace (Z.of_nat (length xs + 1)) with (Z.succ (Z.of_nat (length xs))) by lia.
  rewrite Z.pow_succ_r by lia. pose proof (b2z_range x). nia.
Qed.

Lemma be_decode_encode n z : be_decode (be_encode n z) = z mod 256 ^ Z.of_nat n.
Proof.
  revert z; induction n as [|n IH]; intros z.
  - by rewrite Z.mod_1_r.
  - cbn [be_encode]. rewrite be_decode_snoc, IH, b2z_z2b, Nat2Z.inj_succ, Z.pow_succ_r by lia.
    rewrite (Z.rem_mul_r z 256) by lia. lia.
Qed.

Lemma be_decode_encode_small n z :
  0 <= z < 256 ^ Z.of_nat n -> be_decode (be_encode n z) = z.
Proof. intros H. by rewrite be_decode_encode, Z.mod_small. Qed.

Lemma be_encode_decode xs : be_encode (length xs) (be_decode xs) = xs.
Proof.
  induction xs as [|x xs IH] using rev_ind; [done|].
  rewrite length_app. simpl length. rewrite Nat.add_1_r. cbn [be_encode].
  rewrite be_decode_snoc. pose proof (b2z_range x).
  replace ((be_decode xs * 256 + b2z x) / 256) with (be_decode xs)
    by (rewrite Z.div_add_l, (Z.div_small (b2z x)) by lia; lia).
  rewrite IH. f_equal. f_equal. apply b2z_inj. rewrite b2z_z2b.
  rewrite Z.add_comm, Z_mod_plus_full. apply Z.mod_small. lia.
Qed.

Lemma be_encode_decode_n n xs : length xs = n -> be_encode n (be_decode xs) = xs.
Proof. intros <-. apply be_encode_decode. Qed.

Lemma be_encode_inj n a b :
  0 <= a < 256 ^ Z.of_nat n -> 0 <= b < 256 ^ Z.of_nat n ->
  be_encode n a = be_encode n b -> a = b.
Proof. intros Ha Hb H. by rewrite <- (be_decode_encode_small n a), H, be_decode_encode_small. Qed.

(** Byte slicing: [bs[:n]] and [bs[n:]] for a non-negative [n]. *)

Lemma take_app_exact {A} (xs ys : list A) n : length xs = n -> take n (xs ++ ys) = xs.
Proof. intros <-. by rewrite take_app_length. Qed.

Lemma drop_app_exact {A} (xs ys : list A) n : length xs = n -> drop n (xs ++ ys) = ys.
Proof. intros <-. by rewrite drop_app_length. Qed.

Definition zlen {A} (xs : list A) : Z := Z.of_nat (length xs).

Lemma zlen_nonneg {A} (xs : list A) : 0 <= zlen xs.
Proof. unfold zlen. lia. Qed.
Lemma zlen_app {A} (xs ys : list A) : zlen (xs ++ ys) = zlen xs + zlen ys.
Proof. unfold zlen. rewrite length_app. lia. Qed.
Lemma zlen_nil {A} : zlen (@nil A) = 0.
Proof. done. Qed.
Lemma zlen_cons {A} (x : A) xs : zlen (x :: xs) = 1 + zlen xs.
Proof. unfold zlen. cbn [length]. lia. Qed.

Create HintDb peerc.
Create Rewrite HintDb peerc.
#[export] Hint Resolve zlen_nonneg b2z_range be_decode_range : peerc.
#[export] Hint Rewrite @zlen_app @zlen_nil @zlen_cons be_encode_length @length_app @length_take
  @length_drop : peerc.
