(* ===== verification/PyStr.v ===== *)
(** * Python strings

    A Python [str] is the list of its code points (surrogates included, as in
    CPython). This file models what the program uses of the [str] and [bytes]
    types: literals, UTF-8, decimal integers, hexadecimal, case mapping and
    stripping. *)

From stdpp Require Import base gmap strings list numbers option.
From Stdlib Require Import ZArith Lia Strings.Byte.
From Stdlib Require Ascii String.
From S2P Require Import Prelude.
Open Scope Z_scope.
Open Scope peerc_scope.

Abbreviation pystr := (list Z).

(** [py "text"] is the [str] literal, [pyb "text"] the [bytes] literal. *)
Definition py (s : string) : pystr :=
  map (fun a => Z.of_N (Ascii.N_of_ascii a)) (String.list_ascii_of_string s).
Definition pyb (s : string) : bytes := map z2b (py s).
Arguments py : simpl never.
Arguments pyb : simpl never.

Definition streq (a b : pystr) : bool := bool_decide (a = b).

Lemma streq_spec a b : streq a b = true <-> a = b.
Proof. unfold streq. apply bool_decide_eq_true. Qed.

(** ** ASCII *)

Definition is_ascii (c : Z) : bool := (0 <=? c) && (c <? 128).
Definition printable (c : Z) : bool := (32 <=? c) && (c <? 127).
Definition is_digit (c : Z) : bool := (48 <=? c) && (c <=? 57).
Definition ascii_str (s : pystr) : Prop := Forall (fun c => is_ascii c = true) s.
Definition printable_str (s : pystr) : Prop := Forall (fun c => printable c = true) s.

Lemma printable_ascii s : printable_str s -> ascii_str s.
Proof.
  apply Forall_impl. unfold printable, is_ascii. intros c H. zbool.
  apply andb_true_iff. split; [apply Z.leb_le | apply Z.ltb_lt]; lia.
Qed.

(** [b.decode("ascii")] of ASCII bytes, [s.encode("ascii")]. *)
Definition ascii_decode (bs : bytes) : pystr := map b2z bs.
Definition ascii_encode (s : pystr) : result bytes :=
  if forallb is_ascii s then Ok (map z2b s) else Err UnicodeEncodeError.

Lemma ascii_encode_ok s : ascii_str s -> ascii_encode s = Ok (map z2b s).
Proof.
  intros H. unfold ascii_encode.
  rewrite (proj2 (forallb_forall _ _)); [done|]. by apply List.Forall_forall.
Qed.

Lemma ascii_decode_encode s : ascii_str s -> ascii_decode (map z2b s) = s.
Proof.
  unfold ascii_decode. induction 1 as [|c s Hc _ IH]; simpl; [done|].
  unfold is_ascii in Hc. zbool. by rewrite b2z_z2b, Z.mod_small, IH by lia.
Qed.

Lemma map_z2b_inj s t : ascii_str s -> ascii_str t -> map z2b s = map z2b t -> s = t.
Proof. intros Hs Ht E. by rewrite <- (ascii_decode_encode s), E, ascii_decode_encode. Qed.

(** ** UTF-8 *)

Definition is_surrogate (c : Z) : bool := (0xD800 <=? c) && (c <? 0xE000).

Definition utf8_cp (c : Z) : bytes :=
  if c <? 0x80 then [z2b c]
  else if c <? 0x800 then [z2b (0xC0 + c / 64); z2b (0x80 + c mod 64)]
  else if c <? 0x10000 then
    [z2b (0xE0 + c / 4096); z2b (0x80 + c / 64 mod 64); z2b (0x80 + c mod 64)]
  else
    [z2b (0xF0 + c / 262144); z2b (0x80 + c / 4096 mod 64);
     z2b (0x80 + c / 64 mod 64); z2b (0x80 + c mod 64)].

(** [s.encode("utf-8")]: a surrogate has no UTF-8 form. *)
Definition utf8_encode (s : pystr) : result bytes :=
  if forallb (fun c => negb (is_surrogate c)) s then Ok (flat_map utf8_cp s)
  else Err UnicodeEncodeError.

(** [s.encode("utf-8", errors="replace")]: a surrogate becomes one [?]. *)
Definition utf8_encode_replace (s : pystr) : bytes :=
  flat_map (fun c => if is_surrogate c then utf8_cp 63 else utf8_cp c) s.

Definition is_cont (b : byte) : bool := (0x80 <=? b2z b) && (b2z b <? 0xC0).

(** [b.decode("utf-8")]: rejects overlong forms, surrogates and values above
    U+10FFFF. *)
Fixpoint utf8_decode_opt (bs : bytes) : option pystr :=
  match bs with
  | [] => Some []
  | b0 :: r0 =>
      let z := b2z b0 in
      if z <? 0x80 then cons z <$> utf8_decode_opt r0
      else if (0xC2 <=? z) && (z <=? 0xDF) then
        match r0 with
        | b1 :: r1 =>
            if is_cont b1
            then cons ((z - 0xC0) * 64 + (b2z b1 - 0x80)) <$> utf8_decode_opt r1
            else None
        | _ => None
        end
      else if (0xE0 <=? z) && (z <=? 0xEF) then
        match r0 with
        | b1 :: b2 :: r2 =>
            let c := (z - 0xE0) * 4096 + (b2z b1 - 0x80) * 64 + (b2z b2 - 0x80) in
            if is_cont b1 && is_cont b2 && (0x800 <=? c) && negb (is_surrogate c)
            then cons c <$> utf8_decode_opt r2
            else None
        | _ => None
        end
      else if (0xF0 <=? z) && (z <=? 0xF4) then
        match r0 with
        | b1 :: b2 :: b3 :: r3 =>
            let c := (z - 0xF0) * 262144 + (b2z b1 - 0x80) * 4096
                     + (b2z b2 - 0x80) * 64 + (b2z b3 - 0x80) in
            if is_cont b1 && is_cont b2 && is_cont b3 && (0x10000 <=? c) && (c <=? 0x10FFFF)
            then cons c <$> utf8_decode_opt r3
            else None
        | _ => None
        end
      else None
  end.

Definition utf8_decode (bs : bytes) : result pystr :=
  match utf8_decode_opt bs with
  | Some s => Ok s
  | None => Err UnicodeDecodeError
  end.

Lemma ascii_not_surrogate c : is_ascii c = true -> is_surrogate c = false.
Proof.
  unfold is_ascii, is_surrogate. intros H. zbool.
  apply andb_false_iff. left. apply Z.leb_gt. lia.
Qed.

Lemma utf8_encode_ascii s : ascii_str s -> utf8_encode s = Ok (map z2b s).
Proof.
  intros H. unfold utf8_encode.
  assert (forallb (fun c => negb (is_surrogate c)) s = true) as ->.
  { induction H as [|c s Hc _ IH]; simpl; [done|]. by rewrite ascii_not_surrogate. }
  f_equal. induction H as [|c s Hc _ IH]; simpl; [done|]. rewrite IH.
  unfold utf8_cp. unfold is_ascii in Hc. zbool.
  rewrite (proj2 (Z.ltb_lt c 0x80)) by lia. done.
Qed.

Lemma utf8_decode_ascii s : ascii_str s -> utf8_decode (map z2b s) = Ok s.
Proof.
  intros H. unfold utf8_decode.
  assert (utf8_decode_opt (map z2b s) = Some s) as ->; [|done].
  induction H as [|c s Hc _ IH]; simpl; [done|].
  unfold is_ascii in Hc. zbool.
  rewrite b2z_z2b, Z.mod_small by lia.
  rewrite (proj2 (Z.ltb_lt c 0x80)) by lia. by rewrite IH.
Qed.

(** *** The round trip on all scalar values *)

Definition cp_ok (c : Z) : bool := (0 <=? c) && (c <=? 0x10FFFF) && negb (is_surrogate c).

Lemma b2z_z2b_small z : 0 <= z < 256 -> b2z (z2b z) = z.
Proof. intros H. by rewrite b2z_z2b, Z.mod_small. Qed.

Lemma is_cont_tail z : 0 <= z < 64 -> is_cont (z2b (0x80 + z)) = true.
Proof. intros H. unfold is_cont. rewrite b2z_z2b_small by lia. apply andb_true_iff. split; lia. Qed.

Lemma base64_digits c :
  0 <= c -> c = c / 64 * 64 + c mod 64 /\ c / 64 = c / 4096 * 64 + c / 64 mod 64
  /\ c / 4096 = c / 262144 * 64 + c / 4096 mod 64
  /\ 0 <= c mod 64 < 64 /\ 0 <= c / 64 mod 64 < 64 /\ 0 <= c / 4096 mod 64 < 64.
Proof.
  intros Hc. change 262144 with (4096 * 64). change 4096 with (64 * 64) at 1 3.
  rewrite <- !Z.div_div by lia. change 4096 with (64 * 64). rewrite <- !Z.div_div by lia.
  pose proof (Z.div_mod c 64 ltac:(lia)). pose proof (Z.div_mod (c / 64) 64 ltac:(lia)).
  pose proof (Z.div_mod (c / 64 / 64) 64 ltac:(lia)).
  repeat split; try (apply Z.mod_pos_bound; lia); lia.
Qed.

Lemma utf8_decode_cp c rest :
  cp_ok c = true -> utf8_decode_opt (utf8_cp c ++ rest) = cons c <$> utf8_decode_opt rest.
Proof.
  unfold cp_ok. intros H. zbool.
  destruct (base64_digits c ltac:(lia)) as (E1 & E2 & E3 & B1 & B2 & B3).
  unfold utf8_cp. destruct (Z.ltb_spec c 0x80); [|destruct (Z.ltb_spec c 0x800);
    [|destruct (Z.ltb_spec c 0x10000)]]; cbn [app utf8_decode_opt];
    rewrite ?is_cont_tail by lia; cbn [andb]; rewrite !b2z_z2b_small by lia.
  - by rewrite (proj2 (Z.ltb_lt c 0x80)).
  - set (z := 0xC0 + c / 64).
    rewrite (proj2 (Z.ltb_ge z 0x80)), (proj2 (Z.leb_le 0xC2 z)), (proj2 (Z.leb_le z 0xDF)) by lia.
    cbn [andb]. unfold z. by replace ((0xC0 + c / 64 - 0xC0) * 64 + (0x80 + c mod 64 - 0x80)) with c by lia.
  - set (z := 0xE0 + c / 4096).
    rewrite (proj2 (Z.ltb_ge z 0x80)), (proj2 (Z.leb_gt z 0xDF)), (proj2 (Z.leb_le 0xE0 z)),
      (proj2 (Z.leb_le z 0xEF)) by lia. rewrite andb_false_r. cbn [andb]. unfold z.
    replace ((0xE0 + c / 4096 - 0xE0) * 4096 + (0x80 + c / 64 mod 64 - 0x80) * 64 + (0x80 + c mod 64 - 0x80))
      with c by lia.
    rewrite (proj2 (Z.leb_le 0x800 c)), H0 by lia. done.
  - set (z := 0xF0 + c / 262144).
    rewrite (proj2 (Z.ltb_ge z 0x80)), (proj2 (Z.leb_gt z 0xDF)), (proj2 (Z.leb_gt z 0xEF)),
      (proj2 (Z.leb_le 0xF0 z)), (proj2 (Z.leb_le z 0xF4)) by lia. rewrite !andb_false_r. cbn [andb]. unfold z.
    replace ((0xF0 + c / 262144 - 0xF0) * 262144 + (0x80 + c / 4096 mod 64 - 0x80) * 4096
      + (0x80 + c / 64 mod 64 - 0x80) * 64 + (0x80 + c mod 64 - 0x80)) with c by lia.
    rewrite (proj2 (Z.leb_le 0x10000 c)), (proj2 (Z.leb_le c 0x10FFFF)) by lia. done.
Qed.

(** Printable text has no surrogates. *)
Lemma printable_cps s : printable_str s -> forallb cp_ok s = true.
Proof.
  intros H. apply forallb_forall. intros c Hc. unfold printable_str in H. rewrite List.Forall_forall in H. specialize (H c Hc).
  unfold printable in H. unfold cp_ok, is_surrogate. zbool. lia.
Qed.

Lemma utf8_encode_cps s : forallb cp_ok s = true -> utf8_encode s = Ok (flat_map utf8_cp s).
Proof.
  intros H. unfold utf8_encode. replace (forallb _ s) with true; [done|].
  symmetry. rewrite forallb_forall in *. intros c Hc. apply H in Hc. unfold cp_ok in Hc. zbool. by apply negb_true_iff.
Qed.

Lemma utf8_decode_encode s bs : forallb cp_ok s = true -> utf8_encode s = Ok bs -> utf8_decode bs = Ok s.
Proof.
  intros H E. rewrite utf8_encode_cps in E by done. injection E as <-. unfold utf8_decode.
  assert (utf8_decode_opt (flat_map utf8_cp s) = Some s) as ->; [|done].
  induction s as [|c s IH]; [done|]. cbn [forallb flat_map] in *. zbool.
  rewrite utf8_decode_cp by done. by rewrite IH.
Qed.

Lemma utf8_encode_inj s t bs :
  forallb cp_ok s = true -> forallb cp_ok t = true -> utf8_encode s = Ok bs -> utf8_encode t = Ok bs -> s = t.
Proof.
  intros Hs Ht Es Et. apply utf8_decode_encode in Es; [|done]. apply utf8_decode_encode in Et; [|done]. congruence.
Qed.

(** No byte of an encoded character other than U+0000 is NUL. *)
Lemma utf8_nul_free s bs :
  forallb cp_ok s = true -> forallb (fun c => negb (c =? 0)) s = true -> utf8_encode s = Ok bs -> x00 ∉ bs.
Proof.
  intros H Hz E. rewrite utf8_encode_cps in E by done. injection E as <-. rewrite list_elem_of_In, in_flat_map.
  intros (c & Hc & Hin). rewrite forallb_forall in H, Hz. specialize (H c Hc). specialize (Hz c Hc).
  unfold cp_ok in H. zbool. destruct (base64_digits c ltac:(lia)) as (E1 & E2 & E3 & B1 & B2 & B3).
  assert (forall z, 0 < z < 256 -> z2b z <> x00) as Hnz.
  { intros z Hb E. apply (f_equal b2z) in E. rewrite b2z_z2b_small in E by lia. change (b2z x00) with 0 in E. lia. }
  unfold utf8_cp in Hin. repeat case_in Hin; zbool; cbn [In] in Hin;
    repeat destruct Hin as [Hin|Hin]; try done; revert Hin; apply Hnz; lia.
Qed.

(** ** Decimal integers *)

Fixpoint dec_digits (fuel : nat) (n : Z) : pystr :=
  match fuel with
  | O => [48 + n mod 10]
  | S fuel => if n <? 10 then [48 + n] else dec_digits fuel (n / 10) ++ [48 + n mod 10]
  end.

(** [str(n)] *)
Definition str_of_nonneg (n : Z) : pystr := dec_digits (Z.to_nat (Z.log2 n)) n.
Definition str_of_int (n : Z) : pystr :=
  if n <? 0 then 45 :: str_of_nonneg (- n) else str_of_nonneg n.

(** The value of a run of decimal digits. *)
Definition dec_value (ds : pystr) : Z := fold_left (fun acc d => acc * 10 + (d - 48)) ds 0.

Lemma dec_value_snoc ds d : dec_value (ds ++ [d]) = dec_value ds * 10 + (d - 48).
Proof. unfold dec_value. by rewrite fold_left_app. Qed.

Lemma dec_digits_spec fuel n :
  0 <= n < 10 * 2 ^ Z.of_nat fuel ->
  dec_value (dec_digits fuel n) = n /\
  Forall (fun c => is_digit c = true) (dec_digits fuel n) /\
  dec_digits fuel n <> [] /\
  (0 < n -> head (dec_digits fuel n) <> Some 48).
Proof.
  assert (Hdig : forall k, 0 <= k < 10 -> is_digit (48 + k) = true).
  { intros k Hk. unfold is_digit. apply andb_true_iff; split; apply Z.leb_le; lia. }
  revert n; induction fuel as [|fuel IH]; intros n Hn.
  - cbn [dec_digits]. rewrite Z.mod_small by lia. split; [|split; [|split]].
    + unfold dec_value. cbn [fold_left]. lia.
    + constructor; [apply Hdig; lia | constructor].
    + done.
    + intros H [= E]. lia.
  - cbn [dec_digits]. destruct (n <? 10) eqn:E; zbool.
    + split; [|split; [|split]].
      * unfold dec_value. cbn [fold_left]. lia.
      * constructor; [apply Hdig; lia | constructor].
      * done.
      * intros H [= E']. lia.
    + rewrite Nat2Z.inj_succ, Z.pow_succ_r in Hn by lia.
      destruct (IH (n / 10)) as (Hv & Hd & Hne & Hh).
      { split; [apply Z.div_pos; lia|]. apply Z.div_lt_upper_bound; lia. }
      pose proof (Z.mod_pos_bound n 10 ltac:(lia)). split; [|split; [|split]].
      * rewrite dec_value_snoc, Hv. pose proof (Z.div_mod n 10 ltac:(lia)). lia.
      * apply Forall_app. split; [done|]. constructor; [by apply Hdig | constructor].
      * by destruct (dec_digits fuel (n / 10)).
      * intros _. destruct (dec_digits fuel (n / 10)) eqn:Ed; [done|]. simpl. apply Hh.
        apply Z.div_str_pos. lia.
Qed.

Lemma str_of_nonneg_spec n :
  0 <= n ->
  dec_value (str_of_nonneg n) = n /\
  Forall (fun c => is_digit c = true) (str_of_nonneg n) /\
  str_of_nonneg n <> [] /\
  (0 < n -> head (str_of_nonneg n) <> Some 48).
Proof.
  intros Hn. apply dec_digits_spec. split; [done|].
  destruct (decide (n = 0)) as [->|]; [done|].
  pose proof (Z.log2_spec n ltac:(lia)) as [_ H]. pose proof (Z.log2_nonneg n).
  rewrite Z2Nat.id by lia. rewrite Z.pow_succ_r in H by lia. lia.
Qed.

Lemma dec_digits_length fuel n : (length (dec_digits fuel n) <= S fuel)%nat.
Proof.
  revert n; induction fuel as [|fuel IH]; intros n; cbn [dec_digits]; [done|].
  destruct (n <? 10); [cbn; lia|]. rewrite length_app. specialize (IH (n / 10)). cbn [length]. lia.
Qed.

Lemma str_of_nonneg_length n : 0 <= n -> zlen (str_of_nonneg n) <= Z.log2 n + 1.
Proof.
  intros Hn. unfold zlen, str_of_nonneg. pose proof (dec_digits_length (Z.to_nat (Z.log2 n)) n).
  pose proof (Z.log2_nonneg n). lia.
Qed.

Lemma str_of_nonneg_0 : str_of_nonneg 0 = [48].
Proof. done. Qed.

Lemma str_of_nonneg_inj a b : 0 <= a -> 0 <= b -> str_of_nonneg a = str_of_nonneg b -> a = b.
Proof.
  intros Ha Hb E. destruct (str_of_nonneg_spec a Ha) as [<- _].
  destruct (str_of_nonneg_spec b Hb) as [<- _]. by rewrite E.
Qed.

(** ** Hexadecimal *)

Definition hexdigit (n : Z) : Z := if n <? 10 then 48 + n else 87 + n.

(** The value of a hexadecimal digit, upper or lower case. *)
Definition unhex (c : Z) : option Z :=
  if (48 <=? c) && (c <=? 57) then Some (c - 48)
  else if (97 <=? c) && (c <=? 102) then Some (c - 87)
  else if (65 <=? c) && (c <=? 70) then Some (c - 55)
  else None.

(** [bs.hex()] *)
Definition hex_of_bytes (bs : bytes) : pystr :=
  flat_map (fun b => [hexdigit (b2z b / 16); hexdigit (b2z b mod 16)]) bs.

Definition ascii_space (c : Z) : bool := (c =? 32) || ((9 <=? c) && (c <=? 13)).

(** [bytes.fromhex(s)]: ASCII whitespace is skipped between two bytes, never
    inside one. *)
Fixpoint fromhex_opt (s : pystr) : option bytes :=
  match s with
  | [] => Some []
  | c :: r =>
      if ascii_space c then fromhex_opt r
      else match r with
           | d :: r' =>
               match unhex c, unhex d with
               | Some h, Some l => cons (z2b (16 * h + l)) <$> fromhex_opt r'
               | _, _ => None
               end
           | [] => None
           end
  end.
Definition fromhex (s : pystr) : result bytes :=
  match fromhex_opt s with
  | Some bs => Ok bs
  | None => Err ValueError
  end.

Lemma unhex_hexdigit n : 0 <= n < 16 -> unhex (hexdigit n) = Some n.
Proof.
  intros H. assert (forallb (fun n => bool_decide (unhex (hexdigit n) = Some n)) (seqZ 0 16) = true) as Hall by done.
  rewrite forallb_forall in Hall. apply (bool_decide_unpack _), Is_true_true, Hall, list_elem_of_In, elem_of_seqZ. lia.
Qed.

Lemma hexdigit_range n : 0 <= n < 16 -> 48 <= hexdigit n <= 102.
Proof. intros H. unfold hexdigit. destruct (n <? 10) eqn:E; zbool; lia. Qed.

Lemma hexdigit_not_space n : 0 <= n < 16 -> ascii_space (hexdigit n) = false.
Proof.
  intros H. pose proof (hexdigit_range n H). unfold ascii_space.
  apply orb_false_iff. split; [apply Z.eqb_neq; lia|].
  apply andb_false_iff. right. apply Z.leb_gt. lia.
Qed.

Lemma fromhex_hex bs : fromhex (hex_of_bytes bs) = Ok bs.
Proof.
  unfold fromhex. assert (fromhex_opt (hex_of_bytes bs) = Some bs) as ->; [|done].
  induction bs as [|b bs IH]; [done|]. cbn [hex_of_bytes flat_map app fromhex_opt].
  pose proof (b2z_range b). pose proof (Z.mod_pos_bound (b2z b) 16 ltac:(lia)).
  assert (0 <= b2z b / 16 < 16) by (split; [apply Z.div_pos | apply Z.div_lt_upper_bound]; lia).
  rewrite hexdigit_not_space, !unhex_hexdigit by lia.
  fold (hex_of_bytes bs). rewrite IH. simpl. do 2 f_equal.
  rewrite <- Z.div_mod by lia. apply z2b_b2z.
Qed.

Lemma hex_of_bytes_length bs : length (hex_of_bytes bs) = (2 * length bs)%nat.
Proof. induction bs; simpl; lia. Qed.

Lemma hex_of_bytes_inj a b : hex_of_bytes a = hex_of_bytes b -> a = b.
Proof. intros E. pose proof (fromhex_hex a) as H. rewrite E, fromhex_hex in H. by injection H. Qed.

Lemma hex_of_bytes_printable bs : printable_str (hex_of_bytes bs).
Proof.
  induction bs as [|b bs IH]; [constructor|]. cbn [hex_of_bytes flat_map app].
  pose proof (b2z_range b). pose proof (Z.mod_pos_bound (b2z b) 16 ltac:(lia)).
  assert (0 <= b2z b / 16 < 16) by (split; [apply Z.div_pos | apply Z.div_lt_upper_bound]; lia).
  assert (forall n, 0 <= n < 16 -> printable (hexdigit n) = true) as Hp.
  { intros n Hn. pose proof (hexdigit_range n Hn). unfold printable.
    apply andb_true_iff; split; [apply Z.leb_le | apply Z.ltb_lt]; lia. }
  constructor; [by apply Hp|]. constructor; [by apply Hp|]. apply IH.
Qed.

(** ** Case mapping, stripping and substitution *)

(** [s.lower()]. Exact on ASCII and on the two non-ASCII code points whose
    lower case contains an ASCII letter (U+212A and U+0130); every other cased
    code point maps to non-ASCII code points, left here as it is: the program
    only searches the result for ASCII text. *)
Definition lower_cp (c : Z) : pystr :=
  if (65 <=? c) && (c <=? 90) then [c + 32]
  else if c =? 0x212A then [107]
  else if c =? 0x130 then [105; 0x307]
  else [c].
Definition lower (s : pystr) : pystr := flat_map lower_cp s.

(** [s.upper()]. Exact on ASCII and on the code points whose upper case is
    entirely ASCII; the others keep at least one non-ASCII code point. *)
Definition upper_cp (c : Z) : pystr :=
  if (97 <=? c) && (c <=? 122) then [c - 32]
  else if c =? 0xDF then py "SS"
  else if c =? 0x131 then py "I"
  else if c =? 0x17F then py "S"
  else if c =? 0xFB00 then py "FF"
  else if c =? 0xFB01 then py "FI"
  else if c =? 0xFB02 then py "FL"
  else if c =? 0xFB03 then py "FFI"
  else if c =? 0xFB04 then py "FFL"
  else if (c =? 0xFB05) || (c =? 0xFB06) then py "ST"
  else [c].
Definition upper (s : pystr) : pystr := flat_map upper_cp s.

(** The code points [str.isspace] holds of, stripped by [s.strip()]. *)
Definition is_space (c : Z) : bool :=
  ((9 <=? c) && (c <=? 13)) || ((28 <=? c) && (c <=? 32)) || (c =? 0x85) || (c =? 0xA0)
  || (c =? 0x1680) || ((0x2000 <=? c) && (c <=? 0x200A)) || (c =? 0x2028) || (c =? 0x2029)
  || (c =? 0x202F) || (c =? 0x205F) || (c =? 0x3000).

Fixpoint lstrip_by (p : Z -> bool) (s : pystr) : pystr :=
  match s with
  | c :: r => if p c then lstrip_by p r else s
  | [] => []
  end.
Definition strip_by (p : Z -> bool) (s : pystr) : pystr :=
  rev (lstrip_by p (rev (lstrip_by p s))).
Definition strip (s : pystr) : pystr := strip_by is_space s.

(** [s.replace(c, "")] and [s.replace(c, d)] for one-character arguments. *)
Definition remove_char (c : Z) (s : pystr) : pystr := List.filter (fun x => negb (x =? c)) s.
Definition replace_char (c d : Z) (s : pystr) : pystr := map (fun x => if x =? c then d else x) s.

Fixpoint prefixb (p s : pystr) : bool :=
  match p, s with
  | [], _ => true
  | a :: p, b :: s => (a =? b) && prefixb p s
  | _ :: _, [] => false
  end.

(** [p in s] for strings. *)
Fixpoint substringb (p s : pystr) : bool :=
  prefixb p s || match s with
                 | [] => false
                 | _ :: r => substringb p r
                 end.

Lemma lstrip_by_nil p s : lstrip_by p s = [] <-> Forall (fun c => p c = true) s.
Proof.
  induction s as [|c s IH]; simpl; [done|]. destruct (p c) eqn:E; split; intros H.
  - constructor; [done|]. by apply IH.
  - apply IH. by inversion H.
  - done.
  - inversion H; congruence.
Qed.

Lemma lstrip_by_suffix p s : exists w, s = w ++ lstrip_by p s /\ Forall (fun c => p c = true) w.
Proof.
  induction s as [|c s (w & E & Hw)]; simpl; [by exists []|].
  destruct (p c) eqn:Ec.
  - exists (c :: w). split; [by rewrite E at 1 | by constructor].
  - by exists [].
Qed.

Lemma strip_by_elem p s c : c ∈ strip_by p s -> c ∈ s.
Proof.
  unfold strip_by. destruct (lstrip_by_suffix p s) as (w & E & _).
  destruct (lstrip_by_suffix p (rev (lstrip_by p s))) as (w' & E' & _).
  rewrite !list_elem_of_In. intros H%in_rev.
  assert (In c (rev (lstrip_by p s))) as H2 by (rewrite E'; apply in_or_app; by right).
  apply in_rev in H2. rewrite E. apply in_or_app. by right.
Qed.
