(* ===== verification/PyFloat.v ===== *)
(** * Python floats

    A Python [float] is an IEEE 754 binary64 value, represented by the standard
    library's executable [spec_float]. The program reads the clock with
    [time.time()], subtracts and compares readings, writes them into JSON and
    packs them with [struct.pack(">d", x)]. *)

From stdpp Require Import base strings list numbers option.
From Stdlib Require Import ZArith Lia Strings.Byte Floats.SpecFloat.
From S2P Require Import Prelude PyStr.
Open Scope Z_scope.
Open Scope peerc_scope.

Abbreviation pyfloat := spec_float.

#[export] Instance pyfloat_eq_dec : EqDecision pyfloat.
Proof. solve_decision. Defined.

Definition float_sub (a b : pyfloat) : pyfloat := SFsub 53 1024 a b.
Definition float_gt (a b : pyfloat) : bool := SFltb b a.
Definition float_lt (a b : pyfloat) : bool := SFltb a b.
Definition float_of_int (n : Z) : pyfloat := binary_normalize 53 1024 n 0 false.

(** [x == n] for a float and an int, [bool(x)] of a float. *)
Definition float_eq_int (x : pyfloat) (n : Z) : bool := SFeqb x (float_of_int n).
Definition float_truthy (x : pyfloat) : bool := negb (SFeqb x (S754_zero false)).

Lemma SFltb_asym a b : SFltb a b = true -> SFltb b a = false.
Proof.
  unfold SFltb. destruct a as [[]|[]| |[] ma ea], b as [[]|[]| |[] mb eb];
    cbn -[Pos.compare_cont Z.compare]; try done.
  all: rewrite (Z.compare_antisym ea eb); destruct (Z.compare ea eb);
    cbn -[Pos.compare_cont]; try done.
  all: change (Pos.compare_cont Eq ?x ?y) with (Pos.compare x y);
    rewrite (Pos.compare_antisym ma mb); destruct (Pos.compare ma mb); done.
Qed.

(** ** From decimal to binary

    [float_of_dec neg m e] is the float nearest to [m * 10^e] (ties to even),
    as [float()] computes it. The two range tests only avoid computing with
    huge powers: beyond them the result is infinity or zero. *)
Definition dec_length (m : Z) : Z := zlen (str_of_nonneg m).

Definition float_of_dec (neg : bool) (m e : Z) : pyfloat :=
  if m <=? 0 then S754_zero neg
  else if 310 <? dec_length m + e then S754_infinity neg
  else if dec_length m + e <? -330 then S754_zero neg
  else if 0 <=? e then
    binary_normalize 53 1024 (if neg then - (m * 10 ^ e) else m * 10 ^ e) 0 neg
  else
    let '(mz, ez, lz) := SFdiv_core_binary 53 1024 m 0 (10 ^ (- e)) 0 in
    binary_round_aux 53 1024 neg mz ez lz.

(** ** From binary to the shortest decimal: [repr(x)] *)

Definition div_half_even (a b : Z) : Z :=
  let q := a / b in
  let r := a mod b in
  if (b <? 2 * r) || ((2 * r =? b) && Z.odd q) then q + 1 else q.

(** The [k] with [10^(k-1) <= num/den < 10^k], searched upwards from [k]. *)
Fixpoint dec_exponent (fuel : nat) (num den k : Z) : Z :=
  match fuel with
  | O => k
  | S fuel =>
      if (if 0 <=? k then den * 10 ^ k <=? num else den <=? num * 10 ^ (- k))
      then dec_exponent fuel num den (k + 1) else k
  end.

(** Digits and decimal point position of the shortest decimal that reads back
    as [x], trying [n], [n+1], ... significant digits. *)
Fixpoint shortest (fuel : nat) (n : Z) (x : pyfloat) (num den k : Z) : pystr * Z :=
  let d := if k <=? n then div_half_even (num * 10 ^ (n - k)) den
           else div_half_even num (den * 10 ^ (k - n)) in
  let '(d, k') := if d =? 10 ^ n then (10 ^ (n - 1), k + 1) else (d, k) in
  match fuel with
  | O => (str_of_nonneg d, k')
  | S fuel =>
      if bool_decide (float_of_dec false d (k' - n) = x) then (str_of_nonneg d, k')
      else shortest fuel (n + 1) x num den k
  end.

Definition zeros (n : Z) : pystr := replicate (Z.to_nat n) 48.

(** The layout [float.__repr__] chooses: fixed notation for a decimal point
    position in -3..16, scientific notation otherwise. *)
Definition layout (ds : pystr) (k : Z) : pystr :=
  if (-4 <? k) && (k <=? 16) then
    if k <=? 0 then py "0." ++ zeros (- k) ++ ds
    else if zlen ds <=? k then ds ++ zeros (k - zlen ds) ++ py ".0"
    else take (Z.to_nat k) ds ++ py "." ++ drop (Z.to_nat k) ds
  else
    let e := k - 1 in
    let mant := match ds with
                | [] => []
                | [d] => [d]
                | d :: r => d :: py "." ++ r
                end in
    let ex := str_of_nonneg (Z.abs e) in
    mant ++ (if e <? 0 then py "e-" else py "e+")
         ++ (if zlen ex <? 2 then zeros 1 ++ ex else ex).

Definition float_repr (x : pyfloat) : pystr :=
  match x with
  | S754_zero s => (if s then py "-" else []) ++ py "0.0"
  | S754_infinity s => (if s then py "-" else []) ++ py "inf"
  | S754_nan => py "nan"
  | S754_finite s m e =>
      let num := if 0 <=? e then Zpos m * 2 ^ e else Zpos m in
      let den := if 0 <=? e then 1 else 2 ^ (- e) in
      let k0 := (Z.log2 num - Z.log2 den - 1) * 30103 / 100000 - 1 in
      let k := dec_exponent 8 num den k0 in
      let '(ds, k') := shortest 16 1 (S754_finite false m e) num den k in
      (if s then py "-" else []) ++ layout ds k'
  end.

(** ** [struct.pack(">d", x)] *)
Definition float_bits (x : pyfloat) : Z :=
  match x with
  | S754_zero s => if s then 2 ^ 63 else 0
  | S754_infinity s => (if s then 2 ^ 63 else 0) + 2047 * 2 ^ 52
  | S754_nan => 2047 * 2 ^ 52 + 2 ^ 51
  | S754_finite s m e =>
      (if s then 2 ^ 63 else 0)
      + (if Zpos m <? 2 ^ 52 then Zpos m else (e + 1075) * 2 ^ 52 + (Zpos m - 2 ^ 52))
  end.
Definition float_pack (x : pyfloat) : bytes := be_encode 8 (float_bits x).

Lemma float_pack_length x : length (float_pack x) = 8%nat.
Proof. apply be_encode_length. Qed.

Example float_repr_time : float_repr (float_of_dec false 17203412345678 (-4)) = py "1720341234.5678".
Proof. vm_compute. reflexivity. Qed.
Example float_repr_sci : float_repr (float_of_dec true 15 (-8)) = py "-1.5e-07".
Proof. vm_compute. reflexivity. Qed.
Example float_repr_tenth : float_repr (float_sub (float_of_dec false 3 (-1)) (float_of_dec false 1 (-1)))
  = py "0.19999999999999998".
Proof. vm_compute. reflexivity. Qed.
Example float_repr_big : float_repr (float_of_dec false 1 16) = py "1e+16".
Proof. vm_compute. reflexivity. Qed.
Example float_pack_ex : float_pack (float_of_dec false 15 (-1)) = [x3f; xf8; x00; x00; x00; x00; x00; x00].
Proof. vm_compute. reflexivity. Qed.

#[global] Opaque float_repr float_of_dec.
