(* ===== verification/Errors.v ===== *)
(** * The exception classes and the transport's time limits

    core/transport/timeout.py, core/protocol/errors.py, and the exception
    classes declared in the other modules, with their bases. [Prelude.exn] has
    the classes the modelled code raises; here are also the base classes and
    those that are declared and never raised, so that what an [except] clause
    catches can be stated with Python's own rule, [isinstance]. *)

From stdpp Require Import base strings list numbers option.
From Stdlib Require Import ZArith Lia Floats.SpecFloat.
From S2P Require Import Prelude PyStr PyFloat.
Open Scope Z_scope.

(** ** timeout.py: the limits, in seconds *)

Definition CONNECT_TIMEOUT : pyfloat := float_of_int 5.
Definition HANDSHAKE_TIMEOUT : pyfloat := float_of_int 5.
Definition IDLE_TIMEOUT : pyfloat := float_of_int 60.
Definition DEFAULT_READ_TIMEOUT : pyfloat := float_of_int 30.

(** ** The classes *)

Inductive exn_class : Type :=
  | Exn (e : exn)
  | ExceptionClass | LookupError | ArithmeticError | EOFError | UnicodeError | ConnectionError
  | HandshakeError | TransportTimeoutError | TransportHandshakeTimeoutError | IdleTimeoutError
  | VaultError | VaultCryptoError | KeyStoreError.
#[export] Instance exn_class_eq_dec : EqDecision exn_class.
Proof. solve_decision. Defined.

(** The base of a class, by the module that declares it. *)
Definition timeout_base (c : exn_class) : option exn_class :=
  match c with
  | Exn TransportError => Some ExceptionClass
  | TransportTimeoutError => Some (Exn TransportError)
  | Exn ConnectTimeoutError => Some TransportTimeoutError
  | TransportHandshakeTimeoutError => Some TransportTimeoutError   (* timeout.HandshakeTimeoutError *)
  | IdleTimeoutError => Some TransportTimeoutError
  | Exn ConnectionClosedError => Some (Exn TransportError)
  | _ => None
  end.
Definition protocol_base (c : exn_class) : option exn_class :=
  match c with
  | Exn ProtocolError => Some ExceptionClass
  | _ => None
  end.
Definition handshake_base (c : exn_class) : option exn_class :=
  match c with
  | HandshakeError => Some ExceptionClass
  | Exn (HandshakeTimeoutError | IdentityVerificationError | SignatureVerificationError | DeviceRevokedError
         | KeyChangedError | HandshakeProtocolError) => Some HandshakeError
  | _ => None
  end.
Definition encryption_base (c : exn_class) : option exn_class :=
  match c with
  | Exn EncryptionError => Some ExceptionClass
  | Exn (DecryptionError | ReplayOrReorderError | SequenceExhaustedError) => Some (Exn EncryptionError)
  | _ => None
  end.
Definition vault_base (c : exn_class) : option exn_class :=
  match c with
  | VaultError => Some ExceptionClass
  | Exn (WeakPassphraseError | VaultExistsError) => Some VaultError
  | _ => None
  end.
Definition vault_crypto_base (c : exn_class) : option exn_class :=
  match c with
  | VaultCryptoError => Some ExceptionClass
  | Exn WrongSecretError => Some VaultCryptoError
  | _ => None
  end.
Definition transfer_base (c : exn_class) : option exn_class :=
  match c with
  | Exn (TransferSecurityError | InsufficientDiskSpaceError | ChunkValidationError) => Some ExceptionClass
  | _ => None
  end.
Definition key_store_base (c : exn_class) : option exn_class :=
  match c with
  | KeyStoreError => Some ExceptionClass
  | _ => None
  end.
(** Python's own classes. ([NoActiveWorker], of the terminal library, derives
    from [Exception] directly.) *)
Definition builtin_base (c : exn_class) : option exn_class :=
  match c with
  | Exn (JSONDecodeError) | UnicodeError => Some (Exn ValueError)
  | Exn (UnicodeDecodeError | UnicodeEncodeError) => Some UnicodeError
  | Exn (OverflowError | ZeroDivisionError) => Some ArithmeticError
  | Exn (KeyError | IndexError) => Some LookupError
  | Exn RecursionError => Some (Exn RuntimeError)
  | Exn IncompleteReadError => Some EOFError
  | Exn (ConnectionResetError | BrokenPipeError) => Some ConnectionError
  | Exn (TimeoutError | FileNotFoundError) | ConnectionError => Some (Exn OSError)
  | _ => None
  end.
(** Every other class derives from [Exception] directly. *)
Definition base_of (c : exn_class) : option exn_class :=
  if decide (c = ExceptionClass) then None else
  Some (default ExceptionClass (head (omap (fun base => base c)
    [timeout_base; protocol_base; handshake_base; encryption_base; vault_base; vault_crypto_base; transfer_base;
     key_store_base; builtin_base]))).

(** The classes an instance belongs to, nearest first. No chain of bases is
    longer than six ([mro_complete]). *)
Fixpoint mro_from (fuel : nat) (c : exn_class) : list exn_class :=
  match fuel with
  | O => []
  | S fuel => c :: match base_of c with
                   | Some b => mro_from fuel b
                   | None => []
                   end
  end.
Definition mro (c : exn_class) : list exn_class := mro_from 6 c.
Definition isinstance (e : exn) (c : exn_class) : bool := bool_decide (c ∈ mro (Exn e)).
(** [except (c1, c2, ...)] *)
Definition excepts (cs : list exn_class) (e : exn) : bool := existsb (isinstance e) cs.

(** Every chain ends in [Exception], and every class is listed before its base. *)
Lemma mro_complete c : List.last (mro c) c = ExceptionClass /\ forall b, base_of c = Some b -> mro c = c :: mro b.
Proof.
  destruct c as [[]| | | | | | | | | | | | |];
    (split; [vm_compute; reflexivity|intros b Hb; vm_compute in Hb; inversion Hb; subst; vm_compute; reflexivity]).
Qed.

Lemma isinstance_exception e : isinstance e ExceptionClass = true.
Proof. by destruct e; vm_compute. Qed.

(** [except OSError]. *)
Lemma is_oserror_isinstance e : is_oserror e = isinstance e (Exn OSError).
Proof. by destruct e; vm_compute. Qed.

(** Of the transport's time-out classes nothing raises any
    but [ConnectTimeoutError], as the handshake has a class of
    its own that is no [TransportError]. *)
Lemma handshake_timeout_is_no_transport_error :
  excepts [Exn TransportError; TransportTimeoutError; TransportHandshakeTimeoutError] HandshakeTimeoutError = false /\
  forall e, isinstance e TransportTimeoutError = true <-> e = ConnectTimeoutError.
Proof. split; [vm_compute; reflexivity|]. intros e; split; [|by intros ->]. destruct e; vm_compute; done. Qed.

(** The classes under which the program's modules raise are disjoint: a handler
    for the transport's errors sees no error of the protocol, the handshake or
    the channel. *)
Lemma error_families_disjoint e :
  (length (filter (fun c => isinstance e c = true) [Exn TransportError; HandshakeError; Exn EncryptionError;
     Exn ProtocolError; VaultError; VaultCryptoError; Exn OSError; Exn ValueError]) <= 1)%nat.
Proof. destruct e; vm_compute; lia. Qed.
