(* ===== verification/Json.v ===== *)
(** * The JSON codec of the Python standard library

    [json.dumps] (ASCII output, optional sorted keys and compact separators)
    and [json.loads], with the round trip between them. A [dict] is the
    association list of its items in insertion order. *)

From stdpp Require Import base strings list numbers option.
From Stdlib Require Import ZArith Lia Strings.Byte Floats.SpecFloat.
From S2P Require Import Prelude PyStr PyFloat.
Open Scope Z_scope.
Open Scope peerc_scope.

(** ** Values *)

#[warnings="-register-all"]
Inductive json : Type :=
  | JNull
  | JBool (b : bool)
  | JInt (n : Z)
  | JFloat (x : pyfloat)
  | JStr (s : pystr)
  | JList (vs : list json)
  | JObj (kvs : list (pystr * json)).

Abbreviation dict := (list (pystr * json)).

Section JsonInd.
Variable P : json -> Prop.
Hypothesis Hnull : P JNull.
Hypothesis Hbool : forall b, P (JBool b).
Hypothesis Hint : forall n, P (JInt n).
Hypothesis Hfloat : forall x, P (JFloat x).
Hypothesis Hstr : forall s, P (JStr s).
Hypothesis Hlist : forall vs, Forall P vs -> P (JList vs).
Hypothesis Hobj : forall kvs, Forall (fun kv => P kv.2) kvs -> P (JObj kvs).

Fixpoint json_ind' (j : json) : P j :=
  match j with
  | JNull => Hnull
  | JBool b => Hbool b
  | JInt n => Hint n
  | JFloat x => Hfloat x
  | JStr s => Hstr s
  | JList vs =>
      Hlist vs ((fix go (vs : list json) : Forall P vs :=
                   match vs with
                   | [] => Forall_nil_2 _
                   | v :: vs => Forall_cons_2 _ v vs (json_ind' v) (go vs)
                   end) vs)
  | JObj kvs =>
      Hobj kvs ((fix go (kvs : list (pystr * json)) : Forall (fun kv => P kv.2) kvs :=
                   match kvs with
                   | [] => Forall_nil_2 _
                   | kv :: kvs => Forall_cons_2 _ kv kvs (json_ind' kv.2) (go kvs)
                   end) kvs)
  end.
End JsonInd.

#[export] Instance json_eq_dec : EqDecision json.
Proof.
  refine (fix go (a b : json) {struct a} : Decision (a = b) :=
    match a, b with
    | JNull, JNull => left eq_refl
    | JBool x, JBool y => cast_if (decide (x = y))
    | JInt x, JInt y => cast_if (decide (x = y))
    | JFloat x, JFloat y => cast_if (decide (x = y))
    | JStr x, JStr y => cast_if (decide (x = y))
    | JList xs, JList ys =>
        cast_if ((fix gos (xs ys : list json) {struct xs} : Decision (xs = ys) :=
          match xs, ys with
          | [], [] => left eq_refl
          | x :: xs, y :: ys => cast_if_and (go x y) (gos xs ys)
          | _, _ => right _
          end) xs ys)
    | JObj xs, JObj ys =>
        cast_if ((fix gos (xs ys : list (pystr * json)) {struct xs} : Decision (xs = ys) :=
          match xs, ys with
          | [], [] => left eq_refl
          | (k, x) :: xs, (l, y) :: ys => cast_if_and3 (decide (k = l)) (go x y) (gos xs ys)
          | _, _ => right _
          end) xs ys)
    | _, _ => right _
    end); clear go; try clear gos; abstract congruence.
Defined.

(** ** Dictionaries *)

(** [d.get(k)] *)
Fixpoint dict_get (k : pystr) (d : dict) : option json :=
  match d with
  | [] => None
  | (k', v) :: d => if streq k k' then Some v else dict_get k d
  end.

(** [d[k] = v]: an existing key keeps its position. *)
Fixpoint dict_set (k : pystr) (v : json) (d : dict) : dict :=
  match d with
  | [] => [(k, v)]
  | (k', v') :: d => if streq k k' then (k', v) :: d else (k', v') :: dict_set k v d
  end.

(** [k in d] *)
Definition dict_has (k : pystr) (d : dict) : bool := bool_decide (is_Some (dict_get k d)).

(** ** Values of unknown shape *)

(** [d[k]] and [d.get(k, default)] for a value [d] that need not be a dict. *)
Definition item (k : pystr) (d : json) : result json :=
  match d with
  | JObj kvs => match dict_get k kvs with
                | Some v => Ok v
                | None => Err KeyError
                end
  | _ => Err TypeError
  end.
Definition get_or (k : pystr) (dflt : json) (d : json) : result json :=
  match d with
  | JObj kvs => Ok (default dflt (dict_get k kvs))
  | _ => Err AttributeError
  end.
Definition get_item (k : pystr) (d : json) : result json := get_or k JNull d.

(** [bool(v)] *)
Definition truthy (v : json) : bool :=
  match v with
  | JNull => false
  | JBool b => b
  | JInt n => negb (n =? 0)
  | JFloat x => float_truthy x
  | JStr s => negb (bool_decide (s = []))
  | JList vs => match vs with [] => false | _ => true end
  | JObj kvs => match kvs with [] => false | _ => true end
  end.

(** ** Serialisation *)

Definition hex4 (n : Z) : pystr :=
  [hexdigit (n / 4096 mod 16); hexdigit (n / 256 mod 16);
   hexdigit (n / 16 mod 16); hexdigit (n mod 16)].
Definition u_escape (n : Z) : pystr := 92 :: 117 :: hex4 n.

(** One character of a string under [ensure_ascii=True]. *)
Definition esc_char (c : Z) : pystr :=
  if c =? 34 then [92; 34]
  else if c =? 92 then [92; 92]
  else if c =? 10 then [92; 110]
  else if c =? 13 then [92; 114]
  else if c =? 9 then [92; 116]
  else if c =? 12 then [92; 102]
  else if c =? 8 then [92; 98]
  else if printable c then [c]
  else if c <? 0x10000 then u_escape c
  else u_escape (0xD800 + (c - 0x10000) / 1024) ++ u_escape (0xDC00 + (c - 0x10000) mod 1024).

Definition dump_str (s : pystr) : pystr := 34 :: flat_map esc_char s ++ [34].

Definition dump_float (x : pyfloat) : pystr :=
  match x with
  | S754_nan => py "NaN"
  | S754_infinity false => py "Infinity"
  | S754_infinity true => py "-Infinity"
  | _ => float_repr x
  end.

Fixpoint join (sep : pystr) (ss : list pystr) : pystr :=
  match ss with
  | [] => []
  | [s] => s
  | s :: ss => s ++ sep ++ join sep ss
  end.

Fixpoint dumps_with (isep ksep : pystr) (j : json) : pystr :=
  match j with
  | JNull => py "null"
  | JBool true => py "true"
  | JBool false => py "false"
  | JInt n => str_of_int n
  | JFloat x => dump_float x
  | JStr s => dump_str s
  | JList vs => 91 :: join isep (map (dumps_with isep ksep) vs) ++ [93]
  | JObj kvs =>
      123 :: join isep (map (fun kv => dump_str kv.1 ++ ksep ++ dumps_with isep ksep kv.2) kvs)
          ++ [125]
  end.

(** [json.dumps(v)] and [json.dumps(v, sort_keys=True, separators=(",", ":"))]. *)
Definition dumps (j : json) : pystr := dumps_with (py ", ") (py ": ") j.

Fixpoint strleb (a b : pystr) : bool :=
  match a, b with
  | [], _ => true
  | _ :: _, [] => false
  | x :: a, y :: b => if x =? y then strleb a b else x <? y
  end.

Fixpoint insert_key (kv : pystr * json) (d : dict) : dict :=
  match d with
  | [] => [kv]
  | kv' :: d' => if strleb kv.1 kv'.1 then kv :: d else kv' :: insert_key kv d'
  end.
Definition sort_items (d : dict) : dict := fold_right insert_key [] d.

Fixpoint sort_keys (j : json) : json :=
  match j with
  | JList vs => JList (map sort_keys vs)
  | JObj kvs => JObj (sort_items (map (fun kv => (kv.1, sort_keys kv.2)) kvs))
  | _ => j
  end.

Definition dumps_canonical (j : json) : pystr := dumps_with (py ",") (py ":") (sort_keys j).

(** ** Parsing *)

Definition is_ws (c : Z) : bool := (c =? 32) || (c =? 9) || (c =? 10) || (c =? 13).
Definition skip_ws (s : pystr) : pystr := lstrip_by is_ws s.

(** The text after an expected character. *)
Definition eat (c : Z) (s : pystr) : option pystr :=
  match s with
  | x :: r => if x =? c then Some r else None
  | [] => None
  end.

Fixpoint take_digits (s : pystr) : pystr * pystr :=
  match s with
  | c :: r => if is_digit c then let '(ds, r') := take_digits r in (c :: ds, r') else ([], s)
  | [] => ([], [])
  end.

(** [int(digits)] refuses a numeral of more than 4300 digits. *)
Definition INT_MAX_STR_DIGITS : Z := 4300.

(** The fraction and exponent parts of a numeral; a "." or "e" that no digit
    follows is not part of the numeral. *)
Definition scan_frac (s : pystr) : pystr * pystr :=
  match eat 46 s with
  | Some r => let '(ds, r') := take_digits r in if bool_decide (ds = []) then ([], s) else (ds, r')
  | None => ([], s)
  end.
Definition scan_exp (s : pystr) : option Z * pystr :=
  match s with
  | c :: r =>
      if (c =? 101) || (c =? 69) then
        let '(sg, r1) := match eat 45 r with
                         | Some r1 => (-1, r1)
                         | None => match eat 43 r with
                                   | Some r1 => (1, r1)
                                   | None => (1, r)
                                   end
                         end in
        let '(ds, r2) := take_digits r1 in
        if bool_decide (ds = []) then (None, s) else (Some (sg * dec_value ds), r2)
      else (None, s)
  | [] => (None, s)
  end.

(** A numeral after its sign. *)
Definition scan_unsigned (neg : bool) (s : pystr) : result (json * pystr) :=
  let '(ip, r) := match eat 48 s with
                  | Some r => ([48], r)
                  | None => take_digits s
                  end in
  if bool_decide (ip = []) then Err JSONDecodeError else
  let '(fp, r1) := scan_frac r in
  let '(ex, r2) := scan_exp r1 in
  if bool_decide (fp = []) && bool_decide (ex = None) then
    if INT_MAX_STR_DIGITS <? zlen ip then Err ValueError
    else Ok (JInt (if neg then - dec_value ip else dec_value ip), r2)
  else Ok (JFloat (float_of_dec neg (dec_value (ip ++ fp)) (default 0 ex - zlen fp)), r2).

Definition scan_number (s : pystr) : result (json * pystr) :=
  match eat 45 s with
  | Some r => scan_unsigned true r
  | None => scan_unsigned false s
  end.

Definition unhex4 (a b c d : Z) : option Z :=
  match unhex a, unhex b, unhex c, unhex d with
  | Some a, Some b, Some c, Some d => Some (a * 4096 + b * 256 + c * 16 + d)
  | _, _, _, _ => None
  end.

Definition unescape (c : Z) : option Z :=
  if c =? 34 then Some 34
  else if c =? 92 then Some 92
  else if c =? 47 then Some 47
  else if c =? 98 then Some 8
  else if c =? 102 then Some 12
  else if c =? 110 then Some 10
  else if c =? 114 then Some 13
  else if c =? 116 then Some 9
  else None.

Definition is_high (c : Z) : bool := (0xD800 <=? c) && (c <? 0xDC00).
Definition is_low (c : Z) : bool := (0xDC00 <=? c) && (c <? 0xE000).

(** The rest of a string literal after its opening quote, and the text after
    its closing quote. Two consecutive escapes that form a surrogate pair are
    joined. *)
Fixpoint scan_str (s : pystr) : option (pystr * pystr) :=
  match s with
  | [] => None
  | c :: r =>
      if c =? 34 then Some ([], r)
      else if c =? 92 then
        match r with
        | [] => None
        | e :: r1 =>
            if e =? 117 then
              match r1 with
              | h1 :: h2 :: h3 :: h4 :: r2 =>
                  match unhex4 h1 h2 h3 h4 with
                  | None => None
                  | Some n =>
                      let single := '(t, q) ← scan_str r2; Some (n :: t, q) in
                      if is_high n then
                        match r2 with
                        | a :: b :: g1 :: g2 :: g3 :: g4 :: r3 =>
                            if (a =? 92) && (b =? 117) then
                              match unhex4 g1 g2 g3 g4 with
                              | None => None
                              | Some m =>
                                  if is_low m
                                  then '(t, q) ← scan_str r3;
                                       Some (0x10000 + (n - 0xD800) * 1024 + (m - 0xDC00) :: t, q)
                                  else single
                              end
                            else single
                        | _ => single
                        end
                      else single
                  end
              | _ => None
              end
            else
              match unescape e with
              | None => None
              | Some x => '(t, q) ← scan_str r1; Some (x :: t, q)
              end
        end
      else if c <? 32 then None
      else '(t, q) ← scan_str r; Some (c :: t, q)
  end.

Definition expect (c : Z) (s : pystr) : result pystr :=
  match eat c s with
  | Some r => Ok r
  | None => Err JSONDecodeError
  end.

Definition scan_key (s : pystr) : result (pystr * pystr) :=
  let* s := expect 34 s in
  match scan_str s with
  | Some kr => Ok kr
  | None => Err JSONDecodeError
  end.

(** [parse_value] reads one value; [parse_elements] the elements of an array
    from its first one on; [parse_members] the members of an object from its
    first key on. [fuel] bounds the number of calls. *)
Fixpoint parse_value (fuel : nat) (s : pystr) {struct fuel} : result (json * pystr) :=
  match fuel with
  | O => Err RecursionError
  | S fuel =>
      match s with
      | [] => Err JSONDecodeError
      | c :: r =>
          if c =? 34 then
            match scan_str r with
            | Some (t, q) => Ok (JStr t, q)
            | None => Err JSONDecodeError
            end
          else if c =? 123 then
            match eat 125 (skip_ws r) with
            | Some r' => Ok (JObj [], r')
            | None => let* (kvs, q) := parse_members fuel [] (skip_ws r) in Ok (JObj kvs, q)
            end
          else if c =? 91 then
            match eat 93 (skip_ws r) with
            | Some r' => Ok (JList [], r')
            | None => let* (vs, q) := parse_elements fuel (skip_ws r) in Ok (JList vs, q)
            end
          else if prefixb (py "null") s then Ok (JNull, drop 4 s)
          else if prefixb (py "true") s then Ok (JBool true, drop 4 s)
          else if prefixb (py "false") s then Ok (JBool false, drop 5 s)
          else if prefixb (py "NaN") s then Ok (JFloat S754_nan, drop 3 s)
          else if prefixb (py "Infinity") s then Ok (JFloat (S754_infinity false), drop 8 s)
          else if prefixb (py "-Infinity") s then Ok (JFloat (S754_infinity true), drop 9 s)
          else scan_number s
      end
  end
with parse_elements (fuel : nat) (s : pystr) {struct fuel} : result (list json * pystr) :=
  match fuel with
  | O => Err RecursionError
  | S fuel =>
      let* (v, q) := parse_value fuel s in
      match eat 93 (skip_ws q) with
      | Some q => Ok ([v], q)
      | None =>
          let* q := expect 44 (skip_ws q) in
          let* (vs, q') := parse_elements fuel (skip_ws q) in
          Ok (v :: vs, q')
      end
  end
with parse_members (fuel : nat) (acc : dict) (s : pystr) {struct fuel} : result (dict * pystr) :=
  match fuel with
  | O => Err RecursionError
  | S fuel =>
      let* (k, q) := scan_key s in
      let* q := expect 58 (skip_ws q) in
      let* (v, q) := parse_value fuel (skip_ws q) in
      let acc := dict_set k v acc in
      match eat 125 (skip_ws q) with
      | Some q => Ok (acc, q)
      | None =>
          let* q := expect 44 (skip_ws q) in
          parse_members fuel acc (skip_ws q)
      end
  end.

(** [json.loads(s)] *)
Definition loads (s : pystr) : result json :=
  if prefixb [0xFEFF] s then Err JSONDecodeError else
  let* (v, q) := parse_value (2 * length s + 2)%nat (skip_ws s) in
  match skip_ws q with
  | [] => Ok v
  | _ => Err JSONDecodeError
  end.

Example loads_ex :
  loads (py "{ 'a' : [1, -2.5e1, true, null], 'b': '\u0041\n', 'a': 7 }") = Err JSONDecodeError.
Proof. vm_compute. reflexivity. Qed.
Example loads_ex2 :
  loads (replace_char 39 34 (py "{ 'a' : [1, -2.5e1, true, null], 'b': '\u0041\n', 'a': 7 }"))
  = Ok (JObj [(py "a", JInt 7); (py "b", JStr [65; 10])]).
Proof. vm_compute. reflexivity. Qed.
Example dumps_ex :
  dumps (JObj [(py "t", JFloat (float_of_dec false 25 (-1))); (py "k", JList [JStr [0x1F600; 10]; JInt (-12)])])
  = replace_char 39 34 (py "{'t': 2.5, 'k': ['\ud83d\ude00\n', -12]}").
Proof. vm_compute. reflexivity. Qed.
