(* ===== verification/JsonFacts.v ===== *)
(** * The JSON codec: parsing inverts serialisation

    [json_ok] describes the values the codec preserves: strings of real code
    points in which no two adjacent characters form a surrogate pair, dicts
    with distinct keys, ints within the digit limit and floats whose [repr]
    reads back as themselves. *)

From stdpp Require Import base strings list numbers option.
From Stdlib Require Import ZArith Lia Strings.Byte Floats.SpecFloat.
From S2P Require Import Prelude PyStr PyFloat Json.
Open Scope Z_scope.
Open Scope peerc_scope.

(** ** The values that round-trip *)

Definition code_point (c : Z) : bool := (0 <=? c) && (c <=? 0x10FFFF).
Definition low_head (s : pystr) : bool :=
  match s with
  | d :: _ => is_low d
  | [] => false
  end.
Fixpoint str_ok (s : pystr) : bool :=
  match s with
  | [] => true
  | c :: r => code_point c && negb (is_high c && low_head r) && str_ok r
  end.

Definition float_ok (x : pyfloat) : bool :=
  match x with
  | S754_zero _ | S754_finite _ _ _ =>
      bool_decide (scan_number (float_repr x) = Ok (JFloat x, []))
      && forallb printable (float_repr x)
  | _ => false
  end.

Fixpoint distinct (ks : list pystr) : bool :=
  match ks with
  | [] => true
  | k :: ks => negb (existsb (streq k) ks) && distinct ks
  end.

Fixpoint json_ok (j : json) : bool :=
  match j with
  | JNull | JBool _ => true
  | JInt n => zlen (str_of_nonneg (Z.abs n)) <=? INT_MAX_STR_DIGITS
  | JFloat x => float_ok x
  | JStr s => str_ok s
  | JList vs => forallb json_ok vs
  | JObj kvs =>
      distinct (map fst kvs) && forallb (fun kv => str_ok kv.1 && json_ok kv.2) kvs
  end.

(** ** Strings *)

Lemma unhex4_hex4 n :
  0 <= n < 65536 ->
  unhex4 (hexdigit (n / 4096 mod 16)) (hexdigit (n / 256 mod 16))
         (hexdigit (n / 16 mod 16)) (hexdigit (n mod 16)) = Some n.
Proof.
  intros H. unfold unhex4.
  rewrite !unhex_hexdigit by (apply Z.mod_pos_bound; lia).
  f_equal.
  pose proof (Z.div_mod n 16 ltac:(lia)). pose proof (Z.div_mod (n / 16) 16 ltac:(lia)).
  pose proof (Z.div_mod (n / 256) 16 ltac:(lia)).
  rewrite (Z.div_div n 16 16) in * by lia. rewrite (Z.div_div n 256 16) in * by lia.
  change (16 * 16) with 256 in *. change (256 * 16) with 4096 in *.
  assert (0 <= n / 4096 < 16) by (split; [apply Z.div_pos | apply Z.div_lt_upper_bound]; lia).
  rewrite (Z.mod_small (n / 4096) 16) by lia. lia.
Qed.

(** What follows a lone high surrogate must not complete a pair. *)
Definition no_low_escape (q : pystr) : Prop :=
  forall g1 g2 g3 g4 r, q = 92 :: 117 :: g1 :: g2 :: g3 :: g4 :: r ->
  exists m, unhex4 g1 g2 g3 g4 = Some m /\ is_low m = false.

Lemma scan_str_escape n q :
  0 <= n < 65536 -> (is_high n = true -> no_low_escape q) ->
  scan_str (u_escape n ++ q) = '(t, q) ← scan_str q; Some (n :: t, q).
Proof.
  intros Hn Hq. unfold u_escape, hex4. cbn [app].
  cbn -[scan_str unhex4 hexdigit Z.div Z.modulo]. cbn [scan_str].
  cbn -[scan_str unhex4 hexdigit Z.div Z.modulo]. rewrite unhex4_hex4 by lia.
  destruct (is_high n) eqn:Eh; [|done]. specialize (Hq eq_refl).
  destruct q as [|a [|b [|g1 [|g2 [|g3 [|g4 r]]]]]]; try done.
  destruct ((a =? 92) && (b =? 117)) eqn:Eab; [|done]. zbool. subst.
  destruct (Hq g1 g2 g3 g4 r eq_refl) as (m & -> & ->). done.
Qed.

Lemma scan_str_pair hi lo q :
  0xD800 <= hi < 0xDC00 -> 0xDC00 <= lo < 0xE000 ->
  scan_str (u_escape hi ++ u_escape lo ++ q)
  = '(t, q) ← scan_str q; Some (0x10000 + (hi - 0xD800) * 1024 + (lo - 0xDC00) :: t, q).
Proof.
  intros Hh Hl. unfold u_escape, hex4. cbn [app].
  cbn -[scan_str unhex4 hexdigit Z.div Z.modulo]. cbn [scan_str].
  cbn -[scan_str unhex4 hexdigit Z.div Z.modulo Z.mul Z.sub Z.add]. rewrite !unhex4_hex4 by lia.
  assert (is_high hi = true) as ->.
  { unfold is_high. apply andb_true_iff. split; [apply Z.leb_le | apply Z.ltb_lt]; lia. }
  assert (is_low lo = true) as ->; [|done].
  unfold is_low. apply andb_true_iff. split; [apply Z.leb_le | apply Z.ltb_lt]; lia.
Qed.

(** The four shapes of an escaped character. *)
Variant esc_view (c : Z) : pystr -> Prop :=
  | esc_plain : c <> 34 -> c <> 92 -> 32 <= c < 127 -> esc_view c [c]
  | esc_short e : unescape e = Some c -> e <> 117 -> 32 <= e < 127 -> esc_view c [92; e]
  | esc_u : 0 <= c < 65536 -> esc_view c (u_escape c)
  | esc_pair hi lo : 0xD800 <= hi < 0xDC00 -> 0xDC00 <= lo < 0xE000 ->
      c = 0x10000 + (hi - 0xD800) * 1024 + (lo - 0xDC00) ->
      esc_view c (u_escape hi ++ u_escape lo).

Lemma esc_char_view c : code_point c = true -> esc_view c (esc_char c).
Proof.
  unfold code_point. intros H. zbool. unfold esc_char.
  repeat (destruct (_ =? _) eqn:?; zbool; [subst; by constructor|]).
  unfold printable. destruct ((32 <=? c) && (c <? 127)) eqn:Ep; zbool; [by constructor|].
  destruct (c <? 0x10000) eqn:Eu; zbool; [by constructor|].
  pose proof (Z.mod_pos_bound (c - 65536) 1024 ltac:(lia)).
  pose proof (Z.div_mod (c - 65536) 1024 ltac:(lia)).
  apply esc_pair; lia.
Qed.

Lemma esc_no_low_escape s rest :
  str_ok s = true -> low_head s = false -> no_low_escape (flat_map esc_char s ++ 34 :: rest).
Proof.
  intros Hok Hlow g1 g2 g3 g4 r E. destruct s as [|c s]; [done|].
  simpl in Hok, Hlow. zbool. simpl in E. rewrite <- app_assoc in E.
  destruct (esc_char_view c) as [Hc1 Hc2 Hc3|e He Hne He3|Hu|hi lo Hhi Hlo Hc]; [done| | | |].
  - injection E as E1 _. lia.
  - injection E as E1 _. lia.
  - injection E as <- <- <- <- _. exists c. by rewrite unhex4_hex4.
  - rewrite <- app_assoc in E. injection E as <- <- <- <- _. exists hi.
    rewrite unhex4_hex4 by lia. split; [done|]. unfold is_low.
    apply andb_false_iff. left. apply Z.leb_gt. lia.
Qed.

Lemma scan_str_dump s rest :
  str_ok s = true -> scan_str (flat_map esc_char s ++ 34 :: rest) = Some (s, rest).
Proof.
  induction s as [|c s IH]; intros Hok; [done|].
  simpl in Hok. zbool. cbn [flat_map]. rewrite <- app_assoc.
  specialize (IH ltac:(done)).
  destruct (esc_char_view c) as [Hc1 Hc2 Hc3|e He Hne He3|Hu|hi lo Hhi Hlo Hc]; [done| | | |].
  - cbn [app scan_str]. rewrite (proj2 (Z.eqb_neq c 34)), (proj2 (Z.eqb_neq c 92)) by lia.
    rewrite (proj2 (Z.ltb_ge c 32)) by lia. by rewrite IH.
  - cbn [app]. cbn [scan_str]. rewrite (proj2 (Z.eqb_neq e 117)) by lia.
    cbn -[scan_str unescape]. by rewrite He, IH.
  - rewrite scan_str_escape; [by rewrite IH | lia |].
    intros Hh. apply esc_no_low_escape; [done|].
    match goal with H : is_high c && _ = false |- _ => by rewrite Hh in H end.
  - rewrite <- app_assoc, scan_str_pair by done. rewrite IH. by rewrite Hc.
Qed.

Lemma scan_key_dump k rest :
  str_ok k = true -> scan_key (dump_str k ++ rest) = Ok (k, rest).
Proof.
  intros H. unfold scan_key, dump_str. cbn -[scan_str]. rewrite <- app_assoc. cbn [app].
  by rewrite scan_str_dump.
Qed.

(** ** Numbers *)

(** A numeral ends where such a text begins. *)
Definition delim (rest : pystr) : Prop :=
  match rest with
  | [] => True
  | c :: _ => is_digit c = false /\ c <> 46 /\ c <> 101 /\ c <> 69 /\ c <> 43 /\ c <> 45
  end.

Lemma eat_app c s rest :
  s <> [] -> eat c (s ++ rest) = (fun r => r ++ rest) <$> eat c s.
Proof. destruct s as [|x s]; [done|]. intros _. simpl. by destruct (x =? c). Qed.

Lemma eat_delim c rest : delim rest -> c = 46 \/ c = 43 \/ c = 45 -> eat c rest = None.
Proof.
  destruct rest as [|x r]; [done|]. intros (?&?&?&?&?&?) Hc. simpl.
  by rewrite (proj2 (Z.eqb_neq x c)) by lia.
Qed.

Lemma take_digits_app s ds r rest :
  take_digits s = (ds, r) -> delim rest -> take_digits (s ++ rest) = (ds, r ++ rest).
Proof.
  revert ds r. induction s as [|c s IH]; intros ds r E D.
  - injection E as <- <-. destruct rest as [|x rest]; [done|]. simpl. by destruct D as [-> _].
  - simpl in *. destruct (is_digit c); [|by injection E as <- <-].
    destruct (take_digits s) as [ds' r'] eqn:E'. injection E as <- <-.
    by rewrite (IH _ _ eq_refl D).
Qed.

Lemma scan_frac_app s ds r rest :
  scan_frac s = (ds, r) -> delim rest -> scan_frac (s ++ rest) = (ds, r ++ rest).
Proof.
  intros E D. unfold scan_frac in *. destruct s as [|c s].
  - injection E as <- <-. simpl app. rewrite eat_delim by auto. done.
  - rewrite eat_app by done. destruct (eat 46 (c :: s)) as [q|]; simpl; [|by injection E as <- <-].
    destruct (take_digits q) as [ds' q'] eqn:Eq. rewrite (take_digits_app _ _ _ _ Eq D).
    case_bool_decide; by injection E as <- <-.
Qed.

Lemma scan_exp_app s ex r rest :
  scan_exp s = (ex, r) -> delim rest -> scan_exp (s ++ rest) = (ex, r ++ rest).
Proof.
  intros E D. unfold scan_exp in *. destruct s as [|c s].
  - injection E as <- <-. simpl app. destruct rest as [|x rest]; [done|].
    destruct D as (?&?&?&?&?&?).
    by rewrite (proj2 (Z.eqb_neq x 101)), (proj2 (Z.eqb_neq x 69)) by lia.
  - cbn [app] in *. destruct ((c =? 101) || (c =? 69)); [|by injection E as <- <-].
    assert (Hsign : forall q, match eat 45 (q ++ rest) with
        | Some r1 => (-1, r1)
        | None => match eat 43 (q ++ rest) with Some r1 => (1, r1) | None => (1, q ++ rest) end end
      = prod_map id (fun r => r ++ rest) match eat 45 q with
        | Some r1 => (-1, r1)
        | None => match eat 43 q with Some r1 => (1, r1) | None => (1, q) end end).
    { intros [|x q].
      - simpl app. rewrite !eat_delim by auto. done.
      - rewrite !eat_app by done. destruct (eat 45 (x :: q)), (eat 43 (x :: q)); done. }
    rewrite Hsign. destruct (match eat 45 s with Some r1 => (-1, r1) | None => _ end) as [sg r1].
    cbn [prod_map]. destruct (take_digits r1) as [ds r2] eqn:Ed. simpl.
    rewrite (take_digits_app _ _ _ _ Ed D). case_bool_decide; by injection E as <- <-.
Qed.

Lemma scan_unsigned_app neg s v r rest :
  scan_unsigned neg s = Ok (v, r) -> delim rest -> scan_unsigned neg (s ++ rest) = Ok (v, r ++ rest).
Proof.
  intros E D. unfold scan_unsigned in *. destruct s as [|c s]; [done|].
  rewrite eat_app by done.
  assert (exists ip q, match eat 48 (c :: s) with Some r => ([48], r) | None => take_digits (c :: s) end
      = (ip, q) /\
      match (fun r => r ++ rest) <$> eat 48 (c :: s) with
      | Some r => ([48], r) | None => take_digits ((c :: s) ++ rest) end = (ip, q ++ rest))
    as (ip & q & E1 & E2).
  { destruct (eat 48 (c :: s)) as [q|] eqn:Eq; simpl fmap.
    - eauto.
    - destruct (take_digits (c :: s)) as [ip q] eqn:Ed. exists ip, q. split; [done|].
      by apply take_digits_app. }
  rewrite E1 in E. rewrite E2. case_bool_decide; [done|].
  destruct (scan_frac q) as [fp r1] eqn:Ef. rewrite (scan_frac_app _ _ _ _ Ef D).
  destruct (scan_exp r1) as [ex r2] eqn:Ee. rewrite (scan_exp_app _ _ _ _ Ee D).
  destruct (bool_decide (fp = []) && bool_decide (ex = None)).
  - destruct (INT_MAX_STR_DIGITS <? zlen ip); [done|]. by injection E as <- <-.
  - by injection E as <- <-.
Qed.

Lemma scan_number_app s v r rest :
  scan_number s = Ok (v, r) -> delim rest -> scan_number (s ++ rest) = Ok (v, r ++ rest).
Proof.
  intros E D. unfold scan_number in *. destruct s as [|c s]; [done|].
  rewrite eat_app by done. destruct (eat 45 (c :: s)); cbn [fmap option_fmap option_map];
    by apply scan_unsigned_app.
Qed.

Lemma take_digits_all ds :
  Forall (fun c => is_digit c = true) ds -> take_digits ds = (ds, []).
Proof. induction 1 as [|c ds Hc _ IH]; simpl; [done|]. by rewrite Hc, IH. Qed.

Lemma digit_head c : is_digit c = true -> c <> 45 /\ printable c = true.
Proof.
  unfold is_digit, printable. intros H. zbool. split; [lia|].
  apply andb_true_iff. split; [apply Z.leb_le | apply Z.ltb_lt]; lia.
Qed.

Lemma scan_unsigned_int neg n :
  0 <= n -> zlen (str_of_nonneg n) <= INT_MAX_STR_DIGITS ->
  scan_unsigned neg (str_of_nonneg n) = Ok (JInt (if neg then - n else n), []).
Proof.
  intros Hn Hl. destruct (decide (n = 0)) as [->|Hz]; [by destruct neg|].
  destruct (str_of_nonneg_spec n Hn) as (Hv & Hd & Hne & Hh). specialize (Hh ltac:(lia)).
  unfold scan_unsigned.
  assert (eat 48 (str_of_nonneg n) = None) as ->.
  { destruct (str_of_nonneg n) as [|c r]; [done|]. simpl.
    rewrite (proj2 (Z.eqb_neq c 48)); [done|]. intros ->. by apply Hh. }
  rewrite take_digits_all by done. rewrite bool_decide_eq_false_2 by done.
  cbn [scan_frac scan_exp eat]. rewrite !bool_decide_eq_true_2 by done. cbn [andb].
  rewrite (proj2 (Z.ltb_ge _ _)) by lia. by rewrite Hv.
Qed.

Lemma scan_number_int n :
  zlen (str_of_nonneg (Z.abs n)) <= INT_MAX_STR_DIGITS ->
  scan_number (str_of_int n) = Ok (JInt n, []).
Proof.
  intros H. unfold str_of_int, scan_number. destruct (n <? 0) eqn:E; zbool.
  - cbn [eat]. rewrite Z.eqb_refl. rewrite Z.abs_neq in H by lia.
    rewrite scan_unsigned_int by lia. by rewrite Z.opp_involutive.
  - rewrite Z.abs_eq in H by lia.
    assert (eat 45 (str_of_nonneg n) = None) as ->; [|by rewrite scan_unsigned_int].
    destruct (str_of_nonneg_spec n ltac:(lia)) as (_ & Hd & Hne & _).
    destruct Hd as [|c r Hc _]; [done|]. simpl.
    apply digit_head in Hc as [Hc _]. by rewrite (proj2 (Z.eqb_neq c 45)).
Qed.

(** ** Dictionaries *)

Lemma dict_set_fresh k v d :
  existsb (streq k) (map fst d) = false -> dict_set k v d = d ++ [(k, v)].
Proof.
  induction d as [|[k' v'] d IH]; simpl; intros H; [done|].
  apply orb_false_iff in H as [-> H]. by rewrite IH.
Qed.

Lemma distinct_app ks ls :
  distinct (ks ++ ls) = true ->
  Forall (fun l => existsb (streq l) ks = false) ls /\ distinct ls = true.
Proof.
  induction ks as [|k ks IH]; simpl; intros H.
  - split; [|done]. by apply Forall_true.
  - zbool. rewrite existsb_app in *. zbool. destruct IH as [IH1 IH2]; [done|]. split; [|done].
    rewrite Forall_forall in *. intros l Hl. specialize (IH1 l Hl). rewrite IH1, orb_false_r.
    destruct (streq l k) eqn:E; [|done]. apply streq_spec in E as ->.
    match goal with H : existsb (streq k) ls = false |- _ => rename H into Hk end.
    assert (existsb (streq k) ls = true) as Hk'; [|congruence].
    apply existsb_exists. exists k. split; [done | by apply streq_spec].
Qed.

(** ** Whitespace and heads *)

Definition starts_non_ws (s : pystr) : Prop :=
  match s with
  | c :: _ => is_ws c = false
  | [] => False
  end.

Lemma skip_ws_non_ws s : starts_non_ws s -> skip_ws s = s.
Proof.
  destruct s as [|c s]; [done|]. unfold skip_ws. cbn [starts_non_ws lstrip_by]. by intros ->.
Qed.

Lemma skip_ws_app w s : Forall (fun c => is_ws c = true) w -> skip_ws (w ++ s) = skip_ws s.
Proof.
  unfold skip_ws. induction 1 as [|c w Hc _ IH]; cbn [app lstrip_by]; [done|]. by rewrite Hc.
Qed.

Lemma digit_not_special c :
  is_digit c = true \/ c = 45 ->
  is_ws c = false /\ c <> 34 /\ c <> 123 /\ c <> 91 /\ c <> 110 /\ c <> 116 /\ c <> 102
  /\ c <> 78 /\ c <> 73 /\ c <> 93 /\ c <> 125.
Proof.
  intros [H | ->]; [|done]. unfold is_digit in H. zbool. unfold is_ws.
  repeat rewrite (proj2 (Z.eqb_neq c _)) by lia. lia.
Qed.

(** ** The round trip *)

Fixpoint jsize (j : json) : nat :=
  match j with
  | JList vs => S (sum_list_with (fun v => S (jsize v)) vs)
  | JObj kvs => S (sum_list_with (fun kv => S (jsize kv.2)) kvs)
  | _ => 1
  end.

Lemma eat_None_ne c x s : x <> c -> eat c (x :: s) = None.
Proof. intros H. simpl. by rewrite (proj2 (Z.eqb_neq x c)). Qed.

Lemma eat_self c s : eat c (c :: s) = Some s.
Proof. simpl. by rewrite Z.eqb_refl. Qed.

Lemma take_digits_head s ds r :
  take_digits s = (ds, r) -> ds <> [] -> exists c q, s = c :: q /\ is_digit c = true.
Proof.
  intros E H. destruct s as [|c s]; [by injection E as <- <-|]. simpl in E.
  destruct (is_digit c) eqn:Ec; [by eauto|]. by injection E as <- <-.
Qed.

Lemma scan_unsigned_head neg s v r :
  scan_unsigned neg s = Ok (v, r) -> exists c q, s = c :: q /\ is_digit c = true.
Proof.
  unfold scan_unsigned. destruct s as [|c s]; [done|].
  destruct (eat 48 (c :: s)) eqn:E0.
  - intros _. simpl in E0. destruct (c =? 48) eqn:Ec; [|done]. zbool. subst. by eauto.
  - destruct (take_digits (c :: s)) as [ip q] eqn:Ed. case_bool_decide; [done|]. intros _.
    by eapply take_digits_head.
Qed.

Lemma parse_value_number fuel s v r rest :
  scan_number s = Ok (v, r) -> delim rest ->
  parse_value (S fuel) (s ++ rest) = Ok (v, r ++ rest).
Proof.
  intros E D. rewrite <- (scan_number_app _ _ _ _ E D).
  assert (exists c q, s = c :: q /\ (is_digit c = true \/
    (c = 45 /\ exists d q', q = d :: q' /\ is_digit d = true))) as (c & q & -> & Hc).
  { unfold scan_number in E. destruct (eat 45 s) as [q|] eqn:E45.
    - destruct s as [|c s]; [done|]. simpl in E45. destruct (c =? 45) eqn:Ec; [|done]. zbool.
      injection E45 as ->. subst. exists 45, q. split; [done|]. right. split; [done|].
      by eapply scan_unsigned_head.
    - apply scan_unsigned_head in E as (c & q & -> & Hc). eauto. }
  assert (prefixb (py "-Infinity") ((c :: q) ++ rest) = false) as Hinf.
  { destruct Hc as [Hc|[-> (d & q' & -> & Hd)]].
    - apply digit_head in Hc as [Hc _]. change (py "-Infinity") with (45 :: py "Infinity").
      cbn [app prefixb]. by rewrite (proj2 (Z.eqb_neq 45 c)) by lia.
    - change (py "-Infinity") with (45 :: 73 :: py "nfinity"). cbn [app prefixb].
      unfold is_digit in Hd. zbool. by rewrite (proj2 (Z.eqb_neq 73 d)) by lia. }
  destruct (digit_not_special c) as (_&?&?&?&?&?&?&?&?&_); [tauto|].
  assert (forall a p, a <> c -> prefixb (a :: p) ((c :: q) ++ rest) = false) as Hpre.
  { intros a p Ha. cbn [app prefixb]. by rewrite (proj2 (Z.eqb_neq a c)). }
  cbn [app] in *. cbn [parse_value].
  rewrite (proj2 (Z.eqb_neq c 34)), (proj2 (Z.eqb_neq c 123)), (proj2 (Z.eqb_neq c 91)) by lia.
  change (py "null") with (110 :: py "ull"). change (py "true") with (116 :: py "rue").
  change (py "false") with (102 :: py "alse"). change (py "NaN") with (78 :: py "aN").
  change (py "Infinity") with (73 :: py "nfinity").
  by rewrite !Hpre, Hinf by lia.
Qed.

Section RoundTrip.
Variables wi wk : pystr.
Hypothesis Hwi : Forall (fun c => is_ws c = true) wi.
Hypothesis Hwk : Forall (fun c => is_ws c = true) wk.

Let isep : pystr := 44 :: wi.
Let ksep : pystr := 58 :: wk.
Let D : json -> pystr := dumps_with isep ksep.
Let member (kv : pystr * json) : pystr := dump_str kv.1 ++ ksep ++ D kv.2.

Definition reads (j : json) : Prop :=
  forall fuel rest, delim rest -> (jsize j <= fuel)%nat ->
  parse_value fuel (D j ++ rest) = Ok (j, rest).

Lemma float_ok_spec x : float_ok x = true ->
  dump_float x = float_repr x /\ scan_number (float_repr x) = Ok (JFloat x, [])
  /\ printable_str (float_repr x).
Proof.
  unfold float_ok. destruct x; intros H; try discriminate H.
  all: apply andb_true_iff in H as [H H']; rewrite forallb_forall in H'.
  all: split; [reflexivity | split; [by apply bool_decide_eq_true in H | by apply List.Forall_forall]].
Qed.

Lemma number_text j :
  json_ok j = true -> match j with JInt _ | JFloat _ => True | _ => False end ->
  scan_number (D j) = Ok (j, []).
Proof.
  destruct j; try done; unfold D; cbn [json_ok dumps_with]; intros H _.
  - apply scan_number_int. by zbool.
  - by apply float_ok_spec in H as (-> & -> & _).
Qed.

(** A serialised value starts with a character no structural token starts with. *)
Lemma dumps_head j : json_ok j = true ->
  exists c r, D j = c :: r /\ is_ws c = false /\ c <> 93 /\ c <> 125.
Proof.
  intros H. destruct j as [|[]| | | | |]; try (by eexists _, _).
  all: pose proof (number_text _ H I) as E; unfold scan_number in E.
  all: match type of E with context [eat 45 ?t] => remember t as t' eqn:Et end.
  all: destruct (eat 45 t') as [q|] eqn:E45;
    [ destruct t' as [|c t']; [done|]; simpl in E45; destruct (c =? 45) eqn:Ec; [|done]; zbool;
      by eexists _, _; repeat split; subst
    | apply scan_unsigned_head in E as (c & q & -> & Hc);
      destruct (digit_not_special c) as (?&?&?&?&?&?&?&?&?&?&?); [by left|];
      by eexists _, _ ].
Qed.

Lemma D_non_ws j rest : json_ok j = true -> starts_non_ws (D j ++ rest).
Proof. intros H. destruct (dumps_head j H) as (c & r & -> & Hc & _). done. Qed.

Lemma elements_read vs : forall fuel rest,
  vs <> [] -> Forall reads vs -> forallb json_ok vs = true ->
  (sum_list_with (fun v => S (jsize v)) vs <= fuel)%nat ->
  parse_elements fuel (join isep (map D vs) ++ 93 :: rest) = Ok (vs, rest).
Proof.
  induction vs as [|v vs IH]; intros fuel rest Hne HR Hok Hf; [done|].
  inversion_clear HR as [|? ? Hv HR']. simpl in Hok, Hf. zbool.
  destruct fuel as [|fuel]; [lia|]. cbn [parse_elements].
  destruct vs as [|v' vs].
  - cbn [map join]. rewrite Hv by (done || lia). cbn [rbind].
    rewrite skip_ws_non_ws by done. by rewrite eat_self.
  - change (join isep (map D (v :: v' :: vs))) with (D v ++ isep ++ join isep (map D (v' :: vs))).
    rewrite <- !app_assoc. rewrite Hv by (done || lia). cbn [rbind].
    assert (forall q, skip_ws (isep ++ q) = 44 :: wi ++ q) as Hsep by done. rewrite !Hsep.
    rewrite eat_None_ne by done. unfold expect. rewrite eat_self. cbn [rbind].
    rewrite skip_ws_app by done. rewrite skip_ws_non_ws.
    + rewrite IH; [done..|lia].
    + destruct (dumps_head v') as (c & r & E & Hc & _).
      { match goal with H : forallb json_ok (v' :: vs) = true |- _ => simpl in H; by zbool end. }
      change (map D (v' :: vs)) with (D v' :: map D vs).
      destruct (map D vs); cbn [join]; rewrite E; done.
Qed.

Lemma members_read kvs : forall fuel acc rest,
  kvs <> [] -> Forall (fun kv => reads kv.2) kvs ->
  forallb (fun kv => str_ok kv.1 && json_ok kv.2) kvs = true ->
  distinct (map fst (acc ++ kvs)) = true ->
  (sum_list_with (fun kv => S (jsize kv.2)) kvs <= fuel)%nat ->
  parse_members fuel acc (join isep (map member kvs) ++ 125 :: rest) = Ok (acc ++ kvs, rest).
Proof.
  induction kvs as [|[k v] kvs IH]; intros fuel acc rest Hne HR Hok Hd Hf; [done|].
  inversion_clear HR as [|? ? Hv HR']. simpl in Hok, Hf, Hv. zbool.
  destruct fuel as [|fuel]; [lia|].
  assert (Hset : dict_set k v acc = acc ++ [(k, v)]).
  { apply dict_set_fresh. rewrite map_app in Hd. apply distinct_app in Hd as [Hd _].
    by inversion_clear Hd. }
  assert (Hstep : forall q, delim q ->
    parse_members (S fuel) acc (member (k, v) ++ q)
    = match eat 125 (skip_ws q) with
      | Some q => Ok (acc ++ [(k, v)], q)
      | None => let* q := expect 44 (skip_ws q) in
                parse_members fuel (acc ++ [(k, v)]) (skip_ws q)
      end).
  { intros q Hq. cbn [parse_members]. unfold member. cbn [fst snd]. rewrite <- !app_assoc.
    rewrite scan_key_dump by done. cbn [rbind].
    assert (forall q, skip_ws (ksep ++ q) = 58 :: wk ++ q) as -> by done.
    unfold expect at 1. rewrite eat_self. cbn [rbind].
    rewrite skip_ws_app by done. rewrite skip_ws_non_ws by by apply D_non_ws.
    rewrite Hv by (done || lia). cbn [rbind]. by rewrite Hset. }
  destruct kvs as [|[k' v'] kvs].
  - cbn [map join]. rewrite Hstep by done. rewrite skip_ws_non_ws by done. by rewrite eat_self.
  - change (join isep (map member ((k, v) :: (k', v') :: kvs)))
      with (member (k, v) ++ isep ++ join isep (map member ((k', v') :: kvs))).
    rewrite <- !app_assoc. rewrite Hstep by done.
    assert (forall q, skip_ws (isep ++ q) = 44 :: wi ++ q) as Hsep by done. rewrite !Hsep.
    rewrite eat_None_ne by done. unfold expect. rewrite eat_self. cbn [rbind].
    rewrite skip_ws_app by done. rewrite skip_ws_non_ws.
    + rewrite IH; [by rewrite <- app_assoc | done | done | done | by rewrite <- app_assoc | lia].
    + cbn [map]. destruct (map member kvs); done.
Qed.

Lemma dumps_reads j : json_ok j = true -> reads j.
Proof.
  induction j as [|b|n|x|s|vs IH|kvs IH] using json_ind'; intros Hok [|fuel] rest Hd Hf;
    try (simpl in Hf; lia).
  - done.
  - by destruct b.
  - apply (parse_value_number _ _ _ []); [|done]. by apply number_text.
  - apply (parse_value_number _ _ _ []); [|done]. by apply number_text.
  - unfold D. cbn [dumps_with dump_str app parse_value]. rewrite Z.eqb_refl, <- app_assoc.
    cbn [app]. by rewrite scan_str_dump.
  - cbn [json_ok jsize] in *. apply le_S_n in Hf. unfold D. cbn [dumps_with app]. fold D.
    destruct vs as [|v vs]; [done|].
    assert (HR : Forall reads (v :: vs)).
    { rewrite forallb_forall in Hok. rewrite Forall_forall in *. auto. }
    cbn [parse_value]. cbn [Z.eqb Pos.eqb]. rewrite <- app_assoc. cbn [app].
    destruct (dumps_head v) as (c & r & E & Hc & H93 & _); [simpl in Hok; by zbool|].
    assert (exists r', join isep (map D (v :: vs)) = c :: r') as [r' Ej].
    { cbn [map]. rewrite E. destruct (map D vs); cbn [join app]; eauto. }
    rewrite skip_ws_non_ws by (rewrite Ej; done).
    rewrite Ej at 1. cbn [app]. rewrite eat_None_ne by done.
    by rewrite elements_read.
  - cbn [json_ok jsize] in *. zbool. apply le_S_n in Hf. unfold D. cbn [dumps_with app]. fold D.
    destruct kvs as [|[k v] kvs]; [done|].
    assert (HR : Forall (fun kv => reads kv.2) ((k, v) :: kvs)).
    { match goal with H : forallb _ _ = true |- _ => rewrite forallb_forall in H end.
      rewrite Forall_forall in *. intros kv Hkv. apply IH; [done|].
      match goal with H : forall x, _ -> _ = true |- _ => specialize (H _ Hkv) end. by zbool. }
    cbn [parse_value]. cbn [Z.eqb Pos.eqb]. rewrite <- app_assoc. cbn [app].
    change (map (fun kv => dump_str kv.1 ++ ksep ++ D kv.2) ((k, v) :: kvs))
      with (map member ((k, v) :: kvs)).
    assert (exists r', join isep (map member ((k, v) :: kvs)) = 34 :: r') as [r' Ej].
    { cbn [map]. destruct (map member kvs); cbn [join app]; eauto. }
    rewrite skip_ws_non_ws by (rewrite Ej; done).
    rewrite Ej at 1. cbn [app]. rewrite eat_None_ne by done.
    by rewrite members_read.
Qed.

(** *** The text produced *)

Hypothesis Pwi : printable_str wi.
Hypothesis Pwk : printable_str wk.

Lemma u_escape_printable n : printable_str (u_escape n).
Proof.
  assert (forall k, printable (hexdigit (k mod 16)) = true) as H.
  { intros k. pose proof (hexdigit_range (k mod 16) (Z.mod_pos_bound k 16 ltac:(lia))).
    unfold printable. apply andb_true_iff. split; [apply Z.leb_le | apply Z.ltb_lt]; lia. }
  unfold u_escape, hex4, printable_str. by repeat constructor.
Qed.

Lemma dump_str_printable s : printable_str (dump_str s).
Proof.
  unfold dump_str. constructor; [done|]. apply Forall_app. split; [|by repeat constructor].
  induction s as [|c s IH]; [constructor|]. cbn [flat_map]. apply Forall_app. split; [|done].
  unfold esc_char.
  repeat (destruct (_ =? _); [by repeat constructor|]).
  destruct (printable c) eqn:Ep; [by repeat constructor|].
  destruct (c <? 65536); [apply u_escape_printable|].
  apply Forall_app. split; apply u_escape_printable.
Qed.

Lemma str_of_int_printable n : printable_str (str_of_int n).
Proof.
  assert (forall m, 0 <= m -> printable_str (str_of_nonneg m)) as H.
  { intros m Hm. destruct (str_of_nonneg_spec m Hm) as (_ & Hd & _).
    eapply List.Forall_impl; [|exact Hd]. intros c Hc. by apply digit_head. }
  unfold str_of_int. destruct (n <? 0) eqn:E; zbool; [constructor; [done|]|]; apply H; lia.
Qed.

Lemma join_printable sep ss :
  printable_str sep -> Forall printable_str ss -> printable_str (join sep ss).
Proof.
  intros Hs. induction 1 as [|s ss H1 H2 IH]; [constructor|].
  destruct ss; [done|]. cbn [join]. apply Forall_app. split; [done|]. by apply Forall_app.
Qed.

Lemma dumps_printable j : json_ok j = true -> printable_str (D j).
Proof.
  assert (Hi : printable_str isep) by by constructor.
  assert (Hk : printable_str ksep) by by constructor.
  unfold D. induction j as [|b|n|x|s|vs IH|kvs IH] using json_ind'; intros Hok; cbn [dumps_with].
  - by repeat constructor.
  - destruct b; by repeat constructor.
  - apply str_of_int_printable.
  - by apply float_ok_spec in Hok as (-> & _ & ?).
  - apply dump_str_printable.
  - constructor; [done|]. apply Forall_app. split; [|by repeat constructor].
    apply join_printable; [done|]. cbn [json_ok] in Hok. rewrite forallb_forall in Hok.
    apply Forall_map. rewrite List.Forall_forall in *. auto.
  - constructor; [done|]. apply Forall_app. split; [|by repeat constructor].
    apply join_printable; [done|]. cbn [json_ok] in Hok. zbool.
    match goal with H : forallb _ _ = true |- _ => rewrite forallb_forall in H; rename H into Hf end.
    apply Forall_map. rewrite List.Forall_forall in *. intros kv Hkv. specialize (Hf kv Hkv). zbool.
    apply Forall_app. split; [apply dump_str_printable|]. apply Forall_app. split; [done | by apply IH].
Qed.

Lemma join_size ts ws :
  Forall2 (fun t w => (w <= 2 * length t)%nat) ts ws ->
  (sum_list_with S ws <= 2 * length (join isep ts) + 1)%nat.
Proof.
  induction 1 as [|t w ts ws H1 H2 IH]; [simpl; lia|].
  destruct H2 as [|t' w' ts ws H2 H3]; [simpl in *; lia|].
  change (join isep (t :: t' :: ts)) with (t ++ isep ++ join isep (t' :: ts)).
  rewrite !length_app. cbn [sum_list_with] in *. unfold isep at 1. cbn [length]. lia.
Qed.

Lemma jsize_length j : json_ok j = true -> (jsize j <= 2 * length (D j))%nat.
Proof.
  assert (Hs : forall A (f : A -> nat) l, sum_list_with (fun x => S (f x)) l = sum_list_with S (map f l)).
  { intros A f l. induction l as [|x l IHl]; simpl; [done|]. by rewrite IHl. }
  induction j as [|b|n|x|s|vs IH|kvs IH] using json_ind'; intros Hok.
  all: pose proof (dumps_head _ Hok) as (c & r & E & _).
  1-5: cbn [jsize]; rewrite E; cbn [length]; lia.
  - cbn [json_ok jsize] in *. change (D (JList vs)) with (91 :: join isep (map D vs) ++ [93]). cbn [length].
    rewrite length_app. cbn [length]. rewrite Hs.
    enough (Forall2 (fun t w => (w <= 2 * length t)%nat) (map D vs) (map jsize vs)) as H
      by (apply join_size in H; lia).
    rewrite forallb_forall in Hok. rewrite List.Forall_forall in IH. clear E.
    induction vs as [|v vs IHv]; simpl; constructor; [|apply IHv]; intros; simpl in *; auto.
  - cbn [json_ok jsize] in *. change (D (JObj kvs)) with (123 :: join isep (map member kvs) ++ [125]). cbn [length].
    rewrite length_app. cbn [length]. rewrite (Hs _ (fun kv => jsize kv.2)).
    enough (Forall2 (fun t w => (w <= 2 * length t)%nat) (map member kvs)
              (map (fun kv => jsize kv.2) kvs)) as H by (apply join_size in H; lia).
    zbool. match goal with H : forallb _ _ = true |- _ => rewrite forallb_forall in H; rename H into Hf end.
    rewrite List.Forall_forall in IH. clear E H.
    induction kvs as [|kv kvs IHv]; cbn [map]; constructor.
    + specialize (Hf kv (or_introl eq_refl)). zbool.
      specialize (IH kv (or_introl eq_refl) ltac:(done)).
      unfold member. rewrite !length_app. lia.
    + apply IHv; intros kv' Hkv'; [apply IH | apply Hf]; by right.
Qed.

Lemma loads_dumps_with j : json_ok j = true -> loads (D j) = Ok j.
Proof.
  intros Hok. unfold loads.
  pose proof (dumps_printable j Hok) as Hp. pose proof (jsize_length j Hok) as Hl.
  destruct (dumps_head j Hok) as (c & r & E & Hc & _).
  assert (prefixb [0xFEFF] (D j) = false) as ->.
  { rewrite E in *. inversion_clear Hp as [|? ? Hpc _]. unfold printable in Hpc. zbool.
    cbn [prefixb]. by rewrite (proj2 (Z.eqb_neq _ c)) by lia. }
  rewrite skip_ws_non_ws by (rewrite E; done).
  pose proof (dumps_reads j Hok (2 * length (D j) + 2)%nat [] I ltac:(lia)) as H.
  rewrite app_nil_r in H. by rewrite H.
Qed.
End RoundTrip.

Lemma loads_dumps j : json_ok j = true -> loads (dumps j) = Ok j.
Proof. apply (loads_dumps_with [32] [32]); by repeat constructor. Qed.

Lemma dumps_ascii j : json_ok j = true -> ascii_str (dumps j).
Proof. intros H. apply printable_ascii. apply (dumps_printable [32] [32]); by repeat constructor. Qed.

Lemma dumps_nonempty j : json_ok j = true -> dumps j <> [].
Proof.
  intros H. destruct (dumps_head [32] [32] j H) as (c & r & E & _).
  change (dumps j) with (dumps_with [44; 32] [58; 32] j). by rewrite E.
Qed.

(** ** Assignment to a dictionary *)

Lemma dict_get_set k v d k' : dict_get k' (dict_set k v d) = if streq k' k then Some v else dict_get k' d.
Proof.
  induction d as [|[q x] d IH]; cbn [dict_set dict_get]; [done|].
  destruct (streq k q) eqn:Ek; cbn [dict_get].
  - apply streq_spec in Ek as ->. by destruct (streq k' q).
  - rewrite IH. destruct (streq k' q) eqn:Eq, (streq k' k) eqn:Ek'; try done.
    apply streq_spec in Eq as ->. apply streq_spec in Ek' as ->. by rewrite (proj2 (streq_spec _ _) eq_refl) in Ek.
Qed.

Lemma existsb_dict_set k v d q : existsb (streq q) (map fst (dict_set k v d)) = streq q k || existsb (streq q) (map fst d).
Proof.
  induction d as [|[x y] d IH]; cbn [dict_set map existsb fst]; [done|].
  destruct (streq k x) eqn:Ek; cbn [map existsb fst].
  - apply streq_spec in Ek as ->. by destruct (streq q x).
  - rewrite IH. by destruct (streq q x), (streq q k).
Qed.

Lemma json_ok_dict_set k v d :
  str_ok k = true -> json_ok v = true -> json_ok (JObj d) = true -> json_ok (JObj (dict_set k v d)) = true.
Proof.
  intros Hk Hv. cbn [json_ok]. induction d as [|[x y] d IH]; cbn [dict_set map distinct forallb fst snd].
  - intros _. by rewrite Hk, Hv.
  - intros H. apply andb_true_iff in H as [Hxd Hxy]. apply andb_true_iff in Hxd as [Hx Hd].
    apply andb_true_iff in Hxy as [Hxy Hf]. apply andb_true_iff in Hxy as [Hxk Hy].
    destruct (streq k x) eqn:Ek; cbn [map distinct forallb fst snd].
    + by rewrite Hx, Hd, Hxk, Hv, Hf.
    + rewrite existsb_dict_set. rewrite Hxk, Hy. apply negb_true_iff in Hx. rewrite Hx, orb_false_r.
      replace (streq x k) with false; [apply IH; by rewrite Hd, Hf|].
      symmetry. apply not_true_is_false. intros E%streq_spec. subst. by rewrite (proj2 (streq_spec _ _) eq_refl) in Ek.
Qed.

(** ** Printable strings *)

Lemma printable_str_ok s : printable_str s -> str_ok s = true.
Proof.
  induction 1 as [|c s Hc _ IH]; [done|]. cbn [str_ok]. rewrite IH. unfold printable in Hc. zbool.
  unfold code_point, is_high. rewrite (proj2 (Z.leb_gt 0xD800 c)) by lia. cbn [andb negb].
  rewrite !(proj2 (Z.leb_le _ _)) by lia. done.
Qed.

(** ** The fuel is enough

    Every call of the parser consumes text, so the [2 * length s + 2] calls
    [loads] grants are never exhausted. *)

Lemma skip_ws_length s : (length (skip_ws s) <= length s)%nat.
Proof.
  unfold skip_ws. destruct (lstrip_by_suffix is_ws s) as (w & E & _).
  rewrite E at 2. rewrite length_app. lia.
Qed.

Lemma eat_length c s r : eat c s = Some r -> length s = S (length r).
Proof. destruct s as [|x s]; [done|]. simpl. destruct (x =? c); [|done]. by intros [= ->]. Qed.

Lemma expect_length c s r : expect c s = Ok r -> length s = S (length r).
Proof. unfold expect. destruct (eat c s) eqn:E; [|done]. intros [= <-]. by eapply eat_length. Qed.

Lemma scan_str_length_aux n : forall s t q,
  (length s <= n)%nat -> scan_str s = Some (t, q) -> (length q < length s)%nat.
Proof.
  induction n as [|n IH]; intros s t q Hn E; destruct s as [|c r]; try done; simpl in Hn; [lia|].
  assert (Hone : forall (x : Z) r t q, (length r <= n)%nat ->
    ('(t, q) ← scan_str r; Some (x :: t, q)) = Some (t, q) -> (length q < length r)%nat).
  { intros x r' t' q' Hr Ex. destruct (scan_str r') as [[t2 q2]|] eqn:Es; [|done].
    injection Ex as <- <-. by eapply IH. }
  clear IH. cbn [scan_str] in E. cbn [length].
  destruct (c =? 34); [injection E as <- <-; lia|].
  destruct (c =? 92); [|destruct (c <? 32); [done|]; apply Hone in E; lia].
  destruct r as [|e r1]; [done|]. cbn [length] in *. destruct (e =? 117).
  - destruct r1 as [|h1 [|h2 [|h3 [|h4 r2]]]]; try done. cbn [length] in *.
    destruct (unhex4 h1 h2 h3 h4) as [k|]; [|done].
    destruct (is_high k); [|apply Hone in E; lia].
    destruct r2 as [|a [|b [|g1 [|g2 [|g3 [|g4 r3]]]]]]; cbn [length] in *;
      try (apply Hone in E; cbn [length] in *; lia).
    destruct ((a =? 92) && (b =? 117)); [|apply Hone in E; cbn [length] in *; lia].
    destruct (unhex4 g1 g2 g3 g4) as [m|]; [|done].
    destruct (is_low m); apply Hone in E; cbn [length] in *; lia.
  - destruct (unescape e); [|done]. apply Hone in E; lia.
Qed.

Lemma scan_str_length s t q : scan_str s = Some (t, q) -> (length q < length s)%nat.
Proof. by apply (scan_str_length_aux (length s)). Qed.

Lemma take_digits_length s ds r : take_digits s = (ds, r) -> length s = (length ds + length r)%nat.
Proof.
  revert ds r. induction s as [|c s IH]; intros ds r E; simpl in E; [by injection E as <- <-|].
  destruct (is_digit c); [|by injection E as <- <-].
  destruct (take_digits s) as [ds' r']. injection E as <- <-. simpl. by rewrite (IH ds' r').
Qed.

Lemma scan_frac_length s ds r : scan_frac s = (ds, r) -> (length r <= length s)%nat.
Proof.
  unfold scan_frac. destruct (eat 46 s) as [q|] eqn:E; [|intros [= <- <-]; lia].
  apply eat_length in E. destruct (take_digits q) as [ds' q'] eqn:Ed.
  apply take_digits_length in Ed. case_bool_decide; intros [= <- <-]; lia.
Qed.

Lemma scan_exp_length s ex r : scan_exp s = (ex, r) -> (length r <= length s)%nat.
Proof.
  unfold scan_exp. destruct s as [|c s]; [intros [= <- <-]; lia|].
  destruct ((c =? 101) || (c =? 69)); [|intros [= <- <-]; lia].
  destruct (match eat 45 s with Some r1 => (-1, r1) | None => _ end) as [sg r1] eqn:E1.
  assert (length r1 <= length s)%nat.
  { destruct (eat 45 s) eqn:E; [apply eat_length in E; injection E1 as <- <-; lia|].
    destruct (eat 43 s) eqn:E'; [apply eat_length in E'|]; injection E1 as <- <-; lia. }
  destruct (take_digits r1) as [ds q] eqn:Ed. apply take_digits_length in Ed.
  case_bool_decide; intros [= <- <-]; simpl; lia.
Qed.

Lemma scan_unsigned_length neg s v r : scan_unsigned neg s = Ok (v, r) -> (length r < length s)%nat.
Proof.
  unfold scan_unsigned.
  destruct (match eat 48 s with Some r => ([48], r) | None => take_digits s end) as [ip q] eqn:E1.
  assert (length s = length ip + length q)%nat.
  { destruct (eat 48 s) eqn:E; [apply eat_length in E; injection E1 as <- <-; simpl; lia|].
    by apply take_digits_length. }
  case_bool_decide as Hip; [done|].
  assert (0 < length ip)%nat by (destruct ip; simpl; [done|lia]).
  destruct (scan_frac q) as [fp r1] eqn:Ef. apply scan_frac_length in Ef.
  destruct (scan_exp r1) as [ex r2] eqn:Ee. apply scan_exp_length in Ee.
  repeat case_match; intros [= <- <-]; lia.
Qed.

Lemma scan_number_length s v r : scan_number s = Ok (v, r) -> (length r < length s)%nat.
Proof.
  unfold scan_number. destruct (eat 45 s) eqn:E; intros H%scan_unsigned_length; [|done].
  apply eat_length in E. lia.
Qed.

Lemma scan_number_error s e : scan_number s = Err e -> e = JSONDecodeError \/ e = ValueError.
Proof. unfold scan_number, scan_unsigned. repeat case_match; intros [= <-]; auto. Qed.

Definition fuel_fine {A} (n : nat) (r : result (A * pystr)) : Prop :=
  match r with
  | Ok (_, q) => (length q < n)%nat
  | Err e => e = JSONDecodeError \/ e = ValueError
  end.

Lemma fuel_fine_bind {A B} n m (r : result (A * pystr)) (f : A * pystr -> result (B * pystr)) :
  fuel_fine n r ->
  (forall a q, (length q < n)%nat -> fuel_fine m (f (a, q))) ->
  fuel_fine m (rbind r f).
Proof. destruct r as [[a q]|e]; simpl; auto. Qed.

Lemma fuel_fine_expect {B} c s m (f : pystr -> result (B * pystr)) :
  (forall q, length s = S (length q) -> fuel_fine m (f q)) -> fuel_fine m (rbind (expect c s) f).
Proof.
  intros H. destruct (expect c s) as [q|e] eqn:E; simpl.
  - apply H. by eapply expect_length.
  - unfold expect in E. destruct (eat c s); [done|]. injection E as <-. auto.
Qed.

Lemma parse_fuel fuel :
  (forall s, (2 * length s + 1 <= fuel)%nat -> fuel_fine (length s) (parse_value fuel s)) /\
  (forall s, (2 * length s + 2 <= fuel)%nat -> fuel_fine (length s) (parse_elements fuel s)) /\
  (forall acc s, (2 * length s + 2 <= fuel)%nat -> fuel_fine (length s) (parse_members fuel acc s)).
Proof.
  induction fuel as [|fuel (IHv & IHe & IHm)]; [repeat split; intros; lia|].
  repeat split.
  - intros [|c r] Hf; [by left|]. cbn [parse_value length] in *.
    pose proof (skip_ws_length r) as Hr.
    destruct (c =? 34).
    { destruct (scan_str r) as [[t q]|] eqn:E; simpl; [|by left]. apply scan_str_length in E. lia. }
    destruct (c =? 123).
    { destruct (eat 125 (skip_ws r)) eqn:E; [apply eat_length in E; simpl; lia|].
      eapply fuel_fine_bind; [apply IHm; lia|]. intros a q Hq. simpl. lia. }
    destruct (c =? 91).
    { destruct (eat 93 (skip_ws r)) eqn:E; [apply eat_length in E; simpl; lia|].
      eapply fuel_fine_bind; [apply IHe; lia|]. intros a q Hq. simpl. lia. }
    assert (forall (j : json) k, (0 < k)%nat ->
      fuel_fine (S (length r)) (Ok (j, drop k (c :: r)))) as Hdrop.
    { intros j k Hk. simpl. rewrite length_drop. simpl. lia. }
    repeat (destruct (prefixb _ _); [apply Hdrop; lia|]).
    destruct (scan_number (c :: r)) as [[v q]|e] eqn:E; simpl.
    + by apply scan_number_length in E.
    + by apply scan_number_error in E.
  - intros s Hf. cbn [parse_elements]. eapply fuel_fine_bind; [apply IHv; lia|].
    intros v q Hq. pose proof (skip_ws_length q) as Hw.
    destruct (eat 93 (skip_ws q)) eqn:E; [apply eat_length in E; simpl; lia|].
    apply fuel_fine_expect. intros q1 H1. pose proof (skip_ws_length q1).
    eapply fuel_fine_bind; [apply IHe; lia|]. intros vs q2 Hq2. simpl. lia.
  - intros acc s Hf. cbn [parse_members]. unfold scan_key. rewrite rbind_assoc.
    apply fuel_fine_expect. intros s1 Hs1.
    destruct (scan_str s1) as [[k q]|] eqn:Ek; simpl rbind; [|by left]. apply scan_str_length in Ek.
    pose proof (skip_ws_length q).
    apply fuel_fine_expect. intros q1 Hq1. pose proof (skip_ws_length q1).
    eapply fuel_fine_bind; [apply IHv; lia|]. intros v q2 Hq2. pose proof (skip_ws_length q2).
    destruct (eat 125 (skip_ws q2)) eqn:E; [apply eat_length in E; simpl; lia|].
    apply fuel_fine_expect. intros q3 Hq3. pose proof (skip_ws_length q3).
    specialize (IHm (dict_set k v acc) (skip_ws q3) ltac:(lia)).
    destruct (parse_members fuel _ _) as [[a q4]|e]; simpl in *; [lia | done].
Qed.

(** [json.loads] raises only [JSONDecodeError], or [ValueError] for an integer
    over the digit limit. *)
Lemma loads_errors s e : loads s = Err e -> e = JSONDecodeError \/ e = ValueError.
Proof.
  unfold loads. destruct (prefixb _ s); [intros [= <-]; by left|]. pose proof (skip_ws_length s).
  destruct (parse_fuel (2 * length s + 2)) as (H1 & _ & _).
  specialize (H1 (skip_ws s) ltac:(lia)).
  destruct (parse_value _ _) as [[v q]|e']; simpl in *.
  - destruct (skip_ws q); [done|]. intros [= <-]. by left.
  - by intros [= <-].
Qed.

(** ** Integers of a decoded value

    [json.loads] never yields an integer too long to be printed. *)

(** Every integer of the value can be formatted: [str] and [repr] of an int of
    more than 4300 digits raise [ValueError]. *)
Fixpoint ints_printable (j : json) : bool :=
  match j with
  | JInt n => zlen (str_of_nonneg (Z.abs n)) <=? INT_MAX_STR_DIGITS
  | JList vs => forallb ints_printable vs
  | JObj kvs => forallb (fun kv => ints_printable kv.2) kvs
  | _ => true
  end.

Lemma dec_value_cons d ds : dec_value (d :: ds) = (d - 48) * 10 ^ zlen ds + dec_value ds.
Proof.
  induction ds as [|x ds IH] using rev_ind; [unfold dec_value; cbn [fold_left]; change (10 ^ zlen []) with 1; lia|].
  rewrite app_comm_cons, !dec_value_snoc, IH, zlen_app. change (zlen [x]) with 1.
  rewrite Z.pow_add_r by (pose proof (zlen_nonneg ds); lia). rewrite Z.pow_1_r. ring.
Qed.
Lemma dec_value_bound ds : Forall (fun c => is_digit c = true) ds -> 0 <= dec_value ds < 10 ^ zlen ds.
Proof.
  induction 1 as [|d ds Hd _ IH]; [done|]. rewrite dec_value_cons, zlen_cons. unfold is_digit in Hd. zbool.
  pose proof (zlen_nonneg ds).
  replace (1 + zlen ds) with (Z.succ (zlen ds)) by lia. rewrite Z.pow_succ_r by lia. nia.
Qed.
(** A number is not longer than any numeral that denotes it. *)
Lemma str_of_nonneg_shortest ds : Forall (fun c => is_digit c = true) ds -> ds <> [] ->
  zlen (str_of_nonneg (dec_value ds)) <= zlen ds.
Proof.
  intros Hd Hne. pose proof (dec_value_bound ds Hd) as [H0 Hlt].
  assert (1 <= zlen ds) by (destruct ds; [done|]; rewrite zlen_cons; pose proof (zlen_nonneg ds); lia).
  destruct (str_of_nonneg_spec (dec_value ds) H0) as (Hv & Hs & _ & Hh).
  destruct (Z.eq_dec (dec_value ds) 0) as [->|Hnz]; [rewrite str_of_nonneg_0; done|].
  destruct (Z.le_gt_cases (zlen (str_of_nonneg (dec_value ds))) (zlen ds)) as [|Hgt]; [done|]. exfalso.
  specialize (Hh ltac:(lia)). destruct (str_of_nonneg (dec_value ds)) as [|c r]; [rewrite zlen_nil in Hgt; lia|].
  rewrite zlen_cons in Hgt. inversion_clear Hs as [|? ? Hc Hr]. rewrite dec_value_cons in Hv.
  pose proof (dec_value_bound r Hr) as [Hr0 _]. unfold is_digit in Hc. zbool.
  assert (c <> 48) by (intros ->; done).
  assert (10 ^ zlen ds <= 10 ^ zlen r) by (apply Z.pow_le_mono_r; lia). nia.
Qed.

Lemma take_digits_digits s : Forall (fun c => is_digit c = true) (fst (take_digits s)).
Proof.
  induction s as [|c s IH]; [constructor|]. cbn [take_digits]. destruct (is_digit c) eqn:Ec; [|constructor].
  destruct (take_digits s). by constructor.
Qed.
Lemma scan_number_ints s v r : scan_number s = Ok (v, r) -> ints_printable v = true.
Proof.
  unfold scan_number. assert (forall neg q, scan_unsigned neg q = Ok (v, r) -> ints_printable v = true) as H.
  2: { destruct (eat 45 s); apply H. }
  intros neg q. unfold scan_unsigned.
  destruct (match eat 48 q with Some r0 => ([48], r0) | None => take_digits q end) as [ip q'] eqn:Ei.
  assert (Forall (fun c => is_digit c = true) ip) as Hd.
  { destruct (eat 48 q); [injection Ei as <- _; by repeat constructor|]. pose proof (take_digits_digits q). by rewrite Ei in *. }
  case_bool_decide as Hne; [done|]. destruct (scan_frac q'), (scan_exp _). case_goal; [|intros [= <- _]; done].
  case_goal; [done|]. zbool. intros [= <- _]. cbn [ints_printable]. apply Z.leb_le.
  pose proof (str_of_nonneg_shortest ip Hd Hne). pose proof (dec_value_bound ip Hd).
  replace (Z.abs _) with (dec_value ip) by (destruct neg; lia). lia.
Qed.

Definition parsed_ints {A} (P : A -> bool) (r : result (A * pystr)) : Prop :=
  match r with
  | Ok (a, _) => P a = true
  | Err _ => True
  end.
Lemma parsed_bind {A B} (P : A -> bool) (Q : B -> bool) (r : result (A * pystr)) f :
  parsed_ints P r -> (forall a q, P a = true -> parsed_ints Q (f (a, q))) -> parsed_ints Q (rbind r f).
Proof. destruct r as [[a q]|e]; cbn; auto. Qed.
Lemma parsed_expect {B} (Q : B -> bool) c s f : (forall q, parsed_ints Q (f q)) -> parsed_ints Q (rbind (expect c s) f).
Proof. intros H. destruct (expect c s); cbn; auto. Qed.
Lemma dict_set_ints k v d : ints_printable v = true -> ints_printable (JObj d) = true -> ints_printable (JObj (dict_set k v d)) = true.
Proof.
  intros Hv. cbn [ints_printable]. induction d as [|[k' v'] d IH]; cbn [dict_set forallb snd]; [intros _; apply andb_true_intro; by split|].
  intros [H1 H2]%andb_prop. destruct (streq _ _); cbn [forallb snd]; apply andb_true_intro; auto.
Qed.

Lemma parse_ints fuel :
  (forall s, parsed_ints ints_printable (parse_value fuel s)) /\
  (forall s, parsed_ints (forallb ints_printable) (parse_elements fuel s)) /\
  (forall acc s, ints_printable (JObj acc) = true -> parsed_ints (fun d => ints_printable (JObj d)) (parse_members fuel acc s)).
Proof.
  induction fuel as [|fuel (IHv & IHe & IHm)]; [by repeat split|]. repeat split.
  - intros [|c r]; [done|]. cbn [parse_value]. destruct (c =? 34); [by destruct (scan_str r) as [[t q]|]|].
    destruct (c =? 123); [destruct (eat 125 _); [done|]; eapply parsed_bind; [by apply IHm|]; done|].
    destruct (c =? 91); [destruct (eat 93 _); [done|]; eapply parsed_bind; [by apply IHe|]; done|].
    repeat (destruct (prefixb _ _); [done|]).
    destruct (scan_number (c :: r)) as [[v q]|e] eqn:E; cbn; [|done]. by eapply scan_number_ints.
  - intros s. cbn [parse_elements]. eapply parsed_bind; [apply IHv|]. intros v q Hv.
    destruct (eat 93 _); [cbn; by rewrite Hv|]. apply parsed_expect. intros q1.
    eapply parsed_bind; [apply IHe|]. intros vs q2 Hvs. cbn. by rewrite Hv.
  - intros acc s Hacc. cbn [parse_members]. unfold scan_key. rewrite rbind_assoc. apply parsed_expect. intros s1.
    destruct (scan_str s1) as [[k q]|]; cbn [rbind]; [|done]. apply parsed_expect. intros q1.
    eapply parsed_bind; [apply IHv|]. intros v q2 Hv. pose proof (dict_set_ints k v acc Hv Hacc).
    destruct (eat 125 _); [done|]. apply parsed_expect. intros q3. by apply IHm.
Qed.

Lemma loads_ints s v : loads s = Ok v -> ints_printable v = true.
Proof.
  unfold loads. destruct (prefixb _ s); [done|]. destruct (parse_ints (2 * length s + 2)) as (H & _ & _).
  specialize (H (skip_ws s)). destruct (parse_value _ _) as [[w q]|e]; cbn in *; [|done].
  destruct (skip_ws q); [|done]. by intros [= <-].
Qed.

(** ** Compact output with sorted keys *)

Lemma dumps_compact_loads j : json_ok j = true -> loads (dumps_with [44] [58] j) = Ok j.
Proof. apply (loads_dumps_with [] []); constructor. Qed.

Lemma dumps_compact_inj a b :
  json_ok a = true -> json_ok b = true ->
  dumps_with [44] [58] a = dumps_with [44] [58] b -> a = b.
Proof.
  intros Ha Hb E. pose proof (dumps_compact_loads a Ha) as H.
  rewrite E, dumps_compact_loads in H by done. by injection H.
Qed.

Lemma dumps_compact_printable j : json_ok j = true -> printable_str (dumps_with [44] [58] j).
Proof. apply (dumps_printable [] []); constructor. Qed.

Lemma insert_key_perm kv d : insert_key kv d ≡ₚ kv :: d.
Proof.
  induction d as [|kv' d IH]; cbn [insert_key]; [done|]. destruct (strleb _ _); [done|].
  rewrite IH. apply Permutation_swap.
Qed.
Lemma sort_items_perm d : sort_items d ≡ₚ d.
Proof.
  induction d as [|kv d IH]; cbn; [done|]. fold (sort_items d). by rewrite insert_key_perm, IH.
Qed.

Lemma distinct_NoDup ks : distinct ks = true <-> NoDup ks.
Proof.
  induction ks as [|k ks IH]; cbn [distinct]; [split; [constructor | done]|].
  rewrite andb_true_iff, IH, negb_true_iff, list.NoDup_cons, list_elem_of_In.
  assert (existsb (streq k) ks = false <-> ~ In k ks) as ->; [|done].
  rewrite <- not_true_iff_false, existsb_exists. split; intros H Hin; apply H.
  - exists k. split; [done | by apply streq_spec].
  - destruct Hin as (x & Hx & E). by apply streq_spec in E as ->.
Qed.

Lemma forallb_perm {A} (f : A -> bool) l l' : l ≡ₚ l' -> forallb f l = forallb f l'.
Proof.
  intros H. apply eq_true_iff_eq. rewrite !forallb_forall.
  split; intros Hf x Hx; apply Hf; (eapply Permutation_in; [|exact Hx]); [by symmetry | done].
Qed.

Lemma json_ok_sort_keys j : json_ok j = true -> json_ok (sort_keys j) = true.
Proof.
  induction j as [| | | | |vs IH|kvs IH] using json_ind'; intros Hj; try done; cbn [json_ok sort_keys] in *.
  - rewrite forallb_forall in *. intros x Hx. apply in_map_iff in Hx as (v & <- & Hv).
    rewrite List.Forall_forall in IH. auto.
  - zbool. apply andb_true_iff. split.
    + rewrite distinct_NoDup in *. rewrite sort_items_perm, List.map_map. done.
    + rewrite (forallb_perm _ _ _ (sort_items_perm _)). rewrite forallb_forall in *.
      intros x Hx. apply in_map_iff in Hx as ([k v] & <- & Hv). cbn [fst snd].
      rewrite List.Forall_forall in IH. specialize (IH _ Hv). specialize (H0 _ Hv). cbn [fst snd] in *. zbool.
      apply andb_true_iff. auto.
Qed.

Lemma dumps_canonical_inj a b :
  json_ok a = true -> json_ok b = true -> dumps_canonical a = dumps_canonical b -> sort_keys a = sort_keys b.
Proof. intros Ha Hb. apply dumps_compact_inj; by apply json_ok_sort_keys. Qed.

Lemma dumps_canonical_printable j : json_ok j = true -> printable_str (dumps_canonical j).
Proof. intros Hj. by apply dumps_compact_printable, json_ok_sort_keys. Qed.
