(* ===== verification/PyValue.v ===== *)
(** * JSON values as Python values

    What the program does with a decoded value it has not checked: use it as a
    dictionary key, convert it to text in a format string, call a string method
    on it, format a quotient. *)

From stdpp Require Import base strings list numbers option countable.
From Stdlib Require Import ZArith Lia Strings.Byte Floats.SpecFloat.
From S2P Require Import Prelude PyStr PyFloat Json.
Open Scope Z_scope.
Open Scope peerc_scope.

(** ** Dictionary keys

    Equal keys are one key: a bool is its integer, an integral float is the
    integer it equals. A NaN is the one object the JSON decoder yields for it,
    and is found by identity. *)
Inductive pykey : Type :=
  | KNone
  | KStr (s : pystr)
  | KInt (n : Z)
  | KFloat (x : pyfloat).
#[export] Instance pykey_eq_dec : EqDecision pykey.
Proof. solve_decision. Defined.

(** A float as integers: its kind, sign, mantissa and exponent. *)
Definition float_parts (x : pyfloat) : Z * bool * Z * Z :=
  match x with
  | S754_zero s => (0, s, 0, 0)
  | S754_infinity s => (1, s, 0, 0)
  | S754_nan => (2, false, 0, 0)
  | S754_finite s m e => (3, s, Zpos m, e)
  end.
#[export] Instance pykey_countable : Countable pykey.
Proof.
  refine (inj_countable' (fun k => match k with
                                   | KNone => inl (inl tt)
                                   | KStr s => inl (inr s)
                                   | KInt n => inr (inl n)
                                   | KFloat x => inr (inr (float_parts x))
                                   end)
            (fun c => match c with
                      | inl (inl _) => KNone
                      | inl (inr s) => KStr s
                      | inr (inl n) => KInt n
                      | inr (inr (k, s, m, e)) =>
                          KFloat (if k =? 0 then S754_zero s else if k =? 1 then S754_infinity s
                                  else if k =? 2 then S754_nan else S754_finite s (Z.to_pos m) e)
                      end) _).
  by intros [| | |[]].
Defined.

(** The integer a float equals, if any. *)
Definition float_integer (x : pyfloat) : option Z :=
  match x with
  | S754_zero _ => Some 0
  | S754_finite s m e =>
      let v := if 0 <=? e then Some (Zpos m * 2 ^ e)
               else if Zpos m mod 2 ^ (- e) =? 0 then Some (Zpos m / 2 ^ (- e)) else None in
      (fun n => if s then - n else n) <$> v
  | _ => None
  end.

(** [None] where hashing raises [TypeError]. *)
Definition key_of (v : json) : option pykey :=
  match v with
  | JNull => Some KNone
  | JBool b => Some (KInt (if b then 1 else 0))
  | JInt n => Some (KInt n)
  | JFloat x => Some (match float_integer x with
                      | Some n => KInt n
                      | None => KFloat x
                      end)
  | JStr s => Some (KStr s)
  | JList _ | JObj _ => None
  end.

Example key_of_ex :
  map key_of [JBool true; JFloat (float_of_int 1); JInt 1; JFloat (float_of_dec false 15 (-1)); JStr (py "1"); JList []]
  = [Some (KInt 1); Some (KInt 1); Some (KInt 1); Some (KFloat (float_of_dec false 15 (-1))); Some (KStr (py "1")); None].
Proof. vm_compute. reflexivity. Qed.

(** [isinstance(v, int)], booleans included. *)
Definition as_int (v : json) : option Z :=
  match v with
  | JInt n => Some n
  | JBool b => Some (if b then 1 else 0)
  | _ => None
  end.

(** A method only strings have. *)
Definition str_method (v : json) : result pystr :=
  match v with
  | JStr s => Ok s
  | _ => Err AttributeError
  end.

(** [v[:n]] for a value that is no dict. *)
Definition slice_to (n : nat) (v : json) : result pystr :=
  match v with
  | JStr s => Ok (take n s)
  | _ => Err TypeError
  end.

(** ** [str(v)] *)

Section Text.
(** [str.isprintable] of the code points above 127, a table of the Unicode database. *)
Variable isprintable : Z -> bool.

Definition hex_digits (n : nat) (c : Z) : pystr :=
  map (fun i => hexdigit (c / 16 ^ (Z.of_nat i) mod 16)) (rev (seq 0 n)).
Definition repr_char (quote c : Z) : pystr :=
  if (c =? quote) || (c =? 92) then [92; c]
  else if c =? 9 then [92; 116]
  else if c =? 10 then [92; 110]
  else if c =? 13 then [92; 114]
  else if (c <? 32) || (c =? 127) then 92 :: 120 :: hex_digits 2 c
  else if c <? 127 then [c]
  else if isprintable c then [c]
  else if c <? 0x100 then 92 :: 120 :: hex_digits 2 c
  else if c <? 0x10000 then 92 :: 117 :: hex_digits 4 c
  else 92 :: 85 :: hex_digits 8 c.
Definition repr_str (s : pystr) : pystr :=
  let quote := if bool_decide (39 ∈ s) && negb (bool_decide (34 ∈ s)) then 34 else 39 in
  quote :: flat_map (repr_char quote) s ++ [quote].

Fixpoint py_repr (v : json) : pystr :=
  match v with
  | JNull => py "None"
  | JBool true => py "True"
  | JBool false => py "False"
  | JInt n => str_of_int n
  | JFloat x => float_repr x
  | JStr s => repr_str s
  | JList vs => py "[" ++ join (py ", ") (map py_repr vs) ++ py "]"
  | JObj kvs => py "{" ++ join (py ", ") (map (fun kv => repr_str kv.1 ++ py ": " ++ py_repr kv.2) kvs) ++ py "}"
  end.
Definition py_text (v : json) : pystr :=
  match v with
  | JStr s => s
  | _ => py_repr v
  end.
End Text.

Example py_text_ex :
  py_text (fun _ => true) (JList [JStr [39; 10; 0xe9]; JObj [(py "k", JBool true)]; JNull])
  = py "[" ++ [34; 39; 92; 110; 0xe9; 34] ++ py ", {'k': True}, None]".
Proof. vm_compute. reflexivity. Qed.

(** ** Quotients *)

(** [a / b] of two integers: the nearest float, ties to even. *)
Definition int_truediv (a b : Z) : result pyfloat :=
  if b =? 0 then Err ZeroDivisionError
  else if a =? 0 then Ok (S754_zero (b <? 0))
  else
    let '(m, e, l) := SFdiv_core_binary 53 1024 (Z.abs a) 0 (Z.abs b) 0 in
    match binary_round_aux 53 1024 (xorb (a <? 0) (b <? 0)) m e l with
    | S754_infinity _ => Err OverflowError
    | x => Ok x
    end.
Definition float_mul (a b : pyfloat) : pyfloat := SFmul 53 1024 a b.

(** [format(x, ".nf")]: the decimal of [n] places nearest to the exact value,
    ties to even. *)
Definition fixed_point (n : nat) (v : Z) : pystr :=
  match n with
  | O => str_of_nonneg v
  | _ => str_of_nonneg (v / 10 ^ Z.of_nat n) ++ py "."
         ++ (let ds := str_of_nonneg (v mod 10 ^ Z.of_nat n) in zeros (Z.of_nat n - zlen ds) ++ ds)
  end.
Definition format_fixed (n : nat) (x : pyfloat) : pystr :=
  match x with
  | S754_nan => py "nan"
  | S754_infinity s => (if s then py "-" else []) ++ py "inf"
  | S754_zero s => (if s then py "-" else []) ++ fixed_point n 0
  | S754_finite s m e =>
      let num := if 0 <=? e then Zpos m * 2 ^ e else Zpos m in
      let den := if 0 <=? e then 1 else 2 ^ (- e) in
      (if s then py "-" else []) ++ fixed_point n (div_half_even (num * 10 ^ Z.of_nat n) den)
  end.

Example format_fixed_ex :
  map (fun ab => match int_truediv ab.1 ab.2 with Ok x => format_fixed 1 x | Err _ => [] end)
    [(1536, 1024); (1, 3); (-1, 4); (0, 7); (2500, 1024); (1, 20)]
  = [py "1.5"; py "0.3"; py "-0.2"; py "0.0"; py "2.4"; py "0.1"]
  /\ option_map (format_fixed 0) (match int_truediv 1 8 with Ok x => Some (float_mul x (float_of_int 100)) | _ => None end)
  = Some (py "12").
Proof. vm_compute. split; reflexivity. Qed.
