(* ===== verification/Sha256.v ===== *)
(** * SHA-256

    [hashlib.sha256] as FIPS 180-4 defines it, executable, on 32-bit words kept
    in range by an explicit mask. A hash object that is updated chunk by chunk
    is the list of the bytes it has absorbed: [h.update(a); h.update(b)] is
    [h.update(a + b)] by the documentation of [hashlib]. *)

From stdpp Require Import base strings list list_numbers numbers option.
From Stdlib Require Import ZArith Lia Strings.Byte.
From S2P Require Import Prelude PyStr.
Open Scope Z_scope.
Open Scope peerc_scope.

Definition mask32 (x : Z) : Z := Z.land x 0xffffffff.
Definition add32 (x y : Z) : Z := mask32 (x + y).
Definition not32 (x : Z) : Z := Z.lxor x 0xffffffff.
Definition shr32 (n x : Z) : Z := Z.shiftr x n.
Definition rotr32 (n x : Z) : Z := Z.lor (Z.shiftr x n) (mask32 (Z.shiftl x (32 - n))).
Definition xor3 (x y z : Z) : Z := Z.lxor x (Z.lxor y z).

Definition Ch (x y z : Z) : Z := Z.lxor (Z.land x y) (Z.land (not32 x) z).
Definition Maj (x y z : Z) : Z := xor3 (Z.land x y) (Z.land x z) (Z.land y z).
Definition Sigma0 (x : Z) : Z := xor3 (rotr32 2 x) (rotr32 13 x) (rotr32 22 x).
Definition Sigma1 (x : Z) : Z := xor3 (rotr32 6 x) (rotr32 11 x) (rotr32 25 x).
Definition sigma0 (x : Z) : Z := xor3 (rotr32 7 x) (rotr32 18 x) (shr32 3 x).
Definition sigma1 (x : Z) : Z := xor3 (rotr32 17 x) (rotr32 19 x) (shr32 10 x).

(** The constants of the standard: the first 32 bits of the fractional parts of
    the cube roots of the first 64 primes, and of the square roots of the first
    eight. *)
Definition is_prime (n : Z) : bool := forallb (fun d => negb (n mod d =? 0)) (seqZ 2 (Z.sqrt n - 1)).
Definition primes (bound : Z) : list Z := List.filter is_prime (seqZ 2 (bound - 1)).

(** The integer cube root, bit by bit from the top. *)
Fixpoint cube_root (bits : nat) (acc n : Z) : Z :=
  match bits with
  | O => acc
  | S bits => let c := acc + 2 ^ Z.of_nat bits in
              cube_root bits (if c * c * c <=? n then c else acc) n
  end.

Definition round_constants : list Z :=
  Eval vm_compute in map (fun p => mask32 (cube_root 36 0 (Z.shiftl p 96))) (primes 311).
Definition initial_words : list Z :=
  Eval vm_compute in map (fun p => mask32 (Z.sqrt (Z.shiftl p 64))) (primes 19).

Record hash_state : Type := HashState {
  ha : Z; hb : Z; hc : Z; hd : Z; he : Z; hf : Z; hg : Z; hh : Z
}.

Definition initial_hash : hash_state :=
  let w i := nth i initial_words 0 in
  HashState (w 0%nat) (w 1%nat) (w 2%nat) (w 3%nat) (w 4%nat) (w 5%nat) (w 6%nat) (w 7%nat).

(** The message schedule, extended from the 16 words of a block; the words are
    kept newest first. *)
Fixpoint schedule (n : nat) (ws : list Z) : list Z :=
  match n with
  | O => ws
  | S n =>
      let w := add32 (add32 (sigma1 (nth 1 ws 0)) (nth 6 ws 0))
                     (add32 (sigma0 (nth 14 ws 0)) (nth 15 ws 0)) in
      schedule n (w :: ws)
  end.

Fixpoint block_words (n : nat) (block : bytes) : list Z :=
  match n with
  | O => []
  | S n => be_decode (take 4 block) :: block_words n (drop 4 block)
  end.

Definition round_step (s : hash_state) (kw : Z * Z) : hash_state :=
  let t1 := add32 (add32 (hh s) (Sigma1 (he s)))
                  (add32 (Ch (he s) (hf s) (hg s)) (add32 kw.1 kw.2)) in
  let t2 := add32 (Sigma0 (ha s)) (Maj (ha s) (hb s) (hc s)) in
  HashState (add32 t1 t2) (ha s) (hb s) (hc s) (add32 (hd s) t1) (he s) (hf s) (hg s).

Definition compress (s : hash_state) (block : bytes) : hash_state :=
  let ws := rev (schedule 48 (rev (block_words 16 block))) in
  let t := fold_left round_step (combine round_constants ws) s in
  HashState (add32 (ha s) (ha t)) (add32 (hb s) (hb t)) (add32 (hc s) (hc t))
            (add32 (hd s) (hd t)) (add32 (he s) (he t)) (add32 (hf s) (hf t))
            (add32 (hg s) (hg t)) (add32 (hh s) (hh t)).

Definition pad (m : bytes) : bytes :=
  let k := Z.to_nat ((55 - zlen m) mod 64) in
  m ++ [x80] ++ replicate k x00 ++ be_encode 8 (8 * zlen m).

Fixpoint process (n : nat) (s : hash_state) (m : bytes) : hash_state :=
  match n with
  | O => s
  | S n => process n (compress s (take 64 m)) (drop 64 m)
  end.

Definition sha256 (m : bytes) : bytes :=
  let p := pad m in
  let s := process (length p / 64) initial_hash p in
  flat_map (be_encode 4) [ha s; hb s; hc s; hd s; he s; hf s; hg s; hh s].

(** [hashlib.sha256(m).hexdigest()] *)
Definition sha256_hex (m : bytes) : pystr := hex_of_bytes (sha256 m).

Lemma sha256_length m : length (sha256 m) = 32%nat.
Proof. done. Qed.

Lemma sha256_hex_length m : length (sha256_hex m) = 64%nat.
Proof. unfold sha256_hex. by rewrite hex_of_bytes_length, sha256_length. Qed.

Lemma pad_length m : (length (pad m) mod 64 = 0)%nat.
Proof.
  unfold pad. rewrite !length_app, length_replicate, be_encode_length. cbn [length].
  pose proof (Z.mod_pos_bound (55 - zlen m) 64 ltac:(lia)).
  pose proof (Z.div_mod (55 - zlen m) 64 ltac:(lia)) as Hd.
  apply Nat2Z.inj. rewrite Nat2Z.inj_mod, !Nat2Z.inj_add, Z2Nat.id by lia. fold (zlen m).
  replace (zlen m + _) with ((1 - (55 - zlen m) / 64) * 64) by lia.
  by rewrite Z_mod_mult.
Qed.

Example sha256_abc : sha256_hex (pyb "abc") =
  py "ba7816bf8f01cfea414140de5dae2223b00361a396177a9cb410ff61f20015ad".
Proof. vm_compute. reflexivity. Qed.
Example sha256_two_blocks :
  sha256_hex (pyb "abcdbcdecdefdefgefghfghighijhijkijkljklmklmnlmnomnopnopq") =
  py "248d6a61d20638b8e5c026930c3e6039a33ce45964ff2167f6ecedd419db06c1".
Proof. vm_compute. reflexivity. Qed.

#[global] Opaque sha256.
