(* ===== verification/Base64.v ===== *)
(** * The base64 codec of the Python standard library

    [base64.b64encode], and [base64.b64decode] in its lenient form (characters
    outside the alphabet are skipped) and its strict form ([validate=True]). *)

From stdpp Require Import base strings list numbers option.
From Stdlib Require Import ZArith Lia Strings.Byte.
From S2P Require Import Prelude PyStr.
Open Scope Z_scope.
Open Scope peerc_scope.

Definition b64char (n : Z) : Z :=
  if n <? 26 then 65 + n
  else if n <? 52 then 71 + n
  else if n <? 62 then n - 4
  else if n =? 62 then 43 else 47.
Definition unb64char (c : Z) : option Z :=
  if (65 <=? c) && (c <=? 90) then Some (c - 65)
  else if (97 <=? c) && (c <=? 122) then Some (c - 71)
  else if (48 <=? c) && (c <=? 57) then Some (c + 4)
  else if c =? 43 then Some 62
  else if c =? 47 then Some 63
  else None.

(** [base64.b64encode(bs).decode("ascii")] *)
Fixpoint b64encode (bs : bytes) : pystr :=
  match bs with
  | [] => []
  | [a] =>
      let a := b2z a in
      [b64char (a / 4); b64char (a mod 4 * 16); 61; 61]
  | [a; b] =>
      let a := b2z a in let b := b2z b in
      [b64char (a / 4); b64char (a mod 4 * 16 + b / 16); b64char (b mod 16 * 4); 61]
  | a :: b :: c :: r =>
      let a := b2z a in let b := b2z b in let c := b2z c in
      b64char (a / 4) :: b64char (a mod 4 * 16 + b / 16) :: b64char (b mod 16 * 4 + c / 64)
      :: b64char (c mod 64) :: b64encode r
  end.

(** [binascii.a2b_base64]: [quad] is the position in the current group of four,
    [left] the bits carried over, [pads] the pad characters since the last data
    character, [started] whether a pad character was seen. *)
Fixpoint a2b (strict : bool) (quad left pads : Z) (started : bool) (s : pystr) : option bytes :=
  match s with
  | [] => if quad =? 0 then Some [] else None
  | ch :: r =>
      if ch =? 61 then
        if strict && (quad =? 0) then None
        else if (2 <=? quad) then
          if 4 <=? quad + (pads + 1) then
            if strict then match r with [] => Some [] | _ => None end else Some []
          else a2b strict quad left (pads + 1) true r
        else a2b strict quad left pads true r
      else
        match unb64char ch with
        | None => if strict then None else a2b strict quad left pads started r
        | Some v =>
            if strict && started then None
            else if quad =? 0 then a2b strict 1 v 0 started r
            else if quad =? 1 then cons (z2b (left * 4 + v / 16)) <$> a2b strict 2 (v mod 16) 0 started r
            else if quad =? 2 then cons (z2b (left * 16 + v / 4)) <$> a2b strict 3 (v mod 4) 0 started r
            else cons (z2b (left * 64 + v)) <$> a2b strict 0 0 0 started r
        end
  end.

(** [base64.b64decode(s, validate=strict)] of a string. *)
Definition b64decode (strict : bool) (s : pystr) : result bytes :=
  if forallb is_ascii s then
    match a2b strict 0 0 0 false s with
    | Some bs => Ok bs
    | None => Err ValueError
    end
  else Err ValueError.

Example b64_ex : b64encode (pyb "hello") = py "aGVsbG8=".
Proof. vm_compute. reflexivity. Qed.
Example b64_lenient_ex : b64decode false (py "aGV sbG8=trailing") = Ok (pyb "hello").
Proof. vm_compute. reflexivity. Qed.
Example b64_strict_ex : b64decode true (py "aGV sbG8=") = Err ValueError.
Proof. vm_compute. reflexivity. Qed.

Lemma b64_alphabet (P : Z -> bool) n : forallb P (seqZ 0 64) = true -> 0 <= n < 64 -> P n = true.
Proof. rewrite forallb_forall. intros H Hn. apply H, list_elem_of_In, elem_of_seqZ. lia. Qed.

Lemma unb64char_b64char n : 0 <= n < 64 -> unb64char (b64char n) = Some n.
Proof.
  intros Hn. pose (P := fun n => match unb64char (b64char n) with Some m => m =? n | None => false end).
  pose proof (b64_alphabet P n ltac:(by vm_compute) Hn) as H. unfold P in H. case_in H; [|done]. by zbool; subst.
Qed.

Lemma b64char_not_pad n : 0 <= n < 64 -> b64char n <> 61.
Proof. intros Hn. unfold b64char. zcases; lia. Qed.
Lemma b64char_range n : 0 <= n < 64 -> 43 <= b64char n <= 122.
Proof. intros Hn. unfold b64char. zcases; lia. Qed.

Lemma a2b_data strict quad left pads n r :
  0 <= n < 64 ->
  a2b strict quad left pads false (b64char n :: r) =
    if quad =? 0 then a2b strict 1 n 0 false r
    else if quad =? 1 then cons (z2b (left * 4 + n / 16)) <$> a2b strict 2 (n mod 16) 0 false r
    else if quad =? 2 then cons (z2b (left * 16 + n / 4)) <$> a2b strict 3 (n mod 4) 0 false r
    else cons (z2b (left * 64 + n)) <$> a2b strict 0 0 0 false r.
Proof.
  intros Hn. cbn [a2b]. pose proof (b64char_not_pad n Hn) as H61.
  rewrite (proj2 (Z.eqb_neq _ 61) H61), unb64char_b64char, andb_false_r by done. done.
Qed.

Lemma div_pair a b k : 0 <= b < k -> (a * k + b) / k = a.
Proof. intros H. rewrite Z.div_add_l by lia. rewrite Z.div_small by lia. lia. Qed.
Lemma mod_pair a b k : 0 <= b < k -> (a * k + b) mod k = b.
Proof. intros H. rewrite Z.add_comm, Z_mod_plus_full. by apply Z.mod_small. Qed.

Lemma byte_split x :
  let a := b2z x in
  0 <= a / 4 < 64 /\ 0 <= a / 16 < 16 /\ 0 <= a / 64 < 4 /\ 0 <= a mod 4 < 4 /\ 0 <= a mod 16 < 16 /\
  0 <= a mod 64 < 64 /\ a = a / 4 * 4 + a mod 4 /\ a = a / 16 * 16 + a mod 16 /\ a = a / 64 * 64 + a mod 64.
Proof. intros a. pose proof (b2z_range x) as H. fold a in H. clearbody a. Z.div_mod_to_equations. lia. Qed.

Lemma a2b_encode strict bs : forall pads, a2b strict 0 0 pads false (b64encode bs) = Some bs.
Proof.
  induction bs as [bs IH] using (well_founded_induction (well_founded_ltof _ (@length byte))). unfold ltof in IH.
  intros pads. destruct bs as [|x [|y [|z bs]]]; cbn [b64encode]; [done| | |].
  - destruct (byte_split x) as (? & ? & ? & ? & ? & ? & Hx & _).
    rewrite !a2b_data by lia. cbn [Z.eqb a2b orb andb].
    rewrite Z.div_mul by lia. rewrite <- Hx, z2b_b2z.
    by destruct strict.
  - destruct (byte_split x) as (? & ? & ? & ? & ? & ? & Hx & _).
    destruct (byte_split y) as (? & ? & ? & ? & ? & ? & _ & Hy & _).
    rewrite !a2b_data by lia. cbn [Z.eqb a2b orb andb].
    rewrite div_pair, mod_pair by lia.
    rewrite Z.div_mul by lia.
    rewrite <- Hx, <- Hy, !z2b_b2z. by destruct strict.
  - destruct (byte_split x) as (? & ? & ? & ? & ? & ? & Hx & _).
    destruct (byte_split y) as (? & ? & ? & ? & ? & ? & _ & Hy & _).
    destruct (byte_split z) as (? & ? & ? & ? & ? & ? & _ & _ & Hz).
    rewrite !a2b_data by lia. cbn [Z.eqb].
    rewrite div_pair, mod_pair by lia.
    rewrite div_pair, mod_pair by lia.
    rewrite <- Hx, <- Hy, <- Hz, !z2b_b2z, IH by (cbn; lia). done.
Qed.

Lemma b64encode_chars bs : Forall (fun c => 43 <= c <= 122) (b64encode bs).
Proof.
  induction bs as [bs IH] using (well_founded_induction (well_founded_ltof _ (@length byte))). unfold ltof in IH.
  destruct bs as [|x [|y [|z bs]]]; cbn [b64encode]; [constructor| | |].
  - destruct (byte_split x) as (? & ? & ? & ? & ? & ? & _).
    repeat (constructor; [first [apply b64char_range; lia | lia]|]). constructor.
  - destruct (byte_split x) as (? & ? & ? & ? & ? & ? & _), (byte_split y) as (? & ? & ? & ? & ? & ? & _).
    repeat (constructor; [first [apply b64char_range; lia | lia]|]). constructor.
  - destruct (byte_split x) as (? & ? & ? & ? & ? & ? & _), (byte_split y) as (? & ? & ? & ? & ? & ? & _),
      (byte_split z) as (? & ? & ? & ? & ? & ? & _).
    do 4 (constructor; [apply b64char_range; lia|]). apply IH. cbn. lia.
Qed.

Lemma b64encode_printable bs : printable_str (b64encode bs).
Proof.
  eapply List.Forall_impl; [|apply b64encode_chars]. intros c Hc. cbn beta in Hc. unfold printable.
  apply andb_true_iff. split; [apply Z.leb_le | apply Z.ltb_lt]; lia.
Qed.

(** Both forms of the decoder invert the encoder. *)
Lemma b64decode_encode strict bs : b64decode strict (b64encode bs) = Ok bs.
Proof.
  unfold b64decode. pose proof (printable_ascii _ (b64encode_printable bs)) as Ha.
  replace (forallb is_ascii (b64encode bs)) with true.
  - by rewrite a2b_encode.
  - symmetry. apply forallb_forall. intros c Hc. unfold ascii_str in Ha. rewrite List.Forall_forall in Ha. auto.
Qed.

Lemma b64encode_inj a b : b64encode a = b64encode b -> a = b.
Proof. intros E. pose proof (b64decode_encode true a) as H. rewrite E, b64decode_encode in H. congruence. Qed.

Lemma b64encode_length bs : zlen (b64encode bs) = 4 * ((zlen bs + 2) / 3).
Proof.
  induction bs as [bs IH] using (well_founded_induction (well_founded_ltof _ (@length byte))). unfold ltof in IH.
  destruct bs as [|x [|y [|z bs]]]; [done..|]. cbn [b64encode]. rewrite !zlen_cons, IH by (cbn; lia).
  replace (1 + (1 + (1 + zlen bs)) + 2) with (zlen bs + 2 + 1 * 3) by lia.
  rewrite Z.div_add by lia. lia.
Qed.

Lemma b64decode_errors strict s e : b64decode strict s = Err e -> e = ValueError.
Proof. unfold b64decode. intros H. repeat case_in H; congruence. Qed.
