(* ===== verification/Frame.v ===== *)
(** * core/protocol/frame.py: length-prefixed frames

    A frame is a 4-byte big-endian header and a payload; the top bit of the
    header marks a binary payload. An [asyncio.StreamReader] is the list of the
    bytes that will still arrive before the end of the stream. *)

From stdpp Require Import base strings list numbers option.
From Stdlib Require Import ZArith Lia Strings.Byte.
From S2P Require Import Prelude PyStr PyFloat Json JsonFacts.
Open Scope Z_scope.
Open Scope peerc_scope.

Definition LENGTH_PREFIX_SIZE : Z := 4.
Definition MAX_MESSAGE_SIZE : Z := 100 * 1024 * 1024.
Definition BINARY_FLAG : Z := 0x80000000.

(** [struct.pack(">I", n)] *)
Definition struct_pack_I (n : Z) : result bytes :=
  if (0 <=? n) && (n <? 2 ^ 32) then Ok (be_encode 4 n) else Err StructError.

Definition encode_frame (message : json) : result bytes :=
  let* payload := utf8_encode (dumps message) in
  if MAX_MESSAGE_SIZE <? zlen payload then Err ProtocolError else
  let* header := struct_pack_I (zlen payload) in
  Ok (header ++ payload).

Definition encode_binary_frame (payload : bytes) : result bytes :=
  if MAX_MESSAGE_SIZE <? zlen payload then Err ProtocolError else
  let* header := struct_pack_I (Z.lor (zlen payload) BINARY_FLAG) in
  Ok (header ++ payload).

(** [await reader.readexactly(n)] *)
Definition readexactly (n : Z) (reader : bytes) : result (bytes * bytes) :=
  if zlen reader <? n then Err IncompleteReadError
  else Ok (take (Z.to_nat n) reader, drop (Z.to_nat n) reader).

Inductive frame : Type :=
  | FJson (message : json)
  | FBinary (payload : bytes).

Inductive raw_kind : Type := KJson | KBinary.

Definition read_raw (reader : bytes) : result ((raw_kind * bytes) * bytes) :=
  let* (header, reader) := readexactly LENGTH_PREFIX_SIZE reader in
  let raw_length := be_decode header in
  let is_binary := negb (Z.land raw_length BINARY_FLAG =? 0) in
  let len := Z.land raw_length (Z.lnot BINARY_FLAG) in
  if (len =? 0) || (MAX_MESSAGE_SIZE <? len) then Err ProtocolError else
  let* (payload, reader) := readexactly len reader in
  Ok ((if is_binary then KBinary else KJson, payload), reader).

Definition decode_json (payload : bytes) : result json :=
  rcatch (let* text := utf8_decode payload in loads text)
         (fun e => match e with
                   | JSONDecodeError | UnicodeDecodeError => Some (Err ProtocolError)
                   | _ => None
                   end).

Definition read_frame (reader : bytes) : result (json * bytes) :=
  let* (kp, reader) := read_raw reader in
  match kp with
  | (KJson, payload) => let* message := decode_json payload in Ok (message, reader)
  | (KBinary, _) => Err ProtocolError
  end.

Definition read_any_frame (reader : bytes) : result (frame * bytes) :=
  let* (kp, reader) := read_raw reader in
  match kp with
  | (KJson, payload) => let* message := decode_json payload in Ok (FJson message, reader)
  | (KBinary, payload) => Ok (FBinary payload, reader)
  end.

(** [write_frame] and [write_binary_frame] append to the bytes queued on the
    writer. *)
Definition write_frame (written : bytes) (message : json) : result bytes :=
  let* f := encode_frame message in Ok (written ++ f).
Definition write_binary_frame (written : bytes) (payload : bytes) : result bytes :=
  let* f := encode_binary_frame payload in Ok (written ++ f).

(** ** Header arithmetic *)

Lemma flag_disjoint n : 0 <= n < 2 ^ 31 -> Z.land n BINARY_FLAG = 0.
Proof.
  intros Hn. apply Z.bits_inj'. intros i Hi. rewrite Z.land_spec, Z.bits_0.
  change BINARY_FLAG with (2 ^ 31). rewrite Z.pow2_bits_eqb by lia.
  destruct (Z.eqb_spec 31 i) as [<-|]; [|by rewrite andb_false_r].
  rewrite andb_true_r. rewrite <- (Z.mod_small n (2 ^ 31)) by lia.
  by rewrite Z.mod_pow2_bits_high by lia.
Qed.

Lemma flag_header_bounds n : 0 <= n < 2 ^ 31 -> Z.lor n BINARY_FLAG = n + BINARY_FLAG.
Proof.
  intros Hn. pose proof (flag_disjoint n Hn). rewrite <- Z.lxor_lor by done.
  by rewrite Z.add_nocarry_lxor.
Qed.

Lemma flag_header_flag n :
  0 <= n < 2 ^ 31 -> Z.land (Z.lor n BINARY_FLAG) BINARY_FLAG = BINARY_FLAG.
Proof.
  intros Hn. rewrite Z.land_lor_distr_l, flag_disjoint by done.
  by rewrite Z.land_diag, Z.lor_0_l.
Qed.

Lemma plain_header_len n : 0 <= n < 2 ^ 31 -> Z.land n (Z.lnot BINARY_FLAG) = n.
Proof.
  intros Hn. pose proof (flag_disjoint n Hn) as H. rewrite <- Z.ldiff_land.
  apply Z.bits_inj'. intros i Hi. rewrite Z.ldiff_spec.
  apply (f_equal (fun z => Z.testbit z i)) in H. rewrite Z.land_spec, Z.bits_0 in H.
  destruct (Z.testbit n i), (Z.testbit BINARY_FLAG i); done.
Qed.

Lemma flag_header_len n :
  0 <= n < 2 ^ 31 -> Z.land (Z.lor n BINARY_FLAG) (Z.lnot BINARY_FLAG) = n.
Proof.
  intros Hn. rewrite Z.land_lor_distr_l, Z.land_lnot_diag, Z.lor_0_r. by apply plain_header_len.
Qed.

Lemma struct_pack_I_ok n : 0 <= n < 2 ^ 32 -> struct_pack_I n = Ok (be_encode 4 n).
Proof.
  intros H. unfold struct_pack_I.
  by rewrite (proj2 (Z.leb_le 0 n)), (proj2 (Z.ltb_lt n _)) by lia.
Qed.

Lemma readexactly_app xs ys n : zlen xs = n -> readexactly n (xs ++ ys) = Ok (xs, ys).
Proof.
  intros <-. unfold readexactly. rewrite zlen_app. pose proof (zlen_nonneg ys).
  rewrite (proj2 (Z.ltb_ge _ _)) by lia. unfold zlen. rewrite Nat2Z.id.
  by rewrite take_app_length, drop_app_length.
Qed.

Lemma readexactly_ok n reader bs rest :
  0 <= n -> readexactly n reader = Ok (bs, rest) -> reader = bs ++ rest /\ zlen bs = n.
Proof.
  unfold readexactly. intros Hn. destruct (zlen reader <? n) eqn:E; [done|].
  intros [= <- <-]. zbool. rewrite take_drop. split; [done|].
  unfold zlen in *. rewrite length_take. lia.
Qed.

Lemma read_raw_header h len kind payload rest :
  0 <= h < 2 ^ 32 ->
  Z.land h (Z.lnot BINARY_FLAG) = len -> 0 < len <= MAX_MESSAGE_SIZE -> zlen payload = len ->
  (if negb (Z.land h BINARY_FLAG =? 0) then KBinary else KJson) = kind ->
  read_raw (be_encode 4 h ++ payload ++ rest) = Ok ((kind, payload), rest).
Proof.
  intros Hh Hlen Hb Hp Hk. unfold read_raw.
  rewrite readexactly_app by (unfold zlen; by rewrite be_encode_length). cbn [rbind].
  rewrite be_decode_encode_small by (change (256 ^ Z.of_nat 4) with (2 ^ 32); lia).
  rewrite Hlen, (proj2 (Z.eqb_neq len 0)), (proj2 (Z.ltb_ge _ len)) by lia. cbn [orb].
  rewrite readexactly_app by done. cbn [rbind]. by rewrite Hk.
Qed.

(** ** One frame *)

Definition frame_ok (f : frame) : bool :=
  match f with
  | FJson m => json_ok m && (zlen (dumps m) <=? MAX_MESSAGE_SIZE)
  | FBinary p => (0 <? zlen p) && (zlen p <=? MAX_MESSAGE_SIZE)
  end.
Definition encode_any (f : frame) : result bytes :=
  match f with
  | FJson m => encode_frame m
  | FBinary p => encode_binary_frame p
  end.

Lemma max_message_size_small : MAX_MESSAGE_SIZE < 2 ^ 31.
Proof. done. Qed.

Lemma decode_json_dumps m : json_ok m = true -> decode_json (map z2b (dumps m)) = Ok m.
Proof.
  intros Hm. unfold decode_json. rewrite utf8_decode_ascii by by apply dumps_ascii.
  cbn [rbind]. by rewrite loads_dumps.
Qed.

Lemma encode_frame_ok m :
  frame_ok (FJson m) = true ->
  encode_frame m = Ok (be_encode 4 (zlen (dumps m)) ++ map z2b (dumps m)).
Proof.
  intros H. simpl in H. zbool. unfold encode_frame.
  rewrite utf8_encode_ascii by by apply dumps_ascii. cbn [rbind].
  pose proof max_message_size_small.
  assert (zlen (map z2b (dumps m)) = zlen (dumps m)) as -> by (unfold zlen; by rewrite length_map).
  rewrite (proj2 (Z.ltb_ge _ _)) by lia. pose proof (zlen_nonneg (dumps m)).
  by rewrite struct_pack_I_ok by lia.
Qed.

Lemma encode_binary_frame_ok p :
  zlen p <= MAX_MESSAGE_SIZE ->
  encode_binary_frame p = Ok (be_encode 4 (Z.lor (zlen p) BINARY_FLAG) ++ p).
Proof.
  intros H. unfold encode_binary_frame. pose proof max_message_size_small.
  rewrite (proj2 (Z.ltb_ge _ _)) by lia. pose proof (zlen_nonneg p).
  rewrite struct_pack_I_ok; [done|]. rewrite flag_header_bounds by lia. unfold BINARY_FLAG. lia.
Qed.

Lemma read_encoded f bs rest :
  frame_ok f = true -> encode_any f = Ok bs -> read_any_frame (bs ++ rest) = Ok (f, rest).
Proof.
  intros Hf Hbs. pose proof max_message_size_small. destruct f as [m|p].
  - assert (Hf' := Hf). cbn [encode_any frame_ok] in Hbs, Hf'. rewrite encode_frame_ok in Hbs by done.
    assert (bs = be_encode 4 (zlen (dumps m)) ++ map z2b (dumps m)) as -> by congruence. zbool.
    assert (0 < zlen (dumps m)).
    { pose proof (dumps_nonempty m ltac:(done)). unfold zlen. destruct (dumps m); [done|]. simpl. lia. }
    rewrite <- app_assoc. unfold read_any_frame. erewrite read_raw_header with (kind := KJson).
    + cbn [rbind]. by rewrite decode_json_dumps.
    + lia.
    + apply plain_header_len. lia.
    + lia.
    + unfold zlen. by rewrite length_map.
    + by rewrite flag_disjoint by lia.
  - cbn [encode_any frame_ok] in Hbs, Hf. zbool. rewrite encode_binary_frame_ok in Hbs by done.
    assert (bs = be_encode 4 (Z.lor (zlen p) BINARY_FLAG) ++ p) as -> by congruence. rewrite <- app_assoc. unfold read_any_frame.
    erewrite read_raw_header with (kind := KBinary); [done|..].
    + rewrite flag_header_bounds by lia. unfold BINARY_FLAG. lia.
    + apply flag_header_len. lia.
    + lia.
    + done.
    + by rewrite flag_header_flag by lia.
Qed.

(** ** Streams of frames *)

Fixpoint encode_stream (fs : list frame) : result bytes :=
  match fs with
  | [] => Ok []
  | f :: fs => let* b := encode_any f in let* bs := encode_stream fs in Ok (b ++ bs)
  end.
Fixpoint read_stream (n : nat) (reader : bytes) : result (list frame * bytes) :=
  match n with
  | O => Ok ([], reader)
  | S n => let* (f, reader) := read_any_frame reader in
           let* (fs, reader) := read_stream n reader in
           Ok (f :: fs, reader)
  end.

(** C21: every sequence of well-formed JSON and binary frames can be encoded,
    and reading the concatenated bytes, whatever follows them on the stream,
    returns exactly that sequence, in order, and leaves the rest unread. *)
Theorem frame_stream_roundtrip fs rest :
  forallb frame_ok fs = true ->
  exists bs, encode_stream fs = Ok bs /\ read_stream (length fs) (bs ++ rest) = Ok (fs, rest).
Proof.
  induction fs as [|f fs IH]; simpl; intros H; [by exists []|]. zbool.
  destruct IH as (bs & E & R); [done|].
  assert (exists b, encode_any f = Ok b) as [b Eb].
  { destruct f; simpl in *; [rewrite encode_frame_ok by done | zbool; rewrite encode_binary_frame_ok by lia];
      eauto. }
  exists (b ++ bs). rewrite Eb, E. split; [done|]. rewrite <- app_assoc.
  rewrite (read_encoded f b) by done. cbn [rbind]. by rewrite R.
Qed.

Lemma frame_stream_roundtrip_witness :
  exists bs, encode_stream [FJson (JObj [(py "type", JStr (py "chat_ack"))]); FBinary [x00; x01]] = Ok bs
  /\ read_stream 2 (bs ++ [x07]) =
     Ok ([FJson (JObj [(py "type", JStr (py "chat_ack"))]); FBinary [x00; x01]], [x07]).
Proof.
  apply (frame_stream_roundtrip [FJson (JObj [(py "type", JStr (py "chat_ack"))]); FBinary [x00; x01]] [x07]).
  vm_compute. reflexivity.
Defined.

(** ** What a hostile peer can make the reader do *)

Lemma read_raw_ok reader kind payload rest :
  read_raw reader = Ok ((kind, payload), rest) ->
  exists header, reader = header ++ payload ++ rest /\ zlen header = 4 /\
  0 < zlen payload <= MAX_MESSAGE_SIZE.
Proof.
  unfold read_raw. intros H. apply rbind_ok in H as ([header r1] & H1 & H2).
  apply readexactly_ok in H1 as [-> Hh]; [|done].
  match type of H2 with (if ?c then _ else _) = _ => destruct c eqn:E end; [done|]. zbool.
  apply rbind_ok in H2 as ([p r2] & H3 & H4). injection H4 as <- <- <-.
  assert (0 <= Z.land (be_decode header) (Z.lnot BINARY_FLAG)) as Hn.
  { apply Z.land_nonneg. left. apply be_decode_range. }
  apply readexactly_ok in H3 as [-> Hp]; [|done]. exists header. repeat split; [done|lia|lia].
Qed.

Lemma decode_json_errors p e : decode_json p = Err e -> e = ProtocolError \/ e = ValueError.
Proof.
  unfold decode_json. destruct (utf8_decode p) as [s|e'] eqn:E; cbn [rbind].
  - destruct (loads s) as [j|e'] eqn:El; cbn [rcatch]; [done|].
    apply loads_errors in El as [-> | ->]; intros [= <-]; auto.
  - unfold utf8_decode in E. destruct (utf8_decode_opt p); [done|]. injection E as <-.
    intros [= <-]. auto.
Qed.

(** The integers of a decoded message can be formatted: [json.loads] has refused
    longer ones. *)
Lemma decode_json_ints p m : decode_json p = Ok m -> ints_printable m = true.
Proof.
  unfold decode_json. destruct (utf8_decode p) as [s|e]; cbn [rbind]; [|by destruct e].
  destruct (loads s) as [j|e] eqn:El; cbn [rcatch]; [|by destruct e]. intros [= <-]. by eapply loads_ints.
Qed.
Lemma read_any_frame_ints reader m rest : read_any_frame reader = Ok (FJson m, rest) -> ints_printable m = true.
Proof.
  unfold read_any_frame. intros ([[[] p] r] & _ & H)%rbind_ok; [|done].
  apply rbind_ok in H as (m' & Hm & [= -> _]). by eapply decode_json_ints.
Qed.
Lemma read_frame_ints reader m rest : read_frame reader = Ok (m, rest) -> ints_printable m = true.
Proof.
  unfold read_frame. intros ([[[] p] r] & _ & H)%rbind_ok; [|done].
  apply rbind_ok in H as (m' & Hm & [= -> _]). by eapply decode_json_ints.
Qed.

Lemma readexactly_errors n r e : readexactly n r = Err e -> e = IncompleteReadError.
Proof. unfold readexactly. case_match; [by intros [= <-] | done]. Qed.

Lemma read_any_frame_cases reader :
  match read_any_frame reader with
  | Ok (f, rest) =>
      exists header payload, reader = header ++ payload ++ rest /\ zlen header = 4 /\
      0 < zlen payload <= MAX_MESSAGE_SIZE /\
      match f with
      | FBinary p => p = payload
      | FJson m => decode_json payload = Ok m
      end
  | Err e => e = IncompleteReadError \/ e = ProtocolError \/ e = ValueError
  end.
Proof.
  unfold read_any_frame. destruct (read_raw reader) as [[[k p] rest]|e] eqn:E; cbn [rbind].
  - apply read_raw_ok in E as (h & -> & Hh & Hp). destruct k; [|by exists h, p].
    destruct (decode_json p) as [m|e] eqn:Ej; cbn [rbind]; [by exists h, p|].
    apply decode_json_errors in Ej. tauto.
  - unfold read_raw in E. destruct (readexactly _ reader) as [[h r1]|e'] eqn:E1; cbn [rbind] in E.
    + match type of E with (if ?c then _ else _) = _ => destruct c end; [injection E as <-; auto|].
      destruct (readexactly _ r1) as [[p r2]|e'] eqn:E2; cbn [rbind] in E; [done|].
      apply readexactly_errors in E2. injection E as <-. auto.
    + apply readexactly_errors in E1. injection E as <-. auto.
Qed.

(** On arbitrary bytes [read_any_frame] either fails with
    [IncompleteReadError] (end of stream), [ProtocolError] or [ValueError], or
    returns a frame having consumed exactly a 4-byte header and a payload of 1
    to [MAX_MESSAGE_SIZE] bytes: it never over-reads and never buffers more
    than the cap. *)
Theorem read_any_frame_safe reader :
  match read_any_frame reader with
  | Ok (f, rest) =>
      exists header payload, reader = header ++ payload ++ rest /\ zlen header = 4 /\
      0 < zlen payload <= MAX_MESSAGE_SIZE /\
      match f with
      | FBinary p => p = payload
      | FJson m => decode_json payload = Ok m
      end
  | Err e => e = IncompleteReadError \/ e = ProtocolError \/ e = ValueError
  end.
Proof. apply read_any_frame_cases. Qed.

(** [read_any_frame] is documented to report malformed frames as
    [ProtocolError], but a JSON payload holding an integer of 4301 digits makes
    [json.loads] raise a plain [ValueError], which [_decode_json] does not
    translate. *)
Theorem long_integer_escapes_translation :
  read_any_frame (be_encode 4 4301 ++ replicate 4301 x39) = Err ValueError.
Proof. by vm_compute. Qed.
