(* ===== verification/FileData.v ===== *)
(** * core/protocol/binary.py: the payload of a file_data frame

    16 bytes of transfer id, a uint32 sequence number, a uint64 offset, then
    the chunk. The [uuid] functions the module calls are modelled first. *)

From stdpp Require Import base strings list numbers option.
From Stdlib Require Import ZArith Lia Strings.Byte.
From S2P Require Import Prelude PyStr.
Open Scope Z_scope.
Open Scope peerc_scope.

(** ** [uuid.UUID] *)

(** [s.replace(p, "")] for a non-empty [p]; [k] characters are still to skip. *)
Fixpoint remove_sub (p : pystr) (k : nat) (s : pystr) : pystr :=
  match s with
  | [] => []
  | c :: r =>
      match k with
      | S k => remove_sub p k r
      | O => if prefixb p s then remove_sub p (length p - 1) r else c :: remove_sub p 0 r
      end
  end.

(** The digits of [int(s, 16)]: single underscores may separate digits.
    [us] tells whether an underscore may come next. *)
Fixpoint hex_digits (us : bool) (acc : Z) (s : pystr) : option Z :=
  match s with
  | [] => if us then Some acc else None
  | c :: r =>
      if c =? 95 then (if us then hex_digits false acc r else None)
      else match unhex c with
           | Some d => hex_digits true (acc * 16 + d) r
           | None => None
           end
  end.

(** [int(s, 16)] *)
Definition int_base16 (s : pystr) : option Z :=
  let s := strip s in
  let '(neg, s) := match s with
                   | c :: r => if c =? 45 then (true, r) else if c =? 43 then (false, r) else (false, s)
                   | [] => (false, s)
                   end in
  let '(us, s) := if prefixb (py "0x") s || prefixb (py "0X") s then (true, drop 2 s) else (false, s) in
  let s := match s with
           | c :: r => if us && (c =? 95) then r else s
           | [] => s
           end in
  n ← hex_digits false 0 s;
  Some (if neg then - n else n).

Definition is_brace (c : Z) : bool := (c =? 123) || (c =? 125).

(** [uuid.UUID(s).bytes] *)
Definition parse_uuid (s : pystr) : result bytes :=
  let hex := remove_sub (py "uuid:") 0 (remove_sub (py "urn:") 0 s) in
  let hex := remove_char 45 (strip_by is_brace hex) in
  if negb (zlen hex =? 32) then Err ValueError else
  match int_base16 hex with
  | Some n => if (0 <=? n) && (n <? 2 ^ 128) then Ok (be_encode 16 n) else Err ValueError
  | None => Err ValueError
  end.

(** [str(uuid.UUID(bytes=b))] *)
Definition uuid_str (b : bytes) : pystr :=
  let h := hex_of_bytes b in
  take 8 h ++ [45] ++ take 4 (drop 8 h) ++ [45] ++ take 4 (drop 12 h) ++ [45]
  ++ take 4 (drop 16 h) ++ [45] ++ drop 20 h.

(** ** The codec *)

Definition HEADER_SIZE : Z := 28.

Record file_data : Type := FileDataMsg {
  fd_transfer_id : pystr;
  fd_sequence : Z;
  fd_offset : Z;
  fd_data : bytes
}.

Definition encode_file_data (transfer_id : pystr) (sequence offset : Z) (data : bytes) : result bytes :=
  let* tid_bytes := rcatch (parse_uuid transfer_id)
                           (fun e => match e with
                                     | ValueError => Some (Err ProtocolError)
                                     | _ => None
                                     end) in
  if (sequence <? 0) || (0xFFFFFFFF <? sequence) then Err ProtocolError else
  if (offset <? 0) || (0xFFFFFFFFFFFFFFFF <? offset) then Err ProtocolError else
  let header := tid_bytes ++ be_encode 4 sequence ++ be_encode 8 offset in
  Ok (header ++ data).

Definition decode_file_data (payload : bytes) : result file_data :=
  if zlen payload <? HEADER_SIZE then Err ProtocolError else
  let tid_bytes := take 16 payload in
  let sequence := be_decode (take 4 (drop 16 payload)) in
  let offset := be_decode (take 8 (drop 20 payload)) in
  Ok (FileDataMsg (uuid_str tid_bytes) sequence offset (drop 28 payload)).

Example parse_uuid_ex :
  parse_uuid (py "{urn:uuid:12345678-1234-5678-1234-567812345678}")
  = Ok (be_encode 16 0x12345678123456781234567812345678).
Proof. vm_compute. reflexivity. Qed.
Example uuid_str_ex :
  uuid_str (be_encode 16 0x12345678123456781234567812345678) = py "12345678-1234-5678-1234-567812345678".
Proof. vm_compute. reflexivity. Qed.

(** ** [uuid_str] and [parse_uuid] are inverse *)

Definition hexchar (c : Z) : Prop := exists n, 0 <= n < 16 /\ c = hexdigit n.

Lemma hex_of_bytes_hexchar b : Forall hexchar (hex_of_bytes b).
Proof.
  induction b as [|x b IH]; [constructor|]. cbn [hex_of_bytes flat_map app].
  pose proof (b2z_range x). pose proof (Z.mod_pos_bound (b2z x) 16 ltac:(lia)).
  assert (0 <= b2z x / 16 < 16) by (split; [apply Z.div_pos | apply Z.div_lt_upper_bound]; lia).
  constructor; [by exists (b2z x / 16)|]. constructor; [by exists (b2z x mod 16) | done].
Qed.

Lemma hexchar_facts c : hexchar c ->
  48 <= c <= 102 /\ c <> 45 /\ c <> 43 /\ c <> 95 /\ c <> 117 /\ is_space c = false /\ is_brace c = false.
Proof.
  intros (n & Hn & ->).
  pose (P := fun n => let c := hexdigit n in
    (48 <=? c) && (c <=? 102) && negb (c =? 45) && negb (c =? 43) && negb (c =? 95) && negb (c =? 117)
    && negb (is_space c) && negb (is_brace c)).
  assert (forallb P (seqZ 0 16) = true) as HP by (vm_compute; reflexivity).
  rewrite forallb_forall in HP. specialize (HP n). unfold P in HP.
  assert (In n (seqZ 0 16)) as Hin by (apply list_elem_of_In, elem_of_seqZ; lia).
  specialize (HP Hin). cbn zeta in HP. zbool. split_and!; done || lia.
Qed.

Lemma remove_sub_absent a p s : a ∉ s -> remove_sub (a :: p) 0 s = s.
Proof.
  induction s as [|c s IH]; intros H; [done|]. apply not_elem_of_cons in H as [Hc Hs].
  cbn [remove_sub prefixb]. rewrite (proj2 (Z.eqb_neq a c)) by done. cbn [andb]. by rewrite IH.
Qed.

Lemma strip_by_noop p s : Forall (fun c => p c = false) s -> strip_by p s = s.
Proof.
  assert (forall t, Forall (fun c => p c = false) t -> lstrip_by p t = t) as Hl
    by (intros t [|c r H _]; [done | simpl; by rewrite H]).
  intros H. unfold strip_by. rewrite (Hl s), (Hl (rev s)) by (done || by apply Forall_rev).
  apply rev_involutive.
Qed.

Lemma hex_digits_spec us acc s :
  Forall hexchar s -> s <> [] ->
  exists v, hex_digits us acc s = Some v /\ (forall b, s = hex_of_bytes b -> v = acc * 256 ^ zlen b + be_decode b).
Proof.
  intros Hs Hne.
  assert (Hgen : forall s acc, Forall hexchar s ->
    hex_digits true acc s = Some (fold_left (fun a c => a * 16 + default 0 (unhex c)) s acc)).
  { clear. intros s. induction s as [|c s IH]; intros acc H; [done|].
    inversion_clear H as [|? ? Hc Hs]. cbn [hex_digits fold_left].
    pose proof (hexchar_facts c Hc) as (_ & _ & _ & Hu & _).
    destruct Hc as (n & Hn & ->). rewrite (proj2 (Z.eqb_neq _ 95)) by done.
    rewrite unhex_hexdigit by done. by rewrite IH. }
  assert (Hfirst : hex_digits us acc s
    = Some (fold_left (fun a c => a * 16 + default 0 (unhex c)) s acc)).
  { destruct s as [|c s]; [done|]. inversion_clear Hs as [|? ? Hc Hs']. cbn [hex_digits fold_left].
    pose proof (hexchar_facts c Hc) as (_ & _ & _ & Hu & _).
    destruct Hc as (n & Hn & ->). rewrite (proj2 (Z.eqb_neq _ 95)) by done.
    rewrite unhex_hexdigit by done. by rewrite Hgen. }
  eexists. split; [exact Hfirst|]. intros b ->. clear.
  revert acc. induction b as [|x b IH]; intros acc; 
    [change (acc = acc * 1 + 0); lia|].
  cbn [hex_of_bytes flat_map app fold_left]. fold (hex_of_bytes b).
  pose proof (b2z_range x). pose proof (Z.mod_pos_bound (b2z x) 16 ltac:(lia)).
  assert (0 <= b2z x / 16 < 16) by (split; [apply Z.div_pos | apply Z.div_lt_upper_bound]; lia).
  rewrite !unhex_hexdigit by lia. cbn [default]. rewrite IH.
  change (x :: b) with ([x] ++ b). rewrite be_decode_app.
  change (be_decode [x]) with (0 * 256 + b2z x). rewrite zlen_app.
  pose proof (zlen_nonneg b). rewrite Z.pow_add_r by (unfold zlen; simpl; lia).
  change (256 ^ zlen [x]) with 256. fold (zlen b).
  pose proof (Z.div_mod (b2z x) 16 ltac:(lia)) as Hx.
  set (q := b2z x / 16) in *. set (r := b2z x mod 16) in *. rewrite Hx. unfold id. ring.
Qed.

Lemma int_base16_hex b : b <> [] -> int_base16 (hex_of_bytes b) = Some (be_decode b).
Proof.
  intros Hb. pose proof (hex_of_bytes_hexchar b) as Hh.
  assert (hex_of_bytes b <> []) as Hne by (by destruct b).
  unfold int_base16. assert (strip (hex_of_bytes b) = hex_of_bytes b) as ->.
  { apply strip_by_noop. eapply List.Forall_impl; [|exact Hh].
    intros c Hc. by apply hexchar_facts in Hc as (_&_&_&_&_&?&_). }
  destruct (hex_digits_spec false 0 _ Hh Hne) as (v & Hv & Hv'). specialize (Hv' b eq_refl).
  destruct (hex_of_bytes b) as [|c [|d r]] eqn:E; [done| |].
  - destruct b; done.
  - inversion Hh as [|? ? Hc Hh']; subst. inversion Hh' as [|? ? Hd Hr]; subst.
    apply hexchar_facts in Hc as (Hc & Hc1 & Hc2 & Hc3 & _). apply hexchar_facts in Hd as (Hd & _).
    rewrite (proj2 (Z.eqb_neq c 45)), (proj2 (Z.eqb_neq c 43)) by done.
    change (py "0x") with [48; 120]. change (py "0X") with [48; 88].
    assert (forall z, 102 < z \/ z = 88 -> hexchar d -> prefixb [48; z] (c :: d :: r) = false) as Hp.
    { intros z Hz (n & Hn & ->). cbn [prefixb]. rewrite (proj2 (Z.eqb_neq z (hexdigit n))).
      - by rewrite andb_false_r.
      - pose proof (unhex_hexdigit n Hn) as Hu. intros ->.
        destruct Hz as [Hz | Hz]; [lia|]. by rewrite Hz in Hu. }
    inversion Hh' as [|? ? Hd' _]; subst.
    rewrite !Hp by (done || lia || by right). cbn [orb andb]. rewrite Hv. simpl. done.
Qed.

Lemma remove_char_app c s t : remove_char c (s ++ t) = remove_char c s ++ remove_char c t.
Proof. apply List.filter_app. Qed.

Lemma remove_char_absent c s : Forall (fun x => x <> c) s -> remove_char c s = s.
Proof.
  induction 1 as [|x s Hx _ IH]; [done|]. unfold remove_char in *. cbn [List.filter].
  rewrite (proj2 (Z.eqb_neq x c)) by done. cbn [negb]. by rewrite IH.
Qed.

Lemma uuid_str_chars b : Forall (fun c => hexchar c \/ c = 45) (uuid_str b).
Proof.
  assert (Forall (fun c => hexchar c \/ c = 45) (hex_of_bytes b)) as Hh
    by (eapply List.Forall_impl; [|apply hex_of_bytes_hexchar]; auto).
  unfold uuid_str. repeat (apply Forall_app; split);
    repeat first [apply Forall_take | apply Forall_drop]; auto; repeat constructor; auto.
Qed.

Lemma split_at {A} n (l r : list A) : r = drop n l -> take n l ++ r = l.
Proof. intros ->. apply take_drop. Qed.

Lemma uuid_str_hex b : remove_char 45 (uuid_str b) = hex_of_bytes b.
Proof.
  assert (Forall (fun c => c <> 45) (hex_of_bytes b)) as Hh.
  { eapply List.Forall_impl; [|apply hex_of_bytes_hexchar]. intros c Hc. by apply hexchar_facts in Hc as (_ & ? & _). }
  unfold uuid_str. rewrite !remove_char_app. change (remove_char 45 [45]) with (@nil Z). cbn [app].
  rewrite !remove_char_absent by (repeat first [apply Forall_take | apply Forall_drop]; done).
  repeat (apply split_at; try rewrite drop_drop). done.
Qed.

Lemma uuid_str_length b : length b = 16%nat -> zlen (uuid_str b) = 36.
Proof.
  intros Hb. unfold uuid_str, zlen. autorewrite with peerc. rewrite hex_of_bytes_length, Hb. done.
Qed.

Lemma parse_uuid_str b : length b = 16%nat -> parse_uuid (uuid_str b) = Ok b.
Proof.
  intros Hb. pose proof (uuid_str_chars b) as Hc. unfold parse_uuid.
  assert (117 ∉ uuid_str b) as Hu.
  { intros Hin. rewrite List.Forall_forall in Hc. apply list_elem_of_In, Hc in Hin as [Hx|Hx]; [|done].
    by apply hexchar_facts in Hx as (_&_&_&_&?&_). }
  change (py "urn:") with (117 :: py "rn:"). change (py "uuid:") with (117 :: py "uid:").
  rewrite (remove_sub_absent 117 (py "rn:")), (remove_sub_absent 117 (py "uid:")) by done.
  rewrite strip_by_noop.
  2: { eapply List.Forall_impl; [|exact Hc]. intros c [Hx| ->]; [|done].
       by apply hexchar_facts in Hx as (_&_&_&_&_&_&?). }
  rewrite uuid_str_hex. unfold zlen. rewrite hex_of_bytes_length, Hb. cbn [negb Z.eqb].
  change (negb (Z.of_nat (2 * 16) =? 32)) with false. cbn iota.
  rewrite int_base16_hex by (by intros ->). pose proof (be_decode_range b) as Hr. rewrite Hb in Hr.
  change (256 ^ Z.of_nat 16) with (2 ^ 128) in Hr.
  rewrite (proj2 (Z.leb_le 0 _)), (proj2 (Z.ltb_lt _ (2 ^ 128))) by lia. cbn [andb].
  by rewrite be_encode_decode_n.
Qed.

Lemma parse_uuid_length s b : parse_uuid s = Ok b -> length b = 16%nat.
Proof.
  unfold parse_uuid. intros H. repeat case_in H; try discriminate.
  by injection H as <-.
Qed.

Lemma parse_uuid_errors s e : parse_uuid s = Err e -> e = ValueError.
Proof. unfold parse_uuid. intros H. repeat case_in H; congruence. Qed.

(** ** The codec *)

Lemma encode_file_data_ok tid sequence offset data b :
  parse_uuid tid = Ok b -> 0 <= sequence < 2 ^ 32 -> 0 <= offset < 2 ^ 64 ->
  encode_file_data tid sequence offset data = Ok (b ++ be_encode 4 sequence ++ be_encode 8 offset ++ data).
Proof.
  intros Ht Hs Ho. unfold encode_file_data. rewrite Ht. cbn [rcatch rbind].
  rewrite (proj2 (Z.ltb_ge sequence 0)), (proj2 (Z.ltb_ge 0xFFFFFFFF sequence)),
    (proj2 (Z.ltb_ge offset 0)), (proj2 (Z.ltb_ge 0xFFFFFFFFFFFFFFFF offset)) by lia.
  cbn [orb]. by rewrite <- !app_assoc.
Qed.

Lemma decode_file_data_parts b sequence offset data :
  length b = 16%nat -> 0 <= sequence < 2 ^ 32 -> 0 <= offset < 2 ^ 64 ->
  decode_file_data (b ++ be_encode 4 sequence ++ be_encode 8 offset ++ data)
  = Ok (FileDataMsg (uuid_str b) sequence offset data).
Proof.
  intros Hb Hs Ho. unfold decode_file_data, HEADER_SIZE.
  rewrite (proj2 (Z.ltb_ge _ 28)).
  2: { autorewrite with peerc. unfold zlen. rewrite Hb, !be_encode_length. lia. }
  rewrite take_app_exact by done.
  replace (drop 16 _) with (be_encode 4 sequence ++ be_encode 8 offset ++ data)
    by (by rewrite drop_app_exact).
  rewrite take_app_exact by apply be_encode_length.
  assert (forall z, drop z (b ++ be_encode 4 sequence ++ be_encode 8 offset ++ data)
    = drop (z - 16) (drop (Nat.min z 16) (b ++ be_encode 4 sequence ++ be_encode 8 offset ++ data))) as Hd
    by (intros z; rewrite drop_drop; f_equal; lia).
  rewrite (Hd 20%nat), (Hd 28%nat). cbn [Nat.min Nat.sub]. rewrite (drop_app_exact b) by done.
  change 12%nat with (4 + 8)%nat. rewrite <- drop_drop.
  rewrite (drop_app_exact (be_encode 4 _)) by apply be_encode_length.
  rewrite (drop_app_exact (be_encode 8 _)), take_app_exact by apply be_encode_length.
  rewrite !be_decode_encode_small by done. done.
Qed.

(** A file_data payload decodes to exactly what was encoded (the transfer
    id in canonical form, the sequence number, the offset and the chunk), and
    every payload the decoder accepts re-encodes to itself: the codec is a
    bijection between its valid records and the payloads of at least 28 bytes. *)
Theorem file_data_codec_bijective :
  (forall tid sequence offset data payload,
     encode_file_data tid sequence offset data = Ok payload ->
     exists b, parse_uuid tid = Ok b /\
       decode_file_data payload = Ok (FileDataMsg (uuid_str b) sequence offset data)) /\
  (forall payload m, decode_file_data payload = Ok m ->
     encode_file_data (fd_transfer_id m) (fd_sequence m) (fd_offset m) (fd_data m) = Ok payload) /\
  (forall payload, is_ok (decode_file_data payload) = (28 <=? zlen payload)).
Proof.
  split; [|split].
  - intros tid sequence offset data payload H. unfold encode_file_data in H.
    destruct (parse_uuid tid) as [b|e] eqn:Ht; cbn [rcatch rbind] in H; [|by destruct e].
    do 2 (case_in H; [discriminate|]). injection H as <-. zbool. exists b. split; [done|].
    rewrite <- !app_assoc. apply decode_file_data_parts; [by eapply parse_uuid_length | lia..].
  - intros payload m H. unfold decode_file_data, HEADER_SIZE in H. case_in H; [discriminate|].
    injection H as <-. cbn [fd_transfer_id fd_sequence fd_offset fd_data]. zbool. unfold zlen in *.
    assert (length (take 16 payload) = 16%nat) as H16 by (rewrite length_take; lia).
    assert (length (take 4 (drop 16 payload)) = 4%nat) as H4 by (rewrite length_take, length_drop; lia).
    assert (length (take 8 (drop 20 payload)) = 8%nat) as H8 by (rewrite length_take, length_drop; lia).
    pose proof (be_decode_range (take 4 (drop 16 payload))) as R4. rewrite H4 in R4.
    pose proof (be_decode_range (take 8 (drop 20 payload))) as R8. rewrite H8 in R8.
    erewrite encode_file_data_ok; [|by apply parse_uuid_str|exact R4|exact R8].
    rewrite (be_encode_decode_n 4), (be_encode_decode_n 8) by done.
    f_equal. repeat (apply split_at; try rewrite drop_drop). done.
  - intros payload. unfold decode_file_data, HEADER_SIZE.
    destruct (Z.ltb_spec (zlen payload) 28), (Z.leb_spec 28 (zlen payload)); cbn; lia || done.
Qed.

(** [encode_file_data] fails only with [ProtocolError], exactly when the
    transfer id is not a UUID, or the sequence number does not fit 32 bits, or
    the offset does not fit 64 bits: no value is ever truncated on the wire. *)
Theorem encode_file_data_errors tid sequence offset data :
  match encode_file_data tid sequence offset data with
  | Ok payload => is_ok (parse_uuid tid) = true /\ 0 <= sequence < 2 ^ 32 /\ 0 <= offset < 2 ^ 64
      /\ zlen payload = HEADER_SIZE + zlen data
  | Err e => e = ProtocolError /\
      (is_ok (parse_uuid tid) = false \/ ~ 0 <= sequence < 2 ^ 32 \/ ~ 0 <= offset < 2 ^ 64)
  end.
Proof.
  unfold encode_file_data. destruct (parse_uuid tid) as [b|e] eqn:Ht; cbn [rcatch rbind].
  2: { apply parse_uuid_errors in Ht as ->. cbn. auto. }
  destruct ((sequence <? 0) || _) eqn:E1; [split; [done|]; right; left; lia|].
  destruct ((offset <? 0) || _) eqn:E2; [split; [done|]; right; right; lia|]. zbool.
  split; [done|]. split; [lia|]. split; [lia|]. apply parse_uuid_length in Ht.
  autorewrite with peerc. unfold zlen, HEADER_SIZE. rewrite Ht, !be_encode_length. lia.
Qed.
