(* ===== verification/Messages.v ===== *)
(** * core/protocol/messages.py: message factories and schema validation

    The identifier drawn by [new_message_id] and the clock read by
    [time.time()] are arguments of the factories that use them. *)

From stdpp Require Import base strings list numbers option.
From Stdlib Require Import ZArith Lia Strings.Byte Floats.SpecFloat.
From S2P Require Import Prelude PyStr PyFloat Json JsonFacts PyValue Frame.
Open Scope Z_scope.
Open Scope peerc_scope.

Definition MAX_CHAT_TEXT_SIZE : Z := 64 * 1024.
Definition PROTOCOL_VERSION : Z := 2.
Definition MIN_SUPPORTED_VERSION : Z := 1.

(** ** Factories *)

Definition make_chat_message (new_id : pystr) (now : pyfloat) (sender_id sender_name text : pystr) : dict :=
  [(py "type", JStr (py "chat"));
   (py "version", JInt PROTOCOL_VERSION);
   (py "message_id", JStr new_id);
   (py "sender_id", JStr sender_id);
   (py "sender_name", JStr sender_name);
   (py "text", JStr text);
   (py "timestamp", JFloat now)].

Definition make_chat_ack (now : pyfloat) (message_id : json) : dict :=
  [(py "type", JStr (py "chat_ack"));
   (py "version", JInt PROTOCOL_VERSION);
   (py "message_id", message_id);
   (py "timestamp", JFloat now)].

Definition make_file_offer (now : pyfloat) (transfer_id sender_id sender_name filename : pystr)
    (size : Z) (checksum : pystr) : dict :=
  [(py "type", JStr (py "file_offer"));
   (py "version", JInt PROTOCOL_VERSION);
   (py "transfer_id", JStr transfer_id);
   (py "sender_id", JStr sender_id);
   (py "sender_name", JStr sender_name);
   (py "filename", JStr filename);
   (py "size", JInt size);
   (py "checksum", JStr checksum);
   (py "timestamp", JFloat now)].

Definition make_file_accept (now : pyfloat) (transfer_id : json) : dict :=
  [(py "type", JStr (py "file_accept"));
   (py "version", JInt PROTOCOL_VERSION);
   (py "transfer_id", transfer_id);
   (py "timestamp", JFloat now)].

Definition make_file_reject (now : pyfloat) (transfer_id : json) : dict :=
  [(py "type", JStr (py "file_reject"));
   (py "version", JInt PROTOCOL_VERSION);
   (py "transfer_id", transfer_id);
   (py "timestamp", JFloat now)].

Definition make_file_chunk (transfer_id : pystr) (chunk_index : Z) (data_b64 : pystr) (is_last : bool) : dict :=
  [(py "type", JStr (py "file_chunk"));
   (py "version", JInt PROTOCOL_VERSION);
   (py "transfer_id", JStr transfer_id);
   (py "chunk_index", JInt chunk_index);
   (py "data", JStr data_b64);
   (py "is_last", JBool is_last)].

Definition make_file_done (transfer_id checksum : pystr) : dict :=
  [(py "type", JStr (py "file_done"));
   (py "version", JInt PROTOCOL_VERSION);
   (py "transfer_id", JStr transfer_id);
   (py "checksum", JStr checksum)].

Definition make_file_complete_ack (transfer_id : json) (success : bool) (detail : pystr) : dict :=
  [(py "type", JStr (py "file_complete_ack"));
   (py "version", JInt PROTOCOL_VERSION);
   (py "transfer_id", transfer_id);
   (py "success", JBool success);
   (py "detail", JStr detail)].

Definition make_error (code message : pystr) : dict :=
  [(py "type", JStr (py "error"));
   (py "version", JInt PROTOCOL_VERSION);
   (py "code", JStr code);
   (py "message", JStr message)].

Definition make_hello (now : pyfloat) (peer_id sender_name : pystr) (tcp_port : Z) : dict :=
  [(py "type", JStr (py "hello"));
   (py "version", JInt PROTOCOL_VERSION);
   (py "peer_id", JStr peer_id);
   (py "sender_name", JStr sender_name);
   (py "tcp_port", JInt tcp_port);
   (py "timestamp", JFloat now)].

Definition make_hello_ack (now : pyfloat) (peer_id sender_name : pystr) (tcp_port : Z) : dict :=
  [(py "type", JStr (py "hello_ack"));
   (py "version", JInt PROTOCOL_VERSION);
   (py "peer_id", JStr peer_id);
   (py "sender_name", JStr sender_name);
   (py "tcp_port", JInt tcp_port);
   (py "timestamp", JFloat now)].

Definition make_handshake_init (now : pyfloat)
    (device_id public_key ephemeral_key nonce sender_name : pystr) : dict :=
  [(py "type", JStr (py "handshake_init"));
   (py "version", JInt PROTOCOL_VERSION);
   (py "device_id", JStr device_id);
   (py "public_key", JStr public_key);
   (py "ephemeral_key", JStr ephemeral_key);
   (py "nonce", JStr nonce);
   (py "sender_name", JStr sender_name);
   (py "timestamp", JFloat now)].

Definition make_handshake_response (now : pyfloat)
    (device_id public_key ephemeral_key nonce sender_name signature : pystr) : dict :=
  [(py "type", JStr (py "handshake_response"));
   (py "version", JInt PROTOCOL_VERSION);
   (py "device_id", JStr device_id);
   (py "public_key", JStr public_key);
   (py "ephemeral_key", JStr ephemeral_key);
   (py "nonce", JStr nonce);
   (py "sender_name", JStr sender_name);
   (py "signature", JStr signature);
   (py "timestamp", JFloat now)].

Definition make_handshake_finish (now : pyfloat) (signature : pystr) : dict :=
  [(py "type", JStr (py "handshake_finish"));
   (py "version", JInt PROTOCOL_VERSION);
   (py "signature", JStr signature);
   (py "timestamp", JFloat now)].

(** ** Validation *)

Definition REQUIRED_FIELDS : list (pystr * list pystr) :=
  [(py "chat", [py "message_id"; py "sender_id"; py "sender_name"; py "text"]);
   (py "chat_ack", [py "message_id"]);
   (py "file_offer", [py "transfer_id"; py "filename"; py "size"; py "checksum"]);
   (py "file_accept", [py "transfer_id"]);
   (py "file_reject", [py "transfer_id"]);
   (py "file_chunk", [py "transfer_id"; py "chunk_index"; py "data"; py "is_last"]);
   (py "file_done", [py "transfer_id"; py "checksum"]);
   (py "file_complete_ack", [py "transfer_id"; py "success"]);
   (py "hello", [py "peer_id"; py "sender_name"; py "tcp_port"]);
   (py "hello_ack", [py "peer_id"; py "sender_name"; py "tcp_port"]);
   (py "handshake_init",
     [py "device_id"; py "public_key"; py "ephemeral_key"; py "nonce"; py "sender_name"]);
   (py "handshake_response",
     [py "device_id"; py "public_key"; py "ephemeral_key"; py "nonce"; py "sender_name"; py "signature"]);
   (py "handshake_finish", [py "signature"]);
   (py "error", [py "code"; py "message"])].

Fixpoint assoc {A} (k : pystr) (l : list (pystr * A)) : option A :=
  match l with
  | [] => None
  | (k', v) :: l => if streq k k' then Some v else assoc k l
  end.

(** [message[f]] *)
Definition dict_item (f : pystr) (d : dict) : result json :=
  match dict_get f d with
  | Some v => Ok v
  | None => Err KeyError
  end.

Definition as_str (v : json) : option pystr :=
  match v with
  | JStr s => Some s
  | _ => None
  end.
Definition is_str (v : json) : bool := bool_decide (is_Some (as_str v)).
Definition nonempty_str (v : json) : bool :=
  match v with
  | JStr (_ :: _) => true
  | _ => false
  end.
Definition nonneg_int (v : json) : bool :=
  match as_int v with
  | Some n => negb (n <? 0)
  | None => false
  end.
Definition port_value (v : json) : bool :=
  match as_int v with
  | Some n => (0 <? n) && (n <? 65536)
  | None => false
  end.
Definition chat_text_fits (v : json) : bool :=
  match v with
  | JStr s => negb (MAX_CHAT_TEXT_SIZE <? zlen (utf8_encode_replace s))
  | _ => false
  end.

(** [if cond: check field] for one group of checks of [validate_message];
    [check f p] raises [ProtocolError] when the value does not satisfy [p]. *)
Definition check (d : dict) (f : pystr) (p : json -> bool) : result unit :=
  let* v := dict_item f d in
  if p v then Ok tt else Err ProtocolError.
(** [raise ProtocolError(f"... {value!r} ...")]: formatting an int of more than
    4300 digits raises [ValueError] first. *)
Definition formatted_error (value : json) : exn := if ints_printable value then ProtocolError else ValueError.
Definition check_port (d : dict) (f : pystr) : result unit :=
  let* port := dict_item f d in
  if port_value port then Ok tt else Err (formatted_error port).
Definition when (b : bool) (r : result unit) : result unit := if b then r else Ok tt.
Fixpoint check_all (d : dict) (fs : list pystr) (p : json -> bool) : result unit :=
  match fs with
  | [] => Ok tt
  | f :: fs => let* _ := check d f p in check_all d fs p
  end.

(** The checks on the fields of a message of type [msg_type] ([validate_message]
    from [required = REQUIRED_FIELDS.get(msg_type)] on). *)
Definition validate_fields (msg_type : pystr) (d : dict) : result unit :=
  match assoc msg_type REQUIRED_FIELDS with
  | None => Ok tt
  | Some required =>
      match List.filter (fun f => negb (dict_has f d)) required with
      | _ :: _ => Err ProtocolError
      | [] =>
          let ty t := streq msg_type (py t) in
          let* _ := when (ty "chat")
            (let* _ := check d (py "text") is_str in
             check d (py "text") chat_text_fits) in
          let* _ := when (ty "file_offer")
            (let* _ := check d (py "filename") nonempty_str in
             let* _ := check d (py "size") nonneg_int in
             check d (py "checksum") nonempty_str) in
          let* _ := when (ty "file_chunk")
            (let* _ := check d (py "chunk_index") nonneg_int in
             check d (py "data") is_str) in
          let* _ := when (ty "hello" || ty "hello_ack")
            (check_port d (py "tcp_port")) in
          let* _ := when (ty "handshake_init" || ty "handshake_response")
            (let* _ := check_all d [py "device_id"; py "public_key"; py "ephemeral_key"; py "nonce"]
               nonempty_str in
             check d (py "sender_name") is_str) in
          when (ty "handshake_response" || ty "handshake_finish")
            (check d (py "signature") nonempty_str)
      end
  end.

Definition validate_message (message : json) : result json :=
  match message with
  | JObj d =>
      match dict_get (py "type") d with
      | Some (JStr (c :: s)) =>
          let value := default (JInt 1) (dict_get (py "version") d) in
          match as_int value with
          | None => Err ProtocolError
          | Some version =>
              if version <? MIN_SUPPORTED_VERSION then Err (formatted_error value) else
              let* _ := validate_fields (c :: s) d in Ok message
          end
      | _ => Err ProtocolError
      end
  | _ => Err ProtocolError
  end.

(** ** A declarative schema

    For each message type, the predicate its fields must satisfy. *)

Definition anything (v : json) : bool := true.

Definition schema : list (pystr * list (pystr * (json -> bool))) :=
  [(py "chat", [(py "message_id", anything); (py "sender_id", anything); (py "sender_name", anything);
                (py "text", chat_text_fits)]);
   (py "chat_ack", [(py "message_id", anything)]);
   (py "file_offer", [(py "transfer_id", anything); (py "filename", nonempty_str);
                      (py "size", nonneg_int); (py "checksum", nonempty_str)]);
   (py "file_accept", [(py "transfer_id", anything)]);
   (py "file_reject", [(py "transfer_id", anything)]);
   (py "file_chunk", [(py "transfer_id", anything); (py "chunk_index", nonneg_int);
                      (py "data", is_str); (py "is_last", anything)]);
   (py "file_done", [(py "transfer_id", anything); (py "checksum", anything)]);
   (py "file_complete_ack", [(py "transfer_id", anything); (py "success", anything)]);
   (py "hello", [(py "peer_id", anything); (py "sender_name", anything); (py "tcp_port", port_value)]);
   (py "hello_ack", [(py "peer_id", anything); (py "sender_name", anything); (py "tcp_port", port_value)]);
   (py "handshake_init", [(py "device_id", nonempty_str); (py "public_key", nonempty_str);
                          (py "ephemeral_key", nonempty_str); (py "nonce", nonempty_str);
                          (py "sender_name", is_str)]);
   (py "handshake_response", [(py "device_id", nonempty_str); (py "public_key", nonempty_str);
                              (py "ephemeral_key", nonempty_str); (py "nonce", nonempty_str);
                              (py "sender_name", is_str); (py "signature", nonempty_str)]);
   (py "handshake_finish", [(py "signature", nonempty_str)]);
   (py "error", [(py "code", anything); (py "message", anything)])].

Definition field_ok (d : dict) (fp : pystr * (json -> bool)) : bool :=
  match dict_get fp.1 d with
  | Some v => fp.2 v
  | None => false
  end.

(** The messages of the wire schema: an object with a non-empty string type,
    an integer version of at least 1 when present, and every field the type
    requires, of the shape the type requires; an unknown type is let through. *)
Definition schema_ok (message : json) : bool :=
  match message with
  | JObj d =>
      match dict_get (py "type") d with
      | Some (JStr t) =>
          negb (streq t []) &&
          match as_int (default (JInt 1) (dict_get (py "version") d)) with
          | Some v => 1 <=? v
          | None => false
          end &&
          match assoc t schema with
          | Some fields => forallb (field_ok d) fields
          | None => true
          end
      | _ => false
      end
  | _ => false
  end.

Lemma chat_text_fits_str v : chat_text_fits v = true -> is_str v = true.
Proof. by destruct v. Qed.

(** With the type known, both sides are decided by the fields alone. *)
Ltac eval_fields :=
  cbv -[dict_get is_str chat_text_fits nonempty_str nonneg_int port_value ints_printable];
  repeat match goal with
  | |- context [dict_get ?f ?d] => destruct (dict_get f d)
  end;
  cbv -[is_str chat_text_fits nonempty_str nonneg_int port_value ints_printable];
  repeat match goal with
  | |- context [chat_text_fits ?v] =>
      let E := fresh in destruct (chat_text_fits v) eqn:E; [rewrite (chat_text_fits_str v E)|]
  | |- context [nonempty_str ?v] => destruct (nonempty_str v)
  | |- context [nonneg_int ?v] => destruct (nonneg_int v)
  | |- context [port_value ?v] => destruct (port_value v)
  | |- context [is_str ?v] => destruct (is_str v)
  end; reflexivity.

Definition schema_fields_ok (t : pystr) (d : dict) : bool :=
  match assoc t schema with
  | Some fields => forallb (field_ok d) fields
  | None => true
  end.

Lemma assoc_unknown {A} t (l : list (pystr * A)) :
  Forall (fun k => t <> k) (map fst l) -> assoc t l = None.
Proof.
  induction l as [|[k v] l IH]; [done|]. intros H. inversion_clear H as [|? ? Hk Hl]. cbn [assoc].
  destruct (streq t k) eqn:E; [by apply streq_spec in E | by apply IH].
Qed.

(** The exception with which a message outside the schema is refused: a value that
    is quoted in the text of the exception is the version, or the port. *)
Definition fields_refusal (t : pystr) (d : dict) : exn :=
  if existsb (streq t) [py "hello"; py "hello_ack"] then
    if dict_has (py "peer_id") d && dict_has (py "sender_name") d then
      match dict_get (py "tcp_port") d with
      | Some port => formatted_error port
      | None => ProtocolError
      end
    else ProtocolError
  else ProtocolError.

Lemma validate_fields_schema t d :
  validate_fields t d = if schema_fields_ok t d then Ok tt else Err (fields_refusal t d).
Proof.
  destruct (decide (t ∈ map fst schema)) as [Hin | Hout].
  - cbn [map fst schema] in Hin.
    repeat (apply elem_of_cons in Hin as [-> | Hin]; [eval_fields|]). by apply elem_of_nil in Hin.
  - unfold validate_fields, schema_fields_ok.
    assert (Forall (fun k => t <> k) (map fst schema)) as Hf
      by (apply List.Forall_forall; intros k Hk <-; by apply Hout, list_elem_of_In).
    rewrite !assoc_unknown by exact Hf. done.
Qed.

Lemma dict_get_printable d f v : ints_printable (JObj d) = true -> dict_get f d = Some v -> ints_printable v = true.
Proof.
  cbn [ints_printable]. induction d as [|[k w] d IH]; [done|]. cbn [forallb dict_get snd]. intros [H1 H2]%andb_prop.
  destruct (streq f k); [by intros [= <-] | by apply IH].
Qed.
Lemma fields_refusal_printable t d : ints_printable (JObj d) = true -> fields_refusal t d = ProtocolError.
Proof.
  intros Hd. unfold fields_refusal. repeat case_match; try done. unfold formatted_error.
  match goal with H : dict_get _ _ = Some _ |- _ => by rewrite (dict_get_printable _ _ _ Hd H) end.
Qed.

Lemma validate_message_outcome message :
  match validate_message message with
  | Ok m => schema_ok message = true /\ m = message
  | Err e => schema_ok message = false /\ (e = ProtocolError \/ e = ValueError /\ ints_printable message = false)
  end.
Proof.
  assert (forall e d, (ints_printable (JObj d) = true -> e = ProtocolError) -> e = ProtocolError \/ e = ValueError ->
    e = ProtocolError \/ e = ValueError /\ ints_printable (JObj d) = false) as Hcase.
  { intros e d H [-> | ->]; [by left|]. right. split; [done|]. apply not_true_iff_false. intros H'%H. done. }
  destruct message as [| | | | | |d]; try (split; [done|by left]). unfold validate_message, schema_ok.
  destruct (dict_get (py "type") d) as [[| | | |t| |]|]; try (split; [done|by left]).
  destruct t as [|c s]; [split; [done|by left]|]. set (t := c :: s). change (streq t []) with false. cbn [negb andb].
  set (value := default _ _). destruct (as_int value) as [v|] eqn:Ev; [|split; [done|by left]].
  destruct (Z.ltb_spec v MIN_SUPPORTED_VERSION), (Z.leb_spec 1 v); unfold MIN_SUPPORTED_VERSION in *; try lia.
  - split; [done|]. apply Hcase; [|unfold formatted_error; destruct (ints_printable value); auto].
    intros Hd. unfold formatted_error. assert (ints_printable value = true) as ->; [|done]. unfold value.
    destruct (dict_get (py "version") d) eqn:E; [by eapply dict_get_printable|done].
  - cbn [andb]. rewrite validate_fields_schema. fold (schema_fields_ok t d). destruct (schema_fields_ok t d); cbn [rbind]; [done|].
    split; [done|]. apply Hcase; [apply fields_refusal_printable|]. unfold fields_refusal, formatted_error.
    repeat case_match; auto.
Qed.
Lemma validate_message_accepts message : schema_ok message = true -> validate_message message = Ok message.
Proof. pose proof (validate_message_outcome message). destruct (validate_message message); naive_solver congruence. Qed.
Lemma validate_message_schema_ok message m : validate_message message = Ok m -> schema_ok message = true.
Proof. intros E. pose proof (validate_message_outcome message) as H. rewrite E in H. apply H. Qed.
(** A decoded message has no integer that cannot be formatted. *)
Lemma validate_message_cases message : ints_printable message = true ->
  validate_message message = if schema_ok message then Ok message else Err ProtocolError.
Proof.
  intros Hi. pose proof (validate_message_outcome message) as H. destruct (validate_message message) as [m|e].
  - by destruct H as [-> ->].
  - destruct H as [-> [-> | [_ H]]]; [done|congruence].
Qed.

(** C22: [validate_message] accepts exactly the messages of the wire schema (a
    dict with a non-empty type, a supported version, and for a known type every
    required field with the required shape; a type that is not known is let
    through), returns an accepted message unchanged, and refuses everything else,
    never with [KeyError] or [TypeError]. A refusal is a [ProtocolError]; the one
    exception is a [ValueError], for a message that holds an integer of more than
    4300 digits, which no message decoded by [json.loads] does. *)
Theorem validate_message_schema message :
  match validate_message message with
  | Ok m => schema_ok message = true /\ m = message
  | Err e => schema_ok message = false /\ (e = ProtocolError \/ e = ValueError /\ ints_printable message = false)
  end /\
  (forall text, loads text = Ok message -> validate_message message = if schema_ok message then Ok message else Err ProtocolError).
Proof. split; [apply validate_message_outcome|]. intros text H. by eapply validate_message_cases, loads_ints. Qed.

(** A version that is too old and too long to be formatted. *)
Example long_version_escapes :
  validate_message (JObj [(py "type", JStr (py "chat")); (py "version", JInt (- 10 ^ 4300))]) = Err ValueError.
Proof. vm_compute. reflexivity. Qed.

(** ** Factories produce valid messages *)

(** The messages the factories build from arguments the program passes them:
    encodable strings, non-empty identifiers and keys, a chat text within the
    limit, non-negative sizes, and TCP ports. *)
Definition sok (ss : list pystr) : bool := forallb str_ok ss.
Definition kok (ss : list pystr) : bool := forallb (fun s => str_ok s && negb (streq s [])) ss.

Inductive produced : dict -> Prop :=
  | P_chat new_id now sid name text :
      sok [new_id; sid; name; text] = true -> float_ok now = true -> chat_text_fits (JStr text) = true ->
      produced (make_chat_message new_id now sid name text)
  | P_chat_ack now mid : json_ok mid = true -> float_ok now = true -> produced (make_chat_ack now mid)
  | P_file_offer now tid sid name filename size checksum :
      sok [tid; sid; name] = true -> kok [filename; checksum] = true -> 0 <= size < 2 ^ 63 ->
      float_ok now = true -> produced (make_file_offer now tid sid name filename size checksum)
  | P_file_accept now tid : json_ok tid = true -> float_ok now = true -> produced (make_file_accept now tid)
  | P_file_reject now tid : json_ok tid = true -> float_ok now = true -> produced (make_file_reject now tid)
  | P_file_chunk tid i data is_last :
      sok [tid; data] = true -> 0 <= i < 2 ^ 63 -> produced (make_file_chunk tid i data is_last)
  | P_file_done tid checksum : sok [tid; checksum] = true -> produced (make_file_done tid checksum)
  | P_file_complete_ack tid ok detail :
      json_ok tid = true -> sok [detail] = true -> produced (make_file_complete_ack tid ok detail)
  | P_error code msg : sok [code; msg] = true -> produced (make_error code msg)
  | P_hello now pid name port :
      sok [pid; name] = true -> 0 < port < 65536 -> float_ok now = true -> produced (make_hello now pid name port)
  | P_hello_ack now pid name port :
      sok [pid; name] = true -> 0 < port < 65536 -> float_ok now = true ->
      produced (make_hello_ack now pid name port)
  | P_handshake_init now did pk ek nonce name :
      kok [did; pk; ek; nonce] = true -> sok [name] = true -> float_ok now = true ->
      produced (make_handshake_init now did pk ek nonce name)
  | P_handshake_response now did pk ek nonce name sig :
      kok [did; pk; ek; nonce; sig] = true -> sok [name] = true -> float_ok now = true ->
      produced (make_handshake_response now did pk ek nonce name sig)
  | P_handshake_finish now sig :
      kok [sig] = true -> float_ok now = true -> produced (make_handshake_finish now sig).

Lemma small_int_ok n : 0 <= n < 2 ^ 63 -> json_ok (JInt n) = true.
Proof.
  intros Hn. cbn [json_ok]. apply Z.leb_le. rewrite Z.abs_eq by lia.
  pose proof (str_of_nonneg_length n ltac:(lia)). unfold INT_MAX_STR_DIGITS.
  assert (Z.log2 n <= 63) by (apply (Z.log2_le_mono n (2 ^ 63)); lia). lia.
Qed.

Lemma nonneg_int_ok n : 0 <= n -> nonneg_int (JInt n) = true.
Proof. intros H. cbn. by apply negb_true_iff, Z.ltb_ge. Qed.
Lemma port_value_ok n : 0 < n < 65536 -> port_value (JInt n) = true.
Proof. intros H. cbn. apply andb_true_iff. split; apply Z.ltb_lt; lia. Qed.
Lemma key_nonempty s : streq s [] = false -> nonempty_str (JStr s) = true.
Proof. by destruct s. Qed.

Ltac factory_valid :=
  cbv -[is_str chat_text_fits nonempty_str nonneg_int port_value];
  repeat match goal with
  | |- context [chat_text_fits ?v] =>
      let H := fresh in assert (chat_text_fits v = true) as H by assumption; rewrite H
  | |- context [nonempty_str (JStr ?s)] => rewrite (key_nonempty s) by assumption
  | |- context [nonneg_int (JInt ?n)] => rewrite (nonneg_int_ok n) by lia
  | |- context [port_value (JInt ?n)] => rewrite (port_value_ok n) by lia
  | |- context [is_str (JStr ?s)] => change (is_str (JStr s)) with true
  end; reflexivity.

Lemma produced_valid d : produced d -> validate_message (JObj d) = Ok (JObj d).
Proof. destruct 1; cbn [kok forallb] in *; zbool; factory_valid. Qed.

Ltac json_ok_split :=
  repeat match goal with
  | |- (_ && _)%bool = true => apply andb_true_intro; split
  | |- json_ok (JInt _) = true => apply small_int_ok; unfold PROTOCOL_VERSION; lia
  | |- json_ok (JStr _) = true => cbn [json_ok]
  | |- json_ok (JFloat _) = true => cbn [json_ok]
  | |- ?b = true => first [assumption | vm_compute; reflexivity]
  end.

Lemma produced_json_ok d : produced d -> json_ok (JObj d) = true.
Proof.
  destruct 1; cbn [kok sok forallb] in *; zbool; cbn [json_ok]; apply andb_true_intro;
    (split; [reflexivity|]); unfold make_chat_message, make_chat_ack, make_file_offer, make_file_accept,
    make_file_reject, make_file_chunk, make_file_done, make_file_complete_ack, make_error, make_hello,
    make_hello_ack, make_handshake_init, make_handshake_response, make_handshake_finish;
    cbn [forallb fst snd]; json_ok_split.
Qed.

(** C23: every message a factory builds (from encodable arguments in range) passes
    the receiver's validation, and when it fits a frame the receiver reads back
    exactly that message and validates it: sender and receiver agree on the
    wire schema for all fourteen message types. *)
Theorem produced_messages_delivered d rest :
  produced d -> zlen (dumps (JObj d)) <= MAX_MESSAGE_SIZE ->
  exists bs m, encode_frame (JObj d) = Ok bs /\ read_any_frame (bs ++ rest) = Ok (FJson m, rest)
    /\ validate_message m = Ok (JObj d).
Proof.
  intros Hp Hlen. pose proof (produced_json_ok d Hp) as Hj.
  assert (frame_ok (FJson (JObj d)) = true) as Hf
    by (unfold frame_ok; rewrite Hj; by apply Z.leb_le).
  pose proof (encode_frame_ok (JObj d) Hf) as He.
  eexists _, (JObj d). split; [exact He|]. split; [by apply read_encoded|].
  by apply produced_valid.
Qed.

Lemma produced_messages_delivered_witness :
  exists bs m, encode_frame (JObj (make_hello (float_of_int 5) (py "ab") (py "bob") 9000)) = Ok bs
    /\ read_any_frame (bs ++ []) = Ok (FJson m, [])
    /\ validate_message m = Ok (JObj (make_hello (float_of_int 5) (py "ab") (py "bob") 9000)).
Proof.
  apply (produced_messages_delivered (make_hello (float_of_int 5) (py "ab") (py "bob") 9000) []).
  - apply P_hello; [vm_compute; reflexivity | lia | vm_compute; reflexivity].
  - vm_compute. discriminate.
Defined.
