(* ===== verification/SecurityEvents.v ===== *)
(** * core/security/events.py: security events

    Severities, event types, the redaction of event details, the canonical
    byte string signed for audit, and the listener registry with [emit]. The
    values of [details] are the JSON values the program puts there. *)

From stdpp Require Import base strings list numbers option.
From Stdlib Require Import ZArith Lia Strings.Byte Floats.SpecFloat.
From S2P Require Import Prelude PyStr PyFloat Json JsonFacts.
Open Scope Z_scope.
Open Scope peerc_scope.

Definition EVENT_DOMAIN : bytes := pyb "peerc-security-event" ++ [x00].

Definition SENSITIVE_KEYS : list pystr :=
  [py "private_key"; py "session_key"; py "secret"; py "password"; py "key_hex"; py "seed"; py "token";
   py "shared_secret"].

(** ** Severity *)

Inductive SecuritySeverity : Type := INFO | WARNING | HIGH | CRITICAL.
#[export] Instance severity_eq_dec : EqDecision SecuritySeverity.
Proof. solve_decision. Defined.

Definition severity_value (s : SecuritySeverity) : pystr :=
  match s with
  | INFO => py "INFO"
  | WARNING => py "WARNING"
  | HIGH => py "HIGH"
  | CRITICAL => py "CRITICAL"
  end.
Definition rank (s : SecuritySeverity) : Z :=
  match s with
  | INFO => 10
  | WARNING => 20
  | HIGH => 30
  | CRITICAL => 40
  end.
(** The numeric levels of the [logging] module. *)
Definition to_logging_level (s : SecuritySeverity) : Z :=
  match s with
  | INFO => 20
  | WARNING => 30
  | HIGH => 40
  | CRITICAL => 50
  end.
Definition severity_lt (a b : SecuritySeverity) : bool := rank a <? rank b.
Definition severity_le (a b : SecuritySeverity) : bool := rank a <=? rank b.
Definition severity_gt (a b : SecuritySeverity) : bool := rank b <? rank a.
Definition severity_ge (a b : SecuritySeverity) : bool := rank b <=? rank a.
(** [SecuritySeverity(s)] *)
Definition severity_of (s : pystr) : result SecuritySeverity :=
  if streq s (py "INFO") then Ok INFO
  else if streq s (py "WARNING") then Ok WARNING
  else if streq s (py "HIGH") then Ok HIGH
  else if streq s (py "CRITICAL") then Ok CRITICAL
  else Err ValueError.

Inductive SecurityEventType : Type :=
  | ENDPOINT_CHANGED | KEY_ROTATION
  | UNKNOWN_DEVICE | IDENTITY_CHANGED | AUTH_FAILED | INVALID_ROTATION
  | REVOKED_DEVICE_ATTEMPT | REPEATED_AUTH_FAILURES | REPLAY_DETECTED | SUSPICIOUS_AUTHORIZATION
  | ADMIN_KEY_COMPROMISE | PRIVATE_KEY_COMPROMISE | INVALID_AUTHORITY_CHAIN.
#[export] Instance event_type_eq_dec : EqDecision SecurityEventType.
Proof. solve_decision. Defined.

Definition event_type_value (t : SecurityEventType) : pystr :=
  match t with
  | ENDPOINT_CHANGED => py "endpoint_changed"
  | KEY_ROTATION => py "key_rotation"
  | UNKNOWN_DEVICE => py "unknown_device"
  | IDENTITY_CHANGED => py "identity_changed"
  | AUTH_FAILED => py "auth_failed"
  | INVALID_ROTATION => py "invalid_rotation"
  | REVOKED_DEVICE_ATTEMPT => py "revoked_device_attempt"
  | REPEATED_AUTH_FAILURES => py "repeated_auth_failures"
  | REPLAY_DETECTED => py "replay_detected"
  | SUSPICIOUS_AUTHORIZATION => py "suspicious_authorization"
  | ADMIN_KEY_COMPROMISE => py "admin_key_compromise"
  | PRIVATE_KEY_COMPROMISE => py "private_key_compromise"
  | INVALID_AUTHORITY_CHAIN => py "invalid_authority_chain"
  end.

(** ** Redaction *)

Definition REDACTED : json := JStr (py "[REDACTED]").
Definition sensitive (k : pystr) : bool := existsb (fun s => substringb s (lower k)) SENSITIVE_KEYS.

Fixpoint sanitize_value (val : json) : json :=
  match val with
  | JObj kvs => JObj (map (fun kv => (kv.1, if sensitive kv.1 then REDACTED else sanitize_value kv.2)) kvs)
  | JList vs => JList (map sanitize_value vs)
  | _ => val
  end.

(** ** Events *)

Record SecurityEvent : Type := MkSecurityEvent {
  event_type : pystr;
  severity : SecuritySeverity;
  description : pystr;
  device_id : option pystr;
  timestamp : pyfloat;
  details : dict;
  signature : option pystr;
  signer_device_id : option pystr
}.

Definition sanitize_dict (d : dict) : dict :=
  map (fun kv => (kv.1, if sensitive kv.1 then REDACTED else sanitize_value kv.2)) d.

(** [SecurityEvent(...)] with its [__post_init__]; the clock is an argument. *)
Definition new_event (t : SecurityEventType) (s : SecuritySeverity) (descr : pystr) (did : option pystr)
    (now : pyfloat) (det : dict) : SecurityEvent :=
  MkSecurityEvent (event_type_value t) s descr did now (sanitize_dict det) None None.

Definition opt_str (o : option pystr) : json :=
  match o with
  | Some s => JStr s
  | None => JNull
  end.

Definition to_dict (e : SecurityEvent) : dict :=
  [(py "event_type", JStr (event_type e));
   (py "severity", JStr (severity_value (severity e)));
   (py "description", JStr (description e));
   (py "device_id", opt_str (device_id e));
   (py "timestamp", JFloat (timestamp e));
   (py "details", JObj (details e))]
  ++ match signature e with Some s => [(py "signature", JStr s)] | None => [] end
  ++ match signer_device_id e with Some s => [(py "signer_device_id", JStr s)] | None => [] end.

Definition canonical_payload (e : SecurityEvent) : result bytes :=
  let details_json := dumps_canonical (JObj (details e)) in
  let* sev := utf8_encode (severity_value (severity e)) in
  let* typ := utf8_encode (event_type e) in
  let* dev := utf8_encode (default [] (device_id e)) in
  let* des := utf8_encode (description e) in
  let* det := utf8_encode details_json in
  Ok (EVENT_DOMAIN ++ float_pack (timestamp e) ++ [x00] ++ sev ++ [x00] ++ typ ++ [x00] ++ dev
      ++ [x00] ++ des ++ [x00] ++ det).

(** ** Listeners

    A listener is known by its identity. Calling one runs foreign code, which
    may itself add or remove listeners, change its own state [world], or raise. *)

Section Listeners.
Context {world : Type}.

Record registry : Type := Registry {
  listeners : list nat;
  outside : world
}.
Variable call : nat -> SecurityEvent -> registry -> registry * option exn.

Definition add_listener (l : nat) (r : registry) : registry :=
  if bool_decide (l ∈ listeners r) then r else Registry (listeners r ++ [l]) (outside r).

(** [list.remove]: the first occurrence goes. *)
Fixpoint remove_first (l : nat) (ls : list nat) : list nat :=
  match ls with
  | [] => []
  | x :: ls => if bool_decide (x = l) then ls else x :: remove_first l ls
  end.
Definition remove_listener (l : nat) (r : registry) : registry :=
  if bool_decide (l ∈ listeners r) then Registry (remove_first l (listeners r)) (outside r) else r.

(** The loop of [emit] over the snapshot [list(_LISTENERS)]; an exception of a
    listener is logged and the loop goes on. *)
Fixpoint notify (ls : list nat) (e : SecurityEvent) (r : registry) : registry :=
  match ls with
  | [] => r
  | l :: ls => notify ls e (fst (call l e r))
  end.
Definition emit (e : SecurityEvent) (r : registry) : registry := notify (listeners r) e r.

(** [with capture_security_events() as captured: body]: a new listener [handler]
    for the length of the block, however the block ends. *)
Definition capture_security_events {A} (handler : nat) (body : registry -> result A * registry) (r : registry) : result A * registry :=
  let '(x, r) := body (add_listener handler r) in (x, remove_listener handler r).
End Listeners.
Arguments registry : clear implicits.

(** ** Severity is a strict total order *)

(** The four comparison methods of [SecuritySeverity] agree with one strict
    total order INFO < WARNING < HIGH < CRITICAL, [SecuritySeverity(s.value)]
    recovers [s], and the logging levels preserve the order. *)
Theorem severity_total_order a b :
  severity_of (severity_value a) = Ok a /\
  (severity_le a b = true <-> severity_lt a b = true \/ a = b) /\
  (severity_lt a b = true \/ a = b \/ severity_lt b a = true) /\
  ~ (severity_lt a b = true /\ severity_lt b a = true) /\
  severity_gt a b = severity_lt b a /\ severity_ge a b = severity_le b a /\
  (severity_lt a b = true <-> to_logging_level a < to_logging_level b).
Proof.
  destruct a, b; vm_compute; intuition congruence.
Qed.

(** ** Redaction *)

(** Which keys hold secrets, said without the code's own test: those in whose
    spelling one of the eight words occurs, in any mixture of cases. A letter is
    spelt by itself, by its capital, and k also by the Kelvin sign, which Python
    lower-cases to it. *)
Definition secret_words : list pystr :=
  map py ["private_key"; "session_key"; "secret"; "password"; "key_hex"; "seed"; "token"; "shared_secret"]%string.
Definition spells (l c : Z) : Prop :=
  c = l \/ (97 <= l <= 122 /\ c = l - 32) \/ (l = 107 /\ c = 0x212A).
Definition names_secret (k : pystr) : Prop :=
  exists w pre mid post, w ∈ secret_words /\ k = pre ++ mid ++ post /\ Forall2 spells w mid.

(** The words are lower-case letters and underscores, and none ends in i (whose
    dotted capital lower-cases to two code points). *)
Definition plain_char (c : Z) : bool := ((97 <=? c) && (c <=? 122)) || (c =? 95).
Definition plain_word (w : pystr) : bool :=
  match w with
  | [] => false
  | _ => forallb plain_char w && negb (List.last w 0 =? 105)
  end.
Lemma secret_words_plain w : w ∈ secret_words -> plain_word w = true.
Proof. intros H%list_elem_of_In. revert w H. apply List.Forall_forall. repeat constructor. Qed.

Lemma lower_app a b : lower (a ++ b) = lower a ++ lower b.
Proof. unfold lower. apply flat_map_app. Qed.
Lemma lower_spelt w mid : forallb plain_char w = true -> Forall2 spells w mid -> lower mid = w.
Proof.
  intros Hw H. induction H as [|l c w mid Hc _ IH]; [done|]. cbn [forallb] in Hw. apply andb_prop in Hw as [Hl Hw].
  change (lower (c :: mid)) with (lower_cp c ++ lower mid). rewrite (IH Hw).
  assert (lower_cp c = [l]) as ->; [|done]. unfold plain_char in Hl. unfold lower_cp.
  apply orb_prop in Hl. destruct Hc as [-> | [[Hr ->] | [-> ->]]]; [|by zcases; try lia; f_equal; lia|done].
  destruct Hl as [Hl | Hl]; zbool; zcases; try lia; done.
Qed.
Lemma prefixb_app w r : prefixb w (w ++ r) = true.
Proof. induction w as [|c w IH]; [done|]. cbn. by rewrite Z.eqb_refl. Qed.
Lemma substringb_app w a r : substringb w (a ++ w ++ r) = true.
Proof.
  induction a as [|c a IH]; cbn [app].
  - destruct (w ++ r) eqn:E; cbn [substringb]; rewrite <- E, prefixb_app; done.
  - cbn [substringb]. rewrite IH. apply orb_true_r.
Qed.

Lemma plain_word_cons l w : w <> [] -> plain_word (l :: w) = true -> plain_char l = true /\ plain_word w = true.
Proof.
  destruct w as [|c w]; [done|]. intros _. unfold plain_word. intros H. apply andb_prop in H as [H1 H2]. cbn [forallb] in H1.
  apply andb_prop in H1 as [H1 H3]. split; [done|]. apply andb_true_intro. by split.
Qed.
Lemma prefix_spelt w : forall k, plain_word w = true -> prefixb w (lower k) = true ->
  exists mid post, k = mid ++ post /\ Forall2 spells w mid.
Proof.
  induction w as [|l w IH]; [done|]. intros [|c k] Hw Hp; [done|].
  change (lower (c :: k)) with (lower_cp c ++ lower k) in Hp. unfold lower_cp in Hp.
  assert (forall d, [d] ++ lower k = d :: lower k -> prefixb (l :: w) (d :: lower k) = true -> spells l c \/ l <> d ->
    exists mid post, c :: k = mid ++ post /\ Forall2 spells (l :: w) mid) as Hone.
  { intros d _ Hd Hs. cbn [prefixb] in Hd. apply andb_prop in Hd as [Hd Hr]. zbool. destruct Hs as [Hs|]; [|done].
    destruct (decide (w = [])) as [->|Hne]; [exists [c], k; split; [done|]; constructor; [exact Hs|constructor]|].
    destruct (plain_word_cons l w Hne Hw) as [_ Hw']. destruct (IH k Hw' Hr) as (mid & post & -> & Hm).
    exists (c :: mid), post. split; [done|]. by constructor. }
  destruct ((65 <=? c) && (c <=? 90)) eqn:E1.
  { apply (Hone (c + 32)); [done..|]. zbool. destruct (decide (l = c + 32)); [|by right]. left. right. left. lia. }
  destruct (c =? 0x212A) eqn:E2.
  { apply (Hone 107); [done..|]. zbool. destruct (decide (l = 107)); [|by right]. left. right. right. lia. }
  destruct (c =? 0x130) eqn:E3.
  2: { apply (Hone c); [done..|]. destruct (decide (l = c)); [|by right]. left. by left. }
  exfalso. cbn [app prefixb] in Hp. apply andb_prop in Hp as [Hl Hp]. zbool. subst l.
  destruct w as [|l2 w]; [done|]. cbn [prefixb] in Hp. apply andb_prop in Hp as [Hl2 _]. zbool. subst l2.
  apply plain_word_cons in Hw as [_ Hw]; [|done]. destruct w; done.
Qed.
Lemma substring_cons w c r : plain_word w = true -> substringb w (c :: r) = true -> prefixb w (c :: r) = true \/ substringb w r = true.
Proof. intros _ H. by apply orb_prop in H. Qed.
Lemma substring_spelt w k : plain_word w = true -> substringb w (lower k) = true ->
  exists pre mid post, k = pre ++ mid ++ post /\ Forall2 spells w mid.
Proof.
  intros Hw. induction k as [|c k IH]; intros Hs.
  { destruct w; [done|]. done. }
  change (lower (c :: k)) with (lower_cp c ++ lower k) in Hs.
  assert (prefixb w (lower (c :: k)) = true \/ substringb w (lower k) = true) as [Hp | Hs'].
  { change (lower (c :: k)) with (lower_cp c ++ lower k). unfold lower_cp in *.
    repeat (case_goal; [|]); cbn [app] in *; try by apply substring_cons in Hs.
    apply substring_cons in Hs as [Hs | Hs]; [by left| |done].
    apply substring_cons in Hs as [Hs | Hs]; [|by right|done]. exfalso.
    destruct w as [|l w]; [done|]. cbn [prefixb] in Hs. apply andb_prop in Hs as [Hl _]. zbool. subst l.
    unfold plain_word in Hw. by cbn in Hw. }
  - apply prefix_spelt in Hp as (mid & post & E & Hm); [|done]. exists [], mid, post. done.
  - destruct (IH Hs') as (pre & mid & post & -> & Hm). by exists (c :: pre), mid, post.
Qed.

(** The code's test finds exactly those keys. *)
Lemma sensitive_names k : sensitive k = true <-> names_secret k.
Proof.
  unfold sensitive, names_secret. rewrite existsb_exists. change SENSITIVE_KEYS with secret_words. split.
  - intros (w & Hw & Hs). apply list_elem_of_In in Hw.
    destruct (substring_spelt w k (secret_words_plain w Hw) Hs) as (pre & mid & post & H). by exists w, pre, mid, post.
  - intros (w & pre & mid & post & Hw & -> & Hm). exists w. split; [by apply list_elem_of_In|].
    apply secret_words_plain in Hw. unfold plain_word in Hw. destruct w as [|l w]; [done|].
    apply andb_prop in Hw as [Hw _]. rewrite !lower_app, (lower_spelt _ _ Hw Hm). apply substringb_app.
Qed.

(** Two values that agree outside the values stored under keys that name a secret. *)
#[warnings="-register-all"]
Inductive same_public : json -> json -> Prop :=
  | SP_null : same_public JNull JNull
  | SP_bool b : same_public (JBool b) (JBool b)
  | SP_int n : same_public (JInt n) (JInt n)
  | SP_float x : same_public (JFloat x) (JFloat x)
  | SP_str s : same_public (JStr s) (JStr s)
  | SP_list vs ws : Forall2 same_public vs ws -> same_public (JList vs) (JList ws)
  | SP_obj kvs lws :
      Forall2 (fun p q => p.1 = q.1 /\ (names_secret p.1 \/ same_public p.2 q.2)) kvs lws ->
      same_public (JObj kvs) (JObj lws).

Lemma sanitize_sound a : forall z, sanitize_value a = sanitize_value z -> same_public a z.
Proof.
  induction a as [| | | | |vs IH|kvs IH] using json_ind'; intros z E;
    destruct z as [| | | | |ws|lws]; try discriminate E;
    try (injection E as ->; constructor); try constructor.
  - injection E as E. revert ws E. induction IH as [|v vs Hv _ IHl]; intros [|w ws] E; try done.
    injection E as E1 E2. constructor; auto.
  - injection E as E. revert lws E. induction IH as [|[k v] kvs Hv _ IHl]; intros [|[l w] lws] E; try done.
    injection E as E0 E1 E2. cbn [fst snd] in *. subst l. constructor; [|by apply IHl].
    cbn [fst snd]. split; [done|]. rewrite <- sensitive_names. destruct (sensitive k); auto.
Qed.

Lemma sanitize_complete a : forall z, same_public a z -> sanitize_value a = sanitize_value z.
Proof.
  induction a as [| | | | |vs IH|kvs IH] using json_ind'; intros z E; inversion E as [| | | | |? ? H|? ? H];
    subst; clear E; try done; cbn [sanitize_value]; f_equal.
  - induction H as [|v w vs ws Hvw _ IHl]; [done|]. inversion_clear IH as [|? ? H1 H2].
    cbn [map]. f_equal; auto.
  - induction H as [|[k v] [l w] kvs lws [Hk Hvw] _ IHl]; [done|]. inversion_clear IH as [|? ? H1 H2].
    cbn [fst snd map] in *. subst l. f_equal; [|auto].
    rewrite <- sensitive_names in Hvw. destruct Hvw as [-> | Hvw]; [done|]. by rewrite (H1 w Hvw).
Qed.

(** C24: redaction is exact: two values are redacted to the same result if and
    only if they agree outside the values stored under keys that name a secret, at
    any nesting depth, where a key names a secret when one of the words
    private_key, session_key, secret, password, key_hex, seed, token or
    shared_secret occurs in it in any mixture of cases. So no emitted event reveals
    anything about a value under such a key, and nothing else of the details is
    lost. *)
Theorem sanitize_noninterference a b : sanitize_value a = sanitize_value b <-> same_public a b.
Proof. split; [apply sanitize_sound | apply sanitize_complete]. Qed.

(** ** The canonical payload *)

Definition nul_free (s : pystr) : bool := forallb (fun c => negb (c =? 0)) s.

Lemma split_nul (a b c d : bytes) :
  x00 ∉ a -> x00 ∉ c -> a ++ [x00] ++ b = c ++ [x00] ++ d -> a = c /\ b = d.
Proof.
  revert c. induction a as [|x a IH]; intros [|y c] Ha Hc E; cbn in E.
  - by injection E as ->.
  - injection E as <- _. exfalso. apply Hc, elem_of_cons. by left.
  - injection E as -> _. exfalso. apply Ha, elem_of_cons. by left.
  - injection E as -> E. apply not_elem_of_cons in Ha as [_ Ha]. apply not_elem_of_cons in Hc as [_ Hc].
    destruct (IH c Ha Hc E) as [-> ->]. done.
Qed.

Lemma split_nul_last (a b c d : bytes) :
  x00 ∉ b -> x00 ∉ d -> a ++ [x00] ++ b = c ++ [x00] ++ d -> a = c /\ b = d.
Proof.
  intros Hb Hd E. apply (f_equal (@rev byte)) in E. rewrite !rev_app_distr, <- !app_assoc in E.
  change (rev [x00]) with [x00] in E.
  apply split_nul in E as [E1 E2].
  - apply (f_equal (@rev byte)) in E1, E2. by rewrite !rev_involutive in E1, E2.
  - by rewrite list_elem_of_In, <- in_rev, <- list_elem_of_In.
  - by rewrite list_elem_of_In, <- in_rev, <- list_elem_of_In.
Qed.

(** The texts of an event are Unicode scalar values, the fields before the
    description contain no NUL, and the details are a JSON value. *)
Definition event_ok (e : SecurityEvent) : bool :=
  forallb cp_ok (event_type e) && nul_free (event_type e) &&
  forallb cp_ok (default [] (device_id e)) && nul_free (default [] (device_id e)) &&
  forallb cp_ok (description e) && json_ok (JObj (details e)).

Lemma printable_nul_free s bs : printable_str s -> utf8_encode s = Ok bs -> x00 ∉ bs.
Proof.
  intros Hp E. rewrite utf8_encode_ascii in E by by apply printable_ascii. injection E as <-.
  rewrite list_elem_of_In, in_map_iff. intros (c & Ec & Hc). unfold printable_str in Hp.
  rewrite List.Forall_forall in Hp. specialize (Hp c Hc). unfold printable in Hp. zbool.
  apply (f_equal b2z) in Ec. rewrite b2z_z2b_small in Ec by lia. change (b2z x00) with 0 in Ec. lia.
Qed.

Lemma severity_value_inj a b : severity_value a = severity_value b -> a = b.
Proof. by destruct a, b. Qed.
Lemma severity_value_ok a : forallb cp_ok (severity_value a) = true /\ nul_free (severity_value a) = true.
Proof. by destruct a. Qed.

Lemma app_inv_prefix {A} (a b c d : list A) : length a = length c -> a ++ b = c ++ d -> a = c /\ b = d.
Proof. intros. by apply app_inj_1. Qed.

(** The canonical payload that is signed for audit determines the event: two
    events (with NUL-free types and device ids, any descriptions) that have the
    same payload have the same timestamp bits, severity, type, device,
    description and, up to key order, details. No two different events share a
    signature input although the description is unescaped. *)
Theorem canonical_payload_injective a b p :
  event_ok a = true -> event_ok b = true ->
  canonical_payload a = Ok p -> canonical_payload b = Ok p ->
  float_pack (timestamp a) = float_pack (timestamp b) /\ severity a = severity b /\
  event_type a = event_type b /\ default [] (device_id a) = default [] (device_id b) /\
  description a = description b /\ sort_keys (JObj (details a)) = sort_keys (JObj (details b)).
Proof.
  unfold event_ok, canonical_payload. intros Ha Hb Ea Eb. zbool.
  apply rbind_ok in Ea as (sa & Hsa & Ea), Eb as (sb & Hsb & Eb).
  apply rbind_ok in Ea as (ta & Hta & Ea), Eb as (tb & Htb & Eb).
  apply rbind_ok in Ea as (da & Hda & Ea), Eb as (db & Hdb & Eb).
  apply rbind_ok in Ea as (ca & Hca & Ea), Eb as (cb & Hcb & Eb).
  apply rbind_ok in Ea as (ja & Hja & Ea), Eb as (jb & Hjb & Eb).
  assert (E : EVENT_DOMAIN ++ float_pack (timestamp a) ++ [x00] ++ sa ++ [x00] ++ ta ++ [x00] ++ da
      ++ [x00] ++ ca ++ [x00] ++ ja = EVENT_DOMAIN ++ float_pack (timestamp b) ++ [x00] ++ sb ++ [x00]
      ++ tb ++ [x00] ++ db ++ [x00] ++ cb ++ [x00] ++ jb) by congruence.
  clear Ea Eb. apply app_inv_head in E.
  apply app_inv_prefix in E as [Et E]; [|by rewrite !float_pack_length]. apply app_inv_head in E.
  destruct (severity_value_ok (severity a)), (severity_value_ok (severity b)).
  apply split_nul in E as [<- E]; [|eapply utf8_nul_free; [| |eassumption]; eassumption..].
  apply split_nul in E as [<- E]; [|eapply utf8_nul_free; [| |eassumption]; eassumption..].
  apply split_nul in E as [<- E]; [|eapply utf8_nul_free; [| |eassumption]; eassumption..].
  apply split_nul_last in E as [<- <-];
    [|eapply printable_nul_free; [|eassumption]; by apply dumps_canonical_printable..].
  split; [done|]. split; [eapply severity_value_inj, utf8_encode_inj; cycle 2; eassumption|].
  split; [eapply utf8_encode_inj; cycle 2; eassumption|]. split; [eapply utf8_encode_inj; cycle 2; eassumption|].
  split; [eapply utf8_encode_inj; cycle 2; eassumption|]. apply dumps_canonical_inj; [done..|].
  pose proof (dumps_canonical_printable (JObj (details a)) ltac:(done)) as Pa.
  pose proof (dumps_canonical_printable (JObj (details b)) ltac:(done)) as Pb.
  apply printable_ascii in Pa, Pb. rewrite utf8_encode_ascii in Hja, Hjb by done.
  apply map_z2b_inj; [done..|congruence].
Qed.

Lemma canonical_payload_injective_witness :
  let a := MkSecurityEvent (py "t") HIGH (py "x") None (float_of_int 1)
             [(py "b", JInt 1); (py "a", JInt 2)] None None in
  let b := MkSecurityEvent (py "t") HIGH (py "x") (Some []) (float_of_int 1)
             [(py "a", JInt 2); (py "b", JInt 1)] None None in
  exists p, canonical_payload a = Ok p /\ canonical_payload b = Ok p /\
    sort_keys (JObj (details a)) = sort_keys (JObj (details b)).
Proof.
  intros a b. eexists. split; [vm_compute; reflexivity|]. split; [vm_compute; reflexivity|].
  eapply (canonical_payload_injective a b); vm_compute; reflexivity.
Defined.

(** ** Listeners *)

Section ListenerFacts.
Context {world : Type}.
Variable call : nat -> SecurityEvent -> registry world -> registry world * option exn.

Lemma remove_first_absent l ls : l ∉ ls -> remove_first l ls = ls.
Proof.
  induction ls as [|x ls IH]; intros H; [done|]. apply not_elem_of_cons in H as [Hx H]. cbn.
  rewrite bool_decide_eq_false_2 by congruence. by rewrite IH.
Qed.
Lemma remove_first_snoc l ls : l ∉ ls -> remove_first l (ls ++ [l]) = ls.
Proof.
  induction ls as [|x ls IH]; intros H; cbn; [by rewrite bool_decide_eq_true_2|].
  apply not_elem_of_cons in H as [Hx H]. rewrite bool_decide_eq_false_2 by congruence. by rewrite IH.
Qed.

(** Registration is idempotent, keeps the list duplicate-free and is undone by
    removal: a capture scope leaves the registry as it found it. *)
Lemma add_listener_spec l (r : registry world) :
  NoDup (listeners r) ->
  NoDup (listeners (add_listener l r)) /\ l ∈ listeners (add_listener l r) /\
  add_listener l (add_listener l r) = add_listener l r /\
  (l ∉ listeners r -> remove_listener l (add_listener l r) = r).
Proof.
  intros Hn. destruct r as [ls w]. unfold add_listener, remove_listener. cbn [listeners outside] in *.
  destruct (bool_decide_reflect (l ∈ ls)) as [Hin | Hout].
  - rewrite bool_decide_eq_true_2 by done. repeat split; done.
  - cbn [listeners outside]. assert (l ∈ ls ++ [l]) by (apply elem_of_app; right; by apply list_elem_of_singleton).
    rewrite bool_decide_eq_true_2 by done. repeat split; [|done|].
    + apply list.NoDup_app. split; [done|]. split; [|apply list.NoDup_singleton]. intros x Hx Hs.
      apply list_elem_of_singleton in Hs as ->. done.
    + intros _. by rewrite remove_first_snoc.
Qed.

(** A listener [h] that records into a buffer of [world]. *)
Variable h : nat.
Variable buffer : world -> list SecurityEvent.
Hypothesis records : forall e r,
  listeners (fst (call h e r)) = listeners r /\ buffer (outside (fst (call h e r))) = buffer (outside r) ++ [e].
Hypothesis others : forall l e r, l <> h ->
  NoDup (listeners r) -> h ∈ listeners r ->
  NoDup (listeners (fst (call l e r))) /\ h ∈ listeners (fst (call l e r)) /\
  buffer (outside (fst (call l e r))) = buffer (outside r).

Lemma notify_records ls e r :
  NoDup ls -> NoDup (listeners r) -> h ∈ listeners r ->
  NoDup (listeners (notify call ls e r)) /\ h ∈ listeners (notify call ls e r) /\
  buffer (outside (notify call ls e r))
  = buffer (outside r) ++ (if bool_decide (h ∈ ls) then [e] else []).
Proof.
  revert r. induction ls as [|l ls IH]; intros r Hls Hr Hh; cbn [notify].
  - by rewrite bool_decide_eq_false_2, app_nil_r by apply not_elem_of_nil.
  - apply list.NoDup_cons in Hls as [Hl Hls]. destruct (decide (l = h)) as [-> | Hne].
    + destruct (records e r) as [Hl1 Hb]. destruct (IH (fst (call h e r))) as (H1 & H2 & H3); [done|by rewrite Hl1..|].
      split; [done|]. split; [done|]. rewrite H3, Hb.
      rewrite (bool_decide_eq_false_2 (h ∈ ls)), (bool_decide_eq_true_2 (h ∈ h :: ls)), app_nil_r;
        [done | apply elem_of_cons; by left | done].
    + destruct (others l e r Hne Hr Hh) as (Hn & Hi & Hb).
      destruct (IH (fst (call l e r))) as (H1 & H2 & H3); [done..|].
      split; [done|]. split; [done|]. rewrite H3, Hb. f_equal.
      rewrite (bool_decide_ext (h ∈ l :: ls) (h ∈ ls)); [done|].
      rewrite elem_of_cons. split; [intros [-> | ?]; done | by right].
Qed.

(** A registered capture listener receives every emitted event exactly once and
    in order, whatever the other listeners do (raise, add or remove listeners)
    as long as they do not remove it or write its buffer. *)
Lemma emit_captured es r :
  NoDup (listeners r) -> h ∈ listeners r ->
  let r' := fold_left (fun r e => emit call e r) es r in
  NoDup (listeners r') /\ buffer (outside r') = buffer (outside r) ++ es.
Proof.
  revert r. induction es as [|e es IH]; intros r Hr Hh; cbn [fold_left]; [by rewrite app_nil_r|].
  destruct (notify_records (listeners r) e r Hr Hr Hh) as (H1 & H2 & H3).
  destruct (IH (emit call e r) H1 H2) as [H4 H5]. split; [exact H4|]. cbv zeta in H5. rewrite H5.
  unfold emit at 1. rewrite H3, bool_decide_eq_true_2 by done. by rewrite <- app_assoc.
Qed.

Lemma remove_first_notin l ls : NoDup ls -> l ∉ remove_first l ls.
Proof.
  induction 1 as [|x ls Hx _ IH]; cbn [remove_first]; [apply not_elem_of_nil|]. destruct (bool_decide_reflect (x = l)) as [->|Hne]; [done|].
  intros [->|Hin]%elem_of_cons; [done|by apply IH].
Qed.

(** A block that emits events captures exactly them, in order, and its listener is
    gone afterwards. *)
Lemma capture_exact es r :
  NoDup (listeners r) -> h ∉ listeners r ->
  let '(_, r') := capture_security_events h (fun r => (Ok tt, fold_left (fun r e => emit call e r) es r)) r in
  buffer (outside r') = buffer (outside r) ++ es /\ h ∉ listeners r'.
Proof.
  intros Hr Hh. unfold capture_security_events. destruct (add_listener_spec h r Hr) as (H1 & H2 & _).
  destruct (emit_captured es (add_listener h r) H1 H2) as [H3 H4]. cbv zeta in H3, H4. set (r' := fold_left _ es _) in *.
  unfold remove_listener. split.
  - destruct (bool_decide _); cbn [outside]; rewrite H4; unfold add_listener; by destruct (bool_decide _).
  - destruct (bool_decide_reflect (h ∈ listeners r')); [cbn [listeners]; by apply remove_first_notin|done].
Qed.
End ListenerFacts.
