(* ===== verification/EventBus.v ===== *)
(** * core/events.py: the event bus

    The typed events, the subscription tables, handler collection, publication
    with exception isolation, capture, and the bridge from security events.
    A handler is known by its identity; calling one runs foreign code. *)

From stdpp Require Import base strings list numbers option.
From Stdlib Require Import ZArith Lia Strings.Byte Floats.SpecFloat.
From S2P Require Import Prelude PyStr PyFloat Json PyValue SecurityEvents.
Open Scope Z_scope.
Open Scope peerc_scope.

(** ** Events *)

Inductive event_data : Type :=
  | BaseEvent
  | ChatReceived (addr_key : pystr) (sender_id sender_name text message_id : json) (raw_message : dict)
  | ChatMessageStatusChanged (message_id status addr_key : pystr)
  | FileOffered (transfer_id addr_key filename : pystr) (size : Z) (checksum sender_name sender_id : pystr)
  | FileProgress (transfer_id : pystr) (bytes_transferred total_bytes : Z) (is_upload : bool)
  | TransferCompleted (transfer_id : pystr) (success : bool) (filepath error : option pystr)
  | PeerConnected (addr_key : pystr) (peer_id : option pystr) (incoming : bool)
  | PeerDisconnected (addr_key : pystr) (peer_id reason : option pystr)
  | TrustRequired (peer_id peer_name public_key : pystr) (addr_key : option pystr) (reason : pystr)
  | SecurityWarning (event_type severity : pystr) (details : dict) (peer_id : option pystr)
  | NetworkMessageReceived (addr_key : pystr) (message : dict) (kind : pystr).

Record event : Type := Event {
  ev_timestamp : pyfloat;
  ev_data : event_data
}.

(** The classes, and [issubclass]: every event class derives directly from [Event]. *)
Inductive event_cls : Type :=
  | CEvent | CChatReceived | CChatMessageStatusChanged | CFileOffered | CFileProgress | CTransferCompleted
  | CPeerConnected | CPeerDisconnected | CTrustRequired | CSecurityWarning | CNetworkMessageReceived.
#[export] Instance event_cls_eq_dec : EqDecision event_cls.
Proof. solve_decision. Defined.

Definition type_of (e : event) : event_cls :=
  match ev_data e with
  | BaseEvent => CEvent
  | ChatReceived _ _ _ _ _ _ => CChatReceived
  | ChatMessageStatusChanged _ _ _ => CChatMessageStatusChanged
  | FileOffered _ _ _ _ _ _ _ => CFileOffered
  | FileProgress _ _ _ _ => CFileProgress
  | TransferCompleted _ _ _ _ => CTransferCompleted
  | PeerConnected _ _ _ => CPeerConnected
  | PeerDisconnected _ _ _ => CPeerDisconnected
  | TrustRequired _ _ _ _ _ => CTrustRequired
  | SecurityWarning _ _ _ _ => CSecurityWarning
  | NetworkMessageReceived _ _ _ => CNetworkMessageReceived
  end.
Definition issubclass (c d : event_cls) : bool := bool_decide (c = d) || bool_decide (d = CEvent).

(** [FileProgress.percent], at most 100. *)
Definition percent (bytes_transferred total_bytes : Z) : result pyfloat :=
  let hundred := float_of_int 100 in
  if total_bytes <=? 0 then Ok hundred else
  let* q := int_truediv bytes_transferred total_bytes in
  let x := float_mul q hundred in
  Ok (if float_lt x hundred then x else hundred).

Example percent_ex :
  map (fun ab => percent ab.1 ab.2) [(1, 0); (0, 7); (3, 2); (7, 7); (1, 8)]
  = map (fun x => Ok x) [float_of_int 100; float_of_int 0; float_of_int 100; float_of_int 100; SpecFloat.S754_finite false 0x19000000000000 (-49)].
Proof. vm_compute. reflexivity. Qed.

Lemma percent_capped done total x : percent done total = Ok x -> float_lt (float_of_int 100) x = false.
Proof.
  unfold percent. destruct (total <=? 0); [intros [= <-]; reflexivity|]. destruct (int_truediv done total) as [q|e]; [|discriminate].
  cbn [rbind]. destruct (float_lt _ _) eqn:E; intros [= <-]; [by apply SFltb_asym|reflexivity].
Qed.

(** ** The bus *)

Abbreviation handler := nat.

Record EventBus : Type := Bus {
  subscribers : list (event_cls * list handler);   (* a dict, in insertion order *)
  wildcard_subscribers : list handler
}.

Definition empty_bus : EventBus := Bus [] [].

Fixpoint sub_get (c : event_cls) (s : list (event_cls * list handler)) : option (list handler) :=
  match s with
  | [] => None
  | (d, hs) :: s => if bool_decide (c = d) then Some hs else sub_get c s
  end.
Fixpoint sub_set (c : event_cls) (hs : list handler) (s : list (event_cls * list handler)) :
    list (event_cls * list handler) :=
  match s with
  | [] => [(c, hs)]
  | (d, hs') :: s => if bool_decide (c = d) then (d, hs) :: s else (d, hs') :: sub_set c hs s
  end.
Fixpoint sub_pop (c : event_cls) (s : list (event_cls * list handler)) : list (event_cls * list handler) :=
  match s with
  | [] => []
  | (d, hs) :: s => if bool_decide (c = d) then s else (d, hs) :: sub_pop c s
  end.

Definition subscribe (event_type : event_cls) (h : handler) (b : EventBus) : EventBus :=
  let handlers := default [] (sub_get event_type (subscribers b)) in
  let handlers := if bool_decide (h ∈ handlers) then handlers else handlers ++ [h] in
  Bus (sub_set event_type handlers (subscribers b)) (wildcard_subscribers b).

Definition unsubscribe (event_type : event_cls) (h : handler) (b : EventBus) : EventBus * bool :=
  match sub_get event_type (subscribers b) with
  | Some handlers =>
      if bool_decide (h ∈ handlers) then
        let handlers := remove_first h handlers in
        (Bus (match handlers with
              | [] => sub_pop event_type (subscribers b)
              | _ => sub_set event_type handlers (subscribers b)
              end) (wildcard_subscribers b), true)
      else (b, false)
  | None => (b, false)
  end.

Definition subscribe_all (h : handler) (b : EventBus) : EventBus :=
  if bool_decide (h ∈ wildcard_subscribers b) then b
  else Bus (subscribers b) (wildcard_subscribers b ++ [h]).

Definition unsubscribe_all (h : handler) (b : EventBus) : EventBus * bool :=
  if bool_decide (h ∈ wildcard_subscribers b)
  then (Bus (subscribers b) (remove_first h (wildcard_subscribers b)), true)
  else (b, false).

Definition clear (b : EventBus) : EventBus := empty_bus.

(** The [seen]/[matched] accumulation; [seen] and [matched] hold the same handlers. *)
Definition collect_step (matched : list handler) (h : handler) : list handler :=
  if bool_decide (h ∈ matched) then matched else matched ++ [h].
Definition collect_handlers (b : EventBus) (e : event) : list handler :=
  let matched := fold_left (fun matched '(registered_type, handlers) =>
                              if issubclass (type_of e) registered_type
                              then fold_left collect_step handlers matched
                              else matched) (subscribers b) [] in
  fold_left collect_step (wildcard_subscribers b) matched.

(** [publish]: the handlers are collected first, then called one after the
    other; an exception of one is logged and the next one is called. A handler
    may change the bus and the world. *)
Section Publish.
Context {world : Type}.
Variable call : handler -> event -> EventBus * world -> (EventBus * world) * option exn.

Fixpoint call_each (hs : list handler) (e : event) (s : EventBus * world) : EventBus * world :=
  match hs with
  | [] => s
  | h :: hs => call_each hs e (fst (call h e s))
  end.
Definition publish (e : event) (s : EventBus * world) : EventBus * world :=
  call_each (collect_handlers (fst s) e) e s.
End Publish.

(** [post]. With a running event loop the publication becomes a task, run
    later; without one the handlers are called at once, and what an
    asynchronous handler returns is dropped unawaited: [start] is the effect of
    the bare call, which for such a handler is none. *)
Section Post.
Context {world : Type}.
Variable start : handler -> event -> EventBus * world -> (EventBus * world) * option exn.

Definition post (running_loop : bool) (e : event) (s : EventBus * world) (tasks : list event)
    : (EventBus * world) * list event :=
  if running_loop then (s, tasks ++ [e])
  else (call_each start (collect_handlers (fst s) e) e s, tasks).
End Post.

(** The event loop runs the posted publications in order. *)
Definition run_tasks {world} (call : handler -> event -> EventBus * world -> (EventBus * world) * option exn)
    (tasks : list event) (s : EventBus * world) : EventBus * world := fold_left (fun s e => publish call e s) tasks s.

(** Posting in a running loop and letting it drain is publishing in order; when
    no handler is asynchronous, posting without a loop is publishing at once. *)
Lemma posted_then_run {world} (call : handler -> event -> EventBus * world -> (EventBus * world) * option exn) start e s tasks :
  (let (s', tasks') := post start true e s tasks in run_tasks call tasks' s') = publish call e (run_tasks call tasks s) /\
  post call false e s tasks = (publish call e s, tasks).
Proof. split; [|done]. cbn. unfold run_tasks. by rewrite fold_left_app. Qed.

(** [capture]: a fresh wildcard handler, the collector, is subscribed for the
    length of the block, however the block ends. The collector appends to its
    list the events that pass [captures]. *)
Definition captures (event_types : list event_cls) (e : event) : bool :=
  match event_types with
  | [] => true
  | _ => existsb (issubclass (type_of e)) event_types
  end.
Definition collector_call (event_types : list event_cls) (e : event) (captured : list event) : list event :=
  if captures event_types e then captured ++ [e] else captured.
Definition capture {world A} (collector : handler) (body : EventBus * world -> result A * (EventBus * world))
    (s : EventBus * world) : result A * (EventBus * world) :=
  let '(x, (b, w)) := body (subscribe_all collector (fst s), snd s) in
  (x, (fst (unsubscribe_all collector b), w)).

(** ** The bridge from security events *)

(** The event posted for a security event, if its severity is high enough. *)
Definition on_security_event (target_sev : SecuritySeverity) (sec_evt : SecurityEvent) : option event :=
  if severity_ge (severity sec_evt) target_sev
  then Some (Event (timestamp sec_evt)
               (SecurityWarning (event_type sec_evt) (severity_value (severity sec_evt)) (details sec_evt)
                  (device_id sec_evt)))
  else None.
(** Registers the closure as the security listener number [listener]. The
    result is what that listener posts on the bus for a security event, and the
    [unhook] function; an unknown severity name raises before any registration. *)
Definition bridge_security_events {world} (listener : nat) (min_severity_name : pystr) (r : registry world)
    : result ((SecurityEvent -> option event) * (registry world -> registry world)) * registry world :=
  match severity_of min_severity_name with
  | Ok target_sev => (Ok (on_security_event target_sev, remove_listener listener), add_listener listener r)
  | Err e => (Err e, r)
  end.

(** ** Well-formed buses *)

Record wf_bus (b : EventBus) : Prop := {
  wf_keys : NoDup (map fst (subscribers b));
  wf_handlers : Forall (fun p => NoDup p.2 /\ p.2 <> []) (subscribers b);
  wf_wild : NoDup (wildcard_subscribers b)
}.

(** Handler [h] is subscribed to class [c]. *)
Definition subscribed (b : EventBus) (c : event_cls) (h : handler) : Prop :=
  exists hs, sub_get c (subscribers b) = Some hs /\ h ∈ hs.

Lemma sub_get_set c d hs s :
  sub_get d (sub_set c hs s) = if bool_decide (d = c) then Some hs else sub_get d s.
Proof.
  induction s as [|[k ks] s IH]; cbn [sub_set sub_get].
  - done.
  - destruct (bool_decide_reflect (c = k)) as [-> | Hc]; cbn [sub_get].
    + by destruct (bool_decide_reflect (d = k)).
    + rewrite IH. destruct (bool_decide_reflect (d = k)) as [-> | Hd]; [|done].
      by rewrite bool_decide_eq_false_2 by congruence.
Qed.

Lemma sub_get_In c s hs : NoDup (map fst s) -> sub_get c s = Some hs <-> (c, hs) ∈ s.
Proof.
  induction s as [|[k ks] s IH]; cbn [map sub_get fst]; intros Hn.
  - split; [done | intros H; by apply elem_of_nil in H].
  - apply list.NoDup_cons in Hn as [Hk Hn]. rewrite elem_of_cons.
    destruct (bool_decide_reflect (c = k)) as [-> | Hc].
    + split; [intros [= ->]; by left | intros [[= ->] | Hin]; [done|]].
      exfalso. apply Hk. apply list_elem_of_In, in_map_iff. exists (k, hs). split; [done|].
      by apply list_elem_of_In.
    + rewrite IH by done. split; [by right | intros [[= -> ->] | ?]; done].
Qed.

Lemma sub_set_keys c hs s : forall k, k ∈ map fst (sub_set c hs s) <-> k = c \/ k ∈ map fst s.
Proof.
  induction s as [|[d ds] s IH]; intros k; cbn [sub_set map fst].
  - rewrite list_elem_of_singleton, elem_of_nil. naive_solver.
  - destruct (bool_decide_reflect (c = d)) as [-> | Hc]; cbn [map fst]; rewrite !elem_of_cons;
      [naive_solver | rewrite IH; naive_solver].
Qed.

Lemma sub_set_nodup c hs s : NoDup (map fst s) -> NoDup (map fst (sub_set c hs s)).
Proof.
  induction s as [|[d ds] s IH]; cbn [sub_set map fst]; intros Hn; [apply list.NoDup_singleton|].
  apply list.NoDup_cons in Hn as [Hd Hn].
  destruct (bool_decide_reflect (c = d)) as [-> | Hc]; cbn [map fst]; apply list.NoDup_cons; [done|].
  split; [|by apply IH]. rewrite sub_set_keys. naive_solver.
Qed.

Lemma sub_set_forall (P : event_cls * list handler -> Prop) c hs s :
  Forall P s -> P (c, hs) -> Forall P (sub_set c hs s).
Proof.
  intros Hs Hp. induction Hs as [|[d ds] s Hd Hs IH]; cbn [sub_set]; [by repeat constructor|].
  destruct (bool_decide_reflect (c = d)) as [-> | Hc]; by constructor.
Qed.

Lemma sub_pop_sublist c s : sub_pop c s `sublist_of` s.
Proof.
  induction s as [|[d ds] s IH]; cbn [sub_pop]; [constructor|].
  destruct (bool_decide _); [by apply sublist_cons | by apply sublist_skip].
Qed.

Lemma map_sublist {A B} (f : A -> B) l k : l `sublist_of` k -> map f l `sublist_of` map f k.
Proof. induction 1; cbn [map]; by constructor. Qed.

Lemma sublist_Forall {A} (P : A -> Prop) l k : l `sublist_of` k -> Forall P k -> Forall P l.
Proof. induction 1; intros Hf; inversion_clear Hf; auto. Qed.

Lemma sub_get_pop c d s : NoDup (map fst s) ->
  sub_get d (sub_pop c s) = if bool_decide (d = c) then None else sub_get d s.
Proof.
  induction s as [|[k ks] s IH]; cbn [sub_pop sub_get map fst]; intros Hn.
  - by destruct (bool_decide _).
  - apply list.NoDup_cons in Hn as [Hk Hn]. destruct (bool_decide_reflect (c = k)) as [-> | Hc]; cbn [sub_get].
    + destruct (bool_decide_reflect (d = k)) as [-> | Hd]; [|done].
      destruct (sub_get k s) as [hs|] eqn:E; [|done]. apply sub_get_In in E; [|done].
      exfalso. apply Hk, list_elem_of_In, in_map_iff. exists (k, hs). split; [done | by apply list_elem_of_In].
    + rewrite IH by done. destruct (bool_decide_reflect (d = k)) as [-> | Hd]; [|done].
      by rewrite bool_decide_eq_false_2 by congruence.
Qed.

Lemma remove_first_elem x l ls : NoDup ls -> x ∈ remove_first l ls <-> x ∈ ls /\ x <> l.
Proof.
  induction ls as [|y ls IH]; cbn [remove_first]; intros Hn.
  - rewrite elem_of_nil. naive_solver.
  - apply list.NoDup_cons in Hn as [Hy Hn]. destruct (bool_decide_reflect (y = l)) as [-> | Hc];
      rewrite !elem_of_cons; [|rewrite IH by done]; naive_solver.
Qed.
Lemma remove_first_nodup l ls : NoDup ls -> NoDup (remove_first l ls).
Proof.
  induction ls as [|y ls IH]; cbn [remove_first]; intros Hn; [done|].
  pose proof Hn as Hn'. apply list.NoDup_cons in Hn as [Hy Hn].
  destruct (bool_decide_reflect (y = l)); [done|]. apply list.NoDup_cons. split; [|by apply IH].
  rewrite remove_first_elem by done. naive_solver.
Qed.
Lemma snoc_nodup {A} `{EqDecision A} (x : A) ls :
  NoDup ls -> NoDup (if bool_decide (x ∈ ls) then ls else ls ++ [x]).
Proof.
  intros Hn. destruct (bool_decide_reflect (x ∈ ls)); [done|]. apply list.NoDup_app.
  split; [done|]. split; [|apply list.NoDup_singleton]. intros y Hy ->%list_elem_of_singleton. done.
Qed.

(** ** Subscription *)

Lemma wf_handlers_get b c hs : wf_bus b -> sub_get c (subscribers b) = Some hs -> NoDup hs /\ hs <> [].
Proof.
  intros [Hk Hh _] E. apply sub_get_In in E; [|done]. rewrite List.Forall_forall in Hh.
  apply list_elem_of_In, Hh in E. done.
Qed.

Lemma subscribe_wf c h b : wf_bus b -> wf_bus (subscribe c h b).
Proof.
  intros Hb. pose proof Hb as [Hk Hh Hw]. split; cbn [subscribe subscribers wildcard_subscribers]; [|apply sub_set_forall|]; auto.
  - by apply sub_set_nodup.
  - cbn [snd]. destruct (sub_get c (subscribers b)) as [hs|] eqn:E; cbn [default]; unfold id.
    + destruct (wf_handlers_get b c hs Hb E). split; [by apply snoc_nodup|].
      destruct (bool_decide _); [done|]. by destruct hs.
    + rewrite bool_decide_eq_false_2 by apply not_elem_of_nil. split; [apply list.NoDup_singleton | done].
Qed.

Lemma unsubscribe_wf c h b : wf_bus b -> wf_bus (fst (unsubscribe c h b)).
Proof.
  intros Hb. pose proof Hb as [Hk Hh Hw]. unfold unsubscribe.
  destruct (sub_get c (subscribers b)) as [hs|] eqn:E; [|done].
  destruct (wf_handlers_get b c hs Hb E) as [Hn _]. destruct (bool_decide (h ∈ hs)); [|done].
  pose proof (remove_first_nodup h hs Hn). cbn [fst].
  destruct (remove_first h hs) as [|h1 hs1] eqn:Er; split; cbn [subscribers wildcard_subscribers]; auto.
  - eapply sublist_NoDup; [exact Hk|]. apply map_sublist, sub_pop_sublist.
  - eapply sublist_Forall; [apply sub_pop_sublist | done].
  - by apply sub_set_nodup.
  - by apply sub_set_forall.
Qed.

Lemma subscribed_subscribe c h b d g :
  subscribed (subscribe c h b) d g <-> subscribed b d g \/ (d = c /\ g = h).
Proof.
  unfold subscribed, subscribe. cbn [subscribers]. rewrite sub_get_set.
  destruct (bool_decide_reflect (d = c)) as [-> | Hd]; [|naive_solver].
  destruct (sub_get c (subscribers b)) as [hs|] eqn:E; cbn [default]; unfold id.
  - destruct (bool_decide_reflect (h ∈ hs)); split.
    + naive_solver.
    + naive_solver.
    + intros (? & [= <-] & Hg). apply elem_of_app in Hg as [Hg | Hg%list_elem_of_singleton]; naive_solver.
    + intros [(? & [= <-] & Hg) | [_ ->]]; (eexists; split; [done|]); apply elem_of_app; [by left|].
      right. by apply list_elem_of_singleton.
  - rewrite bool_decide_eq_false_2 by apply not_elem_of_nil. split.
    + intros (? & [= <-] & Hg%list_elem_of_singleton). by right.
    + intros [(? & ? & ?) | [_ ->]]; [done|]. eexists. split; [done|]. by apply list_elem_of_singleton.
Qed.

Lemma subscribed_unsubscribe c h b d g : wf_bus b ->
  subscribed (fst (unsubscribe c h b)) d g <-> subscribed b d g /\ ~ (d = c /\ g = h).
Proof.
  intros Hb. pose proof Hb as [Hk _ _]. unfold unsubscribe.
  destruct (sub_get c (subscribers b)) as [hs|] eqn:E.
  2: { cbn [fst]. unfold subscribed. split; [intros (hs & H1 & H2); split; [eauto|]; intros [-> ->]; congruence | naive_solver]. }
  destruct (wf_handlers_get b c hs Hb E) as [Hn _].
  destruct (bool_decide_reflect (h ∈ hs)) as [Hin | Hout]; cbn [fst].
  2: { unfold subscribed. split; [|naive_solver]. intros (ks & H1 & H2). split; [eauto|].
       intros [-> ->]. rewrite E in H1. injection H1 as <-. done. }
  pose proof (remove_first_elem g h hs Hn) as Hg.
  assert (forall s, (sub_get d s = if bool_decide (d = c) then (match remove_first h hs with [] => None | _ => Some (remove_first h hs) end)
                     else sub_get d (subscribers b)) ->
    (exists ks, sub_get d s = Some ks /\ g ∈ ks) <-> subscribed b d g /\ ~ (d = c /\ g = h)) as Hfin.
  { intros s ->. unfold subscribed. destruct (bool_decide_reflect (d = c)) as [-> | Hd]; [|naive_solver].
    rewrite E. destruct (remove_first h hs) as [|h1 hs1] eqn:Er.
    - split; [intros (? & ? & ?); done|]. intros [(? & [= <-] & H1) H2]. exfalso.
      assert (g ∈ []) as H3 by (apply Hg; naive_solver). by apply elem_of_nil in H3.
    - split; [intros (? & [= <-] & H1%Hg); naive_solver|]. intros [(? & [= <-] & H1) H2].
      eexists. split; [done|]. apply Hg. naive_solver. }
  unfold subscribed at 1. cbn [subscribers]. apply Hfin. destruct (remove_first h hs).
  - by rewrite sub_get_pop.
  - by rewrite sub_get_set.
Qed.

(** ** Collection *)

Lemma collect_fold hs : forall matched,
  (NoDup matched -> NoDup (fold_left collect_step hs matched)) /\
  (forall h, h ∈ fold_left collect_step hs matched <-> h ∈ matched \/ h ∈ hs).
Proof.
  induction hs as [|x hs IH]; intros m; cbn [fold_left].
  - split; [done|]. intros h. rewrite elem_of_nil. naive_solver.
  - destruct (IH (collect_step m x)) as [H1 H2]. split.
    + intros Hm. apply H1. by apply snoc_nodup.
    + intros h. rewrite H2, elem_of_cons. unfold collect_step.
      destruct (bool_decide_reflect (x ∈ m)); [naive_solver|].
      rewrite elem_of_app, list_elem_of_singleton. naive_solver.
Qed.

Lemma collect_subscribers cls subs : forall matched,
  let r := fold_left (fun matched '(registered_type, handlers) =>
             if issubclass cls registered_type then fold_left collect_step handlers matched else matched) subs matched in
  (NoDup matched -> NoDup r) /\
  (forall h, h ∈ r <-> h ∈ matched \/ exists c hs, (c, hs) ∈ subs /\ issubclass cls c = true /\ h ∈ hs).
Proof.
  induction subs as [|[c hs] subs IH]; intros m; cbn [fold_left].
  - split; [done|]. intros h. split; [by left|]. intros [?|(? & ? & H & _)]; [done | by apply elem_of_nil in H].
  - destruct (issubclass cls c) eqn:Ec.
    + destruct (IH (fold_left collect_step hs m)) as [H1 H2]. destruct (collect_fold hs m) as [F1 F2].
      split; [auto|]. intros h. rewrite H2, F2. split.
      * intros [[Hm | Hh] | (d & ds & Hin & Hd & Hh)]; [by left | right; exists c, hs | right; exists d, ds].
        -- split; [apply elem_of_cons; by left | done].
        -- split; [apply elem_of_cons; by right | done].
      * intros [Hm | (d & ds & [[= -> ->] | Hin]%elem_of_cons & Hd & Hh)]; [by left; left | by left; right|].
        right. by exists d, ds.
    + destruct (IH m) as [H1 H2]. split; [done|]. intros h. rewrite H2. split.
      * intros [Hm | (d & ds & Hin & Hd & Hh)]; [by left|]. right. exists d, ds.
        split; [apply elem_of_cons; by right | done].
      * intros [Hm | (d & ds & [[= -> ->] | Hin]%elem_of_cons & Hd & Hh)]; [by left | congruence|].
        right. by exists d, ds.
Qed.

(** Handler collection delivers an event to exactly the handlers subscribed
    to its class or to a base class of it, plus the wildcard handlers, each one
    once, on every bus reachable by subscribing and unsubscribing. *)
Theorem collect_handlers_exact b e :
  wf_bus b ->
  NoDup (collect_handlers b e) /\
  forall h, h ∈ collect_handlers b e <->
    h ∈ wildcard_subscribers b \/ exists c, issubclass (type_of e) c = true /\ subscribed b c h.
Proof.
  intros [Hk Hh Hw]. unfold collect_handlers.
  destruct (collect_subscribers (type_of e) (subscribers b) []) as [H1 H2].
  edestruct (collect_fold (wildcard_subscribers b)) as [F1 F2]. split; [apply F1, H1, base.NoDup_nil_2|].
  intros h. rewrite F2, H2. unfold subscribed. split.
  - intros [[H | (c & hs & Hin & Hc & Hx)] | H]; [by apply elem_of_nil in H | | by left].
    right. exists c. split; [done|]. exists hs. split; [by apply sub_get_In | done].
  - intros [H | (c & Hc & hs & Hg & Hx)]; [by right|]. left. right. exists c, hs.
    split; [by apply sub_get_In | done].
Qed.

Lemma collect_handlers_exact_witness :
  let b := subscribe CEvent 7 (subscribe_all 3 (subscribe CPeerConnected 7 empty_bus)) in
  let e := Event (float_of_int 0) (PeerConnected (py "a:1") None true) in
  collect_handlers b e = [7; 3]%nat /\ NoDup (collect_handlers b e).
Proof.
  intros b e. split; [vm_compute; reflexivity|]. apply (collect_handlers_exact b e).
  apply subscribe_wf. split; cbn.
  - apply list.NoDup_singleton.
  - repeat constructor; try done. apply not_elem_of_nil.
  - apply list.NoDup_singleton.
Defined.

(** The operations a program performs on a bus. *)
Inductive bus_op : Type :=
  | OpSubscribe (c : event_cls) (h : handler)
  | OpUnsubscribe (c : event_cls) (h : handler)
  | OpSubscribeAll (h : handler)
  | OpUnsubscribeAll (h : handler)
  | OpClear.
Definition run_op (b : EventBus) (o : bus_op) : EventBus :=
  match o with
  | OpSubscribe c h => subscribe c h b
  | OpUnsubscribe c h => fst (unsubscribe c h b)
  | OpSubscribeAll h => subscribe_all h b
  | OpUnsubscribeAll h => fst (unsubscribe_all h b)
  | OpClear => clear b
  end.

Lemma empty_wf : wf_bus empty_bus.
Proof. split; cbn; constructor. Qed.

Lemma run_op_wf b o : wf_bus b -> wf_bus (run_op b o).
Proof.
  intros Hb. destruct o as [c h|c h|h|h|]; cbn [run_op].
  - by apply subscribe_wf.
  - by apply unsubscribe_wf.
  - destruct Hb as [Hk Hh Hw]. unfold subscribe_all. pose proof (snoc_nodup h _ Hw) as Hs.
    destruct (bool_decide _); by split.
  - destruct Hb as [Hk Hh Hw]. unfold unsubscribe_all. pose proof (remove_first_nodup h _ Hw) as Hs.
    destruct (bool_decide _); by split.
  - apply empty_wf.
Qed.

(** The abstract bus: the set of (class, handler) subscriptions and the set of
    wildcard handlers. *)
Definition abs_step (o : bus_op) (S : event_cls -> handler -> Prop) (W : handler -> Prop) :
    (event_cls -> handler -> Prop) * (handler -> Prop) :=
  match o with
  | OpSubscribe c h => (fun d g => S d g \/ (d = c /\ g = h), W)
  | OpUnsubscribe c h => (fun d g => S d g /\ ~ (d = c /\ g = h), W)
  | OpSubscribeAll h => (S, fun g => W g \/ g = h)
  | OpUnsubscribeAll h => (S, fun g => W g /\ g <> h)
  | OpClear => (fun _ _ => False, fun _ => False)
  end.
Definition represents (b : EventBus) (S : event_cls -> handler -> Prop) (W : handler -> Prop) : Prop :=
  wf_bus b /\ (forall c h, subscribed b c h <-> S c h) /\ (forall h, h ∈ wildcard_subscribers b <-> W h).

(** C25: the two tables of the bus implement a plain relation of subscriptions
    and a set of wildcard handlers: starting from any state that represents an
    abstract bus, every operation leads to a state that represents the abstract
    bus after the set-level operation (removal of empty entries, duplicate
    subscriptions and dict order included). *)
Theorem bus_refines_relation b S W o :
  represents b S W -> represents (run_op b o) (fst (abs_step o S W)) (snd (abs_step o S W)).
Proof.
  intros (Hb & HS & HW). split; [by apply run_op_wf|].
  destruct o as [c h|c h|h|h|]; cbn [run_op abs_step fst snd]; (split; [intros d g | intros g]).
  - rewrite subscribed_subscribe, HS. done.
  - apply HW.
  - rewrite subscribed_unsubscribe, HS by done. done.
  - unfold unsubscribe. destruct (sub_get _ _) as [hs|]; [destruct (bool_decide _)|]; apply HW.
  - rewrite <- HS. unfold subscribe_all. by destruct (bool_decide _).
  - rewrite <- HW. unfold subscribe_all. destruct (bool_decide_reflect (h ∈ wildcard_subscribers b)).
    + naive_solver.
    + cbn [wildcard_subscribers]. by rewrite elem_of_app, list_elem_of_singleton.
  - rewrite <- HS. unfold unsubscribe_all. by destruct (bool_decide _).
  - rewrite <- HW. unfold unsubscribe_all. destruct (bool_decide_reflect (h ∈ wildcard_subscribers b)).
    + cbn [fst wildcard_subscribers]. apply remove_first_elem, Hb.
    + naive_solver.
  - split; [by intros (? & ? & ?) | done].
  - rewrite elem_of_nil. done.
Qed.

Lemma bus_refines_relation_witness :
  represents (run_op empty_bus (OpSubscribe CFileOffered 4))
    (fun d g => False \/ (d = CFileOffered /\ g = 4%nat)) (fun _ => False).
Proof.
  apply (bus_refines_relation empty_bus (fun _ _ => False) (fun _ => False) (OpSubscribe CFileOffered 4)).
  split; [apply empty_wf|]. split; [intros c h; split; [by intros (? & ? & ?) | done]|].
  intros h. cbn. rewrite elem_of_nil. done.
Defined.

(** ** Publication *)

Section PublishFacts.
Context {world : Type}.
Variable call : handler -> event -> EventBus * world -> (EventBus * world) * option exn.
(** The log of handler calls kept in the world. *)
Variable log : world -> list handler.
Hypothesis logs : forall h e s, log (snd (fst (call h e s))) = log (snd s) ++ [h].

Lemma call_each_log hs e s : log (snd (call_each call hs e s)) = log (snd s) ++ hs.
Proof.
  revert s. induction hs as [|h hs IH]; intros s; cbn [call_each]; [by rewrite app_nil_r|].
  by rewrite IH, logs, <- app_assoc.
Qed.
End PublishFacts.

(** Publication is isolated: the handlers that run are exactly those
    collected when [publish] is called, each once and in that order, whatever
    the handlers do: raising, unsubscribing others or clearing the bus in a
    handler neither stops nor adds a call of the same publication. *)
Theorem publish_calls_all {world} (call : handler -> event -> EventBus * world -> (EventBus * world) * option exn)
    (log : world -> list handler) e s :
  (forall h e s, log (snd (fst (call h e s))) = log (snd s) ++ [h]) ->
  log (snd (publish call e s)) = log (snd s) ++ collect_handlers (fst s) e.
Proof. intros H. unfold publish. by apply call_each_log. Qed.

Lemma publish_calls_all_witness :
  let call := fun (h : handler) (e : event) (s : EventBus * list handler) =>
                ((empty_bus, snd s ++ [h]), Some ValueError) in
  let b := subscribe_all 2 (subscribe_all 1 empty_bus) in
  snd (publish call (Event (float_of_int 0) BaseEvent) (b, [])) = [1; 2]%nat.
Proof.
  intros call b. rewrite (publish_calls_all call (fun w => w)); [vm_compute; reflexivity|].
  intros h e s. reflexivity.
Defined.

(** A scope of [capture] around publications: the collector receives each
    published event once, in order, filtered by type; it is not a handler before
    nor after, so the bus ends as it would without it. *)
Section CaptureFacts.
Context {world : Type}.
Variable call : handler -> event -> EventBus * world -> (EventBus * world) * option exn.
Variables (collector : handler) (event_types : list event_cls) (buffer : world -> list event).
Hypothesis collects : forall e s,
  fst (fst (call collector e s)) = fst s /\
  buffer (snd (fst (call collector e s))) = collector_call event_types e (buffer (snd s)).
Hypothesis others : forall h e s, h <> collector ->
  fst (fst (call h e s)) = fst s /\ buffer (snd (fst (call h e s))) = buffer (snd s).

Lemma call_each_collects hs e s : NoDup hs ->
  fst (call_each call hs e s) = fst s /\
  buffer (snd (call_each call hs e s))
  = if bool_decide (collector ∈ hs) then collector_call event_types e (buffer (snd s)) else buffer (snd s).
Proof.
  revert s. induction hs as [|h hs IH]; intros s Hn; cbn [call_each]; [done|].
  apply list.NoDup_cons in Hn as [Hh Hn]. destruct (IH (fst (call h e s)) Hn) as [-> ->].
  destruct (decide (h = collector)) as [->|Hne].
  - destruct (collects e s) as [-> ->]. rewrite (bool_decide_eq_false_2 _ Hh).
    by rewrite bool_decide_eq_true_2 by (apply elem_of_cons; by left).
  - destruct (others h e s Hne) as [-> ->]. split; [done|]. rewrite (bool_decide_ext (collector ∈ h :: hs) (collector ∈ hs)); [done|].
    rewrite elem_of_cons. naive_solver.
Qed.

Lemma publish_all_collects es s : wf_bus (fst s) -> collector ∈ wildcard_subscribers (fst s) ->
  let s' := fold_left (fun s e => publish call e s) es s in
  fst s' = fst s /\ buffer (snd s') = buffer (snd s) ++ List.filter (captures event_types) es.
Proof.
  intros Hb Hc. revert s Hb Hc. induction es as [|e es IH]; intros s Hb Hc; cbn [fold_left List.filter]; [by rewrite app_nil_r|].
  destruct (collect_handlers_exact (fst s) e Hb) as [Hn Hin].
  destruct (call_each_collects (collect_handlers (fst s) e) e s Hn) as [E1 E2].
  change (call_each _ _ _ _) with (publish call e s) in E1, E2.
  rewrite bool_decide_eq_true_2 in E2 by (apply Hin; by left).
  destruct (IH (publish call e s)) as [F1 F2]; [by rewrite E1..|]. cbv zeta in F1, F2. split; [congruence|]. rewrite F2, E2.
  unfold collector_call. destruct (captures _ e); [by rewrite <- app_assoc|done].
Qed.

Lemma subscribe_all_fresh b h : h ∉ wildcard_subscribers b -> wf_bus b ->
  wf_bus (subscribe_all h b) /\ h ∈ wildcard_subscribers (subscribe_all h b) /\
  fst (unsubscribe_all h (subscribe_all h b)) = b.
Proof.
  intros Hh Hb. pose proof (run_op_wf b (OpSubscribeAll h) Hb) as Hw. cbn [run_op] in Hw. split; [exact Hw|].
  unfold subscribe_all, unsubscribe_all. rewrite (bool_decide_eq_false_2 _ Hh). cbn [wildcard_subscribers subscribers].
  assert (Hin : h ∈ wildcard_subscribers b ++ [h]) by (apply elem_of_app; right; by apply list_elem_of_singleton).
  split; [exact Hin|]. rewrite (bool_decide_eq_true_2 _ Hin). cbn [fst]. rewrite remove_first_snoc by exact Hh. by destruct b.
Qed.

Lemma capture_exact_events es s : wf_bus (fst s) -> collector ∉ wildcard_subscribers (fst s) ->
  let '(_, s') := capture collector (fun s => (Ok tt, fold_left (fun s e => publish call e s) es s)) s in
  fst s' = fst s /\ buffer (snd s') = buffer (snd s) ++ List.filter (captures event_types) es.
Proof.
  intros Hb Hc. unfold capture. destruct (subscribe_all_fresh (fst s) collector Hc Hb) as (H1 & H2 & H3).
  destruct (publish_all_collects es (subscribe_all collector (fst s), snd s) H1 H2) as [E1 E2].
  cbv zeta in E1, E2. destruct (fold_left _ es _) as [b w]. cbn [fst snd] in *. by subst b.
Qed.
End CaptureFacts.

(** The bridge: while it is registered, an event is posted exactly for the
    security events at or above the threshold; unhooking a fresh listener gives
    the registry back, and an unknown severity leaves it alone. *)
Lemma bridge_forwards {world} l name (r : registry world) : NoDup (listeners r) ->
  match bridge_security_events l name r with
  | (Ok (f, unhook), r') => exists target, severity_of name = Ok target /\ l ∈ listeners r' /\
      (l ∉ listeners r -> unhook r' = r) /\ forall e, f e = None <-> severity_lt (severity e) target = true
  | (Err _, r') => r' = r
  end.
Proof.
  intros Hn. unfold bridge_security_events. destruct (severity_of name) as [t|x]; [|done].
  destruct (add_listener_spec l r Hn) as (_ & H2 & _ & H4). exists t. split; [done|]. split; [exact H2|]. split; [exact H4|].
  intros e. unfold on_security_event, severity_ge, severity_lt. destruct (Z.leb_spec (rank t) (rank (severity e)));
    destruct (Z.ltb_spec (rank (severity e)) (rank t)); done || lia.
Qed.
