(* ===== verification/CryptoIface.v ===== *)
(** * The third-party cryptography, as interfaces

    The program calls the [cryptography] package for Ed25519, X25519,
    ChaCha20-Poly1305, AES-GCM, HKDF-SHA256 and scrypt, and [keyring] for the
    system's secret storage. Each primitive is a class of
    operations with the documented behaviour the program relies on. Keys and
    signatures are the raw byte strings the program moves around; private keys
    are abstract. *)

From stdpp Require Import base strings list numbers option.
From Stdlib Require Import ZArith Lia Strings.Byte.
From S2P Require Import Prelude PyStr.
Open Scope Z_scope.
Open Scope peerc_scope.

(** Ed25519: [ed_load] is [Ed25519PublicKey.from_public_bytes]. *)
Class Ed25519 := {
  ed_priv : Type;
  ed_public : ed_priv -> bytes;
  ed_sign : ed_priv -> bytes -> bytes;
  ed_load : bytes -> result bytes;
  ed_verify : bytes -> bytes -> bytes -> bool;   (* public key, signature, message *)
  ed_to_pem : ed_priv -> pystr;
  ed_from_pem : pystr -> result ed_priv
}.
Class Ed25519Laws (E : Ed25519) := {
  ed_public_length k : length (ed_public k) = 32%nat;
  ed_load_public k : ed_load (ed_public k) = Ok (ed_public k);
  ed_load_id b p : ed_load b = Ok p -> p = b /\ length b = 32%nat;
  ed_load_error b e : ed_load b = Err e -> e = ValueError;
  ed_verify_sign k m : ed_verify (ed_public k) (ed_sign k m) m = true;
  ed_sign_length k m : length (ed_sign k m) = 64%nat;
  ed_from_to_pem k : ed_from_pem (ed_to_pem k) = Ok k;
  ed_to_pem_text k : Forall (fun c => is_ascii c = true /\ c <> 13) (ed_to_pem k)
}.

(** X25519: [x_exchange] fails on a peer key that yields the all-zero secret. *)
Class X25519 := {
  x_priv : Type;
  x_public : x_priv -> bytes;
  x_load : bytes -> result bytes;
  x_exchange : x_priv -> bytes -> result bytes
}.
Class X25519Laws (X : X25519) := {
  x_public_length k : length (x_public k) = 32%nat;
  x_load_public k : x_load (x_public k) = Ok (x_public k);
  x_load_id b p : x_load b = Ok p -> p = b;
  x_load_error b e : x_load b = Err e -> e = ValueError;
  x_exchange_comm a b : x_exchange a (x_public b) = x_exchange b (x_public a);
  x_exchange_length a p s : x_exchange a p = Ok s -> length s = 32%nat;
  x_exchange_error a p e : x_exchange a p = Err e -> e = ValueError
}.

(** ChaCha20-Poly1305. Associated data [None] and the empty string are the same. *)
Class Aead := {
  aead_encrypt : bytes -> bytes -> bytes -> bytes -> bytes;          (* key nonce data aad *)
  aead_decrypt : bytes -> bytes -> bytes -> bytes -> option bytes    (* None is InvalidTag *)
}.
Class AeadLaws (A : Aead) := {
  aead_decrypt_encrypt k n d a : aead_decrypt k n (aead_encrypt k n d a) a = Some d;
  aead_encrypt_length k n d a : length (aead_encrypt k n d a) = (length d + 16)%nat;
  aead_decrypt_length k n c a d : aead_decrypt k n c a = Some d -> length c = (length d + 16)%nat
}.

(** HKDF-SHA256: salt, info, length, key material. *)
Class Hkdf := {
  hkdf : bytes -> bytes -> Z -> bytes -> bytes
}.
Class HkdfLaws (H : Hkdf) := {
  hkdf_length salt info len ikm : 0 <= len <= 255 * 32 -> zlen (hkdf salt info len ikm) = len
}.

(** Scrypt: salt, length, n, r, p, secret. *)
Class Scrypt := {
  scrypt : bytes -> Z -> Z -> Z -> Z -> bytes -> bytes
}.
Class ScryptLaws (S : Scrypt) := {
  scrypt_length salt len n r p secret : 0 <= len -> zlen (scrypt salt len n r p secret) = len
}.

(** [AESGCM(key)] without associated data: key, nonce, data. [gcm_decrypt]
    raises [InvalidTag], or [ValueError] for a nonce of a length it does not
    accept. *)
Class AesGcm := {
  gcm_encrypt : bytes -> bytes -> bytes -> bytes;
  gcm_decrypt : bytes -> bytes -> bytes -> result bytes
}.
Class AesGcmLaws (G : AesGcm) := {
  gcm_decrypt_encrypt k n d :
    length k = 32%nat -> length n = 12%nat -> gcm_decrypt k n (gcm_encrypt k n d) = Ok d;
  gcm_decrypt_errors k n c e : gcm_decrypt k n c = Err e -> e = InvalidTag \/ e = ValueError
}.

(** The [keyring] package over the state [ring] of the system's storage.
    [kr_backend] is the module of the active backend, [kr_get] and the others
    take the service and the user name. *)
Class Keyring := {
  ring : Type;
  kr_backend : result pystr;
  kr_set : pystr -> pystr -> pystr -> ring -> result unit * ring;
  kr_get : pystr -> pystr -> ring -> result (option pystr);
  kr_delete : pystr -> pystr -> ring -> result unit * ring
}.
Class KeyringLaws (K : Keyring) := {
  kr_get_set s u v r r' : kr_set s u v r = (Ok tt, r') -> kr_get s u r' = Ok (Some v);
  kr_get_failed_set s u v r e r' : kr_set s u v r = (Err e, r') -> kr_get s u r' = kr_get s u r;
  kr_get_delete s u r r' : kr_delete s u r = (Ok tt, r') -> kr_get s u r' = Ok None
}.
