(* ===== verification/ToyCrypto.v ===== *)
(** * A concrete instance of the cryptographic interfaces

    Executable functions that satisfy the documented behaviour of
    [CryptoIface]. They are not secure; they show that the interfaces can be
    implemented, and let the theorems that use them be applied to concrete
    inputs. *)

From stdpp Require Import base strings list numbers option.
From Stdlib Require Import ZArith Lia Strings.Byte.
From S2P Require Import Prelude PyStr Sha256 CryptoIface.
Open Scope Z_scope.
Open Scope peerc_scope.

Definition pad_to (n : nat) (b : bytes) : bytes := take n (b ++ replicate n x00).
Lemma pad_to_length n b : length (pad_to n b) = n.
Proof. unfold pad_to. rewrite length_take, length_app, length_replicate. lia. Qed.

Definition load32 (b : bytes) : result bytes := if zlen b =? 32 then Ok b else Err ValueError.
Lemma load32_ok b p : load32 b = Ok p -> p = b /\ length b = 32%nat.
Proof. unfold load32, zlen. case_goal; [|done]. intros [= <-]. zbool. split; [done|lia]. Qed.
Lemma load32_error b e : load32 b = Err e -> e = ValueError.
Proof. unfold load32. case_goal; [done|]. by intros [= <-]. Qed.
Lemma load32_length b : length b = 32%nat -> load32 b = Ok b.
Proof. intros H. unfold load32, zlen. by rewrite H. Qed.

(** A private key is its own 32 bytes; a signature is the key and the digest of
    the message. *)
Definition toy_ed25519 : Ed25519 := {|
  ed_priv := N;
  ed_public k := be_encode 32 (Z.of_N k);
  ed_sign k m := be_encode 32 (Z.of_N k) ++ sha256 m;
  ed_load := load32;
  ed_verify p s m := bool_decide (s = p ++ sha256 m);
  ed_to_pem k := str_of_nonneg (Z.of_N k);
  ed_from_pem s := if forallb is_digit s then Ok (Z.to_N (dec_value s)) else Err ValueError
|}.

#[refine, export] Instance toy_ed25519_laws : Ed25519Laws toy_ed25519 := {}.
Proof.
  - intros k. apply be_encode_length.
  - intros k. apply load32_length, be_encode_length.
  - intros b p. apply load32_ok.
  - intros b e. apply load32_error.
  - intros k m. by apply bool_decide_eq_true_2.
  - intros k m. unfold ed_sign, toy_ed25519. by rewrite length_app, be_encode_length, sha256_length.
  - intros k. unfold ed_from_pem, ed_to_pem, toy_ed25519. destruct (str_of_nonneg_spec (Z.of_N k) ltac:(lia)) as (Hv & Hd & _).
    replace (forallb is_digit _) with true.
    + rewrite Hv. by rewrite N2Z.id.
    + symmetry. apply forallb_forall. rewrite List.Forall_forall in Hd. done.
  - intros k. destruct (str_of_nonneg_spec (Z.of_N k) ltac:(lia)) as (_ & Hd & _). revert Hd. apply List.Forall_impl.
    intros c Hc. unfold is_digit, is_ascii in *. zbool. split; [apply andb_true_iff; split; lia|lia].
Qed.

(** Diffie-Hellman in the multiplicative monoid modulo a prime. *)
Definition toy_p : Z := 2 ^ 255 - 19.
Definition toy_x25519 : X25519 := {|
  x_priv := N;
  x_public k := be_encode 32 (Z.of_N k * 9 mod toy_p);
  x_load := load32;
  x_exchange k p := Ok (be_encode 32 (Z.of_N k * be_decode p mod toy_p))
|}.
#[refine, export] Instance toy_x25519_laws : X25519Laws toy_x25519 := {}.
Proof.
  - intros k. apply be_encode_length.
  - intros k. apply load32_length, be_encode_length.
  - intros b p H. by apply load32_ok in H as [-> _].
  - intros b e. apply load32_error.
  - intros a b. unfold x_exchange, x_public, toy_x25519.
    assert (forall z, be_decode (be_encode 32 (z mod toy_p)) = z mod toy_p) as Hd.
    { intros z. apply be_decode_encode_small. pose proof (Z.mod_pos_bound z toy_p ltac:(done)).
      assert (toy_p < 256 ^ Z.of_nat 32) by done. lia. }
    rewrite !Hd. rewrite !Zmult_mod_idemp_r. do 3 f_equal. lia.
  - intros a p s H. unfold x_exchange, toy_x25519 in H. apply Ok_inj in H as <-. apply be_encode_length.
  - done.
Qed.

(** The ciphertext is the plaintext followed by a 16-byte checksum. *)
Definition toy_tag (k n d a : bytes) : bytes :=
  take 16 (sha256 (k ++ n ++ be_encode 8 (zlen d) ++ d ++ a)).
Lemma toy_tag_length k n d a : length (toy_tag k n d a) = 16%nat.
Proof. unfold toy_tag. rewrite length_take, sha256_length. done. Qed.
Definition toy_aead : Aead := {|
  aead_encrypt k n d a := d ++ toy_tag k n d a;
  aead_decrypt k n c a :=
    let d := take (length c - 16) c in
    if bool_decide (drop (length c - 16) c = toy_tag k n d a) then Some d else None
|}.
#[refine, export] Instance toy_aead_laws : AeadLaws toy_aead := {}.
Proof.
  - intros k n d a. unfold aead_encrypt, aead_decrypt, toy_aead.
    rewrite length_app, toy_tag_length, Nat.add_sub. rewrite take_app_length, drop_app_length.
    by rewrite bool_decide_eq_true_2.
  - intros k n d a. unfold aead_encrypt, toy_aead. by rewrite length_app, toy_tag_length.
  - intros k n c a d. unfold aead_decrypt, toy_aead.
    destruct (bool_decide_reflect (drop (length c - 16) c = toy_tag k n (take (length c - 16) c) a)) as [Hd|]; [|done].
    intros [= <-]. apply (f_equal length) in Hd. rewrite length_drop, toy_tag_length in Hd.
    rewrite length_take. lia.
Qed.

Definition toy_hkdf : Hkdf := {|
  hkdf salt info len ikm := pad_to (Z.to_nat len) (sha256 (salt ++ info ++ ikm))
|}.
#[refine, export] Instance toy_hkdf_laws : HkdfLaws toy_hkdf := {}.
Proof. intros salt info len ikm H. unfold hkdf, toy_hkdf, zlen. rewrite pad_to_length. lia. Qed.

Definition toy_scrypt : Scrypt := {|
  scrypt salt len n r p secret := pad_to (Z.to_nat len) (sha256 (salt ++ secret))
|}.
#[refine, export] Instance toy_scrypt_laws : ScryptLaws toy_scrypt := {}.
Proof. intros salt len n r p secret H. unfold scrypt, toy_scrypt, zlen. rewrite pad_to_length. lia. Qed.

Definition toy_gcm : AesGcm := {|
  gcm_encrypt k n d := d ++ toy_tag k n d [];
  gcm_decrypt k n c :=
    if (zlen n <? 8) || (128 <? zlen n) then Err ValueError
    else let d := take (length c - 16) c in
         if bool_decide (drop (length c - 16) c = toy_tag k n d []) then Ok d else Err InvalidTag
|}.
#[refine, export] Instance toy_gcm_laws : AesGcmLaws toy_gcm := {}.
Proof.
  - intros k n d _ Hn. unfold gcm_encrypt, gcm_decrypt, toy_gcm, zlen. rewrite Hn. cbn [orb].
    rewrite length_app, toy_tag_length, Nat.add_sub, take_app_length, drop_app_length. by rewrite bool_decide_eq_true_2.
  - intros k n c e. unfold gcm_decrypt, toy_gcm. repeat case_match; intros [= <-]; auto.
Qed.

(** Stored passwords, and whether the backend refuses to store. *)
Definition toy_keyring : Keyring := {|
  ring := bool * list (pystr * pystr * pystr);
  kr_backend := Ok (py "keyring.backends.SecretService");
  kr_set s u v r := if r.1 then (Err KeyringError, r) else (Ok tt, (r.1, (s, u, v) :: r.2));
  kr_get s u r :=
    Ok (snd <$> List.find (fun x => streq x.1.1 s && streq x.1.2 u) r.2);
  kr_delete s u r :=
    (Ok tt, (r.1, List.filter (fun x => negb (streq x.1.1 s && streq x.1.2 u)) r.2))
|}.
#[refine, export] Instance toy_keyring_laws : KeyringLaws toy_keyring := {}.
Proof.
  - intros s u v [l r] r'. unfold kr_set, kr_get, toy_keyring. cbn. destruct l; [done|]. intros [= <-]. cbn.
    by rewrite !(proj2 (streq_spec _ _) eq_refl).
  - intros s u v [l r] e r'. unfold kr_set, toy_keyring. cbn. destruct l; [|done]. by intros [= _ <-].
  - intros s u [l r] r'. unfold kr_delete, kr_get, toy_keyring. intros [= <-]. cbn.
    induction r as [|x r IH]; [done|]. cbn. destruct (streq x.1.1 s && streq x.1.2 u) eqn:E; cbn; [done|]. by rewrite E.
Qed.
