(* ===== verification/Identity.v ===== *)
(** * core/identity: device keypairs, fingerprints and the key rotation certificate

    [device_identity.py], [fingerprint.py] and [rotation.py]. *)

From stdpp Require Import base strings list numbers option.
From Stdlib Require Import ZArith Lia Strings.Byte.
From S2P Require Import Prelude PyStr PyFloat Json JsonFacts Sha256 Base64 CryptoIface ToyCrypto SecurityEvents.
Open Scope Z_scope.
Open Scope peerc_scope.

(** ** device_identity.py *)

Definition compute_device_id (public_key_bytes : bytes) : pystr := sha256_hex public_key_bytes.

(** The public key of a keypair is [ed_public] of its private key. *)
Record DeviceKeypair `{Ed25519} : Type := Keypair {
  kp_private : ed_priv;
  kp_device_id : pystr
}.
Arguments DeviceKeypair {_}.

Section Keypairs.
Context `{Ed25519}.

Definition public_key_bytes (kp : DeviceKeypair) : bytes := ed_public (kp_private kp).
Definition kp_sign (kp : DeviceKeypair) (data : bytes) : bytes := ed_sign (kp_private kp) data.
Definition private_key_pem (kp : DeviceKeypair) : pystr := ed_to_pem (kp_private kp).

Definition keypair_from_private_key (private_key : ed_priv) : DeviceKeypair :=
  Keypair _ private_key (compute_device_id (ed_public private_key)).
(** [generate_keypair]: the private key drawn by the library is the argument. *)
Definition generate_keypair (fresh : ed_priv) : DeviceKeypair := keypair_from_private_key fresh.
Definition keypair_from_private_pem (pem : pystr) : result DeviceKeypair :=
  let* _ := ascii_encode pem in
  let* private_key := ed_from_pem pem in Ok (keypair_from_private_key private_key).
Definition public_key_from_bytes (data : bytes) : result bytes := ed_load data.

(** Every keypair the program builds is bound to its key. *)
Definition kp_wf (kp : DeviceKeypair) : Prop := kp_device_id kp = compute_device_id (public_key_bytes kp).
Lemma keypair_wf k : kp_wf (keypair_from_private_key k).
Proof. done. Qed.

(** A stored key is read back. *)
Lemma keypair_from_to_pem `{EdL : !Ed25519Laws _} kp :
  keypair_from_private_pem (private_key_pem kp) = Ok (keypair_from_private_key (kp_private kp)).
Proof.
  unfold keypair_from_private_pem, private_key_pem. rewrite ascii_encode_ok; [cbn [rbind]; by rewrite ed_from_to_pem|].
  eapply List.Forall_impl; [|apply ed_to_pem_text]. by intros c [Ha _].
Qed.
End Keypairs.

(** ** fingerprint.py *)

Fixpoint pairs (s : pystr) : list pystr :=
  match s with
  | a :: b :: r => [a; b] :: pairs r
  | [a] => [[a]]
  | [] => []
  end.
(** [pairs[:n]] for a possibly negative [n]. *)
Definition slice_to {A} (n : Z) (l : list A) : list A :=
  if n <? 0 then take (Z.to_nat (zlen l + n)) l else take (Z.to_nat n) l.
Definition format_fingerprint (device_id_hex : pystr) (groups_shown : option Z) : result pystr :=
  if negb (zlen device_id_hex mod 2 =? 0) then Err ValueError else
  let ps := pairs device_id_hex in
  let ps := match groups_shown with
            | Some n => slice_to n ps
            | None => ps
            end in
  Ok (join (py ":") ps).
Definition short_fingerprint (device_id_hex : pystr) : result pystr :=
  format_fingerprint device_id_hex (Some 8).

(** ** rotation.py *)

Definition ROTATION_DOMAIN : bytes := pyb "peerc-key-rotation" ++ [x00].

Record TransitionCertificate : Type := MkCert {
  old_device_id : pystr;
  old_public_key : pystr;
  new_device_id : pystr;
  new_public_key : pystr;
  cert_timestamp : pyfloat;
  cert_signature : pystr
}.

Definition build_payload (old_id new_id old_pub_b64 new_pub_b64 : pystr) (ts : pyfloat) : result bytes :=
  let* a := utf8_encode old_id in
  let* b := utf8_encode new_id in
  let* c := utf8_encode old_pub_b64 in
  let* d := utf8_encode new_pub_b64 in
  Ok (ROTATION_DOMAIN ++ a ++ [x00] ++ b ++ [x00] ++ c ++ [x00] ++ d ++ [x00] ++ float_pack ts).

Definition cert_payload (c : TransitionCertificate) : result bytes :=
  build_payload (old_device_id c) (new_device_id c) (old_public_key c) (new_public_key c) (cert_timestamp c).

Section Rotation.
Context `{Ed25519}.
(** [str(e)] of an exception, which the failure event quotes. *)
Variable exn_text : exn -> pystr.

Definition create_transition_certificate (ts : pyfloat) (old new : DeviceKeypair) : result TransitionCertificate :=
  if streq (kp_device_id old) (kp_device_id new) then Err RotationError else
  let old_pub_b64 := b64encode (public_key_bytes old) in
  let new_pub_b64 := b64encode (public_key_bytes new) in
  let* payload := build_payload (kp_device_id old) (kp_device_id new) old_pub_b64 new_pub_b64 ts in
  let sig_bytes := kp_sign old payload in
  Ok (MkCert (kp_device_id old) old_pub_b64 (kp_device_id new) new_pub_b64 ts (b64encode sig_bytes)).

(** The body of the [try] of [verify_transition_certificate]. *)
Definition verify_body (c : TransitionCertificate) : result unit :=
  let* old_pub_bytes := b64decode false (old_public_key c) in
  let* sig_bytes := b64decode false (cert_signature c) in
  let* old_pub_key := public_key_from_bytes old_pub_bytes in
  let* payload := cert_payload c in
  if ed_verify old_pub_key sig_bytes payload then Ok tt else Err InvalidSignature.

Definition verify_transition_certificate (now : pyfloat) (c : TransitionCertificate) : bool * list SecurityEvent :=
  match verify_body c with
  | Ok _ => (true, [])
  | Err e =>
      (false, [new_event INVALID_ROTATION WARNING
                 (py "transition certificate verification failed for " ++ old_device_id c ++ py " -> "
                  ++ new_device_id c ++ py ": " ++ exn_text e)
                 (Some (old_device_id c)) now []])
  end.
End Rotation.

(** ** Fingerprints *)

Lemma pairs_hex b bs : pairs (hex_of_bytes (b :: bs)) = hex_of_bytes [b] :: pairs (hex_of_bytes bs).
Proof. done. Qed.

Lemma pairs_hex_all bs : pairs (hex_of_bytes bs) = map (fun b => hex_of_bytes [b]) bs.
Proof. induction bs as [|b bs IH]; [done|]. by rewrite pairs_hex, IH. Qed.

Lemma join_pairs_inj xs ys :
  Forall (fun p => exists a b, p = [a; b]) xs -> Forall (fun p => exists a b, p = [a; b]) ys ->
  join (py ":") xs = join (py ":") ys -> xs = ys.
Proof.
  intros Hx. revert ys. induction Hx as [|x xs (a & b & ->) Hx IH]; intros ys Hy E.
  - destruct Hy as [|y ys (c & d & ->) Hy]; [done|]. by destruct ys.
  - destruct Hy as [|y ys (c & d & ->) Hy]; [by destruct xs|].
    destruct xs as [|x' xs], ys as [|y' ys]; cbn in E.
    + by injection E as -> ->.
    + discriminate E.
    + discriminate E.
    + injection E as -> -> E. f_equal. by apply IH.
Qed.

(** The full fingerprint shown to a user for comparison identifies the key
    digest: two devices have the same fingerprint only if the SHA-256 digests of
    their public keys are equal. *)
Theorem fingerprint_identifies_digest p q f :
  format_fingerprint (compute_device_id p) None = Ok f ->
  format_fingerprint (compute_device_id q) None = Ok f -> sha256 p = sha256 q.
Proof.
  assert (forall r, format_fingerprint (compute_device_id r) None
    = Ok (join (py ":") (map (fun b => hex_of_bytes [b]) (sha256 r)))) as Hf.
  { intros r. unfold format_fingerprint, compute_device_id, sha256_hex. rewrite pairs_hex_all.
    unfold zlen. rewrite hex_of_bytes_length, sha256_length. done. }
  rewrite !Hf. intros E1 E2. rewrite <- E1 in E2. apply Ok_inj, join_pairs_inj in E2; rename E2 into E.
  - clear Hf. revert E. generalize (sha256 p), (sha256 q). clear E1. intros y x. revert y.
    induction x as [|a x IH]; intros [|b y] E; try done. injection E as E1 E2 E3. f_equal; [|by apply IH].
    enough ([a] = [b]) as [=] by done. apply hex_of_bytes_inj. cbn. by rewrite E1, E2.
  - apply List.Forall_forall. intros y Hy. apply in_map_iff in Hy as (b & <- & _). cbn. eauto.
  - apply List.Forall_forall. intros y Hy. apply in_map_iff in Hy as (b & <- & _). cbn. eauto.
Qed.

Lemma fingerprint_identifies_digest_witness :
  exists f, format_fingerprint (compute_device_id (pyb "key")) None = Ok f /\
    sha256 (pyb "key") = sha256 (pyb "key").
Proof.
  eexists. split; [vm_compute; reflexivity|].
  eapply (fingerprint_identifies_digest (pyb "key") (pyb "key")); vm_compute; reflexivity.
Defined.

(** ** Rotation certificates *)

(** The texts of a certificate are Unicode scalar values without NUL. *)
Definition text_ok (s : pystr) : bool := forallb cp_ok s && nul_free s.
Definition cert_ok (c : TransitionCertificate) : bool :=
  text_ok (old_device_id c) && text_ok (new_device_id c) && text_ok (old_public_key c)
  && text_ok (new_public_key c).

Lemma text_ok_encode s : text_ok s = true -> exists bs, utf8_encode s = Ok bs /\ x00 ∉ bs.
Proof.
  unfold text_ok. intros H. zbool. rewrite utf8_encode_cps by done. eexists. split; [done|].
  eapply utf8_nul_free; [| |by apply utf8_encode_cps]; done.
Qed.

Lemma text_ok_inj s t bs : text_ok s = true -> text_ok t = true -> utf8_encode s = Ok bs -> utf8_encode t = Ok bs -> s = t.
Proof. unfold text_ok. intros Hs Ht. zbool. by apply utf8_encode_inj. Qed.

Lemma printable_text_ok s : printable_str s -> text_ok s = true.
Proof.
  intros Hp. unfold text_ok, nul_free. apply andb_true_iff.
  split; apply forallb_forall; intros c Hc; unfold printable_str in Hp; rewrite List.Forall_forall in Hp;
    apply Hp in Hc; unfold printable in Hc; zbool.
  - unfold cp_ok, is_surrogate. zcases; lia.
  - apply negb_true_iff, Z.eqb_neq. lia.
Qed.

Lemma device_id_printable b : printable_str (compute_device_id b).
Proof. apply hex_of_bytes_printable. Qed.

Lemma build_payload_inj a b c d t a' b' c' d' t' p :
  text_ok a = true -> text_ok b = true -> text_ok c = true -> text_ok d = true ->
  text_ok a' = true -> text_ok b' = true -> text_ok c' = true -> text_ok d' = true ->
  build_payload a b c d t = Ok p -> build_payload a' b' c' d' t' = Ok p ->
  a = a' /\ b = b' /\ c = c' /\ d = d' /\ float_pack t = float_pack t'.
Proof.
  intros Ha Hb Hc Hd Ha' Hb' Hc' Hd' E E'. unfold build_payload in E, E'.
  destruct (text_ok_encode a Ha) as (xa & Ea & Na), (text_ok_encode b Hb) as (xb & Eb & Nb),
    (text_ok_encode c Hc) as (xc & Ec & Nc), (text_ok_encode d Hd) as (xd & Ed & Nd),
    (text_ok_encode a' Ha') as (ya & Ea' & Na'), (text_ok_encode b' Hb') as (yb & Eb' & Nb'),
    (text_ok_encode c' Hc') as (yc & Ec' & Nc'), (text_ok_encode d' Hd') as (yd & Ed' & Nd').
  rewrite Ea, Eb, Ec, Ed in E. rewrite Ea', Eb', Ec', Ed' in E'. cbn [rbind] in E, E'.
  rewrite <- E' in E. apply Ok_inj, app_inv_head in E.
  apply split_nul in E as [<- E]; [|done..]. apply split_nul in E as [<- E]; [|done..].
  apply split_nul in E as [<- E]; [|done..]. apply split_nul in E as [<- E]; [|done..].
  repeat split; [eapply text_ok_inj; cycle 2; eassumption..|done].
Qed.

(** The payload signed in a rotation certificate determines the old and new
    device ids, both public keys and the bits of the timestamp: a signature made
    for one transition cannot be reused for a different one. *)
Theorem rotation_payload_injective c1 c2 p :
  cert_ok c1 = true -> cert_ok c2 = true -> cert_payload c1 = Ok p -> cert_payload c2 = Ok p ->
  old_device_id c1 = old_device_id c2 /\ new_device_id c1 = new_device_id c2 /\
  old_public_key c1 = old_public_key c2 /\ new_public_key c1 = new_public_key c2 /\
  float_pack (cert_timestamp c1) = float_pack (cert_timestamp c2).
Proof.
  unfold cert_ok. intros H1 H2. zbool. unfold cert_payload. by apply build_payload_inj.
Qed.

Lemma rotation_payload_injective_witness :
  let c := MkCert (py "ab") (py "AA==") (py "cd") (py "BB==") (float_of_int 3) (py "s") in
  let d := MkCert (py "ab") (py "AA==") (py "cd") (py "BB==") (float_of_int 3) (py "other") in
  exists p, cert_payload c = Ok p /\ new_device_id c = new_device_id d.
Proof.
  intros c d. eexists. split; [vm_compute; reflexivity|].
  eapply (rotation_payload_injective c d); vm_compute; reflexivity.
Defined.

Section RotationFacts.
Context {Ed : Ed25519} {EdL : Ed25519Laws Ed}.
Variable exn_text : exn -> pystr.

Lemma create_ok ts old new c :
  kp_wf old -> kp_wf new -> create_transition_certificate ts old new = Ok c ->
  cert_ok c = true /\ old_public_key c = b64encode (public_key_bytes old) /\
  new_public_key c = b64encode (public_key_bytes new) /\ old_device_id c = kp_device_id old /\
  new_device_id c = kp_device_id new /\
  exists p, cert_payload c = Ok p /\ cert_signature c = b64encode (kp_sign old p).
Proof.
  intros Ho Hn. unfold create_transition_certificate. case_goal; [done|]. intros Ec.
  apply rbind_ok in Ec as (p & Hp & [= <-]). cbn. split; [|eauto 10].
  unfold cert_ok. cbn. rewrite Ho, Hn, !printable_text_ok;
    [done | apply b64encode_printable || apply device_id_printable..].
Qed.

Lemma create_verifies ts now old new c :
  kp_wf old -> kp_wf new ->
  create_transition_certificate ts old new = Ok c -> verify_transition_certificate exn_text now c = (true, []).
Proof.
  intros Ho Hn Hc. destruct (create_ok ts old new c Ho Hn Hc) as (_ & E1 & _ & _ & _ & p & Ep & E2).
  unfold verify_transition_certificate, verify_body. rewrite E1, E2, !b64decode_encode. cbn [rbind].
  unfold public_key_bytes, public_key_from_bytes. rewrite ed_load_public. cbn [rbind]. rewrite Ep. cbn [rbind].
  unfold kp_sign. by rewrite ed_verify_sign.
Qed.

Lemma create_total ts old new :
  kp_wf old -> kp_wf new -> kp_device_id old <> kp_device_id new ->
  is_ok (create_transition_certificate ts old new) = true.
Proof.
  intros Ho Hn Hne. unfold create_transition_certificate.
  destruct (streq _ _) eqn:E; [by apply streq_spec in E|]. unfold build_payload.
  rewrite Ho, Hn. rewrite !utf8_encode_ascii; [done|..]; apply printable_ascii;
    first [apply b64encode_printable | apply device_id_printable].
Qed.

(** A certificate created for two distinct device keypairs always exists and
    is accepted by every verifier without raising any event, and acceptance of
    any certificate at all means that a signature over its canonical payload
    verified under the public key the certificate itself names as the old key. *)
Theorem rotation_certificate_verifies ts now old new c :
  kp_wf old -> kp_wf new -> kp_device_id old <> kp_device_id new ->
  (exists c, create_transition_certificate ts old new = Ok c /\
             verify_transition_certificate exn_text now c = (true, [])) /\
  (fst (verify_transition_certificate exn_text now c) = true ->
   exists pub sig p, b64decode false (old_public_key c) = Ok pub /\ b64decode false (cert_signature c) = Ok sig
     /\ length pub = 32%nat /\ cert_payload c = Ok p /\ ed_verify pub sig p = true).
Proof.
  intros Ho Hn Hne. split.
  - pose proof (create_total ts old new Ho Hn Hne) as Ht.
    destruct (create_transition_certificate ts old new) as [c'|] eqn:Ec; [|done].
    exists c'. split; [done|]. by apply (create_verifies ts now old new).
  - unfold verify_transition_certificate. destruct (verify_body c) as [[]|e] eqn:E; [|done]. intros _.
    unfold verify_body, public_key_from_bytes in E.
    apply rbind_ok in E as (pub & H1 & E). apply rbind_ok in E as (sig & H2 & E).
    apply rbind_ok in E as (k & H3 & E). apply rbind_ok in E as (p & H4 & E).
    apply ed_load_id in H3 as [-> H3]. case_in E; [|done]. exists pub, sig, p. auto.
Qed.
End RotationFacts.

Lemma rotation_certificate_verifies_witness :
  let kp n := @keypair_from_private_key toy_ed25519 n in
  exists c, create_transition_certificate (float_of_int 9) (kp 1%N) (kp 2%N) = Ok c /\
    @verify_transition_certificate toy_ed25519 (fun _ => []) (float_of_int 10) c = (true, []).
Proof.
  intros kp.
  apply (rotation_certificate_verifies (fun _ => []) (float_of_int 9) (float_of_int 10) (kp 1%N) (kp 2%N)
           (MkCert [] [] [] [] (float_of_int 0) [])); [reflexivity | reflexivity |].
  vm_compute. discriminate.
Defined.
