(* ===== verification/TrustStore.v ===== *)
(** * core/trust: the trust store

    [device.py], [store.py] and [revocation.py]. The [trusted_devices] table
    is a finite map by its primary key; [identity_transitions] is the list of
    its rows, of which [INSERT OR REPLACE] keeps one per primary key. A
    security event passed to [emit] is returned with the result. The table is
    kept with its rows read back ([row_to_device]); texts are bound to a
    statement as UTF-8, which a lone surrogate makes fail ([bind_text]): checked
    where a statement stores free text. The device ids a lookup takes are
    digests, or were stored before. *)

From stdpp Require Import base gmap strings list numbers option fin_sets.
From Stdlib Require Import ZArith Lia Strings.Byte Floats.SpecFloat.
From S2P Require Import Prelude PyStr PyFloat Json Sha256 Base64 CryptoIface ToyCrypto SecurityEvents Identity.
Open Scope Z_scope.
Open Scope peerc_scope.

(** ** device.py *)

Inductive TrustStatus : Type := PENDING | TRUSTED | REVOKED.
#[export] Instance trust_status_eq_dec : EqDecision TrustStatus.
Proof. solve_decision. Defined.

Record TrustedDevice : Type := MkDevice {
  td_device_id : pystr;
  td_public_key : pystr;
  td_name : pystr;
  td_first_seen : pyfloat;
  td_last_seen : pyfloat;
  td_status : TrustStatus;
  td_revoked_by : option pystr;
  td_revoked_at : option pyfloat;
  td_revoke_reason : option pystr
}.

(** ** store.py *)

Inductive TrustDecision : Type := D_UNKNOWN | D_PENDING | D_TRUSTED | D_KEY_CHANGED | D_REVOKED.
#[export] Instance trust_decision_eq_dec : EqDecision TrustDecision.
Proof. solve_decision. Defined.

Record transition : Type := MkTransition {
  tr_old : pystr;
  tr_new : pystr;
  tr_old_key : pystr;
  tr_new_key : pystr;
  tr_timestamp : pyfloat;
  tr_signature : pystr;
  tr_recorded_at : pyfloat
}.

Record TrustStore : Type := Store {
  devices : gmap pystr TrustedDevice;
  transitions : list transition
}.

Definition empty_store : TrustStore := Store ∅ [].

(** *** Rows *)

Definition status_value (st : TrustStatus) : pystr :=
  match st with
  | PENDING => py "PENDING"
  | TRUSTED => py "TRUSTED"
  | REVOKED => py "REVOKED"
  end.
(** [TrustStatus(value)] *)
Definition status_of_value (v : pystr) : result TrustStatus :=
  if streq v (py "PENDING") then Ok PENDING
  else if streq v (py "TRUSTED") then Ok TRUSTED
  else if streq v (py "REVOKED") then Ok REVOKED
  else Err ValueError.

(** A row of [trusted_devices]: the columns, the status as its text. *)
Record device_row : Type := MkRow {
  row_device_id : pystr;
  row_public_key : pystr;
  row_name : pystr;
  row_first_seen : pyfloat;
  row_last_seen : pyfloat;
  row_status : pystr;
  row_revoked_by : option pystr;
  row_revoked_at : option pyfloat;
  row_revoke_reason : option pystr
}.
Definition row_to_device (row : device_row) : result TrustedDevice :=
  let* status := status_of_value (row_status row) in
  Ok (MkDevice (row_device_id row) (row_public_key row) (row_name row) (row_first_seen row) (row_last_seen row) status
        (row_revoked_by row) (row_revoked_at row) (row_revoke_reason row)).
(** The row the statements of the store write for a device. *)
Definition device_to_row (d : TrustedDevice) : device_row :=
  MkRow (td_device_id d) (td_public_key d) (td_name d) (td_first_seen d) (td_last_seen d) (status_value (td_status d))
    (td_revoked_by d) (td_revoked_at d) (td_revoke_reason d).

(** Reading a row back gives the device it was written for, and only a row of an
    unknown status makes [_row_to_device] raise. *)
Lemma row_roundtrip d : row_to_device (device_to_row d) = Ok d.
Proof. by destruct d as [? ? ? ? ? [] ? ? ?]. Qed.
Lemma row_to_device_ok row d : row_to_device row = Ok d -> row = device_to_row d.
Proof.
  unfold row_to_device, status_of_value. destruct row as [i k n f l st b a w]. cbn [row_status].
  destruct (streq st (py "PENDING")) eqn:E1; [apply streq_spec in E1 as ->; by intros [= <-]|].
  destruct (streq st (py "TRUSTED")) eqn:E2; [apply streq_spec in E2 as ->; by intros [= <-]|].
  destruct (streq st (py "REVOKED")) eqn:E3; [apply streq_spec in E3 as ->; by intros [= <-]|done].
Qed.

(** Binding a text parameter of a statement. *)
Definition bind_text (s : pystr) : result unit := let* _ := utf8_encode s in Ok tt.
Definition bind_opt (s : option pystr) : result unit :=
  match s with
  | Some s => bind_text s
  | None => Ok tt
  end.

Definition get (s : TrustStore) (device_id : pystr) : option TrustedDevice := devices s !! device_id.

Definition check (now : pyfloat) (s : TrustStore) (device_id public_key : pystr) :
    TrustDecision * list SecurityEvent :=
  match get s device_id with
  | None => (D_UNKNOWN, [])
  | Some device =>
      if negb (streq (td_public_key device) public_key) then
        (D_KEY_CHANGED,
         [new_event IDENTITY_CHANGED WARNING
            (py "device " ++ device_id ++ py " public key does not match stored key (possible impersonation)")
            (Some device_id) now []])
      else
        match td_status device with
        | REVOKED =>
            (D_REVOKED,
             [new_event REVOKED_DEVICE_ATTEMPT HIGH
                (py "revoked device " ++ device_id ++ py " evaluated in trust store") (Some device_id) now []])
        | TRUSTED => (D_TRUSTED, [])
        | PENDING => (D_PENDING, [])
        end
  end.

(** [sorted(l, key=...)] with float keys, ascending. *)
Fixpoint insert_by {A} (key : A -> pyfloat) (x : A) (l : list A) : list A :=
  match l with
  | [] => [x]
  | y :: r => if float_lt (key y) (key x) then y :: insert_by key x r else x :: l
  end.
Definition sorted_by {A} (key : A -> pyfloat) (l : list A) : list A := fold_right (insert_by key) [] l.

(** [ORDER BY last_seen DESC] *)
Definition list_all (s : TrustStore) (status : option TrustStatus) : list TrustedDevice :=
  let rows := map snd (map_to_list (devices s)) in
  let rows := match status with
              | None => rows
              | Some st => List.filter (fun d => bool_decide (td_status d = st)) rows
              end in
  rev (sorted_by td_last_seen rows).

Definition record_first_seen (now : pyfloat) (s : TrustStore) (device_id public_key name : pystr) :
    result (TrustStore * TrustedDevice) :=
  let* _ := bind_text device_id in
  match get s device_id with
  | Some _ => Err ValueError
  | None =>
      let* _ := bind_text public_key in
      let* _ := bind_text name in
      let d := MkDevice device_id public_key name now now PENDING None None None in
      Ok (Store (<[device_id := d]> (devices s)) (transitions s), d)
  end.

Definition set_last_seen (now : pyfloat) (d : TrustedDevice) : TrustedDevice :=
  MkDevice (td_device_id d) (td_public_key d) (td_name d) (td_first_seen d) now (td_status d)
    (td_revoked_by d) (td_revoked_at d) (td_revoke_reason d).
Definition set_status (st : TrustStatus) (d : TrustedDevice) : TrustedDevice :=
  MkDevice (td_device_id d) (td_public_key d) (td_name d) (td_first_seen d) (td_last_seen d) st
    (td_revoked_by d) (td_revoked_at d) (td_revoke_reason d).

(** An [UPDATE] of no row changes nothing. *)
Definition touch_last_seen (now : pyfloat) (s : TrustStore) (device_id : pystr) : TrustStore :=
  Store (alter (set_last_seen now) device_id (devices s)) (transitions s).

Definition approve (s : TrustStore) (device_id : pystr) : result (TrustStore * TrustedDevice) :=
  let* _ := bind_text device_id in
  match get s device_id with
  | None => Err ValueError
  | Some device =>
      if bool_decide (td_status device = REVOKED) then Err ValueError else
      let d := set_status TRUSTED device in
      Ok (Store (<[device_id := d]> (devices s)) (transitions s), d)
  end.

Definition set_revoked (now : pyfloat) (s : TrustStore) (device_id revoked_by : pystr) (reason : option pystr) :
    result (TrustStore * TrustedDevice) :=
  let* _ := bind_text device_id in
  match get s device_id with
  | None => Err ValueError
  | Some d =>
      let* _ := bind_text revoked_by in
      let* _ := bind_opt reason in
      let d := MkDevice (td_device_id d) (td_public_key d) (td_name d) (td_first_seen d) (td_last_seen d) REVOKED
                 (Some revoked_by) (Some now) reason in
      Ok (Store (<[device_id := d]> (devices s)) (transitions s), d)
  end.

(** ** revocation.py *)

Definition revoke_device (now : pyfloat) (s : TrustStore) (device_id revoked_by : pystr) (reason : option pystr) :
    result (TrustStore * TrustedDevice) :=
  let* _ := bind_text device_id in
  match get s device_id with
  | None => Err RevocationError
  | Some device =>
      if bool_decide (td_status device = REVOKED) then Err RevocationError
      else set_revoked now s device_id revoked_by reason
  end.

Definition is_revoked (s : TrustStore) (device_id : pystr) : bool :=
  match get s device_id with
  | Some device => bool_decide (td_status device = REVOKED)
  | None => false
  end.

(** ** Key rotation *)

(** [INSERT OR REPLACE INTO identity_transitions] *)
Definition insert_or_replace (row : transition) (rows : list transition) : list transition :=
  List.filter (fun r => negb (streq (tr_old r) (tr_old row) && streq (tr_new r) (tr_new row))) rows ++ [row].

Definition rotation_details (c : TransitionCertificate) : dict :=
  [(py "old_device_id", JStr (old_device_id c)); (py "new_device_id", JStr (new_device_id c))].

Section Rotation.
Context `{Ed25519}.
Variable exn_text : exn -> pystr.

(** The part of [record_rotation] that carries TRUSTED over to the new device. *)
Definition carry_trust (now : pyfloat) (cert : TransitionCertificate) (old_device : option TrustedDevice)
    (ds : gmap pystr TrustedDevice) : gmap pystr TrustedDevice :=
  match old_device with
  | Some od =>
      if bool_decide (td_status od = TRUSTED) then
        match ds !! new_device_id cert with
        | None =>
            <[new_device_id cert :=
                MkDevice (new_device_id cert) (new_public_key cert) (td_name od) now now TRUSTED None None None]> ds
        | Some existing_new =>
            match td_status existing_new with
            | TRUSTED | REVOKED => ds
            | PENDING => <[new_device_id cert := set_last_seen now (set_status TRUSTED existing_new)]> ds
            end
        end
      else ds
  | None => ds
  end.

(** Returns the new store, or the error, and the events emitted on the way. The
    [timestamp] column is NOT NULL and a NaN is stored as NULL. *)
Definition record_rotation (now : pyfloat) (s : TrustStore) (cert : TransitionCertificate) :
    result TrustStore * list SecurityEvent :=
  let '(valid, evs) := verify_transition_certificate exn_text now cert in
  if negb valid then
    (Err RotationError,
     evs ++ [new_event INVALID_ROTATION WARNING
               (py "TransitionCertificate signature is invalid for rotation " ++ old_device_id cert
                ++ py " -> " ++ new_device_id cert)
               (Some (old_device_id cert)) now (rotation_details cert)])
  else
    let old_device := get s (old_device_id cert) in
    if match old_device with Some d => bool_decide (td_status d = REVOKED) | None => false end then
      (Err RotationError,
       evs ++ [new_event REVOKED_DEVICE_ATTEMPT HIGH
                 (py "revoked device " ++ old_device_id cert ++ py " attempted key rotation to "
                  ++ new_device_id cert)
                 (Some (old_device_id cert)) now (rotation_details cert)])
    else if bool_decide (cert_timestamp cert = S754_nan) then (Err IntegrityError, evs)
    else
      let row := MkTransition (old_device_id cert) (new_device_id cert) (old_public_key cert)
                   (new_public_key cert) (cert_timestamp cert) (cert_signature cert) now in
      let trs := insert_or_replace row (transitions s) in
      let ds := carry_trust now cert old_device (devices s) in
      (Ok (Store ds trs),
       evs ++ [new_event KEY_ROTATION INFO
                 (py "recorded valid key rotation from " ++ old_device_id cert ++ py " to " ++ new_device_id cert)
                 (Some (new_device_id cert)) now (rotation_details cert)]).
End Rotation.

(** *** The rotation chain *)

Definition successors (rows : list transition) (d : pystr) : list pystr :=
  map tr_new (List.filter (fun r => streq (tr_old r) d) rows).
Definition predecessors (rows : list transition) (d : pystr) : list pystr :=
  map tr_old (List.filter (fun r => streq (tr_new r) d) rows).

(** The [while queue] loop: [queue.pop()] takes the last element, so the queue
    is kept here in reverse. The fuel bounds the number of iterations. *)
Fixpoint chain_loop (fuel : nat) (rows : list transition) (visited : gset pystr) (queue : list pystr) :
    option (gset pystr) :=
  match queue with
  | [] => Some visited
  | current :: queue =>
      match fuel with
      | O => None
      | S fuel =>
          if bool_decide (current ∈ visited) then chain_loop fuel rows visited queue
          else chain_loop fuel rows ({[ current ]} ∪ visited)
                 (rev (predecessors rows current) ++ rev (successors rows current) ++ queue)
      end
  end.
Definition chain_fuel (rows : list transition) : nat := 2 * length rows + 1.

Definition order_key (rows : list transition) (did : pystr) : pyfloat :=
  match List.filter (fun r => streq (tr_new r) did) rows with
  | r :: _ => tr_timestamp r
  | [] => S754_zero false
  end.

Definition get_rotation_chain (s : TrustStore) (device_id : pystr) : option (list pystr) :=
  visited ← chain_loop (chain_fuel (transitions s)) (transitions s) ∅ [device_id];
  Some (sorted_by (order_key (transitions s)) (elements visited)).

(** The loop of [check_with_rotation] over the chain: the first REVOKED node, or
    whether a TRUSTED node was met. *)
Fixpoint scan_chain (s : TrustStore) (chain : list pystr) (has_trusted : bool) : pystr + bool :=
  match chain with
  | [] => inr has_trusted
  | chain_id :: chain =>
      match get s chain_id with
      | None => scan_chain s chain has_trusted
      | Some node =>
          match td_status node with
          | REVOKED => inl chain_id
          | TRUSTED => scan_chain s chain true
          | PENDING => scan_chain s chain has_trusted
          end
      end
  end.

Definition check_with_rotation (now : pyfloat) (s : TrustStore) (device_id public_key : pystr) :
    option (TrustDecision * list SecurityEvent) :=
  let '(direct, evs) := check now s device_id public_key in
  if bool_decide (direct = D_KEY_CHANGED) then Some (direct, evs) else
  chain ← get_rotation_chain s device_id;
  match scan_chain s chain false with
  | inl chain_id =>
      Some (D_REVOKED,
            evs ++ (if bool_decide (direct = D_REVOKED) then [] else
                      [new_event REVOKED_DEVICE_ATTEMPT HIGH
                         (py "device " ++ device_id ++ py " is tainted by revoked ancestor " ++ chain_id
                          ++ py " in rotation chain")
                         (Some device_id) now [(py "tainted_by", JStr chain_id)]]))
  | inr true => Some (D_TRUSTED, evs)
  | inr false => Some (direct, evs)
  end.

(** ** Histories of a store *)

Inductive trust_op : Type :=
  | OpFirstSeen (now : pyfloat) (device_id public_key name : pystr)
  | OpTouch (now : pyfloat) (device_id : pystr)
  | OpApprove (device_id : pystr)
  | OpRevoke (now : pyfloat) (device_id revoked_by : pystr) (reason : option pystr)
  | OpRotate (now : pyfloat) (cert : TransitionCertificate).

(** An operation that raises leaves the store as it was. *)
Definition keep {A} (s : TrustStore) (r : result (TrustStore * A)) : TrustStore :=
  match r with
  | Ok (s', _) => s'
  | Err _ => s
  end.
Definition run_trust `{Ed25519} (exn_text : exn -> pystr) (s : TrustStore) (o : trust_op) : TrustStore :=
  match o with
  | OpFirstSeen now d k n => keep s (record_first_seen now s d k n)
  | OpTouch now d => touch_last_seen now s d
  | OpApprove d => keep s (approve s d)
  | OpRevoke now d by_ r => keep s (revoke_device now s d by_ r)
  | OpRotate now c => match fst (record_rotation exn_text now s c) with Ok s' => s' | Err _ => s end
  end.
Definition run_trusts `{Ed25519} (exn_text : exn -> pystr) (s : TrustStore) (os : list trust_op) : TrustStore :=
  fold_left (run_trust exn_text) os s.

(** Trust only moves forward: PENDING, then TRUSTED, then REVOKED. *)
Definition status_rank (st : TrustStatus) : Z :=
  match st with
  | PENDING => 0
  | TRUSTED => 1
  | REVOKED => 2
  end.
Definition evolves (a b : TrustedDevice) : Prop :=
  td_public_key a = td_public_key b /\ td_name a = td_name b /\ td_first_seen a = td_first_seen b /\
  status_rank (td_status a) <= status_rank (td_status b).
Definition store_evolves (s t : TrustStore) : Prop :=
  forall d a, get s d = Some a -> exists b, get t d = Some b /\ evolves a b.

#[export] Instance store_evolves_preorder : PreOrder store_evolves.
Proof.
  split.
  - intros s d a Ha. exists a. split; [done|]. repeat split; lia.
  - intros s t u Hst Htu d a Ha. destruct (Hst d a Ha) as (b & Hb & E1 & E2 & E3 & E4).
    destruct (Htu d b Hb) as (c & Hc & F1 & F2 & F3 & F4). exists c. split; [done|].
    repeat split; [congruence..|lia].
Qed.

(** Replacing one entry by an evolved one, or adding one, evolves the store. *)
Lemma insert_evolves s d b trs :
  (forall a, get s d = Some a -> evolves a b) -> store_evolves s (Store (<[d := b]> (devices s)) trs).
Proof.
  intros H e a Ha. unfold get in *. cbn [devices].
  destruct (decide (e = d)) as [-> | Hne].
  - exists b. rewrite lookup_insert_eq. auto.
  - exists a. rewrite lookup_insert_ne by done. split; [done|]. repeat split; lia.
Qed.
Lemma same_devices_evolves s trs : store_evolves s (Store (devices s) trs).
Proof. intros d a Ha. exists a. split; [done|]. repeat split; lia. Qed.

Section History.
Context `{Ed25519}.
Variable exn_text : exn -> pystr.

Lemma carry_trust_evolves now cert od s trs :
  store_evolves s (Store (carry_trust now cert od (devices s)) trs).
Proof.
  unfold carry_trust. destruct od as [od|]; [|apply same_devices_evolves].
  destruct (bool_decide _); [|apply same_devices_evolves].
  destruct (devices s !! new_device_id cert) as [x|] eqn:E; [destruct (td_status x) eqn:Ex|];
    try apply same_devices_evolves; apply insert_evolves; unfold get; intros a Ha; [|congruence].
  assert (a = x) as -> by congruence. repeat split; try done. cbn. rewrite Ex. cbn. lia.
Qed.

Lemma record_rotation_ok now s c s' :
  fst (record_rotation exn_text now s c) = Ok s' ->
  verify_body c = Ok tt /\ is_revoked s (old_device_id c) = false /\
  devices s' = carry_trust now c (get s (old_device_id c)) (devices s) /\
  transitions s' = insert_or_replace
    (MkTransition (old_device_id c) (new_device_id c) (old_public_key c) (new_public_key c)
       (cert_timestamp c) (cert_signature c) now) (transitions s).
Proof.
  unfold record_rotation, verify_transition_certificate, is_revoked.
  destruct (verify_body c) as [[]|] eqn:Ev; cbn [negb]; [|done].
  destruct (match get s (old_device_id c) with Some _ => _ | None => _ end) eqn:Er; [done|].
  destruct (bool_decide _); [done|]. cbn [fst]. by intros [= <-].
Qed.

(** What the updates do when they succeed. *)
Lemma record_first_seen_ok now s d k n s' x : record_first_seen now s d k n = Ok (s', x) ->
  get s d = None /\ x = MkDevice d k n now now PENDING None None None /\ s' = Store (<[d := x]> (devices s)) (transitions s).
Proof.
  unfold record_first_seen. intros ([] & _ & E)%rbind_ok. destruct (get s d); [done|].
  apply rbind_ok in E as ([] & _ & E). apply rbind_ok in E as ([] & _ & E). injection E as <- <-. done.
Qed.
Lemma bind_text_ok s : forallb cp_ok s = true -> bind_text s = Ok tt.
Proof. intros Hs. unfold bind_text. by rewrite utf8_encode_cps. Qed.
Lemma record_first_seen_new now s d k n :
  get s d = None -> forallb cp_ok d = true -> forallb cp_ok k = true -> forallb cp_ok n = true ->
  let x := MkDevice d k n now now PENDING None None None in
  record_first_seen now s d k n = Ok (Store (<[d := x]> (devices s)) (transitions s), x).
Proof. intros Hg Hd Hk Hn. unfold record_first_seen. rewrite (bind_text_ok d), Hg, (bind_text_ok k), (bind_text_ok n) by done. done. Qed.
Lemma approve_ok s d s' x : approve s d = Ok (s', x) ->
  exists y, get s d = Some y /\ td_status y <> REVOKED /\ x = set_status TRUSTED y /\
    s' = Store (<[d := x]> (devices s)) (transitions s).
Proof.
  unfold approve. intros ([] & _ & E)%rbind_ok. destruct (get s d) as [y|]; [|done].
  destruct (bool_decide_reflect (td_status y = REVOKED)); [done|]. injection E as <- <-. by exists y.
Qed.
Lemma revoke_device_ok now s d by_ r s' x : revoke_device now s d by_ r = Ok (s', x) ->
  exists y, get s d = Some y /\ td_status y <> REVOKED /\
    x = MkDevice (td_device_id y) (td_public_key y) (td_name y) (td_first_seen y) (td_last_seen y) REVOKED (Some by_) (Some now) r /\
    s' = Store (<[d := x]> (devices s)) (transitions s).
Proof.
  unfold revoke_device, set_revoked. intros ([] & _ & E)%rbind_ok. destruct (get s d) as [y|] eqn:Eg; [|done].
  destruct (bool_decide_reflect (td_status y = REVOKED)); [done|]. apply rbind_ok in E as ([] & _ & E).
  apply rbind_ok in E as ([] & _ & E). apply rbind_ok in E as ([] & _ & E). injection E as <- <-. by exists y.
Qed.

Lemma run_trust_evolves s o : store_evolves s (run_trust exn_text s o).
Proof.
  destruct o as [now d k n|now d|d|now d by_ r|now c]; cbn [run_trust].
  - destruct (record_first_seen _ _ _ _ _) as [[s' x]|] eqn:E; cbn [keep]; [|reflexivity].
    apply record_first_seen_ok in E as (E & _ & ->). apply insert_evolves. congruence.
  - intros e a Ha. unfold touch_last_seen, get in *. cbn [devices].
    destruct (decide (e = d)) as [-> | Hne].
    + exists (set_last_seen now a). rewrite lookup_alter_eq, Ha. split; [done|]. repeat split; cbn; lia.
    + exists a. rewrite lookup_alter_ne by done. split; [done|]. repeat split; lia.
  - destruct (approve s d) as [[s' x]|] eqn:E; cbn [keep]; [|reflexivity].
    apply approve_ok in E as (y & Hy & Hr & -> & ->). apply insert_evolves. intros a Ha.
    assert (a = y) as -> by congruence. repeat split; cbn; try done. destruct (td_status y); cbn; done || lia.
  - destruct (revoke_device _ _ _ _ _) as [[s' x]|] eqn:E; cbn [keep]; [|reflexivity].
    apply revoke_device_ok in E as (y & Hy & Hr & -> & ->). apply insert_evolves. intros a Ha.
    assert (a = y) as -> by congruence. repeat split; cbn; try done. destruct (td_status y); cbn; lia.
  - destruct (fst _) as [s'|] eqn:E; [|reflexivity].
    apply record_rotation_ok in E as (_ & _ & E & _). destruct s' as [ds trs]. cbn in E. subst ds.
    apply carry_trust_evolves.
Qed.

Lemma run_trusts_evolves os : forall s, store_evolves s (run_trusts exn_text s os).
Proof.
  induction os as [|o os IH]; intros s; cbn; [reflexivity|]. etrans; [apply run_trust_evolves | apply IH].
Qed.

(** C17: whatever sequence of first contacts, re-encounters, approvals,
    revocations and rotation certificates (valid or forged) a store processes,
    a known device stays known with the same public key, name and first-seen
    time, its status only moves forward from PENDING to TRUSTED to REVOKED, and
    a revoked device stays revoked for ever. *)
Theorem trust_history_monotone s os d a :
  get s d = Some a ->
  (exists b, get (run_trusts exn_text s os) d = Some b /\ evolves a b) /\
  (is_revoked s d = true -> is_revoked (run_trusts exn_text s os) d = true).
Proof.
  intros Ha. destruct (run_trusts_evolves os s d a Ha) as (b & Hb & He). split; [eauto|].
  unfold is_revoked. rewrite Ha, Hb. intros Hr. apply bool_decide_eq_true in Hr. apply bool_decide_eq_true_2.
  destruct He as (_ & _ & _ & Hs). rewrite Hr in Hs. by destruct (td_status b).
Qed.

(** How a device can become TRUSTED. *)
Definition trusted_in (s : TrustStore) (d : pystr) : bool :=
  match get s d with
  | Some x => bool_decide (td_status x = TRUSTED)
  | None => false
  end.

(** C18: a device becomes TRUSTED in one step only by an explicit approval of that
    device, or by recording a certificate whose signature verifies, whose new
    id is that device and whose old id is a device the store already trusts;
    first contacts, re-encounters and revocations never grant trust. *)
Theorem trust_granted_only_by_approval_or_rotation s o d :
  trusted_in s d = false -> trusted_in (run_trust exn_text s o) d = true ->
  o = OpApprove d \/
  exists now c, o = OpRotate now c /\ new_device_id c = d /\ trusted_in s (old_device_id c) = true /\
    verify_body c = Ok tt.
Proof.
  unfold trusted_in. intros Hf Ht. destruct o as [now e k n|now e|e|now e by_ r|now c]; cbn [run_trust] in Ht.
  - destruct (record_first_seen _ _ _ _ _) as [[s' x]|] eqn:Ee; cbn [keep] in Ht; [|congruence].
    apply record_first_seen_ok in Ee as (_ & -> & ->). unfold get in *. cbn [devices] in Ht. destruct (decide (d = e)) as [-> | Hne].
    + by rewrite lookup_insert_eq in Ht.
    + rewrite lookup_insert_ne in Ht by done. congruence.
  - unfold touch_last_seen, get in *. cbn [devices] in Ht. destruct (decide (d = e)) as [-> | Hne].
    + rewrite lookup_alter_eq in Ht. destruct (devices s !! e); cbn in *; congruence.
    + rewrite lookup_alter_ne in Ht by done. congruence.
  - left. destruct (approve s e) as [[s' x]|] eqn:Ee; cbn [keep] in Ht; [|congruence].
    apply approve_ok in Ee as (y & _ & _ & _ & ->).
    destruct (decide (d = e)) as [-> | Hne]; [done|]. unfold get in *. cbn [devices] in Ht.
    rewrite lookup_insert_ne in Ht by done. congruence.
  - destruct (revoke_device _ _ _ _ _) as [[s' x]|] eqn:Ee; cbn [keep] in Ht; [|congruence].
    apply revoke_device_ok in Ee as (y & _ & _ & -> & ->). unfold get in *. cbn [devices] in Ht.
    destruct (decide (d = e)) as [-> | Hne].
    + by rewrite lookup_insert_eq in Ht.
    + rewrite lookup_insert_ne in Ht by done. congruence.
  - right. exists now, c. split; [done|]. destruct (fst _) as [s'|] eqn:E; [|congruence].
    apply record_rotation_ok in E as (Ev & _ & E & _). unfold get in *. rewrite E in Ht. unfold carry_trust in Ht.
    destruct (devices s !! old_device_id c) as [od|]; [|congruence].
    destruct (bool_decide _) eqn:Eo; [|congruence].
    destruct (decide (d = new_device_id c)) as [-> | Hne]; [done|].
    destruct (devices s !! new_device_id c) as [x|]; [destruct (td_status x)|];
      try congruence; rewrite lookup_insert_ne in Ht by done; congruence.
Qed.
End History.

Lemma trust_history_monotone_witness :
  let k := py "key" in
  let s := keep empty_store (record_first_seen (float_of_int 1) empty_store (py "d") k (py "n")) in
  let s1 := keep s (revoke_device (float_of_int 2) s (py "d") (py "me") None) in
  is_revoked (@run_trusts toy_ed25519 (fun _ => []) s1 [OpApprove (py "d"); OpFirstSeen (float_of_int 3) (py "d") [] []])
    (py "d") = true.
Proof.
  intros k s s1.
  eapply (@trust_history_monotone toy_ed25519 (fun _ => []) s1
            [OpApprove (py "d"); OpFirstSeen (float_of_int 3) (py "d") [] []] (py "d")); vm_compute; reflexivity.
Defined.

(** A device trusted under its old id, and the certificate of its key rotation. *)
Definition rotated_keypair (n : N) : @DeviceKeypair toy_ed25519 := @keypair_from_private_key toy_ed25519 n.
Definition before_rotation : TrustStore :=
  let d := kp_device_id (rotated_keypair 1) in
  let s := keep empty_store (record_first_seen (float_of_int 1) empty_store d (py "k") (py "n")) in keep s (approve s d).
Lemma trust_granted_only_by_approval_or_rotation_witness :
  exists c, create_transition_certificate (float_of_int 2) (rotated_keypair 1) (rotated_keypair 2) = Ok c /\
    trusted_in before_rotation (new_device_id c) = false /\
    trusted_in (@run_trust toy_ed25519 (fun _ => []) before_rotation (OpRotate (float_of_int 3) c)) (new_device_id c) = true /\
    trusted_in before_rotation (old_device_id c) = true /\ @verify_body toy_ed25519 c = Ok tt.
Proof.
  destruct (create_transition_certificate (float_of_int 2) (rotated_keypair 1) (rotated_keypair 2)) as [c|e] eqn:E;
    [|vm_compute in E; discriminate E].
  assert (match create_transition_certificate (float_of_int 2) (rotated_keypair 1) (rotated_keypair 2) with
          | Ok c => trusted_in before_rotation (new_device_id c) = false /\
              trusted_in (@run_trust toy_ed25519 (fun _ => []) before_rotation (OpRotate (float_of_int 3) c)) (new_device_id c) = true
          | Err _ => False
          end) as H by (vm_compute; split; reflexivity).
  rewrite E in H. destruct H as [Hf Ht]. exists c. split; [reflexivity|]. split; [exact Hf|]. split; [exact Ht|].
  destruct (@trust_granted_only_by_approval_or_rotation toy_ed25519 (fun _ => []) before_rotation (OpRotate (float_of_int 3) c) (new_device_id c) Hf Ht)
    as [H|(now & c' & H & _ & H1 & H2)]; [discriminate H|]. injection H as <- <-. split; [exact H1|exact H2].
Defined.

(** ** The decision of [check] *)

(** [check] classifies a device exactly: UNKNOWN if it was never recorded,
    otherwise KEY_CHANGED if the presented key differs from the stored one
    (whatever the status: a changed key is never accepted), otherwise the stored
    status; it raises an identity-changed or revoked-device event exactly in the
    KEY_CHANGED and REVOKED cases. *)
Theorem check_decides now s d k :
  (fst (check now s d k) = D_UNKNOWN <-> get s d = None) /\
  (fst (check now s d k) = D_KEY_CHANGED <-> exists x, get s d = Some x /\ td_public_key x <> k) /\
  (forall st dec, (st = REVOKED /\ dec = D_REVOKED \/ st = TRUSTED /\ dec = D_TRUSTED \/ st = PENDING /\ dec = D_PENDING) ->
     (fst (check now s d k) = dec <-> exists x, get s d = Some x /\ td_public_key x = k /\ td_status x = st)) /\
  map event_type (snd (check now s d k)) =
    match fst (check now s d k) with
    | D_KEY_CHANGED => [event_type_value IDENTITY_CHANGED]
    | D_REVOKED => [event_type_value REVOKED_DEVICE_ATTEMPT]
    | _ => []
    end.
Proof.
  unfold check. destruct (get s d) as [x|] eqn:E.
  - destruct (streq (td_public_key x) k) eqn:Ek; cbn [negb].
    + apply streq_spec in Ek. destruct (td_status x) eqn:Es; cbn [fst snd];
        repeat split; intros; naive_solver congruence.
    + assert (td_public_key x <> k) by (intros Hk; apply streq_spec in Hk; congruence).
      cbn [fst snd]. repeat split; intros; naive_solver.
  - cbn [fst snd]. repeat split; intros; naive_solver.
Qed.

(** ** The rotation chain *)

Definition linked (rows : list transition) (a b : pystr) : Prop :=
  exists r, r ∈ rows /\ ((tr_old r = a /\ tr_new r = b) \/ (tr_new r = a /\ tr_old r = b)).

Lemma neighbours rows a b :
  b ∈ predecessors rows a \/ b ∈ successors rows a <-> linked rows a b.
Proof.
  unfold predecessors, successors, linked. rewrite !list_elem_of_In, !in_map_iff. setoid_rewrite filter_In.
  setoid_rewrite streq_spec. setoid_rewrite list_elem_of_In. naive_solver.
Qed.

(** Each row is pushed once when its old end is visited and once when its new
    end is visited. *)
Definition pending_rows (rows : list transition) (visited : gset pystr) : nat :=
  sum_list_with (fun r => (if bool_decide (tr_old r ∈ visited) then 0 else 1)
                          + (if bool_decide (tr_new r ∈ visited) then 0 else 1))%nat rows.

Lemma pending_visit rows visited c :
  c ∉ visited ->
  (pending_rows rows ({[ c ]} ∪ visited) + length (successors rows c) + length (predecessors rows c)
   = pending_rows rows visited)%nat.
Proof.
  intros Hc. unfold pending_rows, successors, predecessors. rewrite !length_map.
  induction rows as [|r rows IH]; cbn [sum_list_with List.filter length]; [done|].
  assert (forall x, bool_decide (x ∈ {[ c ]} ∪ visited) = streq x c || bool_decide (x ∈ visited)) as Hb.
  { intros x. unfold streq. destruct (bool_decide_reflect (x = c)) as [-> | Hx]; cbn [orb].
    - apply bool_decide_eq_true_2. set_solver.
    - apply bool_decide_ext. set_solver. }
  rewrite !Hb. assert (forall x, streq x c = true -> bool_decide (x ∈ visited) = false) as Hv.
  { intros x Hx. apply streq_spec in Hx as ->. by apply bool_decide_eq_false_2. }
  destruct (streq (tr_old r) c) eqn:E1, (streq (tr_new r) c) eqn:E2; cbn [orb length];
    rewrite ?(Hv _ E1), ?(Hv _ E2); repeat case_match; cbn [length]; lia.
Qed.

(** The invariant of the loop: everything met is reachable, and everything next
    to a visited device is visited or queued. *)
Record chain_inv (rows : list transition) (start : pystr) (visited : gset pystr) (queue : list pystr) : Prop := {
  ci_reach_v x : x ∈ visited -> rtc (linked rows) start x;
  ci_reach_q x : x ∈ queue -> rtc (linked rows) start x;
  ci_start : start ∈ visited \/ start ∈ queue;
  ci_closed x y : x ∈ visited -> linked rows x y -> y ∈ visited \/ y ∈ queue
}.

Lemma chain_step rows start visited c queue :
  chain_inv rows start visited (c :: queue) -> c ∉ visited ->
  chain_inv rows start ({[ c ]} ∪ visited) (rev (predecessors rows c) ++ rev (successors rows c) ++ queue).
Proof.
  intros [Hv Hq Hs Hc] Hnew.
  assert (forall y, y ∈ rev (predecessors rows c) ++ rev (successors rows c) ++ queue <->
                    linked rows c y \/ y ∈ queue) as Hin.
  { intros y. rewrite !elem_of_app, <- neighbours, !list_elem_of_In, <- !in_rev, <- !list_elem_of_In. tauto. }
  assert (rtc (linked rows) start c) as Hrc by (apply Hq, elem_of_cons; by left).
  split.
  - intros x [->%elem_of_singleton | Hx]%elem_of_union; auto.
  - intros x [Hl | Hx]%Hin; [by eapply rtc_r | apply Hq, elem_of_cons; by right].
  - rewrite Hin. destruct Hs as [Hs | [-> | Hs]%elem_of_cons]; [left; set_solver | left; set_solver | by right; right].
  - intros x y [->%elem_of_singleton | Hx]%elem_of_union Hl; rewrite Hin; [by right; left|].
    destruct (Hc x y Hx Hl) as [H | [-> | H]%elem_of_cons]; [left; set_solver | left; set_solver | by right; right].
Qed.

Lemma chain_skip rows start visited c queue :
  chain_inv rows start visited (c :: queue) -> c ∈ visited -> chain_inv rows start visited queue.
Proof.
  intros [Hv Hq Hs Hc] Hold. split; [done| | |].
  - intros x Hx. apply Hq, elem_of_cons. by right.
  - destruct Hs as [Hs | [-> | Hs]%elem_of_cons]; auto.
  - intros x y Hx Hl. destruct (Hc x y Hx Hl) as [H | [-> | H]%elem_of_cons]; auto.
Qed.

Lemma chain_done rows start visited :
  chain_inv rows start visited [] -> forall x, x ∈ visited <-> rtc (linked rows) start x.
Proof.
  intros [Hv Hq Hs Hc] x. split; [apply Hv|]. revert x. apply rtc_ind_r.
  - destruct Hs as [Hs|Hs]; [done | by apply elem_of_nil in Hs].
  - intros y z _ Hl Hy. destruct (Hc y z Hy Hl) as [H|H]; [done | by apply elem_of_nil in H].
Qed.

Lemma chain_loop_spec rows start fuel : forall visited queue,
  chain_inv rows start visited queue ->
  (length queue + pending_rows rows visited <= fuel)%nat ->
  exists v, chain_loop fuel rows visited queue = Some v /\ forall x, x ∈ v <-> rtc (linked rows) start x.
Proof.
  induction fuel as [|fuel IH]; intros visited [|c queue] Hi Hf; cbn [chain_loop]; try (cbn [length] in Hf; lia).
  1, 2: exists visited; split; [done | by apply chain_done].
  destruct (bool_decide_reflect (c ∈ visited)) as [Hold | Hnew].
  - apply IH; [by eapply chain_skip|]. cbn [length] in Hf. lia.
  - apply IH; [by apply chain_step|]. pose proof (pending_visit rows visited c Hnew).
    rewrite !length_app, !length_rev. cbn [length] in Hf. lia.
Qed.

Lemma pending_rows_bound rows visited : (pending_rows rows visited <= 2 * length rows)%nat.
Proof.
  unfold pending_rows. induction rows as [|r rows IH]; cbn [sum_list_with length]; [lia|].
  repeat case_match; lia.
Qed.

Lemma insert_by_perm {A} (key : A -> pyfloat) x l : insert_by key x l ≡ₚ x :: l.
Proof.
  induction l as [|y l IH]; cbn [insert_by]; [done|]. destruct (float_lt _ _); [|done].
  rewrite IH. apply Permutation_swap.
Qed.
Lemma sorted_by_perm {A} (key : A -> pyfloat) l : sorted_by key l ≡ₚ l.
Proof. induction l as [|x l IH]; cbn; [done|]. fold (sorted_by key l). by rewrite insert_by_perm, IH. Qed.

Lemma rotation_chain_component s d :
  exists chain, get_rotation_chain s d = Some chain /\ NoDup chain /\
    forall x, x ∈ chain <-> rtc (linked (transitions s)) d x.
Proof.
  unfold get_rotation_chain.
  destruct (chain_loop_spec (transitions s) d (chain_fuel (transitions s)) ∅ [d]) as (v & -> & Hv).
  - split.
    + set_solver.
    + intros x ->%list_elem_of_singleton. reflexivity.
    + right. by apply list_elem_of_singleton.
    + set_solver.
  - pose proof (pending_rows_bound (transitions s) ∅). unfold chain_fuel. cbn [length]. lia.
  - cbn. eexists. split; [done|]. split.
    + rewrite sorted_by_perm. apply NoDup_elements.
    + intros x. rewrite sorted_by_perm, elem_of_elements. apply Hv.
Qed.

(** C20: [get_rotation_chain] always terminates, within one pop per queued id, and
    returns without duplicates exactly the devices connected to the given one by
    recorded transitions in either direction. *)
Theorem rotation_chain_exact s d :
  exists chain, get_rotation_chain s d = Some chain /\ NoDup chain /\ d ∈ chain /\
    forall x, x ∈ chain <-> rtc (linked (transitions s)) d x.
Proof.
  destruct (rotation_chain_component s d) as (chain & E & Hn & Hx). exists chain.
  split; [done|]. split; [done|]. split; [|done]. apply Hx. reflexivity.
Qed.

(** ** The decision of [check_with_rotation] *)

Definition status_at (s : TrustStore) (st : TrustStatus) (x : pystr) : Prop :=
  exists n, get s x = Some n /\ td_status n = st.

Definition scan_post (s : TrustStore) (chain : list pystr) (ht : bool) (r : pystr + bool) : Prop :=
  match r with
  | inl x => x ∈ chain /\ status_at s REVOKED x
  | inr b => (forall x, x ∈ chain -> ~ status_at s REVOKED x) /\
             (b = true <-> ht = true \/ exists x, x ∈ chain /\ status_at s TRUSTED x)
  end.

Lemma scan_post_cons s c chain ht ht' r :
  ~ status_at s REVOKED c -> (ht' = true <-> ht = true \/ status_at s TRUSTED c) ->
  scan_post s chain ht' r -> scan_post s (c :: chain) ht r.
Proof.
  intros Hr Ht. destruct r as [x|b]; cbn; setoid_rewrite elem_of_cons.
  - intros [Hx Hs]. auto.
  - intros [Hx Hb]. split; [intros x [-> | H]; auto|]. rewrite Hb, Ht. split.
    + intros [[H|H] | (x & Hc & H)]; [by left | right; exists c; auto | right; exists x; auto].
    + intros [H | (x & [-> | Hc] & H)]; [auto | auto | right; exists x; auto].
Qed.

Lemma scan_chain_spec s chain : forall ht, scan_post s chain ht (scan_chain s chain ht).
Proof.
  induction chain as [|c chain IH]; intros ht; cbn [scan_chain].
  - split; [intros x Hx; by apply elem_of_nil in Hx|]. split; [by left|].
    intros [?|(x & Hx & _)]; [done | by apply elem_of_nil in Hx].
  - assert (forall st n, get s c = Some n -> status_at s st c <-> td_status n = st) as Hst.
    { intros st n E. unfold status_at. rewrite E. naive_solver. }
    destruct (get s c) as [n|] eqn:E; [destruct (td_status n) eqn:Es|].
    + eapply scan_post_cons; [| |apply IH]; rewrite (Hst _ _ eq_refl), Es; naive_solver.
    + eapply scan_post_cons; [| |apply IH]; rewrite (Hst _ _ eq_refl), Es; naive_solver.
    + split; [apply elem_of_cons; by left|]. by apply (Hst _ _ eq_refl).
    + eapply scan_post_cons; [| |apply IH]; unfold status_at; rewrite E; naive_solver.
Qed.

(** The decision, in terms of the connected component of the device. *)
Definition decision_spec (s : TrustStore) (d k : pystr) (dec : TrustDecision) : Prop :=
  let conn := rtc (linked (transitions s)) d in
  let changed := exists x, get s d = Some x /\ td_public_key x <> k in
  let tainted := exists x, conn x /\ status_at s REVOKED x in
  let backed := exists x, conn x /\ status_at s TRUSTED x in
  match dec with
  | D_KEY_CHANGED => changed
  | D_REVOKED => ~ changed /\ tainted
  | D_TRUSTED => ~ changed /\ ~ tainted /\ backed
  | D_PENDING => ~ changed /\ ~ tainted /\ ~ backed /\ get s d <> None
  | D_UNKNOWN => ~ changed /\ ~ tainted /\ ~ backed /\ get s d = None
  end.

Lemma check_fst now s d k :
  fst (check now s d k) =
    match get s d with
    | None => D_UNKNOWN
    | Some x => if streq (td_public_key x) k then
                  match td_status x with REVOKED => D_REVOKED | TRUSTED => D_TRUSTED | PENDING => D_PENDING end
                else D_KEY_CHANGED
    end.
Proof. unfold check. repeat case_match; cbn in *; congruence. Qed.

(** C19: [check_with_rotation] always returns, and its decision is exactly the one
    the body's order of tests gives: a presented key that differs from the stored
    one is KEY_CHANGED before anything else, also when the device itself or a node
    of its chain is revoked (the docstring's list of priorities has REVOKED first
    and KEY_CHANGED last); otherwise a revocation anywhere in the device's rotation
    component taints it; otherwise one TRUSTED device anywhere in the component
    makes it TRUSTED; otherwise the device's own status decides. *)
Theorem check_with_rotation_exact now s d k :
  exists dec evs, check_with_rotation now s d k = Some (dec, evs) /\ decision_spec s d k dec.
Proof.
  unfold check_with_rotation. pose proof (check_fst now s d k) as Hc.
  destruct (check now s d k) as [direct evs]. cbn [fst] in Hc.
  assert (direct = D_KEY_CHANGED <-> exists x, get s d = Some x /\ td_public_key x <> k) as Hch.
  { rewrite Hc. destruct (get s d) as [x|]; [|naive_solver]. destruct (streq (td_public_key x) k) eqn:Ek.
    - apply streq_spec in Ek. destruct (td_status x); naive_solver.
    - assert (td_public_key x <> k) by (intros Hk; apply streq_spec in Hk; congruence). naive_solver. }
  destruct (bool_decide_reflect (direct = D_KEY_CHANGED)) as [Hk | Hk].
  { exists direct, evs. split; [done|]. rewrite Hk. cbn. by apply Hch. }
  rewrite Hch in Hk. destruct (rotation_chain_component s d) as (chain & -> & _ & Hx). cbn [mbind option_bind].
  pose proof (scan_chain_spec s chain false) as Hs. destruct (scan_chain s chain false) as [x|b].
  { do 2 eexists. split; [done|]. cbn. split; [done|]. exists x. rewrite <- Hx. done. }
  destruct Hs as [Hr Ht].
  assert (~ exists x, rtc (linked (transitions s)) d x /\ status_at s REVOKED x) as Hnt
    by (intros (x & Hc' & Hr'); apply Hx in Hc'; by apply (Hr x)).
  destruct b; do 2 eexists; (split; [done|]).
  - cbn. split; [done|]. split; [done|]. destruct (proj1 Ht eq_refl) as [|(x & Hx' & Hst)]; [done|].
    exists x. split; [by apply Hx | done].
  - assert (~ exists x, rtc (linked (transitions s)) d x /\ status_at s TRUSTED x) as Hnb.
    { intros (x & Hc' & Hst). apply Hx in Hc'. assert (false = true) by (apply Ht; eauto). done. }
    rewrite Hc. destruct (get s d) as [x|] eqn:E; [|cbn; rewrite E; split_and!; auto; naive_solver].
    destruct (streq (td_public_key x) k) eqn:Ek.
    + destruct (td_status x) eqn:Est; cbn; [rewrite E; split_and!; auto; naive_solver|exfalso; apply Hnb | exfalso; apply Hnt];
        exists d; (split; [reflexivity|]); by exists x.
    + exfalso. apply Hk. exists x. split; [done|]. intros Hk'. apply streq_spec in Hk'. congruence.
Qed.

(** ** What a certificate does not prove *)

(** A certificate is checked against the key it carries, not against the key the
    store holds for the old device. *)
Section Forgery.
Context {Ed : Ed25519} {EdL : Ed25519Laws Ed}.
Variable exn_text : exn -> pystr.

(** The store accepts a rotation signed by an unrelated key: for any trusted
    device [victim] and any attacker keypair, the certificate that names
    [victim] as the old device but carries and is signed with the attacker's own
    key is accepted, and the attacker's new device id becomes TRUSTED. *)
Theorem rotation_accepts_unrelated_key now ts s victim x (attacker : DeviceKeypair) fresh p :
  let fake := MkCert victim (b64encode (public_key_bytes attacker)) fresh (b64encode (public_key_bytes attacker)) ts
                (b64encode (kp_sign attacker p)) in
  get s victim = Some x -> td_status x = TRUSTED -> get s fresh = None -> ts <> S754_nan ->
  cert_payload fake = Ok p ->
  exists s', fst (record_rotation exn_text now s fake) = Ok s' /\ trusted_in s' fresh = true.
Proof.
  intros fake Hx Ht Hf Hts Hp. unfold record_rotation.
  assert (verify_body fake = Ok tt) as Hv.
  { unfold verify_body, public_key_from_bytes. cbn [old_public_key cert_signature fake].
    rewrite !b64decode_encode. cbn [rbind]. unfold public_key_bytes. rewrite ed_load_public. cbn [rbind].
    fold fake in Hp. rewrite Hp. cbn [rbind]. unfold kp_sign. by rewrite ed_verify_sign. }
  unfold verify_transition_certificate. rewrite Hv. cbn [negb].
  change (old_device_id fake) with victim. rewrite Hx, Ht. cbn [bool_decide].
  rewrite bool_decide_eq_false_2 by done. rewrite bool_decide_eq_false_2 by done.
  eexists. split; [done|]. unfold trusted_in, get in *. cbn [devices]. unfold carry_trust.
  rewrite Ht, bool_decide_eq_true_2 by done. change (new_device_id fake) with fresh. rewrite Hf.
  by rewrite lookup_insert_eq.
Qed.

(** Trust carried by a rotation is recorded under the base64 form of the new
    key, while the handshake checks the hexadecimal form: for every key the
    rotated, trusted device is then reported as KEY_CHANGED. *)
Theorem rotated_device_reported_as_changed now now' s c s' (k : ed_priv) :
  fst (record_rotation exn_text now s c) = Ok s' ->
  new_public_key c = b64encode (ed_public k) -> get s (new_device_id c) = None ->
  trusted_in s (old_device_id c) = true ->
  fst (check now' s' (new_device_id c) (hex_of_bytes (ed_public k))) = D_KEY_CHANGED.
Proof.
  intros Hr Hk Hn Ht. apply record_rotation_ok in Hr as (_ & _ & Hd & _).
  rewrite check_fst. unfold trusted_in, get in *. rewrite Hd. unfold carry_trust.
  destruct (devices s !! old_device_id c) as [od|]; [|done]. rewrite Ht, Hn, lookup_insert_eq. cbn [td_public_key].
  destruct (streq _ _) eqn:E; [|done]. apply streq_spec in E. exfalso.
  apply (f_equal zlen) in E. rewrite Hk, b64encode_length in E. unfold zlen in E.
  rewrite hex_of_bytes_length, ed_public_length in E. done.
Qed.
End Forgery.

(** A store that trusts the device of key 1. *)
Definition demo_trusted : TrustStore :=
  let d := compute_device_id (be_encode 32 1) in
  let s := keep empty_store (record_first_seen (float_of_int 1) empty_store d (b64encode (be_encode 32 1)) (py "bob")) in
  keep s (approve s d).

Definition demo_payload (victim fresh : pystr) (pub : bytes) (ts : pyfloat) : bytes :=
  match build_payload victim fresh (b64encode pub) (b64encode pub) ts with
  | Ok p => p
  | Err _ => []
  end.

Lemma rotation_accepts_unrelated_key_witness :
  let victim := compute_device_id (be_encode 32 1) in
  let attacker := @keypair_from_private_key toy_ed25519 666%N in
  let ts := float_of_int 2 in
  let p := demo_payload victim (py "evil") (public_key_bytes attacker) ts in
  let fake := MkCert victim (b64encode (public_key_bytes attacker)) (py "evil")
                (b64encode (public_key_bytes attacker)) ts (b64encode (kp_sign attacker p)) in
  exists s', fst (@record_rotation toy_ed25519 (fun _ => []) (float_of_int 3) demo_trusted fake) = Ok s' /\
    trusted_in s' (py "evil") = true.
Proof.
  intros victim attacker ts p fake.
  eapply (rotation_accepts_unrelated_key (fun _ => []) (float_of_int 3) ts demo_trusted victim _ attacker (py "evil") p).
  - vm_compute. reflexivity.
  - reflexivity.
  - vm_compute. reflexivity.
  - vm_compute. discriminate.
  - vm_compute. reflexivity.
Defined.

Definition demo_cert : TransitionCertificate :=
  match @create_transition_certificate toy_ed25519 (float_of_int 2)
          (@keypair_from_private_key toy_ed25519 1%N) (@keypair_from_private_key toy_ed25519 2%N) with
  | Ok c => c
  | Err _ => MkCert [] [] [] [] (float_of_int 0) []
  end.

Lemma rotated_device_reported_as_changed_witness :
  match fst (@record_rotation toy_ed25519 (fun _ => []) (float_of_int 3) demo_trusted demo_cert) with
  | Ok s' => fst (check (float_of_int 4) s' (new_device_id demo_cert)
                    (hex_of_bytes (@ed_public toy_ed25519 2%N))) = D_KEY_CHANGED
  | Err _ => False
  end.
Proof.
  destruct (fst (@record_rotation toy_ed25519 (fun _ => []) (float_of_int 3) demo_trusted demo_cert)) as [s'|e] eqn:E.
  - apply (@rotated_device_reported_as_changed toy_ed25519 toy_ed25519_laws (fun _ => []) (float_of_int 3)
             (float_of_int 4) demo_trusted demo_cert s' 2%N E); vm_compute; reflexivity.
  - apply (f_equal is_ok) in E. vm_compute in E. discriminate E.
Defined.
