(* ===== verification/Channel.v ===== *)
(** * core/crypto: session keys and the encrypted channel

    [kdf.py], [key_exchange.py] and [encryption.py]. *)

From stdpp Require Import base strings list numbers option.
From Stdlib Require Import ZArith Lia Strings.Byte.
From S2P Require Import Prelude PyStr CryptoIface ToyCrypto.
Open Scope Z_scope.
Open Scope peerc_scope.

(** ** kdf.py *)

Definition KEY_LEN : Z := 32.
Definition SESSION_ID_LEN : Z := 16.
Definition INFO_INIT_TO_RESP : bytes := pyb "peerc-v2:initiator-to-responder".
Definition INFO_RESP_TO_INIT : bytes := pyb "peerc-v2:responder-to-initiator".
Definition INFO_SESSION_ID : bytes := pyb "peerc-v2:session-id".

Record SessionKeys : Type := MkSessionKeys {
  send_key : bytes;
  recv_key : bytes;
  session_id : pystr
}.

Section Kdf.
Context `{Hkdf}.

Definition hkdf_expand (ikm salt info : bytes) (length : Z) : bytes := hkdf salt info length ikm.

(** The [isinstance] checks hold of every byte string. *)
Definition derive_session_keys (shared_secret salt : bytes) (is_initiator : bool) : result SessionKeys :=
  if negb (zlen shared_secret =? 32) then Err KDFError else
  if negb (zlen salt =? 32) then Err KDFError else
  let init_to_resp_key := hkdf_expand shared_secret salt INFO_INIT_TO_RESP KEY_LEN in
  let resp_to_init_key := hkdf_expand shared_secret salt INFO_RESP_TO_INIT KEY_LEN in
  let session_id_bytes := hkdf_expand shared_secret salt INFO_SESSION_ID SESSION_ID_LEN in
  let session_id := hex_of_bytes session_id_bytes in
  if is_initiator
  then Ok (MkSessionKeys init_to_resp_key resp_to_init_key session_id)
  else Ok (MkSessionKeys resp_to_init_key init_to_resp_key session_id).
End Kdf.

(** ** key_exchange.py *)

Section KeyExchange.
Context `{X25519}.
Definition X25519_KEY_SIZE : Z := 32.
Definition ephemeral_public_hex (k : x_priv) : pystr := hex_of_bytes (x_public k).
Definition ephemeral_public_from_bytes (data : bytes) : result bytes :=
  if negb (zlen data =? X25519_KEY_SIZE) then Err ValueError else x_load data.
(** An invalid hex string raises [ValueError] again with another message. *)
Definition ephemeral_public_from_hex (hex_str : pystr) : result bytes :=
  let* raw := fromhex hex_str in ephemeral_public_from_bytes raw.
Definition compute_shared_secret (private_key : x_priv) (peer_public_key : bytes) : result bytes :=
  x_exchange private_key peer_public_key.
End KeyExchange.

(** ** encryption.py *)

Definition NONCE_LEN : Z := 12.
Definition MAX_SEQUENCE : Z := Z.shiftl 1 (NONCE_LEN * 8) - 1.

Definition construct_nonce (sequence : Z) : result bytes :=
  if (sequence <? 0) || (MAX_SEQUENCE <? sequence) then Err SequenceExhaustedError
  else Ok (be_encode 12 sequence).

Record EncryptedFrame : Type := MkEncryptedFrame {
  ef_sequence : Z;
  ef_ciphertext : bytes
}.

Record SecureChannel : Type := Channel {
  session_keys : SessionKeys;
  send_sequence : Z;
  expected_recv_sequence : Z
}.

(** [SecureChannel(keys)] *)
Definition new_channel (keys : SessionKeys) : result SecureChannel :=
  if negb (zlen (send_key keys) =? 32) || negb (zlen (recv_key keys) =? 32) then Err EncryptionError
  else Ok (Channel keys 0 0).

Section Channel.
Context `{Aead}.

(** Both operations return what the channel is afterwards, also when they
    raise. *)
Definition encrypt (c : SecureChannel) (plaintext associated_data : bytes) : result EncryptedFrame * SecureChannel :=
  match construct_nonce (send_sequence c) with
  | Err e => (Err e, c)
  | Ok nonce =>
      let ciphertext := aead_encrypt (send_key (session_keys c)) nonce plaintext associated_data in
      let frame := MkEncryptedFrame (send_sequence c) ciphertext in
      (Ok frame, Channel (session_keys c) (send_sequence c + 1) (expected_recv_sequence c))
  end.

Definition decrypt (c : SecureChannel) (sequence : Z) (ciphertext associated_data : bytes) : result bytes * SecureChannel :=
  if negb (sequence =? expected_recv_sequence c) then (Err ReplayOrReorderError, c) else
  match construct_nonce sequence with
  | Err e => (Err e, c)
  | Ok nonce =>
      match aead_decrypt (recv_key (session_keys c)) nonce ciphertext associated_data with
      | None => (Err DecryptionError, c)
      | Some plaintext => (Ok plaintext, Channel (session_keys c) (send_sequence c) (expected_recv_sequence c + 1))
      end
  end.
End Channel.

(** ** Session keys *)

Section KdfFacts.
Context {H : Hkdf} {HL : HkdfLaws H}.

Lemma derive_ok s salt b :
  length s = 32%nat -> length salt = 32%nat ->
  derive_session_keys s salt b =
    Ok (let i := hkdf_expand s salt INFO_INIT_TO_RESP KEY_LEN in
        let r := hkdf_expand s salt INFO_RESP_TO_INIT KEY_LEN in
        let sid := hex_of_bytes (hkdf_expand s salt INFO_SESSION_ID SESSION_ID_LEN) in
        if b then MkSessionKeys i r sid else MkSessionKeys r i sid).
Proof. intros Hs Ht. unfold derive_session_keys, zlen. rewrite Hs, Ht. by destruct b. Qed.

(** The two ends of a channel hold mirrored keys. *)
Definition mirrored (a b : SessionKeys) : Prop :=
  send_key a = recv_key b /\ recv_key a = send_key b /\ session_id a = session_id b.

(** From the same 32-byte secret and transcript hash both roles always derive
    keys, mirrored (each one's sending key is the other's receiving key) with the
    same session id, of the length the channel requires, so that both channels
    open; any other input length is refused with [KDFError]. *)
Theorem session_keys_mirrored s salt :
  match derive_session_keys s salt true, derive_session_keys s salt false with
  | Ok ki, Ok kr =>
      length s = 32%nat /\ length salt = 32%nat /\ mirrored ki kr /\ zlen (session_id ki) = 32 /\
      new_channel ki = Ok (Channel ki 0 0) /\ new_channel kr = Ok (Channel kr 0 0)
  | Err e1, Err e2 => e1 = KDFError /\ e2 = KDFError /\ ~ (length s = 32%nat /\ length salt = 32%nat)
  | _, _ => False
  end.
Proof.
  destruct (decide (length s = 32%nat)) as [Hs|Hs].
  2: { unfold derive_session_keys, zlen. rewrite (proj2 (Z.eqb_neq (Z.of_nat (length s)) 32)) by lia. naive_solver. }
  destruct (decide (length salt = 32%nat)) as [Ht|Ht].
  2: { unfold derive_session_keys, zlen. rewrite Hs. cbn [negb Z.eqb]. change (Z.of_nat 32 =? 32) with true. cbn [negb].
       rewrite (proj2 (Z.eqb_neq (Z.of_nat (length salt)) 32)) by lia. naive_solver. }
  rewrite !derive_ok by done. cbn zeta iota.
  assert (forall info, zlen (hkdf_expand s salt info KEY_LEN) = 32) as Hk
    by (intros info; apply hkdf_length; unfold KEY_LEN; lia).
  split; [done|]. split; [done|]. split; [done|]. split.
  - cbn [session_id]. unfold zlen. rewrite hex_of_bytes_length. fold (zlen (hkdf_expand s salt INFO_SESSION_ID SESSION_ID_LEN)).
    pose proof (hkdf_length salt INFO_SESSION_ID SESSION_ID_LEN s ltac:(unfold SESSION_ID_LEN; lia)) as Hl.
    unfold zlen, SESSION_ID_LEN in Hl. unfold hkdf_expand, SESSION_ID_LEN. lia.
  - unfold new_channel. cbn [send_key recv_key]. by rewrite !Hk.
Qed.
End KdfFacts.

(** ** The channel *)

Lemma construct_nonce_ok n : 0 <= n < 2 ^ 96 -> construct_nonce n = Ok (be_encode 12 n).
Proof.
  intros Hn. unfold construct_nonce. change MAX_SEQUENCE with (2 ^ 96 - 1).
  rewrite (proj2 (Z.ltb_ge n 0)), (proj2 (Z.ltb_ge (2 ^ 96 - 1) n)) by lia. done.
Qed.
Lemma construct_nonce_inv n b : construct_nonce n = Ok b -> 0 <= n < 2 ^ 96 /\ b = be_encode 12 n.
Proof.
  unfold construct_nonce. change MAX_SEQUENCE with (2 ^ 96 - 1). intros Hn. case_in Hn; [done|].
  zbool. apply Ok_inj in Hn as <-. split; [lia | done].
Qed.

Section ChannelFacts.
Context {A : Aead} {AL : AeadLaws A}.

(** Sends a list of (plaintext, associated data), collecting the frames, and
    receives a list of frames; both stop at the first exception. *)
Fixpoint send_all (c : SecureChannel) (ms : list (bytes * bytes)) : result (list EncryptedFrame) * SecureChannel :=
  match ms with
  | [] => (Ok [], c)
  | (p, ad) :: ms =>
      match encrypt c p ad with
      | (Err e, c) => (Err e, c)
      | (Ok f, c) => let '(fs, c) := send_all c ms in (let* fs := fs in Ok (f :: fs), c)
      end
  end.
Fixpoint recv_all (c : SecureChannel) (fs : list (EncryptedFrame * bytes)) : result (list bytes) * SecureChannel :=
  match fs with
  | [] => (Ok [], c)
  | (f, ad) :: fs =>
      match decrypt c (ef_sequence f) (ef_ciphertext f) ad with
      | (Err e, c) => (Err e, c)
      | (Ok p, c) => let '(ps, c) := recv_all c fs in (let* ps := ps in Ok (p :: ps), c)
      end
  end.

Lemma encrypt_inv c p ad c' f :
  encrypt c p ad = (Ok f, c') ->
  0 <= send_sequence c < 2 ^ 96 /\ ef_sequence f = send_sequence c /\
  ef_ciphertext f = aead_encrypt (send_key (session_keys c)) (be_encode 12 (send_sequence c)) p ad /\
  c' = Channel (session_keys c) (send_sequence c + 1) (expected_recv_sequence c).
Proof.
  unfold encrypt. destruct (construct_nonce _) as [n|] eqn:Hn; [|done]. apply construct_nonce_inv in Hn as [Hn ->].
  by intros [= <- <-].
Qed.
Lemma send_all_inv c p ad ms c' fs :
  send_all c ((p, ad) :: ms) = (Ok fs, c') ->
  exists f fs' c1, fs = f :: fs' /\ encrypt c p ad = (Ok f, c1) /\ send_all c1 ms = (Ok fs', c').
Proof.
  cbn [send_all]. destruct (encrypt c p ad) as [[f|e] c1]; [|done]. destruct (send_all c1 ms) as [[fs'|e] c2] eqn:E2; [|done].
  intros [= <- <-]. by exists f, fs', c1.
Qed.

Lemma decrypt_encrypted c d p ad c' f :
  encrypt c p ad = (Ok f, c') -> recv_key (session_keys d) = send_key (session_keys c) ->
  expected_recv_sequence d = send_sequence c ->
  decrypt d (ef_sequence f) (ef_ciphertext f) ad
  = (Ok p, Channel (session_keys d) (send_sequence d) (expected_recv_sequence d + 1)).
Proof.
  intros E Hk Hs. apply encrypt_inv in E as (Hr & E1 & E2 & _). unfold decrypt.
  rewrite E1, E2, Hs, Z.eqb_refl, Hk, construct_nonce_ok by done. cbn [negb]. by rewrite aead_decrypt_encrypt.
Qed.

Lemma send_all_ok ms : forall c,
  0 <= send_sequence c -> send_sequence c + zlen ms <= 2 ^ 96 ->
  exists fs, send_all c ms = (Ok fs, Channel (session_keys c) (send_sequence c + zlen ms) (expected_recv_sequence c)).
Proof.
  induction ms as [|[p ad] ms IH]; intros c H0 Hm; cbn [send_all].
  - exists []. rewrite zlen_nil, Z.add_0_r. destruct c. done.
  - rewrite zlen_cons in Hm. pose proof (zlen_nonneg ms). unfold encrypt.
    rewrite construct_nonce_ok by lia.
    edestruct IH as (fs & E); [| |rewrite E]; cbn [send_sequence]; [lia..|]. cbn [rbind].
    eexists. cbn [session_keys send_sequence expected_recv_sequence]. rewrite zlen_cons.
    do 2 f_equal. lia.
Qed.

Lemma recv_all_sent ms : forall c d c' fs,
  send_all c ms = (Ok fs, c') -> recv_key (session_keys d) = send_key (session_keys c) ->
  expected_recv_sequence d = send_sequence c ->
  recv_all d (zip fs (map snd ms))
  = (Ok (map fst ms), Channel (session_keys d) (send_sequence d) (expected_recv_sequence d + zlen ms)).
Proof.
  induction ms as [|[p ad] ms IH]; intros c d c' fs E Hk Hs.
  - injection E as <- <-. cbn. destruct d. by rewrite Z.add_0_r.
  - apply send_all_inv in E as (f & fs' & c1 & -> & E1 & E2).
    cbn [map snd fst zip_with recv_all]. rewrite (decrypt_encrypted c d p ad c1 f) by done.
    apply encrypt_inv in E1 as (_ & _ & _ & ->).
    rewrite (IH _ (Channel (session_keys d) (send_sequence d) (expected_recv_sequence d + 1)) _ _ E2) by (cbn; congruence).
    cbn [rbind session_keys send_sequence expected_recv_sequence]. rewrite zlen_cons. do 2 f_equal. lia.
Qed.

(** C5: over an established channel any sequence of messages is delivered: with
    mirrored keys and counters at the same value, the sender encrypts them all
    (until its 2^96 sequence numbers are used up) and the receiver decrypts
    exactly the same messages in the same order. *)
Theorem channel_delivers_in_order c d ms :
  recv_key (session_keys d) = send_key (session_keys c) ->
  expected_recv_sequence d = send_sequence c -> 0 <= send_sequence c -> send_sequence c + zlen ms <= 2 ^ 96 ->
  exists c' fs d', send_all c ms = (Ok fs, c') /\
    recv_all d (zip fs (map snd ms)) = (Ok (map fst ms), d') /\
    send_sequence c' = send_sequence c + zlen ms /\ expected_recv_sequence d' = send_sequence c'.
Proof.
  intros Hk Hs H0 Hm. destruct (send_all_ok ms c H0 Hm) as (fs & E).
  do 3 eexists. split; [exact E|]. split; [by eapply recv_all_sent|]. cbn. split; [done|]. by rewrite Hs.
Qed.

(** The frame of a message is its encryption under [key] with the given nonce. *)
Definition encrypted_under (key : bytes) (m : bytes * bytes) (f : EncryptedFrame) (nonce : bytes) : Prop :=
  ef_ciphertext f = aead_encrypt key nonce (fst m) (snd m) /\ be_decode nonce = ef_sequence f /\ length nonce = 12%nat.

Lemma send_all_nonces ms : forall c c' fs, send_all c ms = (Ok fs, c') ->
  exists nonces, NoDup nonces /\ Forall3 (encrypted_under (send_key (session_keys c))) ms fs nonces /\
    Forall (fun n => send_sequence c <= be_decode n) nonces.
Proof.
  induction ms as [|[p ad] ms IH]; intros c c' fs E.
  - injection E as <- <-. exists []. split_and!; constructor.
  - apply send_all_inv in E as (f & fs' & c1 & -> & E1 & E2). apply encrypt_inv in E1 as (Hr & Ef & Ec & ->).
    destruct (IH _ _ _ E2) as (ns & Hn & H3 & Hge). cbn [session_keys send_sequence] in *.
    assert (be_decode (be_encode 12 (send_sequence c)) = send_sequence c) as Hd by (apply be_decode_encode_small; cbn; lia).
    exists (be_encode 12 (send_sequence c) :: ns). rewrite List.Forall_forall in Hge. split_and!.
    + apply list.NoDup_cons. split; [|done]. rewrite list_elem_of_In. intros Hin%Hge. lia.
    + constructor; [|done]. unfold encrypted_under. rewrite Ec, Ef, be_encode_length. done.
    + constructor; [lia|]. apply List.Forall_forall. intros n Hin%Hge. lia.
Qed.

(** C6: no (key, nonce) pair is ever given to the cipher twice by a sender. In any
    run of successful encryptions each frame's ciphertext is the encryption of its
    message under the channel's one sending key with a 12-byte nonce that encodes
    the frame's sequence number, and those nonces are pairwise distinct; and once
    the counter has passed 2^96 - 1 the channel refuses to encrypt, and stays as
    it is, instead of wrapping around. *)
Theorem channel_nonces_distinct c ms c' fs :
  send_all c ms = (Ok fs, c') ->
  (exists nonces, NoDup nonces /\ Forall3 (encrypted_under (send_key (session_keys c))) ms fs nonces) /\
  session_keys c' = session_keys c /\
  (2 ^ 96 <= send_sequence c' -> forall p ad, encrypt c' p ad = (Err SequenceExhaustedError, c')).
Proof.
  intros E. destruct (send_all_nonces ms c c' fs E) as (ns & Hn & H3 & _). split; [by exists ns|]. clear Hn H3 ns. split.
  - revert c fs E. induction ms as [|[p ad] ms IH]; intros c fs E; [by injection E as _ <-|].
    apply send_all_inv in E as (f & fs' & c1 & -> & E1 & E2). apply encrypt_inv in E1 as (_ & _ & _ & ->). by apply IH in E2.
  - intros Hmax p ad. unfold encrypt, construct_nonce. change MAX_SEQUENCE with (2 ^ 96 - 1).
    rewrite (proj2 (Z.ltb_lt (2 ^ 96 - 1) _)) by lia. by rewrite orb_true_r.
Qed.

(** C7: the receiver accepts a frame only with the next sequence number and a
    ciphertext that authenticates under that number, and then advances by
    exactly one; a replayed, skipped or forged frame is refused with the
    documented error and leaves the channel as it was, so the next genuine frame
    still decrypts to its message. *)
Theorem channel_accepts_only_next d sequence ct ad :
  match decrypt d sequence ct ad with
  | (Ok p, d') =>
      sequence = expected_recv_sequence d /\ expected_recv_sequence d' = expected_recv_sequence d + 1 /\
      session_keys d' = session_keys d /\ send_sequence d' = send_sequence d /\
      aead_decrypt (recv_key (session_keys d)) (be_encode 12 sequence) ct ad = Some p
  | (Err e, d') =>
      ((e = ReplayOrReorderError /\ sequence <> expected_recv_sequence d) \/
       (e = SequenceExhaustedError /\ ~ 0 <= sequence < 2 ^ 96) \/
       (e = DecryptionError /\ aead_decrypt (recv_key (session_keys d)) (be_encode 12 sequence) ct ad = None)) /\
      d' = d /\
      forall c c' f p ad', encrypt c p ad' = (Ok f, c') -> recv_key (session_keys d) = send_key (session_keys c) ->
        expected_recv_sequence d = send_sequence c -> fst (decrypt d' (ef_sequence f) (ef_ciphertext f) ad') = Ok p
  end.
Proof.
  assert (forall c c' f p ad', encrypt c p ad' = (Ok f, c') -> recv_key (session_keys d) = send_key (session_keys c) ->
    expected_recv_sequence d = send_sequence c -> fst (decrypt d (ef_sequence f) (ef_ciphertext f) ad') = Ok p) as Hnext.
  { intros c c' f p ad' E Hk Hs. by rewrite (decrypt_encrypted c d p ad' c' f E Hk Hs). }
  unfold decrypt at 1. destruct (Z.eqb_spec sequence (expected_recv_sequence d)) as [->|Hne]; cbn [negb]; [|split; [by left|done]].
  destruct (construct_nonce _) as [n|e] eqn:En.
  - apply construct_nonce_inv in En as [_ ->]. destruct (aead_decrypt _ _ _ _) as [p|] eqn:Ed; [cbn; split_and!; done|].
    split; [right; by right|done].
  - split; [|done]. right. left. unfold construct_nonce in En. case_in En; [|done]. split; [congruence|].
    change MAX_SEQUENCE with (2 ^ 96 - 1) in E. intros Hr.
    rewrite (proj2 (Z.ltb_ge _ 0)), (proj2 (Z.ltb_ge (2 ^ 96 - 1) _)) in E by lia. done.
Qed.
End ChannelFacts.

Definition demo_keys (b : bool) : SessionKeys :=
  let i := replicate 32 x01 in
  let r := replicate 32 x02 in
  if b then MkSessionKeys i r (py "sid") else MkSessionKeys r i (py "sid").

Lemma channel_delivers_in_order_witness :
  exists c' fs d', @send_all toy_aead (Channel (demo_keys true) 0 0) [(pyb "a", []); (pyb "bc", pyb "ad")] = (Ok fs, c') /\
    @recv_all toy_aead (Channel (demo_keys false) 0 0) (zip fs [[]; pyb "ad"]) = (Ok [pyb "a"; pyb "bc"], d') /\
    send_sequence c' = 2 /\ expected_recv_sequence d' = send_sequence c'.
Proof.
  apply (@channel_delivers_in_order toy_aead toy_aead_laws (Channel (demo_keys true) 0 0) (Channel (demo_keys false) 0 0)
           [(pyb "a", []); (pyb "bc", pyb "ad")]); vm_compute; first [reflexivity | discriminate].
Defined.

Lemma channel_nonces_distinct_witness :
  match @send_all toy_aead (Channel (demo_keys true) 5 0) [(pyb "a", []); (pyb "b", [])] with
  | (Ok fs, _) => exists nonces, NoDup nonces /\
      Forall3 (@encrypted_under toy_aead (send_key (demo_keys true))) [(pyb "a", []); (pyb "b", [])] fs nonces
  | (Err _, _) => False
  end.
Proof.
  destruct (@send_all toy_aead (Channel (demo_keys true) 5 0) [(pyb "a", []); (pyb "b", [])]) as [[fs|e] c] eqn:E.
  - apply (@channel_nonces_distinct toy_aead (Channel (demo_keys true) 5 0) [(pyb "a", []); (pyb "b", [])] c fs E).
  - apply (f_equal (fun r => is_ok (fst r))) in E. vm_compute in E. discriminate E.
Defined.

Lemma channel_accepts_only_next_witness :
  let d := Channel (demo_keys false) 0 3 in
  snd (@decrypt toy_aead d 2 (pyb "replayed") []) = d.
Proof.
  intros d. pose proof (@channel_accepts_only_next toy_aead toy_aead_laws d 2 (pyb "replayed") []) as H.
  destruct (@decrypt toy_aead d 2 (pyb "replayed") []) as [[p|e] d'].
  - destruct H as [H _]. discriminate H.
  - exact (proj1 (proj2 H)).
Defined.

Lemma session_keys_mirrored_witness :
  match @derive_session_keys toy_hkdf (replicate 32 x01) (replicate 32 x02) true,
        @derive_session_keys toy_hkdf (replicate 32 x01) (replicate 32 x02) false with
  | Ok ki, Ok kr => mirrored ki kr
  | _, _ => False
  end.
Proof.
  pose proof (@session_keys_mirrored toy_hkdf toy_hkdf_laws (replicate 32 x01) (replicate 32 x02)) as Hm.
  destruct (@derive_session_keys toy_hkdf (replicate 32 x01) (replicate 32 x02) true) as [ki|] eqn:E1;
    destruct (@derive_session_keys toy_hkdf (replicate 32 x01) (replicate 32 x02) false) as [kr|] eqn:E2;
    [exact (proj1 (proj2 (proj2 Hm))) | exact Hm | exact Hm |].
  apply (f_equal is_ok) in E1. vm_compute in E1. discriminate E1.
Defined.
