(* ===== verification/Handshake.v ===== *)
(** * core/crypto/handshake.py: the authenticated handshake

    The two roles are written in a state and error monad: the state holds the
    bytes still to be read from the peer, the bytes written to it, the nonce
    cache, the trust store and the emitted security events, and survives an
    exception. What the environment decides (fresh keys and nonces, clock reads,
    timeouts and failures of the socket) is a parameter record. *)

From stdpp Require Import base gmap strings list numbers option.
From Stdlib Require Import ZArith Lia Strings.Byte Floats.SpecFloat.
From S2P Require Import Prelude PyStr PyFloat Json JsonFacts Sha256 Frame Messages Base64 CryptoIface ToyCrypto SecurityEvents Identity TrustStore Channel.
Open Scope Z_scope.
Open Scope peerc_scope.

(** ** Nonce cache *)

Record NonceCache : Type := MkNonceCache {
  nc_ttl : pyfloat;
  nc_seen : gmap pystr pyfloat
}.
Definition new_nonce_cache (ttl : pyfloat) : NonceCache := MkNonceCache ttl ∅.

Definition check_and_add (now : pyfloat) (c : NonceCache) (nonce : pystr) : NonceCache * bool :=
  let seen := filter (fun kt => float_gt (float_sub now kt.2) (nc_ttl c) = false) (nc_seen c) in
  match seen !! nonce with
  | Some _ => (MkNonceCache (nc_ttl c) seen, false)
  | None => (MkNonceCache (nc_ttl c) (<[nonce := now]> seen), true)
  end.

(** ** Transcripts *)

Definition canonical_json_bytes (obj : dict) : result bytes := utf8_encode (dumps_canonical (JObj obj)).

Definition TRANSCRIPT_FIELDS : list pystr :=
  [py "type"; py "device_id"; py "public_key"; py "ephemeral_key"; py "nonce"; py "sender_name"].

(** The dict of the transcript fields of a message. *)
Fixpoint pick_fields (fs : list pystr) (msg : dict) : result dict :=
  match fs with
  | [] => Ok []
  | f :: fs => let* v := dict_item f msg in let* r := pick_fields fs msg in Ok ((f, v) :: r)
  end.

Definition compute_responder_transcript (init_msg resp_msg_without_sig : dict) : result bytes :=
  let* i := pick_fields TRANSCRIPT_FIELDS init_msg in
  let* init_bytes := canonical_json_bytes i in
  let* r := pick_fields TRANSCRIPT_FIELDS resp_msg_without_sig in
  let* resp_bytes := canonical_json_bytes r in
  Ok (pyb "peerc-v2-handshake-responder" ++ [x0a] ++ init_bytes ++ [x0a] ++ resp_bytes).

Definition compute_initiator_transcript (responder_transcript : bytes) (responder_signature_hex : pystr) : result bytes :=
  let* s := ascii_encode responder_signature_hex in
  Ok (pyb "peerc-v2-handshake-initiator" ++ [x0a] ++ responder_transcript ++ [x0a] ++ s).

Definition compute_final_transcript_hash (initiator_transcript : bytes) (initiator_signature_hex : pystr) : result bytes :=
  let* s := ascii_encode initiator_signature_hex in
  Ok (sha256 (initiator_transcript ++ [x0a] ++ s)).

(** ** The monad *)

Record hs_state : Type := HsState {
  hs_reader : bytes;
  hs_written : bytes;
  hs_cache : NonceCache;
  hs_store : option TrustStore;
  hs_events : list SecurityEvent
}.

Definition M (A : Type) : Type := hs_state -> result A * hs_state.
Definition mret {A} (a : A) : M A := fun s => (Ok a, s).
Definition mraise {A} (e : exn) : M A := fun s => (Err e, s).
Definition mlift {A} (r : result A) : M A := fun s => (r, s).
Definition mbind {A B} (m : M A) (f : A -> M B) : M B :=
  fun s => match m s with
           | (Ok a, s) => f a s
           | (Err e, s) => (Err e, s)
           end.
Notation "x <-- m ;; k" := (mbind m (fun x => k)) (at level 100, m at next level, right associativity) : peerc_scope.
Definition emit_event (e : SecurityEvent) : M unit :=
  fun s => (Ok tt, HsState (hs_reader s) (hs_written s) (hs_cache s) (hs_store s) (hs_events s ++ [e])).
(** [try: r except: raise e'] for every exception of [r]. *)
Definition wrap_exn {A} (r : result A) (e' : exn) : result A := match r with Ok a => Ok a | Err _ => Err e' end.

(** ** The environment of one run *)

Record hs_env `{Ed25519} `{X25519} : Type := HsEnv {
  my_identity : DeviceKeypair;
  my_name : pystr;
  my_ephemeral : x_priv;          (* generate_ephemeral_keypair() *)
  my_nonce_bytes : bytes;         (* the bytes behind secrets.token_hex(NONCE_BYTES) *)
  clock : nat -> pyfloat;         (* successive reads of time.time() *)
  timed_out : nat -> bool;        (* whether the n-th wait_for times out *)
  drain_error : nat -> option exn (* the exception of the n-th writer.drain(), if any *)
}.

Record HandshakeResult : Type := MkHandshakeResult {
  peer_device_id : pystr;
  peer_public_key : pystr;
  peer_name : pystr;
  shared_secret : bytes;
  transcript_hash : bytes;
  trust_decision : TrustDecision
}.
Definition result_session_keys `{Hkdf} (r : HandshakeResult) (is_initiator : bool) : result SessionKeys :=
  derive_session_keys (shared_secret r) (transcript_hash r) is_initiator.

Section Handshake.
Context `{Ed25519} `{X25519}.
(** [str(e)] of an exception and [repr(s)] of a string, quoted in event texts. *)
Variable exn_text : exn -> pystr.
Variable py_repr : pystr -> pystr.

(** *** Steps shared by both roles *)

Definition check_nonce (now : pyfloat) (nonce : pystr) : M bool :=
  fun s => let '(c, fresh) := check_and_add now (hs_cache s) nonce in
           (Ok fresh, HsState (hs_reader s) (hs_written s) c (hs_store s) (hs_events s)).

Definition send_frame (message : dict) (drain : option exn) : M unit :=
  fun s => match write_frame (hs_written s) (JObj message) with
           | Ok w => (match drain with None => Ok tt | Some e => Err e end,
                      HsState (hs_reader s) w (hs_cache s) (hs_store s) (hs_events s))
           | Err e => (Err e, s)
           end.

(** [await asyncio.wait_for(read_frame(reader), timeout)] with its handlers. *)
Definition receive_frame (timeout : bool) : M json :=
  fun s => if timeout then (Err HandshakeTimeoutError, s) else
           match read_frame (hs_reader s) with
           | Ok (m, rest) => (Ok m, HsState rest (hs_written s) (hs_cache s) (hs_store s) (hs_events s))
           | Err _ => (Err HandshakeProtocolError, s)
           end.

(** Receives, validates and checks the type of the next message. *)
Definition receive_message (timeout : bool) (expected : pystr) : M dict :=
  m <-- receive_frame timeout ;;
  v <-- mlift (rcatch (validate_message m)
                 (fun e => match e with ProtocolError => Some (Err HandshakeProtocolError) | _ => None end)) ;;
  match v with
  | JObj d => match dict_get (py "type") d with
              | Some (JStr t) => if streq t expected then mret d else mraise HandshakeProtocolError
              | _ => mraise HandshakeProtocolError
              end
  | _ => mraise TypeError
  end.

(** [msg[f]], a string after validation. *)
Definition str_item (f : pystr) (d : dict) : M pystr :=
  v <-- mlift (dict_item f d) ;;
  match v with
  | JStr s => mret s
  | _ => mraise TypeError
  end.

Definition verify_device_identity (now : pyfloat) (device_id public_key_hex : pystr) : M bytes :=
  pub_bytes <-- mlift (rcatch (fromhex public_key_hex)
                         (fun e => match e with ValueError => Some (Err IdentityVerificationError) | _ => None end)) ;;
  let expected_id := compute_device_id pub_bytes in
  if negb (streq expected_id device_id) then
    _ <-- emit_event (new_event AUTH_FAILED WARNING
            (py "device_id mismatch: claimed " ++ py_repr device_id ++ py ", computed " ++ py_repr expected_id
             ++ py " from public key") (Some device_id) now []) ;;
    mraise IdentityVerificationError
  else mret pub_bytes.

Definition set_store (st : option TrustStore) : M unit :=
  fun s => (Ok tt, HsState (hs_reader s) (hs_written s) (hs_cache s) st (hs_events s)).
Definition get_store : M (option TrustStore) := fun s => (Ok (hs_store s), s).
Fixpoint emit_events (es : list SecurityEvent) : M unit :=
  match es with
  | [] => mret tt
  | e :: es => _ <-- emit_event e ;; emit_events es
  end.

Definition check_and_update_trust (now : pyfloat) (device_id public_key_hex peer_name : pystr) : M TrustDecision :=
  store <-- get_store ;;
  match store with
  | None => mret D_UNKNOWN
  | Some trust_store =>
      let '(decision, evs) := check now trust_store device_id public_key_hex in
      _ <-- emit_events evs ;;
      match decision with
      | D_REVOKED => mraise DeviceRevokedError
      | D_KEY_CHANGED => mraise KeyChangedError
      | D_UNKNOWN =>
          p <-- mlift (record_first_seen now trust_store device_id public_key_hex peer_name) ;;
          _ <-- set_store (Some (fst p)) ;;
          mret D_PENDING
      | D_PENDING | D_TRUSTED =>
          _ <-- set_store (Some (touch_last_seen now trust_store device_id)) ;;
          mret decision
      end
  end.

(** The [try] around [bytes.fromhex] and [verify], for the role named [who]. *)
Definition verify_signature (now : pyfloat) (who : pystr) (claimed : pystr) (pub : bytes) (sig_hex : pystr)
    (transcript : bytes) : M unit :=
  let body := let* sig_bytes := fromhex sig_hex in
              if ed_verify pub sig_bytes transcript then Ok tt else Err InvalidSignature in
  match body with
  | Ok _ => mret tt
  | Err e =>
      match e with
      | ValueError | InvalidSignature =>
          _ <-- emit_event (new_event AUTH_FAILED WARNING
                  (py "invalid " ++ who ++ py " signature in handshake: " ++ exn_text e) (Some claimed) now []) ;;
          mraise SignatureVerificationError
      | _ => mraise e
      end
  end.

Definition replay_event (now : pyfloat) (who claimed : pystr) : SecurityEvent :=
  new_event REPLAY_DETECTED HIGH (py "replayed " ++ who ++ py " nonce detected in handshake") (Some claimed) now [].

Definition my_pub_hex (env : hs_env) : pystr := hex_of_bytes (public_key_bytes (my_identity env)).
Definition my_nonce (env : hs_env) : pystr := hex_of_bytes (my_nonce_bytes env).

(** The handshake_init the initiator sends. *)
Definition init_message (env : hs_env) : dict :=
  make_handshake_init (clock env 0) (kp_device_id (my_identity env)) (my_pub_hex env)
    (ephemeral_public_hex (my_ephemeral env)) (my_nonce env) (my_name env).

(** *** Initiator *)

Definition perform_handshake_initiator (env : hs_env) : M HandshakeResult :=
  let init_msg := init_message env in
  _ <-- send_frame init_msg (drain_error env 0) ;;
  resp_msg <-- receive_message (timed_out env 0) (py "handshake_response") ;;
  resp_nonce <-- str_item (py "nonce") resp_msg ;;
  fresh <-- check_nonce (clock env 1) resp_nonce ;;
  device_id <-- str_item (py "device_id") resp_msg ;;
  if negb fresh then
    _ <-- emit_event (replay_event (clock env 2) (py "responder") device_id) ;;
    mraise HandshakeProtocolError
  else
  public_key <-- str_item (py "public_key") resp_msg ;;
  peer_pub_bytes <-- verify_device_identity (clock env 2) device_id public_key ;;
  sender_name <-- str_item (py "sender_name") resp_msg ;;
  decision <-- check_and_update_trust (clock env 3) device_id public_key sender_name ;;
  resp_transcript <-- mlift (compute_responder_transcript init_msg resp_msg) ;;
  responder_pub <-- mlift (public_key_from_bytes peer_pub_bytes) ;;
  signature <-- str_item (py "signature") resp_msg ;;
  _ <-- verify_signature (clock env 4) (py "responder") device_id responder_pub signature resp_transcript ;;
  init_transcript <-- mlift (compute_initiator_transcript resp_transcript signature) ;;
  let my_signature := hex_of_bytes (kp_sign (my_identity env) init_transcript) in
  _ <-- send_frame (make_handshake_finish (clock env 5) my_signature) (drain_error env 1) ;;
  ephemeral_key <-- str_item (py "ephemeral_key") resp_msg ;;
  peer_ephemeral_pub <-- mlift (rcatch (ephemeral_public_from_hex ephemeral_key)
                            (fun e => match e with ValueError => Some (Err HandshakeProtocolError) | _ => None end)) ;;
  secret <-- mlift (compute_shared_secret (my_ephemeral env) peer_ephemeral_pub) ;;
  hash <-- mlift (compute_final_transcript_hash init_transcript my_signature) ;;
  mret (MkHandshakeResult device_id public_key sender_name secret hash decision).

(** *** Responder *)

(** The unsigned handshake_response, whose fields the responder signs. *)
Definition resp_msg_no_sig (env : hs_env) : dict :=
  [(py "type", JStr (py "handshake_response"));
   (py "device_id", JStr (kp_device_id (my_identity env)));
   (py "public_key", JStr (my_pub_hex env));
   (py "ephemeral_key", JStr (ephemeral_public_hex (my_ephemeral env)));
   (py "nonce", JStr (my_nonce env));
   (py "sender_name", JStr (my_name env))].

Definition perform_handshake_responder (env : hs_env) : M HandshakeResult :=
  init_msg <-- receive_message (timed_out env 0) (py "handshake_init") ;;
  init_nonce <-- str_item (py "nonce") init_msg ;;
  fresh <-- check_nonce (clock env 1) init_nonce ;;
  device_id <-- str_item (py "device_id") init_msg ;;
  if negb fresh then
    _ <-- emit_event (replay_event (clock env 2) (py "initiator") device_id) ;;
    mraise HandshakeProtocolError
  else
  public_key <-- str_item (py "public_key") init_msg ;;
  peer_pub_bytes <-- verify_device_identity (clock env 2) device_id public_key ;;
  sender_name <-- str_item (py "sender_name") init_msg ;;
  decision <-- check_and_update_trust (clock env 3) device_id public_key sender_name ;;
  resp_transcript <-- mlift (compute_responder_transcript init_msg (resp_msg_no_sig env)) ;;
  let my_signature := hex_of_bytes (kp_sign (my_identity env) resp_transcript) in
  _ <-- send_frame (make_handshake_response (clock env 4) (kp_device_id (my_identity env)) (my_pub_hex env)
          (ephemeral_public_hex (my_ephemeral env)) (my_nonce env) (my_name env) my_signature)
          (drain_error env 0) ;;
  finish_msg <-- receive_message (timed_out env 1) (py "handshake_finish") ;;
  init_transcript <-- mlift (compute_initiator_transcript resp_transcript my_signature) ;;
  initiator_pub <-- mlift (public_key_from_bytes peer_pub_bytes) ;;
  signature <-- str_item (py "signature") finish_msg ;;
  _ <-- verify_signature (clock env 5) (py "initiator") device_id initiator_pub signature init_transcript ;;
  ephemeral_key <-- str_item (py "ephemeral_key") init_msg ;;
  peer_ephemeral_pub <-- mlift (rcatch (ephemeral_public_from_hex ephemeral_key)
                            (fun e => match e with ValueError => Some (Err HandshakeProtocolError) | _ => None end)) ;;
  secret <-- mlift (compute_shared_secret (my_ephemeral env) peer_ephemeral_pub) ;;
  hash <-- mlift (compute_final_transcript_hash init_transcript signature) ;;
  mret (MkHandshakeResult device_id public_key sender_name secret hash decision).
End Handshake.
