(* ===== verification/HandshakeFacts.v ===== *)
(** * Properties of the handshake

    Replay protection, what a completed handshake proves about the peer, the
    binding of transcripts to messages, agreement of two honest parties, and
    the effect of an unauthenticated handshake_init on the trust store. *)

From stdpp Require Import base gmap strings list numbers option.
From Stdlib Require Import ZArith Lia Strings.Byte Floats.SpecFloat.
From S2P Require Import Prelude PyStr PyFloat Json JsonFacts Sha256 Frame Messages Base64 CryptoIface ToyCrypto SecurityEvents Identity TrustStore Channel Handshake.
Open Scope Z_scope.
Open Scope peerc_scope.

(** ** Replay protection *)

(** A nonce recorded at time [t] is still inside the window at time [now]. *)
Definition in_window (ttl t now : pyfloat) : Prop := float_gt (float_sub now t) ttl = false.

Fixpoint cache_run (c : NonceCache) (calls : list (pyfloat * pystr)) : NonceCache :=
  match calls with
  | [] => c
  | (now, n) :: calls => cache_run (fst (check_and_add now c n)) calls
  end.

Lemma check_and_add_ttl now c n : nc_ttl (fst (check_and_add now c n)) = nc_ttl c.
Proof. unfold check_and_add. by case_match. Qed.

Lemma check_and_add_keeps now c m n t :
  nc_seen c !! n = Some t -> in_window (nc_ttl c) t now ->
  nc_seen (fst (check_and_add now c m)) !! n = Some t.
Proof.
  intros Hn Hw. unfold check_and_add.
  set (P := fun kt : pystr * pyfloat => float_gt (float_sub now kt.2) (nc_ttl c) = false).
  assert (filter P (nc_seen c) !! n = Some t) as Hf by (by apply map_lookup_filter_Some).
  destruct (filter P (nc_seen c) !! m) as [x|] eqn:Em; cbn [fst nc_seen]; [done|].
  rewrite lookup_insert_ne by congruence. done.
Qed.

Lemma cache_run_keeps calls n t : forall c,
  nc_seen c !! n = Some t -> Forall (fun p => in_window (nc_ttl c) t p.1) calls ->
  nc_seen (cache_run c calls) !! n = Some t /\ nc_ttl (cache_run c calls) = nc_ttl c.
Proof.
  induction calls as [|[now m] calls IH]; intros c Hn Hw; cbn [cache_run]; [done|].
  inversion_clear Hw as [|? ? H1 H2]. cbn [fst] in H1.
  pose proof (check_and_add_ttl now c m) as Ht.
  destruct (IH (fst (check_and_add now c m))) as [E1 E2].
  - by apply check_and_add_keeps.
  - by rewrite Ht.
  - split; [done|]. congruence.
Qed.

(** C4: a nonce accepted once is refused every later time inside the expiry
    window, whatever other nonces are checked in between; so no handshake message
    can be replayed within the window (300 s by default). *)
Theorem nonce_replay_rejected t c n c' calls now :
  check_and_add t c n = (c', true) ->
  Forall (fun p => in_window (nc_ttl c) t p.1) calls -> in_window (nc_ttl c) t now ->
  snd (check_and_add now (cache_run c' calls) n) = false.
Proof.
  intros E Hw Hn. unfold check_and_add in E. case_in E; [done|]. injection E as <-.
  destruct (cache_run_keeps calls n t (MkNonceCache (nc_ttl c) (<[n:=t]> (filter (fun kt : pystr * pyfloat => float_gt (float_sub t kt.2) (nc_ttl c) = false) (nc_seen c)))))
    as [E1 E2].
  - cbn [nc_seen]. apply lookup_insert_eq.
  - done.
  - unfold check_and_add. cbn [nc_ttl] in E2. rewrite E2.
    assert (filter (fun kt : pystr * pyfloat => float_gt (float_sub now kt.2) (nc_ttl c) = false)
              (nc_seen (cache_run (MkNonceCache (nc_ttl c) (<[n:=t]> (filter (fun kt : pystr * pyfloat => float_gt (float_sub t kt.2) (nc_ttl c) = false) (nc_seen c)))) calls)) !! n
            = Some t) as -> by (by apply map_lookup_filter_Some).
    done.
Qed.

Lemma nonce_replay_rejected_witness :
  let c := new_nonce_cache (float_of_int 300) in
  snd (check_and_add (float_of_int 1290)
         (cache_run (fst (check_and_add (float_of_int 1000) c (py "n"))) [(float_of_int 1200, py "m")]) (py "n")) = false.
Proof.
  intros c.
  apply (nonce_replay_rejected (float_of_int 1000) c (py "n") (fst (check_and_add (float_of_int 1000) c (py "n")))
           [(float_of_int 1200, py "m")] (float_of_int 1290)).
  - vm_compute. reflexivity.
  - constructor; [vm_compute; reflexivity | constructor].
  - vm_compute. reflexivity.
Defined.

(** ** Transcripts bind the messages *)

(** Text without newline; canonical JSON has none. *)
Lemma split_newline (a b c d : bytes) :
  x0a ∉ a -> x0a ∉ c -> a ++ [x0a] ++ b = c ++ [x0a] ++ d -> a = c /\ b = d.
Proof.
  revert c. induction a as [|x a IH]; intros [|y c] Ha Hc E; cbn in E.
  - by injection E as ->.
  - injection E as <- _. exfalso. apply Hc, elem_of_cons. by left.
  - injection E as -> _. exfalso. apply Ha, elem_of_cons. by left.
  - injection E as -> E. apply not_elem_of_cons in Ha as [_ Ha]. apply not_elem_of_cons in Hc as [_ Hc].
    destruct (IH c Ha Hc E) as [-> ->]. done.
Qed.

Lemma canonical_bytes obj :
  json_ok (JObj obj) = true ->
  canonical_json_bytes obj = Ok (map z2b (dumps_canonical (JObj obj))) /\
  x0a ∉ map z2b (dumps_canonical (JObj obj)).
Proof.
  intros Hj. pose proof (dumps_canonical_printable _ Hj) as Hp. unfold canonical_json_bytes.
  rewrite utf8_encode_ascii by by apply printable_ascii. split; [done|].
  rewrite list_elem_of_In, in_map_iff. intros (c & Ec & Hc). unfold printable_str in Hp.
  rewrite List.Forall_forall in Hp. specialize (Hp c Hc). unfold printable in Hp. zbool.
  apply (f_equal b2z) in Ec. rewrite b2z_z2b_small in Ec by lia. change (b2z x0a) with 10 in Ec. lia.
Qed.

Lemma canonical_bytes_inj a b :
  json_ok (JObj a) = true -> json_ok (JObj b) = true ->
  map z2b (dumps_canonical (JObj a)) = map z2b (dumps_canonical (JObj b)) -> sort_items (map (fun kv => (kv.1, sort_keys kv.2)) a) = sort_items (map (fun kv => (kv.1, sort_keys kv.2)) b).
Proof.
  intros Ha Hb E. apply map_z2b_inj in E; [|apply printable_ascii; by apply dumps_canonical_printable..].
  apply dumps_canonical_inj in E; [|done..]. cbn [sort_keys] in E. by injection E.
Qed.

(** The transcript fields of a message, when they are all strings. *)
Record hs_fields : Type := HsFields {
  f_type : pystr; f_device_id : pystr; f_public_key : pystr; f_ephemeral_key : pystr; f_nonce : pystr;
  f_sender_name : pystr
}.
Definition fields_dict (f : hs_fields) : dict :=
  [(py "type", JStr (f_type f)); (py "device_id", JStr (f_device_id f)); (py "public_key", JStr (f_public_key f));
   (py "ephemeral_key", JStr (f_ephemeral_key f)); (py "nonce", JStr (f_nonce f));
   (py "sender_name", JStr (f_sender_name f))].
Definition fields_ok (f : hs_fields) : bool :=
  sok [f_type f; f_device_id f; f_public_key f; f_ephemeral_key f; f_nonce f; f_sender_name f].

Lemma fields_json_ok f : fields_ok f = true -> json_ok (JObj (fields_dict f)) = true.
Proof.
  unfold fields_ok. cbn [sok forallb]. intros Hf. zbool. cbn [json_ok]. apply andb_true_intro.
  split; [reflexivity|]. unfold fields_dict. cbn [forallb fst snd]. json_ok_split.
Qed.

Lemma sort_fields f :
  sort_items (map (fun kv => (kv.1, sort_keys kv.2)) (fields_dict f)) =
  [(py "device_id", JStr (f_device_id f)); (py "ephemeral_key", JStr (f_ephemeral_key f));
   (py "nonce", JStr (f_nonce f)); (py "public_key", JStr (f_public_key f));
   (py "sender_name", JStr (f_sender_name f)); (py "type", JStr (f_type f))].
Proof. reflexivity. Qed.

Lemma fields_dict_inj f g :
  fields_ok f = true -> fields_ok g = true ->
  map z2b (dumps_canonical (JObj (fields_dict f))) = map z2b (dumps_canonical (JObj (fields_dict g))) -> f = g.
Proof.
  intros Hf Hg E. apply canonical_bytes_inj in E; [|by apply fields_json_ok..].
  rewrite !sort_fields in E. injection E as E1 E2 E3 E4 E5 E6. destruct f, g. cbn in *. congruence.
Qed.

(** The signed bytes, as functions of the fields. *)
Definition responder_transcript (i r : hs_fields) : bytes :=
  pyb "peerc-v2-handshake-responder" ++ [x0a] ++ map z2b (dumps_canonical (JObj (fields_dict i))) ++ [x0a]
  ++ map z2b (dumps_canonical (JObj (fields_dict r))).

Lemma responder_transcript_spec m1 m2 i r :
  pick_fields TRANSCRIPT_FIELDS m1 = Ok (fields_dict i) -> pick_fields TRANSCRIPT_FIELDS m2 = Ok (fields_dict r) ->
  fields_ok i = true -> fields_ok r = true ->
  compute_responder_transcript m1 m2 = Ok (responder_transcript i r).
Proof.
  intros H1 H2 Hi Hr. unfold compute_responder_transcript. rewrite H1, H2. cbn [rbind].
  rewrite (proj1 (canonical_bytes (fields_dict i) (fields_json_ok i Hi))). cbn [rbind].
  rewrite (proj1 (canonical_bytes (fields_dict r) (fields_json_ok r Hr))). done.
Qed.

(** The bytes both parties sign determine the conversation: equal initiator
    transcripts come from the same handshake_init fields, the same
    handshake_response fields (types, device ids, keys, ephemeral keys, nonces
    and names of both sides) and the same responder signature text; and the
    responder's and initiator's signed texts are never equal, so a signature of
    one role cannot be used in the other. *)
Theorem transcripts_bind_messages i r i' r' sig sig' t :
  fields_ok i = true -> fields_ok r = true -> fields_ok i' = true -> fields_ok r' = true ->
  compute_initiator_transcript (responder_transcript i r) sig = Ok t ->
  (compute_initiator_transcript (responder_transcript i' r') sig' = Ok t -> i = i' /\ r = r' /\ sig = sig') /\
  t <> responder_transcript i' r'.
Proof.
  intros Hi Hr Hi' Hr' E. unfold compute_initiator_transcript in E. apply rbind_ok in E as (b & Eb & E).
  apply Ok_inj in E as <-. split.
  - unfold compute_initiator_transcript. intros E'. apply rbind_ok in E' as (b' & Eb' & E').
    apply Ok_inj, app_inv_head, app_inv_head in E'. unfold responder_transcript in E'.
    rewrite <- !app_assoc in E'. apply app_inv_head, app_inv_head in E'.
    destruct (canonical_bytes _ (fields_json_ok i Hi)) as [_ N1], (canonical_bytes _ (fields_json_ok i' Hi')) as [_ N2],
      (canonical_bytes _ (fields_json_ok r Hr)) as [_ N3], (canonical_bytes _ (fields_json_ok r' Hr')) as [_ N4].
    apply split_newline in E' as [E1 E']; [|done..]. apply split_newline in E' as [E2 E3]; [|done..].
    apply fields_dict_inj in E1, E2; [|done..]. subst. split; [done|]. split; [done|].
    unfold ascii_encode in Eb, Eb'. destruct (forallb is_ascii sig) eqn:A1; [|done]. destruct (forallb is_ascii sig') eqn:A2; [|done].
    assert (map z2b sig = map z2b sig') as E by congruence. apply map_z2b_inj in E; [done|..];
      apply List.Forall_forall; by apply forallb_forall.
  - unfold responder_transcript. intros E'.
    assert (take 28 (pyb "peerc-v2-handshake-initiator") = take 28 (pyb "peerc-v2-handshake-responder")) as C; [|done].
    apply (f_equal (take 28)) in E'. by rewrite !take_app_le in E' by done.
Qed.

Lemma transcripts_bind_messages_witness :
  let i := HsFields (py "handshake_init") (py "a") (py "b") (py "c") (py "d") (py "e") in
  let r := HsFields (py "handshake_response") (py "f") (py "g") (py "h") (py "i") (py "j") in
  match compute_initiator_transcript (responder_transcript i r) (py "00ff") with
  | Ok t => t <> responder_transcript i r
  | Err _ => False
  end.
Proof.
  intros i r. destruct (compute_initiator_transcript (responder_transcript i r) (py "00ff")) as [t|e] eqn:E.
  - apply (transcripts_bind_messages i r i r (py "00ff") (py "00ff") t); [reflexivity..|exact E].
  - vm_compute in E. discriminate E.
Defined.

(** ** What a completed handshake proves *)

Lemma mbind_ok {A B} (m : M A) (f : A -> M B) s b s' :
  mbind m f s = (Ok b, s') -> exists a s1, m s = (Ok a, s1) /\ f a s1 = (Ok b, s').
Proof. unfold mbind. destruct (m s) as [[a|e] s1]; [eauto | done]. Qed.
Lemma mlift_ok {A} (r : result A) s a s' : mlift r s = (Ok a, s') -> r = Ok a /\ s' = s.
Proof. by intros [= -> ->]. Qed.
Lemma mret_ok {A} (a : A) s b s' : mret a s = (Ok b, s') -> b = a /\ s' = s.
Proof. by intros [= -> ->]. Qed.

Ltac mstep H a s Ha := apply mbind_ok in H as (a & s & Ha & H).

Lemma str_item_ok f d s v s' : str_item f d s = (Ok v, s') -> dict_get f d = Some (JStr v) /\ s' = s.
Proof.
  unfold str_item. intros E. mstep E j s1 Hj. apply mlift_ok in Hj as [Hj ->]. unfold dict_item in Hj.
  case_in Hj; [|done]. apply Ok_inj in Hj as ->. destruct j; try done. apply mret_ok in E as [-> ->]. done.
Qed.

Section Authentication.
Context {Ed : Ed25519} {EdL : Ed25519Laws Ed} `{X25519}.
Variable exn_text : exn -> pystr.
Variable py_repr : pystr -> pystr.

Lemma verify_device_identity_ok now did pk s pub s' :
  verify_device_identity py_repr now did pk s = (Ok pub, s') ->
  fromhex pk = Ok pub /\ did = compute_device_id pub /\ s' = s.
Proof.
  unfold verify_device_identity. intros E. mstep E b s1 Hb. apply mlift_ok in Hb as [Hb ->].
  destruct (fromhex pk) as [b'|e] eqn:Ef; cbn [rcatch] in Hb; [|by destruct e].
  apply Ok_inj in Hb as ->. destruct (streq (compute_device_id b) did) eqn:Es; cbn [negb] in E.
  - apply streq_spec in Es. apply mret_ok in E as [-> ->]. done.
  - by apply mbind_ok in E as (? & ? & _ & ?).
Qed.

Lemma verify_signature_ok now who did pub sig t s s' :
  verify_signature exn_text now who did pub sig t s = (Ok tt, s') ->
  s' = s /\ exists b, fromhex sig = Ok b /\ ed_verify pub b t = true.
Proof.
  unfold verify_signature. intros E. destruct (fromhex sig) as [b|e] eqn:Ef; cbn [rbind] in E.
  - destruct (ed_verify pub b t) eqn:Ev; [|by apply mbind_ok in E as (? & ? & _ & ?)].
    apply mret_ok in E as [_ ->]. split; [done|]. eauto.
  - by destruct e.
Qed.

Lemma emit_events_ok es : forall s, exists s',
  emit_events es s = (Ok tt, s') /\ hs_store s' = hs_store s /\ hs_reader s' = hs_reader s /\
  hs_written s' = hs_written s /\ hs_cache s' = hs_cache s.
Proof.
  induction es as [|e es IH]; intros s; cbn [emit_events]; [by exists s|].
  unfold mbind. cbn [emit_event]. destruct (IH (HsState (hs_reader s) (hs_written s) (hs_cache s) (hs_store s) (hs_events s ++ [e])))
    as (s' & -> & H1 & H2 & H3 & H4). by exists s'.
Qed.

(** The store did not reject the peer. *)
Definition not_rejected (store : option TrustStore) (did pk : pystr) : Prop :=
  match store with
  | None => True
  | Some st => is_revoked st did = false /\ forall x, get st did = Some x -> td_public_key x = pk
  end.

Lemma check_and_update_trust_ok now did pk name s dec s' :
  check_and_update_trust now did pk name s = (Ok dec, s') ->
  not_rejected (hs_store s) did pk /\ dec <> D_REVOKED /\ dec <> D_KEY_CHANGED /\
  hs_reader s' = hs_reader s /\ hs_written s' = hs_written s.
Proof.
  unfold check_and_update_trust, get_store, mbind at 1. destruct (hs_store s) as [st|].
  2: { intros [-> ->]%mret_ok. done. }
  pose proof (check_fst now st did pk) as Hc. destruct (check now st did pk) as [d evs]. cbn [fst] in Hc.
  intros E. destruct (emit_events_ok evs s) as (s1 & Es & H1 & H2 & H3 & _). unfold mbind at 1 in E.
  rewrite Es in E. unfold not_rejected, is_revoked.
  destruct (get st did) as [x|] eqn:Ex.
  - destruct (streq (td_public_key x) pk) eqn:Ek; [|subst d; done]. apply streq_spec in Ek.
    destruct (td_status x) eqn:Et; subst d; try done; cbn in E; injection E as <- <-; cbn;
      (split; [split; [done|]; intros y [= <-]; done | done]).
  - subst d. unfold mbind at 1, mlift in E. destruct (record_first_seen _ _ _ _ _) as [p|e]; [|done].
    cbn in E. injection E as <- <-. cbn. split; [split; [done|]; intros y [=] | done].
Qed.

Lemma receive_message_ok t expected s m s' :
  receive_message t expected s = (Ok m, s') ->
  t = false /\ validate_message (JObj m) = Ok (JObj m) /\ dict_get (py "type") m = Some (JStr expected) /\
  read_frame (hs_reader s) = Ok (JObj m, hs_reader s') /\ hs_written s' = hs_written s /\
  hs_store s' = hs_store s /\ hs_cache s' = hs_cache s.
Proof.
  unfold receive_message. intros E. mstep E j s1 Hj. unfold receive_frame in Hj. destruct t; [done|].
  destruct (read_frame (hs_reader s)) as [[m0 rest]|] eqn:Er; [|done]. injection Hj as <- <-.
  mstep E v s2 Hv. apply mlift_ok in Hv as [Hv ->].
  assert (validate_message m0 = Ok v) as Hv'.
  { destruct (validate_message m0) as [w|e]; cbn [rcatch] in Hv; [done|]. by destruct e. }
  assert (v = m0) as ->.
  { clear -Hv'. unfold validate_message in Hv'. destruct m0; try done.
    repeat (case_in Hv'; try done). apply rbind_ok in Hv' as (? & _ & ?). congruence. }
  destruct m0 as [| | | | | |d]; try done. destruct (dict_get (py "type") d) as [[| | | |ty| |]|] eqn:Et; try done.
  destruct (streq ty expected) eqn:Es; [|done]. apply streq_spec in Es as ->. apply mret_ok in E as [<- ->].
  cbn. auto 10.
Qed.

Lemma send_frame_same m drain s u s' : send_frame m drain s = (Ok u, s') ->
  hs_reader s' = hs_reader s /\ hs_store s' = hs_store s.
Proof. unfold send_frame. destruct (write_frame _ _); [|done]. destruct drain; [done|]. by intros [= _ <-]. Qed.
Lemma check_nonce_same now n s b s' : check_nonce now n s = (Ok b, s') -> hs_reader s' = hs_reader s /\ hs_store s' = hs_store s.
Proof. unfold check_nonce. destruct (check_and_add _ _ _). by intros [= _ <-]. Qed.

(** C2: mutual authentication, responder side. If the responder completes, the
    peer proved possession of the key behind the identity it is admitted under.
    The first frame on the connection is the handshake_init and the next one the
    handshake_finish; the reported device id is the SHA-256 of the reported public
    key, the signature of the finish message verifies under that key over the
    transcript that contains the init message and the responder's own fresh
    response (its nonce and ephemeral key included), the trust store holds neither
    a revocation nor a different key for that device, and the secret is the
    exchange with the ephemeral key inside the signed transcript. *)
Theorem responder_authenticates_initiator env s r s' :
  perform_handshake_responder exn_text py_repr env s = (Ok r, s') ->
  exists init_msg finish_msg rest pub sig_hex sig rt it ek peer_ek,
    read_frame (hs_reader s) = Ok (JObj init_msg, rest) /\ read_frame rest = Ok (JObj finish_msg, hs_reader s') /\
    fromhex (peer_public_key r) = Ok pub /\ length pub = 32%nat /\ peer_device_id r = compute_device_id pub /\
    dict_get (py "device_id") init_msg = Some (JStr (peer_device_id r)) /\
    dict_get (py "public_key") init_msg = Some (JStr (peer_public_key r)) /\
    dict_get (py "ephemeral_key") init_msg = Some (JStr ek) /\
    dict_get (py "signature") finish_msg = Some (JStr sig_hex) /\ fromhex sig_hex = Ok sig /\
    compute_responder_transcript init_msg (resp_msg_no_sig env) = Ok rt /\
    compute_initiator_transcript rt (hex_of_bytes (kp_sign (my_identity env) rt)) = Ok it /\
    ed_verify pub sig it = true /\
    not_rejected (hs_store s) (peer_device_id r) (peer_public_key r) /\
    trust_decision r <> D_REVOKED /\ trust_decision r <> D_KEY_CHANGED /\
    ephemeral_public_from_hex ek = Ok peer_ek /\ x_exchange (my_ephemeral env) peer_ek = Ok (shared_secret r).
Proof.
  unfold perform_handshake_responder. intros E. mstep E init_msg s1 Hm.
  apply receive_message_ok in Hm as (_ & _ & _ & Hread & _ & Hst & _).
  mstep E nonce s2 Hn. apply str_item_ok in Hn as [_ ->]. mstep E ok s3 Hf. apply check_nonce_same in Hf as [Hrd3 Hst3].
  mstep E did s4 Hd. apply str_item_ok in Hd as [Hd ->].
  destruct ok; cbn [negb] in E; [|by apply mbind_ok in E as (? & ? & _ & ?)].
  mstep E pk s5 Hpk. apply str_item_ok in Hpk as [Hpk ->].
  mstep E pub s6 Hv. apply verify_device_identity_ok in Hv as (Hhex & Hid & ->).
  mstep E name s7 Hname. apply str_item_ok in Hname as [_ ->].
  mstep E dec s8 Hdec. apply check_and_update_trust_ok in Hdec as (Hnr & Hr1 & Hr2 & Hrd8 & _).
  rewrite Hst3, Hst in Hnr. mstep E rt s9 Hrt. apply mlift_ok in Hrt as [Hrt ->].
  mstep E u s10 Hu. apply send_frame_same in Hu as [Hrd10 _].
  mstep E fmsg s11 Hfin. apply receive_message_ok in Hfin as (_ & _ & _ & Hfread & _).
  mstep E it s12 Hit. apply mlift_ok in Hit as [Hit ->]. mstep E ipub s13 Hip. apply mlift_ok in Hip as [Hip ->].
  mstep E sigx s14 Hsig. apply str_item_ok in Hsig as [Hsig ->]. mstep E u2 s15 Hvs. destruct u2.
  apply verify_signature_ok in Hvs as (-> & b & Hb & Hver). mstep E ek s16 Hek. apply str_item_ok in Hek as [Hek ->].
  mstep E pek s17 Hpe. apply mlift_ok in Hpe as [Hpe ->]. mstep E sec s18 Hsec. apply mlift_ok in Hsec as [Hsec ->].
  mstep E hash s19 Hh. apply mlift_ok in Hh as [_ ->]. apply mret_ok in E as [-> ->].
  unfold public_key_from_bytes in Hip. apply ed_load_id in Hip as [-> Hlen].
  destruct (ephemeral_public_from_hex ek) as [x|e] eqn:Ex; cbn [rcatch] in Hpe; [|by destruct e].
  apply Ok_inj in Hpe as ->. exists init_msg, fmsg, (hs_reader s1), pub, sigx, b, rt, it, ek, pek. cbn.
  rewrite Hrd10, Hrd8, Hrd3 in Hfread. split_and!; done.
Qed.

(** C3: mutual authentication, initiator side: if the initiator completes, the
    frame it read is a handshake_response whose identity is bound to its key in the
    same way, and the signature in that frame verifies over the transcript that
    contains the initiator's own handshake_init with its fresh nonce and
    ephemeral key. *)
Theorem initiator_authenticates_responder env s r s' :
  perform_handshake_initiator exn_text py_repr env s = (Ok r, s') ->
  exists resp_msg pub sig_hex sig rt ek peer_ek,
    read_frame (hs_reader s) = Ok (JObj resp_msg, hs_reader s') /\
    fromhex (peer_public_key r) = Ok pub /\ length pub = 32%nat /\ peer_device_id r = compute_device_id pub /\
    dict_get (py "device_id") resp_msg = Some (JStr (peer_device_id r)) /\
    dict_get (py "public_key") resp_msg = Some (JStr (peer_public_key r)) /\
    dict_get (py "ephemeral_key") resp_msg = Some (JStr ek) /\
    dict_get (py "signature") resp_msg = Some (JStr sig_hex) /\ fromhex sig_hex = Ok sig /\
    compute_responder_transcript (init_message env) resp_msg = Ok rt /\ ed_verify pub sig rt = true /\
    not_rejected (hs_store s) (peer_device_id r) (peer_public_key r) /\
    trust_decision r <> D_REVOKED /\ trust_decision r <> D_KEY_CHANGED /\
    ephemeral_public_from_hex ek = Ok peer_ek /\ x_exchange (my_ephemeral env) peer_ek = Ok (shared_secret r).
Proof.
  unfold perform_handshake_initiator. intros E. mstep E u0 s0 Hs. apply send_frame_same in Hs as [Hrd0 Hst0].
  mstep E m s1 Hm. apply receive_message_ok in Hm as (_ & _ & _ & Hread & _ & Hst & _).
  mstep E nonce s2 Hn. apply str_item_ok in Hn as [_ ->]. mstep E ok s3 Hf. apply check_nonce_same in Hf as [Hrd3 Hst3].
  mstep E did s4 Hd. apply str_item_ok in Hd as [Hd ->].
  destruct ok; cbn [negb] in E; [|by apply mbind_ok in E as (? & ? & _ & ?)].
  mstep E pk s5 Hpk. apply str_item_ok in Hpk as [Hpk ->].
  mstep E pub s6 Hv. apply verify_device_identity_ok in Hv as (Hhex & Hid & ->).
  mstep E name s7 Hname. apply str_item_ok in Hname as [_ ->].
  mstep E dec s8 Hdec. apply check_and_update_trust_ok in Hdec as (Hnr & Hr1 & Hr2 & Hrd8 & _).
  rewrite Hst3, Hst, Hst0 in Hnr. mstep E rt s9 Hrt. apply mlift_ok in Hrt as [Hrt ->].
  mstep E rpub s10 Hrp. apply mlift_ok in Hrp as [Hrp ->].
  mstep E sigx s11 Hsig. apply str_item_ok in Hsig as [Hsig ->]. mstep E u2 s12 Hvs. destruct u2.
  apply verify_signature_ok in Hvs as (-> & b & Hb & Hver). mstep E it s13 Hit. apply mlift_ok in Hit as [Hit ->].
  mstep E u3 s14 Hsend. apply send_frame_same in Hsend as [Hrd14 _]. mstep E ek s15 Hek. apply str_item_ok in Hek as [Hek ->].
  mstep E pek s16 Hpe. apply mlift_ok in Hpe as [Hpe ->]. mstep E sec s17 Hsec. apply mlift_ok in Hsec as [Hsec ->].
  mstep E hash s18 Hh. apply mlift_ok in Hh as [_ ->]. apply mret_ok in E as [-> ->].
  unfold public_key_from_bytes in Hrp. apply ed_load_id in Hrp as [-> Hlen].
  destruct (ephemeral_public_from_hex ek) as [x|e] eqn:Ex; cbn [rcatch] in Hpe; [|by destruct e].
  apply Ok_inj in Hpe as ->. exists m, pub, sigx, b, rt, ek, pek. cbn.
  rewrite <- Hrd0, Hrd14, Hrd8, Hrd3. split_and!; done.
Qed.
End Authentication.

(** ** Agreement of two honest parties *)

Definition wire (m : dict) : bytes := be_encode 4 (zlen (dumps (JObj m))) ++ map z2b (dumps (JObj m)).
Definition fits (m : dict) : Prop := zlen (dumps (JObj m)) <= MAX_MESSAGE_SIZE.

Lemma produced_frame_ok m : produced m -> fits m -> frame_ok (FJson (JObj m)) = true.
Proof.
  intros Hp Hf. unfold frame_ok. rewrite (produced_json_ok m Hp). by apply Z.leb_le.
Qed.

Lemma send_frame_ok m s :
  produced m -> fits m ->
  send_frame m None s
  = (Ok tt, HsState (hs_reader s) (hs_written s ++ wire m) (hs_cache s) (hs_store s) (hs_events s)).
Proof.
  intros Hp Hf. unfold send_frame, write_frame.
  rewrite (encode_frame_ok (JObj m) (produced_frame_ok m Hp Hf)). done.
Qed.

Lemma read_frame_any r m rest : read_any_frame r = Ok (FJson m, rest) -> read_frame r = Ok (m, rest).
Proof.
  unfold read_any_frame, read_frame. intros E. apply rbind_ok in E as ([[k p] r'] & -> & E). cbn [rbind].
  destruct k; [|done]. apply rbind_ok in E as (j & -> & E). cbn [rbind]. congruence.
Qed.

Lemma receive_wire m expected s rest :
  produced m -> fits m -> dict_get (py "type") m = Some (JStr expected) -> hs_reader s = wire m ++ rest ->
  receive_message false expected s = (Ok m, HsState rest (hs_written s) (hs_cache s) (hs_store s) (hs_events s)).
Proof.
  intros Hp Hf Ht Hr. unfold receive_message, receive_frame, mbind. rewrite Hr.
  rewrite (read_frame_any (wire m ++ rest) (JObj m) rest).
  2: { apply read_encoded; [by apply produced_frame_ok|]. apply (encode_frame_ok (JObj m)). by apply produced_frame_ok. }
  cbn [mlift]. rewrite (produced_valid m Hp). cbn [rcatch]. rewrite Ht.
  by rewrite (proj2 (streq_spec expected expected) eq_refl).
Qed.

Lemma str_item_get f d v s : dict_get f d = Some (JStr v) -> str_item f d s = (Ok v, s).
Proof. intros E. unfold str_item, dict_item, mbind, mlift. by rewrite E. Qed.

Lemma hex_kok b : b <> [] -> (str_ok (hex_of_bytes b) && negb (streq (hex_of_bytes b) []))%bool = true.
Proof.
  intros Hb. rewrite printable_str_ok by apply hex_of_bytes_printable. destruct b; [done|].
  unfold streq. rewrite bool_decide_eq_false_2; [done|]. discriminate.
Qed.

Lemma hex_cps b : forallb cp_ok (hex_of_bytes b) = true.
Proof. apply printable_cps, hex_of_bytes_printable. Qed.

Lemma forallb_negb_existsb {A} (f : A -> bool) l : forallb (fun x => negb (f x)) l = negb (existsb f l).
Proof. induction l as [|x l IH]; cbn; [done|]. by rewrite IH, negb_orb. Qed.

Lemma nonempty_length {A} (l : list A) n : length l = S n -> l <> [].
Proof. by intros H ->. Qed.

Section Agreement.
Context {Ed : Ed25519} {EdL : Ed25519Laws Ed} {X : X25519} {XL : X25519Laws X}.
Variable exn_text : exn -> pystr.
Variable py_repr : pystr -> pystr.

(** A party that runs the program: a keypair it generated, an encodable name, a
    working clock, a fresh nonce, and a connection that neither stalls nor breaks. *)
Record honest (env : hs_env) : Prop := {
  h_key : kp_wf (my_identity env);
  h_name : str_ok (my_name env) = true;
  h_name_text : forallb cp_ok (my_name env) = true;   (* no lone surrogate *)
  h_nonce : my_nonce_bytes env <> [];
  h_clock n : float_ok (clock env n) = true;
  h_timeout n : timed_out env n = false;
  h_drain n : drain_error env n = None
}.

Definition fields_of (type : pystr) (env : hs_env) : hs_fields :=
  HsFields type (kp_device_id (my_identity env)) (my_pub_hex env) (ephemeral_public_hex (my_ephemeral env))
    (my_nonce env) (my_name env).

Lemma identity_hex env : honest env ->
  kp_device_id (my_identity env) = hex_of_bytes (sha256 (public_key_bytes (my_identity env))).
Proof. intros Hh. apply Hh. Qed.

Lemma fields_of_ok type env : honest env -> str_ok type = true -> fields_ok (fields_of type env) = true.
Proof.
  intros Hh Ht. unfold fields_ok, fields_of. cbn [sok forallb f_type f_device_id f_public_key f_ephemeral_key f_nonce f_sender_name].
  rewrite Ht, (h_name env Hh), (identity_hex env Hh). unfold my_pub_hex, ephemeral_public_hex, my_nonce.
  rewrite !printable_str_ok by apply hex_of_bytes_printable. done.
Qed.

Lemma key_fields_ok env : honest env ->
  kok [kp_device_id (my_identity env); my_pub_hex env; ephemeral_public_hex (my_ephemeral env); my_nonce env] = true.
Proof.
  intros Hh. cbn [kok forallb]. rewrite (identity_hex env Hh). unfold my_pub_hex, ephemeral_public_hex, my_nonce.
  rewrite !hex_kok; [done|..].
  - apply Hh.
  - apply (nonempty_length _ 31), x_public_length.
  - apply (nonempty_length _ 31), ed_public_length.
  - apply (nonempty_length _ 31), sha256_length.
Qed.

Lemma init_produced env : honest env -> produced (init_message env).
Proof.
  intros Hh. apply P_handshake_init; [by apply key_fields_ok | | apply Hh].
  cbn [sok forallb]. by rewrite (h_name env Hh).
Qed.

Definition response_message (env : hs_env) (sig : pystr) : dict :=
  make_handshake_response (clock env 4) (kp_device_id (my_identity env)) (my_pub_hex env)
    (ephemeral_public_hex (my_ephemeral env)) (my_nonce env) (my_name env) sig.

Lemma response_produced env k m : honest env -> produced (response_message env (hex_of_bytes (ed_sign k m))).
Proof.
  intros Hh. apply P_handshake_response; [| |apply Hh].
  - set (ks := [kp_device_id (my_identity env); my_pub_hex env; ephemeral_public_hex (my_ephemeral env); my_nonce env]).
    change (kok (ks ++ [hex_of_bytes (ed_sign k m)]) = true). unfold kok. rewrite forallb_app.
    apply andb_true_intro. split; [by apply key_fields_ok|]. cbn [forallb].
    rewrite hex_kok; [done|]. apply (nonempty_length _ 63), ed_sign_length.
  - cbn [sok forallb]. by rewrite (h_name env Hh).
Qed.

Lemma finish_produced env k m n : honest env -> produced (make_handshake_finish (clock env n) (hex_of_bytes (ed_sign k m))).
Proof.
  intros Hh. apply P_handshake_finish; [|apply Hh]. cbn [kok forallb].
  rewrite hex_kok by (apply (nonempty_length _ 63), ed_sign_length). done.
Qed.

(** *** The steps of a run between honest parties *)

Lemma check_nonce_fresh now n s :
  snd (check_and_add now (hs_cache s) n) = true ->
  check_nonce now n s
  = (Ok true, HsState (hs_reader s) (hs_written s) (fst (check_and_add now (hs_cache s) n)) (hs_store s) (hs_events s)).
Proof. unfold check_nonce. destruct (check_and_add _ _ _) as [c b]. cbn. by intros ->. Qed.

Lemma verify_device_identity_honest now kp s :
  kp_wf kp -> verify_device_identity py_repr now (kp_device_id kp) (hex_of_bytes (public_key_bytes kp)) s
              = (Ok (public_key_bytes kp), s).
Proof.
  intros Hk. unfold verify_device_identity, mbind, mlift. rewrite fromhex_hex. cbn [rcatch].
  rewrite (proj2 (streq_spec _ _) (eq_sym Hk)). done.
Qed.

Lemma check_and_update_trust_accepts now did pk name s :
  not_rejected (hs_store s) did pk ->
  forallb cp_ok did = true -> forallb cp_ok pk = true -> forallb cp_ok name = true ->
  exists dec s', check_and_update_trust now did pk name s = (Ok dec, s') /\
    hs_reader s' = hs_reader s /\ hs_written s' = hs_written s.
Proof.
  unfold not_rejected, check_and_update_trust, get_store, mbind at 1, is_revoked.
  destruct (hs_store s) as [st|]; [|by exists D_UNKNOWN, s]. intros [Hr Hk] Hd Hp Hn.
  pose proof (check_fst now st did pk) as Hc. destruct (check now st did pk) as [d evs]. cbn [fst] in Hc.
  destruct (emit_events_ok evs s) as (s1 & Es & H1 & H2 & H3 & _). unfold mbind at 1. rewrite Es.
  destruct (get st did) as [x|] eqn:Ex.
  - rewrite (proj2 (streq_spec _ _) (Hk x eq_refl)) in Hc.
    destruct (td_status x) eqn:Et; [| |by rewrite bool_decide_eq_true_2 in Hr by done]; subst d; do 2 eexists;
      (split; [reflexivity|]); done.
  - subst d. unfold mlift. rewrite record_first_seen_new by done. do 2 eexists. (split; [reflexivity|]); done.
Qed.

Lemma verify_signature_honest now who did kp t s :
  verify_signature exn_text now who did (public_key_bytes kp) (hex_of_bytes (kp_sign kp t)) t s = (Ok tt, s).
Proof.
  unfold verify_signature. rewrite fromhex_hex. cbn [rbind]. unfold kp_sign, public_key_bytes.
  by rewrite ed_verify_sign.
Qed.

Lemma ephemeral_from_hex_honest k : ephemeral_public_from_hex (ephemeral_public_hex k) = Ok (x_public k).
Proof.
  unfold ephemeral_public_from_hex, ephemeral_public_hex, ephemeral_public_from_bytes. rewrite fromhex_hex. cbn [rbind].
  unfold zlen. rewrite x_public_length. apply x_load_public.
Qed.

Lemma public_key_honest kp : public_key_from_bytes (public_key_bytes kp) = Ok (public_key_bytes kp).
Proof. apply ed_load_public. Qed.

Lemma initiator_transcript_hex rt b :
  compute_initiator_transcript rt (hex_of_bytes b)
  = Ok (pyb "peerc-v2-handshake-initiator" ++ [x0a] ++ rt ++ [x0a] ++ map z2b (hex_of_bytes b)).
Proof.
  unfold compute_initiator_transcript.
  by rewrite ascii_encode_ok by apply printable_ascii, hex_of_bytes_printable.
Qed.
Lemma final_hash_hex t b :
  compute_final_transcript_hash t (hex_of_bytes b) = Ok (sha256 (t ++ [x0a] ++ map z2b (hex_of_bytes b))).
Proof.
  unfold compute_final_transcript_hash.
  by rewrite ascii_encode_ok by apply printable_ascii, hex_of_bytes_printable.
Qed.

(** The transcripts and signatures of a conversation between [envI] and [envR]. *)
Definition conv_rt (envI envR : hs_env) : bytes :=
  responder_transcript (fields_of (py "handshake_init") envI) (fields_of (py "handshake_response") envR).
Definition conv_sigR (envI envR : hs_env) : bytes := kp_sign (my_identity envR) (conv_rt envI envR).
Definition conv_it (envI envR : hs_env) : bytes :=
  pyb "peerc-v2-handshake-initiator" ++ [x0a] ++ conv_rt envI envR ++ [x0a] ++ map z2b (hex_of_bytes (conv_sigR envI envR)).
Definition conv_sigI (envI envR : hs_env) : bytes := kp_sign (my_identity envI) (conv_it envI envR).
Definition conv_hash (envI envR : hs_env) : bytes :=
  sha256 (conv_it envI envR ++ [x0a] ++ map z2b (hex_of_bytes (conv_sigI envI envR))).
Definition conv_response (envI envR : hs_env) : dict :=
  response_message envR (hex_of_bytes (conv_sigR envI envR)).
Definition conv_finish (envI envR : hs_env) : dict :=
  make_handshake_finish (clock envI 5) (hex_of_bytes (conv_sigI envI envR)).

Lemma conv_transcript envI envR resp : honest envI -> honest envR ->
  pick_fields TRANSCRIPT_FIELDS resp = Ok (fields_dict (fields_of (py "handshake_response") envR)) ->
  compute_responder_transcript (init_message envI) resp = Ok (conv_rt envI envR).
Proof.
  intros HI HR Hp. apply responder_transcript_spec; [reflexivity | done | by apply fields_of_ok..].
Qed.

Lemma initiator_run envI envR s rest secret :
  honest envI -> honest envR -> fits (init_message envI) -> fits (conv_response envI envR) ->
  fits (conv_finish envI envR) -> hs_reader s = wire (conv_response envI envR) ++ rest ->
  snd (check_and_add (clock envI 1) (hs_cache s) (my_nonce envR)) = true ->
  not_rejected (hs_store s) (kp_device_id (my_identity envR)) (my_pub_hex envR) ->
  x_exchange (my_ephemeral envI) (x_public (my_ephemeral envR)) = Ok secret ->
  exists dec s', perform_handshake_initiator exn_text py_repr envI s
    = (Ok (MkHandshakeResult (kp_device_id (my_identity envR)) (my_pub_hex envR) (my_name envR) secret
             (conv_hash envI envR) dec), s') /\
    hs_written s' = hs_written s ++ wire (init_message envI) ++ wire (conv_finish envI envR) /\ hs_reader s' = rest.
Proof.
  intros HI HR F1 F2 F3 Hread Hnonce Htrust Hx. unfold perform_handshake_initiator, mbind.
  rewrite (h_drain envI HI), send_frame_ok by (done || by apply init_produced).
  rewrite (h_timeout envI HI), (receive_wire (conv_response envI envR) _ _ rest)
    by (done || by apply response_produced).
  rewrite (str_item_get (py "nonce") (conv_response envI envR) (my_nonce envR)) by reflexivity.
  rewrite check_nonce_fresh by exact Hnonce.
  rewrite (str_item_get (py "device_id") (conv_response envI envR) (kp_device_id (my_identity envR))) by reflexivity.
  cbn [negb].
  rewrite (str_item_get (py "public_key") (conv_response envI envR) (my_pub_hex envR)) by reflexivity.
  unfold my_pub_hex at 1. rewrite verify_device_identity_honest by apply HR.
  rewrite (str_item_get (py "sender_name") (conv_response envI envR) (my_name envR)) by reflexivity.
  edestruct (check_and_update_trust_accepts (clock envI 3) (kp_device_id (my_identity envR)) (my_pub_hex envR)
    (my_name envR)) as (dec & s1 & E & Er & Ew); cycle 4;
    [rewrite E; clear E | exact Htrust | rewrite (identity_hex _ HR); apply hex_cps | apply hex_cps | apply HR].
  unfold mlift. rewrite (conv_transcript envI envR) by (done || reflexivity). rewrite public_key_honest.
  rewrite (str_item_get (py "signature") (conv_response envI envR) (hex_of_bytes (conv_sigR envI envR))) by reflexivity.
  unfold conv_sigR at 1. rewrite verify_signature_honest. rewrite initiator_transcript_hex.
  change (pyb "peerc-v2-handshake-initiator" ++ [x0a] ++ conv_rt envI envR ++ [x0a]
          ++ map z2b (hex_of_bytes (conv_sigR envI envR))) with (conv_it envI envR).
  change (make_handshake_finish (clock envI 5) (hex_of_bytes (kp_sign (my_identity envI) (conv_it envI envR))))
    with (conv_finish envI envR).
  rewrite (h_drain envI HI), send_frame_ok by (done || by apply finish_produced).
  rewrite (str_item_get (py "ephemeral_key") (conv_response envI envR) (ephemeral_public_hex (my_ephemeral envR)))
    by reflexivity.
  rewrite ephemeral_from_hex_honest. cbn [rcatch]. unfold compute_shared_secret. rewrite Hx, final_hash_hex.
  do 2 eexists. split; [reflexivity|]. cbn [hs_written hs_reader]. rewrite Ew, Er. cbn [hs_written hs_reader].
  split; [by rewrite <- app_assoc | done].
Qed.

Lemma responder_run envI envR s rest secret :
  honest envI -> honest envR -> fits (init_message envI) -> fits (conv_response envI envR) ->
  fits (conv_finish envI envR) ->
  hs_reader s = wire (init_message envI) ++ wire (conv_finish envI envR) ++ rest ->
  snd (check_and_add (clock envR 1) (hs_cache s) (my_nonce envI)) = true ->
  not_rejected (hs_store s) (kp_device_id (my_identity envI)) (my_pub_hex envI) ->
  x_exchange (my_ephemeral envR) (x_public (my_ephemeral envI)) = Ok secret ->
  exists dec s', perform_handshake_responder exn_text py_repr envR s
    = (Ok (MkHandshakeResult (kp_device_id (my_identity envI)) (my_pub_hex envI) (my_name envI) secret
             (conv_hash envI envR) dec), s') /\
    hs_written s' = hs_written s ++ wire (conv_response envI envR) /\ hs_reader s' = rest.
Proof.
  intros HI HR F1 F2 F3 Hread Hnonce Htrust Hx. unfold perform_handshake_responder, mbind.
  rewrite (h_timeout envR HR), (receive_wire (init_message envI) _ _ (wire (conv_finish envI envR) ++ rest))
    by (done || by apply init_produced).
  rewrite (str_item_get (py "nonce") (init_message envI) (my_nonce envI)) by reflexivity.
  rewrite check_nonce_fresh by exact Hnonce.
  rewrite (str_item_get (py "device_id") (init_message envI) (kp_device_id (my_identity envI))) by reflexivity.
  cbn [negb].
  rewrite (str_item_get (py "public_key") (init_message envI) (my_pub_hex envI)) by reflexivity.
  unfold my_pub_hex at 1. rewrite verify_device_identity_honest by apply HI.
  rewrite (str_item_get (py "sender_name") (init_message envI) (my_name envI)) by reflexivity.
  edestruct (check_and_update_trust_accepts (clock envR 3) (kp_device_id (my_identity envI)) (my_pub_hex envI)
    (my_name envI)) as (dec & s1 & E & Er & Ew); cycle 4;
    [rewrite E; clear E | exact Htrust | rewrite (identity_hex _ HI); apply hex_cps | apply hex_cps | apply HI].
  unfold mlift. rewrite (conv_transcript envI envR) by (done || reflexivity).
  change (make_handshake_response (clock envR 4) (kp_device_id (my_identity envR)) (my_pub_hex envR)
            (ephemeral_public_hex (my_ephemeral envR)) (my_nonce envR) (my_name envR)
            (hex_of_bytes (kp_sign (my_identity envR) (conv_rt envI envR)))) with (conv_response envI envR).
  rewrite (h_drain envR HR), send_frame_ok by (done || by apply response_produced).
  rewrite (h_timeout envR HR), (receive_wire (conv_finish envI envR) _ _ rest)
    by (done || by apply finish_produced).
  rewrite initiator_transcript_hex. fold (conv_sigR envI envR).
  change (pyb "peerc-v2-handshake-initiator" ++ [x0a] ++ conv_rt envI envR ++ [x0a]
          ++ map z2b (hex_of_bytes (conv_sigR envI envR))) with (conv_it envI envR).
  rewrite public_key_honest.
  rewrite (str_item_get (py "signature") (conv_finish envI envR) (hex_of_bytes (conv_sigI envI envR))) by reflexivity.
  unfold conv_sigI at 1. rewrite verify_signature_honest.
  rewrite (str_item_get (py "ephemeral_key") (init_message envI) (ephemeral_public_hex (my_ephemeral envI)))
    by reflexivity.
  rewrite ephemeral_from_hex_honest. cbn [rcatch]. unfold compute_shared_secret. rewrite Hx, final_hash_hex.
  do 2 eexists. split; [reflexivity|]. cbn [hs_written hs_reader]. rewrite Ew. cbn [hs_written]. done.
Qed.

(** C1: two honest parties always agree. Run against each other (each reads
    exactly the frames the other writes, followed by anything), with fresh
    nonces and stores that reject neither, both roles complete; they report each
    other's identity and name, hold the same 32-byte secret and the same
    transcript hash, and leave the rest of the stream for the session. *)
Theorem honest_handshake_agrees envI envR sI sR restI restR secret :
  honest envI -> honest envR -> fits (init_message envI) -> fits (conv_response envI envR) ->
  fits (conv_finish envI envR) ->
  snd (check_and_add (clock envI 1) (hs_cache sI) (my_nonce envR)) = true ->
  snd (check_and_add (clock envR 1) (hs_cache sR) (my_nonce envI)) = true ->
  not_rejected (hs_store sI) (kp_device_id (my_identity envR)) (my_pub_hex envR) ->
  not_rejected (hs_store sR) (kp_device_id (my_identity envI)) (my_pub_hex envI) ->
  x_exchange (my_ephemeral envI) (x_public (my_ephemeral envR)) = Ok secret ->
  hs_written sI = [] -> hs_written sR = [] ->
  hs_reader sI = wire (conv_response envI envR) ++ restI ->
  hs_reader sR = wire (init_message envI) ++ wire (conv_finish envI envR) ++ restR ->
  exists rI rR sI' sR',
    perform_handshake_initiator exn_text py_repr envI sI = (Ok rI, sI') /\
    perform_handshake_responder exn_text py_repr envR sR = (Ok rR, sR') /\
    hs_reader sI = hs_written sR' ++ restI /\ hs_reader sR = hs_written sI' ++ restR /\
    hs_reader sI' = restI /\ hs_reader sR' = restR /\
    peer_device_id rI = kp_device_id (my_identity envR) /\ peer_device_id rR = kp_device_id (my_identity envI) /\
    peer_name rI = my_name envR /\ peer_name rR = my_name envI /\
    shared_secret rI = shared_secret rR /\ length (shared_secret rI) = 32%nat /\
    transcript_hash rI = transcript_hash rR /\ length (transcript_hash rI) = 32%nat.
Proof.
  intros HI HR F1 F2 F3 N1 N2 T1 T2 Hx W1 W2 R1 R2.
  destruct (initiator_run envI envR sI restI secret HI HR F1 F2 F3 R1 N1 T1 Hx) as (d1 & sI' & E1 & E2 & E3).
  rewrite x_exchange_comm in Hx.
  destruct (responder_run envI envR sR restR secret HI HR F1 F2 F3 R2 N2 T2 Hx) as (d2 & sR' & E4 & E5 & E6).
  do 4 eexists. split; [exact E1|]. split; [exact E4|]. rewrite E2, E5, W1, W2, R1, R2. cbn [app].
  rewrite <- app_assoc. cbn. split_and!; first [done | by eapply x_exchange_length | apply sha256_length].
Qed.
End Agreement.

(** ** The effect of an unauthenticated first message *)

Section Poisoning.
Context {Ed : Ed25519} {EdL : Ed25519Laws Ed} {X : X25519} {XL : X25519Laws X}.
Variable exn_text : exn -> pystr.
Variable py_repr : pystr -> pystr.

(** The store after the responder has processed only the handshake_init, in which
    the sender chose the text of the public key. *)
Lemma init_recorded now did pk name s st :
  hs_store s = Some st -> get st did = None ->
  forallb cp_ok did = true -> forallb cp_ok pk = true -> forallb cp_ok name = true ->
  exists s', check_and_update_trust now did pk name s = (Ok D_PENDING, s') /\
    hs_store s' = Some (Store (<[did := MkDevice did pk name now now PENDING None None None]> (devices st)) (transitions st)) /\
    hs_reader s' = hs_reader s.
Proof.
  intros Hs Hg Hd Hp Hn. unfold check_and_update_trust, get_store, mbind. rewrite Hs. unfold check. rewrite Hg.
  cbn [emit_events mret]. unfold mlift. rewrite record_first_seen_new by done. cbn. eexists. split; [reflexivity|]. done.
Qed.

(** Once the init message is processed and nothing more arrives, the responder
    fails and keeps the store. *)
Lemma no_finish_fails s (k : bytes -> dict -> M HandshakeResult) rt drain t msg :
  hs_reader s = [] ->
  exists e s', (r <-- mlift rt ;; _ <-- send_frame (msg r) drain ;;
                f <-- receive_message t (py "handshake_finish") ;; k r f) s = (Err e, s') /\
    hs_store s' = hs_store s.
Proof.
  intros Hr. unfold mbind, mlift. destruct rt as [r|e]; [|by eauto].
  unfold send_frame. destruct (write_frame _ _) as [w|e]; [|by eauto].
  destruct drain as [e|]; [by eexists e, _|].
  unfold receive_message, receive_frame, mbind. destruct t; [by eexists _, _|]. cbn [hs_reader]. rewrite Hr.
  by eexists _, _.
Qed.

(** The responder on a well-formed handshake_init of a device id and a hex text of
    its key, from a stream that carries nothing more: it comes to its trust
    check, and whatever the decision it then fails without touching the store. *)
Lemma responder_reaches_trust env s (dev : DeviceKeypair) now pk ek nonce name :
  let init := make_handshake_init now (kp_device_id dev) pk ek nonce name in
  kp_wf dev -> fromhex pk = Ok (public_key_bytes dev) -> produced init -> fits init -> hs_reader s = wire init ->
  timed_out env 0 = false -> snd (check_and_add (clock env 1) (hs_cache s) nonce) = true ->
  exists k s0, perform_handshake_responder exn_text py_repr env s
      = mbind (check_and_update_trust (clock env 3) (kp_device_id dev) pk name) k s0 /\
    hs_store s0 = hs_store s /\ hs_reader s0 = [] /\
    forall dec s1, hs_reader s1 = [] -> exists e s2, k dec s1 = (Err e, s2) /\ hs_store s2 = hs_store s1.
Proof.
  intros init Hk Hpk Hp Hf Hr Ht Hn. rewrite <- (app_nil_r (wire init)) in Hr.
  unfold perform_handshake_responder. unfold mbind at 1. rewrite Ht, (receive_wire init _ _ []) by done.
  unfold mbind at 1. rewrite (str_item_get (py "nonce") init nonce) by reflexivity.
  unfold mbind at 1. rewrite check_nonce_fresh by exact Hn.
  unfold mbind at 1. rewrite (str_item_get (py "device_id") init (kp_device_id dev)) by reflexivity. cbn [negb].
  unfold mbind at 1. rewrite (str_item_get (py "public_key") init pk) by reflexivity.
  assert (forall s0, verify_device_identity py_repr (clock env 2) (kp_device_id dev) pk s0 = (Ok (public_key_bytes dev), s0)) as Hv.
  { intros s0. unfold verify_device_identity, mbind, mlift. rewrite Hpk. cbn [rcatch]. by rewrite (proj2 (streq_spec _ _) (eq_sym Hk)). }
  unfold mbind at 1. rewrite Hv. unfold mbind at 1. rewrite (str_item_get (py "sender_name") init name) by reflexivity.
  eexists _, _. split; [reflexivity|]. split; [done|]. split; [done|]. intros dec s1 Hs1. cbv beta. by apply no_finish_fails.
Qed.

(** The trust store is written before the sender has proved anything. A single
    unsigned handshake_init that names a device the store does not know yet, with
    that device's public key written with a leading space, makes the responder
    fail for want of a signature but leaves an entry that no genuine handshake of
    the device matches: it is rejected with KEY_CHANGED from then on. *)
Theorem unsigned_init_poisons_store env s st (victim : DeviceKeypair) now ek nonce name :
  let evil := make_handshake_init now (kp_device_id victim) (32 :: hex_of_bytes (public_key_bytes victim)) ek nonce name in
  kp_wf victim -> hs_store s = Some st -> get st (kp_device_id victim) = None ->
  produced evil -> fits evil -> forallb cp_ok name = true -> hs_reader s = wire evil -> timed_out env 0 = false ->
  snd (check_and_add (clock env 1) (hs_cache s) nonce) = true ->
  exists e s' st', perform_handshake_responder exn_text py_repr env s = (Err e, s') /\ hs_store s' = Some st' /\
    forall t, fst (check t st' (kp_device_id victim) (hex_of_bytes (public_key_bytes victim))) = D_KEY_CHANGED.
Proof.
  intros evil Hk Hs Hg Hp Hf Hnm Hr Ht Hn.
  set (st' := Store (<[kp_device_id victim := MkDevice (kp_device_id victim) (32 :: hex_of_bytes (public_key_bytes victim))
                name (clock env 3) (clock env 3) PENDING None None None]> (devices st)) (transitions st)).
  assert (forall t, fst (check t st' (kp_device_id victim) (hex_of_bytes (public_key_bytes victim))) = D_KEY_CHANGED) as Hc.
  { intros t. rewrite check_fst. unfold get. cbn [devices st']. rewrite lookup_insert_eq. cbn [td_public_key].
    destruct (streq _ _) eqn:E; [|done]. apply streq_spec in E. apply (f_equal length) in E. cbn [length] in E. lia. }
  destruct (responder_reaches_trust env s victim now (32 :: hex_of_bytes (public_key_bytes victim)) ek nonce name)
    as (k & s0 & E0 & H1 & H2 & Hfail); [done | apply fromhex_hex | done..|].
  destruct (init_recorded (clock env 3) (kp_device_id victim) (32 :: hex_of_bytes (public_key_bytes victim)) name s0 st)
    as (s1 & E1 & E2 & E3); [congruence | done | rewrite Hk; apply hex_cps | apply hex_cps | done|].
  destruct (Hfail D_PENDING s1) as (e & s2 & E4 & E5); [congruence|].
  exists e, s2, st'. split; [rewrite E0; unfold mbind; by rewrite E1|]. split; [by rewrite E5|done].
Qed.

(** A handshake_init whose sender name has a lone surrogate passes validation, and
    for a device that the store does not know it ends the responder with
    [UnicodeEncodeError], raised when the name is bound to the SQL statement:
    none of the exceptions the handshake declares. *)
Theorem surrogate_name_escapes env s st (dev : DeviceKeypair) now ek nonce name :
  let init := make_handshake_init now (kp_device_id dev) (hex_of_bytes (public_key_bytes dev)) ek nonce name in
  kp_wf dev -> hs_store s = Some st -> get st (kp_device_id dev) = None ->
  produced init -> fits init -> existsb is_surrogate name = true -> hs_reader s = wire init -> timed_out env 0 = false ->
  snd (check_and_add (clock env 1) (hs_cache s) nonce) = true ->
  fst (perform_handshake_responder exn_text py_repr env s) = Err UnicodeEncodeError.
Proof.
  intros init Hk Hs Hg Hp Hf Hnm Hr Ht Hn.
  destruct (responder_reaches_trust env s dev now (hex_of_bytes (public_key_bytes dev)) ek nonce name)
    as (k & s0 & E0 & H1 & H2 & _); [done | apply fromhex_hex | done..|].
  rewrite E0. unfold check_and_update_trust, get_store, mbind. rewrite H1, Hs. unfold check. rewrite Hg.
  cbn [emit_events mret]. unfold mlift, record_first_seen. rewrite bind_text_ok by (rewrite Hk; apply hex_cps). cbn [rbind].
  rewrite Hg, bind_text_ok by apply hex_cps. cbn [rbind]. unfold bind_text, utf8_encode. rewrite forallb_negb_existsb, Hnm. done.
Qed.
End Poisoning.

(** ** Concrete runs *)

Definition demo_env (k e : N) (nonce : byte) (name : string) : @hs_env toy_ed25519 toy_x25519 :=
  @HsEnv toy_ed25519 toy_x25519 (@keypair_from_private_key toy_ed25519 k) (py name) e (replicate 32 nonce)
    (fun _ => float_of_int 1000) (fun _ => false) (fun _ => None).
Definition alice := demo_env 1 5 x11 "alice".
Definition bob := demo_env 2 7 x22 "bob".
Definition demo_state (reader : bytes) : hs_state :=
  HsState reader [] (new_nonce_cache (float_of_int 300)) (Some empty_store) [].
Definition no_text (e : exn) : pystr := [].

Lemma demo_honest k e nonce name : str_ok (py name) = true -> forallb cp_ok (py name) = true -> honest (demo_env k e nonce name).
Proof.
  intros H1 H2. split; [reflexivity | exact H1 | exact H2 | discriminate | intros n; vm_compute; reflexivity | reflexivity | reflexivity].
Qed.

Lemma responder_authenticates_initiator_witness :
  match fst (perform_handshake_responder no_text (fun s => s) bob
               (demo_state (wire (init_message alice) ++ wire (conv_finish alice bob)))) with
  | Ok r => exists pub, fromhex (peer_public_key r) = Ok pub /\ peer_device_id r = compute_device_id pub
  | Err _ => False
  end.
Proof.
  destruct (perform_handshake_responder no_text (fun s => s) bob
              (demo_state (wire (init_message alice) ++ wire (conv_finish alice bob)))) as [[r|e] s'] eqn:E.
  - destruct (responder_authenticates_initiator no_text (fun s => s) bob _ r s' E)
      as (m & fm & rest & pub & sx & sg & rt & it & ek & pek & _ & _ & H1 & H2 & H3 & _). exists pub. split; [exact H1 | exact H3].
  - apply (f_equal (fun p => is_ok (fst p))) in E. vm_compute in E. discriminate E.
Defined.

Lemma initiator_authenticates_responder_witness :
  match fst (perform_handshake_initiator no_text (fun s => s) alice (demo_state (wire (conv_response alice bob)))) with
  | Ok r => exists pub, fromhex (peer_public_key r) = Ok pub /\ peer_device_id r = compute_device_id pub
  | Err _ => False
  end.
Proof.
  destruct (perform_handshake_initiator no_text (fun s => s) alice (demo_state (wire (conv_response alice bob))))
    as [[r|e] s'] eqn:E.
  - destruct (initiator_authenticates_responder no_text (fun s => s) alice _ r s' E)
      as (m & pub & sx & sg & rt & ek & pek & _ & H1 & H2 & H3 & _). exists pub. split; [exact H1 | exact H3].
  - apply (f_equal (fun p => is_ok (fst p))) in E. vm_compute in E. discriminate E.
Defined.

Lemma honest_handshake_agrees_witness :
  let sI := demo_state (wire (conv_response alice bob) ++ [x01]) in
  let sR := demo_state (wire (init_message alice) ++ wire (conv_finish alice bob) ++ []) in
  exists rI rR sI' sR', perform_handshake_initiator no_text (fun s => s) alice sI = (Ok rI, sI') /\
    perform_handshake_responder no_text (fun s => s) bob sR = (Ok rR, sR').
Proof.
  intros sI sR.
  assert (exists sec, @x_exchange toy_x25519 5%N (@x_public toy_x25519 7%N) = Ok sec) as [sec Hx] by (eexists; reflexivity).
  destruct (honest_handshake_agrees no_text (fun s => s) alice bob sI sR [x01] [] sec)
    as (rI & rR & sI' & sR' & H1 & H2 & _);
    [apply demo_honest; reflexivity | apply demo_honest; reflexivity | vm_compute; discriminate
    | vm_compute; discriminate | vm_compute; discriminate | vm_compute; reflexivity | vm_compute; reflexivity
    | split; [vm_compute; reflexivity | intros x Hx'; vm_compute in Hx'; discriminate Hx']
    | split; [vm_compute; reflexivity | intros x Hx'; vm_compute in Hx'; discriminate Hx']
    | exact Hx | reflexivity | reflexivity | reflexivity | reflexivity |].
  exists rI, rR, sI', sR'. split; [exact H1 | exact H2].
Defined.

Lemma unsigned_init_poisons_store_witness :
  let victim := my_identity alice in
  let evil := make_handshake_init (float_of_int 1) (kp_device_id victim) (32 :: hex_of_bytes (public_key_bytes victim))
                (py "00") (py "ab") (py "mallory") in
  exists e s' st', perform_handshake_responder no_text (fun s => s) bob (demo_state (wire evil)) = (Err e, s') /\
    hs_store s' = Some st' /\
    forall t, fst (check t st' (kp_device_id victim) (hex_of_bytes (public_key_bytes victim))) = D_KEY_CHANGED.
Proof.
  intros victim evil.
  apply (unsigned_init_poisons_store no_text (fun s => s) bob (demo_state (wire evil)) empty_store victim
           (float_of_int 1) (py "00") (py "ab") (py "mallory")).
  - reflexivity.
  - reflexivity.
  - vm_compute. reflexivity.
  - apply P_handshake_init; vm_compute; reflexivity.
  - vm_compute. discriminate.
  - reflexivity.
  - reflexivity.
  - reflexivity.
  - vm_compute. reflexivity.
Defined.

Lemma surrogate_name_escapes_witness :
  let init := make_handshake_init (float_of_int 1) (kp_device_id (my_identity alice))
                (hex_of_bytes (public_key_bytes (my_identity alice))) (py "00") (py "ab") [0xD800] in
  fst (perform_handshake_responder no_text (fun s => s) bob (demo_state (wire init))) = Err UnicodeEncodeError.
Proof.
  intros init.
  apply (surrogate_name_escapes no_text (fun s => s) bob (demo_state (wire init)) empty_store (my_identity alice)
           (float_of_int 1) (py "00") (py "ab") [0xD800]).
  - reflexivity.
  - reflexivity.
  - vm_compute. reflexivity.
  - apply P_handshake_init; vm_compute; reflexivity.
  - vm_compute. discriminate.
  - reflexivity.
  - reflexivity.
  - reflexivity.
  - vm_compute. reflexivity.
Defined.
