(* ===== verification/Transport.v ===== *)
(** * core/transport: TCP connections, the encrypted transport and sessions

    [tcp.py], [timeout.py], [secure.py] and [session.py]. A connection is the
    bytes still to come from the peer, the bytes written to it and its closing
    flags; what the socket does on a write is an argument. An operation returns
    its result together with the state it leaves, also when it raises. *)

From stdpp Require Import base gmap strings list numbers option.
From Stdlib Require Import ZArith Lia Strings.Byte.
From S2P Require Import Prelude PyStr PyFloat Json JsonFacts SecurityEvents Frame CryptoIface ToyCrypto Sha256 Channel TrustStore Handshake.
Open Scope Z_scope.
Open Scope peerc_scope.

(** ** tcp.py *)

Record TCPConnection : Type := Tcp {
  tcp_reader : bytes;
  tcp_written : bytes;
  tcp_closed : bool;        (* _closed *)
  writer_closing : bool;    (* writer.is_closing() *)
  tcp_peer : option (pystr * Z)
}.

(** [TCPConnection(reader, writer)] *)
Definition new_tcp (reader : bytes) (peername : option (pystr * Z)) : TCPConnection :=
  Tcp reader [] false false peername.
Definition peer_addr (t : TCPConnection) : pystr * Z := default (py "0.0.0.0", 0) (tcp_peer t).
Definition addr_key (t : TCPConnection) : pystr :=
  fst (peer_addr t) ++ py ":" ++ str_of_int (snd (peer_addr t)).
Definition is_closing (t : TCPConnection) : bool := tcp_closed t || writer_closing t.

Definition mark_closed (t : TCPConnection) : TCPConnection :=
  Tcp (tcp_reader t) (tcp_written t) true (writer_closing t) (tcp_peer t).

Definition tcp_read_frame (t : TCPConnection) : result frame * TCPConnection :=
  if is_closing t then (Err ConnectionClosedError, t) else
  match read_any_frame (tcp_reader t) with
  | Ok (f, rest) => (Ok f, Tcp rest (tcp_written t) (tcp_closed t) (writer_closing t) (tcp_peer t))
  | Err IncompleteReadError | Err ConnectionResetError => (Err ConnectionClosedError, mark_closed t)
  | Err _ => (Err TransportError, t)
  end.

(** The [try] of both writers: [w] is what [write_frame] leaves on the writer,
    [drain] the exception raised by [drain()], if any. *)
Definition tcp_write (w : result bytes) (drain : option exn) (t : TCPConnection) : result unit * TCPConnection :=
  if is_closing t then (Err ConnectionClosedError, t) else
  match w with
  | Err e => if is_oserror e then (Err ConnectionClosedError, mark_closed t) else (Err TransportError, t)
  | Ok w =>
      let t := Tcp (tcp_reader t) w (tcp_closed t) (writer_closing t) (tcp_peer t) in
      match drain with
      | None => (Ok tt, t)
      | Some e => if is_oserror e then (Err ConnectionClosedError, mark_closed t) else (Err TransportError, t)
      end
  end.
Definition tcp_write_frame (message : dict) (drain : option exn) (t : TCPConnection) : result unit * TCPConnection :=
  tcp_write (write_frame (tcp_written t) (JObj message)) drain t.
Definition tcp_write_binary_frame (payload : bytes) (drain : option exn) (t : TCPConnection) :
    result unit * TCPConnection :=
  tcp_write (write_binary_frame (tcp_written t) payload) drain t.

Definition tcp_close (t : TCPConnection) : TCPConnection :=
  if tcp_closed t then t else Tcp (tcp_reader t) (tcp_written t) true true (tcp_peer t).

(** [open_tcp_connection]: the outcome of [asyncio.open_connection]. *)
Definition open_tcp_connection (outcome : result TCPConnection) : result TCPConnection :=
  match outcome with
  | Ok t => Ok t
  | Err TimeoutError => Err ConnectTimeoutError
  | Err _ => Err TransportError
  end.

(** ** secure.py *)

Definition TYPE_JSON : bytes := pyb "J".
Definition TYPE_BINARY : bytes := pyb "B".
Definition SEQUENCE_SIZE : Z := 8.
Definition MIN_ENCRYPTED_PAYLOAD_LEN : Z := SEQUENCE_SIZE + 16.

Record EncryptedTransport : Type := Transport {
  et_tcp : TCPConnection;
  et_channel : SecureChannel
}.

(** The properties that pass through to the connection, and [close]. *)
Definition et_peer_addr (et : EncryptedTransport) : pystr * Z := peer_addr (et_tcp et).
Definition et_addr_key (et : EncryptedTransport) : pystr := addr_key (et_tcp et).
Definition et_is_closing (et : EncryptedTransport) : bool := is_closing (et_tcp et).
Definition et_close (et : EncryptedTransport) : EncryptedTransport := Transport (tcp_close (et_tcp et)) (et_channel et).

(** What [receive_frame] returns. *)
Inductive received : Type :=
  | RJson (message : json)
  | RBinary (body : bytes)
  | RRaw (plaintext : bytes).

(** [struct.pack(">Q", n)] *)
Definition struct_pack_Q (n : Z) : result bytes :=
  if (0 <=? n) && (n <? 2 ^ 64) then Ok (be_encode 8 n) else Err StructError.

Section Secure.
Context `{Aead}.

Definition send_encrypted (inner_payload associated_data : bytes) (drain : option exn) (et : EncryptedTransport) :
    result unit * EncryptedTransport :=
  match encrypt (et_channel et) inner_payload associated_data with
  | (Err SequenceExhaustedError, channel) => (Err TransportError, et_close (Transport (et_tcp et) channel))
  | (Err _, channel) => (Err TransportError, Transport (et_tcp et) channel)
  | (Ok frame, channel) =>
      match struct_pack_Q (ef_sequence frame) with
      | Err e => (Err e, Transport (et_tcp et) channel)
      | Ok seq_header =>
          let wire_payload := seq_header ++ ef_ciphertext frame in
          let '(r, tcp) := tcp_write_binary_frame wire_payload drain (et_tcp et) in
          (r, Transport tcp channel)
      end
  end.

Definition send_message (message : dict) (associated_data : bytes) (drain : option exn) (et : EncryptedTransport) :
    result unit * EncryptedTransport :=
  match utf8_encode (dumps (JObj message)) with
  | Err e => (Err e, et)
  | Ok raw_json => send_encrypted (TYPE_JSON ++ raw_json) associated_data drain et
  end.

Definition send_binary (payload associated_data : bytes) (drain : option exn) (et : EncryptedTransport) :
    result unit * EncryptedTransport :=
  send_encrypted (TYPE_BINARY ++ payload) associated_data drain et.

(** The interpretation of a decrypted payload. *)
Definition open_payload (plaintext : bytes) : result received :=
  match plaintext with
  | [] => Err TransportError
  | _ =>
      let marker := take 1 plaintext in
      let body := drop 1 plaintext in
      if bool_decide (marker = TYPE_JSON) then
        rcatch (let* text := utf8_decode body in let* m := loads text in Ok (RJson m))
               (fun e => match e with
                         | JSONDecodeError | UnicodeDecodeError => Some (Err TransportError)
                         | _ => None
                         end)
      else if bool_decide (marker = TYPE_BINARY) then Ok (RBinary body)
      else Ok (RRaw plaintext)
  end.

Definition receive_frame (associated_data : bytes) (et : EncryptedTransport) : result received * EncryptedTransport :=
  let '(r, tcp) := tcp_read_frame (et_tcp et) in
  let et := Transport tcp (et_channel et) in
  match r with
  | Err e => (Err e, et)
  | Ok (FJson _) => (Err TransportError, et)
  | Ok (FBinary wire_payload) =>
      if zlen wire_payload <? MIN_ENCRYPTED_PAYLOAD_LEN then (Err TransportError, et) else
      let sequence := be_decode (take 8 wire_payload) in
      let ciphertext := drop 8 wire_payload in
      match decrypt (et_channel et) sequence ciphertext associated_data with
      | (Err e, channel) => (Err e, Transport tcp channel)
      | (Ok plaintext, channel) => (open_payload plaintext, Transport tcp channel)
      end
  end.
End Secure.

(** ** session.py *)

Record SecureSession : Type := Session {
  s_transport : EncryptedTransport;
  s_handshake : HandshakeResult;
  s_session_id : pystr;
  s_is_initiator : bool;
  s_created_at : pyfloat;
  s_last_activity : pyfloat
}.
(** [SecureSession(...)], at the time [now]. *)
Definition new_session (now : pyfloat) (transport : EncryptedTransport) (handshake_result : HandshakeResult)
    (sid : pystr) (is_initiator : bool) : SecureSession :=
  Session transport handshake_result sid is_initiator now now.
Definition s_peer_device_id (s : SecureSession) : pystr := peer_device_id (s_handshake s).
Definition s_peer_public_key (s : SecureSession) : pystr := peer_public_key (s_handshake s).
Definition s_peer_name (s : SecureSession) : pystr := peer_name (s_handshake s).
Definition s_trust_decision (s : SecureSession) : TrustDecision := trust_decision (s_handshake s).
Definition s_remote_addr (s : SecureSession) : pystr * Z := et_peer_addr (s_transport s).
Definition s_addr_key (s : SecureSession) : pystr := et_addr_key (s_transport s).
Definition is_alive (s : SecureSession) : bool := negb (et_is_closing (s_transport s)).

Definition set_transport (et : EncryptedTransport) (s : SecureSession) : SecureSession :=
  Session et (s_handshake s) (s_session_id s) (s_is_initiator s) (s_created_at s) (s_last_activity s).
Definition touch (now : pyfloat) (s : SecureSession) : SecureSession :=
  Session (s_transport s) (s_handshake s) (s_session_id s) (s_is_initiator s) (s_created_at s) now.

Section SessionIO.
Context `{Aead}.

Definition session_send (now : pyfloat) (message : dict) (drain : option exn) (s : SecureSession) :
    result unit * SecureSession :=
  let s := touch now s in
  let '(r, et) := send_message message [] drain (s_transport s) in (r, set_transport et s).
Definition session_send_binary (now : pyfloat) (payload : bytes) (drain : option exn) (s : SecureSession) :
    result unit * SecureSession :=
  let s := touch now s in
  let '(r, et) := send_binary payload [] drain (s_transport s) in (r, set_transport et s).
(** The activity time moves only when a frame was received. *)
Definition session_receive (now : pyfloat) (s : SecureSession) : result received * SecureSession :=
  let '(r, et) := receive_frame [] (s_transport s) in
  let s := set_transport et s in
  match r with
  | Ok f => (Ok f, touch now s)
  | Err e => (Err e, s)
  end.
End SessionIO.
Definition session_close (s : SecureSession) : SecureSession := set_transport (et_close (s_transport s)) s.

(** The tail of [initiate_secure_session] and [accept_secure_session]: from a
    completed handshake to a session, or the error that closes the connection. *)
Definition establish `{Hkdf} (now : pyfloat) (t : TCPConnection) (h : HandshakeResult) (is_initiator : bool) : result SecureSession :=
  let* session_keys := result_session_keys h is_initiator in
  let* channel := new_channel session_keys in
  Ok (new_session now (Transport t channel) h (session_id session_keys) is_initiator).

Section Sessions.
Context `{Ed25519} `{X25519} `{Hkdf}.
Variable exn_text : exn -> pystr.
Variable py_repr : pystr -> pystr.

(** What a handshake leaves in the objects it shares with the caller: the
    nonce cache, the trust store and the security events emitted. *)
Definition hs_shared : Type := NonceCache * option TrustStore * list SecurityEvent.

(** Runs the handshake of one role on the streams of the connection. *)
Definition run_handshake (role : M HandshakeResult) (t : TCPConnection) (cache : NonceCache) (store : option TrustStore) :
    result HandshakeResult * TCPConnection * hs_shared :=
  let '(r, s) := role (HsState (tcp_reader t) (tcp_written t) cache store []) in
  (r, Tcp (hs_reader s) (hs_written s) (tcp_closed t) (writer_closing t) (tcp_peer t), (hs_cache s, hs_store s, hs_events s)).

(** The [try] block of both functions: the session, or the error after the
    connection has been closed. The session owns its connection; on an error the
    closed connection is returned beside it. *)
Definition secure_session (role : M HandshakeResult) (is_initiator : bool) (now : pyfloat) (tcp_conn : TCPConnection)
    (cache : NonceCache) (store : option TrustStore) : result SecureSession * option TCPConnection * hs_shared :=
  let '(r, tcp_conn, shared) := run_handshake role tcp_conn cache store in
  match rbind r (fun h => establish now tcp_conn h is_initiator) with
  | Ok s => (Ok s, None, shared)
  | Err e => (Err e, Some (tcp_close tcp_conn), shared)
  end.

Definition initiate_secure_session (env : hs_env) (now : pyfloat) (connected : result TCPConnection) (cache : NonceCache)
    (store : option TrustStore) : result SecureSession * option TCPConnection * hs_shared :=
  match open_tcp_connection connected with
  | Err e => (Err e, None, (cache, store, []))
  | Ok tcp_conn => secure_session (perform_handshake_initiator exn_text py_repr env) true now tcp_conn cache store
  end.

Definition accept_secure_session (env : hs_env) (now : pyfloat) (tcp_conn : TCPConnection) (cache : NonceCache)
    (store : option TrustStore) : result SecureSession * option TCPConnection * hs_shared :=
  secure_session (perform_handshake_responder exn_text py_repr env) false now tcp_conn cache store.
End Sessions.

(** *** SecureSessionManager

    Sessions are objects: the manager holds references to them, and a session
    may die while it is registered. The heap maps a reference to the peer and
    whether it is alive; [create_task(old.close())] is a scheduled close. *)

Record session_obj : Type := SessionObj {
  so_peer : pystr;
  so_alive : bool
}.
Record SecureSessionManager : Type := Manager {
  sessions : gmap pystr nat;        (* _sessions, by peer device id *)
  heap : gmap nat session_obj;
  scheduled : list nat              (* sessions whose close task is pending *)
}.
Definition alive (m : SecureSessionManager) (r : nat) : bool :=
  match heap m !! r with
  | Some o => so_alive o
  | None => false
  end.
Definition set_dead (r : nat) (h : gmap nat session_obj) : gmap nat session_obj :=
  alter (fun o => SessionObj (so_peer o) false) r h.

Definition register (r : nat) (m : SecureSessionManager) : SecureSessionManager :=
  match heap m !! r with
  | None => m
  | Some o =>
      let sched := match sessions m !! so_peer o with
                   | Some old => if alive m old && negb (bool_decide (old = r)) then scheduled m ++ [old] else scheduled m
                   | None => scheduled m
                   end in
      Manager (<[so_peer o := r]> (sessions m)) (heap m) sched
  end.
Definition get_session (device_id : pystr) (m : SecureSessionManager) : option nat * SecureSessionManager :=
  match sessions m !! device_id with
  | None => (None, m)
  | Some r => if alive m r then (Some r, m)
              else (None, Manager (delete device_id (sessions m)) (heap m) (scheduled m))
  end.
Definition remove (device_id : pystr) (m : SecureSessionManager) : option nat * SecureSessionManager :=
  (sessions m !! device_id, Manager (delete device_id (sessions m)) (heap m) (scheduled m)).
Definition active_device_ids (m : SecureSessionManager) : list pystr * SecureSessionManager :=
  let live := filter (fun kv => alive m kv.2 = true) (sessions m) in
  (map fst (map_to_list live), Manager live (heap m) (scheduled m)).
Definition close_all (m : SecureSessionManager) : SecureSessionManager :=
  Manager ∅ (fold_right set_dead (heap m) (map snd (map_to_list (sessions m)))) (scheduled m).
Definition manager_len (m : SecureSessionManager) : Z := Z.of_nat (size (sessions m)).
(** A scheduled close task runs, or a connection dies by itself. *)
Definition run_scheduled (m : SecureSessionManager) : SecureSessionManager :=
  match scheduled m with
  | [] => m
  | r :: rs => Manager (sessions m) (set_dead r (heap m)) rs
  end.
Definition die (r : nat) (m : SecureSessionManager) : SecureSessionManager :=
  Manager (sessions m) (set_dead r (heap m)) (scheduled m).

(** ** The encrypted stream *)

Inductive outgoing : Type :=
  | OJson (message : dict)
  | OBinary (payload : bytes).
Definition inner (o : outgoing) : bytes :=
  match o with
  | OJson m => TYPE_JSON ++ map z2b (dumps (JObj m))
  | OBinary p => TYPE_BINARY ++ p
  end.
(** A message that fits one frame with its header, marker and tag. *)
Definition outgoing_ok (o : outgoing) : bool :=
  match o with
  | OJson m => json_ok (JObj m) && (zlen (inner o) + 24 <=? MAX_MESSAGE_SIZE)
  | OBinary p => zlen (inner o) + 24 <=? MAX_MESSAGE_SIZE
  end.
Definition as_received (o : outgoing) : received :=
  match o with
  | OJson m => RJson (JObj m)
  | OBinary p => RBinary p
  end.

Lemma open_inner o : outgoing_ok o = true -> open_payload (inner o) = Ok (as_received o).
Proof.
  destruct o as [m|p]; cbn [outgoing_ok inner]; intros Ho; [|done]. zbool.
  unfold open_payload. change (TYPE_JSON ++ map z2b (dumps (JObj m))) with (x4a :: map z2b (dumps (JObj m))).
  change (take 1 (x4a :: map z2b (dumps (JObj m)))) with [x4a].
  change (drop 1 (x4a :: map z2b (dumps (JObj m)))) with (map z2b (dumps (JObj m))).
  rewrite (bool_decide_eq_true_2 ([x4a] = TYPE_JSON)) by reflexivity.
  rewrite utf8_decode_ascii by by apply dumps_ascii. cbn [rbind]. by rewrite loads_dumps.
Qed.

Lemma struct_pack_Q_ok n : 0 <= n < 2 ^ 64 -> struct_pack_Q n = Ok (be_encode 8 n).
Proof. intros Hn. unfold struct_pack_Q. rewrite (proj2 (Z.leb_le 0 n)), (proj2 (Z.ltb_lt n (2 ^ 64))) by lia. done. Qed.

Section Stream.
Context {A : Aead} {AL : AeadLaws A}.

(** The frame that carries an inner payload under a sequence number. *)
Definition secure_frame (keys : SessionKeys) (n : Z) (p ad : bytes) : frame :=
  FBinary (be_encode 8 n ++ aead_encrypt (send_key keys) (be_encode 12 n) p ad).
Definition frame_wire (f : frame) : bytes := match encode_any f with Ok b => b | Err _ => [] end.

Lemma secure_frame_ok keys n p ad :
  zlen p + 24 <= MAX_MESSAGE_SIZE -> frame_ok (secure_frame keys n p ad) = true.
Proof.
  intros Hp. unfold secure_frame, frame_ok. rewrite zlen_app. unfold zlen in *.
  rewrite be_encode_length, aead_encrypt_length. apply andb_true_intro. split; [apply Z.ltb_lt | apply Z.leb_le]; lia.
Qed.

Lemma frame_wire_ok f : frame_ok f = true -> encode_any f = Ok (frame_wire f).
Proof.
  intros Hf. unfold frame_wire. destruct (encode_any f) eqn:E; [done|]. exfalso. destruct f as [m|p]; cbn [encode_any] in E.
  - by rewrite encode_frame_ok in E.
  - unfold frame_ok in Hf. zbool. rewrite encode_binary_frame_ok in E by lia. done.
Qed.

Lemma send_encrypted_ok p ad et :
  zlen p + 24 <= MAX_MESSAGE_SIZE -> is_closing (et_tcp et) = false ->
  0 <= send_sequence (et_channel et) < 2 ^ 64 ->
  send_encrypted p ad None et =
    (Ok tt,
     Transport
       (Tcp (tcp_reader (et_tcp et))
          (tcp_written (et_tcp et)
           ++ frame_wire (secure_frame (session_keys (et_channel et)) (send_sequence (et_channel et)) p ad))
          (tcp_closed (et_tcp et)) (writer_closing (et_tcp et)) (tcp_peer (et_tcp et)))
       (Channel (session_keys (et_channel et)) (send_sequence (et_channel et) + 1)
          (expected_recv_sequence (et_channel et)))).
Proof.
  intros Hp Hc Hs. unfold send_encrypted, encrypt. rewrite construct_nonce_ok by lia. cbn [rbind ef_sequence ef_ciphertext].
  rewrite struct_pack_Q_ok by done.
  set (f := secure_frame (session_keys (et_channel et)) (send_sequence (et_channel et)) p ad).
  pose proof (frame_wire_ok f (secure_frame_ok _ _ _ _ Hp)) as Hw. unfold f in Hw at 1. cbn [secure_frame encode_any] in Hw.
  unfold tcp_write_binary_frame, write_binary_frame, tcp_write. rewrite Hc, Hw. done.
Qed.

Lemma receive_secure_frame keys n p ad et rest :
  frame_ok (secure_frame keys n p ad) = true -> 0 <= n < 2 ^ 64 ->
  tcp_reader (et_tcp et) = frame_wire (secure_frame keys n p ad) ++ rest -> is_closing (et_tcp et) = false ->
  recv_key (session_keys (et_channel et)) = send_key keys -> expected_recv_sequence (et_channel et) = n ->
  receive_frame ad et =
    (open_payload p,
     Transport (Tcp rest (tcp_written (et_tcp et)) (tcp_closed (et_tcp et)) (writer_closing (et_tcp et)) (tcp_peer (et_tcp et)))
       (Channel (session_keys (et_channel et)) (send_sequence (et_channel et)) (n + 1))).
Proof.
  intros Hf Hn Hr Hc Hk He. unfold receive_frame, tcp_read_frame. rewrite Hc, Hr.
  rewrite (read_encoded (secure_frame keys n p ad)) by (done || by apply frame_wire_ok).
  unfold secure_frame at 1. cbn [et_channel].
  assert (zlen (be_encode 8 n ++ aead_encrypt (send_key keys) (be_encode 12 n) p ad) = 8 + (zlen p + 16)) as Hl.
  { rewrite zlen_app. unfold zlen. rewrite be_encode_length, aead_encrypt_length. lia. }
  rewrite Hl, (proj2 (Z.ltb_ge _ MIN_ENCRYPTED_PAYLOAD_LEN)).
  2: { pose proof (zlen_nonneg p). unfold MIN_ENCRYPTED_PAYLOAD_LEN, SEQUENCE_SIZE. lia. }
  rewrite take_app_exact, drop_app_exact by apply be_encode_length. rewrite be_decode_encode_small by done.
  unfold decrypt. rewrite He, Z.eqb_refl, construct_nonce_ok by lia. cbn [negb rbind].
  rewrite Hk, aead_decrypt_encrypt. done.
Qed.

Definition send_outgoing (o : outgoing) (et : EncryptedTransport) : result unit * EncryptedTransport :=
  match o with
  | OJson m => send_message m [] None et
  | OBinary p => send_binary p [] None et
  end.
Fixpoint send_outgoings (os : list outgoing) (et : EncryptedTransport) : result unit * EncryptedTransport :=
  match os with
  | [] => (Ok tt, et)
  | o :: os => match send_outgoing o et with
               | (Ok _, et) => send_outgoings os et
               | (Err e, et) => (Err e, et)
               end
  end.
Fixpoint receive_n (n : nat) (et : EncryptedTransport) : result (list received) * EncryptedTransport :=
  match n with
  | O => (Ok [], et)
  | S n => match receive_frame [] et with
           | (Ok r, et) => let '(rs, et) := receive_n n et in (let* rs := rs in Ok (r :: rs), et)
           | (Err e, et) => (Err e, et)
           end
  end.

Lemma send_outgoing_inner o et : outgoing_ok o = true -> send_outgoing o et = send_encrypted (inner o) [] None et.
Proof.
  destruct o as [m|p]; cbn [outgoing_ok send_outgoing]; intros Ho; [|done]. zbool. unfold send_message.
  by rewrite utf8_encode_ascii by by apply dumps_ascii.
Qed.
Lemma outgoing_fits o : outgoing_ok o = true -> zlen (inner o) + 24 <= MAX_MESSAGE_SIZE.
Proof. destruct o; cbn [outgoing_ok]; intros Ho; zbool; lia. Qed.

(** What one end of an established transport sends, the other end receives: any
    sequence of messages that fit a frame is accepted by the sender and, read
    from its output followed by anything, decoded by the receiver to the same
    messages in the same order, with the counters still in step. *)
Lemma transport_delivers os : forall a b rest,
  forallb outgoing_ok os = true ->
  is_closing (et_tcp a) = false -> is_closing (et_tcp b) = false ->
  recv_key (session_keys (et_channel b)) = send_key (session_keys (et_channel a)) ->
  expected_recv_sequence (et_channel b) = send_sequence (et_channel a) ->
  0 <= send_sequence (et_channel a) -> send_sequence (et_channel a) + zlen os <= 2 ^ 64 ->
  exists a' w, send_outgoings os a = (Ok tt, a') /\ tcp_written (et_tcp a') = tcp_written (et_tcp a) ++ w /\
    (tcp_reader (et_tcp b) = w ++ rest ->
     exists b', receive_n (length os) b = (Ok (map as_received os), b') /\ tcp_reader (et_tcp b') = rest /\
       expected_recv_sequence (et_channel b') = send_sequence (et_channel a')).
Proof.
  induction os as [|o os IH]; intros a b rest Hok Ha Hb Hk He H0 Hm; cbn [send_outgoings receive_n forallb length map] in *.
  { exists a, []. split; [done|]. rewrite app_nil_r. split; [done|]. intros Hr. exists b. done. }
  zbool. rewrite zlen_cons in Hm. pose proof (zlen_nonneg os).
  rewrite send_outgoing_inner, send_encrypted_ok by (done || lia || by apply outgoing_fits).
  set (f := secure_frame (session_keys (et_channel a)) (send_sequence (et_channel a)) (inner o) []).
  edestruct (IH (Transport (Tcp (tcp_reader (et_tcp a)) (tcp_written (et_tcp a) ++ frame_wire f) (tcp_closed (et_tcp a))
      (writer_closing (et_tcp a)) (tcp_peer (et_tcp a))) (Channel (session_keys (et_channel a))
      (send_sequence (et_channel a) + 1) (expected_recv_sequence (et_channel a))))
    (Transport (Tcp (tl (tcp_reader (et_tcp b)))  (tcp_written (et_tcp b)) (tcp_closed (et_tcp b))
      (writer_closing (et_tcp b)) (tcp_peer (et_tcp b))) (Channel (session_keys (et_channel b))
      (send_sequence (et_channel b)) (send_sequence (et_channel a) + 1))) rest) as (a' & w & E1 & E2 & _);
    cbn [et_tcp et_channel session_keys send_sequence expected_recv_sequence]; try done; try lia.
  exists a', (frame_wire f ++ w). split; [done|]. cbn [et_tcp tcp_written] in E2. split; [by rewrite app_assoc|].
  intros Hr. rewrite <- app_assoc in Hr.
  rewrite (receive_secure_frame (session_keys (et_channel a)) (send_sequence (et_channel a)) (inner o) [] b (w ++ rest))
    by (done || lia || apply secure_frame_ok; by apply outgoing_fits).
  rewrite open_inner by done.
  edestruct (IH (Transport (Tcp (tcp_reader (et_tcp a)) (tcp_written (et_tcp a) ++ frame_wire f) (tcp_closed (et_tcp a))
      (writer_closing (et_tcp a)) (tcp_peer (et_tcp a))) (Channel (session_keys (et_channel a))
      (send_sequence (et_channel a) + 1) (expected_recv_sequence (et_channel a))))
    (Transport (Tcp (w ++ rest)  (tcp_written (et_tcp b)) (tcp_closed (et_tcp b))
      (writer_closing (et_tcp b)) (tcp_peer (et_tcp b))) (Channel (session_keys (et_channel b))
      (send_sequence (et_channel b)) (send_sequence (et_channel a) + 1))) rest) as (a2 & w2 & F1 & F2 & F3);
    cbn [et_tcp et_channel session_keys send_sequence expected_recv_sequence]; try done; try lia.
  rewrite E1 in F1. injection F1 as <-. cbn [et_tcp tcp_written] in F2. rewrite E2 in F2. apply app_inv_head in F2 as <-.
  destruct F3 as (b' & G1 & G2 & G3); [done|]. exists b'. rewrite G1. done.
Qed.
End Stream.
