(* ===== verification/SessionFacts.v ===== *)
(** * Properties of the secure session layer

    Delivery over sessions established by the handshake, the effect of a failed
    send on the sequence numbers, and the session manager. *)

From stdpp Require Import base gmap strings list numbers option fin_maps.
From Stdlib Require Import ZArith Lia Strings.Byte.
From S2P Require Import Prelude PyStr PyFloat Errors Json JsonFacts Sha256 Frame Messages CryptoIface ToyCrypto Identity TrustStore Channel Handshake HandshakeFacts Transport.
Open Scope Z_scope.
Open Scope peerc_scope.

(** ** End to end *)

Section EndToEnd.
Context {Ed : Ed25519} {EdL : Ed25519Laws Ed} {X : X25519} {XL : X25519Laws X}.
Context {H : Hkdf} {HL : HkdfLaws H} {A : Aead} {AL : AeadLaws A}.
Variable exn_text : exn -> pystr.
Variable py_repr : pystr -> pystr.

(** The session keys that both roles derive from a completed handshake. *)
Definition keys_of (secret hash : bytes) (is_initiator : bool) : SessionKeys :=
  let i := hkdf_expand secret hash INFO_INIT_TO_RESP KEY_LEN in
  let r := hkdf_expand secret hash INFO_RESP_TO_INIT KEY_LEN in
  let sid := hex_of_bytes (hkdf_expand secret hash INFO_SESSION_ID SESSION_ID_LEN) in
  if is_initiator then MkSessionKeys i r sid else MkSessionKeys r i sid.

Lemma establish_ok now t h b :
  length (shared_secret h) = 32%nat -> length (transcript_hash h) = 32%nat ->
  establish now t h b =
    Ok (new_session now (Transport t (Channel (keys_of (shared_secret h) (transcript_hash h) b) 0 0)) h
          (session_id (keys_of (shared_secret h) (transcript_hash h) b)) b).
Proof.
  intros Hs Ht. unfold establish, result_session_keys. rewrite derive_ok by done. cbn [rbind]. cbn zeta.
  fold (keys_of (shared_secret h) (transcript_hash h) b). unfold new_channel.
  assert (forall info, zlen (hkdf_expand (shared_secret h) (transcript_hash h) info KEY_LEN) = 32) as Hk
    by (intros info; apply hkdf_length; unfold KEY_LEN; lia).
  destruct b; cbn [keys_of send_key recv_key]; by rewrite !Hk.
Qed.

(** A program that sends, or receives, several messages on a session. *)
Definition session_send_one (now : pyfloat) (o : outgoing) (s : SecureSession) : result unit * SecureSession :=
  match o with
  | OJson m => session_send now m None s
  | OBinary p => session_send_binary now p None s
  end.
Fixpoint session_sends (now : pyfloat) (os : list outgoing) (s : SecureSession) : result unit * SecureSession :=
  match os with
  | [] => (Ok tt, s)
  | o :: os => match session_send_one now o s with
               | (Ok _, s) => session_sends now os s
               | (Err e, s) => (Err e, s)
               end
  end.
Fixpoint session_receives (now : pyfloat) (n : nat) (s : SecureSession) : result (list received) * SecureSession :=
  match n with
  | O => (Ok [], s)
  | S n => match session_receive now s with
           | (Ok r, s) => let '(rs, s) := session_receives now n s in (let* rs := rs in Ok (r :: rs), s)
           | (Err e, s) => (Err e, s)
           end
  end.

(** The session's own calls do on its transport what the transport's do. *)
Lemma session_sends_transport now os : forall s r et,
  send_outgoings os (s_transport s) = (r, et) ->
  exists s', session_sends now os s = (r, s') /\ s_transport s' = et /\ s_handshake s' = s_handshake s.
Proof.
  induction os as [|o os IH]; intros s r et; cbn [send_outgoings session_sends]; [intros [= <- <-]; by exists s|].
  assert (exists s1, session_send_one now o s = (fst (send_outgoing o (s_transport s)), s1) /\
    s_transport s1 = snd (send_outgoing o (s_transport s)) /\ s_handshake s1 = s_handshake s) as (s1 & E1 & E2 & E3).
  { destruct o as [m|p]; cbn [session_send_one send_outgoing].
    - unfold session_send. cbn [touch s_transport]. destruct (send_message _ _ _ _). eexists. done.
    - unfold session_send_binary. cbn [touch s_transport]. destruct (send_binary _ _ _ _). eexists. done. }
  rewrite E1. destruct (send_outgoing o (s_transport s)) as [[[]|e] et1]; cbn [fst snd] in *; subst.
  - intros E. destruct (IH s1 r et E) as (s' & F1 & F2 & F3). exists s'. by rewrite F1, F3.
  - intros [= <- <-]. by exists s1.
Qed.
Lemma session_receives_transport now n : forall s r et,
  receive_n n (s_transport s) = (r, et) -> exists s', session_receives now n s = (r, s') /\ s_transport s' = et.
Proof.
  induction n as [|n IH]; intros s r et; cbn [receive_n session_receives]; [intros [= <- <-]; by exists s|].
  unfold session_receive. destruct (receive_frame [] (s_transport s)) as [[f|e] et1]; [|intros [= <- <-]; by eexists].
  destruct (receive_n n et1) as [rs et2] eqn:E. destruct (IH (touch now (set_transport et1 s)) rs et2 E) as (s' & F1 & F2).
  intros [= <- <-]. exists s'. by rewrite F1.
Qed.

(** C26: secure sessions work end to end. For two honest parties, over a connection
    that carries every byte, [initiate_secure_session] and
    [accept_secure_session] both return a live session with the same session id
    and each other's device id, and any messages the initiator then sends on its
    session are received on the responder's session, unchanged and in order. *)
Theorem secure_session_end_to_end envI envR nowI nowR later tI cI cR stI stR restI restR secret os :
  honest envI -> honest envR -> fits (init_message envI) -> fits (conv_response envI envR) ->
  fits (conv_finish envI envR) ->
  snd (check_and_add (clock envI 1) cI (my_nonce envR)) = true ->
  snd (check_and_add (clock envR 1) cR (my_nonce envI)) = true ->
  not_rejected stI (kp_device_id (my_identity envR)) (my_pub_hex envR) ->
  not_rejected stR (kp_device_id (my_identity envI)) (my_pub_hex envI) ->
  x_exchange (my_ephemeral envI) (x_public (my_ephemeral envR)) = Ok secret ->
  tI = new_tcp (wire (conv_response envI envR) ++ restI) None ->
  forallb outgoing_ok os = true -> zlen os <= 2 ^ 64 ->
  exists sI sI', fst (fst (initiate_secure_session exn_text py_repr envI nowI (Ok tI) cI stI)) = Ok sI /\ is_alive sI = true /\
    session_sends later os sI = (Ok tt, sI') /\
    forall tR, tR = new_tcp (tcp_written (et_tcp (s_transport sI')) ++ restR) None ->
    exists sR sR', fst (fst (accept_secure_session exn_text py_repr envR nowR tR cR stR)) = Ok sR /\ is_alive sR = true /\
      s_session_id sR = s_session_id sI /\
      s_peer_device_id sI = kp_device_id (my_identity envR) /\ s_peer_device_id sR = kp_device_id (my_identity envI) /\
      session_receives later (length os) sR = (Ok (map as_received os), sR') /\
      tcp_reader (et_tcp (s_transport sR')) = restR.
Proof.
  intros HI HR F1 F2 F3 N1 N2 T1 T2 Hx -> Hos Hn.
  destruct (initiator_run exn_text py_repr envI envR (HsState (wire (conv_response envI envR) ++ restI) [] cI stI [])
    restI secret HI HR F1 F2 F3 eq_refl N1 T1 Hx) as (dI & s1 & E1 & E2 & E3).
  pose proof (x_exchange_length _ _ _ Hx) as Hlen. assert (Hx' := Hx). rewrite x_exchange_comm in Hx'.
  unfold initiate_secure_session, open_tcp_connection, secure_session, run_handshake. cbn [new_tcp tcp_reader tcp_written].
  rewrite E1. cbn [fst snd rbind]. rewrite establish_ok by (done || apply sha256_length). cbn [fst].
  set (kI := keys_of _ _ true). cbn [shared_secret transcript_hash] in kI.
  set (kR := keys_of secret (conv_hash envI envR) false).
  edestruct (transport_delivers os
    (Transport (Tcp (hs_reader s1) (hs_written s1) false false None) (Channel kI 0 0))
    (Transport (Tcp [] [] false false None) (Channel kR 0 0)) restR) as (a' & w & G1 & G2 & _);
    cbn [et_tcp et_channel send_sequence session_keys expected_recv_sequence]; try done.
  match goal with |- context [Ok (new_session ?n ?t ?h ?i ?b)] => set (sI := new_session n t h i b) end.
  destruct (session_sends_transport later os sI (Ok tt) a' G1) as (sI' & S1 & S2 & _).
  exists sI, sI'. split; [done|]. split; [done|]. split; [exact S1|]. intros tR ->. rewrite S2.
  cbn [et_tcp tcp_written] in G2. rewrite E2 in G2. cbn [hs_written app] in G2. rewrite G2, <- !app_assoc.
  destruct (responder_run exn_text py_repr envI envR
    (HsState (wire (init_message envI) ++ wire (conv_finish envI envR) ++ w ++ restR) [] cR stR [])
    (w ++ restR) secret HI HR F1 F2 F3 eq_refl N2 T2 Hx') as (dR & s2 & E4 & E5 & E6).
  unfold accept_secure_session, secure_session, run_handshake. cbn [new_tcp tcp_reader tcp_written].
  rewrite E4. cbn [fst snd rbind]. rewrite establish_ok by (done || apply sha256_length). cbn [fst].
  rewrite E6.
  edestruct (transport_delivers os
    (Transport (Tcp (hs_reader s1) (hs_written s1) false false None) (Channel kI 0 0))
    (Transport (Tcp (w ++ restR) (hs_written s2) false false None) (Channel kR 0 0)) restR) as (a2 & w2 & K1 & K2 & K3);
    cbn [et_tcp et_channel send_sequence session_keys expected_recv_sequence]; try done.
  rewrite G1 in K1. injection K1 as <-. cbn [et_tcp tcp_written] in K2. rewrite E2 in K2. cbn [hs_written app] in K2.
  rewrite G2 in K2. apply app_inv_head in K2 as <-. destruct K3 as (b' & L1 & L2 & _); [done|].
  match goal with |- context [Ok (new_session ?n ?t ?h ?i ?b)] => set (sR := new_session n t h i b) end.
  destruct (session_receives_transport later (length os) sR _ _ L1) as (sR' & S3 & S4).
  exists sR, sR'. do 5 (split; [done|]). rewrite S4. split; [exact S3 | done].
Qed.
End EndToEnd.

(** ** A failed send consumes a sequence number *)

Section Desync.
Context {A : Aead} {AL : AeadLaws A}.

Lemma encode_binary_frame_large p : MAX_MESSAGE_SIZE < zlen p -> encode_binary_frame p = Err ProtocolError.
Proof. intros Hp. unfold encode_binary_frame. by rewrite (proj2 (Z.ltb_lt _ _) Hp). Qed.

(** An oversized message breaks the session for good. [send_binary] of a
    payload that does not fit a frame raises [TransportError] after the channel
    has already advanced its counter, nothing is written, and the next message,
    although sent successfully, is refused by the peer as replayed or reordered. *)
Theorem oversized_send_desynchronises a b p o rest :
  MAX_MESSAGE_SIZE < zlen p + 25 ->
  is_closing (et_tcp a) = false -> is_closing (et_tcp b) = false ->
  expected_recv_sequence (et_channel b) = send_sequence (et_channel a) ->
  0 <= send_sequence (et_channel a) < 2 ^ 64 - 1 -> outgoing_ok o = true ->
  exists a1 a2 w, send_binary p [] None a = (Err TransportError, a1) /\
    tcp_written (et_tcp a1) = tcp_written (et_tcp a) /\ is_closing (et_tcp a1) = false /\
    send_outgoing o a1 = (Ok tt, a2) /\ tcp_written (et_tcp a2) = tcp_written (et_tcp a) ++ w /\
    (tcp_reader (et_tcp b) = w ++ rest -> fst (receive_frame [] b) = Err ReplayOrReorderError).
Proof.
  intros Hp Ha Hb He Hs Ho.
  assert (send_binary p [] None a = (Err TransportError, Transport (et_tcp a)
    (Channel (session_keys (et_channel a)) (send_sequence (et_channel a) + 1) (expected_recv_sequence (et_channel a))))) as E.
  { unfold send_binary, send_encrypted, encrypt. rewrite construct_nonce_ok by lia. cbn [rbind ef_sequence ef_ciphertext].
    rewrite struct_pack_Q_ok by lia. unfold tcp_write_binary_frame, write_binary_frame, tcp_write. rewrite Ha.
    rewrite encode_binary_frame_large; [done|].
    rewrite zlen_app. unfold zlen in *. rewrite be_encode_length, aead_encrypt_length, length_app. cbn [length TYPE_BINARY].
    change (length TYPE_BINARY) with 1%nat. lia. }
  rewrite E. do 3 eexists. split; [done|]. split; [done|]. split; [done|].
  rewrite send_outgoing_inner, send_encrypted_ok by (done || by apply outgoing_fits || (cbn; lia)).
  split; [done|]. split; [done|]. cbn [et_channel session_keys send_sequence]. intros Hr.
  set (f := secure_frame _ _ _ _) in Hr.
  assert (frame_ok f = true) as Hf by (apply secure_frame_ok; by apply outgoing_fits).
  unfold receive_frame, tcp_read_frame. rewrite Hb, Hr, (read_encoded f) by (done || by apply frame_wire_ok).
  unfold f, secure_frame. cbn [et_channel].
  rewrite (proj2 (Z.ltb_ge _ MIN_ENCRYPTED_PAYLOAD_LEN)).
  2: { rewrite zlen_app. pose proof (zlen_nonneg (inner o)). unfold zlen in *. rewrite be_encode_length, aead_encrypt_length.
       unfold MIN_ENCRYPTED_PAYLOAD_LEN, SEQUENCE_SIZE. lia. }
  rewrite take_app_exact by apply be_encode_length. rewrite be_decode_encode_small by lia.
  unfold decrypt. rewrite (proj2 (Z.eqb_neq _ _)) by lia. done.
Qed.

(** The 8-byte sequence header is narrower than the 12-byte counter: at 2^64 the
    send raises [struct.error], which is not a [TransportError]. *)
Lemma sequence_header_overflow p ad drain a :
  send_sequence (et_channel a) = 2 ^ 64 -> fst (send_encrypted p ad drain a) = Err StructError.
Proof.
  intros Hs. unfold send_encrypted, encrypt. rewrite Hs, construct_nonce_ok by lia. cbn [rbind ef_sequence].
  done.
Qed.
End Desync.

(** ** Errors of the layers *)

(** Whatever the socket and the bytes do, an operation on a connection that
    fails raises a [TransportError]; when it is [ConnectionClosedError] the
    connection is closed afterwards. *)
Definition tcp_failed (e : exn) (t' : TCPConnection) : Prop :=
  isinstance e (Exn TransportError) = true /\ (e = ConnectionClosedError -> is_closing t' = true).

Lemma tcp_read_errors t e t' : tcp_read_frame t = (Err e, t') -> tcp_failed e t'.
Proof.
  unfold tcp_read_frame, tcp_failed. destruct (is_closing t) eqn:Ec; [intros [= <- <-]; done|].
  destruct (read_any_frame _) as [[f rest]|x]; [done|]. destruct x; intros [= <- <-]; (split; [by vm_compute|]); done.
Qed.
Lemma tcp_write_errors w drain t e t' : tcp_write w drain t = (Err e, t') -> tcp_failed e t'.
Proof.
  unfold tcp_write, tcp_failed. destruct (is_closing t) eqn:Ec; [intros [= <- <-]; done|].
  destruct w as [w|x]; [destruct drain as [x|]; [|done]|]; destruct (is_oserror x); intros [= <- <-];
    (split; [by vm_compute|]); done.
Qed.
Lemma open_tcp_errors r e : open_tcp_connection r = Err e ->
  isinstance e (Exn TransportError) = true /\ (isinstance e TransportTimeoutError = true <-> r = Err TimeoutError).
Proof. destruct r as [t|x]; [done|]. destruct x; intros [= <-]; split; vm_compute; naive_solver. Qed.

Section TransportErrors.
Context {A : Aead}.

(** [receive_frame] raises a [TransportError], an error of the channel, or the
    plain [ValueError] of an integer literal too long for [int]: nothing else,
    whatever the peer sends. After an error of the channel its counters are
    those before. *)
Lemma receive_frame_errors ad et e et' : receive_frame ad et = (Err e, et') ->
  (excepts [Exn TransportError; Exn EncryptionError] e = true \/ e = ValueError) /\
  (isinstance e (Exn EncryptionError) = true -> et_channel et' = et_channel et).
Proof.
  unfold receive_frame. destruct (tcp_read_frame (et_tcp et)) as [r tcp] eqn:Er. destruct r as [[m|p]|x].
  - intros [= <- <-]. split; [by left|done].
  - destruct (zlen p <? _); [intros [= <- <-]; split; [by left|done]|].
    unfold decrypt, construct_nonce. cbn [et_channel]. destruct (negb _); [intros [= <- <-]; split; [by left|done]|].
    destruct (_ || _); [intros [= <- <-]; split; [by left|done]|]. cbn [rbind].
    destruct (aead_decrypt _ _ _ _) as [plain|]; [|intros [= <- <-]; split; [by left|done]].
    unfold open_payload. destruct plain as [|x plain]; [intros [= <- <-]; split; [by left|done]|].
    destruct (bool_decide _); [|by destruct (bool_decide _)].
    destruct (utf8_decode _) as [s|y] eqn:Eu; cbn [rbind].
    + destruct (loads s) as [m|y] eqn:El; [done|]. cbn [rcatch].
      apply loads_errors in El as [-> | ->]; intros [= <- <-]; (split; [|done]); [by left|by right].
    + unfold utf8_decode in Eu. destruct (utf8_decode_opt _); [done|]. injection Eu as <-. intros [= <- <-]. split; [by left|done].
  - intros [= <- <-]. destruct (tcp_read_errors _ _ _ Er) as [H _]. split; [|done]. left. unfold excepts. cbn [existsb]. by rewrite H.
Qed.
End TransportErrors.

(** ** Sessions *)

Section SessionObjects.
Context {A : Aead}.

Lemma send_encrypted_dead p ad d et r et' :
  et_is_closing et = true -> send_encrypted p ad d et = (r, et') -> et_is_closing et' = true.
Proof.
  unfold et_is_closing. intros Hc. unfold send_encrypted. destruct (encrypt _ _ _) as [[f|x] ch].
  - destruct (struct_pack_Q _); [|by intros [= <- <-]]. unfold tcp_write_binary_frame, tcp_write. rewrite Hc. by intros [= <- <-].
  - destruct x; intros [= <- <-]; try done. unfold et_close, tcp_close. cbn [et_tcp].
    by destruct (tcp_closed (et_tcp et)) eqn:E; unfold is_closing; cbn; rewrite ?E.
Qed.
Lemma send_message_dead m ad d et r et' :
  et_is_closing et = true -> send_message m ad d et = (r, et') -> et_is_closing et' = true.
Proof. intros Hc. unfold send_message. destruct (utf8_encode _); [by apply send_encrypted_dead|by intros [= <- <-]]. Qed.

(** The operations of a session. *)
Inductive session_op : Type :=
  | SSend (now : pyfloat) (message : dict) (drain : option exn)
  | SSendBinary (now : pyfloat) (payload : bytes) (drain : option exn)
  | SReceive (now : pyfloat)
  | SClose.
Definition run_session (s : SecureSession) (o : session_op) : SecureSession :=
  match o with
  | SSend now m d => snd (session_send now m d s)
  | SSendBinary now p d => snd (session_send_binary now p d s)
  | SReceive now => snd (session_receive now s)
  | SClose => session_close s
  end.

(** The last activity is the time of the last send, failed ones included, or of
    the last frame received; a failed receive and [close] do not count. *)
Definition activity (s : SecureSession) (o : session_op) : pyfloat :=
  match o with
  | SSend now _ _ | SSendBinary now _ _ => now
  | SReceive now => if is_ok (fst (receive_frame [] (s_transport s))) then now else s_last_activity s
  | SClose => s_last_activity s
  end.

Lemma run_session_fields s o :
  s_last_activity (run_session s o) = activity s o /\ s_handshake (run_session s o) = s_handshake s /\
  s_session_id (run_session s o) = s_session_id s /\ s_is_initiator (run_session s o) = s_is_initiator s /\
  s_created_at (run_session s o) = s_created_at s.
Proof.
  destruct o as [now m d|now p d|now|]; cbn [run_session activity].
  - unfold session_send. by destruct (send_message _ _ _ _).
  - unfold session_send_binary. by destruct (send_binary _ _ _ _).
  - unfold session_receive. by destruct (receive_frame _ _) as [[g|e] et].
  - done.
Qed.

(** Whom a session talks to never changes, whatever happens on it. *)
Lemma session_identity_stable s os :
  let s' := fold_left run_session os s in
  s_peer_device_id s' = s_peer_device_id s /\ s_peer_public_key s' = s_peer_public_key s /\
  s_trust_decision s' = s_trust_decision s /\ s_session_id s' = s_session_id s.
Proof.
  revert s. induction os as [|o os IH]; intros s; cbn [fold_left]; [done|].
  destruct (IH (run_session s o)) as (-> & -> & -> & ->). unfold s_peer_device_id, s_peer_public_key, s_trust_decision.
  by destruct (run_session_fields s o) as (_ & -> & -> & _).
Qed.

(** A dead session never comes back to life, and receives nothing. *)
Lemma closed_stays_closed s o : is_alive s = false -> is_alive (run_session s o) = false.
Proof.
  unfold is_alive. rewrite !negb_false_iff. intros Hc. destruct o as [now m d|now p d|now|]; cbn [run_session].
  - unfold session_send. cbn [touch s_transport]. destruct (send_message m [] d (s_transport s)) as [r et] eqn:E. cbn [snd set_transport s_transport].
    by rewrite (send_message_dead m [] d (s_transport s) r et Hc E).
  - unfold session_send_binary. cbn [touch s_transport]. destruct (send_binary p [] d (s_transport s)) as [r et] eqn:E. cbn [snd set_transport s_transport].
    by rewrite (send_encrypted_dead _ [] d (s_transport s) r et Hc E).
  - unfold session_receive, receive_frame, tcp_read_frame. unfold et_is_closing in Hc. by rewrite Hc.
  - unfold session_close, et_close, et_is_closing, tcp_close. cbn [set_transport s_transport et_tcp].
    by destruct (tcp_closed (et_tcp (s_transport s))) eqn:E; unfold is_closing; cbn; rewrite ?E.
Qed.

Lemma dead_receives_nothing now s : is_alive s = false -> session_receive now s = (Err ConnectionClosedError, s).
Proof.
  unfold is_alive. rewrite negb_false_iff. intros Hc. unfold session_receive, receive_frame, tcp_read_frame.
  unfold et_is_closing in Hc. rewrite Hc. unfold set_transport. by destruct s as [[tcp ch] h i b c l].
Qed.
End SessionObjects.

(** ** The session manager *)

(** Every registered session belongs to the device it is registered under. *)
Definition manager_ok (m : SecureSessionManager) : Prop :=
  forall d r, sessions m !! d = Some r -> exists o, heap m !! r = Some o /\ so_peer o = d.

Inductive manager_op : Type :=
  | MRegister (r : nat)
  | MGet (device_id : pystr)
  | MRemove (device_id : pystr)
  | MActive
  | MCloseAll
  | MRunScheduled
  | MDie (r : nat)
  | MNew (r : nat) (peer : pystr).   (* a new session object is established *)
Definition run_manager (m : SecureSessionManager) (o : manager_op) : SecureSessionManager :=
  match o with
  | MRegister r => register r m
  | MGet d => snd (get_session d m)
  | MRemove d => snd (remove d m)
  | MActive => snd (active_device_ids m)
  | MCloseAll => close_all m
  | MRunScheduled => run_scheduled m
  | MDie r => die r m
  | MNew r peer => if bool_decide (heap m !! r = None)
                   then Manager (sessions m) (<[r := SessionObj peer true]> (heap m)) (scheduled m) else m
  end.

Lemma set_dead_lookup r h q :
  set_dead r h !! q = (fun o => if bool_decide (q = r) then SessionObj (so_peer o) false else o) <$> h !! q.
Proof.
  unfold set_dead. destruct (bool_decide_reflect (q = r)) as [-> | Hne].
  - rewrite lookup_alter_eq. by destruct (h !! r).
  - rewrite lookup_alter_ne by done. by destruct (h !! q).
Qed.

Lemma set_dead_peer r h q o : h !! q = Some o -> exists o', set_dead r h !! q = Some o' /\ so_peer o' = so_peer o.
Proof. intros E. rewrite set_dead_lookup, E. cbn. eexists. split; [done|]. by case_match. Qed.

Lemma manager_ok_set_dead m r l : manager_ok m -> manager_ok (Manager (sessions m) (set_dead r (heap m)) l).
Proof.
  intros Hm d q Hd. destruct (Hm d q Hd) as (o & Ho & Hp). destruct (set_dead_peer r _ _ _ Ho) as (o' & Ho' & Hp').
  exists o'. split; [done|congruence].
Qed.
Lemma manager_ok_sub m s' h l :
  (forall d r, s' !! d = Some r -> sessions m !! d = Some r) -> h = heap m -> manager_ok m -> manager_ok (Manager s' h l).
Proof. intros Hs -> Hm d r Hd. apply Hm. by apply Hs. Qed.

Lemma run_manager_ok m o : manager_ok m -> manager_ok (run_manager m o).
Proof.
  intros Hm. destruct o as [r|d|d| | | |r|r peer]; cbn [run_manager].
  - unfold register. destruct (heap m !! r) as [o|] eqn:E; [|done]. intros d q Hd. cbn [sessions heap] in *.
    destruct (decide (d = so_peer o)) as [-> | Hne].
    + rewrite lookup_insert_eq in Hd. injection Hd as <-. eauto.
    + rewrite lookup_insert_ne in Hd by done. by apply Hm.
  - unfold get_session. destruct (sessions m !! d) as [q|]; [|done]. destruct (alive m q); [done|]. cbn [snd].
    eapply manager_ok_sub; [|done|exact Hm]. intros e q' He. by apply lookup_delete_Some in He as [_ He].
  - cbn. eapply manager_ok_sub; [|done|exact Hm]. intros e q' He. by apply lookup_delete_Some in He as [_ He].
  - cbn. eapply manager_ok_sub; [|done|exact Hm]. intros e q' He. by apply map_lookup_filter_Some in He as [He _].
  - intros d q Hd. cbn [close_all sessions] in Hd. by rewrite lookup_empty in Hd.
  - unfold run_scheduled. destruct (scheduled m) as [|r rs]; [done|]. by apply manager_ok_set_dead.
  - by apply manager_ok_set_dead.
  - destruct (bool_decide_reflect (heap m !! r = None)) as [Hr|]; [|done]. intros d q Hd. cbn [sessions heap] in *.
    destruct (Hm d q Hd) as (o & Ho & Hp). exists o. rewrite lookup_insert_ne by congruence. done.
Qed.

(** The session manager is keyed by authenticated identity: after any sequence
    of registrations, lookups, removals, closes and connection losses, a lookup
    returns only a live session, and one whose handshake authenticated exactly the
    requested device; and registering a session makes it the one returned for its
    device, while a live session it replaces is scheduled to be closed. *)
Theorem session_manager_sound m ops d r :
  manager_ok m ->
  let m' := fold_left run_manager ops m in
  (fst (get_session d m') = Some r -> alive m' r = true /\ exists o, heap m' !! r = Some o /\ so_peer o = d) /\
  (forall o, heap m' !! r = Some o -> so_peer o = d -> so_alive o = true ->
     fst (get_session d (register r m')) = Some r /\
     forall old, fst (get_session d m') = Some old -> old <> r -> old ∈ scheduled (register r m')).
Proof.
  intros Hm m'. assert (manager_ok m') as Hm'.
  { subst m'. revert m Hm. induction ops as [|o ops IH]; intros m Hm; cbn; [done|]. by apply IH, run_manager_ok. }
  clearbody m'. split.
  - unfold get_session. destruct (sessions m' !! d) as [q|] eqn:E; [|done]. destruct (alive m' q) eqn:Ea; [|done].
    cbn. intros [= <-]. split; [done|]. by apply Hm'.
  - intros o Ho Hd Ha. subst d. unfold register. rewrite Ho. unfold get_session. cbn [sessions]. rewrite lookup_insert_eq.
    assert (alive (Manager (<[so_peer o:=r]> (sessions m')) (heap m') (match sessions m' !! so_peer o with
      | Some old => if alive m' old && negb (bool_decide (old = r)) then scheduled m' ++ [old] else scheduled m'
      | None => scheduled m' end)) r = true) as -> by (unfold alive; cbn [heap]; by rewrite Ho).
    split; [done|]. intros old. destruct (sessions m' !! so_peer o) as [q|]; [|done].
    destruct (alive m' q) eqn:Ea; [|done]. cbn [fst]. intros [= <-] Hne. rewrite bool_decide_eq_false_2 by done. cbn.
    apply elem_of_app. right. by apply list_elem_of_singleton.
Qed.

(** ** Concrete instances *)

Lemma session_manager_sound_witness :
  let m := Manager ∅ ∅ [] in
  let ops := [MNew 1 (py "d"); MRegister 1; MNew 2 (py "d")] in
  let m' := fold_left run_manager ops m in
  fst (get_session (py "d") (register 2 m')) = Some 2%nat /\ 1%nat ∈ scheduled (register 2 m').
Proof.
  intros m ops m'. assert (manager_ok m) as Hm by (intros d q Hd; discriminate Hd).
  destruct (session_manager_sound m ops (py "d") 2 Hm) as [_ Hr].
  destruct (Hr (SessionObj (py "d") true)) as [H1 H2]; [vm_compute; reflexivity | reflexivity | reflexivity |].
  split; [exact H1|]. apply H2; [vm_compute; reflexivity | discriminate].
Defined.

Definition demo_transport (b : bool) (reader : bytes) : EncryptedTransport :=
  Transport (new_tcp reader None) (Channel (demo_keys b) 0 0).

Lemma oversized_send_desynchronises_witness :
  let p := replicate (Z.to_nat MAX_MESSAGE_SIZE) x00 in
  exists a1 a2 w, @send_binary toy_aead p [] None (demo_transport true []) = (Err TransportError, a1) /\
    @send_outgoing toy_aead (OBinary [x01]) a1 = (Ok tt, a2) /\ tcp_written (et_tcp a2) = [] ++ w.
Proof.
  intros p.
  destruct (@oversized_send_desynchronises toy_aead toy_aead_laws (demo_transport true []) (demo_transport false []) p
              (OBinary [x01]) []) as (a1 & a2 & w & H1 & _ & _ & H2 & H3 & _).
  - unfold p, zlen. rewrite length_replicate, Z2Nat.id by (vm_compute; discriminate). lia.
  - reflexivity.
  - reflexivity.
  - reflexivity.
  - cbn. lia.
  - reflexivity.
  - exists a1, a2, w. split; [exact H1|]. split; [exact H2 | exact H3].
Defined.

Lemma secure_session_end_to_end_witness :
  let os := [OJson [(py "type", JStr (py "chat"))]; OBinary [x00; xff]] in
  exists sI sI', fst (fst (@initiate_secure_session toy_ed25519 toy_x25519 toy_hkdf no_text (fun s => s) alice (float_of_int 9)
                       (Ok (new_tcp (wire (conv_response alice bob) ++ []) None)) (new_nonce_cache (float_of_int 300))
                       (Some empty_store))) = Ok sI /\
    @session_sends toy_aead (float_of_int 10) os sI = (Ok tt, sI').
Proof.
  intros os.
  assert (exists sec, @x_exchange toy_x25519 5%N (@x_public toy_x25519 7%N) = Ok sec) as [sec Hx] by (eexists; reflexivity).
  destruct (@secure_session_end_to_end toy_ed25519 toy_ed25519_laws toy_x25519 toy_x25519_laws toy_hkdf toy_hkdf_laws
              toy_aead toy_aead_laws no_text (fun s => s) alice bob (float_of_int 9) (float_of_int 9) (float_of_int 10) (new_tcp (wire (conv_response alice bob) ++ []) None)
              (new_nonce_cache (float_of_int 300)) (new_nonce_cache (float_of_int 300)) (Some empty_store)
              (Some empty_store) [] [] sec os) as (sI & sI' & H1 & _ & H2 & _);
    [apply demo_honest; reflexivity | apply demo_honest; reflexivity | vm_compute; discriminate
    | vm_compute; discriminate | vm_compute; discriminate | vm_compute; reflexivity | vm_compute; reflexivity
    | split; [vm_compute; reflexivity | intros x Hx'; vm_compute in Hx'; discriminate Hx']
    | split; [vm_compute; reflexivity | intros x Hx'; vm_compute in Hx'; discriminate Hx']
    | exact Hx | reflexivity | vm_compute; reflexivity | vm_compute; discriminate |].
  exists sI, sI'. split; [exact H1 | exact H2].
Defined.
