(* ===== verification/Establishment.v ===== *)
(** * How the establishment of a secure session ends

    A logic of the results and the exceptions of the handshake's monad, the
    exceptions that both roles of the handshake can raise whatever the peer
    sends, and from it the outcomes of [initiate_secure_session] and
    [accept_secure_session] (core/crypto/handshake.py, core/transport/session.py). *)

From stdpp Require Import base gmap strings list numbers option.
From Stdlib Require Import ZArith Lia Strings.Byte.
From S2P Require Import Prelude PyStr PyFloat Errors Json JsonFacts Sha256 Frame Messages CryptoIface ToyCrypto SecurityEvents Identity TrustStore Channel Handshake HandshakeFacts Transport SessionFacts.
Open Scope Z_scope.
Open Scope peerc_scope.

(** ** What a call yields, and what it raises

    [yields Q E r]: the call returns a value that satisfies [Q] or raises an
    exception that satisfies [E]; [hs_yields] is the same of a computation that
    threads the handshake's state, whatever that state is. *)

Definition yields {A} (Q : A -> Prop) (E : exn -> Prop) (r : result A) : Prop :=
  match r with
  | Ok a => Q a
  | Err e => E e
  end.
Definition hs_yields {A} (Q : A -> Prop) (E : exn -> Prop) (m : M A) : Prop := forall s, yields Q E (fst (m s)).

Lemma yields_bind {A B} Q R E (r : result A) (f : A -> result B) :
  yields Q E r -> (forall a, Q a -> yields R E (f a)) -> yields R E (rbind r f).
Proof. destruct r; cbn; auto. Qed.
Lemma yields_weaken {A} (Q Q' : A -> Prop) (E E' : exn -> Prop) r :
  yields Q E r -> (forall a, Q a -> Q' a) -> (forall e, E e -> E' e) -> yields Q' E' r.
Proof. destruct r; cbn; auto. Qed.
Lemma yields_errors {A} (E : exn -> Prop) (r : result A) : (forall e, r = Err e -> E e) -> yields (fun a => r = Ok a) E r.
Proof. destruct r; cbn; auto. Qed.

Lemma hs_bind {A B} Q R E (m : M A) (f : A -> M B) :
  hs_yields Q E m -> (forall a, Q a -> hs_yields R E (f a)) -> hs_yields R E (mbind m f).
Proof.
  intros Hm Hf s. specialize (Hm s). unfold mbind. destruct (m s) as [[a|e] s']; cbn in Hm |- *; [by apply Hf | done].
Qed.
Lemma hs_ret {A} (Q : A -> Prop) E a : Q a -> hs_yields Q E (mret a).
Proof. by intros H s. Qed.
Lemma hs_raise {A} (Q : A -> Prop) (E : exn -> Prop) e : E e -> hs_yields Q E (mraise e).
Proof. by intros H s. Qed.
Lemma hs_lift {A} (Q : A -> Prop) E r : yields Q E r -> hs_yields Q E (mlift r).
Proof. by intros H s. Qed.
Lemma hs_state {A} E (f : hs_state -> A) (g : hs_state -> hs_state) : hs_yields (fun _ => True) E (fun s => (Ok (f s), g s)).
Proof. by intros s. Qed.

(** ** The exceptions of the steps *)

Lemma utf8_encode_error s e : utf8_encode s = Err e -> e = UnicodeEncodeError.
Proof. unfold utf8_encode. case_goal; [done|]. by intros [= <-]. Qed.
Lemma ascii_encode_error s e : ascii_encode s = Err e -> e = UnicodeEncodeError.
Proof. unfold ascii_encode. case_goal; [done|]. by intros [= <-]. Qed.
Lemma fromhex_error s e : fromhex s = Err e -> e = ValueError.
Proof. unfold fromhex. case_goal; [done|]. by intros [= <-]. Qed.
Lemma bind_text_error s e : bind_text s = Err e -> e = UnicodeEncodeError.
Proof. unfold bind_text. destruct (utf8_encode s) as [b|x] eqn:Ex; [done|]. intros [= <-]. by eapply utf8_encode_error. Qed.

(** A frame is never too long for its length prefix once it is within the limit. *)
Lemma encode_frame_error m e : encode_frame m = Err e -> e = ProtocolError \/ e = UnicodeEncodeError.
Proof.
  unfold encode_frame. destruct (utf8_encode (dumps m)) as [p|x] eqn:Eu; cbn [rbind];
    [|intros [= <-]; right; by eapply utf8_encode_error].
  destruct (MAX_MESSAGE_SIZE <? zlen p) eqn:El; [intros [= <-]; by left|]. zbool.
  rewrite struct_pack_I_ok; [done|]. pose proof max_message_size_small. unfold zlen in *. lia.
Qed.

Lemma record_first_seen_error now st d k n e : record_first_seen now st d k n = Err e -> isinstance e (Exn ValueError) = true.
Proof.
  unfold record_first_seen. destruct (bind_text d) eqn:E1; cbn [rbind]; [|intros [= <-]; by rewrite (bind_text_error _ _ E1)].
  destruct (get st d); [by intros [= <-]|].
  destruct (bind_text k) eqn:E2; cbn [rbind]; [|intros [= <-]; by rewrite (bind_text_error _ _ E2)].
  destruct (bind_text n) eqn:E3; cbn [rbind]; [done|intros [= <-]; by rewrite (bind_text_error _ _ E3)].
Qed.

(** ** Validated messages *)

(** What [receive_message] returns: a message of the wire schema and of the
    expected type. *)
Definition received_as (t : pystr) (d : dict) : Prop :=
  schema_ok (JObj d) = true /\ dict_get (py "type") d = Some (JStr t).

Lemma received_field t d f p fields : received_as t d -> assoc t schema = Some fields -> assoc f fields = Some p ->
  exists v, dict_get f d = Some v /\ p v = true.
Proof.
  intros [Hs Ht] Ha Hf. unfold schema_ok in Hs. rewrite Ht, Ha in Hs. apply andb_prop in Hs as [_ Hs].
  revert Hf Hs. clear. induction fields as [|[g q] fields IH]; [done|]. cbn [assoc forallb].
  intros Hf Hs. apply andb_prop in Hs as [H1 H2]. destruct (streq f g) eqn:Eg; [|by apply IH].
  apply streq_spec in Eg as ->. injection Hf as ->. unfold field_ok in H1. cbn [fst snd] in H1.
  destruct (dict_get g d) as [v|]; [eauto|done].
Qed.

Lemma nonempty_is_str v : nonempty_str v = true -> is_str v = true.
Proof. by destruct v. Qed.
Lemma received_string t d f p fields : received_as t d -> assoc t schema = Some fields -> assoc f fields = Some p ->
  (forall v, p v = true -> is_str v = true) -> exists s, dict_get f d = Some (JStr s).
Proof.
  intros Hr Ha Hf Hp. destruct (received_field t d f p fields Hr Ha Hf) as (v & Hv & H). specialize (Hp v H).
  destruct v; try done. by eexists.
Qed.

(** ** The handshake *)

Section Outcomes.
Context {Ed : Ed25519} {EdL : Ed25519Laws Ed} {X : X25519} {XL : X25519Laws X}.
Variable exn_text : exn -> pystr.
Variable py_repr : pystr -> pystr.

(** A class the handshake declares, a [ValueError] (with its subclasses: a key
    the library refuses, text that has no encoding), the [ProtocolError] of an
    own message that does not fit in a frame, or the error of the socket. *)
Definition handshake_raises (env : hs_env) (e : exn) : Prop :=
  excepts [HandshakeError; Exn ValueError; Exn ProtocolError] e = true \/ exists n, drain_error env n = Some e.

(** A result whose device id is the digest of a key of the right size. *)
Definition sound_result (r : HandshakeResult) : Prop :=
  length (shared_secret r) = 32%nat /\ length (transcript_hash r) = 32%nat /\
  exists pub, fromhex (peer_public_key r) = Ok pub /\ length pub = 32%nat /\ peer_device_id r = compute_device_id pub.

Variable env : hs_env.

Lemma raises_declared e : excepts [HandshakeError; Exn ValueError; Exn ProtocolError] e = true -> handshake_raises env e.
Proof. by left. Qed.
Lemma raises_value e : isinstance e (Exn ValueError) = true -> handshake_raises env e.
Proof. intros H. left. unfold excepts. cbn [existsb]. by rewrite H, orb_true_r. Qed.

Ltac declared := apply raises_declared; reflexivity.

Lemma text_yields {A} (r : result A) : (forall e, r = Err e -> e = UnicodeEncodeError) ->
  yields (fun a => r = Ok a) (handshake_raises env) r.
Proof. intros H. apply yields_errors. intros e ->%H. declared. Qed.
Lemma value_yields {A} (r : result A) : (forall e, r = Err e -> e = ValueError) ->
  yields (fun a => r = Ok a) (handshake_raises env) r.
Proof. intros H. apply yields_errors. intros e ->%H. declared. Qed.

Lemma send_frame_yields m n : hs_yields (fun _ => True) (handshake_raises env) (send_frame m (drain_error env n)).
Proof.
  intros s. unfold send_frame, write_frame. destruct (encode_frame (JObj m)) as [f|e] eqn:Ef; cbn [rbind].
  - destruct (drain_error env n) as [e|] eqn:Ed'; cbn [fst yields]; [right; by exists n | done].
  - cbn [fst yields]. apply encode_frame_error in Ef as [-> | ->]; declared.
Qed.

Lemma receive_frame_yields t : hs_yields (fun _ => True) (handshake_raises env) (Handshake.receive_frame t).
Proof. intros s. unfold Handshake.receive_frame. destruct t; [declared|]. destruct (read_frame _) as [[m r]|e]; [done|declared]. Qed.

Lemma receive_message_yields t expected :
  hs_yields (received_as expected) (handshake_raises env) (receive_message t expected).
Proof.
  unfold receive_message. eapply hs_bind; [apply receive_frame_yields|]. intros m _.
  eapply (hs_bind (fun v => v = m /\ schema_ok m = true)).
  { apply hs_lift. pose proof (validate_message_outcome m) as Hm. destruct (validate_message m) as [v|e].
    - by destruct Hm as [Hs ->].
    - destruct Hm as [_ [-> | [-> _]]]; declared. }
  intros v [-> Hs]. destruct m as [| | | | | |d]; try discriminate Hs.
  destruct (dict_get (py "type") d) as [[| | | |t0| |]|] eqn:Et; try (apply hs_raise; declared).
  destruct (streq t0 expected) eqn:E; [|apply hs_raise; declared]. apply streq_spec in E as ->. apply hs_ret. done.
Qed.

Lemma str_item_yields f d : (exists v, dict_get f d = Some (JStr v)) ->
  hs_yields (fun v => dict_get f d = Some (JStr v)) (handshake_raises env) (str_item f d).
Proof. intros [v Hv] s. unfold str_item, mbind, mlift, dict_item. by rewrite Hv. Qed.

Lemma check_nonce_yields now n : hs_yields (fun _ => True) (handshake_raises env) (check_nonce now n).
Proof. intros s. unfold check_nonce. by destruct (check_and_add _ _ _). Qed.
Lemma emit_event_yields e : hs_yields (fun _ => True) (handshake_raises env) (emit_event e).
Proof. by intros s. Qed.
Lemma emit_events_yields es : hs_yields (fun _ => True) (handshake_raises env) (emit_events es).
Proof. intros s. destruct (emit_events_ok es s) as (s' & -> & _). done. Qed.

Lemma verify_device_identity_yields now did pk :
  hs_yields (fun pub => fromhex pk = Ok pub /\ did = compute_device_id pub) (handshake_raises env)
    (verify_device_identity py_repr now did pk).
Proof.
  unfold verify_device_identity. eapply (hs_bind (fun pub => fromhex pk = Ok pub)).
  { apply hs_lift. destruct (fromhex pk) as [b|e] eqn:Ef; [done|]. rewrite (fromhex_error _ _ Ef). declared. }
  intros pub Hp. cbv zeta. destruct (streq _ _) eqn:Es; cbn [negb].
  - apply streq_spec in Es. by apply hs_ret.
  - eapply hs_bind; [apply emit_event_yields|]. intros _ _. apply hs_raise. declared.
Qed.

Lemma check_and_update_trust_yields now did pk name :
  hs_yields (fun _ => True) (handshake_raises env) (check_and_update_trust now did pk name).
Proof.
  unfold check_and_update_trust. eapply (hs_bind (fun _ => True)); [by intros s|]. intros [st|] _; [|by apply hs_ret].
  destruct (check now st did pk) as [d evs]. eapply hs_bind; [apply emit_events_yields|]. intros _ _.
  assert (forall st', hs_yields (fun _ => True) (handshake_raises env) (set_store st')) as Hset by (intros st' s; done).
  destruct d; try (apply hs_raise; declared).
  2, 3: eapply hs_bind; [apply Hset|]; intros _ _; by apply hs_ret.
  eapply (hs_bind (fun _ => True)).
  { apply hs_lift. destruct (record_first_seen _ _ _ _ _) as [p|e] eqn:Er; [done|].
    by eapply raises_value, record_first_seen_error. }
  intros p _. eapply hs_bind; [apply Hset|]. intros _ _. by apply hs_ret.
Qed.

Lemma verify_signature_yields now who claimed pub sig t :
  hs_yields (fun _ => True) (handshake_raises env) (verify_signature exn_text now who claimed pub sig t).
Proof.
  unfold verify_signature. cbv zeta. destruct (fromhex sig) as [b|e] eqn:Ef; cbn [rbind].
  - destruct (ed_verify pub b t); [by apply hs_ret|].
    eapply hs_bind; [apply emit_event_yields|]. intros _ _. apply hs_raise. declared.
  - rewrite (fromhex_error _ _ Ef). eapply hs_bind; [apply emit_event_yields|]. intros _ _. apply hs_raise. declared.
Qed.

Lemma public_key_yields b :
  hs_yields (fun p => p = b /\ length b = 32%nat) (handshake_raises env) (mlift (public_key_from_bytes b)).
Proof.
  apply hs_lift. eapply yields_weaken; [apply value_yields; apply ed_load_error| |done]. intros p. apply ed_load_id.
Qed.
Lemma ephemeral_yields h :
  hs_yields (fun _ => True) (handshake_raises env) (mlift (rcatch (ephemeral_public_from_hex h)
     (fun e => match e with ValueError => Some (Err HandshakeProtocolError) | _ => None end))).
Proof.
  apply hs_lift. destruct (ephemeral_public_from_hex h) as [p|e] eqn:Ee; [done|].
  replace e with ValueError; [cbn; declared|]. symmetry. revert Ee. unfold ephemeral_public_from_hex.
  destruct (fromhex h) as [b|x] eqn:Ef; cbn [rbind]; [|intros [= <-]; by eapply fromhex_error].
  unfold ephemeral_public_from_bytes. case_goal; [by intros [= <-] | apply x_load_error].
Qed.
Lemma shared_secret_yields k p :
  hs_yields (fun s => length s = 32%nat) (handshake_raises env) (mlift (compute_shared_secret k p)).
Proof.
  apply hs_lift. eapply yields_weaken; [apply value_yields; apply x_exchange_error| |done]. intros s. apply x_exchange_length.
Qed.
Lemma final_hash_yields t sig :
  hs_yields (fun s => length s = 32%nat) (handshake_raises env) (mlift (compute_final_transcript_hash t sig)).
Proof.
  apply hs_lift. unfold compute_final_transcript_hash.
  eapply yields_bind; [apply text_yields, ascii_encode_error|]. intros a _. cbn. apply sha256_length.
Qed.
Lemma initiator_transcript_yields t sig :
  hs_yields (fun _ => True) (handshake_raises env) (mlift (compute_initiator_transcript t sig)).
Proof.
  apply hs_lift. unfold compute_initiator_transcript. eapply yields_bind; [apply text_yields, ascii_encode_error|]. done.
Qed.

(** The transcript fields of a message that has them all can be picked. *)
Lemma pick_fields_total fs d : forallb (fun f => bool_decide (is_Some (dict_get f d))) fs = true ->
  exists p, pick_fields fs d = Ok p.
Proof.
  induction fs as [|f fs IH]; cbn [forallb pick_fields]; [eauto|]. intros [H1 H2]%andb_prop. zbool.
  destruct H1 as [v Hv]. destruct (IH H2) as [p Hp]. unfold dict_item. rewrite Hv, Hp. cbn. eauto.
Qed.
Definition has_fields (d : dict) : Prop := forallb (fun f => bool_decide (is_Some (dict_get f d))) TRANSCRIPT_FIELDS = true.
Lemma responder_transcript_yields m1 m2 : has_fields m1 -> has_fields m2 ->
  hs_yields (fun _ => True) (handshake_raises env) (mlift (compute_responder_transcript m1 m2)).
Proof.
  intros [p1 H1]%pick_fields_total [p2 H2]%pick_fields_total. apply hs_lift. unfold compute_responder_transcript.
  rewrite H1, H2. cbn [rbind]. eapply yields_bind; [apply text_yields, utf8_encode_error|]. intros b1 _.
  eapply yields_bind; [apply text_yields, utf8_encode_error|]. done.
Qed.

(** The two messages that carry an identity have the transcript fields, as strings. *)
Definition strings_at (d : dict) (fs : list pystr) : Prop := Forall (fun f => exists s, dict_get f d = Some (JStr s)) fs.
Lemma strings_has d : strings_at d TRANSCRIPT_FIELDS -> has_fields d.
Proof.
  unfold strings_at, has_fields. induction 1 as [|f fs [s Hs] _ IH]; [done|]. cbn [forallb]. rewrite Hs, IH.
  by rewrite bool_decide_eq_true_2 by by eexists.
Qed.
Lemma strings_get d fs f : strings_at d fs -> f ∈ fs -> exists s, dict_get f d = Some (JStr s).
Proof. unfold strings_at. rewrite Forall_forall. intros H Hf. by apply H, list_elem_of_In. Qed.

Ltac received Hr :=
  unfold strings_at, TRANSCRIPT_FIELDS; repeat apply List.Forall_cons; try apply List.Forall_nil;
  first [ eexists; apply Hr
        | eapply received_string; [exact Hr | reflexivity | reflexivity | first [apply nonempty_is_str | done]] ].
Lemma received_init d : received_as (py "handshake_init") d -> strings_at d TRANSCRIPT_FIELDS.
Proof. intros Hr. received Hr. Qed.
Lemma received_response d : received_as (py "handshake_response") d -> strings_at d (py "signature" :: TRANSCRIPT_FIELDS).
Proof. intros Hr. received Hr. Qed.
Lemma received_finish d : received_as (py "handshake_finish") d -> strings_at d [py "signature"].
Proof. intros Hr. received Hr. Qed.
Lemma init_message_fields : has_fields (init_message env).
Proof. reflexivity. Qed.
Lemma resp_msg_fields : has_fields (resp_msg_no_sig env).
Proof. reflexivity. Qed.

Ltac member := repeat first [apply list_elem_of_here | apply list_elem_of_further].
Tactic Notation "hs_step" uconstr(lem) "as" simple_intropattern(a) simple_intropattern(H) :=
  eapply hs_bind; [solve [apply lem]|]; intros a H.
Tactic Notation "hs_item" constr(Hf) "as" simple_intropattern(a) simple_intropattern(H) :=
  eapply hs_bind; [apply str_item_yields; eapply strings_get; [exact Hf | member]|]; intros a H.

(** Whatever the peer sends, a role ends with a sound result or one of the
    exceptions of [handshake_raises]: in particular never with the [KeyError] or
    [TypeError] of a field that is missing or not a string, and never with
    [TransportError]. *)
Lemma initiator_yields : hs_yields sound_result (handshake_raises env) (perform_handshake_initiator exn_text py_repr env).
Proof.
  unfold perform_handshake_initiator. cbv zeta. hs_step send_frame_yields as _ _.
  hs_step receive_message_yields as resp Hr%received_response. hs_item Hr as nonce _. hs_step check_nonce_yields as fresh _.
  hs_item Hr as did _. destruct fresh; cbn [negb];
    [|hs_step emit_event_yields as _ _; apply hs_raise; declared].
  hs_item Hr as pk _. hs_step verify_device_identity_yields as pub [Hhex Hid]. hs_item Hr as name _.
  hs_step check_and_update_trust_yields as dec _.
  assert (has_fields resp) as Hf by (apply strings_has; by inversion Hr).
  eapply hs_bind; [apply (responder_transcript_yields _ _ init_message_fields Hf)|]. intros rt _.
  hs_step public_key_yields as rpub [_ Hlen]. hs_item Hr as sig _. hs_step verify_signature_yields as _ _.
  hs_step initiator_transcript_yields as it _. hs_step send_frame_yields as _ _. hs_item Hr as ek _.
  hs_step ephemeral_yields as pek _. hs_step shared_secret_yields as sec Hsec. hs_step final_hash_yields as h Hh.
  apply hs_ret. split_and!; [done..|]. by exists pub.
Qed.

Lemma responder_yields : hs_yields sound_result (handshake_raises env) (perform_handshake_responder exn_text py_repr env).
Proof.
  unfold perform_handshake_responder. cbv zeta.
  hs_step receive_message_yields as init Hi%received_init. hs_item Hi as nonce _. hs_step check_nonce_yields as fresh _.
  hs_item Hi as did _. destruct fresh; cbn [negb];
    [|hs_step emit_event_yields as _ _; apply hs_raise; declared].
  hs_item Hi as pk _. hs_step verify_device_identity_yields as pub [Hhex Hid]. hs_item Hi as name _.
  hs_step check_and_update_trust_yields as dec _.
  eapply hs_bind; [apply (responder_transcript_yields _ _ (strings_has _ Hi) resp_msg_fields)|]. intros rt _.
  hs_step send_frame_yields as _ _. hs_step receive_message_yields as fin Hf%received_finish.
  hs_step initiator_transcript_yields as it _. hs_step public_key_yields as ipub [_ Hlen]. hs_item Hf as sig _.
  hs_step verify_signature_yields as _ _. hs_item Hi as ek _.
  hs_step ephemeral_yields as pek _. hs_step shared_secret_yields as sec Hsec. hs_step final_hash_yields as h Hh.
  apply hs_ret. split_and!; [done..|]. by exists pub.
Qed.
End Outcomes.

(** ** The establishment *)

Section Establishment.
Context {Ed : Ed25519} {EdL : Ed25519Laws Ed} {X : X25519} {XL : X25519Laws X} {H : Hkdf} {HL : HkdfLaws H}.
Variable exn_text : exn -> pystr.
Variable py_repr : pystr -> pystr.

(** A new session over the connection [t]: it lives as the connection does, its
    channel has the keys of this role and has sent and received nothing, and the
    handshake it keeps is sound. *)
Definition session_opened (is_initiator : bool) (t : TCPConnection) (s : SecureSession) : Prop :=
  let h := s_handshake s in
  sound_result h /\ is_alive s = negb (is_closing t) /\ s_is_initiator s = is_initiator /\
  et_channel (s_transport s) = Channel (keys_of (shared_secret h) (transcript_hash h) is_initiator) 0 0.

(** The two possible ends: a session that owns the connection, or an error, with
    the connection closed. *)
Definition establishment_ends (is_initiator : bool) (env : hs_env) (t : TCPConnection)
    (r : result SecureSession * option TCPConnection) : Prop :=
  match r with
  | (Ok s, None) => session_opened is_initiator t s
  | (Err e, Some t') => handshake_raises env e /\ is_closing t' = true
  | _ => False
  end.

Lemma tcp_close_closes t : is_closing (tcp_close t) = true.
Proof. unfold tcp_close, is_closing. destruct (tcp_closed t) eqn:E; cbn; [by rewrite E|done]. Qed.

Lemma secure_session_ends env role b now t cache store :
  hs_yields sound_result (handshake_raises env) role ->
  establishment_ends b env t (fst (secure_session role b now t cache store)).
Proof.
  intros Hr. unfold secure_session, run_handshake.
  specialize (Hr (HsState (tcp_reader t) (tcp_written t) cache store [])).
  destruct (role _) as [[h|e] s]; cbn [fst yields rbind] in *.
  - destruct Hr as (Hs & Ht & Hp). rewrite establish_ok by done. cbn. done.
  - split; [done|apply tcp_close_closes].
Qed.

(** C27: how the establishment of a session ends, for both roles, whatever the peer
    sends. [initiate_secure_session] raises a [TransportError] when it cannot
    connect. Over a connection both functions either return a session (alive as
    the connection is, with a fresh channel whose keys are derived from the
    handshake, and a peer whose device id is the digest of its 32-byte key), or
    close the connection and raise a declared [HandshakeError], a [ValueError]
    or one of its subclasses, the [ProtocolError] of an own message too large for
    a frame, or the error of the socket: never a [KeyError], a [TypeError] or the
    [KDFError] of a bad secret. *)
Theorem establishment_outcome envI envR now connected tR cache store :
  match open_tcp_connection connected with
  | Ok t => establishment_ends true envI t (fst (initiate_secure_session exn_text py_repr envI now connected cache store))
  | Err e => fst (initiate_secure_session exn_text py_repr envI now connected cache store) = (Err e, None) /\
             isinstance e (Exn TransportError) = true
  end /\
  establishment_ends false envR tR (fst (accept_secure_session exn_text py_repr envR now tR cache store)).
Proof.
  split; [|apply secure_session_ends, responder_yields].
  unfold initiate_secure_session. destruct (open_tcp_connection connected) as [t|e] eqn:Eo.
  - apply secure_session_ends, initiator_yields.
  - split; [done|]. by eapply open_tcp_errors.
Qed.
End Establishment.

(** ** Concrete runs *)

Lemma establishment_outcome_witness :
  let t := new_tcp (wire (init_message alice)) None in
  let cache := new_nonce_cache (float_of_int 300) in
  @establishment_ends toy_ed25519 toy_x25519 toy_hkdf false bob t
    (fst (@accept_secure_session toy_ed25519 toy_x25519 toy_hkdf no_text (fun s => s) bob (float_of_int 1) t cache (Some empty_store))).
Proof.
  intros t cache.
  destruct (@establishment_outcome toy_ed25519 toy_ed25519_laws toy_x25519 toy_x25519_laws toy_hkdf toy_hkdf_laws no_text (fun s => s) alice bob (float_of_int 1) (Err OSError) t cache (Some empty_store)) as [_ H].
  exact H.
Defined.

(** An identity that is the digest of a key of one byte passes validation and the
    identity check, is recorded as pending, and ends the initiator with the
    [ValueError] of the library, outside the [try] around the verification. *)
Example short_key_escapes :
  let resp := make_handshake_response (float_of_int 1) (compute_device_id [x07]) (py "07")
                (ephemeral_public_hex (my_ephemeral bob)) (my_nonce bob) (py "mallory") (py "00") in
  match perform_handshake_initiator no_text (fun s => s) alice (demo_state (wire resp)) with
  | (Err ValueError, s) =>
      option_map (fun st => td_public_key <$> get st (compute_device_id [x07])) (hs_store s) = Some (Some (py "07"))
  | _ => False
  end.
Proof. vm_compute. reflexivity. Qed.
