(* ===== verification/FileSys.v ===== *)
(** * The file system and [os.path]

    The part of Python's [os], [os.path] and [open] the transfer and storage
    code uses, on a POSIX system. Names and file contents are separate: a name
    maps to an inode, an open handle refers to the inode and keeps writing to it
    when the name is removed or reused. A path is looked up as the string the
    program passes; symbolic links appear only in [os.path.realpath], which is
    an argument of the definitions that call it. A write may fail after part of
    its bytes. *)

From S2P Require Import Prelude PyStr.
From stdpp Require Import base gmap list option.
From Stdlib Require Import ZArith Lia.

Open Scope Z_scope.

(** ** Directory entries, inodes and handles *)

Abbreviation path := pystr.

(** A directory entry: a regular file, or a directory with the size [stat]
    reports for it. *)
Inductive dirent : Type :=
  | EFile (ino : nat)
  | EDir (size : Z).

#[export] Instance dirent_eq_dec : EqDecision dirent.
Proof. solve_decision. Defined.

Record fs : Type := Disk {
  fs_names : gmap path dirent;
  fs_data : gmap nat bytes;
  fs_next : nat
}.

Definition empty_fs : fs := Disk ∅ ∅ 0.

Definition exists_ (f : fs) (p : path) : bool := bool_decide (is_Some (fs_names f !! p)).
Definition isfile (f : fs) (p : path) : bool :=
  match fs_names f !! p with
  | Some (EFile _) => true
  | _ => false
  end.
Definition inode_data (f : fs) (i : nat) : bytes := default [] (fs_data f !! i).
Definition set_data (i : nat) (d : bytes) (f : fs) : fs := Disk (fs_names f) (<[i := d]> (fs_data f)) (fs_next f).

(** [open(p, "rb").read()]; a directory raises [IsADirectoryError]. *)
Definition read_file (f : fs) (p : path) : result bytes :=
  match fs_names f !! p with
  | None => Err FileNotFoundError
  | Some (EDir _) => Err OSError
  | Some (EFile i) => Ok (inode_data f i)
  end.

Definition getsize (f : fs) (p : path) : result Z :=
  match fs_names f !! p with
  | None => Err FileNotFoundError
  | Some (EDir n) => Ok n
  | Some (EFile i) => Ok (zlen (inode_data f i))
  end.

Definition os_remove (f : fs) (p : path) : result fs :=
  match fs_names f !! p with
  | None => Err FileNotFoundError
  | Some (EDir _) => Err OSError
  | Some (EFile _) => Ok (Disk (delete p (fs_names f)) (fs_data f) (fs_next f))
  end.

(** [os.replace] of a regular file; no caller renames a directory. *)
Definition os_replace (f : fs) (src dst : path) : result fs :=
  match fs_names f !! src, fs_names f !! dst with
  | None, _ => Err FileNotFoundError
  | Some (EDir _), _ => Err OSError
  | Some (EFile _), Some (EDir _) => Err OSError
  | Some (EFile i), _ => Ok (Disk (<[dst := EFile i]> (delete src (fs_names f))) (fs_data f) (fs_next f))
  end.

(** A buffered binary file object opened for writing: its inode, its position
    ([None] in append mode) and the bytes not yet handed to the system. *)
Record handle : Type := Handle {
  fh_ino : nat;
  fh_pos : option nat;
  fh_buf : bytes
}.

Definition create_inode (f : fs) (p : path) : nat * fs :=
  (fs_next f, Disk (<[p := EFile (fs_next f)]> (fs_names f)) (<[fs_next f := []]> (fs_data f)) (S (fs_next f))).

Definition open_wb (f : fs) (p : path) : result (handle * fs) :=
  match fs_names f !! p with
  | Some (EDir _) => Err OSError
  | Some (EFile i) => Ok (Handle i (Some 0%nat) [], set_data i [] f)
  | None => let (i, f) := create_inode f p in Ok (Handle i (Some 0%nat) [], f)
  end.

Definition open_ab (f : fs) (p : path) : result (handle * fs) :=
  match fs_names f !! p with
  | Some (EDir _) => Err OSError
  | Some (EFile i) => Ok (Handle i None [], f)
  | None => let (i, f) := create_inode f p in Ok (Handle i None [], f)
  end.

(** [pwrite]: a gap before the position reads as zeros. *)
Definition write_at (pos : nat) (buf d : bytes) : bytes :=
  take pos d ++ replicate (pos - length d) (z2b 0) ++ buf ++ drop (pos + length buf) d.

(** Hands the first [n] buffered bytes to the system. *)
Definition fh_flush (n : nat) (h : handle) (f : fs) : handle * fs :=
  let out := take n (fh_buf h) in
  let d := inode_data f (fh_ino h) in
  match fh_pos h with
  | None => (Handle (fh_ino h) None (drop n (fh_buf h)), set_data (fh_ino h) (d ++ out) f)
  | Some pos => (Handle (fh_ino h) (Some (pos + length out)%nat) (drop n (fh_buf h)),
                 set_data (fh_ino h) (write_at pos out d) f)
  end.

(** [spill buf] is the number of buffered bytes the writer passes on when it
    holds [buf]; CPython decides it by its buffer size. *)
Definition fh_write (spill : bytes -> nat) (data : bytes) (h : handle) (f : fs) : handle * fs :=
  let buf := fh_buf h ++ data in
  fh_flush (spill buf) (Handle (fh_ino h) (fh_pos h) buf) f.

(** A write the system refuses (a full disk, say): [n] bytes of the buffer and
    then of [data] were passed on before the [OSError], what was left of the
    buffer stays in it, and the rest of [data] is lost. *)
Definition fh_write_failed (n : nat) (data : bytes) (h : handle) (f : fs) : handle * fs :=
  let '(h', f) := fh_flush n (Handle (fh_ino h) (fh_pos h) (fh_buf h ++ data)) f in
  (Handle (fh_ino h') (fh_pos h') (drop n (fh_buf h)), f).

Definition fh_close (h : handle) (f : fs) : fs := snd (fh_flush (length (fh_buf h)) h f).

(** What the file will hold once the handle is closed. *)
Definition fh_content (h : handle) (f : fs) : bytes := inode_data (fh_close h f) (fh_ino h).

(** A handle that writes at the end of its file. *)
Definition at_end (h : handle) (f : fs) : Prop :=
  match fh_pos h with
  | None => True
  | Some pos => pos = length (inode_data f (fh_ino h))
  end.

(** Every file name refers to an allocated inode, and to one of its own. *)
Definition fs_ok (f : fs) : Prop :=
  (forall p i, fs_names f !! p = Some (EFile i) -> (i < fs_next f)%nat) /\
  (forall p q i, fs_names f !! p = Some (EFile i) -> fs_names f !! q = Some (EFile i) -> p = q).

(** ** [posixpath] *)

Definition SLASH : Z := 47.
Definition DOT : Z := 46.

(** [s.rfind(c)], -1 when absent. *)
Fixpoint rfind (c : Z) (s : pystr) : Z :=
  match s with
  | [] => -1
  | x :: s => let r := rfind c s in
              if 0 <=? r then r + 1 else if x =? c then 0 else -1
  end.

Definition basename (p : path) : path := drop (Z.to_nat (rfind SLASH p + 1)) p.

Definition path_join (a b : path) : path :=
  match b with
  | c :: _ => if c =? SLASH then b
              else match list.last a with
                   | None => b
                   | Some l => if l =? SLASH then a ++ b else a ++ SLASH :: b
                   end
  | [] => match list.last a with
          | None => b
          | Some l => if l =? SLASH then a else a ++ [SLASH]
          end
  end.

Definition splitext (p : path) : path * path :=
  let sep := rfind SLASH p in
  let dot := rfind DOT p in
  let leaf := take (Z.to_nat (dot - (sep + 1))) (drop (Z.to_nat (sep + 1)) p) in
  if (sep <? dot) && existsb (fun c => negb (c =? DOT)) leaf
  then (take (Z.to_nat dot) p, drop (Z.to_nat dot) p)
  else (p, []).

Fixpoint split_on (c : Z) (acc s : pystr) : list pystr :=
  match s with
  | [] => [acc]
  | x :: s => if x =? c then acc :: split_on c [] s else split_on c (acc ++ [x]) s
  end.

(** The components [os.path.commonpath] compares. *)
Definition components (p : path) : list pystr :=
  List.filter (fun c => negb (streq c [] || streq c [DOT])) (split_on SLASH [] p).

Fixpoint common_prefix (a b : list pystr) : list pystr :=
  match a, b with
  | x :: a, y :: b => if streq x y then x :: common_prefix a b else []
  | _, _ => []
  end.

Definition isabs (p : path) : bool :=
  match p with
  | c :: _ => c =? SLASH
  | [] => false
  end.

Fixpoint join_slash (cs : list pystr) : path :=
  match cs with
  | [] => []
  | [c] => c
  | c :: cs => c ++ SLASH :: join_slash cs
  end.

(** [os.path.commonpath([a, b])]; mixing absolute and relative paths raises. *)
Definition commonpath (a b : path) : result path :=
  if negb (Bool.eqb (isabs a) (isabs b)) then Err ValueError
  else let common := join_slash (common_prefix (components a) (components b)) in
       Ok (if isabs a then SLASH :: common else common).

(** ** Facts about handles *)

Lemma write_at_end (buf d : bytes) : write_at (length d) buf d = d ++ buf.
Proof.
  unfold write_at. rewrite firstn_all, Nat.sub_diag. simpl. rewrite drop_ge by lia. by rewrite app_nil_r.
Qed.

Lemma fh_flush_at_end n h f :
  at_end h f -> let r := fh_flush n h f in
  at_end (fst r) (snd r) /\ fh_ino (fst r) = fh_ino h /\ fh_buf (fst r) = drop n (fh_buf h) /\
  snd r = set_data (fh_ino h) (inode_data f (fh_ino h) ++ take n (fh_buf h)) f.
Proof.
  unfold at_end, fh_flush. destruct (fh_pos h) as [pos|]; cbn; [intros ->|intros _].
  - rewrite write_at_end. unfold inode_data at 2. cbn. rewrite lookup_insert_eq. cbn.
    split_and!; [by rewrite length_app | done..].
  - done.
Qed.

Lemma inode_data_set i j d f : inode_data (set_data i d f) j = if decide (i = j) then d else inode_data f j.
Proof.
  unfold inode_data, set_data. cbn. destruct (decide (i = j)) as [->|Hn];
    [by rewrite lookup_insert_eq | by rewrite lookup_insert_ne].
Qed.

Lemma fh_content_at_end h f : at_end h f -> fh_content h f = inode_data f (fh_ino h) ++ fh_buf h.
Proof.
  intros Hh. unfold fh_content, fh_close. destruct (fh_flush_at_end (length (fh_buf h)) h f Hh) as (_ & _ & _ & ->).
  rewrite inode_data_set, decide_True by done. by rewrite firstn_all.
Qed.

(** However the writer spills its buffer, a write appends to what the file will hold. *)
Lemma fh_write_content spill data h f :
  at_end h f -> let r := fh_write spill data h f in
  at_end (fst r) (snd r) /\ fh_ino (fst r) = fh_ino h /\
  fh_content (fst r) (snd r) = fh_content h f ++ data /\
  fs_names (snd r) = fs_names f /\ fs_next (snd r) = fs_next f /\
  (forall j, j <> fh_ino h -> inode_data (snd r) j = inode_data f j).
Proof.
  intros Hh. unfold fh_write. set (h1 := Handle _ _ _).
  assert (at_end h1 f) as Hh1 by done.
  destruct (fh_flush_at_end (spill (fh_buf h ++ data)) h1 f Hh1) as (Ha & Hi & Hb & Hs).
  split_and!; [done|done| | | |].
  - rewrite !fh_content_at_end by done. rewrite Hb, Hi, Hs, inode_data_set, decide_True by done.
    rewrite <- app_assoc, take_drop. cbn. by rewrite <- app_assoc.
  - by rewrite Hs.
  - by rewrite Hs.
  - intros j Hj. rewrite Hs, inode_data_set, decide_False by done. done.
Qed.

Lemma fh_close_spec h f :
  let f' := fh_close h f in
  fs_names f' = fs_names f /\ fs_next f' = fs_next f /\
  (forall j, j <> fh_ino h -> inode_data f' j = inode_data f j).
Proof.
  unfold fh_close, fh_flush. destruct (fh_pos h); cbn; (split; [done|split; [done|]]); intros j Hj;
    by rewrite inode_data_set, decide_False by done.
Qed.

(** A failed write, too, touches no inode but its own. *)
Lemma fh_write_failed_spec n data h f :
  let r := fh_write_failed n data h f in
  fh_ino (fst r) = fh_ino h /\ fs_names (snd r) = fs_names f /\ fs_next (snd r) = fs_next f /\
  (forall j, j <> fh_ino h -> inode_data (snd r) j = inode_data f j).
Proof.
  unfold fh_write_failed, fh_flush. destruct (fh_pos h); cbn; split_and!; try done; intros j Hj;
    by rewrite inode_data_set, decide_False by done.
Qed.
Lemma fh_write_spec spill data h f :
  let r := fh_write spill data h f in
  fh_ino (fst r) = fh_ino h /\ fs_names (snd r) = fs_names f /\ fs_next (snd r) = fs_next f /\
  (forall j, j <> fh_ino h -> inode_data (snd r) j = inode_data f j).
Proof.
  unfold fh_write, fh_flush. destruct (fh_pos h); cbn; split_and!; try done; intros j Hj;
    by rewrite inode_data_set, decide_False by done.
Qed.

(** ** Facts about paths *)

Lemma rfind_range c s : -1 <= rfind c s < zlen s \/ s = [] /\ rfind c s = -1.
Proof.
  induction s as [|x s IH]; [by right|left]. cbn [rfind]. rewrite zlen_cons. pose proof (zlen_nonneg s).
  destruct IH as [IH|[-> IH]]; [|rewrite IH]; zcases; cbn; lia.
Qed.

Lemma rfind_after c s : c ∉ drop (Z.to_nat (rfind c s + 1)) s.
Proof.
  induction s as [|x s IH]; cbn [rfind]; [apply not_elem_of_nil|].
  pose proof (rfind_range c s) as Hr. pose proof (zlen_nonneg s).
  destruct (Z.leb_spec 0 (rfind c s)).
  - replace (Z.to_nat (rfind c s + 1 + 1)) with (S (Z.to_nat (rfind c s + 1))) by lia. done.
  - replace (rfind c s) with (-1) in IH by (destruct Hr as [|[? ?]]; lia). cbn in IH.
    destruct (Z.eqb_spec x c) as [->|Hx]; cbn; [done|]. set_solver.
Qed.

Lemma basename_no_slash p : SLASH ∉ basename p.
Proof. apply rfind_after. Qed.

Lemma splitext_app p : fst (splitext p) ++ snd (splitext p) = p.
Proof. unfold splitext. case_match; cbn; [apply take_drop | apply app_nil_r]. Qed.

Lemma common_prefix_prefix a b : common_prefix a b = b -> b `prefix_of` a.
Proof.
  revert b; induction a as [|x a IH]; intros [|y b] H; cbn in H; try done; try apply prefix_nil.
  destruct (streq x y) eqn:E; [|done]. apply streq_spec in E as ->. injection H as H. by apply prefix_cons, IH.
Qed.

Lemma common_prefix_l a b : common_prefix a b `prefix_of` a.
Proof.
  revert b; induction a as [|x a IH]; intros [|y b]; cbn; try apply prefix_nil.
  destruct (streq x y); [by apply prefix_cons | apply prefix_nil].
Qed.

(** ** Frame conditions: what each operation leaves alone *)

(** [f'] reads like [f] at every path but [p]. *)
Definition same_but (p : path) (f f' : fs) : Prop := forall q, q <> p -> read_file f' q = read_file f q.

Lemma same_but_refl p f : same_but p f f.
Proof. by intros q. Qed.

Lemma same_but_trans p f g h : same_but p f g -> same_but p g h -> same_but p f h.
Proof. intros H1 H2 q Hq. by rewrite H2, H1. Qed.

Lemma fs_ok_names f f' : fs_names f' = fs_names f -> fs_next f' = fs_next f -> fs_ok f -> fs_ok f'.
Proof. unfold fs_ok. intros -> ->. done. Qed.

(** Changing the content of one file changes what is read at its name only. *)
Lemma same_but_content p i f f' :
  fs_ok f -> fs_names f !! p = Some (EFile i) -> fs_names f' = fs_names f ->
  (forall j, j <> i -> inode_data f' j = inode_data f j) -> same_but p f f'.
Proof.
  intros [_ Hinj] Hp Hn Hd q Hq. unfold read_file. rewrite Hn.
  destruct (fs_names f !! q) as [[j|n]|] eqn:E; [|done..]. rewrite Hd; [done|]. intros ->. by eapply Hq, Hinj.
Qed.

Lemma os_remove_spec f p f' :
  os_remove f p = Ok f' -> fs_ok f -> fs_ok f' /\ same_but p f f' /\ fs_names f' !! p = None.
Proof.
  unfold os_remove. intros H [Hr Hi]. destruct (fs_names f !! p) as [[i|n]|]; inv_ok. split_and!; cbn.
  - split; cbn.
    + intros q j [_ Hq]%lookup_delete_Some. by eapply Hr.
    + intros q1 q2 j [_ H1]%lookup_delete_Some [_ H2]%lookup_delete_Some. by eapply Hi.
  - intros q Hq. unfold read_file. cbn. by rewrite lookup_delete_ne.
  - apply lookup_delete_eq.
Qed.

Lemma os_replace_spec f src dst f' :
  os_replace f src dst = Ok f' -> fs_ok f -> src <> dst ->
  fs_ok f' /\ read_file f' dst = read_file f src /\ fs_names f' !! src = None /\
  (forall q, q <> src -> q <> dst -> read_file f' q = read_file f q).
Proof.
  unfold os_replace. intros H [Hr Hi] Hne.
  destruct (fs_names f !! src) as [[i|n]|] eqn:Es; [|done..].
  assert (f' = Disk (<[dst := EFile i]> (delete src (fs_names f))) (fs_data f) (fs_next f)) as ->
    by (destruct (fs_names f !! dst) as [[?|?]|]; by inv_ok).
  clear H. split_and!; cbn.
  - split; cbn.
    + intros q j Hq. destruct (decide (q = dst)) as [->|].
      * rewrite lookup_insert_eq in Hq. injection Hq as <-. by eapply Hr.
      * rewrite lookup_insert_ne in Hq by done. apply lookup_delete_Some in Hq as [_ Hq]. by eapply Hr.
    + assert (forall q j, <[dst:=EFile i]> (delete src (fs_names f)) !! q = Some (EFile j) ->
        q = dst /\ j = i \/ q <> dst /\ q <> src /\ fs_names f !! q = Some (EFile j)) as Hcase.
      { intros q j Hq. destruct (decide (q = dst)) as [->|].
        - rewrite lookup_insert_eq in Hq. injection Hq as <-. by left.
        - rewrite lookup_insert_ne in Hq by done. apply lookup_delete_Some in Hq as [? Hq]. right. auto. }
      intros q1 q2 j [[-> ->]|(? & ? & H1)]%Hcase [[-> E]|(? & ? & H2)]%Hcase; try done.
      * exfalso. eauto.
      * subst. exfalso. eauto.
      * by eapply Hi.
  - unfold read_file. cbn. by rewrite lookup_insert_eq, Es.
  - rewrite lookup_insert_ne by done. apply lookup_delete_eq.
  - intros q Hq1 Hq2. unfold read_file. cbn. by rewrite lookup_insert_ne, lookup_delete_ne by done.
Qed.

(** A freshly opened handle on the file at [p], holding [content]. *)
Definition opened (p : path) (content : bytes) (f : fs) (h : handle) (f' : fs) : Prop :=
  fs_ok f' /\ same_but p f f' /\ fs_names f' !! p = Some (EFile (fh_ino h)) /\
  at_end h f' /\ fh_content h f' = content.

Lemma create_inode_opened f p pos :
  fs_ok f -> fs_names f !! p = None -> pos = None \/ pos = Some 0%nat ->
  let (i, f') := create_inode f p in opened p [] f (Handle i pos []) f'.
Proof.
  intros [Hr Hi] Hp Hpos. unfold create_inode. set (f' := Disk _ _ _).
  assert (inode_data f' (fs_next f) = []) as Hd by (unfold inode_data, f'; cbn; by rewrite lookup_insert_eq).
  assert (at_end (Handle (fs_next f) pos []) f') as Hend by (destruct Hpos as [-> | ->]; cbn; [done|by rewrite Hd]).
  split_and!; [| |unfold f'; cbn; by rewrite lookup_insert_eq|done|by rewrite fh_content_at_end; cbn; rewrite ?Hd].
  - split; unfold f'; cbn.
    + intros q j Hq. destruct (decide (q = p)) as [->|].
      * rewrite lookup_insert_eq in Hq. injection Hq as <-. lia.
      * rewrite lookup_insert_ne in Hq by done. apply Hr in Hq. lia.
    + intros q1 q2 j H1 H2. destruct (decide (q1 = p)) as [->|], (decide (q2 = p)) as [->|]; [done| | |].
      * rewrite lookup_insert_eq in H1. rewrite lookup_insert_ne in H2 by done.
        injection H1 as <-. apply Hr in H2. lia.
      * rewrite lookup_insert_eq in H2. rewrite lookup_insert_ne in H1 by done.
        injection H2 as <-. apply Hr in H1. lia.
      * rewrite lookup_insert_ne in H1, H2 by done. by eapply Hi.
  - intros q Hq. unfold read_file, f'. cbn. rewrite lookup_insert_ne by done.
    destruct (fs_names f !! q) as [[j|n]|] eqn:E; [|done..]. apply Hr in E.
    unfold inode_data. cbn. by rewrite lookup_insert_ne by lia.
Qed.

Lemma open_wb_spec f p h f' : open_wb f p = Ok (h, f') -> fs_ok f -> opened p [] f h f'.
Proof.
  unfold open_wb. intros H Hf. destruct (fs_names f !! p) as [[i|n]|] eqn:E; [|done|].
  - injection H as <- <-.
    assert (at_end (Handle i (Some 0%nat) []) (set_data i [] f)) as Hend
      by (cbn; by rewrite inode_data_set, decide_True).
    split_and!; [by eapply fs_ok_names| |done|done|].
    + eapply same_but_content; [done|done|done|]. intros j Hj. by rewrite inode_data_set, decide_False.
    + rewrite fh_content_at_end by done. cbn. by rewrite inode_data_set, decide_True.
  - pose proof (create_inode_opened f p (Some 0%nat) Hf E (or_intror eq_refl)) as Hc.
    unfold create_inode in *. injection H as <- <-. done.
Qed.

Lemma open_ab_spec f p c h f' : open_ab f p = Ok (h, f') -> read_file f p = Ok c -> fs_ok f -> opened p c f h f'.
Proof.
  unfold open_ab, read_file. intros H Hr Hf. destruct (fs_names f !! p) as [[i|n]|] eqn:E; [|done..].
  injection H as <- <-. injection Hr as <-. split_and!; [done|apply same_but_refl|done|done|].
  rewrite fh_content_at_end by done. apply app_nil_r.
Qed.

(** Closing a handle on a file that has no name but possibly [p]. *)
Lemma fh_close_unnamed p h f :
  fs_ok f -> (forall q, q <> p -> fs_names f !! q <> Some (EFile (fh_ino h))) ->
  fs_ok (fh_close h f) /\ same_but p f (fh_close h f) /\ fs_names (fh_close h f) = fs_names f.
Proof.
  intros Hf Hq. destruct (fh_close_spec h f) as (Hn & Hx & Hd). split; [by eapply fs_ok_names|]. split; [|done].
  intros q Hne. unfold read_file. rewrite Hn. destruct (fs_names f !! q) as [[j|n]|] eqn:E; [|done..].
  rewrite Hd; [done|]. intros ->. by eapply Hq.
Qed.

(** Opening a file for writing gives no other file a name. *)
Lemma open_names f p q h f' : open_wb f p = Ok (h, f') \/ open_ab f p = Ok (h, f') -> q <> p -> fs_names f' !! q = fs_names f !! q.
Proof.
  unfold open_wb, open_ab, create_inode. intros H Hq.
  destruct (fs_names f !! p) as [[i|n]|]; destruct H as [[= <- <-]|[= <- <-]]; try done; cbn; by rewrite lookup_insert_ne.
Qed.

(** Closing a handle that writes at the end of the file at [p]. *)
Lemma fh_close_opened p h f :
  fs_ok f -> fs_names f !! p = Some (EFile (fh_ino h)) ->
  fs_ok (fh_close h f) /\ same_but p f (fh_close h f) /\ read_file (fh_close h f) p = Ok (fh_content h f).
Proof.
  intros Hf Hp. destruct (fh_close_spec h f) as (Hn & Hx & Hd). split_and!.
  - by eapply fs_ok_names.
  - by eapply same_but_content.
  - unfold read_file. rewrite Hn, Hp. done.
Qed.
