(* ===== verification/JsonIndent.v ===== *)
(** * [json.dump(v, f, indent=2)] and its round trip

    The indented format the program's files are written in, and the proof that
    the parser reads it back. *)

From stdpp Require Import base strings list numbers option.
From Stdlib Require Import ZArith Lia Strings.Byte Floats.SpecFloat.
From S2P Require Import Prelude PyStr PyFloat Json JsonFacts.
Open Scope Z_scope.
Open Scope peerc_scope.

Definition newline_indent (level : nat) : pystr := 10 :: replicate (2 * level) 32.

Fixpoint dumps_level (level : nat) (j : json) : pystr :=
  match j with
  | JList (v :: vs) =>
      91 :: newline_indent (S level)
        ++ join (44 :: newline_indent (S level)) (map (dumps_level (S level)) (v :: vs)) ++ newline_indent level ++ [93]
  | JObj (kv :: kvs) =>
      123 :: newline_indent (S level)
        ++ join (44 :: newline_indent (S level))
             (map (fun kv => dump_str kv.1 ++ py ": " ++ dumps_level (S level) kv.2) (kv :: kvs))
        ++ newline_indent level ++ [125]
  | j => dumps j
  end.

Definition dumps_indent (j : json) : pystr := dumps_level 0 j.

Example dumps_indent_ex :
  dumps_indent (JObj [(py "a", JInt 1); (py "b", JObj [(py "c", JNull)])])
  = map (fun c => if c =? 39 then 34 else if c =? 124 then 10 else c) (py "{|  'a': 1,|  'b': {|    'c': null|  }|}").
Proof. vm_compute. reflexivity. Qed.

(** ** Reading a list of texts *)

(** [t] is read as [v], up to a delimiter. *)
Definition text_of (v : json) (t : pystr) : Prop :=
  (exists c r, t = c :: r /\ is_ws c = false /\ c <> 93 /\ c <> 125) /\
  forall fuel rest, delim rest -> (jsize v <= fuel)%nat -> parse_value fuel (t ++ rest) = Ok (v, rest).

Abbreviation ws := (Forall (fun c => is_ws c = true)).

Lemma ws_delim w rest : ws w -> delim rest -> delim (w ++ rest).
Proof.
  intros [|c w' Hc _] Hd; [done|]. cbn. unfold is_ws in Hc. unfold is_digit. repeat (apply orb_true_iff in Hc as [Hc|Hc]); zbool; subst; done.
Qed.

Lemma join_head sep t ts c r : t = c :: r -> exists r', join sep (t :: ts) = c :: r'.
Proof. intros ->. destruct ts; cbn; eauto. Qed.

Lemma read_elements w w' vs ts :
  ws w -> ws w' -> Forall2 text_of vs ts -> vs <> [] -> forall fuel rest,
  (sum_list_with (fun v => S (jsize v)) vs <= fuel)%nat ->
  parse_elements fuel (join (44 :: w) ts ++ w' ++ 93 :: rest) = Ok (vs, rest).
Proof.
  intros Hw Hw'. induction 1 as [|v t vs ts [Hh Hr] Hrest IH]; intros Hne fuel rest Hf; [done|].
  cbn [sum_list_with] in Hf. destruct fuel as [|fuel]; [lia|]. cbn [parse_elements].
  destruct Hrest as [|v2 t2 vs ts Hv2 Hrest].
  - cbn [join]. rewrite Hr by (first [by apply ws_delim | lia]). cbn [rbind].
    rewrite skip_ws_app, skip_ws_non_ws by done. by rewrite eat_self.
  - change (join (44 :: w) (t :: t2 :: ts)) with (t ++ (44 :: w) ++ join (44 :: w) (t2 :: ts)).
    rewrite <- !app_assoc, Hr by (done || lia). cbn [rbind app].
    rewrite skip_ws_non_ws by done. rewrite eat_None_ne by done. unfold expect. rewrite eat_self. cbn [rbind].
    rewrite skip_ws_app by done. destruct Hv2 as [(c & r & E & Hc & _) ?].
    destruct (join_head (44 :: w) t2 ts c r E) as [r' Ej]. rewrite skip_ws_non_ws by (by rewrite Ej).
    rewrite IH; [done|done|]. lia.
Qed.

Lemma read_members w w' kvs ts :
  ws w -> ws w' -> Forall2 (fun kv t => str_ok kv.1 = true /\ text_of kv.2 t) kvs ts -> kvs <> [] -> forall fuel acc rest,
  distinct (map fst (acc ++ kvs)) = true ->
  (sum_list_with (fun kv => S (jsize kv.2)) kvs <= fuel)%nat ->
  parse_members fuel acc (join (44 :: w) (zip_with (fun kv t => dump_str kv.1 ++ py ": " ++ t) kvs ts) ++ w' ++ 125 :: rest)
  = Ok (acc ++ kvs, rest).
Proof.
  intros Hw Hw'. induction 1 as [|[k v] t kvs ts [Hk [Hh Hr]] Hrest IH]; intros Hne fuel acc rest Hd Hf; [done|].
  cbn [fst snd] in *. cbn [sum_list_with snd] in Hf. destruct fuel as [|fuel]; [lia|].
  assert (dict_set k v acc = acc ++ [(k, v)]) as Hset.
  { apply dict_set_fresh. rewrite map_app in Hd. apply distinct_app in Hd as [Hd _]. by inversion_clear Hd. }
  assert (forall q, delim q -> parse_members (S fuel) acc ((dump_str k ++ py ": " ++ t) ++ q)
    = match eat 125 (skip_ws q) with
      | Some q => Ok (acc ++ [(k, v)], q)
      | None => let* q := expect 44 (skip_ws q) in parse_members fuel (acc ++ [(k, v)]) (skip_ws q)
      end) as Hstep.
  { intros q Hq. cbn [parse_members]. rewrite <- !app_assoc, scan_key_dump by done. cbn [rbind].
    change (skip_ws (py ": " ++ t ++ q)) with (58 :: 32 :: t ++ q). unfold expect at 1. rewrite eat_self. cbn [rbind].
    change (skip_ws (32 :: t ++ q)) with (skip_ws (t ++ q)). destruct Hh as (c & r & E & Hc & _).
    rewrite skip_ws_non_ws by (by rewrite E). rewrite Hr by (done || lia). cbn [rbind]. by rewrite Hset. }
  destruct Hrest as [|[k2 v2] t2 kvs ts Hv2 Hrest]; cbn [zip_with].
  - cbn [join fst]. rewrite Hstep by (by apply ws_delim). rewrite skip_ws_app, skip_ws_non_ws by done. by rewrite eat_self.
  - set (m1 := dump_str (k, v).1 ++ py ": " ++ t). set (m2 := dump_str (k2, v2).1 ++ py ": " ++ t2).
    set (l := zip_with _ kvs ts) in *.
    change (join (44 :: w) (m1 :: m2 :: l)) with (m1 ++ (44 :: w) ++ join (44 :: w) (m2 :: l)).
    rewrite <- app_assoc. unfold m1. rewrite Hstep by done. cbn [app].
    rewrite skip_ws_non_ws by done. rewrite eat_None_ne by done. unfold expect. rewrite eat_self. cbn [rbind].
    rewrite <- app_assoc, skip_ws_app by done.
    destruct (join_head (44 :: w) m2 l 34 (flat_map esc_char k2 ++ [34] ++ py ": " ++ t2)) as [r' Ej];
      [unfold m2, dump_str; cbn; by rewrite <- app_assoc|].
    rewrite skip_ws_non_ws by (by rewrite Ej).
    cbn [zip_with] in IH. fold m2 l in IH. rewrite IH; [by rewrite <- app_assoc|done|by rewrite <- app_assoc|lia].
Qed.

(** ** The indented text is read back *)

Lemma newline_indent_ws level : ws (newline_indent level).
Proof. constructor; [done|]. by apply Forall_replicate. Qed.

Lemma zip_with_map {A B C} (g : A -> B -> C) (h : A -> B) l : zip_with g l (map h l) = map (fun x => g x (h x)) l.
Proof. induction l as [|x l IH]; cbn; [done|]. by rewrite IH. Qed.

Lemma dumps_text j : json_ok j = true -> text_of j (dumps j).
Proof.
  intros Hok. split.
  - destruct (dumps_head [32] [32] j Hok) as (c & r & E & Hc & H1 & H2). by exists c, r.
  - intros fuel rest. apply (dumps_reads [32] [32]); [by repeat constructor..|done].
Qed.

Lemma dumps_level_text j : json_ok j = true -> forall level, text_of j (dumps_level level j).
Proof.
  induction j as [|b|n|x|s|vs IH|kvs IH] using json_ind'; intros Hok level; try (by apply dumps_text).
  - destruct vs as [|v vs]; [by apply (dumps_text (JList []))|]. cbn [json_ok jsize] in *.
    assert (Forall2 text_of (v :: vs) (map (dumps_level (S level)) (v :: vs))) as HT.
    { rewrite forallb_forall in Hok. rewrite Forall_forall in IH. apply Forall2_fmap_r, Forall_Forall2_diag, List.Forall_forall.
      intros x Hx. apply IH; auto. }
    split; [by eexists _, _|]. intros [|fuel] rest Hd Hf; [cbn in Hf; lia|]. apply le_S_n in Hf.
    change (dumps_level level (JList (v :: vs))) with (91 :: newline_indent (S level)
      ++ join (44 :: newline_indent (S level)) (map (dumps_level (S level)) (v :: vs)) ++ newline_indent level ++ [93]).
    cbn [app parse_value]. cbn [Z.eqb Pos.eqb]. rewrite <- !app_assoc. cbn [app].
    rewrite skip_ws_app by apply newline_indent_ws.
    assert (exists c r, join (44 :: newline_indent (S level)) (map (dumps_level (S level)) (v :: vs)) = c :: r
      /\ is_ws c = false /\ c <> 93) as (c & r & Ej & Hc & H93).
    { inversion HT as [|? ? ? ? [(c & r & E & Hc & H93 & _) _] _]; subst. cbn [map].
      destruct (join_head (44 :: newline_indent (S level)) _ (map (dumps_level (S level)) vs) c r E) as [r' Er]. eauto. }
    rewrite skip_ws_non_ws by (rewrite Ej; done). rewrite Ej at 1. cbn [app]. rewrite eat_None_ne by done.
    rewrite (read_elements _ _ (v :: vs)); [done|apply newline_indent_ws..|done|done|exact Hf].
  - destruct kvs as [|kv kvs]; [by apply (dumps_text (JObj []))|]. cbn [json_ok jsize] in *. zbool.
    match goal with H : forallb _ _ = true |- _ => rewrite forallb_forall in H; rename H into Hf0 end.
    match goal with H : distinct _ = true |- _ => rename H into Hdist end.
    assert (Forall2 (fun kv t => str_ok kv.1 = true /\ text_of kv.2 t) (kv :: kvs)
      (map (fun kv => dumps_level (S level) kv.2) (kv :: kvs))) as HT.
    { rewrite Forall_forall in IH. apply Forall2_fmap_r, Forall_Forall2_diag, List.Forall_forall.
      intros x Hx. specialize (Hf0 x Hx). zbool. split; [done|]. by apply IH. }
    split; [by eexists _, _|]. intros [|fuel] rest Hd Hf; [cbn in Hf; lia|]. apply le_S_n in Hf.
    change (dumps_level level (JObj (kv :: kvs))) with (123 :: newline_indent (S level)
      ++ join (44 :: newline_indent (S level))
           (map (fun kv => dump_str kv.1 ++ py ": " ++ dumps_level (S level) kv.2) (kv :: kvs)) ++ newline_indent level ++ [125]).
    rewrite <- (zip_with_map (fun kv t => dump_str kv.1 ++ py ": " ++ t) (fun kv => dumps_level (S level) kv.2)).
    cbn [app parse_value]. cbn [Z.eqb Pos.eqb]. rewrite <- !app_assoc. cbn [app].
    rewrite skip_ws_app by apply newline_indent_ws.
    set (ms := zip_with _ _ _).
    assert (exists r, join (44 :: newline_indent (S level)) ms = 34 :: r) as [r Ej].
    { unfold ms. cbn [map zip_with]. unfold dump_str at 1. cbn [app]. eapply join_head. reflexivity. }
    rewrite skip_ws_non_ws by (rewrite Ej; done). rewrite Ej at 1. cbn [app]. rewrite eat_None_ne by done. unfold ms.
    rewrite (read_members _ _ (kv :: kvs)); [done|apply newline_indent_ws..|done|done|exact Hdist|exact Hf].
Qed.

(** ** Its length and characters *)

Definition file_char (c : Z) : bool := printable c || (c =? 10).

Lemma printable_file_char s : printable_str s -> Forall (fun c => file_char c = true) s.
Proof. apply List.Forall_impl. intros c Hc. unfold file_char. by rewrite Hc. Qed.

Lemma join_Forall (P : Z -> Prop) sep ts : Forall P sep -> Forall (Forall P) ts -> Forall P (join sep ts).
Proof.
  intros Hs. induction 1 as [|t ts Ht Hts IH]; [constructor|]. destruct ts; [done|]. cbn [join].
  apply Forall_app. split; [done|]. by apply Forall_app.
Qed.

Lemma newline_indent_chars level : Forall (fun c => file_char c = true) (newline_indent level).
Proof. constructor; [done|]. by apply Forall_replicate. Qed.

Lemma dumps_level_chars j : json_ok j = true -> forall level, Forall (fun c => file_char c = true) (dumps_level level j).
Proof.
  assert (forall j, json_ok j = true -> Forall (fun c => file_char c = true) (dumps j)) as Hleaf.
  { intros k Hk. apply printable_file_char. apply (dumps_printable [32] [32]); by repeat constructor. }
  assert (forall l, Forall (fun c => file_char c = true) (44 :: newline_indent l)) as Hsep
    by (intros l; constructor; [done|apply newline_indent_chars]).
  induction j as [|b|n|x|s|vs IH|kvs IH] using json_ind'; intros Hok level; try (by apply Hleaf).
  - destruct vs as [|v vs]; [by apply (Hleaf (JList []))|].
    change (dumps_level level (JList (v :: vs))) with (91 :: newline_indent (S level)
      ++ join (44 :: newline_indent (S level)) (map (dumps_level (S level)) (v :: vs)) ++ newline_indent level ++ [93]).
    constructor; [done|]. apply Forall_app. split; [apply newline_indent_chars|]. apply Forall_app. split.
    + apply join_Forall; [apply Hsep|]. cbn [json_ok] in Hok. rewrite forallb_forall in Hok.
      apply Forall_map. rewrite Forall_forall in *. auto.
    + apply Forall_app. split; [apply newline_indent_chars|by repeat constructor].
  - destruct kvs as [|kv kvs]; [by apply (Hleaf (JObj []))|].
    change (dumps_level level (JObj (kv :: kvs))) with (123 :: newline_indent (S level)
      ++ join (44 :: newline_indent (S level))
           (map (fun kv => dump_str kv.1 ++ py ": " ++ dumps_level (S level) kv.2) (kv :: kvs)) ++ newline_indent level ++ [125]).
    constructor; [done|]. apply Forall_app. split; [apply newline_indent_chars|]. apply Forall_app. split.
    + apply join_Forall; [apply Hsep|]. cbn [json_ok] in Hok. zbool.
      match goal with H : forallb _ _ = true |- _ => rewrite forallb_forall in H; rename H into Hf0 end.
      apply Forall_map. rewrite Forall_forall in *. intros x Hx. specialize (Hf0 x Hx). zbool.
      apply Forall_app. split; [apply printable_file_char, dump_str_printable|].
      apply Forall_app. split; [by repeat constructor|]. by apply IH.
    + apply Forall_app. split; [apply newline_indent_chars|by repeat constructor].
Qed.

(** The indented text is at least as long as the one-line text, so the parser's
    fuel suffices for it too. *)
Lemma join_longer s s' ts ts' :
  (length s <= length s')%nat -> Forall2 (fun t t' => (length t <= length t')%nat) ts ts' ->
  (length (join s ts) <= length (join s' ts'))%nat.
Proof.
  intros Hs. induction 1 as [|t t' ts ts' Ht Hts IH]; [done|].
  destruct Hts as [|u u' ts ts' Hu Hts]; [done|].
  change (join s (t :: u :: ts)) with (t ++ s ++ join s (u :: ts)).
  change (join s' (t' :: u' :: ts')) with (t' ++ s' ++ join s' (u' :: ts')). rewrite !length_app. lia.
Qed.

Lemma comma_longer level : (length (py ", ") <= length (44%Z :: newline_indent (S level)))%nat.
Proof. unfold newline_indent. cbn [length]. rewrite length_replicate. change (length (py ", ")) with 2%nat. lia. Qed.

Lemma dumps_level_longer j : forall level, (length (dumps j) <= length (dumps_level level j))%nat.
Proof.
  induction j as [|b|n|x|s|vs IH|kvs IH] using json_ind'; intros level; try done.
  - destruct vs as [|v vs]; [done|].
    change (dumps (JList (v :: vs))) with (91 :: join (py ", ") (map dumps (v :: vs)) ++ [93]).
    change (dumps_level level (JList (v :: vs))) with (91 :: newline_indent (S level)
      ++ join (44 :: newline_indent (S level)) (map (dumps_level (S level)) (v :: vs)) ++ newline_indent level ++ [93]).
    cbn [length]. rewrite !length_app.
    pose proof (join_longer (py ", ") (44 :: newline_indent (S level)) (map dumps (v :: vs)) (map (dumps_level (S level)) (v :: vs))
      (comma_longer level)) as Hj.
    ospecialize (Hj _); [|cbn [length] in *; lia]. apply Forall2_fmap, Forall_Forall2_diag. rewrite Forall_forall in *. auto.
  - destruct kvs as [|kv kvs]; [done|].
    change (dumps (JObj (kv :: kvs))) with (123 :: join (py ", ")
      (map (fun kv => dump_str kv.1 ++ py ": " ++ dumps kv.2) (kv :: kvs)) ++ [125]).
    change (dumps_level level (JObj (kv :: kvs))) with (123 :: newline_indent (S level)
      ++ join (44 :: newline_indent (S level))
           (map (fun kv => dump_str kv.1 ++ py ": " ++ dumps_level (S level) kv.2) (kv :: kvs)) ++ newline_indent level ++ [125]).
    cbn [length]. rewrite !length_app.
    pose proof (join_longer (py ", ") (44 :: newline_indent (S level))
      (map (fun kv => dump_str kv.1 ++ py ": " ++ dumps kv.2) (kv :: kvs))
      (map (fun kv => dump_str kv.1 ++ py ": " ++ dumps_level (S level) kv.2) (kv :: kvs)) (comma_longer level)) as Hj.
    ospecialize (Hj _); [|cbn [length] in *; lia]. apply Forall2_fmap, Forall_Forall2_diag. rewrite Forall_forall in *.
    intros x Hx. rewrite !length_app. specialize (IH x Hx (S level)). lia.
Qed.

(** ** The round trip *)

Lemma dumps_indent_ascii j : json_ok j = true -> ascii_str (dumps_indent j).
Proof.
  intros H. generalize (dumps_level_chars j H 0). apply List.Forall_impl. intros c Hc.
  unfold file_char, printable, is_ascii in *. apply orb_true_iff in Hc as [Hc|Hc]; zbool; apply andb_true_iff; split; lia.
Qed.

Lemma loads_indent j : json_ok j = true -> loads (dumps_indent j) = Ok j.
Proof.
  intros Hok. unfold loads. pose proof (dumps_indent_ascii j Hok) as Ha.
  pose proof (jsize_length [32] [32] j Hok) as Hl.
  pose proof (dumps_level_longer j 0) as Hlong. unfold dumps_indent in *.
  destruct (dumps_level_text j Hok 0) as [(c & r & E & Hc & _) Hr].
  assert (prefixb [0xFEFF] (dumps_level 0 j) = false) as ->.
  { rewrite E in *. inversion_clear Ha as [|? ? Hpc _]. unfold is_ascii in Hpc. zbool.
    cbn [prefixb]. by rewrite (proj2 (Z.eqb_neq _ c)) by lia. }
  rewrite skip_ws_non_ws by (rewrite E; done).
  specialize (Hr (2 * length (dumps_level 0 j) + 2)%nat [] I). rewrite app_nil_r in Hr. rewrite Hr; [done|].
  change (dumps j) with (dumps_with [44; 32] [58; 32] j) in Hlong. lia.
Qed.
