(* ===== verification/TextFile.v ===== *)
(** * Text and JSON files

    Python's text-mode [open], [os.makedirs] and the JSON files built on them,
    over the file system of [FileSys], with the state-and-exception monad the
    storage components are written in. Text is UTF-8; the current and the root
    directory are entries of the file system like any other. *)

From S2P Require Import Prelude PyStr Json JsonFacts JsonIndent FileSys.
From stdpp Require Import base gmap strings list option.
From Stdlib Require Import ZArith Lia.
Open Scope Z_scope.
Open Scope peerc_scope.

(** ** Code that changes a state and may raise *)

Definition io (W A : Type) : Type := W -> result A * W.

Section Monad.
Context {W : Type}.
Definition iret {A} (a : A) : io W A := fun w => (Ok a, w).
Definition iraise {A} (e : exn) : io W A := fun w => (Err e, w).
Definition ilift {A} (r : result A) : io W A := fun w => (r, w).
Definition iget {A} (f : W -> A) : io W A := fun w => (Ok (f w), w).
Definition iread {A} (f : W -> result A) : io W A := fun w => (f w, w).
Definition iset (f : W -> W) : io W unit := fun w => (Ok tt, f w).
Definition ibind {A B} (m : io W A) (k : A -> io W B) : io W B :=
  fun w => match m w with
           | (Ok a, w) => k a w
           | (Err e, w) => (Err e, w)
           end.
(** A change of state that fails leaves the state as it was. *)
Definition ichange (f : W -> result W) : io W unit :=
  fun w => match f w with
           | Ok w => (Ok tt, w)
           | Err e => (Err e, w)
           end.
End Monad.

Notation "'let!' x ':=' m 'in' k" := (ibind m (fun x => k))
  (at level 10, x pattern, m at level 100, k at level 200) : peerc_scope.

Lemma ibind_ok {W A B} (m : io W A) (k : A -> io W B) w b w' :
  ibind m k w = (Ok b, w') -> exists a w1, m w = (Ok a, w1) /\ k a w1 = (Ok b, w').
Proof. unfold ibind. destruct (m w) as [[a|e] w1]; [eauto|done]. Qed.

Lemma ibind_run {W A B} (m : io W A) (k : A -> io W B) w a w1 : m w = (Ok a, w1) -> ibind m k w = k a w1.
Proof. unfold ibind. by intros ->. Qed.

Lemma ibind_err {W A B} (m : io W A) (k : A -> io W B) w e w1 : m w = (Err e, w1) -> ibind m k w = (Err e, w1).
Proof. unfold ibind. by intros ->. Qed.

(** ** Directories *)

(** [os.path.split(p)]; its first part is [os.path.dirname(p)]. *)
Definition rstrip_slash (p : path) : path := rev (lstrip_by (fun c => c =? SLASH) (rev p)).
Definition path_split (p : path) : path * path :=
  let i := Z.to_nat (rfind SLASH p + 1) in
  let head := take i p in
  (if forallb (fun c => c =? SLASH) head then head else rstrip_slash head, drop i p).
Definition dirname (p : path) : path := fst (path_split p).

Definition isdir (f : fs) (p : path) : bool :=
  match fs_names f !! p with
  | Some (EDir _) => true
  | _ => false
  end.

(** The size a file system reports for a new directory. *)
Definition DIR_SIZE : Z := 4096.
Definition os_mkdir (p : path) (f : fs) : result fs :=
  match fs_names f !! p with
  | Some _ => Err OSError
  | None => Ok (Disk (<[p := EDir DIR_SIZE]> (fs_names f)) (fs_data f) (fs_next f))
  end.

(** The last step of [os.makedirs]: [mkdir], an existing directory being fine. *)
Definition mkdir_ok (name : path) (f : fs) : result unit * fs :=
  match os_mkdir name f with
  | Ok f => (Ok tt, f)
  | Err e => if isdir f name then (Ok tt, f) else (Err e, f)
  end.
(** The parent and the last component, a trailing slash ignored. *)
Definition parent_of (name : path) : path * path :=
  let (head, tail) := path_split name in
  match tail with
  | [] => path_split head
  | _ => (head, tail)
  end.

(** [os.makedirs(name, exist_ok=True)]. A path is longer than its parent, so
    its length bounds the recursion. The [FileExistsError] of the parent's call,
    the only one this file system raises, is ignored. *)
Fixpoint makedirs_fuel (fuel : nat) (name : path) (f : fs) : result unit * fs :=
  match fuel with
  | O => mkdir_ok name f
  | S fuel =>
      let (head, tail) := parent_of name in
      if negb (bool_decide (head = [])) && negb (bool_decide (tail = [])) && negb (exists_ f head)
      then let f := snd (makedirs_fuel fuel head f) in
           if streq tail [DOT] then (Ok tt, f) else mkdir_ok name f
      else mkdir_ok name f
  end.
Definition makedirs (name : path) : io fs unit := makedirs_fuel (length name) name.

Example makedirs_ex :
  let (r, f) := makedirs (py "/home/u/.peerc") empty_fs in
  (r, map (isdir f) [py "/"; py "/home"; py "/home/u"; py "/home/u/.peerc"], dirname (py "/home/u/.peerc"))
  = (Ok tt, [true; true; true; true], py "/home/u").
Proof. vm_compute. reflexivity. Qed.

(** Directories are the only thing it adds, at paths no longer than its own. *)
Definition dirs_added (n : nat) (f f' : fs) : Prop :=
  fs_data f' = fs_data f /\ fs_next f' = fs_next f /\
  forall q, fs_names f' !! q = fs_names f !! q \/
    fs_names f !! q = None /\ (exists z, fs_names f' !! q = Some (EDir z)) /\ (length q <= n)%nat.

Lemma dirs_added_refl n f : dirs_added n f f.
Proof. split_and!; auto. Qed.

Lemma dirs_added_trans n m f g h : (n <= m)%nat -> dirs_added n f g -> dirs_added m g h -> dirs_added m f h.
Proof.
  intros Hnm (Hd & Hx & Hn) (Hd' & Hx' & Hn'). split_and!; [congruence..|]. intros q.
  destruct (Hn q) as [E|(E & [z Ez] & Hl)], (Hn' q) as [E'|(E' & [z' Ez'] & Hl')].
  - left. congruence.
  - right. split_and!; [congruence|eauto|done].
  - right. split_and!; [done|exists z; congruence|lia].
  - congruence.
Qed.

Lemma lstrip_by_length p s : (length (lstrip_by p s) <= length s)%nat.
Proof. induction s as [|c s IH]; cbn; [done|]. destruct (p c); cbn; lia. Qed.

Lemma path_split_length p : (length (path_split p).1 <= length p)%nat.
Proof.
  unfold path_split. cbn [fst]. case_match; [rewrite length_take; lia|].
  unfold rstrip_slash. rewrite length_rev. etrans; [apply lstrip_by_length|]. rewrite length_rev, length_take. lia.
Qed.

Lemma mkdir_ok_added name f : dirs_added (length name) f (mkdir_ok name f).2.
Proof.
  unfold mkdir_ok, os_mkdir. destruct (fs_names f !! name) as [d|] eqn:E.
  - case_match; apply dirs_added_refl.
  - split_and!; [done..|]. intros q. cbn. destruct (decide (q = name)) as [->|Hq].
    + right. rewrite lookup_insert_eq. eauto.
    + left. by rewrite lookup_insert_ne.
Qed.

Lemma parent_of_length name : (length (parent_of name).1 <= length name)%nat.
Proof.
  unfold parent_of. pose proof (path_split_length name) as H1. destruct (path_split name) as [head tail].
  pose proof (path_split_length head) as H2. destruct tail; cbn in *; lia.
Qed.

Lemma makedirs_fuel_added fuel : forall name f, dirs_added (length name) f (makedirs_fuel fuel name f).2.
Proof.
  induction fuel as [|fuel IH]; intros name f; cbn [makedirs_fuel]; [apply mkdir_ok_added|].
  pose proof (parent_of_length name) as Hlen. destruct (parent_of name) as [head tail]. cbn [fst] in Hlen.
  destruct (negb _ && _ && _); [|apply mkdir_ok_added]. destruct (streq tail [DOT]).
  - eapply dirs_added_trans; [exact Hlen|apply IH|apply dirs_added_refl].
  - eapply dirs_added_trans; [exact Hlen|apply IH|apply mkdir_ok_added].
Qed.

Lemma makedirs_added name f : dirs_added (length name) f (makedirs name f).2.
Proof. apply makedirs_fuel_added. Qed.

Section DirsAdded.
Context (n : nat) (f f' : fs) (H : dirs_added n f f').

Lemma dirs_added_ok : fs_ok f -> fs_ok f'.
Proof.
  destruct H as (_ & Hx & Hn). intros [Hr Hi].
  assert (forall q i, fs_names f' !! q = Some (EFile i) -> fs_names f !! q = Some (EFile i)) as Hf.
  { intros q i Hq. destruct (Hn q) as [<-|(_ & [z Ez] & _)]; congruence. }
  split; [intros p i Hp; rewrite Hx; eauto|]. intros p q i Hp Hq. eauto.
Qed.

Lemma dirs_added_read p c : read_file f p = Ok c -> read_file f' p = Ok c.
Proof.
  destruct H as (Hd & _ & Hn). unfold read_file, inode_data. rewrite Hd.
  destruct (Hn p) as [->|(-> & _)]; done.
Qed.

(** A longer path is untouched. *)
Lemma dirs_added_long p : (n < length p)%nat -> fs_names f' !! p = fs_names f !! p /\ read_file f' p = read_file f p.
Proof.
  destruct H as (Hd & _ & Hn). intros Hp. assert (fs_names f' !! p = fs_names f !! p) as E
    by (destruct (Hn p) as [->|(_ & _ & ?)]; [done|lia]).
  split; [done|]. unfold read_file, inode_data. by rewrite E, Hd.
Qed.
End DirsAdded.

(** ** Text mode *)

(** The newline translation of a text file opened for reading. *)
Fixpoint universal_newlines (s : pystr) : pystr :=
  match s with
  | [] => []
  | c :: r => if c =? 13 then 10 :: match r with
                                    | d :: r' => if d =? 10 then universal_newlines r' else universal_newlines r
                                    | [] => []
                                    end
              else c :: universal_newlines r
  end.

(** [open(p, "r").read()] *)
Definition read_text (f : fs) (p : path) : result pystr :=
  let* data := read_file f p in
  let* text := utf8_decode data in
  Ok (universal_newlines text).

(** [with open(p, "w") as f: f.write(text)]. The file is emptied before anything
    is written; text that cannot be encoded leaves it empty. [spill] is the
    buffering of the file object. *)
Section Calls.
(** [call] performs one call on the file system: as it is, or recording the disk
    it leaves. *)
Context {W : Type} (call : forall A, io fs A -> io W A).
Definition write_text_by (spill : bytes -> nat) (p : path) (text : pystr) : io W unit :=
  let! h := call _ (fun f => match open_wb f p with
                             | Ok (h, f) => (Ok h, f)
                             | Err e => (Err e, f)
                             end) in
  match utf8_encode text with
  | Err e => let! _ := call _ (iset (fh_close h)) in iraise e
  | Ok data =>
      let! h := call _ (fun f => let (h, f) := fh_write spill data h f in (Ok h, f)) in
      call _ (iset (fh_close h))
  end.
End Calls.
Definition plainly (A : Type) (m : io fs A) : io fs A := m.
Definition recording (A : Type) (m : io fs A) : io (fs * list fs) A := fun '(f, disks) =>
  let (r, f) := m f in (r, (f, disks ++ [f])).
Definition write_text : (bytes -> nat) -> path -> pystr -> io fs unit := write_text_by plainly.

Lemma write_text_eq spill p text f :
  write_text spill p text f =
  match open_wb f p with
  | Err e => (Err e, f)
  | Ok (h, f) =>
      match utf8_encode text with
      | Err e => (Err e, fh_close h f)
      | Ok data => let (h, f) := fh_write spill data h f in (Ok tt, fh_close h f)
      end
  end.
Proof.
  unfold write_text, write_text_by, plainly, ibind, iset, iraise. destruct (open_wb f p) as [[h f1]|e]; [|done].
  destruct (utf8_encode text); [|done]. by destruct (fh_write spill _ h f1).
Qed.

(** [json.load(open(p, "r"))] and [json.dump(j, open(p, "w"), indent=2)] *)
Definition json_load (p : path) (f : fs) : result json :=
  let* text := read_text f p in loads text.
Definition json_dump (spill : bytes -> nat) (p : path) (j : json) : io fs unit := write_text spill p (dumps_indent j).

(** Text written and read back unchanged. *)
Definition plain_text (s : pystr) : Prop := Forall (fun c => is_ascii c = true /\ c <> 13) s.

Lemma universal_newlines_plain s : plain_text s -> universal_newlines s = s.
Proof. induction 1 as [|c s [_ Hc] _ IH]; [done|]. cbn. rewrite (proj2 (Z.eqb_neq c 13)) by done. by rewrite IH. Qed.

Lemma plain_ascii s : plain_text s -> ascii_str s.
Proof. apply List.Forall_impl. by intros c [? _]. Qed.

Lemma read_text_plain f p s : plain_text s -> read_file f p = Ok (map z2b s) -> read_text f p = Ok s.
Proof.
  intros Hs E. unfold read_text. rewrite E. cbn [rbind]. rewrite utf8_decode_ascii by by apply plain_ascii.
  cbn [rbind]. by rewrite universal_newlines_plain.
Qed.

Lemma dumps_indent_plain j : json_ok j = true -> plain_text (dumps_indent j).
Proof.
  intros H. generalize (dumps_level_chars j H 0). apply List.Forall_impl. intros c Hc.
  unfold file_char, printable, is_ascii in *. apply orb_true_iff in Hc as [Hc|Hc]; zbool;
    (split; [apply andb_true_iff; split|]); lia.
Qed.

(** ** What the operations do *)

Lemma empty_fs_ok : fs_ok empty_fs.
Proof. split; intros p q; unfold empty_fs; cbn; [|intros i]; by rewrite lookup_empty. Qed.

Lemma read_file_missing f p : read_file f p = Err FileNotFoundError <-> fs_names f !! p = None.
Proof. unfold read_file. by destruct (fs_names f !! p) as [[]|]. Qed.
Lemma read_file_dir f p : read_file f p = Err OSError <-> isdir f p = true.
Proof. unfold read_file, isdir. by destruct (fs_names f !! p) as [[]|]. Qed.
Lemma exists_read f p : exists_ f p = false <-> read_file f p = Err FileNotFoundError.
Proof.
  unfold exists_. rewrite read_file_missing, bool_decide_eq_false. by rewrite eq_None_not_Some.
Qed.

(** What [p] reads as, and nothing else, changed to [c]. *)
Definition wrote (p : path) (c : bytes) (f f' : fs) : Prop :=
  fs_ok f' /\ same_but p f f' /\ read_file f' p = Ok c.

Lemma open_wb_ok f p : isdir f p = false -> exists h f', open_wb f p = Ok (h, f').
Proof. unfold isdir, open_wb, create_inode. destruct (fs_names f !! p) as [[]|]; [eauto|done|eauto]. Qed.

Lemma fh_write_opened spill data p f h f' :
  opened p [] f h f' -> let r := fh_write spill data h f' in opened p data f r.1 r.2.
Proof.
  intros (Hok & Hsb & Hn & Hend & Hc). destruct (fh_write_content spill data h f' Hend) as (Ha & Hi & Hc' & Hn' & Hx & Hd).
  split_and!.
  - by eapply fs_ok_names.
  - eapply same_but_trans; [done|]. by eapply same_but_content.
  - by rewrite Hn', Hi.
  - done.
  - by rewrite Hc', Hc.
Qed.

Lemma close_wrote p c f h f' : opened p c f h f' -> wrote p c f (fh_close h f').
Proof.
  intros (Hok & Hsb & Hn & Hend & Hc). destruct (fh_close_opened p h f' Hok Hn) as (H1 & H2 & H3).
  split_and!; [done|by eapply same_but_trans|congruence].
Qed.

Lemma write_text_wrote spill p s f :
  fs_ok f -> isdir f p = false -> plain_text s ->
  exists f', write_text spill p s f = (Ok tt, f') /\ wrote p (map z2b s) f f'.
Proof.
  intros Hf Hp Hs. rewrite write_text_eq. destruct (open_wb_ok f p Hp) as (h & f1 & E). rewrite E.
  rewrite utf8_encode_ascii by by apply plain_ascii.
  pose proof (fh_write_opened spill (map z2b s) p f h f1 (open_wb_spec f p h f1 E Hf)) as Ho.
  destruct (fh_write spill (map z2b s) h f1) as [h2 f2]. eexists. split; [done|]. by eapply close_wrote.
Qed.

Lemma json_dump_wrote spill p j f :
  fs_ok f -> isdir f p = false -> json_ok j = true ->
  exists f', json_dump spill p j f = (Ok tt, f') /\ wrote p (map z2b (dumps_indent j)) f f'.
Proof. intros. apply write_text_wrote; [done..|]. by apply dumps_indent_plain. Qed.

Lemma json_load_written p j f : json_ok j = true -> read_file f p = Ok (map z2b (dumps_indent j)) -> json_load p f = Ok j.
Proof.
  intros Hj E. unfold json_load. rewrite (read_text_plain f p (dumps_indent j)); [|by apply dumps_indent_plain|done].
  by apply loads_indent.
Qed.

Lemma wrote_dir p c f f' q : wrote p c f f' -> isdir f q = false -> isdir f' q = false.
Proof.
  intros (_ & Hs & Hr) Hq. apply not_true_is_false. rewrite <- not_true_iff_false, <- read_file_dir in *.
  destruct (decide (q = p)) as [->|Hn]; [congruence|]. by rewrite Hs.
Qed.
