(* ===== verification/Transfer.v ===== *)
(** * core/transfer: chunking, hashing, resumable receivers, senders and limits

    The components of [core/transfer] as state passing over the file system of
    [FileSys]. An operation that may raise returns the result together with the
    state it leaves behind, so that error paths keep their side effects. *)

From S2P Require Import Prelude PyStr Sha256 FileSys TextFile.
From stdpp Require Import base gmap strings list option list_numbers.
From Stdlib Require Import ZArith Lia.

Open Scope Z_scope.

(** ** chunker.py and hashing.py *)

Definition DEFAULT_CHUNK_SIZE : Z := 64 * 1024.

(** [f.read(n)] of a binary reader with [rest] left before the end of file. *)
Definition file_read (n : Z) (rest : bytes) : result (bytes * bytes) :=
  if n <? -1 then Err ValueError
  else if n =? -1 then Ok (rest, [])
  else Ok (take (Z.to_nat n) rest, drop (Z.to_nat n) rest).

Abbreviation chunk := (Z * Z * bytes)%type.

(** The generator's loop; every round but the last consumes input, so a fuel
    above the length of [rest] runs it to the end. *)
Fixpoint read_loop (fuel : nat) (chunk_size sequence_index current_offset : Z) (rest : bytes) : result (list chunk) :=
  match fuel with
  | O => Ok []
  | S fuel =>
      let* (chunk, rest) := file_read chunk_size rest in
      match chunk with
      | [] => Ok []
      | _ => let* more := read_loop fuel chunk_size (sequence_index + 1) (current_offset + zlen chunk) rest in
             Ok ((sequence_index, current_offset, chunk) :: more)
      end
  end.

Definition read_chunks (f : fs) (filepath : path) (start_offset chunk_size : Z) : result (list chunk) :=
  let* total_size := getsize f filepath in
  guard negb (total_size <? start_offset) else ValueError ;;
  let* content := read_file f filepath in
  let rest := (if 0 <? start_offset then drop (Z.to_nat start_offset) content else content) in
  guard negb (chunk_size =? 0) else ZeroDivisionError ;;
  read_loop (S (length rest)) chunk_size (start_offset / chunk_size) start_offset rest.

Definition DEFAULT_HASH_CHUNK_SIZE : Z := 64 * 1024.

(** A [hashlib.sha256()] object: the bytes it was fed. *)
Record IncrementalHasher : Type := Hasher {
  h_message : bytes;
  bytes_hashed : Z
}.
Definition new_hasher : IncrementalHasher := Hasher [] 0.
Definition hasher_update (data : bytes) (h : IncrementalHasher) : IncrementalHasher :=
  Hasher (h_message h ++ data) (bytes_hashed h + zlen data).
Definition hexdigest (h : IncrementalHasher) : pystr := sha256_hex (h_message h).
Definition digest (h : IncrementalHasher) : bytes := sha256 (h_message h).

Fixpoint hash_loop (fuel : nat) (chunk_size : Z) (rest h : bytes) : result bytes :=
  match fuel with
  | O => Ok h
  | S fuel =>
      let* (chunk, rest) := file_read chunk_size rest in
      match chunk with
      | [] => Ok h
      | _ => hash_loop fuel chunk_size rest (h ++ chunk)
      end
  end.

Definition sha256_file (f : fs) (filepath : path) (chunk_size : Z) : result pystr :=
  let* content := read_file f filepath in
  let* h := hash_loop (S (length content)) chunk_size content [] in
  Ok (sha256_hex h).

(** ** resume.py *)

Definition PART_EXTENSION : pystr := py ".part".
Definition get_part_path (dest_path : path) : path := dest_path ++ PART_EXTENSION.

Definition get_partial_bytes (f : fs) (part_path : path) : Z :=
  if isfile f part_path then
    match getsize f part_path with
    | Ok n => n
    | Err _ => 0
    end
  else 0.

Definition cleanup_part_file (f : fs) (part_path : path) : fs :=
  if exists_ f part_path then
    match os_remove f part_path with
    | Ok f => f
    | Err _ => f
    end
  else f.

Definition finalize_part_file (f : fs) (part_path dest_path : path) : result fs :=
  guard isfile f part_path else FileNotFoundError ;;
  os_replace f part_path dest_path.

(** ** receiver.py: pre-flight checks *)

Definition MAX_INCOMING_FILE_SIZE : Z := 2 * 1024 * 1024 * 1024.
Definition DISK_SAFETY_MARGIN : Z := 10 * 1024 * 1024.

(** What the program asks of the host besides files: the free bytes
    [shutil.disk_usage] reports ([None]: it raises [OSError]) and the canonical
    path [os.path.realpath] computes through symbolic links. *)
Record host : Type := Host {
  disk_free : path -> option Z;
  realpath : path -> path
}.

Definition check_disk_space (os : host) (directory : path) (required_bytes safety_margin : Z) : bool :=
  match disk_free os directory with
  | Some free => required_bytes + safety_margin <=? free
  | None => true
  end.

(** [os.path.realpath] asks the operating system about every component: a
    surrogate that stands for no undecodable byte has no encoding, and a NUL is
    refused; the first component that cannot be passed decides the exception.
    ([os.path.exists] takes both for a missing file.) *)
Definition os_encodable (s : pystr) : bool :=
  forallb (fun c => negb (is_surrogate c) || ((0xDC80 <=? c) && (c <=? 0xDCFF))) s.
Fixpoint check_components (cs : list pystr) : result unit :=
  match cs with
  | [] => Ok tt
  | c :: cs =>
      guard os_encodable c else UnicodeEncodeError ;;
      guard negb (existsb (Z.eqb 0) c) else ValueError ;;
      check_components cs
  end.
Definition os_realpath (os : host) (p : path) : result path :=
  let* _ := check_components (components p) in Ok (realpath os p).

Definition numbered (base ext : pystr) (counter : Z) : pystr :=
  base ++ py " (" ++ str_of_int counter ++ py ")" ++ ext.

Definition taken (f : fs) (candidate : path) : bool := exists_ f candidate || exists_ f (get_part_path candidate).

(** The renaming loop. *)
Fixpoint next_candidate (fuel : nat) (f : fs) (downloads_dir base ext : pystr) (counter : Z) (candidate : path) : path :=
  if taken f candidate then
    match fuel with
    | O => candidate
    | S fuel => next_candidate fuel f downloads_dir base ext (counter + 1)
                  (path_join downloads_dir (numbered base ext counter))
    end
  else candidate.

(** Each existing name can block two candidates, itself and the one it is the
    partial file of; [rename_rounds] rounds therefore reach a free name. *)
Definition rename_rounds (f : fs) : nat := S (2 * size (fs_names f)).

Definition resolve_safe_dest_path (os : host) (f : fs) (filename downloads_dir : pystr) : result path :=
  let name := strip (basename (replace_char 92 SLASH filename)) in
  guard negb (streq name [] || streq name (py ".") || streq name (py "..")) else TransferSecurityError ;;
  let* downloads_root := os_realpath os downloads_dir in
  let '(base, ext) := splitext name in
  let candidate := next_candidate (rename_rounds f) f downloads_dir base ext 1 (path_join downloads_dir name) in
  let* resolved := os_realpath os candidate in
  let* common := commonpath resolved downloads_root in
  guard streq common downloads_root else TransferSecurityError ;;
  Ok candidate.

(** ** receiver.py: FileReceiver *)

Inductive rstatus : Type := ROffered | RReceiving | RVerifying | RDone | RFailed.
#[export] Instance rstatus_eq_dec : EqDecision rstatus.
Proof. solve_decision. Defined.

Record FileReceiver : Type := Receiver {
  r_transfer_id : pystr;
  r_filename : pystr;
  r_size : Z;
  r_expected_checksum : pystr;
  r_sender_name : pystr;
  r_dest_path : path;
  r_part_path : path;
  r_chunk_size : Z;
  r_bytes_received : Z;
  r_expected_chunk_index : Z;
  r_status : rstatus;
  r_handle : option handle
}.

Definition new_receiver (transfer_id filename : pystr) (size : Z) (checksum sender_name : pystr) (dest_path : path)
    (chunk_size : Z) : FileReceiver :=
  Receiver transfer_id filename size checksum sender_name dest_path (get_part_path dest_path) chunk_size
    0 0 ROffered None.

Definition set_progress (bytes_received expected_chunk_index : Z) (r : FileReceiver) : FileReceiver :=
  Receiver (r_transfer_id r) (r_filename r) (r_size r) (r_expected_checksum r) (r_sender_name r) (r_dest_path r)
    (r_part_path r) (r_chunk_size r) bytes_received expected_chunk_index (r_status r) (r_handle r).
Definition set_status (s : rstatus) (r : FileReceiver) : FileReceiver :=
  Receiver (r_transfer_id r) (r_filename r) (r_size r) (r_expected_checksum r) (r_sender_name r) (r_dest_path r)
    (r_part_path r) (r_chunk_size r) (r_bytes_received r) (r_expected_chunk_index r) s (r_handle r).
Definition set_handle (h : option handle) (r : FileReceiver) : FileReceiver :=
  Receiver (r_transfer_id r) (r_filename r) (r_size r) (r_expected_checksum r) (r_sender_name r) (r_dest_path r)
    (r_part_path r) (r_chunk_size r) (r_bytes_received r) (r_expected_chunk_index r) (r_status r) h.

(** The receiver object and the disk it writes to. *)
Abbreviation rstate := (FileReceiver * fs)%type.

(** The assignment [self._file_handle = open(...)] and the lines after it. A file
    object it replaces is no longer referenced, and is closed. *)
Definition start_receiving (opened : result (handle * fs)) (offset : Z) (r : FileReceiver) (f : fs) : result Z * rstate :=
  match opened with
  | Err e => (Err e, (r, f))
  | Ok (h, f) =>
      let f := match r_handle r with
               | Some old => fh_close old f
               | None => f
               end in
      (Ok offset, (set_status RReceiving (set_handle (Some h) r), f))
  end.

Definition prepare (resume : bool) (st : rstate) : result Z * rstate :=
  let '(r, f) := st in
  let existing_bytes := get_partial_bytes f (r_part_path r) in
  if resume && (0 <? existing_bytes) && (existing_bytes <? r_size r) then
    if r_chunk_size r =? 0
    then (Err ZeroDivisionError, (set_progress existing_bytes (r_expected_chunk_index r) r, f))
    else start_receiving (open_ab f (r_part_path r)) existing_bytes
           (set_progress existing_bytes (existing_bytes / r_chunk_size r) r) f
  else
    let f := cleanup_part_file f (r_part_path r) in
    start_receiving (open_wb f (r_part_path r)) 0 (set_progress 0 0 r) f.

(** [failure]: the number of bytes the file object passed on before its [write]
    raised [OSError], if it does. *)
Definition write_chunk (spill : bytes -> nat) (failure : option nat) (sequence offset : Z) (data : bytes) (st : rstate) : result unit * rstate :=
  let '(r, f) := st in
  match r_handle r, r_status r with
  | Some h, RReceiving =>
      if negb (sequence =? r_expected_chunk_index r) || negb (offset =? r_bytes_received r)
      then (Err ChunkValidationError, st)
      else if r_size r <? r_bytes_received r + zlen data then (Err ChunkValidationError, st)
      else match failure with
      | Some n =>
          let '(h, f) := fh_write_failed n data h f in
          (Err OSError, (set_handle (Some h) r, f))
      | None =>
          let '(h, f) := fh_write spill data h f in
          (Ok tt, (set_progress (r_bytes_received r + zlen data) (r_expected_chunk_index r + 1)
                     (set_handle (Some h) r), f))
      end
  | _, _ => (Err ChunkValidationError, st)
  end.

(** Closes the handle, if one is open. *)
Definition close_handle (st : rstate) : rstate :=
  let '(r, f) := st in
  match r_handle r with
  | Some h => (set_handle None r, fh_close h f)
  | None => (r, f)
  end.

Definition abort (cleanup : bool) (st : rstate) : rstate :=
  let '(r, f) := close_handle st in
  (set_status RFailed r, if cleanup then cleanup_part_file f (r_part_path r) else f).

Definition finish (st : rstate) : result bool * rstate :=
  let '(r, f) := close_handle st in
  let r := set_status RVerifying r in
  if negb (r_bytes_received r =? r_size r) then (Ok false, abort true (r, f))
  else match sha256_file f (r_part_path r) DEFAULT_HASH_CHUNK_SIZE with
  | Err e => (Err e, (r, f))
  | Ok actual_checksum =>
      if negb (streq (lower actual_checksum) (lower (r_expected_checksum r))) then (Ok false, abort true (r, f))
      else match finalize_part_file f (r_part_path r) (r_dest_path r) with
      | Err e => (Err e, (r, f))
      | Ok f => (Ok true, (set_status RDone r, f))
      end
  end.

(** ** sender.py *)

Inductive sstatus : Type := SOffered | SSending | SAwaitingAck | SDone | SFailed.

Record FileSender : Type := Sender {
  sn_transfer_id : pystr;
  sn_filepath : path;
  sn_filename : pystr;
  sn_size : Z;
  sn_checksum : pystr;
  sn_chunk_size : Z;
  sn_bytes_sent : Z;
  sn_status : sstatus;
  sn_ack_event : bool;
  sn_ack_success : bool;
  sn_ack_reason : pystr
}.

Definition new_sender (f : fs) (transfer_id : pystr) (filepath : path) (filename : option pystr) (chunk_size : Z)
    : result FileSender :=
  let filename := match filename with
                  | Some (c :: cs) => c :: cs
                  | _ => basename filepath
                  end in
  let* size := getsize f filepath in
  let* checksum := sha256_file f filepath DEFAULT_HASH_CHUNK_SIZE in
  Ok (Sender transfer_id filepath filename size checksum chunk_size 0 SOffered false false []).

Definition set_sent (st : sstatus) (n : Z) (s : FileSender) : FileSender :=
  Sender (sn_transfer_id s) (sn_filepath s) (sn_filename s) (sn_size s) (sn_checksum s) (sn_chunk_size s)
    n st (sn_ack_event s) (sn_ack_success s) (sn_ack_reason s).
Definition set_ack (st : sstatus) (event success : bool) (reason : pystr) (s : FileSender) : FileSender :=
  Sender (sn_transfer_id s) (sn_filepath s) (sn_filename s) (sn_size s) (sn_checksum s) (sn_chunk_size s)
    (sn_bytes_sent s) st event success reason.

Definition chunk_data (c : chunk) : bytes := snd c.
Definition chunks_size (cs : list chunk) : Z := zlen (concat (map chunk_data cs)).

(** The generator after [n] calls of [next]: a chunk is counted as sent when
    the consumer comes back for the following one. *)
Definition get_chunks (f : fs) (s : FileSender) (start_offset : Z) (n : nat) : result (list chunk) * FileSender :=
  match n with
  | O => (Ok [], s)
  | S k =>
      match read_chunks f (sn_filepath s) start_offset (sn_chunk_size s) with
      | Err e => (Err e, set_sent SSending start_offset s)
      | Ok cs => (Ok (take n cs), set_sent SSending (start_offset + chunks_size (take k cs)) s)
      end
  end.

Definition mark_ack (success : bool) (reason : pystr) (s : FileSender) : FileSender :=
  set_ack (sn_status s) true success reason s.

(** [arrives] is the [mark_ack] call made while the sender waits, if one is
    made before the timeout. *)
Definition wait_for_ack (arrives : option (bool * pystr)) (s : FileSender) : bool * FileSender :=
  let s := set_ack SAwaitingAck (sn_ack_event s) (sn_ack_success s) (sn_ack_reason s) s in
  let s := if sn_ack_event s then s
           else match arrives with
                | Some (success, reason) => mark_ack success reason s
                | None => s
                end in
  if sn_ack_event s then
    (sn_ack_success s,
     set_ack (if sn_ack_success s then SDone else SFailed) true (sn_ack_success s) (sn_ack_reason s) s)
  else (false, set_ack SFailed false (sn_ack_success s) (py "ack timed out") s).

(** ** manager.py *)

Definition MAX_CONCURRENT_TRANSFERS : Z := 5.
Definition MAX_TOTAL_INCOMING_SIZE : Z := 10 * 1024 * 1024 * 1024.

Record FileTransferManager : Type := Manager {
  m_downloads_dir : path;
  m_max_concurrent : Z;
  m_max_total_incoming : Z;
  m_senders : gmap pystr FileSender;
  m_receivers : gmap pystr FileReceiver
}.

Definition empty_manager (downloads_dir : path) (max_concurrent max_total_incoming : Z) : FileTransferManager :=
  Manager downloads_dir max_concurrent max_total_incoming ∅ ∅.
(** The constructor also creates the downloads directory, or raises. *)
Definition new_manager (downloads_dir : path) (max_concurrent max_total_incoming : Z) : io fs FileTransferManager :=
  let! _ := makedirs downloads_dir in
  iret (empty_manager downloads_dir max_concurrent max_total_incoming).

Definition active (r : FileReceiver) : bool :=
  match r_status r with
  | RReceiving | ROffered => true
  | _ => false
  end.

Definition active_receivers (m : FileTransferManager) : list FileReceiver :=
  List.filter active (map snd (map_to_list (m_receivers m))).
Definition active_incoming_count (m : FileTransferManager) : Z := zlen (active_receivers m).
Definition sum_Z (zs : list Z) : Z := fold_right Z.add 0 zs.
Definition total_incoming_bytes_pending (m : FileTransferManager) : Z := sum_Z (map r_size (active_receivers m)).

(** [transfer_id or str(uuid.uuid4())] *)
Definition create_sender (f : fs) (filepath : path) (transfer_id : option pystr) (uuid4 : pystr) (m : FileTransferManager)
    : result FileSender * FileTransferManager :=
  let tid := match transfer_id with
             | Some (c :: cs) => c :: cs
             | _ => uuid4
             end in
  match new_sender f tid filepath None DEFAULT_CHUNK_SIZE with
  | Err e => (Err e, m)
  | Ok s => (Ok s, Manager (m_downloads_dir m) (m_max_concurrent m) (m_max_total_incoming m)
                     (<[tid := s]> (m_senders m)) (m_receivers m))
  end.

Definition get_sender (m : FileTransferManager) (transfer_id : pystr) : option FileSender := m_senders m !! transfer_id.
Definition get_receiver (m : FileTransferManager) (transfer_id : pystr) : option FileReceiver :=
  m_receivers m !! transfer_id.

Definition validate_offer (os : host) (f : fs) (m : FileTransferManager) (filename : pystr) (size : Z) : result path :=
  guard negb ((size <=? 0) || (MAX_INCOMING_FILE_SIZE <? size)) else ValueError ;;
  guard negb (m_max_concurrent m <=? active_incoming_count m) else InsufficientDiskSpaceError ;;
  guard negb (m_max_total_incoming m <? total_incoming_bytes_pending m + size) else InsufficientDiskSpaceError ;;
  guard check_disk_space os (m_downloads_dir m) size DISK_SAFETY_MARGIN else InsufficientDiskSpaceError ;;
  resolve_safe_dest_path os f filename (m_downloads_dir m).

Definition set_receivers (rs : gmap pystr FileReceiver) (m : FileTransferManager) : FileTransferManager :=
  Manager (m_downloads_dir m) (m_max_concurrent m) (m_max_total_incoming m) (m_senders m) rs.

Definition create_receiver (transfer_id filename : pystr) (size : Z) (checksum sender_name : pystr) (dest_path : path)
    (m : FileTransferManager) : FileReceiver * FileTransferManager :=
  let r := new_receiver transfer_id filename size checksum sender_name dest_path DEFAULT_CHUNK_SIZE in
  (r, set_receivers (<[transfer_id := r]> (m_receivers m)) m).

Definition remove_transfer (transfer_id : pystr) (m : FileTransferManager) : FileTransferManager :=
  Manager (m_downloads_dir m) (m_max_concurrent m) (m_max_total_incoming m)
    (delete transfer_id (m_senders m)) (delete transfer_id (m_receivers m)).
