(* ===== verification/TransferFacts.v ===== *)
(** * File transfer: what the sender streams, what the receiver keeps

    Exactness of the chunk stream, safety of the destination path, the
    receiver's invariant over any sequence of operations, delivery of whole and
    resumed files, and the limits the manager enforces. *)

From S2P Require Import Prelude PyStr Sha256 FileData FileSys TextFile Transfer.
From stdpp Require Import base gmap strings list option list_numbers.
From Stdlib Require Import ZArith Lia.

Open Scope Z_scope.

(** ** The chunk stream *)

(** Non-empty chunks numbered from [seq] that follow one another from [off]. *)
Fixpoint contiguous (limit seq off : Z) (cs : list chunk) : Prop :=
  match cs with
  | [] => True
  | (s, o, d) :: cs => s = seq /\ o = off /\ 0 < zlen d <= limit /\ contiguous limit (seq + 1) (off + zlen d) cs
  end.

Lemma file_read_pos n rest : 0 < n -> file_read n rest = Ok (take (Z.to_nat n) rest, drop (Z.to_nat n) rest).
Proof. intros Hn. unfold file_read. by rewrite (proj2 (Z.ltb_ge n (-1))), (proj2 (Z.eqb_neq n (-1))) by lia. Qed.

Lemma take_nil_inv {A} n (l : list A) : (0 < n)%nat -> take n l = [] -> l = [].
Proof. destruct n, l; cbn; [lia|lia|done|done]. Qed.

Lemma read_loop_exact fuel n seq off rest :
  0 < n -> (length rest < fuel)%nat ->
  exists cs, read_loop fuel n seq off rest = Ok cs /\ concat (map chunk_data cs) = rest /\ contiguous n seq off cs.
Proof.
  intros Hn. revert seq off rest. induction fuel as [|fuel IH]; intros seq off rest Hf; [lia|].
  cbn [read_loop]. rewrite file_read_pos by done. cbn [rbind].
  destruct (take (Z.to_nat n) rest) as [|b t] eqn:E.
  - apply take_nil_inv in E as ->; [|lia]. by exists [].
  - destruct (IH (seq + 1) (off + zlen (b :: t)) (drop (Z.to_nat n) rest)) as (cs & -> & Hc & Hcont).
    { rewrite length_drop. destruct rest; [by rewrite take_nil in E|]. cbn in *. lia. }
    cbn [rbind]. eexists. split; [done|]. cbn. rewrite Hc. split.
    { change (b :: t ++ drop (Z.to_nat n) rest) with ((b :: t) ++ drop (Z.to_nat n) rest).
      by rewrite <- E, take_drop. }
    split_and!; [done|done| | |done].
    + rewrite zlen_cons. pose proof (zlen_nonneg t). lia.
    + rewrite <- E. unfold zlen. rewrite length_take. lia.
Qed.

Lemma hash_loop_exact fuel n rest h :
  0 < n -> (length rest < fuel)%nat -> hash_loop fuel n rest h = Ok (h ++ rest).
Proof.
  intros Hn. revert rest h. induction fuel as [|fuel IH]; intros rest h Hf; [lia|].
  cbn [hash_loop]. rewrite file_read_pos by done. cbn [rbind].
  destruct (take (Z.to_nat n) rest) as [|b t] eqn:E.
  - apply take_nil_inv in E as ->; [by rewrite app_nil_r|lia].
  - rewrite IH, <- E, <- app_assoc, take_drop; [done|].
    rewrite length_drop. destruct rest; [by rewrite take_nil in E|]. cbn in *. lia.
Qed.

Lemma sha256_file_content f p n :
  0 < n -> sha256_file f p n = (let* content := read_file f p in Ok (sha256_hex content)).
Proof.
  intros Hn. unfold sha256_file. destruct (read_file f p) as [c|e]; cbn [rbind]; [|done].
  rewrite hash_loop_exact by (done || lia). done.
Qed.

Lemma getsize_content f p c : read_file f p = Ok c -> getsize f p = Ok (zlen c).
Proof. unfold read_file, getsize. destruct (fs_names f !! p) as [[i|n]|]; intros Hr; inv_ok; done. Qed.

(** The chunk generator streams exactly the file. From any offset up to the
    end, the chunks are non-empty, at most [chunk_size] long, consecutively
    numbered from [start_offset // chunk_size], each at the offset where the
    previous one ended, and their concatenation is the file from
    [start_offset] on; an offset past the end raises [ValueError]. The hash of a
    file computed piecewise, and an incremental hasher fed these chunks of a
    whole file, agree with the digest of its content. *)
Theorem read_chunks_exact f p content start chunk_size :
  read_file f p = Ok content -> 0 < chunk_size -> 0 <= start ->
  (start <= zlen content ->
   exists cs, read_chunks f p start chunk_size = Ok cs /\
     concat (map chunk_data cs) = drop (Z.to_nat start) content /\
     contiguous chunk_size (start / chunk_size) start cs) /\
  (zlen content < start -> read_chunks f p start chunk_size = Err ValueError) /\
  sha256_file f p chunk_size = Ok (sha256_hex content) /\
  (forall cs, read_chunks f p 0 chunk_size = Ok cs ->
   let h := fold_left (fun h c => hasher_update (chunk_data c) h) cs new_hasher in
   hexdigest h = sha256_hex content /\ bytes_hashed h = zlen content).
Proof.
  intros Hr Hc Hs.
  assert (forall s, 0 <= s <= zlen content -> exists cs, read_chunks f p s chunk_size = Ok cs /\
     concat (map chunk_data cs) = drop (Z.to_nat s) content /\ contiguous chunk_size (s / chunk_size) s cs) as Hgo.
  { intros s Hle. unfold read_chunks. rewrite (getsize_content _ _ _ Hr), Hr. cbn [rbind].
    rewrite (proj2 (Z.ltb_ge _ _)), (proj2 (Z.eqb_neq _ _)) by lia. cbn [negb].
    replace (if 0 <? s then _ else content) with (drop (Z.to_nat s) content)
      by (destruct (Z.ltb_spec 0 s); [done|]; by replace s with 0 by lia).
    apply read_loop_exact; lia. }
  split_and!.
  - intros Hle. by apply Hgo.
  - intros Hlt. unfold read_chunks. rewrite (getsize_content _ _ _ Hr). cbn [rbind].
    by rewrite (proj2 (Z.ltb_lt _ _)) by lia.
  - rewrite sha256_file_content, Hr by done. done.
  - intros cs Hcs. destruct (Hgo 0) as (cs' & Hcs' & Hcat & _); [pose proof (zlen_nonneg content); lia|].
    rewrite Hcs in Hcs'. apply Ok_inj in Hcs' as <-. cbn in Hcat. intros h. subst h.
    assert (forall cs h, let h' := fold_left (fun h c => hasher_update (chunk_data c) h) cs h in
      h_message h' = h_message h ++ concat (map chunk_data cs) /\
      bytes_hashed h' = bytes_hashed h + zlen (concat (map chunk_data cs))) as Hfold.
    { clear. induction cs as [|c cs IH]; intros h; cbn; [rewrite app_nil_r, zlen_nil; split; [done|lia]|].
      destruct (IH (hasher_update (chunk_data c) h)) as [-> ->].
      unfold hasher_update. cbn [h_message bytes_hashed]. rewrite zlen_app, <- app_assoc. split; [done|lia]. }
    unfold hexdigest. destruct (Hfold cs new_hasher) as [-> ->]. rewrite Hcat.
    change (drop (Z.to_nat 0) content) with content. cbn [new_hasher bytes_hashed h_message]. split; [done|lia].
Qed.

Lemma read_chunks_exact_witness :
  let f := Disk {[ py "a" := EFile 0 ]} {[ 0%nat := pyb "abcde" ]} 1 in
  (exists cs, read_chunks f (py "a") 2 2 = Ok cs /\ concat (map chunk_data cs) = pyb "cde") /\
  read_chunks f (py "a") 6 2 = Err ValueError.
Proof.
  intros f. destruct (read_chunks_exact f (py "a") (pyb "abcde") 2 2) as [Ha _];
    [vm_compute; reflexivity | lia | lia |].
  destruct (read_chunks_exact f (py "a") (pyb "abcde") 6 2) as [_ [Hb _]];
    [vm_compute; reflexivity | lia | lia |].
  split; [|apply Hb; vm_compute; reflexivity].
  destruct Ha as (cs & H1 & H2 & _); [vm_compute; discriminate|]. exists cs. split; [exact H1|].
  rewrite H2. vm_compute. reflexivity.
Defined.

(** ** The destination path *)

Definition leaf_ok (leaf : pystr) : Prop :=
  leaf <> [] /\ (SLASH ∉ leaf) /\ leaf <> py "." /\ leaf <> py "..".

Lemma path_join_leaf d : exists pre, forall leaf, leaf <> [] -> SLASH ∉ leaf -> path_join d leaf = pre ++ leaf.
Proof.
  destruct (list.last d) as [l|] eqn:E; [destruct (Z.eqb_spec l SLASH)|].
  1: exists d. 2: exists (d ++ [SLASH]). 3: exists [].
  all: intros [|c leaf] Hn Hs; [done|]; cbn; rewrite E.
  all: destruct (Z.eqb_spec c SLASH) as [->|_]; [set_solver|].
  - subst. done.
  - rewrite (proj2 (Z.eqb_neq l SLASH)) by done. by rewrite <- app_assoc.
  - done.
Qed.

Lemma digits_no_slash n : 0 <= n -> SLASH ∉ str_of_int n.
Proof.
  intros Hn. unfold str_of_int. rewrite (proj2 (Z.ltb_ge n 0)) by done.
  destruct (str_of_nonneg_spec n Hn) as (_ & Hd & _). rewrite List.Forall_forall in Hd.
  intros Hin%list_elem_of_In%Hd. by vm_compute in Hin.
Qed.

Lemma numbered_leaf base ext n : 0 <= n -> SLASH ∉ base -> SLASH ∉ ext -> leaf_ok (numbered base ext n).
Proof.
  intros Hn Hb He. pose proof (digits_no_slash n Hn) as Hd. unfold leaf_ok.
  assert (2 < length (numbered base ext n))%nat as Hl.
  { unfold numbered. rewrite !length_app. change (length (py " (")) with 2%nat. change (length (py ")")) with 1%nat. lia. }
  split_and!; [intros E; rewrite E in Hl; vm_compute in Hl; lia | | intros E; rewrite E in Hl; vm_compute in Hl; lia..].
  unfold numbered. rewrite !elem_of_app. intros [?|[Hp|[?|[Hp|?]]]]; try done; vm_compute in Hp; set_solver.
Qed.

Lemma numbered_inj base ext a b : 0 <= a -> 0 <= b -> numbered base ext a = numbered base ext b -> a = b.
Proof.
  intros Ha Hb E. unfold numbered in E. do 2 apply app_inv_head in E.
  rewrite !app_assoc in E. do 2 apply app_inv_tail in E. revert E. unfold str_of_int.
  rewrite !(proj2 (Z.ltb_ge _ 0)) by done. by apply str_of_nonneg_inj.
Qed.

Lemma next_candidate_cases fuel f d base ext k c :
  let c' := next_candidate fuel f d base ext k c in
  taken f c' = false /\ (c' = c \/ exists j, k <= j < k + Z.of_nat fuel /\ c' = path_join d (numbered base ext j)) \/
  forall j, k <= j < k + Z.of_nat fuel -> taken f (path_join d (numbered base ext j)) = true.
Proof.
  revert k c. induction fuel as [|fuel IH]; intros k c; cbn [next_candidate].
  - destruct (taken f c) eqn:E; [right; intros; lia|]. left. auto.
  - destruct (taken f c) eqn:E; [|left; by auto].
    destruct (IH (k + 1) (path_join d (numbered base ext k))) as [[Ht Hc]|Ht].
    + left. split; [done|]. right. destruct Hc as [Hc|(j & Hj & Hc)]; [exists k|exists j]; split; done || lia.
    + destruct (taken f (path_join d (numbered base ext k))) eqn:Ek.
      * right. intros j Hj. destruct (decide (j = k)) as [->|]; [done|]. apply Ht. lia.
      * left. assert (next_candidate fuel f d base ext (k + 1) (path_join d (numbered base ext k))
          = path_join d (numbered base ext k)) as -> by (destruct fuel; cbn; by rewrite Ek).
        split; [done|]. right. exists k. split; [lia|done].
Qed.

(** Two names per existing entry can be blocked, so the loop finds a free one. *)
Lemma taken_bound f cs : NoDup cs -> Forall (fun c => taken f c = true) cs -> (length cs <= 2 * size (fs_names f))%nat.
Proof.
  intros Hnd Hall. set (keys := map fst (map_to_list (fs_names f))).
  assert (length keys = size (fs_names f)) as Hlen by (unfold keys; by rewrite length_map, length_map_to_list).
  set (unpart := fun p : path => take (length p - 5) p).
  transitivity (length (keys ++ map unpart keys)); [|rewrite length_app, length_map; lia].
  apply NoDup_incl_length; [by apply NoDup_ListNoDup|]. intros c Hc.
  rewrite List.Forall_forall in Hall. apply Hall in Hc. unfold taken, exists_ in Hc.
  assert (forall p, is_Some (fs_names f !! p) -> In p keys) as Hkey.
  { intros p [e He]. apply elem_of_map_to_list, list_elem_of_In in He. by apply (in_map fst) in He. }
  apply in_or_app. apply orb_true_iff in Hc as [Hc|Hc]; apply bool_decide_eq_true, Hkey in Hc; [by left|right].
  apply (in_map unpart) in Hc. unfold get_part_path in Hc. replace (unpart (c ++ PART_EXTENSION)) with c in Hc; [done|].
  unfold unpart. rewrite length_app. change (length PART_EXTENSION) with 5%nat. rewrite Nat.add_sub.
  by rewrite take_app_exact.
Qed.

Lemma next_candidate_free f d base ext c :
  SLASH ∉ base -> SLASH ∉ ext ->
  let c' := next_candidate (rename_rounds f) f d base ext 1 c in
  taken f c' = false /\ (c' = c \/ exists j, 1 <= j /\ c' = path_join d (numbered base ext j)).
Proof.
  intros Hb He. destruct (next_candidate_cases (rename_rounds f) f d base ext 1 c) as [[Ht Hc]|Hall].
  { split; [done|]. destruct Hc as [Hc|(j & ? & Hc)]; [by left|]. right. exists j. split; [lia|done]. }
  exfalso. destruct (path_join_leaf d) as [pre Hpre].
  assert (forall j, 0 <= j -> path_join d (numbered base ext j) = pre ++ numbered base ext j) as Hj.
  { intros j Hj. destruct (numbered_leaf base ext j Hj Hb He) as (? & ? & _). by apply Hpre. }
  set (js := seqZ 1 (Z.of_nat (rename_rounds f))).
  assert (length (map (fun j => path_join d (numbered base ext j)) js) <= 2 * size (fs_names f))%nat as Hle.
  { apply taken_bound.
    - apply NoDup_ListNoDup, NoDup_map_NoDup_ForallPairs; [|apply NoDup_ListNoDup, NoDup_seqZ].
      intros a b Ha%list_elem_of_In%elem_of_seqZ Hb'%list_elem_of_In%elem_of_seqZ. rewrite !Hj by lia.
      intros E%app_inv_head. apply numbered_inj in E; lia.
    - apply List.Forall_forall. intros c0 (j & <- & Hin%list_elem_of_In%elem_of_seqZ)%in_map_iff. apply Hall. lia. }
  rewrite length_map in Hle. unfold js in Hle. rewrite length_seqZ in Hle. unfold rename_rounds in Hle. lia.
Qed.

(** The leaf name taken from a remote file name. *)
Definition remote_leaf (filename : pystr) : pystr := strip (basename (replace_char 92 SLASH filename)).

Lemma remote_leaf_no_slash filename : SLASH ∉ remote_leaf filename.
Proof. intros H%strip_by_elem. by apply basename_no_slash in H. Qed.

Lemma not_leaf_ok leaf : SLASH ∉ leaf -> streq leaf [] || streq leaf (py ".") || streq leaf (py "..") = false <-> leaf_ok leaf.
Proof.
  intros Hs. unfold leaf_ok, streq. rewrite !orb_false_iff, !bool_decide_eq_false. tauto.
Qed.

(** No component of the path has a NUL or a surrogate the system cannot take. *)
Definition passable (p : path) : Prop := check_components (components p) = Ok tt.

Lemma check_components_errors cs e :
  check_components cs = Err e -> (e = UnicodeEncodeError \/ e = ValueError) /\ check_components cs <> Ok tt.
Proof.
  intros H. split; [|congruence]. induction cs as [|c cs IH]; cbn [check_components] in H; [done|].
  destruct (os_encodable c); [|injection H as <-; by left]. destruct (negb _); [by apply IH|injection H as <-; by right].
Qed.
Lemma os_realpath_cases os p :
  match os_realpath os p with
  | Ok q => q = realpath os p /\ passable p
  | Err e => (e = UnicodeEncodeError \/ e = ValueError) /\ ~ passable p
  end.
Proof.
  unfold os_realpath, passable. destruct (check_components (components p)) as [[]|e] eqn:E; cbn [rbind]; [done|].
  by apply check_components_errors in E as [H _].
Qed.

Lemma resolve_dest_cases os f filename downloads_dir :
  (forall p, isabs (realpath os p) = true) ->
  match resolve_safe_dest_path os f filename downloads_dir with
  | Ok c => exists leaf root,
      leaf_ok leaf /\ c = path_join downloads_dir leaf /\ passable c /\
      exists_ f c = false /\ exists_ f (get_part_path c) = false /\
      realpath os downloads_dir = SLASH :: join_slash root /\ root `prefix_of` components (realpath os c)
  | Err e => (e = TransferSecurityError /\
      (~ leaf_ok (remote_leaf filename) \/ exists leaf,
         commonpath (realpath os (path_join downloads_dir leaf)) (realpath os downloads_dir)
         <> Ok (realpath os downloads_dir))) \/
      ((e = UnicodeEncodeError \/ e = ValueError) /\
       (~ passable downloads_dir \/ exists leaf, ~ passable (path_join downloads_dir leaf)))
  end.
Proof.
  intros Habs. unfold resolve_safe_dest_path. fold (remote_leaf filename).
  pose proof (remote_leaf_no_slash filename) as Hns. set (name := remote_leaf filename) in *.
  pose proof (not_leaf_ok name Hns) as Hleaf. destruct (streq name [] || _ || _); cbn [negb].
  { left. split; [done|]. left. intros Hok%Hleaf. done. }
  pose proof (proj1 Hleaf eq_refl) as Hok.
  pose proof (os_realpath_cases os downloads_dir) as Hroot. destruct (os_realpath os downloads_dir) as [root|e]; cbn [rbind];
    [destruct Hroot as [-> _]|right; split; [by apply Hroot|left; by apply Hroot]]. destruct (splitext name) as [base ext] eqn:Es.
  pose proof (splitext_app name) as Happ. rewrite Es in Happ. cbn in Happ.
  assert ((SLASH ∉ base) /\ (SLASH ∉ ext)) as [Hb He] by (rewrite <- Happ in Hns; set_solver).
  pose proof (next_candidate_free f downloads_dir base ext (path_join downloads_dir name) Hb He) as [Ht Hc].
  set (c := next_candidate _ _ _ _ _ _ _) in *.
  assert (exists leaf, leaf_ok leaf /\ c = path_join downloads_dir leaf) as (leaf & Hl & Hcl).
  { destruct Hc as [->|(j & Hj & ->)]; eexists; (split; [|done]); [done|]. apply numbered_leaf; lia || done. }
  pose proof (os_realpath_cases os c) as Hcand. destruct (os_realpath os c) as [resolved|e]; cbn [rbind];
    [destruct Hcand as [-> Hpass]|right; split; [by apply Hcand|right; exists leaf; rewrite <- Hcl; by apply Hcand]].
  unfold commonpath. rewrite !Habs. cbn [Bool.eqb negb rbind].
  unfold streq. case_bool_decide as E.
  - apply orb_false_iff in Ht as [H1 H2]. exists leaf. eexists. split_and!; [done|done|done|done|done|by symmetry|].
    apply common_prefix_l.
  - left. split; [done|]. right. exists leaf. rewrite <- Hcl. unfold commonpath. rewrite !Habs. cbn. by intros [=].
Qed.

(** C14: a remote file name cannot place a file outside the downloads directory.
    Whatever the name, [resolve_safe_dest_path] terminates and either raises
    [TransferSecurityError] (the name is unusable, or the path resolves outside
    the downloads directory), or the error of a path the system cannot take, or
    returns a path made of the downloads directory and one plain name component,
    at which neither a file nor a partial file exists, and whose canonical form
    lies below that of the downloads directory. *)
Theorem dest_path_confined os f filename downloads_dir :
  (forall p, isabs (realpath os p) = true) ->
  match resolve_safe_dest_path os f filename downloads_dir with
  | Ok c => exists leaf root,
      leaf_ok leaf /\ c = path_join downloads_dir leaf /\ passable c /\
      exists_ f c = false /\ exists_ f (get_part_path c) = false /\
      realpath os downloads_dir = SLASH :: join_slash root /\ root `prefix_of` components (realpath os c)
  | Err e => (e = TransferSecurityError /\
      (~ leaf_ok (remote_leaf filename) \/ exists leaf,
         commonpath (realpath os (path_join downloads_dir leaf)) (realpath os downloads_dir)
         <> Ok (realpath os downloads_dir))) \/
      ((e = UnicodeEncodeError \/ e = ValueError) /\
       (~ passable downloads_dir \/ exists leaf, ~ passable (path_join downloads_dir leaf)))
  end.
Proof. apply resolve_dest_cases. Qed.

Lemma dest_path_confined_witness :
  let os := Host (fun _ => None) (fun p => py "/home/u/" ++ p) in
  let f := Disk {[ py "dl/evil.txt" := EFile 0; py "dl/evil (1).txt.part" := EFile 1 ]} ∅ 2 in
  resolve_safe_dest_path os f (py "../../etc\evil.txt ") (py "dl") = Ok (py "dl/evil (2).txt") /\
  exists_ f (py "dl/evil (2).txt") = false /\
  resolve_safe_dest_path os f (py "a/..") (py "dl") = Err TransferSecurityError.
Proof.
  intros os f. assert (forall p, isabs (realpath os p) = true) as Habs by (intros p; reflexivity).
  pose proof (dest_path_confined os f (py "../../etc\evil.txt ") (py "dl") Habs) as H.
  assert (resolve_safe_dest_path os f (py "../../etc\evil.txt ") (py "dl") = Ok (py "dl/evil (2).txt")) as E
    by (vm_compute; reflexivity).
  rewrite E in H. destruct H as (leaf & root & _ & _ & _ & Hx & _).
  split; [exact E|]. split; [exact Hx|]. vm_compute. reflexivity.
Defined.

(** ** The receiver's state machine *)

(** Any use of a receiver: [prepare], chunks, [finish] and [abort] at any time,
    and failing writes. Failing calls are steps too. The flag tells a calm run:
    no write of the file failed, and [prepare] was called only while no file was
    open. *)
Definition idle (r : FileReceiver) : bool := match r_handle r with Some _ => false | None => true end.
Definition wrote (failure : option nat) : bool := match failure with Some _ => false | None => true end.

Inductive rstep (spill : bytes -> nat) : bool * rstate -> bool * rstate -> Prop :=
  | step_prepare resume calm r f : rstep spill (calm, (r, f)) (calm && idle r, snd (prepare resume (r, f)))
  | step_chunk failure sequence offset data calm st :
      rstep spill (calm, st) (calm && wrote failure, snd (write_chunk spill failure sequence offset data st))
  | step_finish calm st : rstep spill (calm, st) (calm, snd (finish st))
  | step_abort cleanup calm st : rstep spill (calm, st) (calm, abort cleanup st).

(** A file of the declared size whose SHA-256 is the announced one. *)
Definition verified (r : FileReceiver) (content : bytes) : Prop :=
  zlen content = r_size r /\ lower (sha256_hex content) = lower (r_expected_checksum r).

Definition same_offer (r0 r : FileReceiver) : Prop :=
  r_size r = r_size r0 /\ r_expected_checksum r = r_expected_checksum r0 /\ r_dest_path r = r_dest_path r0 /\
  r_part_path r = get_part_path (r_dest_path r0).

(** What is on disk agrees with the receiver's counters. *)
Definition in_sync (r : FileReceiver) (f : fs) : Prop :=
  match r_handle r with
  | Some h => r_status r = RReceiving /\ fs_names f !! r_part_path r = Some (EFile (fh_ino h)) /\ at_end h f /\
              zlen (fh_content h f) = r_bytes_received r
  | None => r_bytes_received r = 0 \/ forall c, read_file f (r_part_path r) = Ok c -> zlen c = r_bytes_received r
  end.

Definition published (r0 : FileReceiver) (f0 f : fs) : Prop :=
  (forall p, p <> get_part_path (r_dest_path r0) -> p <> r_dest_path r0 -> read_file f p = read_file f0 p) /\
  (read_file f (r_dest_path r0) = read_file f0 (r_dest_path r0) \/
   exists c, read_file f (r_dest_path r0) = Ok c /\ verified r0 c).

Definition recv_inv (r0 : FileReceiver) (f0 : fs) (st : rstate) : Prop :=
  let '(r, f) := st in
  same_offer r0 r /\ fs_ok f /\ 0 <= r_bytes_received r <= r_size r0 /\ in_sync r f /\ published r0 f0 f.

Lemma part_not_dest d : get_part_path d <> d.
Proof.
  unfold get_part_path. intros E%(f_equal length). rewrite length_app in E.
  change (length PART_EXTENSION) with 5%nat in E. lia.
Qed.

Lemma published_frame r0 f0 f f' :
  published r0 f0 f -> same_but (get_part_path (r_dest_path r0)) f f' -> published r0 f0 f'.
Proof.
  intros [H1 H2] Hs. split.
  - intros p Hp Hd. rewrite Hs by done. by apply H1.
  - rewrite Hs by (intros E; by apply (part_not_dest (r_dest_path r0))). done.
Qed.

Lemma cleanup_part_file_spec f p :
  fs_ok f -> fs_ok (cleanup_part_file f p) /\ same_but p f (cleanup_part_file f p) /\
  isfile (cleanup_part_file f p) p = false.
Proof.
  intros Hf. unfold cleanup_part_file, exists_, isfile. case_bool_decide as E.
  - destruct (os_remove f p) as [f'|e] eqn:Er.
    + destruct (os_remove_spec _ _ _ Er Hf) as (? & ? & Hn). rewrite Hn. auto.
    + split; [done|]. split; [apply same_but_refl|]. unfold os_remove in Er. by destruct (fs_names f !! p) as [[]|].
  - split; [done|]. split; [apply same_but_refl|]. destruct (fs_names f !! p) as [[]|]; [|done..].
    by destruct E.
Qed.

Lemma not_isfile_read f p c : isfile f p = false -> read_file f p = Ok c -> False.
Proof. unfold isfile, read_file. by destruct (fs_names f !! p) as [[]|]. Qed.

Lemma close_handle_inv r0 f0 r f :
  recv_inv r0 f0 (r, f) ->
  let '(r', f') := close_handle (r, f) in
  recv_inv r0 f0 (r', f') /\ r_handle r' = None /\ same_offer r r' /\ r_bytes_received r' = r_bytes_received r.
Proof.
  intros (Ho & Hf & Hb & Hy & Hp). unfold close_handle, in_sync in *. destruct (r_handle r) as [h|] eqn:Eh.
  - destruct Hy as (Hst & Hn & Hend & Hlen). destruct (fh_close_opened _ _ _ Hf Hn) as (Hf' & Hs & Hr).
    assert (r_part_path r = get_part_path (r_dest_path r0)) as Ep by apply Ho.
    split; [|split; [done|split; [|done]]].
    + split; [exact Ho|]. split; [done|]. split; [done|]. split.
      * right. cbn. intros c. rewrite Hr. intros [=<-]. done.
      * eapply published_frame; [done|]. by rewrite <- Ep.
    + split_and!; try done. cbn. by destruct Ho as (_ & _ & -> & ->).
  - split; [|split; [done|split; [|done]]].
    + split; [exact Ho|]. split; [done|]. split; [done|]. split; [|done]. unfold in_sync. by rewrite Eh.
    + split_and!; try done. by destruct Ho as (_ & _ & -> & ->).
Qed.

Lemma abort_inv r0 f0 cleanup r f : recv_inv r0 f0 (r, f) -> recv_inv r0 f0 (abort cleanup (r, f)).
Proof.
  intros Hi%close_handle_inv. unfold abort. destruct (close_handle (r, f)) as [r' f'].
  destruct Hi as ((Ho & Hf & Hb & Hy & Hp) & Hh & _).
  assert (r_part_path r' = get_part_path (r_dest_path r0)) as Ep by apply Ho.
  split; [exact Ho|]. destruct cleanup; [|split_and!; try done; [apply Hb..|]; unfold in_sync in *; cbn; by rewrite Hh in *].
  destruct (cleanup_part_file_spec f' (r_part_path r') Hf) as (Hf' & Hs & Hn).
  split; [done|]. split; [done|]. split.
  - unfold in_sync. cbn. rewrite Hh. right. intros c Hc. by destruct (not_isfile_read _ _ _ Hn Hc).
  - eapply published_frame; [done|]. by rewrite <- Ep.
Qed.

Lemma get_partial_bytes_read f p :
  0 < get_partial_bytes f p -> exists c, read_file f p = Ok c /\ zlen c = get_partial_bytes f p.
Proof.
  unfold get_partial_bytes, isfile, getsize, read_file.
  destruct (fs_names f !! p) as [[]|]; intros H; cbn in *; [eauto|lia..].
Qed.

Lemma start_inv r0 f0 c f r h f' :
  same_offer r0 r -> published r0 f0 f -> opened (get_part_path (r_dest_path r0)) c f h f' ->
  r_bytes_received r = zlen c -> zlen c <= r_size r0 ->
  recv_inv r0 f0 (set_status RReceiving (set_handle (Some h) r), f').
Proof.
  intros Ho Hp (Hf' & Hs & Hn & Hend & Hc) Hb Hle. split; [exact Ho|]. split; [done|]. cbn [r_bytes_received set_status set_handle].
  pose proof (zlen_nonneg c). split; [lia|]. split.
  - unfold in_sync. cbn. split; [done|]. destruct Ho as (_ & _ & _ & ->). split_and!; [done|done|congruence].
  - by eapply published_frame.
Qed.

Lemma prepare_inv r0 f0 resume r f :
  r_handle r = None -> recv_inv r0 f0 (r, f) -> recv_inv r0 f0 (snd (prepare resume (r, f))).
Proof.
  intros Hh (Ho & Hf & Hb & Hy & Hp). unfold prepare.
  assert (r_part_path r = get_part_path (r_dest_path r0)) as Ep by apply Ho.
  assert (r_size r = r_size r0) as Esz by apply Ho.
  destruct (resume && _ && _) eqn:E.
  - zbool. destruct (get_partial_bytes_read f (r_part_path r)) as (c & Hc & Hlen); [lia|].
    destruct (r_chunk_size r =? 0).
    + split; [exact Ho|]. split; [done|]. cbn. split; [lia|]. split; [|done].
      unfold in_sync. cbn. rewrite Hh. right. intros c'. rewrite Hc. by intros [=<-].
    + unfold start_receiving. destruct (open_ab f (r_part_path r)) as [[h f']|e] eqn:Eo; cbn.
      * rewrite Hh. cbn. eapply (start_inv _ _ c f); [exact Ho|done| |cbn; lia|lia].
        rewrite <- Ep. by eapply open_ab_spec.
      * unfold open_ab, read_file in *. by destruct (fs_names f !! _) as [[]|].
  - destruct (cleanup_part_file_spec f (r_part_path r) Hf) as (Hf1 & Hs1 & Hn1).
    set (f1 := cleanup_part_file f (r_part_path r)) in *.
    assert (published r0 f0 f1) as Hp1 by (eapply published_frame; [done|]; by rewrite <- Ep).
    unfold start_receiving. destruct (open_wb f1 (r_part_path r)) as [[h f']|e] eqn:Eo; cbn.
    + rewrite Hh. cbn. eapply (start_inv _ _ [] f1); [exact Ho|done| |done|rewrite zlen_nil; lia].
      rewrite <- Ep. by eapply open_wb_spec.
    + split; [exact Ho|]. split; [done|]. cbn. split; [lia|]. split; [|done]. unfold in_sync. cbn. rewrite Hh. by left.
Qed.

Lemma write_chunk_inv r0 f0 spill sequence offset data r f :
  recv_inv r0 f0 (r, f) -> recv_inv r0 f0 (snd (write_chunk spill None sequence offset data (r, f))).
Proof.
  intros Hi. unfold write_chunk. destruct (r_handle r) as [h|] eqn:Eh; [|exact Hi].
  destruct (r_status r) eqn:Es; try exact Hi. destruct (_ || _); [exact Hi|]. destruct (_ <? _) eqn:Ele; [exact Hi|].
  destruct Hi as (Ho & Hf & Hb & Hy & Hp). unfold in_sync in Hy. rewrite Eh in Hy.
  destruct Hy as (_ & Hn & Hend & Hlen). destruct (fh_write_content spill data h f Hend) as (He' & Hi' & Hc' & Hn' & Hx' & Hd').
  destruct (fh_write spill data h f) as [h' f']. cbn in *. zbool.
  assert (r_size r = r_size r0) as Esz by apply Ho. pose proof (zlen_nonneg data).
  split; [exact Ho|]. split; [by eapply fs_ok_names|]. cbn. split; [lia|]. split.
  - unfold in_sync. cbn. split; [done|]. rewrite Hn', Hi'. split_and!; [done|done|]. rewrite Hc', zlen_app. lia.
  - eapply published_frame; [done|]. assert (r_part_path r = get_part_path (r_dest_path r0)) as <- by apply Ho.
    by eapply same_but_content.
Qed.

Lemma finalize_part_file_spec f part dest f' :
  finalize_part_file f part dest = Ok f' -> fs_ok f -> part <> dest ->
  fs_ok f' /\ read_file f' dest = read_file f part /\ fs_names f' !! part = None /\
  (forall q, q <> part -> q <> dest -> read_file f' q = read_file f q).
Proof. unfold finalize_part_file. case_match; [|done]. apply os_replace_spec. Qed.

Lemma finish_inv r0 f0 r f : 0 < r_size r0 -> recv_inv r0 f0 (r, f) -> recv_inv r0 f0 (snd (finish (r, f))).
Proof.
  intros Hsz Hi%close_handle_inv. unfold finish. destruct (close_handle (r, f)) as [r1 f1].
  destruct Hi as (Hinv & Hh & _). destruct Hinv as (Ho & Hf & Hb & Hy & Hp).
  set (r2 := set_status RVerifying r1).
  assert (recv_inv r0 f0 (r2, f1)) as Hi2
    by (split; [exact Ho|]; split_and!; try done; try apply Hb; unfold in_sync in *; cbn; by rewrite Hh in *).
  destruct (negb _) eqn:Esz; [by apply abort_inv|]. apply negb_false_iff, Z.eqb_eq in Esz. cbn in Esz.
  rewrite sha256_file_content by done. change (r_part_path r2) with (r_part_path r1).
  destruct (read_file f1 (r_part_path r1)) as [c|e] eqn:Er; cbn [rbind]; [|exact Hi2].
  destruct (negb _) eqn:Ehash; [by apply abort_inv|]. apply negb_false_iff, streq_spec in Ehash.
  destruct (finalize_part_file _ _ _) as [f2|e] eqn:Efin; [|exact Hi2]. cbn [snd].
  destruct Ho as (Hs0 & Hc0 & Hd0 & Hp0).
  assert (verified r0 c) as Hv.
  { unfold in_sync in Hy. rewrite Hh in Hy. split; [|rewrite <- Hc0; exact Ehash].
    destruct Hy as [Hy|Hy]; [lia|]. rewrite (Hy c); [lia|done]. }
  destruct (finalize_part_file_spec _ _ _ _ Efin Hf) as (Hf2 & Hrd & Hgone & Hq).
  { cbn. rewrite Hp0, Hd0. apply part_not_dest. }
  cbn in Hgone, Hq, Hrd. rewrite Hp0, Hd0 in *.
  split; [by split_and!|]. split; [done|]. split; [done|]. split; [|split].
  - unfold in_sync. cbn. rewrite Hh. right. intros c'. rewrite Hp0. unfold read_file. by rewrite Hgone.
  - intros p Hp1 Hp2. rewrite Hq by done. by apply Hp.
  - right. exists c. by rewrite Hrd.
Qed.

Lemma recv_inv_new tid name size checksum sender dest n f0 :
  fs_ok f0 -> 0 <= size ->
  let r0 := new_receiver tid name size checksum sender dest n in recv_inv r0 f0 (r0, f0).
Proof.
  intros Hf Hs. split; [done|]. split; [done|]. cbn. split; [lia|]. split; [by left|].
  split; [done|by left].
Qed.

(** What holds of a run that is not calm: the counters and the disk may disagree,
    so that only the checksum is known of what is published. *)
Definition published_hash (r0 : FileReceiver) (f0 f : fs) : Prop :=
  (forall p, p <> get_part_path (r_dest_path r0) -> p <> r_dest_path r0 -> read_file f p = read_file f0 p) /\
  (read_file f (r_dest_path r0) = read_file f0 (r_dest_path r0) \/
   exists c, read_file f (r_dest_path r0) = Ok c /\ lower (sha256_hex c) = lower (r_expected_checksum r0)).

Definition handle_named (r : FileReceiver) (f : fs) : Prop :=
  forall h, r_handle r = Some h -> r_status r = RReceiving /\ fs_names f !! r_part_path r = Some (EFile (fh_ino h)).

Definition recv_safe (r0 : FileReceiver) (f0 : fs) (st : rstate) : Prop :=
  let '(r, f) := st in
  same_offer r0 r /\ fs_ok f /\ 0 <= r_bytes_received r <= r_size r0 /\ handle_named r f /\ published_hash r0 f0 f.

Lemma published_hash_frame r0 f0 f f' :
  published_hash r0 f0 f -> same_but (get_part_path (r_dest_path r0)) f f' -> published_hash r0 f0 f'.
Proof.
  intros [H1 H2] Hs. split.
  - intros p Hp Hd. rewrite Hs by done. by apply H1.
  - rewrite Hs by (intros E; by apply (part_not_dest (r_dest_path r0))). done.
Qed.

Lemma close_handle_safe r0 f0 r f :
  recv_safe r0 f0 (r, f) ->
  let '(r', f') := close_handle (r, f) in recv_safe r0 f0 (r', f') /\ r_handle r' = None.
Proof.
  intros (Ho & Hf & Hb & Hy & Hp). unfold close_handle. destruct (r_handle r) as [h|] eqn:Eh; [|by split].
  destruct (Hy h Eh) as [_ Hn]. destruct (fh_close_opened _ _ _ Hf Hn) as (Hf' & Hs & _).
  split; [|done]. split; [exact Ho|]. split; [done|]. split; [done|]. split; [by intros h'|].
  eapply published_hash_frame; [done|]. by replace (get_part_path _) with (r_part_path r) by apply Ho.
Qed.

Lemma abort_safe r0 f0 cleanup r f : recv_safe r0 f0 (r, f) -> recv_safe r0 f0 (abort cleanup (r, f)).
Proof.
  intros Hi%close_handle_safe. unfold abort. destruct (close_handle (r, f)) as [r' f'].
  destruct Hi as ((Ho & Hf & Hb & Hy & Hp) & Hh).
  assert (forall g, handle_named (set_status RFailed r') g) as Hn by (intros g h; cbn; by rewrite Hh).
  split; [exact Ho|]. destruct cleanup; [|by split_and!; try apply Hb].
  destruct (cleanup_part_file_spec f' (r_part_path r') Hf) as (Hf' & Hs & _). split_and!; try apply Hb; [done|done|].
  eapply published_hash_frame; [done|]. by replace (get_part_path _) with (r_part_path r') by apply Ho.
Qed.

(** Opening the partial file and letting go of the one that was open. *)
Lemma start_safe r0 f0 c f r n offset open :
  same_offer r0 r -> fs_ok f -> published_hash r0 f0 f -> 0 <= r_bytes_received r <= r_size r0 ->
  (forall h, r_handle r = Some h -> forall q, q <> r_part_path r -> fs_names f !! q <> Some (EFile (fh_ino h))) ->
  open = open_wb f (r_part_path r) \/ open = open_ab f (r_part_path r) ->
  (forall h f', open = Ok (h, f') -> opened (r_part_path r) c f h f') -> (forall e, open = Err e -> handle_named r f) ->
  n = start_receiving open offset r f -> recv_safe r0 f0 (snd n).
Proof.
  intros Ho Hf Hp Hb Hold Hopen Hspec Herr ->. unfold start_receiving. destruct open as [[h f']|e]; cbn [snd].
  2: { split_and!; try done; try apply Ho; try apply Hb; by eapply Herr. }
  destruct (Hspec h f' eq_refl) as (Hf' & Hs & Hn & _).
  assert (recv_safe r0 f0 (set_status RReceiving (set_handle (Some h) r), f')) as Hnew.
  { split; [exact Ho|]. split; [done|]. split; [done|]. split; [by intros h' [= <-]|].
    eapply published_hash_frame; [done|]. by replace (get_part_path _) with (r_part_path r) by apply Ho. }
  destruct (r_handle r) as [old|] eqn:Eh; [|exact Hnew]. destruct Hnew as (_ & _ & _ & Hy & Hp').
  destruct (fh_close_unnamed (r_part_path r) old f' Hf') as (Hf2 & Hs2 & Hn2).
  { intros q Hq. rewrite (open_names f (r_part_path r) q h f') by (done || by destruct Hopen as [<-|<-]; auto). by apply Hold. }
  split; [exact Ho|]. split; [done|]. split; [done|]. split; [intros h' [= <-]; cbn; by rewrite Hn2|].
  eapply published_hash_frame; [done|]. by replace (get_part_path _) with (r_part_path r) by apply Ho.
Qed.

Lemma cleanup_names f p q : q <> p -> fs_names (cleanup_part_file f p) !! q = fs_names f !! q.
Proof.
  intros Hq. unfold cleanup_part_file, os_remove. case_goal; [|done].
  destruct (fs_names f !! p) as [[]|]; [|done..]. cbn. by rewrite lookup_delete_ne.
Qed.

Lemma prepare_safe r0 f0 resume r f : recv_safe r0 f0 (r, f) -> recv_safe r0 f0 (snd (prepare resume (r, f))).
Proof.
  intros (Ho & Hf & Hb & Hy & Hp).
  assert (r_part_path r = get_part_path (r_dest_path r0)) as Ep by apply Ho.
  assert (forall h, r_handle r = Some h -> forall q, q <> r_part_path r -> fs_names f !! q <> Some (EFile (fh_ino h))) as Hold.
  { intros h Eh q Hq Hn. destruct (Hy h Eh) as [_ Hn']. apply Hq. by eapply (proj2 Hf). }
  unfold prepare. destruct (resume && _ && _) eqn:E.
  - zbool. destruct (get_partial_bytes_read f (r_part_path r)) as (c & Hc & Hlen); [lia|].
    assert (r_size r = r_size r0) as Esz by apply Ho.
    destruct (r_chunk_size r =? 0).
    + split; [exact Ho|]. split; [done|]. split; [cbn; lia|]. by split.
    + eapply (start_safe _ _ c f (set_progress (get_partial_bytes f (r_part_path r)) (get_partial_bytes f (r_part_path r) / r_chunk_size r) r)); [exact Ho|done|done|cbn; lia|exact Hold|by right| |intros e Eo; exact Hy|done].
      intros h f' Eo. by eapply open_ab_spec.
  - destruct (cleanup_part_file_spec f (r_part_path r) Hf) as (Hf1 & Hs1 & _).
    eapply (start_safe _ _ [] (cleanup_part_file f (r_part_path r)) (set_progress 0 0 r));
      [exact Ho|done|eapply published_hash_frame; [done|]; by rewrite <- Ep|cbn; lia| |by left| | |done].
    + intros h Eh q Hq. rewrite cleanup_names by done. by apply Hold.
    + intros h f' Eo. by eapply open_wb_spec.
    + intros e Eo h Eh. exfalso. destruct (Hy h Eh) as [_ Hn]. revert Eo. cbn [r_part_path set_progress].
      unfold open_wb, cleanup_part_file, exists_, os_remove, create_inode. rewrite Hn.
      rewrite bool_decide_true by eauto. cbn. by rewrite lookup_delete_eq.
Qed.

Lemma write_chunk_safe r0 f0 spill failure sequence offset data r f :
  recv_safe r0 f0 (r, f) -> recv_safe r0 f0 (snd (write_chunk spill failure sequence offset data (r, f))).
Proof.
  intros Hi. unfold write_chunk. destruct (r_handle r) as [h|] eqn:Eh; [|exact Hi].
  destruct (r_status r) eqn:Es; try exact Hi. destruct (_ || _); [exact Hi|]. destruct (_ <? _) eqn:Ele; [exact Hi|].
  destruct Hi as (Ho & Hf & Hb & Hy & Hp). destruct (Hy h Eh) as [_ Hn]. zbool.
  assert (r_size r = r_size r0) as Esz by apply Ho. pose proof (zlen_nonneg data).
  assert (forall h' f' n i, fh_ino h' = fh_ino h -> fs_names f' = fs_names f -> fs_next f' = fs_next f ->
    (forall j, j <> fh_ino h -> inode_data f' j = inode_data f j) -> 0 <= n <= r_size r0 ->
    recv_safe r0 f0 (set_progress n i (set_handle (Some h') r), f')) as Hnew.
  { intros h' f' n i E1 E2 E3 E4 Hle. split; [exact Ho|]. split; [by eapply fs_ok_names|]. split; [done|]. split.
    - intros h0 [= <-]. cbn. by rewrite E1, E2.
    - eapply published_hash_frame; [done|]. replace (get_part_path _) with (r_part_path r) by apply Ho.
      by eapply same_but_content. }
  destruct failure as [n|].
  - pose proof (fh_write_failed_spec n data h f) as (E1 & E2 & E3 & E4). destruct (fh_write_failed n data h f) as [h' f'].
    exact (Hnew h' f' (r_bytes_received r) (r_expected_chunk_index r) E1 E2 E3 E4 Hb).
  - pose proof (fh_write_spec spill data h f) as (E1 & E2 & E3 & E4). destruct (fh_write spill data h f) as [h' f'].
    apply Hnew; try done. lia.
Qed.

Lemma finish_safe r0 f0 r f : recv_safe r0 f0 (r, f) -> recv_safe r0 f0 (snd (finish (r, f))).
Proof.
  intros Hi%close_handle_safe. unfold finish. destruct (close_handle (r, f)) as [r1 f1]. destruct Hi as (Hinv & Hh).
  set (r2 := set_status RVerifying r1).
  assert (recv_safe r0 f0 (r2, f1)) as Hi2.
  { destruct Hinv as (Ho & Hf & Hb & Hy & Hp). split; [exact Ho|]. split_and!; try done; try apply Hb. intros h. cbn. by rewrite Hh. }
  destruct (negb _); [by apply abort_safe|]. rewrite sha256_file_content by done.
  destruct (read_file f1 (r_part_path r2)) as [c|e] eqn:Er; cbn [rbind]; [|exact Hi2].
  destruct (negb _) eqn:Ehash; [by apply abort_safe|]. apply negb_false_iff, streq_spec in Ehash.
  destruct (finalize_part_file _ _ _) as [f2|e] eqn:Efin; [|exact Hi2]. cbn [snd].
  destruct Hi2 as (Ho & Hf & Hb & _ & Hp). destruct (Ho) as (_ & Hc0 & Hd0 & Hp0).
  rewrite Hp0, Hd0 in *. rewrite Hc0 in Ehash.
  destruct (finalize_part_file_spec _ _ _ _ Efin Hf (part_not_dest _)) as (Hf2 & Hrd & _ & Hq).
  split; [exact Ho|]. split; [done|]. split; [done|]. split; [intros h; cbn; by rewrite Hh|]. split.
  - intros p H1 H2. rewrite Hq by done. by apply Hp.
  - right. exists c. by rewrite Hrd.
Qed.

Lemma recv_inv_reachable spill tid name size checksum sender dest n f0 calm st :
  fs_ok f0 -> 0 < size ->
  let r0 := new_receiver tid name size checksum sender dest n in
  rtc (rstep spill) (true, (r0, f0)) (calm, st) -> recv_safe r0 f0 st /\ (calm = true -> recv_inv r0 f0 st).
Proof.
  intros Hf Hs r0 Hr.
  refine (rtc_ind_r (fun cs => recv_safe r0 f0 cs.2 /\ (cs.1 = true -> recv_inv r0 f0 cs.2)) (true, (r0, f0)) _ _ (calm, st) Hr).
  - split; [|intros _; apply recv_inv_new; [done|lia]].
    split; [done|]. split; [done|]. cbn. split; [lia|]. split; [by intros h|]. split; [done|by left].
  - intros [c1 [r1 f1]] cs2 _ Hstep [Hi1 Hi2]. cbn [fst snd] in *. inversion Hstep; subst; cbn [fst snd].
    + split; [by apply prepare_safe|]. intros [-> Hid]%andb_prop. unfold idle in Hid.
      apply prepare_inv; [by destruct (r_handle r1)|auto].
    + split; [by apply write_chunk_safe|]. intros [-> Hw]%andb_prop. destruct failure; [done|]. apply write_chunk_inv. auto.
    + split; [by apply finish_safe|]. intros ->. apply finish_inv; auto.
    + split; [by apply abort_safe|]. intros ->. apply abort_inv; auto.
Qed.

(** C13: nothing unverified is ever published. Whatever calls are made on a
    receiver, in whatever order and with whatever chunks, succeeding or failing,
    writes of the file refused by the system included, and however the writer
    buffers: it never counts more than the declared size; the destination either
    is as it was before the transfer or holds a file with the announced SHA-256;
    and no other file is touched. In a calm run (no write failed, and [prepare]
    was not called while a file was open) the open partial file holds
    exactly the counted bytes once closed, and a published file has the declared
    size. *)
Theorem receiver_publishes_only_verified spill tid name size checksum sender dest n f0 calm r f :
  fs_ok f0 -> 0 < size ->
  rtc (rstep spill) (true, (new_receiver tid name size checksum sender dest n, f0)) (calm, (r, f)) ->
  0 <= r_bytes_received r <= size /\
  (read_file f dest = read_file f0 dest \/
   exists c, read_file f dest = Ok c /\ lower (sha256_hex c) = lower checksum) /\
  (forall p, p <> dest -> p <> get_part_path dest -> read_file f p = read_file f0 p) /\
  (calm = true ->
   (forall h, r_handle r = Some h -> exists c,
      read_file (fh_close h f) (get_part_path dest) = Ok c /\ zlen c = r_bytes_received r) /\
   (read_file f dest = read_file f0 dest \/
    exists c, read_file f dest = Ok c /\ zlen c = size /\ lower (sha256_hex c) = lower checksum)).
Proof.
  intros Hf Hs Hr. set (r0 := new_receiver tid name size checksum sender dest n) in *.
  destruct (recv_inv_reachable spill tid name size checksum sender dest n f0 calm (r, f) Hf Hs Hr)
    as [(_ & _ & Hb & _ & Hp1 & Hp2) Hcalm]. split; [exact Hb|]. split; [exact Hp2|].
  split; [intros p H1 H2; by apply Hp1|]. intros ->. destruct (Hcalm eq_refl) as (Ho & Hf' & _ & Hy & _ & Hp3).
  split; [|exact Hp3]. intros h Eh. unfold in_sync in Hy. rewrite Eh in Hy. destruct Hy as (_ & Hn & _ & Hl).
  assert (r_part_path r = get_part_path dest) as Ep by apply Ho. rewrite Ep in Hn.
  destruct (fh_close_opened _ _ _ Hf' Hn) as (_ & _ & ->). eauto.
Qed.

Lemma abort_closed r f :
  r_handle r = None -> fs_ok f -> let '(r', f') := abort true (r, f) in
  r_status r' = RFailed /\ same_but (r_part_path r) f f' /\ isfile f' (r_part_path r) = false.
Proof.
  intros Hh Hf. unfold abort, close_handle. rewrite Hh.
  by destruct (cleanup_part_file_spec f (r_part_path r) Hf) as (_ & ? & ?).
Qed.

Lemma finish_open r0 f0 r f h :
  recv_inv r0 f0 (r, f) -> r_handle r = Some h ->
  let content := fh_content h f in let dest := r_dest_path r0 in
  let good := (zlen content =? r_size r0) && streq (lower (sha256_hex content)) (lower (r_expected_checksum r0)) in
  match finish (r, f) with
  | (Ok true, (r', f')) => good = true /\ r_status r' = RDone /\ read_file f' dest = Ok content /\
      isfile f' (get_part_path dest) = false
  | (Ok false, (r', f')) => good = false /\ r_status r' = RFailed /\ read_file f' dest = read_file f dest /\
      isfile f' (get_part_path dest) = false
  | (Err e, (r', f')) => e = OSError /\ good = true /\ (exists m, fs_names f !! dest = Some (EDir m)) /\
      r_status r' = RVerifying /\ r_handle r' = None
  end.
Proof.
  intros ((Es & Ec & Ed & Ep) & Hf & _ & Hy & _) Eh. unfold in_sync in Hy. rewrite Eh in Hy.
  destruct Hy as (_ & Hn & _ & Hl). cbn zeta. pose proof (part_not_dest (r_dest_path r0)) as Hpd.
  destruct (fh_close_opened _ _ _ Hf Hn) as (Hf1 & Hs1 & Hr1). destruct (fh_close_spec h f) as (Hn1 & _ & _).
  unfold finish, close_handle. rewrite Eh. set (f1 := fh_close h f) in *. set (r1 := set_status RVerifying _).
  assert (r_handle r1 = None /\ r_part_path r1 = r_part_path r) as [Hh1 Ep1] by done.
  pose proof (abort_closed r1 f1 Hh1 Hf1) as Habort. destruct (abort true (r1, f1)) as [r2 f2].
  rewrite Ep1, Ep in *. destruct Habort as (Ha1 & Ha2 & Ha3).
  cbn [r_bytes_received set_status set_handle r1 r_size]. rewrite Es, <- Hl.
  destruct (zlen (fh_content h f) =? r_size r0); cbn [negb andb].
  2: { split_and!; try done. rewrite Ha2, Hs1 by done. done. }
  rewrite sha256_file_content by done. rewrite Hr1. cbn [rbind].
  change (r_expected_checksum r1) with (r_expected_checksum r). rewrite Ec. destruct (streq _ _); cbn [negb].
  2: { split_and!; try done. rewrite Ha2, Hs1 by done. done. }
  destruct (finalize_part_file _ _ _) as [f3|e] eqn:Efin;
    change (r_dest_path r1) with (r_dest_path r) in Efin; rewrite Ed in Efin.
  - destruct (finalize_part_file_spec _ _ _ _ Efin Hf1 Hpd) as (_ & Hrd & Hgone & _).
    split_and!; try done; [by rewrite Hrd|]. unfold isfile. by rewrite Hgone.
  - unfold finalize_part_file, isfile, os_replace in Efin. rewrite Hn1, Hn in Efin. cbn in Efin.
    destruct (fs_names f !! r_dest_path r0) as [[i|m]|] eqn:Edst; [done| |done]. injection Efin as <-.
    split_and!; eauto.
Qed.

(** [finish] decides exactly. After a calm run that left a file open, it returns
    [True] and moves the content to the destination when the content has the
    declared size and the announced SHA-256 (compared case-insensitively);
    otherwise it returns [False], the partial file is gone and the destination
    is unchanged. A directory in the destination's place is the only error. *)
Theorem finish_decides spill tid name size checksum sender dest n f0 r f h :
  fs_ok f0 -> 0 < size ->
  rtc (rstep spill) (true, (new_receiver tid name size checksum sender dest n, f0)) (true, (r, f)) -> r_handle r = Some h ->
  let content := fh_content h f in
  let good := (zlen content =? size) && streq (lower (sha256_hex content)) (lower checksum) in
  match finish (r, f) with
  | (Ok true, (r', f')) => good = true /\ r_status r' = RDone /\ read_file f' dest = Ok content /\
      isfile f' (get_part_path dest) = false
  | (Ok false, (r', f')) => good = false /\ r_status r' = RFailed /\ read_file f' dest = read_file f dest /\
      isfile f' (get_part_path dest) = false
  | (Err e, (r', f')) => e = OSError /\ good = true /\ (exists m, fs_names f !! dest = Some (EDir m)) /\
      r_status r' = RVerifying /\ r_handle r' = None
  end.
Proof.
  intros Hf Hs Hr Eh. apply (finish_open (new_receiver tid name size checksum sender dest n) f0); [|done].
  by apply (recv_inv_reachable spill tid name size checksum sender dest n f0 true (r, f) Hf Hs Hr).
Qed.

(** ** Delivery *)

(** One chunk on its way: encoded as a file_data payload by the sender, decoded
    and written by the receiver. *)
Definition deliver_chunk (spill : bytes -> nat) (tid : pystr) (c : chunk) (st : rstate) : result unit * rstate :=
  let '(sequence, offset, data) := c in
  match encode_file_data tid sequence offset data with
  | Err e => (Err e, st)
  | Ok payload =>
      match decode_file_data payload with
      | Err e => (Err e, st)
      | Ok m => write_chunk spill None (fd_sequence m) (fd_offset m) (fd_data m) st
      end
  end.

Fixpoint deliver (spill : bytes -> nat) (tid : pystr) (cs : list chunk) (st : rstate) : result unit * rstate :=
  match cs with
  | [] => (Ok tt, st)
  | c :: cs => match deliver_chunk spill tid c st with
               | (Ok _, st) => deliver spill tid cs st
               | (Err e, st) => (Err e, st)
               end
  end.

Lemma deliver_chunk_write spill tid s o d st :
  is_ok (parse_uuid tid) = true -> 0 <= s < 2 ^ 32 -> 0 <= o < 2 ^ 64 ->
  deliver_chunk spill tid (s, o, d) st = write_chunk spill None s o d st.
Proof.
  intros Ht Hs Ho. unfold deliver_chunk. destruct (parse_uuid tid) as [b|] eqn:E; [|done].
  erewrite encode_file_data_ok by done. rewrite decode_file_data_parts; [done|by eapply parse_uuid_length|done|done].
Qed.

Lemma write_chunk_next r0 f0 spill d r f h :
  recv_inv r0 f0 (r, f) -> r_handle r = Some h -> r_bytes_received r + zlen d <= r_size r0 ->
  exists r' f' h', write_chunk spill None (r_expected_chunk_index r) (r_bytes_received r) d (r, f) = (Ok tt, (r', f')) /\
    recv_inv r0 f0 (r', f') /\ r_handle r' = Some h' /\ fh_content h' f' = fh_content h f ++ d /\
    r_expected_chunk_index r' = r_expected_chunk_index r + 1 /\ r_bytes_received r' = r_bytes_received r + zlen d.
Proof.
  intros Hi Eh Hle.
  pose proof (write_chunk_inv _ _ spill (r_expected_chunk_index r) (r_bytes_received r) d _ _ Hi) as Hi'.
  destruct Hi as ((Es & _) & _ & _ & Hy & _). unfold in_sync in Hy. rewrite Eh in Hy. destruct Hy as (Hst & _ & Hend & _).
  unfold write_chunk in *. rewrite Eh, Hst, !Z.eqb_refl, Es in *. cbn [negb orb] in *.
  rewrite (proj2 (Z.ltb_ge _ _)) in * by lia. destruct (fh_write_content spill d h f Hend) as (_ & _ & Hc & _).
  destruct (fh_write spill d h f) as [h' f']. cbn [snd] in Hi'. do 3 eexists. split; [done|]. split_and!; done.
Qed.

Lemma deliver_all r0 f0 spill tid n cs r f h :
  is_ok (parse_uuid tid) = true -> r_size r0 < 2 ^ 32 ->
  recv_inv r0 f0 (r, f) -> r_handle r = Some h ->
  contiguous n (r_expected_chunk_index r) (r_bytes_received r) cs ->
  0 <= r_expected_chunk_index r <= r_bytes_received r ->
  r_bytes_received r + zlen (concat (map chunk_data cs)) <= r_size r0 ->
  exists r' f' h', deliver spill tid cs (r, f) = (Ok tt, (r', f')) /\ recv_inv r0 f0 (r', f') /\
    r_handle r' = Some h' /\ fh_content h' f' = fh_content h f ++ concat (map chunk_data cs).
Proof.
  intros Ht Hsz. revert r f h. induction cs as [|[[s o] d] cs IH]; intros r f h Hi Eh Hc Hseq Hle; cbn [deliver].
  - exists r, f, h. cbn. by rewrite app_nil_r.
  - cbn [contiguous] in Hc. destruct Hc as (-> & -> & Hd & Hc). cbn [map concat chunk_data snd] in *.
    rewrite zlen_app in Hle. pose proof (zlen_nonneg (concat (map chunk_data cs))).
    rewrite deliver_chunk_write by (done || lia).
    destruct (write_chunk_next _ _ spill d _ _ _ Hi Eh) as (r1 & f1 & h1 & -> & Hi1 & Eh1 & Hc1 & Hx1 & Hb1); [lia|].
    destruct (IH r1 f1 h1) as (r' & f' & h' & -> & Hi' & Eh' & Hc'); [done|done|by rewrite Hx1, Hb1|lia|lia|].
    exists r', f', h'. split_and!; try done. by rewrite Hc', Hc1, app_assoc.
Qed.

(** What [prepare] leaves in the partial file: nothing, or on resumption the
    bytes that were there. *)
Lemma prepare_ok r0 f0 resume :
  recv_inv r0 f0 (r0, f0) -> r_handle r0 = None -> r_chunk_size r0 <> 0 ->
  (forall m, fs_names f0 !! r_part_path r0 <> Some (EDir m)) ->
  exists start r f h, prepare resume (r0, f0) = (Ok start, (r, f)) /\ recv_inv r0 f0 (r, f) /\ r_handle r = Some h /\
    r_bytes_received r = start /\ r_expected_chunk_index r = start / r_chunk_size r0 /\
    (start = 0 /\ fh_content h f = [] \/
     resume = true /\ 0 < start < r_size r0 /\ read_file f0 (r_part_path r0) = Ok (fh_content h f) /\ start = zlen (fh_content h f)).
Proof.
  intros Hi Hh Hn Hdir. pose proof (prepare_inv r0 f0 resume r0 f0 Hh Hi) as Hi'. revert Hi'.
  destruct Hi as (_ & Hf & _). unfold prepare. destruct (resume && _ && _) eqn:E.
  - zbool. rewrite (proj2 (Z.eqb_neq _ _)) by done.
    destruct (get_partial_bytes_read f0 (r_part_path r0)) as (c & Hc & Hlen); [lia|].
    unfold start_receiving. destruct (open_ab _ _) as [[h f']|e] eqn:Eo.
    2: { unfold open_ab, read_file in *. by destruct (fs_names f0 !! _) as [[]|]. }
    cbn. rewrite Hh. intros Hi'. destruct (open_ab_spec _ _ _ _ _ Eo Hc Hf) as (_ & _ & _ & _ & Hcont).
    do 4 eexists. split; [done|]. split; [done|]. cbn. split_and!; try done. right. rewrite Hcont. split_and!; lia || done.
  - destruct (cleanup_part_file_spec f0 (r_part_path r0) Hf) as (Hf1 & _ & Hn1).
    unfold start_receiving. destruct (open_wb _ _) as [[h f']|e] eqn:Eo.
    2: { exfalso. revert Eo Hn1. unfold open_wb, cleanup_part_file, exists_, os_remove, isfile.
         case_bool_decide as Ex; destruct (fs_names f0 !! r_part_path r0) as [[i|m]|] eqn:En; cbn; rewrite ?lookup_delete_eq, ?En; try done.
         all: by destruct (Hdir m). }
    cbn. rewrite Hh. intros Hi'. destruct (open_wb_spec _ _ _ _ Eo Hf1) as (_ & _ & _ & _ & Hcont).
    do 4 eexists. split; [done|]. split; [done|]. cbn. split_and!; try done. left. done.
Qed.

(** C12: a file transfer delivers the file. The sender opens a non-empty file of at
    most 2 GiB; the receiver is created from its offer and prepared, fresh or
    resuming a partial file that holds a prefix of it. Then [prepare] succeeds,
    the chunks generated from the offset it returns, each encoded and decoded as
    a file_data frame, are all accepted, [finish] returns [True], and the
    destination holds exactly the sender's file; the sender's counter ends at
    the file size. *)
Theorem transfer_delivers_file spill fS p content tid n name fR dest resume s :
  read_file fS p = Ok content -> 0 < zlen content <= MAX_INCOMING_FILE_SIZE -> 0 < n ->
  is_ok (parse_uuid tid) = true -> new_sender fS tid p None n = Ok s ->
  fs_ok fR -> (forall q m, q = dest \/ q = get_part_path dest -> fs_names fR !! q <> Some (EDir m)) ->
  (resume = true -> forall pre, read_file fR (get_part_path dest) = Ok pre -> pre `prefix_of` content) ->
  let r0 := new_receiver tid (sn_filename s) (sn_size s) (sn_checksum s) name dest n in
  exists start st1 cs st2 r' f',
    prepare resume (r0, fR) = (Ok start, st1) /\ 0 <= start < zlen content /\
    get_chunks fS s start (S (length cs)) = (Ok cs, set_sent SSending (zlen content) s) /\
    deliver spill tid cs st1 = (Ok tt, st2) /\ finish st2 = (Ok true, (r', f')) /\
    read_file f' dest = Ok content /\ r_status r' = RDone.
Proof.
  intros Hr Hsz Hn Ht Hs Hf Hdir Hpre r0. unfold new_sender in Hs.
  rewrite (getsize_content _ _ _ Hr), sha256_file_content, Hr in Hs by done. cbn [rbind] in Hs. apply Ok_inj in Hs.
  assert (r_size r0 = zlen content /\ r_expected_checksum r0 = sha256_hex content) as [Esz Eck] by (by subst s).
  assert (recv_inv r0 fR (r0, fR)) as Hi by (apply recv_inv_new; [done|]; change (0 <= r_size r0); lia).
  destruct (prepare_ok r0 fR resume Hi) as (start & r & f & h & Hprep & Hi1 & Eh & Hb & Hx & Hstart);
    [done|cbn; lia|intros m; apply Hdir; by right|]. cbn [r_chunk_size r0 new_receiver] in Hx.
  assert (0 <= start < zlen content /\ fh_content h f = take (Z.to_nat start) content) as [Hrange Hhave].
  { destruct Hstart as [[-> ->]|(-> & Hlt & Hrd & Hlen)]; [split; [lia|done]|]. split; [lia|].
    destruct (Hpre eq_refl _ Hrd) as [post ->]. unfold zlen in Hlen. by rewrite take_app_exact by lia. }
  destruct (read_loop_exact (S (length (drop (Z.to_nat start) content))) n (start / n) start (drop (Z.to_nat start) content))
    as (cs & Hloop & Hcat & Hcont); [done|lia|].
  assert (read_chunks fS p start n = Ok cs) as Hcs.
  { unfold read_chunks. rewrite (getsize_content _ _ _ Hr), Hr. cbn [rbind].
    rewrite (proj2 (Z.ltb_ge _ _)), (proj2 (Z.eqb_neq _ _)) by lia. cbn [negb].
    destruct (Z.ltb_spec 0 start); [done|]. replace start with 0 in * by lia. done. }
  destruct (deliver_all r0 fR spill tid n cs r f h) as (r2 & f2 & h2 & Hd & Hi2 & Eh2 & Hc2); try done.
  { rewrite Esz. unfold MAX_INCOMING_FILE_SIZE in Hsz. lia. }
  { by rewrite Hx, Hb. }
  { rewrite Hx, Hb. split; [apply Z.div_pos; lia|]. apply Z.div_le_upper_bound; nia. }
  { rewrite Hcat, Hb, Esz. unfold zlen in *. rewrite length_drop. lia. }
  rewrite Hhave, Hcat, take_drop in Hc2.
  pose proof (finish_open r0 fR r2 f2 h2 Hi2 Eh2) as Hfin. cbn zeta in Hfin. rewrite Hc2, Esz, Eck, Z.eqb_refl in Hfin.
  rewrite (proj2 (streq_spec _ _) eq_refl) in Hfin. cbn [andb] in Hfin.
  destruct (finish (r2, f2)) as [[[|]|e] [r3 f3]] eqn:Ef.
  - destruct Hfin as (_ & Hst & Hrd & _). exists start, (r, f), cs, (r2, f2), r3, f3. split_and!; try done; try lia.
    unfold get_chunks. replace (sn_filepath s) with p by (by subst s). replace (sn_chunk_size s) with n by (by subst s).
    rewrite Hcs, !take_ge by lia. unfold chunks_size. rewrite Hcat. do 2 f_equal.
    unfold zlen. rewrite length_drop. unfold zlen in Hrange. lia.
  - by destruct Hfin.
  - destruct Hfin as (_ & _ & (m & Hm) & _). exfalso.
    assert (read_file f2 dest = read_file fR dest) as Heq.
    { destruct Hi2 as (_ & _ & _ & _ & _ & [Hd2|(c & Hd2 & _)]); [exact Hd2|].
      cbn in Hd2. unfold read_file in Hd2. cbn in Hm. by rewrite Hm in Hd2. }
    cbn in Hm. unfold read_file in Heq. rewrite Hm in Heq.
    destruct (fs_names fR !! dest) as [[i|k]|] eqn:Ed; try done. by eapply (Hdir dest k); [left|].
Qed.

(** ** The manager's limits *)

Definition receiver_of (st : rstate) : FileReceiver := fst st.

(** The manager in use. [run_offers] are the offers that were validated and are
    waiting for their receiver (the user is being asked, say): their file name,
    size and destination. [run_over] has the sizes the limits were not checked
    for: of an offer validated while another one was waiting, and of a receiver
    that is prepared again after it failed or ended. *)
Record mrun : Type := MRun {
  run_manager : FileTransferManager;
  run_offers : list (pystr * Z * path);
  run_over : list Z
}.
Definition offer_size (o : pystr * Z * path) : Z := o.1.2.

(** Offers are validated, given up or turned into receivers in any order,
    receivers advance (a file system [f] is the one at that moment; a call may
    raise), entries are removed. *)
Inductive mstep (os : host) (spill : bytes -> nat) : mrun -> mrun -> Prop :=
  | m_validate name size f dest m offers over :
      validate_offer os f m name size = Ok dest ->
      mstep os spill (MRun m offers over)
        (MRun m ((name, size, dest) :: offers) (match offers with [] => over | _ => size :: over end))
  | m_give_up m os1 o os2 over : mstep os spill (MRun m (os1 ++ o :: os2) over) (MRun m (os1 ++ os2) over)
  | m_create tid name size dest checksum sender m os1 os2 over :
      mstep os spill (MRun m (os1 ++ (name, size, dest) :: os2) over)
        (MRun (snd (create_receiver tid name size checksum sender dest m)) (os1 ++ os2) over)
  | m_prepare tid r resume f m offers over :
      m_receivers m !! tid = Some r ->
      mstep os spill (MRun m offers over)
        (MRun (set_receivers (<[tid := receiver_of (snd (prepare resume (r, f)))]> (m_receivers m)) m) offers
           (if active r then over else r_size r :: over))
  | m_receiver tid r r' f m offers over :
      m_receivers m !! tid = Some r ->
      ((exists x s o d, r' = receiver_of (snd (write_chunk spill x s o d (r, f)))) \/
       r' = receiver_of (snd (finish (r, f))) \/ (exists cleanup, r' = receiver_of (abort cleanup (r, f)))) ->
      mstep os spill (MRun m offers over) (MRun (set_receivers (<[tid := r']> (m_receivers m)) m) offers over)
  | m_sender f p tid u m offers over :
      mstep os spill (MRun m offers over) (MRun (snd (create_sender f p tid u m)) offers over)
  | m_remove tid m offers over : mstep os spill (MRun m offers over) (MRun (remove_transfer tid m) offers over).

#[local] Instance filter_perm {A} (p : A -> bool) : Proper ((≡ₚ) ==> (≡ₚ)) (List.filter p).
Proof.
  intros xs ys H. induction H as [|x xs ys _ IH|x y xs|xs ys zs _ IH1 _ IH2]; cbn; [done| | |by rewrite IH1].
  - by destruct (p x); rewrite IH.
  - destruct (p x), (p y); auto using perm_swap.
Qed.

Definition tally (r : FileReceiver) : list FileReceiver := if active r then [r] else [].

Lemma active_insert_new m tid r :
  m_receivers m !! tid = None ->
  active_receivers (set_receivers (<[tid := r]> (m_receivers m)) m) ≡ₚ tally r ++ active_receivers m.
Proof.
  intros Hn. unfold active_receivers. cbn. rewrite map_to_list_insert by done. cbn. unfold tally. by destruct (active r).
Qed.

Lemma active_split m tid r :
  m_receivers m !! tid = Some r ->
  active_receivers m ≡ₚ tally r ++ active_receivers (set_receivers (delete tid (m_receivers m)) m).
Proof.
  intros Hs. rewrite <- active_insert_new by (cbn; apply lookup_delete_eq). unfold active_receivers. cbn.
  by rewrite insert_delete_id.
Qed.

Lemma sum_Z_perm xs ys : xs ≡ₚ ys -> sum_Z xs = sum_Z ys.
Proof. unfold sum_Z. induction 1; cbn [fold_right]; lia. Qed.

Lemma sum_Z_app xs ys : sum_Z (xs ++ ys) = sum_Z xs + sum_Z ys.
Proof. unfold sum_Z. induction xs; cbn [fold_right app]; lia. Qed.

Lemma totals_perm m r m' :
  active_receivers m ≡ₚ tally r ++ active_receivers m' ->
  active_incoming_count m = zlen (tally r) + active_incoming_count m' /\
  total_incoming_bytes_pending m = sum_Z (map r_size (tally r)) + total_incoming_bytes_pending m'.
Proof.
  intros Hp. unfold active_incoming_count, total_incoming_bytes_pending. split.
  - rewrite <- zlen_app. unfold zlen. by rewrite Hp.
  - rewrite <- sum_Z_app, <- map_app. apply sum_Z_perm. by apply Permutation_map.
Qed.

Lemma tally_bounds r :
  0 <= r_size r -> 0 <= zlen (tally r) <= 1 /\ 0 <= sum_Z (map r_size (tally r)) <= r_size r.
Proof. unfold tally, zlen, sum_Z. destruct (active r); cbn [map length fold_right]; intros; lia. Qed.

Lemma tally_le r r' :
  0 <= r_size r -> r_size r' = r_size r -> (active r' = true -> active r = true) ->
  zlen (tally r') <= zlen (tally r) /\ sum_Z (map r_size (tally r')) <= sum_Z (map r_size (tally r)).
Proof.
  unfold tally, zlen, sum_Z. intros Hs He Ha.
  destruct (active r'); [rewrite Ha by done|destruct (active r)]; cbn [map length fold_right]; lia.
Qed.

(** Admissible sizes. *)
Definition size_ok (n : Z) : Prop := 0 < n <= MAX_INCOMING_FILE_SIZE.
Definition sizes_ok (m : FileTransferManager) : Prop := forall tid r, m_receivers m !! tid = Some r -> size_ok (r_size r).

(** Dropping an entry only frees capacity. *)
Lemma totals_delete m tid :
  sizes_ok m -> let m' := set_receivers (delete tid (m_receivers m)) m in
  active_incoming_count m' <= active_incoming_count m /\
  total_incoming_bytes_pending m' <= total_incoming_bytes_pending m.
Proof.
  intros Hsz. destruct (m_receivers m !! tid) as [r|] eqn:E.
  - destruct (totals_perm _ _ _ (active_split _ _ _ E)) as [-> ->]. apply Hsz in E. unfold size_ok in E.
    destruct (tally_bounds r); [lia|]. cbn zeta. lia.
  - cbn zeta. rewrite delete_id by done. by destruct m.
Qed.

Lemma totals_insert m tid r :
  let m1 := set_receivers (delete tid (m_receivers m)) m in
  let m' := set_receivers (<[tid := r]> (m_receivers m)) m in
  active_incoming_count m' = zlen (tally r) + active_incoming_count m1 /\
  total_incoming_bytes_pending m' = sum_Z (map r_size (tally r)) + total_incoming_bytes_pending m1.
Proof.
  apply totals_perm. rewrite <- active_insert_new by (cbn; apply lookup_delete_eq). cbn.
  by rewrite insert_delete_eq.
Qed.

(** A receiver's operations keep its declared size, and only [prepare] can make
    an inactive receiver active. *)
Lemma abort_receiver cleanup r f : r_size (receiver_of (abort cleanup (r, f))) = r_size r /\
  active (receiver_of (abort cleanup (r, f))) = false.
Proof. unfold abort, close_handle. by destruct (r_handle r). Qed.

Lemma finish_receiver r f : r_size (receiver_of (snd (finish (r, f)))) = r_size r /\
  active (receiver_of (snd (finish (r, f)))) = false.
Proof.
  unfold finish. assert (r_size (receiver_of (close_handle (r, f))) = r_size r) as Hc
    by (unfold close_handle; by destruct (r_handle r)).
  destruct (close_handle (r, f)) as [r1 f1]. cbn [receiver_of fst] in Hc. set (r2 := set_status RVerifying r1).
  assert (r_size r2 = r_size r) as <- by done. destruct (abort_receiver true r2 f1) as [Ha1 Ha2].
  case_goal; [done|]. case_goal; [|done]. case_goal; [done|]. by case_goal.
Qed.

Lemma write_chunk_receiver spill x s o d r f : let r' := receiver_of (snd (write_chunk spill x s o d (r, f))) in
  r_size r' = r_size r /\ r_status r' = r_status r.
Proof.
  unfold write_chunk. destruct (r_handle r); [|done]. destruct (r_status r) eqn:E; try done.
  do 2 (case_goal; [done|]). destruct x; [by destruct (fh_write_failed _ _ _ _)|by destruct (fh_write _ _ _ _)].
Qed.

Lemma prepare_receiver resume r f : r_size (receiver_of (snd (prepare resume (r, f)))) = r_size r.
Proof.
  unfold prepare, start_receiving. case_goal; [case_goal; [done|]|]; (case_goal; [by case_goal|done]).
Qed.

(** The limits, with the waiting offers counted in, hold but for the sizes that
    were not checked. *)
Definition within_limits (s : mrun) : Prop :=
  let '(MRun m offers over) := s in
  sizes_ok m /\ Forall (fun o => size_ok (offer_size o)) offers /\ Forall size_ok over /\
  active_incoming_count m + zlen offers <= m_max_concurrent m + zlen over /\
  total_incoming_bytes_pending m + sum_Z (map offer_size offers) <= m_max_total_incoming m + sum_Z over.

Definition limits_kept (s s' : mrun) : Prop :=
  m_max_concurrent (run_manager s') = m_max_concurrent (run_manager s) /\
  m_max_total_incoming (run_manager s') = m_max_total_incoming (run_manager s).

Lemma sum_Z_nonneg zs : Forall size_ok zs -> 0 <= sum_Z zs.
Proof. unfold sum_Z. induction 1 as [|z zs [H _] _ IH]; cbn [fold_right]; lia. Qed.

(** Replacing the entry [tid] by [r'], where the old one was counted unless [extra]. *)
Lemma entry_replaced m tid r r' :
  sizes_ok m -> m_receivers m !! tid = Some r -> r_size r' = r_size r ->
  let m' := set_receivers (<[tid := r']> (m_receivers m)) m in
  let extra := if active r' && negb (active r) then [r_size r] else [] in
  sizes_ok m' /\ active_incoming_count m' <= active_incoming_count m + zlen extra /\
  total_incoming_bytes_pending m' <= total_incoming_bytes_pending m + sum_Z extra.
Proof.
  intros Hsz Hl Er m' extra. pose proof (Hsz _ _ Hl) as Hr. split.
  { intros tid' r0. cbn. intros [[<- <-]|[_ Hl']]%lookup_insert_Some; [by rewrite Er|by eapply Hsz]. }
  destruct (totals_insert m tid r') as [I1 I2]. destruct (totals_perm _ _ _ (active_split _ _ _ Hl)) as [P1 P2].
  unfold m', extra. rewrite I1, I2, P1, P2. unfold tally, size_ok in *.
  destruct (active r'), (active r); cbn [andb negb map]; unfold zlen, sum_Z; cbn [fold_right length];
    rewrite ?Er; lia.
Qed.

Lemma entry_created m tid name size checksum sender dest :
  sizes_ok m -> size_ok size -> let m' := snd (create_receiver tid name size checksum sender dest m) in
  sizes_ok m' /\ active_incoming_count m' <= active_incoming_count m + 1 /\
  total_incoming_bytes_pending m' <= total_incoming_bytes_pending m + size.
Proof.
  intros Hsz Hs. cbn [snd create_receiver]. set (r := new_receiver _ _ _ _ _ _ _). split.
  { intros tid' r0. cbn. intros [[<- <-]|[_ Hl']]%lookup_insert_Some; [done|by eapply Hsz]. }
  pose proof (totals_delete m tid Hsz) as [D1 D2]. destruct (totals_insert m tid r) as [I1 I2].
  destruct (tally_bounds r) as [B1 B2]; [cbn; unfold size_ok in Hs; lia|]. cbn [r_size r new_receiver] in B2. lia.
Qed.

Lemma offers_take (os1 os2 : list (pystr * Z * path)) o :
  zlen (os1 ++ o :: os2) = zlen (os1 ++ os2) + 1 /\
  sum_Z (map offer_size (os1 ++ o :: os2)) = sum_Z (map offer_size (os1 ++ os2)) + offer_size o.
Proof. rewrite !map_app, !sum_Z_app, !zlen_app, zlen_cons. unfold sum_Z. cbn [map fold_right]. lia. Qed.

Lemma within_limits_step os spill s s' : within_limits s -> mstep os spill s s' -> within_limits s' /\ limits_kept s s'.
Proof.
  intros Hw Hs. destruct Hs as [name size f dest m offers over Hv|m os1 o os2 over|tid name size dest checksum sender m os1 os2 over
    |tid r resume f m offers over Hl|tid r r' f m offers over Hl Hop|f p tid u m offers over|tid m offers over];
    destruct Hw as (Hsz & Hof & Hov & Hc & Hp).
  - unfold validate_offer in Hv. do 4 (case_in Hv; [|done]). zbool. split; [|by split].
    assert (size_ok size) as Hsize by (unfold size_ok; lia). pose proof (sum_Z_nonneg over Hov). pose proof (zlen_nonneg over).
    split; [done|]. split; [by constructor|]. split; [by destruct offers; [|constructor]|].
    rewrite zlen_cons. change (sum_Z (map offer_size (?o :: offers))) with (size + sum_Z (map offer_size offers)) in *.
    destruct offers as [|o offers]; [unfold sum_Z in *; cbn [map fold_right]; rewrite zlen_nil in *; lia|].
    rewrite (zlen_cons size). change (sum_Z (size :: over)) with (size + sum_Z over). lia.
  - split; [|by split]. destruct (offers_take os1 os2 o) as [E1 E2]. rewrite E1, E2 in *.
    apply Forall_app in Hof as [H1 [H2 H3]%Forall_cons]. unfold size_ok in H2. split; [done|].
    split; [by apply Forall_app|]. split; [done|]. lia.
  - split; [|by split]. destruct (offers_take os1 os2 (name, size, dest)) as [E1 E2]. rewrite E1, E2 in *.
    apply Forall_app in Hof as [H1 [H2 H3]%Forall_cons].
    destruct (entry_created m tid name size checksum sender dest Hsz H2) as (C1 & C2 & C3). cbn [offer_size fst snd] in *.
    split; [done|]. split; [by apply Forall_app|]. split; [done|]. cbn [m_max_concurrent m_max_total_incoming create_receiver snd set_receivers] in *. lia.
  - split; [|by split]. destruct (entry_replaced m tid r (receiver_of (snd (prepare resume (r, f)))) Hsz Hl) as (C1 & C2 & C3);
      [apply prepare_receiver|]. pose proof (Hsz _ _ Hl) as Hr. split; [done|]. split; [done|].
    cbn [m_max_concurrent m_max_total_incoming set_receivers].
    destruct (active r); [rewrite andb_false_r in *; unfold sum_Z, zlen in *; cbn [fold_right length] in *; split; [done|lia]|].
    split; [by constructor|]. rewrite zlen_cons. change (sum_Z (r_size r :: over)) with (r_size r + sum_Z over).
    unfold size_ok in Hr. destruct (active _); cbn [andb negb] in *; unfold sum_Z, zlen in *; cbn [fold_right length] in *; lia.
  - split; [|by split].
    assert (r_size r' = r_size r /\ (active r' = true -> active r = true)) as [Er Ha].
    { destruct Hop as [(x & s & o & d & ->)|[->|[b ->]]].
      - destruct (write_chunk_receiver spill x s o d r f) as [-> Hst]. split; [done|]. unfold active. by rewrite Hst.
      - destruct (finish_receiver r f) as [-> ->]. done.
      - destruct (abort_receiver b r f) as [-> ->]. done. }
    destruct (entry_replaced m tid r r' Hsz Hl Er) as (C1 & C2 & C3).
    assert (active r' && negb (active r) = false) as E by (destruct (active r'); [by rewrite Ha|done]). rewrite E in *.
    split; [done|]. split; [done|]. split; [done|]. unfold sum_Z, zlen in *. cbn [fold_right length set_receivers m_max_concurrent m_max_total_incoming] in *. lia.
  - unfold create_sender. destruct (new_sender _ _ _ _ _); by split.
  - split; [|by split]. pose proof (totals_delete m tid Hsz) as [D1 D2].
    change (active_incoming_count (set_receivers (delete tid (m_receivers m)) m)) with (active_incoming_count (remove_transfer tid m)) in D1.
    change (total_incoming_bytes_pending (set_receivers (delete tid (m_receivers m)) m)) with (total_incoming_bytes_pending (remove_transfer tid m)) in D2.
    split; [intros tid' r'; cbn; intros [_ Hl]%lookup_delete_Some; by eapply Hsz|]. split; [done|]. split; [done|].
    cbn [remove_transfer m_max_concurrent m_max_total_incoming]. lia.
Qed.

(** C15: the manager's limits, over any history. Starting empty, however offers are
    validated and turned into receivers or given up, receivers are prepared,
    written, finished and aborted, and entries removed: the active receivers and
    the waiting offers together exceed [max_concurrent] by no more than the
    number of offers that were validated while another one was waiting and of
    receivers that were prepared again, and the announced bytes exceed
    [max_total_incoming] by no more than the sizes of those; and every receiver has a size
    between 1 byte and 2 GiB. In particular the limits hold when every offer
    gets its receiver, or is given up, before the next one is validated, and no
    receiver is prepared twice. ([overlapping_offers_exceed_limits]: without
    that they do not.) *)
Theorem transfer_limits_hold os spill downloads max_concurrent max_total f f' m0 m offers over :
  0 <= max_concurrent -> 0 <= max_total ->
  new_manager downloads max_concurrent max_total f = (Ok m0, f') ->
  rtc (mstep os spill) (MRun m0 [] []) (MRun m offers over) ->
  active_incoming_count m + zlen offers <= max_concurrent + zlen over /\
  total_incoming_bytes_pending m + sum_Z (map offer_size offers) <= max_total + sum_Z over /\
  (over = [] -> active_incoming_count m <= max_concurrent /\ total_incoming_bytes_pending m <= max_total) /\
  forall tid r, get_receiver m tid = Some r -> 0 < r_size r <= MAX_INCOMING_FILE_SIZE.
Proof.
  intros H1 H2 (u & f1 & _ & [= <- <-])%ibind_ok Hr.
  assert (within_limits (MRun m offers over) /\ m_max_concurrent m = max_concurrent /\ m_max_total_incoming m = max_total)
    as ((Hs & Hof & _ & Hc & Hp) & <- & <-).
  { refine (rtc_ind_r (fun s => within_limits s /\ m_max_concurrent (run_manager s) = max_concurrent /\
      m_max_total_incoming (run_manager s) = max_total) _ _ _ (MRun m offers over) Hr).
    - split; [|done]. split; [by intros ?|]. split; [constructor|]. split; [constructor|].
      split; [vm_compute; by destruct max_concurrent | vm_compute; by destruct max_total].
    - intros s1 s2 _ Hstep (Hw & <- & <-). by apply within_limits_step in Hstep as [? []]. }
  split; [done|]. split; [done|]. split; [|exact Hs]. intros ->. pose proof (zlen_nonneg offers).
  assert (0 <= sum_Z (map offer_size offers)) by (apply sum_Z_nonneg; by apply Forall_map).
  unfold sum_Z, zlen in *. cbn [fold_right length] in *. lia.
Qed.

Lemma transfer_limits_hold_witness :
  let os := Host (fun _ => None) (fun p => py "/home/u/" ++ p) in
  exists m, active_incoming_count m = 1 /\ total_incoming_bytes_pending m = 7 /\ active_incoming_count m <= 1.
Proof.
  intros os.
  set (m := snd (create_receiver (py "t") (py "a") 7 (py "c") (py "s") (py "dl/a") (empty_manager (py "dl") 1 10))).
  exists m. split; [vm_compute; reflexivity|]. split; [vm_compute; reflexivity|].
  refine (proj1 (proj1 (proj2 (proj2 (transfer_limits_hold os (fun _ => 0%nat) (py "dl") 1 10 empty_fs
    (snd (makedirs (py "dl") empty_fs)) _ m [] [] _ _ eq_refl _))) eq_refl)); [lia|lia|].
  eapply rtc_l; [|eapply rtc_l; [|apply rtc_refl]].
  - apply (m_validate os _ (py "a") 7 empty_fs (py "dl/a")). vm_compute. reflexivity.
  - apply (m_create os _ (py "t") (py "a") 7 (py "dl/a") (py "c") (py "s") _ [] []).
Defined.

(** With room for one transfer of at most ten bytes in all, two offers of seven
    bytes validated before either has its receiver are both accepted. *)
Theorem overlapping_offers_exceed_limits :
  let os := Host (fun _ => None) (fun p => py "/home/u/" ++ p) in
  let m0 := empty_manager (py "dl") 1 10 in
  exists m, rtc (mstep os (fun _ => 0%nat)) (MRun m0 [] []) (MRun m [] [7]) /\
    m_max_concurrent m = 1 /\ active_incoming_count m = 2 /\
    m_max_total_incoming m = 10 /\ total_incoming_bytes_pending m = 14.
Proof.
  intros os m0.
  set (m1 := snd (create_receiver (py "t") (py "a") 7 (py "c") (py "s") (py "dl/a") m0)).
  exists (snd (create_receiver (py "u") (py "b") 7 (py "c") (py "s") (py "dl/b") m1)). split; [|vm_compute; auto].
  eapply rtc_l; [apply (m_validate os _ (py "a") 7 empty_fs (py "dl/a")); vm_compute; reflexivity|].
  eapply rtc_l; [apply (m_validate os _ (py "b") 7 empty_fs (py "dl/b")); vm_compute; reflexivity|].
  eapply rtc_l; [apply (m_create os _ (py "t") (py "a") 7 (py "dl/a") (py "c") (py "s") m0 [_] [])|].
  eapply rtc_l; [apply (m_create os _ (py "u") (py "b") 7 (py "dl/b") (py "c") (py "s") m1 [] [])|]. apply rtc_refl.
Qed.

(** ** Two offers of the same name *)

(** A validated path is not reserved. Two offers of the same file name, the
    second validated before the first receiver is prepared, get the same
    destination; preparing the second deletes the first one's partial file, the
    first [finish] then checks the other transfer's file and deletes it, and the
    second [finish] raises [FileNotFoundError]: both transfers are lost although
    every chunk was delivered. *)
Theorem same_name_offers_collide :
  let os := Host (fun _ => None) (fun p => py "/home/u/" ++ p) in
  let all := fun b : bytes => length b in
  let m0 := empty_manager (py "dl") 5 MAX_TOTAL_INCOMING_SIZE in
  let d1 := pyb "abc" in let d2 := pyb "wxyz" in
  let '(r1, m1) := create_receiver (py "t1") (py "a") 3 (sha256_hex d1) (py "x") (py "dl/a") m0 in
  let '(r2, m2) := create_receiver (py "t2") (py "a") 4 (sha256_hex d2) (py "y") (py "dl/a") m1 in
  validate_offer os empty_fs m0 (py "a") 3 = Ok (py "dl/a") /\
  validate_offer os empty_fs m1 (py "a") 4 = Ok (py "dl/a") /\
  let '(p1, (r1, f)) := prepare false (r1, empty_fs) in
  let '(p2, (r2, f)) := prepare false (r2, f) in
  let '(w1, (r1, f)) := write_chunk all None 0 0 d1 (r1, f) in
  let '(w2, (r2, f)) := write_chunk all None 0 0 d2 (r2, f) in
  let '(e1, (r1, f)) := finish (r1, f) in
  let '(e2, (r2, f)) := finish (r2, f) in
  p1 = Ok 0 /\ p2 = Ok 0 /\ w1 = Ok tt /\ w2 = Ok tt /\ e1 = Ok false /\ e2 = Err FileNotFoundError /\
  exists_ f (py "dl/a") = false.
Proof. vm_compute. auto 10. Qed.

(** ** Witnesses *)

Definition demo_fs : fs := Disk {[ py "src" := EFile 0; py "dl/x.part" := EFile 1 ]} {[ 0%nat := pyb "abcde"; 1%nat := pyb "ab" ]} 2.
Definition demo_offer : FileReceiver := new_receiver (py "t") (py "x") 5 (sha256_hex (pyb "abcde")) (py "s") (py "dl/x") 2.
Definition demo_spill : bytes -> nat := fun b => Nat.div2 (length b).

Lemma small_ok : fs_ok demo_fs.
Proof.
  split; [intros p i | intros p q i Hp Hq; revert Hp Hq]; unfold demo_fs; cbn [fs_names fs_next].
  - rewrite lookup_insert_Some, lookup_singleton_Some. intros [[_ [=<-]]|[_ [_ [=<-]]]]; lia.
  - rewrite !lookup_insert_Some, !lookup_singleton_Some.
    intros [[<- [=<-]]|[_ [<- [=<-]]]] [[<- [=]]|[_ [<- [=]]]]; done.
Qed.

(** A resumed receiver with the rest of the file written. *)
Definition demo_ready : rstate := snd (write_chunk demo_spill None 1 2 (pyb "cde") (snd (prepare true (demo_offer, demo_fs)))).

Lemma ready_reachable : rtc (rstep demo_spill) (true, (demo_offer, demo_fs)) (true, demo_ready).
Proof.
  eapply rtc_l; [apply (step_prepare demo_spill true true)|].
  eapply rtc_l; [apply (step_chunk demo_spill None 1 2 (pyb "cde"))|]. apply rtc_refl.
Qed.

Lemma receiver_publishes_only_verified_witness :
  r_bytes_received (fst demo_ready) = 5 /\ 0 <= r_bytes_received (fst demo_ready) <= 5 /\
  read_file (snd demo_ready) (py "src") = read_file demo_fs (py "src").
Proof.
  split; [vm_compute; reflexivity|].
  assert (demo_ready = (fst demo_ready, snd demo_ready)) as E by (vm_compute; reflexivity).
  pose proof ready_reachable as Hr. rewrite E in Hr.
  destruct (receiver_publishes_only_verified demo_spill (py "t") (py "x") 5 (sha256_hex (pyb "abcde")) (py "s") (py "dl/x") 2
    demo_fs true (fst demo_ready) (snd demo_ready) small_ok eq_refl Hr) as (H1 & _ & H4 & _).
  split; [exact H1|]. apply H4; vm_compute; discriminate.
Defined.

Lemma finish_decides_witness : exists r' f', finish demo_ready = (Ok true, (r', f')) /\ read_file f' (py "dl/x") = Ok (pyb "abcde").
Proof.
  assert (demo_ready = (fst demo_ready, snd demo_ready)) as E by (vm_compute; reflexivity).
  pose proof ready_reachable as Hr. rewrite E in Hr.
  destruct (r_handle (fst demo_ready)) as [h|] eqn:Eh; [|vm_compute in Eh; discriminate].
  pose proof (finish_decides demo_spill (py "t") (py "x") 5 (sha256_hex (pyb "abcde")) (py "s") (py "dl/x") 2
    demo_fs (fst demo_ready) (snd demo_ready) h small_ok eq_refl Hr Eh) as Hd.
  assert (fh_content h (snd demo_ready) = pyb "abcde") as Hc
    by (vm_compute in Eh; injection Eh as <-; vm_compute; reflexivity).
  rewrite <- E in Hd. cbn zeta in Hd. rewrite Hc in Hd.
  assert (is_ok (fst (finish demo_ready)) = true /\ fst (finish demo_ready) <> Ok false) as [Hk Hf]
    by (vm_compute; split; [reflexivity|discriminate]).
  destruct (finish demo_ready) as [[[|]|e] [r' f']].
  - exists r', f'. split; [reflexivity|]. apply Hd.
  - destruct Hf. reflexivity.
  - discriminate Hk.
Defined.

Lemma transfer_delivers_file_witness :
  let tid := uuid_str (replicate 16 (z2b 7)) in
  exists r' f' st2, finish st2 = (Ok true, (r', f')) /\ read_file f' (py "dl/x") = Ok (pyb "abcde").
Proof.
  intros tid. destruct (new_sender demo_fs tid (py "src") None 2) as [s|e] eqn:Es.
  2: { apply (f_equal is_ok) in Es. vm_compute in Es. discriminate Es. }
  destruct (transfer_delivers_file demo_spill demo_fs (py "src") (pyb "abcde") tid 2 (py "s") demo_fs (py "dl/x") true s)
    as (start & st1 & cs & st2 & r' & f' & _ & _ & _ & _ & H1 & H2 & _).
  - vm_compute. reflexivity.
  - vm_compute. split; [reflexivity|discriminate].
  - lia.
  - vm_compute. reflexivity.
  - exact Es.
  - exact small_ok.
  - intros q m [-> | ->]; vm_compute; discriminate.
  - intros _ pre Hp. vm_compute in Hp. injection Hp as <-. exists (pyb "cde"). vm_compute. reflexivity.
  - exists r', f', st2. split; [exact H1|exact H2].
Defined.
