(* ===== verification/RecoveryCode.v ===== *)
(** * core/vault/recovery_code.py: the vault's recovery code

    Twenty random bytes in Crockford Base32 with a mod-37 check symbol, and the
    tolerant parser of what the user types back. *)

From S2P Require Import Prelude PyStr.
From stdpp Require Import base strings list option list_numbers.
From Stdlib Require Import ZArith Lia.

Open Scope Z_scope.

(** ** The code *)

Definition RECOVERY_CODE_BYTES : Z := 20.
Definition DATA_ALPHABET : pystr := py "0123456789ABCDEFGHJKMNPQRSTVWXYZ".
Definition CHECK_ALPHABET : pystr := DATA_ALPHABET ++ py "*~$=U".
Definition GROUP_SIZE : nat := 5.

(** Indexing a string constant; every index used is in range. *)
Definition char_at (s : pystr) (i : Z) : Z := nth (Z.to_nat i) s 0.

(** [_DATA_INDEX] *)
Fixpoint index_from (i : Z) (s : pystr) (c : Z) : option Z :=
  match s with
  | [] => None
  | x :: s => if x =? c then Some i else index_from (i + 1) s c
  end.
Definition DATA_INDEX (c : Z) : option Z := index_from 0 DATA_ALPHABET c.

Definition NORMALIZE (c : Z) : Z :=
  if (c =? 79) || (c =? 111) then 48
  else if (c =? 73) || (c =? 105) || (c =? 76) || (c =? 108) then 49
  else c.

Definition encode_crockford (data : bytes) : pystr :=
  let value := be_decode data in
  let n_chars := (zlen data * 8 + 4) / 5 in
  map (fun i => let shift := 5 * (n_chars - 1 - i) in
                char_at DATA_ALPHABET (Z.land (Z.shiftr value shift) 0x1F)) (seqZ 0 n_chars).

Fixpoint decode_value (value : Z) (text : pystr) : result Z :=
  match text with
  | [] => Ok value
  | ch :: text => match DATA_INDEX ch with
                  | None => Err RecoveryCodeError
                  | Some d => decode_value (Z.lor (Z.shiftl value 5) d) text
                  end
  end.

(** [value.to_bytes(n, "big")] of a non-negative value. *)
Definition to_bytes (value n : Z) : result bytes :=
  if value <? 256 ^ n then Ok (be_encode (Z.to_nat n) value) else Err OverflowError.

Definition decode_crockford (text : pystr) : result bytes :=
  let* value := decode_value 0 text in
  let n_bytes := zlen text * 5 / 8 in
  rcatch (to_bytes value n_bytes)
    (fun e => if decide (e = OverflowError) then Some (Err RecoveryCodeError) else None).

Definition checksum_char (data : bytes) : Z := char_at CHECK_ALPHABET (be_decode data mod 37).

(** [[full[i:i + GROUP_SIZE] for i in range(0, len(full), GROUP_SIZE)]] *)
Fixpoint groups_of (fuel n : nat) (s : pystr) : list pystr :=
  match fuel, s with
  | S fuel, _ :: _ => take n s :: groups_of fuel n (drop n s)
  | _, _ => []
  end.
Fixpoint join_dash (gs : list pystr) : pystr :=
  match gs with
  | [] => []
  | [g] => g
  | g :: gs => g ++ 45 :: join_dash gs
  end.

(** [raw] is the result of [os.urandom(RECOVERY_CODE_BYTES)]. *)
Definition generate_recovery_code (raw : bytes) : pystr :=
  let full := encode_crockford raw ++ [checksum_char raw] in
  join_dash (groups_of (length full) GROUP_SIZE full).

Definition clean (code : pystr) : pystr :=
  map NORMALIZE (remove_char 32 (remove_char 45 (upper (strip code)))).

Definition check_cleaned (cleaned : pystr) : result bytes :=
  if zlen cleaned <? 2 then Err RecoveryCodeError
  else
    let data_part := take (length cleaned - 1) cleaned in
    let check_part := List.last cleaned 0 in
    let* raw := decode_crockford data_part in
    if negb (zlen raw =? RECOVERY_CODE_BYTES) then Err RecoveryCodeError
    else if negb (check_part =? checksum_char raw) then Err RecoveryCodeError
    else Ok raw.

Definition normalize_recovery_code (code : pystr) : result bytes := check_cleaned (clean code).

(** ** Base-32 digits *)

Fixpoint enc32 (n : nat) (v : Z) : list Z :=
  match n with
  | O => []
  | S n => enc32 n (v / 32) ++ [v mod 32]
  end.
Definition val32 (ds : list Z) : Z := fold_left (fun a d => a * 32 + d) ds 0.
Definition digit32 (d : Z) : Prop := 0 <= d < 32.

Lemma val32_snoc ds d : val32 (ds ++ [d]) = val32 ds * 32 + d.
Proof. unfold val32. by rewrite fold_left_app. Qed.

Lemma enc32_length n v : length (enc32 n v) = n.
Proof. revert v. induction n as [|n IH]; intros v; cbn; [done|]. rewrite length_app, IH. cbn. lia. Qed.

Lemma enc32_digits n v : Forall digit32 (enc32 n v).
Proof.
  revert v. induction n as [|n IH]; intros v; cbn; [constructor|]. apply Forall_app. split; [done|].
  constructor; [|constructor]. apply Z.mod_pos_bound. lia.
Qed.

Lemma val32_enc32 n v : 0 <= v < 32 ^ Z.of_nat n -> val32 (enc32 n v) = v.
Proof.
  revert v. induction n as [|n IH]; intros v Hv; cbn [enc32].
  - change (32 ^ Z.of_nat 0) with 1 in Hv. cbn. lia.
  - rewrite Nat2Z.inj_succ, Z.pow_succ_r in Hv by lia. rewrite val32_snoc, IH.
    + pose proof (Z.div_mod v 32). lia.
    + split; [apply Z.div_pos; lia | apply Z.div_lt_upper_bound; lia].
Qed.

Lemma enc32_val32 ds : Forall digit32 ds -> enc32 (length ds) (val32 ds) = ds.
Proof.
  induction ds as [|d ds IH] using rev_ind; [done|]. intros [Hds Hd]%Forall_app. inversion Hd as [|? ? Hd1]; subst.
  unfold digit32 in Hd1. rewrite length_app, Nat.add_1_r. cbn [enc32]. rewrite val32_snoc.
  rewrite Z.div_add_l, (Z.div_small d), Z.add_0_r, IH by (done || lia).
  by rewrite Z.add_comm, Z.mod_add, Z.mod_small by lia.
Qed.

Lemma val32_range ds : Forall digit32 ds -> 0 <= val32 ds < 32 ^ Z.of_nat (length ds).
Proof.
  induction ds as [|d ds IH] using rev_ind; [done|]. intros [Hds Hd]%Forall_app. inversion Hd as [|? ? Hd1]; subst.
  apply IH in Hds. unfold digit32 in Hd1. rewrite val32_snoc, length_app, Nat.add_1_r, Nat2Z.inj_succ, Z.pow_succ_r; lia.
Qed.

Lemma enc32_leading n v : 0 <= v < 32 ^ Z.of_nat n -> enc32 (S n) v = 0 :: enc32 n v.
Proof.
  revert v. induction n as [|n IH]; intros v Hv.
  - change (32 ^ Z.of_nat 0) with 1 in Hv. by replace v with 0 by lia.
  - rewrite Nat2Z.inj_succ, Z.pow_succ_r in Hv by lia.
    change (enc32 (S (S n)) v) with (enc32 (S n) (v / 32) ++ [v mod 32]). rewrite IH; [done|].
    split; [apply Z.div_pos; lia | apply Z.div_lt_upper_bound; lia].
Qed.

(** The shifts of [_encode_crockford] produce these digits. *)
Lemma shifted_digits n v :
  0 <= v -> map (fun i => Z.land (Z.shiftr v (5 * (Z.of_nat n - 1 - i))) 0x1F) (seqZ 0 (Z.of_nat n)) = enc32 n v.
Proof.
  revert v. induction n as [|n IH]; intros v Hv; [done|].
  rewrite seqZ_S, map_app. cbn [map enc32]. f_equal.
  - rewrite <- (IH (v / 32)) by (apply Z.div_pos; lia). apply map_ext_in. intros i Hi%list_elem_of_In%elem_of_seqZ.
    change 0x1F with (Z.ones 5). rewrite !Z.land_ones by lia. f_equal.
    change 32 with (2 ^ 5). rewrite <- Z.shiftr_div_pow2, Z.shiftr_shiftr by lia. f_equal. lia.
  - f_equal. replace (5 * _) with 0 by lia. change 0x1F with (Z.ones 5).
    rewrite Z.land_ones by lia. by rewrite Z.shiftr_0_r.
Qed.

(** ** Symbols *)

Abbreviation csym := (char_at CHECK_ALPHABET).
Definition digit37 (d : Z) : Prop := 0 <= d < 37.

Lemma index_from_inv s i c d : index_from i s c = Some d -> i <= d < i + zlen s /\ nth (Z.to_nat (d - i)) s 0 = c.
Proof.
  revert i. induction s as [|x s IH]; intros i H; cbn in H; [done|]. rewrite zlen_cons. pose proof (zlen_nonneg s).
  destruct (Z.eqb_spec x c) as [->|].
  - injection H as <-. rewrite Z.sub_diag. split; [lia|done].
  - apply IH in H as [Hr Hn]. split; [lia|]. replace (Z.to_nat (d - i)) with (S (Z.to_nat (d - (i + 1)))) by lia. done.
Qed.

Lemma csym_data d : digit32 d -> char_at DATA_ALPHABET d = csym d.
Proof.
  intros Hd. unfold char_at, CHECK_ALPHABET. rewrite app_nth1; [done|]. change (length DATA_ALPHABET) with 32%nat.
  unfold digit32 in Hd. lia.
Qed.

Lemma DATA_INDEX_inv c d : DATA_INDEX c = Some d -> digit32 d /\ c = csym d.
Proof.
  unfold DATA_INDEX. intros [Hr Hn]%index_from_inv. change (zlen DATA_ALPHABET) with 32 in Hr.
  assert (digit32 d) as Hd by done. split; [done|]. rewrite <- csym_data by done. unfold char_at.
  by rewrite Z.sub_0_r in Hn.
Qed.

Lemma csym_table d : digit37 d ->
  forallb (fun e => (d =? e) || negb (csym d =? csym e)) (seqZ 0 37) = true /\
  (d < 32 -> DATA_INDEX (csym d) = Some d).
Proof.
  intros Hd. assert (forall P : Z -> bool, forallb P (seqZ 0 37) = true -> P d = true) as Hall.
  { intros P. rewrite forallb_forall. intros HP. apply HP, list_elem_of_In, elem_of_seqZ. exact Hd. }
  split.
  - by apply (Hall (fun d => forallb (fun e => (d =? e) || negb (csym d =? csym e)) (seqZ 0 37))).
  - intros Hlt. assert ((32 <=? d) || bool_decide (DATA_INDEX (csym d) = Some d) = true) as H
      by (by apply (Hall (fun d => (32 <=? d) || bool_decide (DATA_INDEX (csym d) = Some d)))).
    apply orb_true_iff in H as [?|H]; zbool; [lia|done].
Qed.

Lemma csym_inj d e : digit37 d -> digit37 e -> csym d = csym e -> d = e.
Proof.
  intros Hd He E. destruct (csym_table d Hd) as [Ht _]. rewrite forallb_forall in Ht.
  specialize (Ht e). rewrite <- list_elem_of_In, elem_of_seqZ in Ht. specialize (Ht He).
  rewrite E, Z.eqb_refl, orb_false_r in Ht. by apply Z.eqb_eq.
Qed.

Lemma csyms_inj xs ys : Forall digit37 xs -> Forall digit37 ys -> map csym xs = map csym ys -> xs = ys.
Proof.
  intros Hx. revert ys. induction Hx as [|x xs Hx1 Hx IH]; intros [|y ys] Hy E; try done.
  inversion Hy; subst. injection E as E1 E2. f_equal; [by apply csym_inj|by apply IH].
Qed.

Lemma digits_37 ds : Forall digit32 ds -> Forall digit37 ds.
Proof. apply List.Forall_impl. unfold digit32, digit37. lia. Qed.

(** ** Decoding *)

Lemma shift_or a d : 0 <= a -> digit32 d -> Z.lor (Z.shiftl a 5) d = a * 32 + d.
Proof.
  intros Ha [Hd1 Hd2]. assert (Z.land (Z.shiftl a 5) d = 0) as H0.
  { apply Z.bits_inj'. intros n Hn. rewrite Z.land_spec, Z.bits_0, Z.shiftl_spec by done.
    destruct (Z.ltb_spec n 5) as [H|H]; [by rewrite (Z.testbit_neg_r a) by lia|].
    replace d with (d mod 2 ^ 5) by (apply Z.mod_small; lia). rewrite Z.mod_pow2_bits_high by lia. apply andb_false_r. }
  rewrite <- Z.lxor_lor, <- Z.add_nocarry_lxor by done. rewrite Z.shiftl_mul_pow2 by lia. lia.
Qed.

Lemma decode_value_iff text a v : 0 <= a ->
  decode_value a text = Ok v <->
  exists ds, Forall digit32 ds /\ text = map csym ds /\ v = fold_left (fun a d => a * 32 + d) ds a.
Proof.
  revert a. induction text as [|c text IH]; intros a Ha; cbn [decode_value].
  - split; [intros [=<-]; by exists []|]. intros ([|] & _ & E & ->); by inversion E.
  - split.
    + destruct (DATA_INDEX c) as [d|] eqn:Ed; [|done]. apply DATA_INDEX_inv in Ed as [Hd ->].
      rewrite shift_or by done. unfold digit32 in Hd. intros (ds & Hds & -> & ->)%IH; [|lia].
      exists (d :: ds). split; [by constructor|done].
    + intros ([|d ds] & Hds & [=-> ->] & ->). inversion Hds; subst. unfold digit32 in *.
      destruct (csym_table d) as [_ ->]; [unfold digit37; lia| |lia]. rewrite shift_or by done.
      apply IH; [lia|]. by exists ds.
Qed.

Lemma decode_value_errors a text e : decode_value a text = Err e -> e = RecoveryCodeError.
Proof. revert a. induction text as [|c text IH]; intros a; cbn; [done|]. destruct (DATA_INDEX c); [apply IH|congruence]. Qed.

Lemma encode_crockford_digits raw :
  length raw = 20%nat -> encode_crockford raw = map csym (enc32 32 (be_decode raw)).
Proof.
  intros Hl. pose proof (be_decode_range raw) as [Hr _]. unfold encode_crockford, zlen. rewrite Hl.
  change ((Z.of_nat 20 * 8 + 4) / 5) with (Z.of_nat 32). rewrite <- (shifted_digits 32) by done.
  rewrite map_map. apply map_ext. intros i. apply csym_data. unfold digit32.
  change 0x1F with (Z.ones 5). rewrite Z.land_ones by lia. by apply Z.mod_pos_bound.
Qed.

(** ** What is accepted *)

(** The thirty-three symbols of the code for [raw]. *)
Definition full_code (raw : bytes) : pystr := encode_crockford raw ++ [checksum_char raw].

Lemma pow_160 : 256 ^ 20 = 32 ^ Z.of_nat 32.
Proof. done. Qed.

Lemma decode_crockford_iff text raw :
  zlen raw = 20 ->
  decode_crockford text = Ok raw <-> text = encode_crockford raw \/ text = 48 :: encode_crockford raw.
Proof.
  intros Hl. assert (length raw = 20%nat) as Hl' by (unfold zlen in Hl; lia).
  rewrite encode_crockford_digits by done. pose proof (be_decode_range raw) as Hr. rewrite Hl' in Hr.
  change (Z.of_nat 20) with 20 in Hr. rewrite pow_160 in Hr.
  assert (forall n v, 5 * n / 8 = 20 -> 0 <= v < 256 ^ 20 ->
    rcatch (to_bytes v (n * 5 / 8)) (fun e => if decide (e = OverflowError) then Some (Err RecoveryCodeError) else None)
    = Ok (be_encode 20 v)) as Hto.
  { intros n v Hn Hv. unfold to_bytes. rewrite (Z.mul_comm n 5), Hn. by rewrite (proj2 (Z.ltb_lt _ _)) by lia. }
  unfold decode_crockford. split.
  - intros (v & (ds & Hds & -> & ->)%decode_value_iff & H)%rbind_ok; [|lia]. fold (val32 ds) in *.
    unfold to_bytes in H. pose proof (val32_range ds Hds) as Hv.
    pose proof (enc32_val32 ds Hds) as Eds. revert H.
    unfold zlen. rewrite length_map.
    destruct (Z.ltb_spec (val32 ds) (256 ^ (Z.of_nat (length ds) * 5 / 8))) as [Hlt|]; cbn [rcatch]; [|done].
    intros H. apply Ok_inj in H. assert (Z.of_nat (length ds) * 5 / 8 = 20) as Hn.
    { pose proof (Z.div_pos (Z.of_nat (length ds) * 5) 8). apply (f_equal length) in H.
      rewrite be_encode_length, Hl' in H. lia. }
    rewrite Hn in Hlt, H. assert (be_decode raw = val32 ds) as Ev.
    { rewrite <- H. apply be_decode_encode_small. split; [lia|done]. }
    assert (length ds = 32%nat \/ length ds = 33%nat) as [E|E]
      by (pose proof (Z.div_mod (Z.of_nat (length ds) * 5) 8); pose proof (Z.mod_pos_bound (Z.of_nat (length ds) * 5) 8); lia).
    + left. rewrite Ev, <- E. by rewrite Eds.
    + right. rewrite Ev. change (48 :: map csym (enc32 32 (val32 ds))) with (map csym (0 :: enc32 32 (val32 ds))).
      rewrite <- enc32_leading by (rewrite <- pow_160; lia). rewrite <- E. by rewrite Eds.
  - assert (forall ds, ds = enc32 32 (be_decode raw) \/ ds = 0 :: enc32 32 (be_decode raw) ->
      decode_crockford (map csym ds) = Ok raw) as Hdec.
    { intros ds Hds. assert (Forall digit32 ds /\ val32 ds = be_decode raw /\ 5 * zlen ds / 8 = 20) as (H1 & H2 & H3).
      { destruct Hds as [-> | ->]; [|rewrite <- enc32_leading by done]; unfold zlen; rewrite enc32_length;
          (split; [apply enc32_digits|split; [apply val32_enc32|done]]); [done|].
        change (32 ^ Z.of_nat 33) with (32 * 32 ^ Z.of_nat 32). lia. }
      unfold decode_crockford. rewrite (proj2 (decode_value_iff _ 0 (be_decode raw) ltac:(lia))) by (exists ds; by rewrite <- H2).
      cbn [rbind]. unfold zlen in *. rewrite length_map, Hto; [|done|by rewrite pow_160].
      by rewrite be_encode_decode_n. }
    intros [-> | ->]; [apply Hdec; by left|].
    change (48 :: map csym (enc32 32 (be_decode raw))) with (map csym (0 :: enc32 32 (be_decode raw))).
    apply Hdec. by right.
Qed.

Lemma decode_crockford_errors text e : decode_crockford text = Err e -> e = RecoveryCodeError.
Proof.
  unfold decode_crockford. destruct (decode_value 0 text) as [v|e'] eqn:E; cbn [rbind].
  - unfold to_bytes. destruct (_ <? _); cbn [rcatch]; [done|]. rewrite decide_True by done. congruence.
  - apply decode_value_errors in E as ->. congruence.
Qed.

(** The parser accepts the code's symbols, and the same with a leading zero. *)
Lemma check_cleaned_iff cleaned raw :
  check_cleaned cleaned = Ok raw <-> zlen raw = 20 /\ (cleaned = full_code raw \/ cleaned = 48 :: full_code raw).
Proof.
  unfold check_cleaned, full_code, RECOVERY_CODE_BYTES. destruct cleaned as [|c data _] using rev_ind.
  { split; [done|]. intros (_ & [E|E]); [|done]. by destruct (encode_crockford raw). }
  rewrite length_app, Nat.add_sub, take_app_exact, last_last by done.
  assert (forall x, data ++ [c] = x ++ [checksum_char raw] <-> data = x /\ c = checksum_char raw) as Happ
    by (intros x; split; [apply app_inj_tail|by intros [-> ->]]).
  change (48 :: encode_crockford raw ++ [checksum_char raw]) with ((48 :: encode_crockford raw) ++ [checksum_char raw]).
  rewrite !Happ. split.
  - case_goal; [done|]. intros (raw' & Hd & H)%rbind_ok. do 2 (case_in H; [done|]). apply Ok_inj in H as ->. zbool.
    apply decode_crockford_iff in Hd; [|done]. tauto.
  - intros (Hl & Hd). assert (decode_crockford data = Ok raw /\ c = checksum_char raw) as [Hdec ->]
      by (rewrite decode_crockford_iff by done; tauto).
    rewrite (proj2 (Z.ltb_ge _ 2)).
    + rewrite Hdec. cbn [rbind]. by rewrite Hl, !Z.eqb_refl.
    + assert (length raw = 20%nat) as Hl' by (unfold zlen in Hl; lia). rewrite zlen_app.
      assert (32 <= zlen data); [|rewrite zlen_cons, zlen_nil; lia].
      destruct Hd as [[-> _]|[-> _]]; rewrite ?zlen_cons, encode_crockford_digits by done;
        unfold zlen; rewrite length_map, enc32_length; lia.
Qed.

Lemma check_cleaned_errors cleaned e : check_cleaned cleaned = Err e -> e = RecoveryCodeError.
Proof.
  unfold check_cleaned. case_goal; [congruence|]. destruct (decode_crockford _) as [raw|e'] eqn:Ed; cbn [rbind].
  - do 2 (case_goal; [congruence|]). done.
  - apply decode_crockford_errors in Ed as ->. congruence.
Qed.

(** ** What the user may type *)

(** How one typed character reads: letters in either case, O as 0, I and L as 1. *)
Definition read_as (c : Z) : Z := NORMALIZE (if (97 <=? c) && (c <=? 122) then c - 32 else c).
Definition separator (c : Z) : bool := (c =? 45) || (c =? 32).

(** Typed ASCII text whose only white space is the blank. *)
Definition typed (code : pystr) : bool := forallb (fun c => is_ascii c && (negb (is_space c) || (c =? 32))) code.

(** [code] spells the symbols [s], with dashes and blanks anywhere. *)
Definition spells (code s : pystr) : Prop :=
  typed code = true /\ map read_as (List.filter (fun c => negb (separator c)) code) = s.

Lemma remove_lstrip p c s :
  Forall (fun x => p x = true -> x = c) s -> remove_char c (lstrip_by p s) = remove_char c s.
Proof.
  induction 1 as [|x s Hx _ IH]; cbn; [done|]. destruct (p x) eqn:E; [|done].
  rewrite Hx, Z.eqb_refl by done. apply IH.
Qed.

Lemma filter_rev_Z (q : Z -> bool) s : List.filter q (rev s) = rev (List.filter q s).
Proof.
  induction s as [|x s IH]; cbn; [done|]. rewrite List.filter_app, IH. cbn. destruct (q x); cbn; [done|]. apply app_nil_r.
Qed.

Lemma Forall_lstrip (P : Z -> Prop) p s : Forall P s -> Forall P (lstrip_by p s).
Proof. induction 1 as [|x s Hx Hs IH]; cbn; [constructor|]. destruct (p x); [done|by constructor]. Qed.

Lemma remove_strip c s : Forall (fun x => is_space x = true -> x = c) s -> remove_char c (strip s) = remove_char c s.
Proof.
  intros Hs. unfold strip, strip_by, remove_char in *. rewrite filter_rev_Z.
  pose proof (remove_lstrip is_space c) as Hl. unfold remove_char in Hl.
  rewrite Hl by (apply List.Forall_rev, Forall_lstrip, Hs). rewrite filter_rev_Z, rev_involutive. by apply Hl.
Qed.

Lemma filter_comm (p q : Z -> bool) s : List.filter p (List.filter q s) = List.filter (fun x => q x && p x) s.
Proof. induction s as [|x s IH]; cbn; [done|]. destruct (q x); cbn; rewrite IH; done. Qed.

Lemma upper_ascii s : forallb is_ascii s = true ->
  upper s = map (fun c => if (97 <=? c) && (c <=? 122) then c - 32 else c) s.
Proof.
  induction s as [|x s IH]; [done|]. cbn [forallb]. intros [Hx Hs]%andb_true_iff. unfold upper. cbn [flat_map map].
  fold (upper s). rewrite IH by done. unfold is_ascii in Hx. zbool. unfold upper_cp.
  destruct ((97 <=? x) && (x <=? 122)); [done|].
  repeat (rewrite (proj2 (Z.eqb_neq x _)) by lia). done.
Qed.

Lemma clean_typed code :
  typed code = true -> clean code = map read_as (List.filter (fun c => negb (separator c)) code).
Proof.
  intros Ht. unfold typed in Ht. rewrite forallb_forall in Ht.
  assert (Forall (fun x => is_space x = true -> x = 32) code) as Hsp.
  { apply List.Forall_forall. intros x [_ Hx]%Ht%andb_true_iff. intros E. rewrite E in Hx. cbn in Hx. by zbool. }
  assert (forallb is_ascii (strip code) = true) as Hasc.
  { apply forallb_forall. intros x Hx%list_elem_of_In%strip_by_elem%list_elem_of_In%Ht. by apply andb_true_iff in Hx as [? _]. }
  unfold clean. rewrite upper_ascii by done. set (up := fun c : Z => if (97 <=? c) && (c <=? 122) then c - 32 else c).
  assert (forall s, remove_char 32 (remove_char 45 (map up s)) = map up (remove_char 45 (remove_char 32 s))) as Hcomm.
  { intros s. unfold remove_char. rewrite !filter_comm. induction s as [|x s IH]; [done|]. cbn [map List.filter].
    assert ((negb (up x =? 45) && negb (up x =? 32)) = (negb (x =? 32) && negb (x =? 45))) as ->.
    { unfold up. destruct ((97 <=? x) && (x <=? 122)) eqn:E; zbool; zcases; lia || done. }
    case_goal; cbn; [f_equal|]; apply IH. }
  rewrite Hcomm, remove_strip by done. unfold remove_char. rewrite map_map, filter_comm. f_equal.
  apply filter_ext. intros c. unfold separator. rewrite negb_orb. apply andb_comm.
Qed.

Definition plain_symbol (c : Z) : bool :=
  (read_as c =? c) && negb (separator c) && is_ascii c && negb (is_space c).

Lemma csym_plain d : digit37 d -> plain_symbol (csym d) = true.
Proof.
  intros Hd. assert (forallb (fun d => plain_symbol (csym d)) (seqZ 0 37) = true) as H by (vm_compute; reflexivity).
  rewrite forallb_forall in H. apply H, list_elem_of_In, elem_of_seqZ. exact Hd.
Qed.

Lemma full_code_symbols raw :
  length raw = 20%nat ->
  full_code raw = map csym (enc32 32 (be_decode raw) ++ [be_decode raw mod 37]) /\
  Forall digit37 (enc32 32 (be_decode raw) ++ [be_decode raw mod 37]).
Proof.
  intros Hl. unfold full_code. rewrite map_app, encode_crockford_digits by done. split; [done|].
  apply Forall_app. split; [apply digits_37, enc32_digits|]. constructor; [|constructor]. apply Z.mod_pos_bound. lia.
Qed.

Lemma full_code_plain raw : length raw = 20%nat -> Forall (fun c => plain_symbol c = true) (full_code raw).
Proof.
  intros Hl. destruct (full_code_symbols raw Hl) as [-> Hd]. apply Forall_map. eapply List.Forall_impl; [|exact Hd].
  intros d. apply csym_plain.
Qed.

Lemma groups_spell fuel n s :
  (0 < n)%nat -> (length s <= fuel)%nat -> Forall (fun c => plain_symbol c = true) s ->
  spells (join_dash (groups_of fuel n s)) s.
Proof.
  intros Hn. revert s. induction fuel as [|fuel IH]; intros s Hf Hs.
  { destruct s; [done|cbn in Hf; lia]. }
  destruct s as [|c s]; [done|]. set (t := c :: s) in *.
  assert (forall u, Forall (fun c => plain_symbol c = true) u ->
    typed u = true /\ map read_as (List.filter (fun c => negb (separator c)) u) = u) as Hplain.
  { clear. induction 1 as [|x u Hx _ [IH1 IH2]]; [done|]. unfold plain_symbol in Hx.
    apply andb_true_iff in Hx as [[[Ha Hb]%andb_true_iff Hc]%andb_true_iff Hd]. apply Z.eqb_eq in Ha.
    unfold typed in *. cbn [forallb List.filter]. rewrite Hb, Hc, Hd, IH1. cbn [map]. by rewrite Ha, IH2. }
  destruct (Hplain (take n t)) as [H1 H2]; [by apply Forall_take|].
  destruct (IH (drop n t)) as [H3 H4]; [rewrite length_drop; cbn [length t] in *; lia|by apply Forall_drop|].
  change (groups_of (S fuel) n t) with (take n t :: groups_of fuel n (drop n t)).
  destruct (groups_of fuel n (drop n t)) as [|g gs] eqn:Eg.
  - assert (drop n t = []) as Hd.
    { destruct (drop n t) eqn:Ed; [done|]. destruct fuel; [|done].
      apply (f_equal length) in Ed. rewrite length_drop in Ed. cbn [length t] in *. lia. }
    cbn [join_dash]. assert (take n t = t) as Ht by (rewrite <- (take_drop n t) at 2; by rewrite Hd, app_nil_r).
    rewrite Ht in *. done.
  - change (join_dash (take n t :: g :: gs)) with (take n t ++ 45 :: join_dash (g :: gs)). split.
    + unfold typed in *. rewrite forallb_app, H1. exact H3.
    + rewrite List.filter_app, map_app, H2. cbn [List.filter separator Z.eqb Pos.eqb orb negb].
      change (45 =? 45) with true. cbn [orb negb]. rewrite H4. apply take_drop.
Qed.

Lemma transcription_accepted raw code :
  length raw = 20%nat -> spells code (full_code raw) -> normalize_recovery_code code = Ok raw.
Proof.
  intros Hl [Ht E]. unfold normalize_recovery_code. rewrite clean_typed, E by done. apply check_cleaned_iff.
  split; [unfold zlen; lia|by left].
Qed.

Lemma displayed_code_accepted raw :
  length raw = 20%nat -> normalize_recovery_code (generate_recovery_code raw) = Ok raw.
Proof.
  intros Hl. apply transcription_accepted, groups_spell; [done|unfold GROUP_SIZE; lia|done|by apply full_code_plain].
Qed.

(** The recovery code survives being written down. The twenty bytes come back
    from the displayed code and from any transcription of it, in either case,
    with O for 0, I or L for 1, and dashes or blanks anywhere; conversely a code
    is accepted only when, so read, it spells the thirty-three symbols of the
    returned bytes (or those after an extra leading zero), and any other input
    raises [RecoveryCodeError]. *)
Theorem recovery_code_roundtrip raw :
  length raw = 20%nat ->
  normalize_recovery_code (generate_recovery_code raw) = Ok raw /\
  (forall code, spells code (full_code raw) -> normalize_recovery_code code = Ok raw) /\
  (forall code, match normalize_recovery_code code with
     | Ok raw' => zlen raw' = 20 /\ (clean code = full_code raw' \/ clean code = 48 :: full_code raw')
     | Err e => e = RecoveryCodeError
     end).
Proof.
  intros Hl. split; [by apply displayed_code_accepted|split].
  - intros code. by apply transcription_accepted.
  - intros code. unfold normalize_recovery_code. destruct (check_cleaned _) as [raw'|e] eqn:E.
    + by apply check_cleaned_iff.
    + by eapply check_cleaned_errors.
Qed.

Lemma recovery_code_roundtrip_witness :
  let raw := map z2b (seqZ 240 20) in
  normalize_recovery_code (generate_recovery_code raw) = Ok raw /\
  generate_recovery_code raw = py "Y3RZ5-WZMYQ-VFFY7-SZBXZ-SZFYZ-W0020-G32".
Proof.
  intros raw. split; [|vm_compute; reflexivity].
  exact (proj1 (recovery_code_roundtrip raw eq_refl)).
Defined.

(** ** What the check symbol catches *)

Lemma val32_app xs ys : val32 (xs ++ ys) = val32 xs * 32 ^ Z.of_nat (length ys) + val32 ys.
Proof.
  induction ys as [|y ys IH] using rev_ind; [rewrite app_nil_r; cbn; lia|].
  rewrite app_assoc, !val32_snoc, IH, length_app, Nat.add_1_r, Nat2Z.inj_succ, Z.pow_succ_r by lia. lia.
Qed.

Lemma val32_cons y ys : val32 (y :: ys) = y * 32 ^ Z.of_nat (length ys) + val32 ys.
Proof. change (y :: ys) with ([y] ++ ys). rewrite val32_app. unfold val32 at 1. cbn [fold_left]. lia. Qed.

(** 37 divides a product with a power of 32 only if it divides the other factor. *)
Lemma cancel_32 a n : (37 | a * 32 ^ Z.of_nat n) -> (37 | a).
Proof.
  induction n as [|n IH]; [by rewrite Z.mul_1_r|]. rewrite Nat2Z.inj_succ, Z.pow_succ_r by lia.
  intros H. apply IH. replace (a * (32 * 32 ^ Z.of_nat n)) with (32 * (a * 32 ^ Z.of_nat n)) in H by lia.
  by apply Z.gauss in H.
Qed.

Lemma small_37 a b : digit37 a -> digit37 b -> (37 | a - b) -> a = b.
Proof. unfold digit37. intros Ha Hb [k Hk]. nia. Qed.

Definition code_digits (ds : list Z) : list Z := ds ++ [val32 ds mod 37].

Lemma code_digits_split ds xs y zs :
  code_digits ds = xs ++ y :: zs ->
  zs = [] /\ ds = xs /\ y = val32 ds mod 37 \/
  exists zs', zs = zs' ++ [val32 ds mod 37] /\ ds = xs ++ y :: zs'.
Proof.
  unfold code_digits. destruct zs as [|z zs _] using rev_ind; intros H.
  - left. apply app_inj_tail in H as [? ?]. auto.
  - right. exists zs. change (xs ++ y :: zs ++ [z]) with (xs ++ (y :: zs) ++ [z]) in H. rewrite app_assoc in H.
    apply app_inj_tail in H as [? ?]. subst. auto.
Qed.

Lemma mod_37_diff a b : a mod 37 = b mod 37 -> (37 | a - b).
Proof. intros H. apply Z.mod_divide; [lia|]. by rewrite Zminus_mod, H, Z.sub_diag. Qed.

Lemma one_symbol ds ds' xs y c zs :
  Forall digit37 (code_digits ds) -> Forall digit37 (code_digits ds') ->
  code_digits ds = xs ++ y :: zs -> code_digits ds' = xs ++ c :: zs -> y = c.
Proof.
  intros Hd Hd' E E'. assert (digit37 y /\ digit37 c) as [Hy Hc].
  { rewrite E in Hd. rewrite E' in Hd'. apply Forall_app in Hd as [_ Hd]. apply Forall_app in Hd' as [_ Hd'].
    inversion Hd; by inversion Hd'. }
  apply code_digits_split in E as [(-> & -> & Ey)|(zs1 & Ez & ->)], E' as [(Ez' & E1 & Ec)|(zs2 & Ez' & ->)].
  - by subst.
  - by destruct zs2.
  - rewrite Ez' in Ez. by destruct zs1.
  - rewrite Ez in Ez'. apply app_inj_tail in Ez' as [-> Hm]. apply mod_37_diff in Hm.
    rewrite !val32_app, !val32_cons in Hm. cbn [length] in Hm. apply small_37; [done|done|].
    apply (cancel_32 _ (length zs2)). match type of Hm with (_ | ?d) => replace d with ((y - c) * 32 ^ Z.of_nat (length zs2)) in Hm by lia end.
    done.
Qed.

Lemma two_symbols ds ds' xs y z zs :
  Forall digit37 (code_digits ds) -> Forall digit37 (code_digits ds') ->
  code_digits ds = xs ++ y :: z :: zs -> code_digits ds' = xs ++ z :: y :: zs -> y = z.
Proof.
  intros Hd Hd' E E'. assert (digit37 y /\ digit37 z) as [Hy Hz].
  { rewrite E in Hd. apply Forall_app in Hd as [_ Hd]. inversion Hd as [|? ? ? Hd2]; by inversion Hd2. }
  apply code_digits_split in E as [(? & _)|(zs1 & Ez & ->)]; [done|].
  apply code_digits_split in E' as [(? & _)|(zs2 & Ez' & ->)]; [done|].
  destruct zs1 as [|z1 zs1], zs2 as [|z2 zs2].
  - injection Ez as Ez _. injection Ez' as Ez' _. rewrite !val32_snoc in *.
    pose proof (Z.div_mod (val32 xs * 32 + y) 37). pose proof (Z.div_mod (val32 xs * 32 + z) 37).
    unfold digit37 in *. lia.
  - injection Ez as Ez ->. by destruct zs2.
  - injection Ez' as Ez' ->. by destruct zs1.
  - injection Ez as <- ->. injection Ez' as <- Ez'. apply app_inj_tail in Ez' as [-> Hm]. apply mod_37_diff in Hm.
    rewrite !val32_app, !val32_cons in Hm. cbn [length] in Hm. rewrite !Nat2Z.inj_succ, !Z.pow_succ_r in Hm by lia.
    match type of Hm with (_ | ?d) => replace d with (31 * (y - z) * 32 ^ Z.of_nat (length zs2)) in Hm by lia end.
    apply cancel_32, Z.gauss in Hm; [|done]. by apply small_37.
Qed.

Lemma check_cleaned_digits s raw :
  check_cleaned s = Ok raw -> length s = 33%nat ->
  exists ds, s = map csym (code_digits ds) /\ Forall digit37 (code_digits ds).
Proof.
  intros (Hl & Hs)%check_cleaned_iff Hn. assert (length raw = 20%nat) as Hl' by (unfold zlen in Hl; lia).
  destruct (full_code_symbols raw Hl') as [E Hd]. pose proof (be_decode_range raw) as Hr. rewrite Hl' in Hr.
  change (Z.of_nat 20) with 20 in Hr. rewrite pow_160 in Hr.
  exists (enc32 32 (be_decode raw)). unfold code_digits. rewrite (val32_enc32 32) by done. split; [|done].
  destruct Hs as [->| ->]; [done|]. cbn [length] in Hn. rewrite E, length_map, length_app, enc32_length in Hn. done.
Qed.

Lemma map_csym_split ds s x t :
  map csym ds = s ++ x :: t -> exists s' x' t', ds = s' ++ x' :: t' /\ s = map csym s' /\ x = csym x' /\ t = map csym t'.
Proof.
  intros E. apply map_eq_app in E as (s' & r & -> & <- & E). destruct r as [|x' t']; [done|].
  injection E as <- <-. by exists s', x', t'.
Qed.

Lemma Forall_split3 (P : Z -> Prop) s x t : Forall P (s ++ x :: t) -> Forall P s /\ P x /\ Forall P t.
Proof. intros [? H]%Forall_app. by inversion H. Qed.

(** C16: the check symbol catches the common transcription mistakes. A code that
    differs from a valid one in exactly one symbol (the check symbol included),
    or by exchanging two different neighbouring symbols, is rejected with
    [RecoveryCodeError]. *)
Theorem recovery_code_detects_mistakes raw s t code :
  length raw = 20%nat ->
  (forall x y, full_code raw = s ++ x :: t -> x <> y -> clean code = s ++ y :: t ->
     normalize_recovery_code code = Err RecoveryCodeError) /\
  (forall x y, full_code raw = s ++ x :: y :: t -> x <> y -> clean code = s ++ y :: x :: t ->
     normalize_recovery_code code = Err RecoveryCodeError).
Proof.
  intros Hl.
  assert (check_cleaned (full_code raw) = Ok raw) as Hok
    by (apply check_cleaned_iff; split; [unfold zlen; lia|by left]).
  assert (length (full_code raw) = 33%nat) as Hn
    by (destruct (full_code_symbols raw Hl) as [-> _]; by rewrite length_map, length_app, enc32_length).
  destruct (check_cleaned_digits _ _ Hok Hn) as (ds & Eds & Hds).
  assert (forall u, clean code = u -> length u = 33%nat ->
    (forall ds', u = map csym (code_digits ds') -> Forall digit37 (code_digits ds') -> False) ->
    normalize_recovery_code code = Err RecoveryCodeError) as Hrej.
  { intros u <- Hu Hno. unfold normalize_recovery_code. destruct (check_cleaned (clean code)) as [raw'|e] eqn:E.
    - destruct (check_cleaned_digits _ _ E Hu) as (ds' & E' & Hd'). by destruct (Hno ds').
    - by apply check_cleaned_errors in E as ->. }
  split; intros x y E Hxy Hc; rewrite E in Hn; (eapply Hrej; [done|rewrite length_app in *; exact Hn|]);
    intros ds' E' Hd'; rewrite Eds in E.
  - symmetry in E'. apply map_csym_split in E as (s1 & x1 & t1 & E1 & -> & -> & ->).
    apply map_csym_split in E' as (s2 & x2 & t2 & E2 & Hs & -> & Ht). rewrite E1 in Hds. rewrite E2 in Hd'.
    apply Forall_split3 in Hds as (? & ? & ?). apply Forall_split3 in Hd' as (? & ? & ?).
    apply csyms_inj in Hs as <-; [|done..]. apply csyms_inj in Ht as <-; [|done..].
    apply Hxy. f_equal. apply (one_symbol ds ds' s1 x1 x2 t1); [rewrite E1|rewrite E2| |]; try done;
      apply Forall_app; (split; [done|by constructor]).
  - symmetry in E'. apply map_csym_split in E as (s1 & x1 & t1 & E1 & -> & -> & Et1).
    apply map_csym_split in E' as (s2 & y2 & t2 & E2 & Hs & Hy2 & Et2).
    destruct t1 as [|y1 t1]; [done|]. injection Et1 as -> ->. destruct t2 as [|x2 t2]; [done|]. injection Et2 as Hx2 Ht2.
    pose proof Hds as Hds1. rewrite E1 in Hds1. apply Forall_split3 in Hds1 as (? & ? & Hr1). inversion Hr1; subst.
    pose proof Hd' as Hd1. rewrite E2 in Hd1. apply Forall_split3 in Hd1 as (? & ? & Hr2). inversion Hr2; subst.
    apply csyms_inj in Hs as <-; [|done..]. apply csyms_inj in Ht2 as <-; [|done..].
    apply csym_inj in Hy2 as <-; [|done..]. apply csym_inj in Hx2 as <-; [|done..].
    apply Hxy. f_equal. by apply (two_symbols ds ds' s1 x1 y1 t1).
Qed.

Lemma recovery_code_detects_mistakes_witness :
  let raw := map z2b (seqZ 240 20) in
  normalize_recovery_code (py "Y3RZ5-WZMYQ-VFFY7-SZBXZ-SZFYZ-W0020-G31") = Err RecoveryCodeError /\
  normalize_recovery_code (py "3YRZ5-WZMYQ-VFFY7-SZBXZ-SZFYZ-W0020-G32") = Err RecoveryCodeError.
Proof.
  intros raw. split.
  - apply (proj1 (recovery_code_detects_mistakes raw (take 32 (full_code raw)) []
      (py "Y3RZ5-WZMYQ-VFFY7-SZBXZ-SZFYZ-W0020-G31") eq_refl) 50 49); vm_compute; [reflexivity|discriminate|reflexivity].
  - apply (proj2 (recovery_code_detects_mistakes raw [] (drop 2 (full_code raw))
      (py "3YRZ5-WZMYQ-VFFY7-SZBXZ-SZFYZ-W0020-G32") eq_refl) 89 51); vm_compute; [reflexivity|discriminate|reflexivity].
Defined.
