(* ===== verification/Peer.v ===== *)
(** * peer.py: the connection manager

    The read loop of a connection as a function of the bytes the peer sends and of
    the faults its turns meet, sending with the exception [drain] may raise, and
    the connection table as a state machine whose steps are the program's
    operations between two suspension points: an outgoing connection is checked
    before it is opened and registered after, and other operations may run in
    between. *)

From S2P Require Import Prelude PyStr Json JsonFacts Frame FileData Messages.
From stdpp Require Import base gmap strings list option relations.
From Stdlib Require Import ZArith Lia.

Open Scope Z_scope.

Definition MAX_CONNECTIONS : Z := 64.

(** ** The read loop *)

(** What subscribers receive: a validated JSON message, or a decoded file_data
    frame (to which the code adds the type field). *)
Inductive net_message : Type :=
  | NJson (message : dict)
  | NFileData (message : file_data).

(** What can go wrong in a turn besides the bytes that arrive: the transport
    fails while the frame is awaited ([ConnectionResetError] and other errors of
    the system), or the text of a JSON frame is nested so deeply that
    [json.loads] hits the interpreter's recursion limit. *)
Inductive read_fault : Type :=
  | TransportFailed (e : exn)
  | RecursionExceeded.

Definition await_frame (fault : option read_fault) (reader : bytes) : result (frame * bytes) :=
  match fault with
  | None => read_any_frame reader
  | Some (TransportFailed e) => Err e
  | Some RecursionExceeded =>
      let* (kp, reader) := read_raw reader in
      match kp with
      | (KJson, payload) =>
          match utf8_decode payload with
          | Ok _ => Err RecursionError
          | Err _ => Err ProtocolError
          end
      | (KBinary, payload) => Ok (FBinary payload, reader)
      end
  end.

(** One turn of the loop up to the dispatch. *)
Definition next_message (fault : option read_fault) (reader : bytes) : result (net_message * bytes) :=
  let* (f, reader) := await_frame fault reader in
  match f with
  | FJson payload =>
      let* m := validate_message payload in
      match m with
      | JObj d => Ok (NJson d, reader)
      | _ => Err ProtocolError
      end
  | FBinary payload => let* m := decode_file_data payload in Ok (NFileData m, reader)
  end.

(** The messages dispatched and the exception that ends the loop. [on_message]
    is the dispatch: event-bus publication never raises, a callback may;
    [faults] gives the fault of each turn. Every turn consumes a frame, so the
    length of the input bounds the turns. *)
Fixpoint read_loop (on_message : net_message -> result unit) (faults : nat -> option read_fault) (turn fuel : nat)
    (reader : bytes) : list net_message * exn :=
  match fuel with
  | O => ([], IncompleteReadError)
  | S fuel =>
      match next_message (faults turn) reader with
      | Err e => ([], e)
      | Ok (m, reader) =>
          match on_message m with
          | Err e => ([m], e)
          | Ok _ => let '(ms, e) := read_loop on_message faults (S turn) fuel reader in (m :: ms, e)
          end
      end
  end.

Definition run_read_loop (on_message : net_message -> result unit) (faults : nat -> option read_fault) (reader : bytes)
    : list net_message * exn :=
  read_loop on_message faults 0 (S (length reader)) reader.

Definition no_faults : nat -> option read_fault := fun _ => None.

(** The except clauses: a closed or malformed connection ends quietly. *)
Definition loop_exception (e : exn) : option exn :=
  match e with
  | IncompleteReadError | ConnectionResetError | ProtocolError => None
  | e => Some e
  end.

(** ** The connection table *)

Inductive conn_event : Type :=
  | PeerConnected (addr_key : pystr) (incoming : bool)
  | PeerDisconnected (addr_key : pystr).

(** A connection object is identified by a number; [written] is what was queued
    on its writer. *)
Record ConnectionManager : Type := Conns {
  max_connections : Z;
  connections : gmap pystr nat;
  closed : gset nat;
  written : gmap nat bytes;
  conn_events : list conn_event
}.

Definition new_connection_manager (max_connections : Z) : ConnectionManager := Conns max_connections ∅ ∅ ∅ [].

Definition count (m : ConnectionManager) : Z := Z.of_nat (size (connections m)).

Definition close_writer (cid : nat) (m : ConnectionManager) : ConnectionManager :=
  Conns (max_connections m) (connections m) ({[cid]} ∪ closed m) (written m) (conn_events m).

Definition add_connection (addr_key : pystr) (cid : nat) (incoming : bool) (m : ConnectionManager) : ConnectionManager :=
  Conns (max_connections m) (<[addr_key := cid]> (connections m)) (closed m) (written m)
    (conn_events m ++ [PeerConnected addr_key incoming]).

(** [_handle_incoming] up to the read loop; [true] when it goes on to it. *)
Definition handle_incoming (addr_key : pystr) (cid : nat) (m : ConnectionManager) : bool * ConnectionManager :=
  if max_connections m <=? count m then (false, close_writer cid m)
  else (true, add_connection addr_key cid true m).

(** [connect_to] before the network call: [Ok true] when already connected,
    [Ok false] when the connection is to be opened. *)
Definition connect_check (addr_key : pystr) (m : ConnectionManager) : result bool :=
  if bool_decide (is_Some (connections m !! addr_key)) then Ok true
  else if max_connections m <=? count m then Err ConnectionLimitError
  else Ok false.

(** [connect_to] after the network call succeeded. *)
Definition connect_register (addr_key : pystr) (cid : nat) (m : ConnectionManager) : ConnectionManager :=
  add_connection addr_key cid false m.

(** The [finally] clause of [_read_loop]. *)
Definition read_loop_end (addr_key : pystr) (cid : nat) (m : ConnectionManager) : ConnectionManager :=
  Conns (max_connections m) (delete addr_key (connections m)) ({[cid]} ∪ closed m) (written m)
    (conn_events m ++ [PeerDisconnected addr_key]).

(** The common part of [send] and [send_binary]. [drain] is the exception the
    drain raises, if any: one that tells that the peer is gone is caught, any
    other (a timeout or an unreachable host the system reports, say) escapes and
    leaves the table as it is. The bytes queued before it are never sent. *)
Definition send_frame (encoded : result bytes) (addr_key : pystr) (drain : option exn) (m : ConnectionManager)
    : result bool * ConnectionManager :=
  match connections m !! addr_key with
  | None => (Ok false, m)
  | Some cid =>
      match encoded with
      | Err e => (Err e, m)
      | Ok f =>
          match drain with
          | None => (Ok true, Conns (max_connections m) (connections m) (closed m)
                      (<[cid := default [] (written m !! cid) ++ f]> (written m)) (conn_events m))
          | Some (ConnectionResetError | BrokenPipeError) =>
              (Ok false, Conns (max_connections m) (delete addr_key (connections m)) (closed m) (written m) (conn_events m))
          | Some e => (Err e, m)
          end
      end
  end.

Definition send (addr_key : pystr) (message : dict) (drain : option exn) (m : ConnectionManager)
    : result bool * ConnectionManager :=
  send_frame (encode_frame (JObj message)) addr_key drain m.
Definition send_binary (addr_key : pystr) (payload : bytes) (drain : option exn) (m : ConnectionManager)
    : result bool * ConnectionManager :=
  send_frame (encode_binary_frame payload) addr_key drain m.

Definition is_connected (addr_key : pystr) (m : ConnectionManager) : bool :=
  bool_decide (is_Some (connections m !! addr_key)).

Definition close_all (m : ConnectionManager) : ConnectionManager :=
  Conns (max_connections m) ∅ (list_to_set (map snd (map_to_list (connections m))) ∪ closed m) (written m) (conn_events m).

(** ** Facts: the read loop *)

(** A message that comes out of the loop was read, and validated or decoded. *)
Definition admissible (m : net_message) : Prop :=
  match m with
  | NJson d => validate_message (JObj d) = Ok (JObj d)
  | NFileData d => exists payload, decode_file_data payload = Ok d
  end.

Lemma validate_message_id m m' : validate_message m = Ok m' -> m' = m /\ exists d, m = JObj d.
Proof.
  intros H. pose proof (validate_message_outcome m) as H2. rewrite H in H2. destruct H2 as [Hs ->].
  split; [done|]. destruct m; try done. eauto.
Qed.

(** Every frame takes bytes, and the integers of a JSON frame can be formatted. *)
Lemma await_frame_cases fault reader :
  match await_frame fault reader with
  | Ok (f, rest) => (length rest < length reader)%nat /\ forall m, f = FJson m -> ints_printable m = true
  | Err e => e = IncompleteReadError \/ e = ProtocolError \/ e = ValueError \/
      fault = Some RecursionExceeded /\ e = RecursionError \/ fault = Some (TransportFailed e)
  end.
Proof.
  destruct fault as [[e|]|]; cbn [await_frame]; [auto 10| |].
  - destruct (read_raw reader) as [[[k p] rest]|e] eqn:E; cbn [rbind].
    + apply read_raw_ok in E as (h & -> & Hh & Hp). destruct k; [destruct (utf8_decode p); auto 10|].
      split; [unfold zlen in *; rewrite !length_app; lia|done].
    + pose proof (read_any_frame_cases reader) as Hs. unfold read_any_frame in Hs. rewrite E in Hs. cbn [rbind] in Hs. tauto.
  - pose proof (read_any_frame_cases reader) as Hs. destruct (read_any_frame reader) as [[f rest]|e] eqn:E; [|tauto].
    destruct Hs as (header & payload & -> & Hh & Hp & _). split; [unfold zlen in *; rewrite !length_app; lia|].
    intros m ->. by eapply read_any_frame_ints.
Qed.

Lemma next_message_ok fault reader m rest :
  next_message fault reader = Ok (m, rest) -> admissible m /\ (length rest < length reader)%nat.
Proof.
  unfold next_message. intros ([f r] & Hf & H)%rbind_ok.
  pose proof (await_frame_cases fault reader) as Hs. rewrite Hf in Hs. destruct Hs as [Hs _].
  destruct f as [j|p]; apply rbind_ok in H as (x & Hx & H).
  - pose proof (validate_message_id _ _ Hx) as [-> [d ->]]. apply Ok_inj in H. injection H as <- ->. done.
  - apply Ok_inj in H. injection H as <- ->. split; [by exists p|done].
Qed.

Lemma next_message_errors fault reader e :
  next_message fault reader = Err e -> e = IncompleteReadError \/ e = ProtocolError \/ e = ValueError \/
    fault = Some RecursionExceeded /\ e = RecursionError \/ fault = Some (TransportFailed e).
Proof.
  unfold next_message. pose proof (await_frame_cases fault reader) as Hs.
  destruct (await_frame fault reader) as [[f r]|e']; cbn [rbind]; [|by intros [=<-]].
  destruct f as [j|p].
  - destruct (validate_message j) as [m|e'] eqn:Ev; cbn [rbind].
    + pose proof (validate_message_id _ _ Ev) as [-> [d ->]]. done.
    + intros [=<-]. rewrite validate_message_cases in Ev by by apply Hs. destruct (schema_ok j); [done|].
      injection Ev as <-. auto.
  - unfold decode_file_data. destruct (_ <? _); cbn; intros [=<-]. auto.
Qed.

(** The loop's big-step meaning: messages are dispatched one after another until
    reading or dispatching raises. *)
Inductive loops (on_message : net_message -> result unit) (faults : nat -> option read_fault)
    : nat -> bytes -> list net_message -> exn -> Prop :=
  | loops_read turn reader e : next_message (faults turn) reader = Err e -> loops on_message faults turn reader [] e
  | loops_handler turn reader m rest e :
      next_message (faults turn) reader = Ok (m, rest) -> on_message m = Err e -> loops on_message faults turn reader [m] e
  | loops_next turn reader m rest ms e :
      next_message (faults turn) reader = Ok (m, rest) -> on_message m = Ok tt -> loops on_message faults (S turn) rest ms e ->
      loops on_message faults turn reader (m :: ms) e.

Lemma read_loop_loops on_message faults turn fuel reader :
  (length reader < fuel)%nat ->
  let r := read_loop on_message faults turn fuel reader in loops on_message faults turn reader (fst r) (snd r).
Proof.
  revert turn reader. induction fuel as [|fuel IH]; intros turn reader Hf; [lia|]. cbn [read_loop].
  destruct (next_message (faults turn) reader) as [[m rest]|e] eqn:En; [|by apply loops_read].
  destruct (on_message m) as [[]|e] eqn:Em; [|by eapply loops_handler].
  destruct (next_message_ok _ _ _ _ En) as [_ Hl]. specialize (IH (S turn) rest ltac:(lia)).
  destruct (read_loop on_message faults (S turn) fuel rest) as [ms e]. by eapply loops_next.
Qed.

(** How a run of the loop ends. *)
Lemma loops_end on_message faults turn reader ms e :
  loops on_message faults turn reader ms e -> Forall admissible ms /\
  (e = IncompleteReadError \/ e = ProtocolError \/ e = ValueError \/
   faults (turn + length ms)%nat = Some RecursionExceeded /\ e = RecursionError \/
   faults (turn + length ms)%nat = Some (TransportFailed e) \/
   exists m, list.last ms = Some m /\ on_message m = Err e).
Proof.
  induction 1 as [turn reader e He|turn reader m rest e Hm He|turn reader m rest ms e Hm Ho _ [IH1 IH2]].
  - split; [constructor|]. apply next_message_errors in He. cbn [length]. rewrite Nat.add_0_r. tauto.
  - split; [|eauto 8]. constructor; [|constructor]. by eapply next_message_ok.
  - split; [constructor; [by eapply next_message_ok|done]|]. cbn [length]. rewrite <- Nat.add_succ_comm.
    destruct IH2 as [?|[?|[?|[?|[?|(m' & Hlast & Hh)]]]]]; [tauto..|]. do 5 right. exists m'. split; [|done].
    by destruct ms.
Qed.

(** ** Facts: the table *)

(** The manager together with what the event loop holds: connects in progress
    and running read loops, by connection number. *)
Record pstate : Type := PState {
  ps_mgr : ConnectionManager;
  ps_opening : list pystr;
  ps_loops : gmap nat pystr;
  ps_next : nat
}.

Inductive pstep : pstate -> pstate -> Prop :=
  | p_incoming addr m op lp n : handle_incoming addr n m = (true, add_connection addr n true m) ->
      pstep (PState m op lp n) (PState (add_connection addr n true m) op (<[n := addr]> lp) (S n))
  | p_refused addr m op lp n : handle_incoming addr n m = (false, close_writer n m) ->
      pstep (PState m op lp n) (PState (close_writer n m) op lp (S n))
  | p_connect addr m op lp n : connect_check addr m = Ok false ->
      pstep (PState m op lp n) (PState m (addr :: op) lp n)
  | p_connected addr m op1 op2 lp n :
      pstep (PState m (op1 ++ addr :: op2) lp n)
            (PState (connect_register addr n m) (op1 ++ op2) (<[n := addr]> lp) (S n))
  | p_connect_failed addr m op1 op2 lp n :
      pstep (PState m (op1 ++ addr :: op2) lp n) (PState m (op1 ++ op2) lp n)
  | p_loop_end cid addr m op lp n : lp !! cid = Some addr ->
      pstep (PState m op lp n) (PState (read_loop_end addr cid m) op (delete cid lp) n)
  | p_send addr encoded drain m op lp n :
      pstep (PState m op lp n) (PState (snd (send_frame encoded addr drain m)) op lp n)
  | p_close_all m op lp n : pstep (PState m op lp n) (PState (close_all m) op lp n).

(** Every registered address leads to an open connection to that address whose
    read loop runs. *)
Definition table_ok (s : pstate) : Prop :=
  (forall addr cid, connections (ps_mgr s) !! addr = Some cid -> ps_loops s !! cid = Some addr /\ cid ∉ closed (ps_mgr s)) /\
  (forall cid, is_Some (ps_loops s !! cid) \/ cid ∈ closed (ps_mgr s) -> (cid < ps_next s)%nat).

Lemma table_ok_add addr incoming m op op' lp n :
  table_ok (PState m op lp n) -> table_ok (PState (add_connection addr n incoming m) op' (<[n := addr]> lp) (S n)).
Proof.
  intros [H1 H2]. split; cbn in *.
  - intros a cid [[<- <-]|[Ha Hc]]%lookup_insert_Some.
    + rewrite lookup_insert_eq. split; [done|]. intros Hc. specialize (H2 n (or_intror Hc)). lia.
    + apply H1 in Hc as [Hl Hn]. assert (n <> cid) by (intros <-; specialize (H2 n (or_introl (ex_intro _ _ Hl))); lia).
      by rewrite lookup_insert_ne.
  - intros cid [[a [[<- _]|[_ Hl]]%lookup_insert_Some]|Hc]; [lia| |].
    + specialize (H2 cid (or_introl (ex_intro _ _ Hl))). lia.
    + specialize (H2 cid (or_intror Hc)). lia.
Qed.

Lemma table_ok_fewer m m' op op' lp n :
  table_ok (PState m op lp n) -> closed m' = closed m ->
  (forall a c, connections m' !! a = Some c -> connections m !! a = Some c) -> table_ok (PState m' op' lp n).
Proof. intros [H1 H2] Hc Hs. split; cbn in *; rewrite Hc; [|done]. intros a c Ha. by apply H1, Hs. Qed.

Lemma table_ok_step s s' : table_ok s -> pstep s s' -> table_ok s'.
Proof.
  intros Hok Hs. inversion Hs; subst.
  - by eapply table_ok_add.
  - destruct Hok as [H1 H2]. split; cbn in *.
    + intros a c Ha. destruct (H1 _ _ Ha) as [Hl Hn]. split; [done|]. rewrite not_elem_of_union, not_elem_of_singleton.
      split; [|done]. intros ->. specialize (H2 n (or_introl (ex_intro _ _ Hl))). lia.
    + intros c [Hl|Hc]; [specialize (H2 c (or_introl Hl)); lia|].
      apply elem_of_union in Hc as [->%elem_of_singleton|Hc]; [lia|]. specialize (H2 c (or_intror Hc)). lia.
  - by eapply table_ok_fewer.
  - by eapply table_ok_add.
  - by eapply table_ok_fewer.
  - destruct Hok as [H1 H2]. split; cbn in *.
    + intros a c [Ha Hc]%lookup_delete_Some. destruct (H1 _ _ Hc) as [Hl Hn].
      assert (c <> cid) by (intros ->; congruence). rewrite lookup_delete_ne by done. set_solver.
    + intros c [[a [_ Hl]%lookup_delete_Some]|Hc]; [apply H2; left; eauto|].
      apply elem_of_union in Hc as [->%elem_of_singleton|Hc]; apply H2; [left; eauto|by right].
  - eapply table_ok_fewer; [done|..]; unfold send_frame; repeat case_match; cbn; try done;
      intros a' c' [_ Ha']%lookup_delete_Some; done.
  - destruct Hok as [H1 H2]. split; cbn in *; [done|]. intros c [Hl|Hc]; [apply H2; by left|].
    apply elem_of_union in Hc as [Hc|Hc]; [|apply H2; by right].
    apply elem_of_list_to_set, list_elem_of_In, in_map_iff in Hc as ([a c'] & <- & Hin).
    apply list_elem_of_In, elem_of_map_to_list in Hin. apply H1 in Hin as [Hl _]. apply H2. left. eauto.
Qed.

(** ** Properties *)

(** What an application sends on a connection. *)
Inductive outgoing : Type :=
  | OJson (message : dict)
  | OBinary (payload : bytes).

Definition send_one (o : outgoing) (addr : pystr) (m : ConnectionManager) : result bool * ConnectionManager :=
  match o with
  | OJson d => send addr d None m
  | OBinary p => send_binary addr p None m
  end.
Fixpoint send_each (os : list outgoing) (addr : pystr) (m : ConnectionManager) : list (result bool) * ConnectionManager :=
  match os with
  | [] => ([], m)
  | o :: os => let '(r, m) := send_one o addr m in let '(rs, m) := send_each os addr m in (r :: rs, m)
  end.

Definition as_frame (o : outgoing) : frame :=
  match o with
  | OJson d => FJson (JObj d)
  | OBinary p => FBinary p
  end.

(** [o] fits a frame and the receiver understands it as [n]. *)
Definition carries (o : outgoing) (n : net_message) : Prop :=
  frame_ok (as_frame o) = true /\
  match o, n with
  | OJson d, NJson d' => d' = d /\ schema_ok (JObj d) = true
  | OBinary p, NFileData fd => decode_file_data p = Ok fd
  | _, _ => False
  end.

Lemma carried_message o n bs rest :
  carries o n -> encode_any (as_frame o) = Ok bs -> next_message None (bs ++ rest) = Ok (n, rest).
Proof.
  intros [Hf Hn] He. unfold next_message. cbn [await_frame]. rewrite (read_encoded _ _ _ Hf He). cbn [rbind].
  destruct o as [d|p], n as [d'|fd]; try done; cbn [as_frame].
  - destruct Hn as [-> Hs]. by rewrite validate_message_accepts.
  - by rewrite Hn.
Qed.

Lemma frame_ok_encodes f : frame_ok f = true -> exists bs, encode_any f = Ok bs.
Proof. destruct f; intros Hf; cbn [encode_any]; [rewrite encode_frame_ok by done|cbn in Hf; zbool; rewrite encode_binary_frame_ok by done]; eauto. Qed.

(** The bytes queued on connection [cid]. *)
Definition queued (m : ConnectionManager) (cid : nat) : bytes := default [] (written m !! cid).

Lemma send_each_ok os ns : Forall2 carries os ns -> forall addr cid m,
  connections m !! addr = Some cid ->
  exists w m', send_each os addr m = (map (fun _ => Ok true) os, m') /\ queued m' cid = queued m cid ++ w /\
    forall turn fuel, (length os < fuel)%nat -> read_loop (fun _ => Ok tt) no_faults turn fuel w = (ns, IncompleteReadError).
Proof.
  induction 1 as [|o n os ns Hc _ IH]; intros addr cid m Hm.
  - exists [], m. rewrite app_nil_r. split_and!; [done|done|]. intros turn [|fuel] Hf; [done|]. done.
  - destruct (frame_ok_encodes _ (proj1 Hc)) as [bs Hbs].
    assert (send_one o addr m = (Ok true, Conns (max_connections m) (connections m) (closed m)
      (<[cid := queued m cid ++ bs]> (written m)) (conn_events m))) as Hs
      by (destruct o; cbn in *; unfold send, send_binary, send_frame; by rewrite Hm, Hbs).
    cbn [send_each]. rewrite Hs. set (m1 := Conns _ _ _ _ _).
    destruct (IH addr cid m1 Hm) as (w & m' & -> & Hq & Hl).
    exists (bs ++ w), m'. split_and!; [done| |].
    + rewrite Hq. unfold queued, m1. cbn. rewrite lookup_insert_eq. cbn. by rewrite app_assoc.
    + intros turn [|fuel] Hf; [cbn in Hf; lia|]. cbn [read_loop]. change (no_faults turn) with (@None read_fault). rewrite (carried_message _ _ _ _ Hc Hbs).
      rewrite Hl; [done|cbn in Hf; lia].
Qed.

(** C38: the connection manager delivers. Messages sent on a registered connection
    are all reported sent, and the read loop at the other end of the stream
    dispatches exactly those messages, validated or decoded, in order, and then
    ends quietly when the stream ends. (The drains succeed and no turn of the
    loop has a fault.) *)
Theorem connection_delivers os ns addr cid m fuel :
  Forall2 carries os ns -> connections m !! addr = Some cid -> queued m cid = [] -> (length os < fuel)%nat ->
  exists m', send_each os addr m = (map (fun _ => Ok true) os, m') /\
    read_loop (fun _ => Ok tt) no_faults 0 fuel (queued m' cid) = (ns, IncompleteReadError) /\
    loop_exception IncompleteReadError = None.
Proof.
  intros Hc Hm Hq Hf. destruct (send_each_ok _ _ Hc addr cid m Hm) as (w & m' & Hs & Hq' & Hl).
  exists m'. rewrite Hq', Hq. split_and!; [done|by apply Hl|done].
Qed.

Lemma connection_delivers_witness :
  let m := add_connection (py "h:1") 7 true (new_connection_manager 64) in
  let d := make_file_done (py "t") (py "c") in
  let p := replicate 16 (z2b 0) ++ be_encode 4 3 ++ be_encode 8 9 ++ pyb "xy" in
  exists m' fd, send_each [OJson d; OBinary p] (py "h:1") m = ([Ok true; Ok true], m') /\
    read_loop (fun _ => Ok tt) no_faults 0 3 (queued m' 7) = ([NJson d; NFileData fd], IncompleteReadError).
Proof.
  intros m d p. destruct (decode_file_data p) as [fd|e] eqn:Ed; [|apply (f_equal is_ok) in Ed; vm_compute in Ed; discriminate Ed].
  destruct (connection_delivers [OJson d; OBinary p] [NJson d; NFileData fd] (py "h:1") 7 m 3) as (m' & H1 & H2 & _).
  - constructor; [|constructor; [|constructor]].
    + split; [vm_compute; reflexivity|]. split; [reflexivity|]. vm_compute. reflexivity.
    + split; [vm_compute; reflexivity|exact Ed].
  - vm_compute. reflexivity.
  - reflexivity.
  - vm_compute. lia.
  - exists m', fd. split; [exact H1|exact H2].
Defined.

(** C39: the read loop is safe on arbitrary input. Whatever bytes arrive and
    whatever faults the turns meet, the loop terminates having dispatched
    messages one by one as its source prescribes ([loops]), and every dispatched
    message passed validation or decoding. It ends because a handler raised on
    the last message; or because in the turn after the last message the stream
    ended ([IncompleteReadError]), the frame was malformed ([ProtocolError]), held
    an integer too long to convert ([ValueError]) or was nested too deeply
    ([RecursionError]), or the transport failed, in which case it ends with the
    transport's exception. The first two, and a [ConnectionResetError], are handled;
    every other exception leaves the loop. *)
Theorem read_loop_sound on_message faults reader :
  let '(ms, e) := run_read_loop on_message faults reader in
  loops on_message faults 0 reader ms e /\ Forall admissible ms /\
  (e = IncompleteReadError \/ e = ProtocolError \/ e = ValueError \/
   faults (length ms) = Some RecursionExceeded /\ e = RecursionError \/
   faults (length ms) = Some (TransportFailed e) \/
   exists m, list.last ms = Some m /\ on_message m = Err e) /\
  (loop_exception e = None <-> e = IncompleteReadError \/ e = ProtocolError \/ e = ConnectionResetError).
Proof.
  pose proof (read_loop_loops on_message faults 0 (S (length reader)) reader ltac:(lia)) as Hl.
  unfold run_read_loop. destruct (read_loop _ _ _ _ _) as [ms e]. cbn [fst snd] in Hl. split; [done|].
  apply loops_end in Hl as [Hm He]. split; [done|]. split; [done|]. destruct e; cbn; naive_solver.
Qed.

(** The connection table never leads to a dead connection. However incoming
    and outgoing connections, failures, sends, read-loop ends and close_all
    interleave, every address in the table is that of an open connection to
    that address whose read loop is running. *)
Theorem connection_table_sound max s :
  rtc pstep (PState (new_connection_manager max) [] ∅ 0) s ->
  forall addr cid, connections (ps_mgr s) !! addr = Some cid ->
    ps_loops s !! cid = Some addr /\ cid ∉ closed (ps_mgr s).
Proof.
  intros Hr. assert (table_ok s) as [H _]; [|exact H].
  refine (rtc_ind_r table_ok _ _ _ s Hr); [by split; cbn; [done|intros c [[? ?]|?]]|].
  intros s1 s2 _ Hs Hok. by eapply table_ok_step.
Qed.

Lemma connection_table_sound_witness :
  let m := add_connection (py "h:1") 0 true (new_connection_manager 64) in
  connections m !! py "h:1" = Some 0%nat /\ 0%nat ∉ closed m.
Proof.
  intros m. split; [vm_compute; reflexivity|].
  refine (proj2 (connection_table_sound 64 (PState m [] (<[0%nat := py "h:1"]> ∅) 1) _ (py "h:1") 0%nat _)).
  - eapply rtc_l; [|apply rtc_refl]. apply (p_incoming (py "h:1") (new_connection_manager 64) [] ∅ 0).
    vm_compute. reflexivity.
  - vm_compute. reflexivity.
Defined.

(** Checking before the network call does not bound the table. With room for
    one connection, two outgoing connections started together are both
    registered; and when two to the same address overlap, the end of the first
    one's read loop removes the second, which stays open but can no longer be
    sent to. *)
Theorem overlapping_connects_break_table :
  let m0 := new_connection_manager 1 in
  let a := py "h:1" in let b := py "h:2" in
  connect_check a m0 = Ok false /\ connect_check b m0 = Ok false /\
  (let m := connect_register b 1 (connect_register a 0 m0) in max_connections m < count m) /\
  (let m := read_loop_end a 0 (connect_register a 1 (connect_register a 0 m0)) in
   is_connected a m = false /\ (1%nat ∉ closed m) /\ fst (send a [] None m) = Ok false).
Proof.
  intros m0 a b. split; [reflexivity|]. split; [reflexivity|]. split; [vm_compute; reflexivity|].
  split; [vm_compute; reflexivity|]. split; [|vm_compute; reflexivity].
  cbn. rewrite not_elem_of_union, not_elem_of_singleton. split; [done|apply not_elem_of_empty].
Qed.
