(* ===== verification/Chat.v ===== *)
(** * chat.py: chat messages with delivery tracking

    A session tracks the messages it sent until they are acknowledged, time out
    or cannot be sent; one whose send raised stays tracked. [send_chat] is split where it awaits the connection, so
    that acknowledgements and timeouts may be processed in between. *)

From S2P Require Import Prelude PyStr PyFloat Json Messages.
From stdpp Require Import base gmap strings list option relations.
From Stdlib Require Import ZArith Lia.

Open Scope Z_scope.

(** ** The session *)

Inductive cstatus : Type := Sent | Delivered | Failed.
#[export] Instance cstatus_eq_dec : EqDecision cstatus.
Proof. solve_decision. Defined.

(** [sm_timer]: whether [timeout_task] is set. *)
Record SentMessageState : Type := SentMessage {
  sm_addr_key : pystr;
  sm_status : cstatus;
  sm_timer : bool
}.

(** A status notification: message, new status, address. *)
Abbreviation notice := (pystr * cstatus * pystr)%type.

Record ChatSession : Type := Chat {
  pending : gmap pystr SentMessageState;
  notices : list notice
}.

Definition new_chat_session : ChatSession := Chat ∅ [].

Definition notify_status (message_id : pystr) (status : cstatus) (addr_key : pystr) (s : ChatSession) : ChatSession :=
  Chat (pending s) (notices s ++ [(message_id, status, addr_key)]).

(** Whether a JSON value can be a dictionary key. *)
Definition hashable (v : json) : bool :=
  match v with
  | JList _ | JObj _ => false
  | _ => true
  end.

(** [_handle_ack]; the message whose timeout task is cancelled, if any. *)
Definition handle_ack (message : dict) (s : ChatSession) : result (option pystr * ChatSession) :=
  let message_id := default JNull (dict_get (py "message_id") message) in
  guard hashable message_id else TypeError ;;
  match message_id with
  | JStr mid =>
      match pending s !! mid with
      | None => Ok (None, s)
      | Some state =>
          let cancelled := (if sm_timer state then Some mid else None) in
          Ok (cancelled, notify_status mid Delivered (sm_addr_key state) (Chat (delete mid (pending s)) (notices s)))
      end
  | _ => Ok (None, s)
  end.

(** [_timeout_watcher] after its sleep. *)
Definition timeout_expired (message_id : pystr) (s : ChatSession) : ChatSession :=
  match pending s !! message_id with
  | None => s
  | Some state => notify_status message_id Failed (sm_addr_key state) (Chat (delete message_id (pending s)) (notices s))
  end.

(** [send_chat] up to the call of [manager.send]: the message, and whether that
    call is made. [new_id] is the message id drawn by the factory. *)
Definition send_chat_begin (new_id : pystr) (now : pyfloat) (addr_key sender_id sender_name text : pystr) (s : ChatSession)
    : dict * bool * ChatSession :=
  let message := make_chat_message new_id now sender_id sender_name text in
  if MAX_CHAT_TEXT_SIZE <? zlen (utf8_encode_replace text)
  then (message, false, notify_status new_id Failed addr_key s)
  else (message, true, Chat (<[new_id := SentMessage addr_key Sent false]> (pending s)) (notices s)).

(** [send_chat] after [manager.send] returned or raised; [Ok true] when a timeout
    task is started. Nothing catches an exception of [manager.send]: the message
    stays in [_pending] as it is. *)
Definition send_chat_end (message_id addr_key : pystr) (ok : result bool) (s : ChatSession) : result bool * ChatSession :=
  match ok with
  | Err e => (Err e, s)
  | Ok false => (Ok false, notify_status message_id Failed addr_key (Chat (delete message_id (pending s)) (notices s)))
  | Ok true =>
      match pending s !! message_id with
      | None => (Ok false, s)
      | Some state =>
          (Ok true, Chat (<[message_id := SentMessage (sm_addr_key state) (sm_status state) true]> (pending s)) (notices s))
      end
  end.

Definition get_status (message_id : pystr) (s : ChatSession) : option cstatus := sm_status <$> pending s !! message_id.

Record ChatReceived : Type := MkChatReceived {
  cr_addr_key : pystr;
  cr_sender_id : json;
  cr_sender_name : json;
  cr_text : json;
  cr_message_id : json;
  cr_raw_message : dict
}.

(** [_handle_incoming_chat]: the acknowledgement sent and the event published. *)
Definition handle_incoming_chat (now : pyfloat) (addr_key : pystr) (message : dict) : result (dict * ChatReceived) :=
  match dict_get (py "message_id") message with
  | None => Err KeyError
  | Some message_id =>
      let field := fun k => default (JStr []) (dict_get k message) in
      Ok (make_chat_ack now message_id,
          MkChatReceived addr_key (field (py "sender_id")) (field (py "sender_name")) (field (py "text"))
            (field (py "message_id")) message)
  end.

(** [_dispatch] and [_on_network_message]: what a message makes the session do;
    one of another type is left to the next handler. *)
Inductive dispatched : Type :=
  | Received (ack : dict) (ev : ChatReceived)
  | Acknowledged (cancelled : option pystr)
  | PassedOn.
Definition dispatch (now : pyfloat) (addr_key : pystr) (message : dict) (s : ChatSession) : result (dispatched * ChatSession) :=
  match dict_get (py "type") message with
  | Some (JStr t) =>
      if streq t (py "chat") then let* (ack, ev) := handle_incoming_chat now addr_key message in Ok (Received ack ev, s)
      else if streq t (py "chat_ack") then let* (cancelled, s) := handle_ack message s in Ok (Acknowledged cancelled, s)
      else Ok (PassedOn, s)
  | _ => Ok (PassedOn, s)
  end.

(** ** Interleavings *)

(** The session and what the event loop holds: [send_chat] calls waiting for the
    connection, running timeout tasks, the message ids drawn so far, and those
    for which [manager.send] raised. *)
Record world : Type := World {
  w_chat : ChatSession;
  w_sending : gmap pystr pystr;
  w_timers : gset pystr;
  w_used : gset pystr;
  w_raised : gset pystr
}.

Definition start : world := World new_chat_session ∅ ∅ ∅ ∅.

Inductive cstep : world -> world -> Prop :=
  | c_send mid now addr sid name text s sn tm us ra message sends s' :
      mid ∉ us -> send_chat_begin mid now addr sid name text s = (message, sends, s') ->
      cstep (World s sn tm us ra) (World s' (if sends then <[mid := addr]> sn else sn) tm ({[mid]} ∪ us) ra)
  | c_sent mid addr ok s sn tm us ra outcome s' :
      sn !! mid = Some addr -> send_chat_end mid addr ok s = (outcome, s') ->
      cstep (World s sn tm us ra)
        (World s' (delete mid sn)
           (match outcome with Ok true => {[mid]} ∪ tm | _ => tm end) us
           (match outcome with Err _ => {[mid]} ∪ ra | Ok _ => ra end))
  | c_ack message s sn tm us ra cancelled s' :
      handle_ack message s = Ok (cancelled, s') ->
      cstep (World s sn tm us ra)
        (World s' sn (match cancelled with Some mid => tm ∖ {[mid]} | None => tm end) us ra)
  | c_timeout mid s sn tm us ra :
      mid ∈ tm -> cstep (World s sn tm us ra) (World (timeout_expired mid s) sn (tm ∖ {[mid]}) us ra).

(** The statuses announced for a message, in order. *)
Definition history (mid : pystr) (ns : list notice) : list cstatus :=
  map (fun n => snd (fst n)) (List.filter (fun n => streq (fst (fst n)) mid) ns).

#[local] Arguments history : simpl never.

Lemma history_app mid ns mid' st addr :
  history mid (ns ++ [(mid', st, addr)]) = history mid ns ++ (if decide (mid' = mid) then [st] else []).
Proof.
  unfold history. rewrite List.filter_app, map_app. cbn. unfold streq. case_bool_decide; case_decide; done.
Qed.

(** Where one message stands. *)
Inductive stage (w : world) (mid : pystr) : Prop :=
  | st_fresh : mid ∉ w_used w -> pending (w_chat w) !! mid = None -> w_sending w !! mid = None -> mid ∉ w_timers w ->
      history mid (notices (w_chat w)) = [] -> stage w mid
  | st_sending addr : mid ∈ w_used w -> pending (w_chat w) !! mid = Some (SentMessage addr Sent false) ->
      w_sending w !! mid = Some addr -> mid ∉ w_timers w -> history mid (notices (w_chat w)) = [] -> stage w mid
  | st_waiting addr : mid ∈ w_used w -> pending (w_chat w) !! mid = Some (SentMessage addr Sent true) ->
      w_sending w !! mid = None -> mid ∈ w_timers w -> history mid (notices (w_chat w)) = [] -> stage w mid
  | st_early addr : mid ∈ w_used w -> pending (w_chat w) !! mid = None -> w_sending w !! mid = Some addr ->
      mid ∉ w_timers w -> history mid (notices (w_chat w)) = [Delivered] -> stage w mid
  | st_orphan addr : mid ∈ w_used w -> pending (w_chat w) !! mid = Some (SentMessage addr Sent false) ->
      w_sending w !! mid = None -> mid ∉ w_timers w -> history mid (notices (w_chat w)) = [] -> mid ∈ w_raised w -> stage w mid
  | st_done : mid ∈ w_used w -> pending (w_chat w) !! mid = None -> w_sending w !! mid = None -> mid ∉ w_timers w ->
      history mid (notices (w_chat w)) ∈ [[Delivered]; [Failed]; [Delivered; Failed]] -> stage w mid.

(** A step leaves the messages it is not about where they were. *)
Lemma stage_frame w w' mid :
  stage w mid ->
  pending (w_chat w') !! mid = pending (w_chat w) !! mid -> w_sending w' !! mid = w_sending w !! mid ->
  (mid ∈ w_timers w' <-> mid ∈ w_timers w) -> (mid ∈ w_used w' <-> mid ∈ w_used w) ->
  (mid ∈ w_raised w' <-> mid ∈ w_raised w) -> history mid (notices (w_chat w')) = history mid (notices (w_chat w)) -> stage w' mid.
Proof.
  intros Hs Hp Hsn Ht Hu Hr Hh.
  destruct Hs as [| | | | |];
    [eapply st_fresh|eapply st_sending|eapply st_waiting|eapply st_early|eapply st_orphan|eapply st_done];
    rewrite ?Hp, ?Hsn, ?Ht, ?Hu, ?Hr, ?Hh; done.
Qed.

Lemma stage_step w w' : (forall mid, stage w mid) -> cstep w w' -> forall mid, stage w' mid.
Proof.
  intros Hall Hs mid'. specialize (Hall mid') as Hst. inversion Hs as
    [mid now addr sid name text s sn tm us ra message sends s' Hm Hb|mid addr ok s sn tm us ra outcome s' Hm He
    |message s sn tm us ra cancelled s' Ha|mid s sn tm us ra Hm]; subst.
  - unfold send_chat_begin in Hb. destruct (_ <? _); injection Hb as <- <- <-.
    + destruct (decide (mid' = mid)) as [->|Hne].
      * destruct Hst; cbn in *; try done. apply st_done; cbn; [set_solver|done|done|done|].
        rewrite history_app, decide_True by done. replace (history mid (notices s)) with (@nil cstatus). set_solver.
      * apply (stage_frame _ _ _ Hst); cbn; [done|done|done|set_solver|done|].
        rewrite history_app, decide_False by done. apply app_nil_r.
    + destruct (decide (mid' = mid)) as [->|Hne].
      * destruct Hst; cbn in *; try done. apply (st_sending _ _ addr); cbn; rewrite ?lookup_insert_eq; set_solver.
      * apply (stage_frame _ _ _ Hst); cbn; rewrite ?lookup_insert_ne by done; set_solver.
  - unfold send_chat_end in He. destruct (decide (mid' = mid)) as [->|Hne].
    + destruct Hst as [| | | | |]; cbn in *; try congruence.
      * destruct ok as [[]|e]; [rewrite H0 in He| |]; injection He as <- <-.
        -- apply (st_waiting _ _ addr0); cbn; rewrite ?lookup_insert_eq, ?lookup_delete_eq; set_solver.
        -- apply st_done; cbn; rewrite ?lookup_delete_eq; try done.
           rewrite history_app, decide_True, H3 by done. set_solver.
        -- apply (st_orphan _ _ addr0); cbn; rewrite ?lookup_delete_eq; set_solver.
      * destruct ok as [[]|e]; [rewrite H0 in He| |]; injection He as <- <-.
        -- apply st_done; cbn; rewrite ?lookup_delete_eq; try done. rewrite H3. set_solver.
        -- apply st_done; cbn; rewrite ?lookup_delete_eq; try done.
           rewrite history_app, decide_True, H3 by done. set_solver.
        -- apply st_done; cbn; rewrite ?lookup_delete_eq; try done. rewrite H3. set_solver.
    + apply (stage_frame _ _ _ Hst); cbn; [|by rewrite lookup_delete_ne| |done| |];
        (destruct ok as [[]|e]; [destruct (pending s !! mid)| |]; injection He as <- <-); cbn;
        rewrite ?lookup_insert_ne, ?lookup_delete_ne, ?history_app, ?decide_False, ?app_nil_r by done; set_solver.
  - unfold handle_ack in Ha. destruct (hashable _); [|done].
    destruct (default JNull _) as [| | | |mid| |]; try (injection Ha as <- <-; exact Hst).
    destruct (pending s !! mid) as [state|] eqn:Ep; [|injection Ha as <- <-; exact Hst].
    injection Ha as <- <-. destruct (decide (mid' = mid)) as [->|Hne].
    + destruct Hst as [| | | | |]; cbn in *; try congruence; rewrite Ep in *; simplify_eq; cbn.
      * apply (st_early _ _ addr); cbn; rewrite ?lookup_delete_eq; try done.
        rewrite history_app, decide_True, H3 by done. done.
      * apply st_done; cbn; rewrite ?lookup_delete_eq; try done; [set_solver|].
        rewrite history_app, decide_True, H3 by done. set_solver.
      * apply st_done; cbn; rewrite ?lookup_delete_eq; try done.
        rewrite history_app, decide_True, H3 by done. set_solver.
    + apply (stage_frame _ _ _ Hst); cbn; rewrite ?lookup_delete_ne by done; try done.
      * destruct (sm_timer state); set_solver.
      * rewrite history_app, decide_False by done. apply app_nil_r.
  - unfold timeout_expired. destruct (decide (mid' = mid)) as [->|Hne].
    + destruct Hst as [| | | | |]; cbn in *; try done. rewrite H0.
      apply st_done; cbn; rewrite ?lookup_delete_eq; try done; [set_solver|].
      rewrite history_app, decide_True, H3 by done. set_solver.
    + apply (stage_frame _ _ _ Hst); destruct (pending s !! mid); cbn;
        rewrite ?lookup_delete_ne, ?history_app, ?decide_False, ?app_nil_r by done; set_solver.
Qed.

Lemma stage_start mid : stage start mid.
Proof. apply st_fresh; done. Qed.

Lemma stage_reachable w : rtc cstep start w -> forall mid, stage w mid.
Proof.
  intros Hr. refine (rtc_ind_r (fun w => forall mid, stage w mid) _ stage_start _ w Hr).
  intros w1 w2 _ Hs Hall. by apply (stage_step w1).
Qed.

(** ** Properties *)

(** C37: what becomes of a sent message. Over any interleaving of sends (that
    succeed, fail or raise), acknowledgements (of any content) and timeouts: a
    message still tracked has status "sent", was not announced, and is being
    sent, or guarded by a running timeout, or its [manager.send] raised; the
    announcements for a message are none, one "delivered", one "failed", or a
    "delivered" followed by a "failed"; a message no longer tracked was
    announced; and when nothing is in progress every message is resolved but
    those whose send raised ([raised_send_is_forgotten]: these need not be). *)
Theorem chat_messages_resolved w mid :
  rtc cstep start w ->
  match pending (w_chat w) !! mid with
  | Some st => sm_status st = Sent /\ history mid (notices (w_chat w)) = [] /\
      (w_sending w !! mid = Some (sm_addr_key st) \/ mid ∈ w_timers w \/ mid ∈ w_raised w)
  | None => (mid ∈ w_used w) -> history mid (notices (w_chat w)) ∈ [[Delivered]; [Failed]; [Delivered; Failed]]
  end /\
  (mid ∉ w_used w -> history mid (notices (w_chat w)) = []) /\
  (w_sending w = ∅ -> w_timers w = ∅ -> mid ∈ w_used w -> mid ∉ w_raised w ->
   pending (w_chat w) !! mid = None /\ history mid (notices (w_chat w)) ∈ [[Delivered]; [Failed]; [Delivered; Failed]]).
Proof.
  intros Hr. destruct (stage_reachable w Hr mid) as [Hu Hp Hs Ht Hh|addr Hu Hp Hs Ht Hh|addr Hu Hp Hs Ht Hh|addr Hu Hp Hs Ht Hh
    |addr Hu Hp Hs Ht Hh Hra|Hu Hp Hs Ht Hh];
    rewrite Hp, Hh || rewrite Hp; (split; [|split]); try done; try (by auto 10).
  - intros E. by rewrite E, lookup_empty in Hs.
  - intros _ E. rewrite E in Ht. set_solver.
  - intros _. set_solver.
  - intros E. by rewrite E, lookup_empty in Hs.
Qed.

Lemma chat_messages_resolved_witness :
  exists w, rtc cstep start w /\ history (py "m") (notices (w_chat w)) = [Delivered] /\
    history (py "m") (notices (w_chat w)) ∈ [[Delivered]; [Failed]; [Delivered; Failed]].
Proof.
  set (b := send_chat_begin (py "m") (float_of_int 1) (py "h:1") (py "i") (py "n") (py "hi") new_chat_session).
  set (s1 := snd b). set (s2 := snd (send_chat_end (py "m") (py "h:1") (Ok true) s1)).
  set (ack := make_chat_ack (float_of_int 2) (JStr (py "m"))).
  destruct (handle_ack ack s2) as [[c s3]|e] eqn:Ea; [|vm_compute in Ea; discriminate Ea].
  set (w := World s3 (delete (py "m") (<[py "m" := py "h:1"]> ∅))
    (match c with Some mid => ({[py "m"]} ∪ ∅) ∖ {[mid]} | None => {[py "m"]} ∪ ∅ end) ({[py "m"]} ∪ ∅) ∅).
  assert (rtc cstep start w) as Hr.
  { eapply rtc_l; [apply (c_send (py "m") (float_of_int 1) (py "h:1") (py "i") (py "n") (py "hi") _ _ _ _ _ (fst (fst b)) true s1);
      [apply not_elem_of_empty|vm_compute; reflexivity]|].
    eapply rtc_l; [apply (c_sent (py "m") (py "h:1") (Ok true) _ _ _ _ _ (Ok true) s2);
      [apply lookup_insert_eq|vm_compute; reflexivity]|].
    eapply rtc_l; [apply (c_ack ack _ _ _ _ _ c s3); exact Ea|]. apply rtc_refl. }
  pose proof (chat_messages_resolved w (py "m") Hr) as [H1 _].
  assert (pending s3 !! py "m" = None /\ history (py "m") (notices s3) = [Delivered]) as [Hp Hh].
  { vm_compute in Ea. injection Ea as <- <-. split; vm_compute; reflexivity. }
  exists w. split; [exact Hr|]. split; [exact Hh|]. cbn in H1. rewrite Hp in H1. apply H1.
  apply elem_of_union. left. apply elem_of_singleton. reflexivity.
Defined.

(** A chat message makes the round trip. What [send_chat] hands to the
    connection is a message the receiving side accepts; the receiver publishes
    exactly its sender, text and id and answers with an acknowledgement the
    sender accepts, and that acknowledgement marks the message delivered and
    stops tracking it. A text over the limit is not sent and is announced as
    failed. *)
Theorem chat_round_trip mid now now' addr addr' sid name text s :
  let '(message, sends, s1) := send_chat_begin mid now addr sid name text s in
  if sends then
    schema_ok (JObj message) = true /\ get_status mid s1 = Some Sent /\
    exists ack, handle_incoming_chat now' addr' message
        = Ok (ack, MkChatReceived addr' (JStr sid) (JStr name) (JStr text) (JStr mid) message) /\
      schema_ok (JObj ack) = true /\
      exists s2, handle_ack ack s1 = Ok (None, s2) /\ get_status mid s2 = None /\
        notices s2 = notices s ++ [(mid, Delivered, addr)]
  else MAX_CHAT_TEXT_SIZE < zlen (utf8_encode_replace text) /\ pending s1 = pending s /\
    notices s1 = notices s ++ [(mid, Failed, addr)].
Proof.
  unfold send_chat_begin. destruct (Z.ltb_spec MAX_CHAT_TEXT_SIZE (zlen (utf8_encode_replace text))) as [Hl|Hl]; [done|].
  split; [|split].
  - assert (chat_text_fits (JStr text) = true) as Ht by (unfold chat_text_fits; cbn; lia).
    assert (forall b, chat_text_fits (JStr text) = b -> schema_ok (JObj (make_chat_message mid now sid name text)) = b && true)
      as Hb by (intros b <-; reflexivity). by apply (Hb true).
  - unfold get_status. cbn. by rewrite lookup_insert_eq.
  - exists (make_chat_ack now' (JStr mid)). split; [done|]. split; [done|]. unfold handle_ack.
    assert (dict_get (py "message_id") (make_chat_ack now' (JStr mid)) = Some (JStr mid)) as -> by reflexivity.
    cbn. rewrite lookup_insert_eq. cbn.
    eexists. split; [done|]. unfold get_status. cbn. by rewrite lookup_delete_eq.
Qed.

(** A message can be announced delivered and then failed. If the
    acknowledgement is processed while [manager.send] is still waiting, and that
    call then reports the connection lost, the session announces "failed" for a
    message already announced "delivered". *)
Theorem delivered_then_failed :
  exists w, rtc cstep start w /\ history (py "m") (notices (w_chat w)) = [Delivered; Failed].
Proof.
  set (b := send_chat_begin (py "m") (float_of_int 1) (py "h:1") (py "i") (py "n") (py "hi") new_chat_session).
  set (s1 := snd b). set (ack := make_chat_ack (float_of_int 2) (JStr (py "m"))).
  destruct (handle_ack ack s1) as [[c s2]|e] eqn:Ea; [|vm_compute in Ea; discriminate Ea].
  set (s3 := snd (send_chat_end (py "m") (py "h:1") (Ok false) s2)).
  exists (World s3 (delete (py "m") (<[py "m" := py "h:1"]> ∅))
    (match c with Some mid => (∅ : gset pystr) ∖ {[mid]} | None => ∅ end) ({[py "m"]} ∪ ∅) ∅). split.
  - eapply rtc_l; [apply (c_send (py "m") (float_of_int 1) (py "h:1") (py "i") (py "n") (py "hi") _ _ _ _ _ (fst (fst b)) true s1);
      [apply not_elem_of_empty|vm_compute; reflexivity]|].
    eapply rtc_l; [apply (c_ack ack _ _ _ _ _ c s2); exact Ea|].
    eapply rtc_l; [apply (c_sent (py "m") (py "h:1") (Ok false) _ _ _ _ _ (Ok false) s3);
      [apply lookup_insert_eq|reflexivity]|]. apply rtc_refl.
  - vm_compute in Ea. injection Ea as <- <-. vm_compute. reflexivity.
Qed.

(** A message whose send raises is forgotten. When [manager.send] raises (the
    drain reports an error other than a lost connection), the message stays
    tracked with status "sent" although nothing is in progress: no timeout will
    announce it as failed. *)
Theorem raised_send_is_forgotten :
  exists w, rtc cstep start w /\ w_sending w = ∅ /\ w_timers w = ∅ /\
    get_status (py "m") (w_chat w) = Some Sent /\ history (py "m") (notices (w_chat w)) = [].
Proof.
  set (b := send_chat_begin (py "m") (float_of_int 1) (py "h:1") (py "i") (py "n") (py "hi") new_chat_session).
  exists (World (snd b) (delete (py "m") (<[py "m" := py "h:1"]> ∅)) ∅ ({[py "m"]} ∪ ∅) ({[py "m"]} ∪ ∅)). split.
  - eapply rtc_l; [apply (c_send (py "m") (float_of_int 1) (py "h:1") (py "i") (py "n") (py "hi") _ _ _ _ _ (fst (fst b)) true (snd b));
      [apply not_elem_of_empty|vm_compute; reflexivity]|].
    eapply rtc_l; [apply (c_sent (py "m") (py "h:1") (Err TimeoutError) _ _ _ _ _ (Err TimeoutError) (snd b));
      [apply lookup_insert_eq|reflexivity]|]. apply rtc_refl.
  - split; [cbn; by rewrite delete_insert_id by apply lookup_empty|]. split; [done|]. split; vm_compute; reflexivity.
Qed.
