(* ===== verification/FileSession.v ===== *)
(** * file_transfer.py: the file session on top of the connection manager

    The handlers of [FileTransferSession] over the file system of [FileSys] and
    the functions of [Transfer]. A handler is cut where it awaits something that
    lets other handlers run (the user's answer to an offer, the connection), and
    each part is one definition. What a handler asks of the rest of the program
    (messages to send, progress and completion notices) is returned as a list
    of effects. The ids of outgoing transfers are strings; those of incoming ones
    are whatever value the offer gave. *)

From S2P Require Import Prelude PyStr PyFloat Json PyValue Messages Sha256 FileData FileSys Transfer.
From stdpp Require Import base gmap strings list option list_numbers.
From Stdlib Require Import ZArith Lia.

Open Scope Z_scope.

(** ** Data *)

Definition CHUNK_SIZE : Z := DEFAULT_CHUNK_SIZE.

Inductive effect : Type :=
  | Send (addr_key : pystr) (message : dict)
  | SendBinary (addr_key : pystr) (payload : bytes)
  | Offered (transfer_id : json) (addr_key filename : pystr) (size : Z)
  | Progress (transfer_id : json) (done total : Z) (is_upload : bool)
  | Complete (transfer_id : json) (success : bool) (filepath : option path) (error : option pystr).

Inductive ostatus : Type := OOffered | ORejected | OSending | OAwaitingAck | ODone | OFailed.

(** [ot_ack]: the acknowledgement event with its success flag, once set. *)
Record OutgoingTransfer : Type := Outgoing {
  ot_transfer_id : pystr;
  ot_addr_key : pystr;
  ot_filepath : path;
  ot_filename : pystr;
  ot_size : Z;
  ot_checksum : pystr;
  ot_status : ostatus;
  ot_ack : option bool
}.

Record IncomingTransfer : Type := Incoming {
  it_transfer_id : json;
  it_addr_key : pystr;
  it_filename : pystr;
  it_size : Z;
  it_expected_checksum : pystr;
  it_sender_name : json;
  it_dest_path : path;
  it_part_path : path;
  it_bytes_received : Z;
  it_expected_chunk_index : Z;
  it_handle : option handle
}.

Record FileTransferSession : Type := FSession {
  fs_downloads_dir : path;
  fs_outgoing : gmap pystr OutgoingTransfer;
  fs_incoming : gmap pykey IncomingTransfer
}.

(** The session and the disk. *)
Abbreviation sstate := (FileTransferSession * fs)%type.

Definition set_outgoing (o : gmap pystr OutgoingTransfer) (s : FileTransferSession) : FileTransferSession :=
  FSession (fs_downloads_dir s) o (fs_incoming s).
Definition set_incoming (i : gmap pykey IncomingTransfer) (s : FileTransferSession) : FileTransferSession :=
  FSession (fs_downloads_dir s) (fs_outgoing s) i.
Definition set_ostatus (st : ostatus) (ack : option bool) (t : OutgoingTransfer) : OutgoingTransfer :=
  Outgoing (ot_transfer_id t) (ot_addr_key t) (ot_filepath t) (ot_filename t) (ot_size t) (ot_checksum t) st ack.
Definition set_received (n index : Z) (h : option handle) (t : IncomingTransfer) : IncomingTransfer :=
  Incoming (it_transfer_id t) (it_addr_key t) (it_filename t) (it_size t) (it_expected_checksum t) (it_sender_name t)
    (it_dest_path t) (it_part_path t) n index h.

(** ** Sender side *)

(** [offer_file] up to the send: the transfer object and the offer. *)
Definition offer_file_begin (f : fs) (uuid4 : pystr) (now : pyfloat) (addr_key : pystr) (filepath : path)
    : result (OutgoingTransfer * list effect) :=
  let* size := getsize f filepath in
  let* checksum := sha256_file f filepath DEFAULT_HASH_CHUNK_SIZE in
  let filename := basename filepath in
  Ok (Outgoing uuid4 addr_key filepath filename size checksum OOffered None,
      [Send addr_key (make_file_offer now uuid4 [] [] filename size checksum)]).

(** [offer_file] after the send returned [ok]. *)
Definition offer_file_end (t : OutgoingTransfer) (ok : bool) (s : FileTransferSession) : option pystr * FileTransferSession :=
  if ok then (Some (ot_transfer_id t), set_outgoing (<[ot_transfer_id t := t]> (fs_outgoing s)) s)
  else (None, s).

(** [_handle_accept]; [true] when a sending task is started. *)
Definition handle_accept (transfer_id : pystr) (s : FileTransferSession) : bool * FileTransferSession :=
  match fs_outgoing s !! transfer_id with
  | None => (false, s)
  | Some t => (true, set_outgoing (<[transfer_id := set_ostatus OSending (ot_ack t) t]> (fs_outgoing s)) s)
  end.

Definition handle_reject (transfer_id : pystr) (s : FileTransferSession) : list effect * FileTransferSession :=
  match fs_outgoing s !! transfer_id with
  | None => ([], s)
  | Some t => ([Complete (JStr (ot_transfer_id t)) false None (Some (py "rejected"))],
               set_outgoing (delete (ot_transfer_id t) (fs_outgoing s)) s)
  end.

(** [_handle_complete_ack]; [success] is the truth value of that field. *)
Definition handle_complete_ack (transfer_id : pystr) (success : bool) (s : FileTransferSession) : FileTransferSession :=
  match fs_outgoing s !! transfer_id with
  | None => s
  | Some t => set_outgoing (<[transfer_id := set_ostatus (ot_status t) (Some success) t]> (fs_outgoing s)) s
  end.

(** [transfer.status = st], seen in the table while the transfer is there. *)
Definition mark_outgoing (transfer_id : pystr) (st : ostatus) (s : FileTransferSession) : FileTransferSession :=
  match fs_outgoing s !! transfer_id with
  | None => s
  | Some t => set_outgoing (<[transfer_id := set_ostatus st (ot_ack t) t]> (fs_outgoing s)) s
  end.

(** The chunk loop of [_send_chunks]; [oks] are the outcomes of the successive
    sends. [Ok true]: every chunk was sent. *)
Fixpoint send_loop (t : OutgoingTransfer) (cs : list chunk) (bytes_sent : Z) (oks : list (result bool)) : result bool * list effect :=
  match cs with
  | [] => (Ok true, [])
  | (index, offset, data) :: cs =>
      match encode_file_data (ot_transfer_id t) index offset data with
      | Err e => (Err e, [])
      | Ok payload =>
          let sent := SendBinary (ot_addr_key t) payload in
          match oks with
          | Ok true :: oks =>
              let bytes_sent := bytes_sent + zlen data in
              let '(r, es) := send_loop t cs bytes_sent oks in
              (r, sent :: Progress (JStr (ot_transfer_id t)) bytes_sent (ot_size t) true :: es)
          | Err e :: _ => (Err e, [sent])
          | _ => (Ok false, [sent; Complete (JStr (ot_transfer_id t)) false None (Some (py "send_failed"))])
          end
      end
  end.

(** [_send_chunks]. [done] is the exception of the final send, if it raises, and
    [acked] the acknowledgement present before the timeout. The result is the
    final status, or the exception that escapes the task: an [OSError] is caught. *)
Definition send_chunks (f : fs) (t : OutgoingTransfer) (oks : list (result bool)) (done : option exn) (acked : option bool)
    : result ostatus * list effect :=
  let raised e es := if is_oserror e then (Ok OFailed, es ++ [Complete (JStr (ot_transfer_id t)) false None (Some (py "os_error"))])
                     else (Err e, es) in
  match read_chunks f (ot_filepath t) 0 CHUNK_SIZE with
  | Err e => raised e []
  | Ok cs =>
      let '(r, es) := send_loop t cs 0 oks in
      match r, done with
      | Err e, _ => raised e es
      | Ok false, _ => (Ok OFailed, es)
      | Ok true, Some e => raised e (es ++ [Send (ot_addr_key t) (make_file_done (ot_transfer_id t) (ot_checksum t))])
      | Ok true, None =>
          let success := default false acked in
          (Ok (if success then ODone else OFailed),
           es ++ [Send (ot_addr_key t) (make_file_done (ot_transfer_id t) (ot_checksum t));
                  Complete (JStr (ot_transfer_id t)) success (if success then Some (ot_filepath t) else None)
                    (if success then None else Some (py "ack_failed_or_timeout"))])
      end
  end.

(** The [finally] clause of [_send_chunks]. *)
Definition send_chunks_end (t : OutgoingTransfer) (s : FileTransferSession) : FileTransferSession :=
  set_outgoing (delete (ot_transfer_id t) (fs_outgoing s)) s.

(** ** Receiver side *)

(** [_safe_dest_path] *)
Definition safe_dest_path (os : host) (f : fs) (filename : pystr) (s : FileTransferSession) : result path :=
  resolve_safe_dest_path os f filename (fs_downloads_dir s).

(** [_handle_offer] up to the question to the user: the destination to go on
    with, or a rejection. *)
Definition handle_offer_check (os : host) (now : pyfloat) (addr_key : pystr) (transfer_id : json) (filename : pystr) (size : Z)
    (st : sstate) : result (option path) * list effect :=
  let '(s, f) := st in
  let reject := (Ok None, [Send addr_key (make_file_reject now transfer_id)]) in
  if MAX_INCOMING_FILE_SIZE <? size then reject
  else if negb (check_disk_space os (fs_downloads_dir s) size DISK_SAFETY_MARGIN) then reject
  else match safe_dest_path os f filename s with
  | Err TransferSecurityError => reject
  | Err e => (Err e, [])
  | Ok dest_path => (Ok (Some dest_path), [Offered transfer_id addr_key filename size])
  end.

(** Only [PathTraversalError] is turned into a rejection: a name the system
    cannot take leaves the offer unanswered. *)
Example nul_name_escapes :
  let os := Host (fun _ => None) (fun p => py "/home/u/" ++ p) in
  map (fun name => handle_offer_check os (float_of_int 1) (py "a:1") (JStr (py "t")) name 3 (FSession (py "dl") ∅ ∅, empty_fs))
    [[97; 0; 98]; [97; 0xD800]; py ".."]
  = [(Err ValueError, []); (Err UnicodeEncodeError, []);
     (Ok None, [Send (py "a:1") (make_file_reject (float_of_int 1) (JStr (py "t")))])].
Proof. vm_compute. reflexivity. Qed.

(** [_handle_offer] after the user answered. An open file that is no longer
    referenced is closed: that of a transfer whose entry is replaced, and the new
    one where the id cannot be a key. *)
Definition handle_offer_answer (now : pyfloat) (addr_key : pystr) (transfer_id : json) (filename : pystr) (size : Z)
    (checksum : pystr) (sender_name : json) (dest_path : path) (accept : bool) (st : sstate) : result (list effect) * sstate :=
  let '(s, f) := st in
  if negb accept then (Ok [Send addr_key (make_file_reject now transfer_id)], st)
  else
    let part_path := get_part_path dest_path in
    let f := cleanup_part_file f part_path in
    match open_wb f part_path with
    | Err e => (Err e, (s, f))
    | Ok (h, f) =>
        let t := Incoming transfer_id addr_key filename size checksum sender_name dest_path part_path 0 0 (Some h) in
        match key_of transfer_id with
        | None => (Err TypeError, (s, fh_close h f))
        | Some k =>
            let f := match fs_incoming s !! k with
                     | Some old => match it_handle old with Some h => fh_close h f | None => f end
                     | None => f
                     end in
            (Ok [Send addr_key (make_file_accept now transfer_id)],
             (set_incoming (<[k := t]> (fs_incoming s)) s, f))
        end
    end.

(** [dict.pop(key, None)] with a key that is in use. *)
Definition pop_incoming (transfer_id : json) (i : gmap pykey IncomingTransfer) : gmap pykey IncomingTransfer :=
  match key_of transfer_id with
  | Some k => delete k i
  | None => i
  end.

(** [_abort_incoming] *)
Definition abort_incoming (t : IncomingTransfer) (reason : pystr) (st : sstate) : list effect * sstate :=
  let '(s, f) := st in
  let s := set_incoming (pop_incoming (it_transfer_id t) (fs_incoming s)) s in
  let f := match it_handle t with Some h => fh_close h f | None => f end in
  let f := (if exists_ f (it_part_path t) then cleanup_part_file f (it_part_path t) else f) in
  let f := match os_remove f (it_dest_path t) with Ok f => f | Err _ => f end in
  ([Send (it_addr_key t) (make_file_complete_ack (it_transfer_id t) false reason);
    Complete (it_transfer_id t) false None (Some reason)], (s, f)).

(** [_handle_chunk]. The entries of [_incoming] always hold an open file;
    [failure] is the number of bytes it passed on before its [write] raised
    [OSError], if it does. *)
Definition handle_chunk (spill : bytes -> nat) (failure : option nat) (transfer_id : pystr) (sequence offset : Z) (data : bytes) (st : sstate)
    : result (list effect) * sstate :=
  let '(s, f) := st in
  match fs_incoming s !! KStr transfer_id with
  | None => (Ok [], st)
  | Some t =>
      if negb (sequence =? it_expected_chunk_index t) || negb (offset =? it_bytes_received t) then
        let '(es, st) := abort_incoming t (py "out-of-order chunk") st in (Ok es, st)
      else if it_size t <? it_bytes_received t + zlen data then
        let '(es, st) := abort_incoming t (py "declared size exceeded") st in (Ok es, st)
      else match it_handle t with
      | None => (Err TypeError, st)
      | Some h =>
          match failure with
          | Some n =>
              let '(h, f) := fh_write_failed n data h f in
              let t := set_received (it_bytes_received t) (it_expected_chunk_index t) (Some h) t in
              (Err OSError, (set_incoming (<[KStr transfer_id := t]> (fs_incoming s)) s, f))
          | None =>
          let '(h, f) := fh_write spill data h f in
          let t := set_received (it_bytes_received t + zlen data) (it_expected_chunk_index t + 1) (Some h) t in
          (Ok [Progress (it_transfer_id t) (it_bytes_received t) (it_size t) false],
           (set_incoming (<[KStr transfer_id := t]> (fs_incoming s)) s, f))
          end
      end
  end.

(** [_handle_chunk] for a JSON message of type file_data, which no schema check
    stops: its id, numbers and data are any values, and the data is no bytes
    object, which the file refuses to write. *)
Definition py_len (v : json) : result Z :=
  match v with
  | JStr s => Ok (zlen s)
  | JList vs => Ok (zlen vs)
  | JObj kvs => Ok (zlen kvs)
  | _ => Err TypeError
  end.
Definition equals_int (v : json) (n : Z) : bool := bool_decide (key_of v = Some (KInt n)).
Definition handle_chunk_json (message : dict) (st : sstate) : result (list effect) * sstate :=
  let '(s, f) := st in
  let found :=
    let* transfer_id := dict_item (py "transfer_id") message in
    match key_of transfer_id with
    | None => Err TypeError
    | Some k => Ok (fs_incoming s !! k)
    end in
  match found with
  | Err e => (Err e, st)
  | Ok None => (Ok [], st)
  | Ok (Some t) =>
      let checked :=
        let* sequence := dict_item (py "sequence") message in
        let* offset := dict_item (py "offset") message in
        if negb (equals_int sequence (it_expected_chunk_index t)) || negb (equals_int offset (it_bytes_received t))
        then Ok (py "out-of-order chunk")
        else
          let* data := dict_item (py "data") message in
          let* n := py_len data in
          if it_size t <? it_bytes_received t + n then Ok (py "declared size exceeded") else Err TypeError in
      match checked with
      | Err e => (Err e, st)
      | Ok reason => let '(es, st) := abort_incoming t reason st in (Ok es, st)
      end
  end.

(** [_handle_done] up to the acknowledgement: the transfer and whether it is
    verified. *)
Definition handle_done_begin (addr_key : pystr) (transfer_id : json) (st : sstate)
    : result (option (IncomingTransfer * bool) * list effect) * sstate :=
  let '(s, f) := st in
  match key_of transfer_id with
  | None => (Err TypeError, st)
  | Some k =>
  match fs_incoming s !! k with
  | None => (Ok (None, []), st)
  | Some t =>
      let s := set_incoming (delete k (fs_incoming s)) s in
      let f := match it_handle t with Some h => fh_close h f | None => f end in
      match sha256_file f (it_part_path t) DEFAULT_HASH_CHUNK_SIZE with
      | Err e => (Err e, (s, f))
      | Ok actual_checksum =>
          let success := streq actual_checksum (it_expected_checksum t) && (it_bytes_received t =? it_size t) in
          let detail := (if success then [] else py "checksum mismatch") in
          (Ok (Some (t, success), [Send addr_key (make_file_complete_ack (it_transfer_id t) success detail)]), (s, f))
      end
  end
  end.

(** [_handle_done] after the acknowledgement was sent. *)
Definition handle_done_end (t : IncomingTransfer) (success : bool) (f : fs) : result (list effect) * fs :=
  if negb success
  then (Ok [Complete (it_transfer_id t) false None (Some (py "checksum_mismatch"))], cleanup_part_file f (it_part_path t))
  else match finalize_part_file f (it_part_path t) (it_dest_path t) with
  | Err e => (Err e, f)
  | Ok f => (Ok [Complete (it_transfer_id t) true (Some (it_dest_path t)) None], f)
  end.

(** [_unique_dest_path], kept for callers that have a checked name. *)
Definition unique_dest_path (f : fs) (downloads_dir filename : pystr) : path :=
  let '(base, ext) := splitext filename in
  next_candidate (rename_rounds f) f downloads_dir base ext 1 (path_join downloads_dir filename).

(** ** Routing *)

Inductive handler : Type := HOffer | HAccept | HReject | HChunk | HDone | HCompleteAck.

(** The table of [_on_network_message] and [_dispatch]. *)
Definition handlers : list (pystr * handler) :=
  [(py "file_offer", HOffer); (py "file_accept", HAccept); (py "file_reject", HReject);
   (py "file_data", HChunk); (py "file_done", HDone); (py "file_complete_ack", HCompleteAck)].
Definition route (msg_type : pystr) : option handler := Messages.assoc msg_type handlers.
