(* ===== verification/FileSessionFacts.v ===== *)
(** * The file session: refinement of the receiver, delivery, and two races *)

From S2P Require Import Prelude PyStr PyFloat Json PyValue Messages Sha256 FileData FileSys Transfer TransferFacts FileSession.
From stdpp Require Import base gmap strings list option list_numbers.
From Stdlib Require Import ZArith Lia.

Open Scope Z_scope.

(** ** An incoming transfer is a receiver *)

Definition as_receiver (t : IncomingTransfer) : FileReceiver :=
  Receiver (match it_transfer_id t with JStr tid => tid | _ => [] end) (it_filename t) (it_size t) (it_expected_checksum t) [] (it_dest_path t) (it_part_path t)
    CHUNK_SIZE (it_bytes_received t) (it_expected_chunk_index t) RReceiving (it_handle t).

(** A chunk the receiver of [core/transfer] writes is written by the session's
    handler with the same effect; one it refuses makes the handler abort; and a
    write the system refuses raises in both, with the same file left open. *)
Lemma handle_chunk_refines spill failure tid sequence offset data s f t :
  fs_incoming s !! KStr tid = Some t -> it_transfer_id t = JStr tid -> is_Some (it_handle t) ->
  match write_chunk spill failure sequence offset data (as_receiver t, f) with
  | (Ok _, (r', f')) => exists t',
      handle_chunk spill failure tid sequence offset data (s, f)
      = (Ok [Progress (JStr tid) (it_bytes_received t') (it_size t) false], (set_incoming (<[KStr tid := t']> (fs_incoming s)) s, f')) /\
      as_receiver t' = r' /\ it_transfer_id t' = JStr tid
  | (Err OSError, (r', f')) => exists t',
      handle_chunk spill failure tid sequence offset data (s, f)
      = (Err OSError, (set_incoming (<[KStr tid := t']> (fs_incoming s)) s, f')) /\
      as_receiver t' = r' /\ it_transfer_id t' = JStr tid
  | (Err _, _) => exists reason,
      handle_chunk spill failure tid sequence offset data (s, f)
      = (Ok (fst (abort_incoming t reason (s, f))), snd (abort_incoming t reason (s, f)))
  end.
Proof.
  intros Hs Hid [h Hh]. unfold write_chunk, handle_chunk. rewrite Hs.
  cbn [as_receiver r_handle r_status r_expected_chunk_index r_bytes_received r_size]. rewrite Hh.
  destruct (negb (sequence =? _) || _); [exists (py "out-of-order chunk"); by destruct (abort_incoming t _ (s, f))|].
  destruct (it_size t <? _); [exists (py "declared size exceeded"); by destruct (abort_incoming t _ (s, f))|].
  destruct failure as [n|]; [destruct (fh_write_failed n data h f) as [h' f']|destruct (fh_write spill data h f) as [h' f']];
    eexists; rewrite <- Hid; split_and!; done.
Qed.

(** ** Delivery *)

(** The payloads among the effects, in order. *)
Definition payloads (es : list effect) : list bytes :=
  flat_map (fun e => match e with SendBinary _ p => [p] | _ => [] end) es.

(** The receiving session fed with binary frames, every write succeeding. *)
Fixpoint receive_payloads (spill : bytes -> nat) (ps : list bytes) (st : sstate) : result unit * sstate :=
  match ps with
  | [] => (Ok tt, st)
  | p :: ps =>
      match decode_file_data p with
      | Err e => (Err e, st)
      | Ok m => match handle_chunk spill None (fd_transfer_id m) (fd_sequence m) (fd_offset m) (fd_data m) st with
                | (Ok _, st) => receive_payloads spill ps st
                | (Err e, st) => (Err e, st)
                end
      end
  end.

Definition chunk_payload (b : bytes) (c : chunk) : bytes :=
  let '(s, o, d) := c in b ++ be_encode 4 s ++ be_encode 8 o ++ d.

Lemma contiguous_bounds n cs seq off :
  contiguous n seq off cs -> 0 <= seq <= off ->
  Forall (fun c : chunk => 0 <= fst (fst c) <= snd (fst c) /\ snd (fst c) < off + zlen (concat (map chunk_data cs))) cs.
Proof.
  revert seq off. induction cs as [|[[s o] d] cs IH]; intros seq off Hc Hb; [constructor|].
  destruct Hc as (-> & -> & Hd & Hc). cbn [map concat chunk_data snd]. rewrite zlen_app.
  pose proof (zlen_nonneg (concat (map chunk_data cs))). constructor; cbn [fst snd]; [lia|].
  eapply List.Forall_impl; [|apply (IH _ _ Hc); lia]. cbn. lia.
Qed.

Lemma send_loop_all t b cs sent :
  parse_uuid (ot_transfer_id t) = Ok b ->
  Forall (fun c : chunk => 0 <= fst (fst c) < 2 ^ 32 /\ 0 <= snd (fst c) < 2 ^ 64) cs ->
  exists es, send_loop t cs sent (replicate (length cs) (Ok true)) = (Ok true, es) /\ payloads es = map (chunk_payload b) cs.
Proof.
  intros Hb Hcs. revert sent. induction Hcs as [|[[s o] d] cs [Hs Ho] _ IH]; intros sent; [by exists []|].
  cbn in Hs, Ho. cbn [send_loop length replicate]. rewrite (encode_file_data_ok _ _ _ _ b) by done.
  destruct (IH (sent + zlen d)) as (es & -> & Hp). eexists. split; [done|]. cbn. f_equal. exact Hp.
Qed.

Lemma receive_all r0 f0 spill b n cs s t f h :
  length b = 16%nat -> it_transfer_id t = JStr (uuid_str b) -> r_size r0 < 2 ^ 32 ->
  fs_incoming s !! KStr (uuid_str b) = Some t -> it_handle t = Some h ->
  recv_inv r0 f0 (as_receiver t, f) ->
  contiguous n (it_expected_chunk_index t) (it_bytes_received t) cs ->
  0 <= it_expected_chunk_index t <= it_bytes_received t ->
  it_bytes_received t + zlen (concat (map chunk_data cs)) <= r_size r0 ->
  exists t' f' h',
    receive_payloads spill (map (chunk_payload b) cs) (s, f)
    = (Ok tt, (set_incoming (<[KStr (uuid_str b) := t']> (fs_incoming s)) s, f')) /\
    it_handle t' = Some h' /\ recv_inv r0 f0 (as_receiver t', f') /\ it_transfer_id t' = JStr (uuid_str b) /\
    fh_content h' f' = fh_content h f ++ concat (map chunk_data cs).
Proof.
  intros Hb Hid Hsz. revert s t f h Hid. induction cs as [|[[sq o] d] cs IH]; intros s t f h Hid Ht Hh Hi Hc Hseq Hle.
  - exists t, f, h. cbn. rewrite app_nil_r, insert_id by done. by destruct s.
  - cbn [contiguous] in Hc. destruct Hc as (-> & -> & Hd & Hc). cbn [map concat chunk_data snd] in *.
    rewrite zlen_app in Hle. pose proof (zlen_nonneg (concat (map chunk_data cs))).
    cbn [receive_payloads chunk_payload]. rewrite decode_file_data_parts by (done || lia).
    cbn [fd_transfer_id fd_sequence fd_offset fd_data].
    destruct (write_chunk_next r0 f0 spill d (as_receiver t) f h Hi Hh) as (r1 & f1 & h1 & Hw & Hi1 & Hh1 & Hc1 & Hx1 & Hb1);
      [cbn; lia|]. cbn [as_receiver r_expected_chunk_index r_bytes_received] in Hw, Hx1, Hb1.
    pose proof (handle_chunk_refines spill None (uuid_str b) (it_expected_chunk_index t) (it_bytes_received t) d s f t Ht Hid
      ltac:(by rewrite Hh)) as Hr. rewrite Hw in Hr. destruct Hr as (t1 & -> & Et1 & Hid1). subst r1. cbn in Hx1, Hb1, Hh1.
    destruct (IH (set_incoming (<[KStr (uuid_str b) := t1]> (fs_incoming s)) s) t1 f1 h1) as (t' & f' & h' & -> & Hh' & Hi' & Hid' & Hc');
      [done|by cbn; rewrite lookup_insert_eq|done|done|by rewrite Hx1, Hb1|lia|lia|].
    exists t', f', h'. unfold set_incoming. cbn [fs_incoming fs_outgoing fs_downloads_dir]. rewrite insert_insert_eq. split_and!; try done. by rewrite Hc', Hc1, app_assoc.
Qed.

Lemma free_path f p : exists_ f p = false -> fs_names f !! p = None.
Proof. unfold exists_. intros H%bool_decide_eq_false. by apply eq_None_not_Some. Qed.

(** Accepting an offer whose destination is free starts an empty receiver. *)
Lemma offer_answer_starts now addr tid name size checksum sender dest s f :
  fs_ok f -> 0 <= size -> fs_incoming s !! KStr tid = None -> exists_ f (get_part_path dest) = false ->
  exists t h f', handle_offer_answer now addr (JStr tid) name size checksum sender dest true (s, f)
    = (Ok [Send addr (make_file_accept now (JStr tid))], (set_incoming (<[KStr tid := t]> (fs_incoming s)) s, f')) /\
    t = Incoming (JStr tid) addr name size checksum sender dest (get_part_path dest) 0 0 (Some h) /\
    recv_inv (new_receiver tid name size checksum [] dest CHUNK_SIZE) f (as_receiver t, f') /\ fh_content h f' = [].
Proof.
  intros Hf Hsz Hnew Hfree. pose proof (cleanup_part_file_spec f (get_part_path dest) Hf) as (Hf1 & Hs1 & _).
  unfold handle_offer_answer. cbn [negb]. unfold cleanup_part_file in *. rewrite Hfree in *.
  destruct (open_wb f (get_part_path dest)) as [[h f']|e] eqn:Eo.
  2: { unfold open_wb in Eo. by rewrite (free_path _ _ Hfree) in Eo. }
  cbn [key_of]. rewrite Hnew. pose proof (open_wb_spec _ _ _ _ Eo Hf) as Hopen.
  do 3 eexists. split; [done|]. split; [done|]. split; [|apply Hopen].
  set (r0 := new_receiver tid name size checksum [] dest CHUNK_SIZE).
  refine (start_inv r0 f [] f r0 h f' _ _ Hopen _ _); [done| |done|exact Hsz].
  split; [done|by left].
Qed.

Lemma missing_file f p : read_file f p = Err FileNotFoundError -> fs_names f !! p = None.
Proof. unfold read_file. by destruct (fs_names f !! p) as [[]|]. Qed.

(** A complete, matching incoming transfer is acknowledged and published. *)
Lemma handle_done_publishes r0 f0 addr tid s t f h content :
  recv_inv r0 f0 (as_receiver t, f) -> fs_incoming s !! KStr tid = Some t -> it_transfer_id t = JStr tid -> it_handle t = Some h ->
  fh_content h f = content -> it_size t = zlen content -> it_expected_checksum t = sha256_hex content ->
  fs_names f0 !! r_dest_path r0 = None ->
  exists f1 f2, handle_done_begin addr (JStr tid) (s, f)
    = (Ok (Some (t, true), [Send addr (make_file_complete_ack (JStr tid) true [])]),
       (set_incoming (delete (KStr tid) (fs_incoming s)) s, f1)) /\
    handle_done_end t true f1 = (Ok [Complete (JStr tid) true (Some (r_dest_path r0)) None], f2) /\
    read_file f2 (r_dest_path r0) = Ok content.
Proof.
  intros ((_ & _ & Ed & Ep) & Hf & _ & Hy & Hpub1 & Hpub2) Hs Hid Hh Hc Hsz Hck Hfree.
  cbn [as_receiver r_dest_path r_part_path r_size r_expected_checksum] in Ed, Ep.
  unfold in_sync in Hy. cbn [as_receiver r_handle r_status r_part_path r_bytes_received] in Hy. rewrite Hh in Hy.
  destruct Hy as (_ & Hn & _ & Hl). destruct (fh_close_opened _ _ _ Hf Hn) as (Hf1 & Hs1 & Hr1).
  destruct (fh_close_spec h f) as (Hn1 & _ & _).
  pose proof (part_not_dest (r_dest_path r0)) as Hpd.
  assert (fs_names f !! r_dest_path r0 = None \/ exists i, fs_names f !! r_dest_path r0 = Some (EFile i)) as Hdest.
  { destruct Hpub2 as [E|(c & E & _)].
    - left. apply missing_file. rewrite E. unfold read_file. by rewrite Hfree.
    - right. unfold read_file in E. destruct (fs_names f !! r_dest_path r0) as [[i|]|]; [eauto|done..]. }
  unfold handle_done_begin. cbn [key_of]. rewrite Hs, Hh, sha256_file_content, Hr1 by done. cbn [rbind]. rewrite Hc.
  rewrite Hck, (proj2 (streq_spec _ _) eq_refl), <- Hl, Hc, Hsz, Z.eqb_refl. cbn [andb]. rewrite Hid.
  unfold handle_done_end. cbn [negb].
  destruct (finalize_part_file (fh_close h f) (it_part_path t) (it_dest_path t)) as [f2|e] eqn:Efin.
  - rewrite Ep, Ed in Efin. destruct (finalize_part_file_spec _ _ _ _ Efin Hf1 Hpd) as (_ & Hrd & _).
    exists (fh_close h f), f2. rewrite <- Ep in Hrd.
    split; [done|]. rewrite Ep, Ed, Efin. split; [by rewrite Hid|]. rewrite Hrd, Hr1. by rewrite Hc.
  - exfalso. unfold finalize_part_file, isfile, os_replace in Efin. rewrite Ed, Hn1, Hn in Efin.
    destruct Hdest as [E|[i E]]; rewrite E in Efin; done.
Qed.

(** The chunks of a whole file: consecutive, together the file, and numbered
    within the widths of their frame. *)
Lemma read_chunks_all f p content :
  read_file f p = Ok content -> zlen content <= MAX_INCOMING_FILE_SIZE ->
  exists cs, read_chunks f p 0 CHUNK_SIZE = Ok cs /\ contiguous CHUNK_SIZE 0 0 cs /\ concat (map chunk_data cs) = content /\
    Forall (fun c : chunk => 0 <= fst (fst c) < 2 ^ 32 /\ 0 <= snd (fst c) < 2 ^ 64) cs.
Proof.
  intros Hr Hsz. destruct (read_loop_exact (S (length content)) CHUNK_SIZE 0 0 content) as (cs & Hl & Hcat & Hc); [done|lia|].
  pose proof (contiguous_bounds _ _ _ _ Hc ltac:(lia)) as Hbd. rewrite Hcat in Hbd.
  exists cs. split_and!; [|done..|].
  - unfold read_chunks. rewrite (getsize_content _ _ _ Hr), Hr. cbn [rbind].
    rewrite (proj2 (Z.ltb_ge _ _)) by apply zlen_nonneg. exact Hl.
  - eapply List.Forall_impl; [|exact Hbd]. cbn. unfold MAX_INCOMING_FILE_SIZE in Hsz. intros [[? ?] ?]. cbn. lia.
Qed.

Lemma send_chunks_all f t content b :
  read_file f (ot_filepath t) = Ok content -> parse_uuid (ot_transfer_id t) = Ok b -> zlen content <= MAX_INCOMING_FILE_SIZE ->
  exists cs es, contiguous CHUNK_SIZE 0 0 cs /\ concat (map chunk_data cs) = content /\
    payloads es = map (chunk_payload b) cs /\
    send_chunks f t (replicate (length cs) (Ok true)) None (Some true) = (Ok ODone, es).
Proof.
  intros Hr Hb Hsz. destruct (read_chunks_all _ _ _ Hr Hsz) as (cs & Hcs & Hc & Hcat & Hbd).
  destruct (send_loop_all t b cs 0 Hb Hbd) as (es & Hs & Hp).
  exists cs. unfold send_chunks. rewrite Hcs, Hs. eexists. split_and!; [done|done| |reflexivity].
  unfold payloads in *. rewrite flat_map_app, Hp. cbn. apply app_nil_r.
Qed.

(** A file offered in one session arrives in the other. When the receiving
    session's checks let an offer of an existing file through and the user
    accepts, the accept message is sent; the chunks the sending task produces,
    decoded at the other end, are all written; the final message is answered
    with a success acknowledgement; the receiver reports completion with the
    destination path, which holds exactly the sender's file; and the sender's
    task ends done. Empty files included. *)
Theorem session_transfer_completes os spill fS p content b now addrS addrR sender sR fR dest es0 t offer :
  read_file fS p = Ok content -> zlen content <= MAX_INCOMING_FILE_SIZE -> length b = 16%nat ->
  fs_ok fR -> (forall q, isabs (realpath os q) = true) -> fs_incoming sR !! KStr (uuid_str b) = None ->
  offer_file_begin fS (uuid_str b) now addrR p = Ok (t, offer) ->
  handle_offer_check os now addrS (JStr (uuid_str b)) (ot_filename t) (ot_size t) (sR, fR) = (Ok (Some dest), es0) ->
  exists n es st1 st2 t' f3 f4,
    handle_offer_answer now addrS (JStr (uuid_str b)) (ot_filename t) (ot_size t) (ot_checksum t) sender dest true (sR, fR)
      = (Ok [Send addrS (make_file_accept now (JStr (uuid_str b)))], st1) /\
    send_chunks fS t (replicate n (Ok true)) None (Some true) = (Ok ODone, es) /\
    receive_payloads spill (payloads es) st1 = (Ok tt, st2) /\
    handle_done_begin addrS (JStr (uuid_str b)) st2
      = (Ok (Some (t', true), [Send addrS (make_file_complete_ack (JStr (uuid_str b)) true [])]), (sR, f3)) /\
    handle_done_end t' true f3 = (Ok [Complete (JStr (uuid_str b)) true (Some dest) None], f4) /\
    read_file f4 dest = Ok content.
Proof.
  intros Hr Hsz Hb Hf Habs Hnew Hoffer Hcheck. unfold offer_file_begin in Hoffer.
  rewrite (getsize_content _ _ _ Hr), sha256_file_content, Hr in Hoffer by done. cbn [rbind] in Hoffer.
  apply Ok_inj in Hoffer. apply (f_equal fst) in Hoffer. cbn [fst] in Hoffer.
  assert (ot_filepath t = p /\ ot_transfer_id t = uuid_str b /\ ot_size t = zlen content /\ ot_checksum t = sha256_hex content)
    as (Ep & Eid & Esz & Eck) by (by subst t). clear Hoffer.
  assert (exists_ fR dest = false /\ exists_ fR (get_part_path dest) = false) as [Hd Hp].
  { unfold handle_offer_check, safe_dest_path in Hcheck. destruct (_ <? _); [done|]. destruct (negb _); [done|].
    pose proof (resolve_dest_cases os fR (ot_filename t) (fs_downloads_dir sR) Habs) as Hres.
    destruct (resolve_safe_dest_path _ _ _ _) as [c|e].
    - apply (f_equal fst) in Hcheck. injection Hcheck as <-. by destruct Hres as (leaf & root & _ & _ & _ & ? & ? & _).
    - by destruct Hres as [[-> _] | [[-> | ->] _]]. }
  destruct (send_chunks_all fS t content b) as (cs & es & Hcont & Hcat & Hpay & Hsend);
    [by rewrite Ep|rewrite Eid; by apply parse_uuid_str|done|].
  destruct (offer_answer_starts now addrS (uuid_str b) (ot_filename t) (ot_size t) (ot_checksum t) sender dest sR fR)
    as (t0 & h0 & f0 & Hans & Et0 & Hi0 & Hc0); [done|rewrite Esz; apply zlen_nonneg|done|done|].
  set (r0 := new_receiver _ _ _ _ _ _ _) in Hi0.
  set (s1 := set_incoming (<[KStr (uuid_str b) := t0]> (fs_incoming sR)) sR) in *.
  destruct (receive_all r0 fR spill b CHUNK_SIZE cs s1 t0 f0 h0 Hb) as (t' & f' & h' & Hrecv & Hh' & Hi' & Hid' & Hc');
    try done; try (by subst t0).
  - cbn. rewrite Esz. unfold MAX_INCOMING_FILE_SIZE in Hsz. lia.
  - cbn. by rewrite lookup_insert_eq.
  - subst t0. cbn. rewrite Hcat, Esz. lia.
  - rewrite Hc0, Hcat in Hc'. cbn [app] in Hc'. 
    assert (it_size t' = ot_size t /\ it_expected_checksum t' = ot_checksum t) as [Es' Ec']
      by (destruct Hi' as ((E1 & E2 & _) & _); exact (conj E1 E2)).
    set (s2 := set_incoming (<[KStr (uuid_str b) := t']> (fs_incoming s1)) s1) in *.
    destruct (handle_done_publishes r0 fR addrS (uuid_str b) s2 t' f' h' content Hi') as (f3 & f4 & Hdone & Hend & Hfin);
      [cbn; by rewrite lookup_insert_eq|done|done|done|by rewrite Es', Esz|by rewrite Ec', Eck|by apply free_path|].
    exists (length cs), es, (s1, f0), (s2, f'), t', f3, f4. rewrite Hpay. split_and!; try done.
    rewrite Hdone. do 2 f_equal. unfold s2, s1, set_incoming. cbn.
    rewrite insert_insert_eq, delete_insert_id by done. by destruct sR.
Qed.

Lemma session_transfer_completes_witness :
  let os := Host (fun _ => None) (fun p => py "/home/u/" ++ p) in
  let b := replicate 16 (z2b 7) in
  exists f4, read_file f4 (py "dl/src") = Ok (pyb "abcde").
Proof.
  intros os b. set (now := float_of_int 1). set (sR := FSession (py "dl") ∅ ∅).
  destruct (offer_file_begin demo_fs (uuid_str b) now (py "h:2") (py "src")) as [[t offer]|e] eqn:Eo.
  2: { apply (f_equal is_ok) in Eo. vm_compute in Eo. discriminate Eo. }
  assert (ot_filename t = py "src" /\ ot_size t = 5) as [En Es]
    by (apply (f_equal (fun r => match r with Ok (t, _) => (ot_filename t, ot_size t) | Err _ => ([], 0) end)) in Eo;
        vm_compute in Eo; injection Eo as E1 E2; split; [exact (eq_sym E1)|exact (eq_sym E2)]).
  destruct (session_transfer_completes os demo_spill demo_fs (py "src") (pyb "abcde") b now (py "h:1") (py "h:2") JNull sR
    empty_fs (py "dl/src") [Offered (JStr (uuid_str b)) (py "h:1") (py "src") 5] t offer)
    as (n & es & st1 & st2 & t' & f3 & f4 & _ & _ & _ & _ & _ & H).
  - vm_compute. reflexivity.
  - vm_compute. discriminate.
  - reflexivity.
  - split; [intros p i H | intros p q i H]; cbn in H; rewrite lookup_empty in H; discriminate H.
  - intros q. reflexivity.
  - reflexivity.
  - exact Eo.
  - rewrite En, Es. vm_compute. reflexivity.
  - exists f4. exact H.
Defined.

(** ** Well-formedness over any interleaving *)

(** A table entry is keyed by its id (as a dictionary key), holds an open file and has counted at most
    its admissible declared size. *)
Definition entry_ok (k : pykey) (t : IncomingTransfer) : Prop :=
  key_of (it_transfer_id t) = Some k /\ is_Some (it_handle t) /\ 0 <= it_bytes_received t <= it_size t /\
  it_size t <= MAX_INCOMING_FILE_SIZE.

Definition session_ok (s : FileTransferSession) : Prop := map_Forall entry_ok (fs_incoming s).

(** The receiving side in use. An answered offer is one whose size passed the
    check; the disk may change under the session at any time. *)
Inductive sstep (spill : bytes -> nat) : sstate -> sstate -> Prop :=
  | s_answer now addr tid name size checksum sender dest accept st :
      0 <= size <= MAX_INCOMING_FILE_SIZE ->
      sstep spill st (snd (handle_offer_answer now addr tid name size checksum sender dest accept st))
  | s_chunk failure tid sequence offset data st : sstep spill st (snd (handle_chunk spill failure tid sequence offset data st))
  | s_chunk_json message st : sstep spill st (snd (handle_chunk_json message st))
  | s_done addr tid st : sstep spill st (snd (handle_done_begin addr tid st))
  | s_sender s s' f : fs_incoming s' = fs_incoming s -> sstep spill (s, f) (s', f)
  | s_disk s f f' : sstep spill (s, f) (s, f').

Lemma session_ok_delete k s : session_ok s -> session_ok (set_incoming (delete k (fs_incoming s)) s).
Proof. apply map_Forall_delete. Qed.
Lemma session_ok_pop tid s : session_ok s -> session_ok (set_incoming (pop_incoming tid (fs_incoming s)) s).
Proof. unfold pop_incoming. destruct (key_of tid); [apply session_ok_delete|by destruct s]. Qed.

Lemma session_ok_step spill st st' : session_ok (fst st) -> sstep spill st st' -> session_ok (fst st').
Proof.
  intros Hok Hs. destruct Hs as [now addr tid name size checksum sender dest accept [s f] Hsz|failure tid sq off data [s f]|message [s f]|addr tid [s f]|s s' f E|s f f'].
  - unfold handle_offer_answer. destruct (negb accept); [done|]. destruct (open_wb _ _) as [[h f']|e]; [|done].
    destruct (key_of tid) as [k|] eqn:Ek; [|done]. cbn. apply map_Forall_insert_2; [|done]. repeat split; cbn; [done|eauto|lia..].
  - unfold handle_chunk. destruct (fs_incoming s !! KStr tid) as [t|] eqn:E; [|done].
    assert (entry_ok (KStr tid) t) as (Hid & [h Hh] & Hb & Hsz) by (by apply Hok).
    assert (forall r, session_ok (fst (snd (let '(es, st) := abort_incoming t r (s, f) in (Ok es, st))))) as Hab
      by (intros r; cbn; by apply session_ok_pop).
    destruct (negb _ || _); [apply Hab|]. destruct (_ <? _) eqn:El; [apply Hab|]. rewrite Hh.
    destruct failure as [n|]; [destruct (fh_write_failed n data h f) as [h' f']|destruct (fh_write spill data h f) as [h' f']];
      cbn; (apply map_Forall_insert_2; [|done]); zbool; pose proof (zlen_nonneg data); repeat split; cbn; try done; try (eauto; fail); lia.
  - unfold handle_chunk_json. destruct (let* _ := _ in _) as [[t|]|e]; [|done..]. destruct (let* _ := _ in _) as [reason|e]; [|done].
    by apply session_ok_pop.
  - unfold handle_done_begin. destruct (key_of tid) as [k|]; [|done]. destruct (fs_incoming s !! k) as [t|]; [|done].
    destruct (sha256_file _ _ _); by apply session_ok_delete.
  - unfold session_ok. cbn. by rewrite E.
  - done.
Qed.

Lemma session_ok_reachable spill downloads (st : sstate) :
  rtc (sstep spill) (FSession downloads ∅ ∅, empty_fs) st -> session_ok (fst st).
Proof.
  intros Hr. refine (rtc_ind_r (fun st => session_ok (fst st)) _ _ _ st Hr); [apply map_Forall_empty|].
  intros st1 st2 _ Hs Hok. by eapply session_ok_step.
Qed.

(** What a chunk of a binary frame does: nothing to other transfers, and it
    raises only when the system refuses the write. *)
Lemma handle_chunk_outcome spill failure tid sequence offset data (st : sstate) :
  session_ok (fst st) ->
  let '(r, (s', _)) := handle_chunk spill failure tid sequence offset data st in
  (is_ok r = true \/ r = Err OSError /\ is_Some failure /\
     it_bytes_received <$> fs_incoming s' !! KStr tid = it_bytes_received <$> fs_incoming (fst st) !! KStr tid) /\
  forall k, k <> KStr tid -> fs_incoming s' !! k = fs_incoming (fst st) !! k.
Proof.
  intros Hok. destruct st as [s f]. unfold handle_chunk.
  destruct (fs_incoming s !! KStr tid) as [t|] eqn:E; [|by split; [left|]].
  assert (entry_ok (KStr tid) t) as (Hid & [h Hh] & _) by (by apply Hok).
  destruct (negb _ || _); [|destruct (_ <? _)].
  - cbn. split; [by left|]. intros k Hne. unfold pop_incoming. by rewrite Hid, lookup_delete_ne.
  - cbn. split; [by left|]. intros k Hne. unfold pop_incoming. by rewrite Hid, lookup_delete_ne.
  - rewrite Hh. destruct failure as [n|]; [destruct (fh_write_failed _ _ _ _)|destruct (fh_write _ _ _ _)]; cbn.
    + split; [right; split; [done|]; split; [eauto|]; by rewrite lookup_insert_eq, E|]. intros k Hne. by rewrite lookup_insert_ne.
    + split; [by left|]. intros k Hne. by rewrite lookup_insert_ne.
Qed.

(** What a JSON message of type file_data does: it never writes. *)
Lemma handle_chunk_json_outcome message (st : sstate) :
  session_ok (fst st) ->
  let '(r, st') := handle_chunk_json message st in
  match r with
  | Err e => (e = KeyError \/ e = TypeError) /\ st' = st
  | Ok _ => forall k, fs_incoming (fst st') !! k = fs_incoming (fst st) !! k \/
      fs_incoming (fst st') !! k = None /\ exists v, dict_get (py "transfer_id") message = Some v /\ key_of v = Some k
  end.
Proof.
  intros Hok. destruct st as [s f]. unfold handle_chunk_json.
  assert (forall k e, dict_item k message = Err e -> e = KeyError) as Hitem
    by (intros k e; unfold dict_item; destruct (dict_get k message); by intros [= <-]).
  assert (forall v e, py_len v = Err e -> e = TypeError) as Hlen by (intros v e; destruct v; cbn; by intros [= <-]).
  destruct (dict_item (py "transfer_id") message) as [tid|e] eqn:Et; cbn [rbind]; [|split; [left; by eapply Hitem|done]].
  destruct (key_of tid) as [k|] eqn:Ek; cbn; [|by split; [right|]].
  destruct (fs_incoming s !! k) as [t|] eqn:E; [|by left].
  assert (entry_ok k t) as (Hid & _) by (by apply Hok).
  destruct (let* _ := _ in _) as [reason|e] eqn:Ec.
  - cbn. intros k'. unfold pop_incoming. rewrite Hid. destruct (decide (k' = k)) as [->|Hne]; [|left; by rewrite lookup_delete_ne].
    right. split; [apply lookup_delete_eq|]. exists tid. split; [|done]. unfold dict_item in Et. destruct (dict_get _ message); [congruence|done].
  - split; [|done]. destruct (dict_item (py "sequence") message) as [x|e1] eqn:E1; cbn [rbind] in Ec; [|left; injection Ec as <-; by eapply Hitem].
    destruct (dict_item (py "offset") message) as [y|e2] eqn:E2; cbn [rbind] in Ec; [|left; injection Ec as <-; by eapply Hitem].
    destruct (_ || _) in Ec; [done|].
    destruct (dict_item (py "data") message) as [z|e3] eqn:E3; cbn [rbind] in Ec; [|left; injection Ec as <-; by eapply Hitem].
    destruct (py_len z) as [n|e4] eqn:E4; cbn [rbind] in Ec; [|right; injection Ec as <-; by eapply Hlen].
    destruct (_ <? _) in Ec; [done|]. injection Ec as <-. by right.
Qed.



(** ** Races *)

(** An accept that overtakes the registration is lost. [offer_file] registers
    the transfer only after the send returns; an accept handled before that
    starts no sending task, and the transfer is then registered as offered with
    nothing left to start it. *)
Theorem early_accept_is_lost t s :
  fs_outgoing s !! ot_transfer_id t = None ->
  let '(started, s1) := handle_accept (ot_transfer_id t) s in
  let '(tid, s2) := offer_file_end t true s1 in
  started = false /\ tid = Some (ot_transfer_id t) /\ fs_outgoing s2 !! ot_transfer_id t = Some t.
Proof. intros H. unfold handle_accept. rewrite H. cbn. by rewrite lookup_insert_eq. Qed.

Lemma early_accept_is_lost_witness :
  let t := Outgoing (py "t") (py "h:1") (py "p") (py "p") 3 (py "c") OOffered None in
  fst (handle_accept (py "t") (FSession (py "dl") ∅ ∅)) = false /\
  fs_outgoing (snd (offer_file_end t true (FSession (py "dl") ∅ ∅))) !! py "t" = Some t.
Proof.
  intros t. pose proof (early_accept_is_lost t (FSession (py "dl") ∅ ∅) eq_refl) as H.
  split; [reflexivity|]. apply H.
Defined.

(** Transfers that share a destination destroy each other's files. Two offers
    of one name, both checked before either is answered, get one destination.
    (1) When the first is published and the second then receives a bad chunk,
    the abort removes the first one's published file. (2) When the second is
    accepted between the first one's success acknowledgement and its rename,
    the rename publishes the second one's empty partial file: the sender was
    told the transfer succeeded, and its file is lost. *)
Theorem shared_destination_destroys_files :
  let os := Host (fun _ => None) (fun p => py "/home/u/" ++ p) in
  let now := float_of_int 1 in let h := py "h:1" in let all := fun b : bytes => length b in
  let d := pyb "abc" in let dest := py "dl/a" in
  let st0 := (FSession (py "dl") ∅ ∅, empty_fs) in
  let answer tid st := snd (handle_offer_answer now h (JStr tid) (py "a") 3 (sha256_hex d) JNull dest true st) in
  fst (handle_offer_check os now h (JStr (py "1")) (py "a") 3 st0) = Ok (Some dest) /\
  fst (handle_offer_check os now h (JStr (py "2")) (py "a") 3 st0) = Ok (Some dest) /\
  let received := snd (handle_chunk all None (py "1") 0 0 d (answer (py "1") st0)) in
  match handle_done_begin h (JStr (py "1")) received with
  | (Ok (Some (t, true), _), (s, f)) =>
      let '(r, f1) := handle_done_end t true f in
      let '(s2, f2) := answer (py "2") (s, f1) in
      let '(_, (_, f3)) := handle_chunk all None (py "2") 5 0 d (s2, f2) in
      is_ok r = true /\ read_file f1 dest = Ok d /\ read_file f2 dest = Ok d /\ exists_ f3 dest = false /\
      let '(s4, f4) := answer (py "2") (s, f) in
      let '(r4, f5) := handle_done_end t true f4 in
      is_ok r4 = true /\ read_file f5 dest = Ok []
  | _ => False
  end.
Proof. vm_compute. auto 10. Qed.
