(* ===== verification/Vault.v ===== *)
(** * core/vault/crypto.py and core/vault/keyfile.py: the vault keyfile

    A random data encryption key (DEK) is wrapped twice, under a key derived
    from the passphrase and under one derived from the recovery code. The
    keyfile that holds both copies is a JSON file, replaced atomically. *)

From S2P Require Import Prelude PyStr PyFloat Json JsonFacts JsonIndent Base64 Sha256 CryptoIface ToyCrypto FileSys TextFile RecoveryCode.
From stdpp Require Import base gmap strings list option list_numbers.
From Stdlib Require Import ZArith Lia Strings.Byte.
Open Scope Z_scope.
Open Scope peerc_scope.

(** ** crypto.py *)

Definition SCRYPT_N : Z := 131072.
Definition SCRYPT_R : Z := 8.
Definition SCRYPT_P : Z := 1.
Definition SALT_LEN : Z := 16.
Definition NONCE_LEN : Z := 12.
Definition KEK_LEN : Z := 32.
Definition DEK_LEN : Z := 32.

(** ** keyfile.py *)

Definition VAULT_SCHEMA_VERSION : Z := 1.
Definition MIN_PASSPHRASE_LEN : Z := 8.

Definition validate_passphrase (passphrase : pystr) (device_name : option pystr) : result unit :=
  if streq passphrase [] then Err WeakPassphraseError
  else if zlen passphrase <? MIN_PASSPHRASE_LEN then Err WeakPassphraseError
  else match device_name with
       | Some name => if streq passphrase name then Err WeakPassphraseError else Ok tt
       | None => Ok tt
       end.

(** The fields hold what was created or what was loaded: a loaded file's
    version, parameters and time are not checked, and a [null] is [None]. *)
Record VaultKeyfile : Type := MkKeyfile {
  version : json;
  kdf : json;
  kdf_params : json;
  passphrase_salt : option bytes;
  wrapped_dek_passphrase : option bytes;
  wrapped_dek_passphrase_nonce : option bytes;
  recovery_salt : option bytes;
  wrapped_dek_recovery : option bytes;
  wrapped_dek_recovery_nonce : option bytes;
  created_at : json;
  critical_key_salt : option bytes;
  critical_key_verifier_salt : option bytes
}.

(** Assignments to attributes of a keyfile. *)
Definition set_passphrase_salt (v : bytes) (k : VaultKeyfile) : VaultKeyfile :=
  MkKeyfile (version k) (kdf k) (kdf_params k) (Some v) (wrapped_dek_passphrase k) (wrapped_dek_passphrase_nonce k)
    (recovery_salt k) (wrapped_dek_recovery k) (wrapped_dek_recovery_nonce k) (created_at k)
    (critical_key_salt k) (critical_key_verifier_salt k).
Definition set_wrapped_dek_passphrase (v : bytes) (k : VaultKeyfile) : VaultKeyfile :=
  MkKeyfile (version k) (kdf k) (kdf_params k) (passphrase_salt k) (Some v) (wrapped_dek_passphrase_nonce k)
    (recovery_salt k) (wrapped_dek_recovery k) (wrapped_dek_recovery_nonce k) (created_at k)
    (critical_key_salt k) (critical_key_verifier_salt k).
Definition set_wrapped_dek_passphrase_nonce (v : bytes) (k : VaultKeyfile) : VaultKeyfile :=
  MkKeyfile (version k) (kdf k) (kdf_params k) (passphrase_salt k) (wrapped_dek_passphrase k) (Some v)
    (recovery_salt k) (wrapped_dek_recovery k) (wrapped_dek_recovery_nonce k) (created_at k)
    (critical_key_salt k) (critical_key_verifier_salt k).

#[export] Instance VaultKeyfile_eq_dec : EqDecision VaultKeyfile.
Proof. solve_decision. Defined.

Definition b64 (b : option bytes) : json :=
  match b with
  | None => JNull
  | Some b => JStr (b64encode b)
  end.

Definition to_json_dict (k : VaultKeyfile) : dict :=
  [(py "version", version k);
   (py "kdf", kdf k);
   (py "kdf_params", kdf_params k);
   (py "passphrase_salt", b64 (passphrase_salt k));
   (py "wrapped_dek_passphrase", b64 (wrapped_dek_passphrase k));
   (py "wrapped_dek_passphrase_nonce", b64 (wrapped_dek_passphrase_nonce k));
   (py "recovery_salt", b64 (recovery_salt k));
   (py "wrapped_dek_recovery", b64 (wrapped_dek_recovery k));
   (py "wrapped_dek_recovery_nonce", b64 (wrapped_dek_recovery_nonce k));
   (py "critical_key_salt", b64 (critical_key_salt k));
   (py "critical_key_verifier_salt", b64 (critical_key_verifier_salt k));
   (py "created_at", created_at k)].

(** [base64.b64decode] of a value that is neither a string nor [None] raises. *)
Definition unb64 (s : json) : result (option bytes) :=
  match s with
  | JNull => Ok None
  | JStr s => let* b := b64decode false s in Ok (Some b)
  | _ => Err TypeError
  end.

Definition from_json_dict (d : json) : result VaultKeyfile :=
  let* v := item (py "version") d in
  let* kd := item (py "kdf") d in
  let* kp := item (py "kdf_params") d in
  let* j := item (py "passphrase_salt") d in let* ps := unb64 j in
  let* j := item (py "wrapped_dek_passphrase") d in let* wp := unb64 j in
  let* j := item (py "wrapped_dek_passphrase_nonce") d in let* np := unb64 j in
  let* j := item (py "recovery_salt") d in let* rs := unb64 j in
  let* j := item (py "wrapped_dek_recovery") d in let* wr := unb64 j in
  let* j := item (py "wrapped_dek_recovery_nonce") d in let* nr := unb64 j in
  let* j := get_item (py "critical_key_salt") d in let* cs := unb64 j in
  let* j := get_item (py "critical_key_verifier_salt") d in let* cv := unb64 j in
  let* ca := item (py "created_at") d in
  Ok (MkKeyfile v kd kp ps wp np rs wr nr ca cs cv).

Definition vault_exists (p : path) (f : fs) : bool := exists_ f p.

Section Save.
Context (spill : bytes -> nat).

Definition tmp_path (p : path) : path := p ++ py ".tmp".
Definition save_dir (p : path) : path := match dirname p with [] => py "." | d => d end.

(** [save_vault_keyfile], by its calls on the file system. *)
Definition save_by {W} (call : forall A, io fs A -> io W A) (k : VaultKeyfile) (p : path) : io W unit :=
  let! _ := call _ (makedirs (save_dir p)) in
  let! _ := write_text_by call spill (tmp_path p) (dumps_indent (JObj (to_json_dict k))) in
  call _ (ichange (fun f => os_replace f (tmp_path p) p)).
Definition save_vault_keyfile : VaultKeyfile -> path -> io fs unit := save_by plainly.
(** The disk before the save and after each of its calls: the directories made,
    the temporary file emptied, written (its first bytes, as many as [spill] says,
    are on the disk), closed, and renamed. *)
Definition save_points (k : VaultKeyfile) (p : path) (f : fs) : list fs :=
  snd (snd (save_by recording k p (f, [f]))).
End Save.

Definition load_vault_keyfile (p : path) (f : fs) : result VaultKeyfile :=
  let* j := json_load p f in from_json_dict j.

Section Vault.
Context {S : Scrypt} {G : AesGcm}.

Definition derive_kek (secret salt : bytes) : bytes := scrypt salt KEK_LEN SCRYPT_N SCRYPT_R SCRYPT_P secret.
(** [nonce] is drawn by [os.urandom]. *)
Definition wrap_dek (nonce kek dek : bytes) : bytes * bytes := (gcm_encrypt kek nonce dek, nonce).
Definition unwrap_dek (kek ciphertext nonce : bytes) : result bytes :=
  rcatch (gcm_decrypt kek nonce ciphertext)
    (fun e => if decide (e = InvalidTag) then Some (Err WrongSecretError) else None).

(** The library refuses [None] where it expects bytes. *)
Definition as_bytes (b : option bytes) : result bytes :=
  match b with
  | Some b => Ok b
  | None => Err TypeError
  end.

Definition unlock_with_passphrase (k : VaultKeyfile) (passphrase : pystr) : result bytes :=
  let* secret := utf8_encode passphrase in
  let* salt := as_bytes (passphrase_salt k) in
  let kek := derive_kek secret salt in
  let* nonce := as_bytes (wrapped_dek_passphrase_nonce k) in
  let* wrapped := as_bytes (wrapped_dek_passphrase k) in
  unwrap_dek kek wrapped nonce.

Definition unlock_with_recovery_code (k : VaultKeyfile) (recovery_code : pystr) : result bytes :=
  let* raw := normalize_recovery_code recovery_code in
  let* salt := as_bytes (recovery_salt k) in
  let kek := derive_kek raw salt in
  let* nonce := as_bytes (wrapped_dek_recovery_nonce k) in
  let* wrapped := as_bytes (wrapped_dek_recovery k) in
  unwrap_dek kek wrapped nonce.

(** What one [create_vault] draws from [os.urandom] and [time.time]. *)
Record draws : Type := Draws {
  d_dek : bytes;
  d_recovery : bytes;
  d_passphrase_salt : bytes;
  d_passphrase_nonce : bytes;
  d_recovery_salt : bytes;
  d_recovery_nonce : bytes;
  d_now : pyfloat
}.

Definition create_vault (spill : bytes -> nat) (r : draws) (passphrase : pystr) (device_name : option pystr) (p : path)
    : io fs (VaultKeyfile * pystr) :=
  let! found := iget (vault_exists p) in
  if found then iraise VaultExistsError else
  let! _ := ilift (validate_passphrase passphrase device_name) in
  let dek := d_dek r in
  let recovery_code := generate_recovery_code (d_recovery r) in
  let! recovery_raw := ilift (normalize_recovery_code recovery_code) in
  let! secret := ilift (utf8_encode passphrase) in
  let passphrase_kek := derive_kek secret (d_passphrase_salt r) in
  let (wp, np) := wrap_dek (d_passphrase_nonce r) passphrase_kek dek in
  let recovery_kek := derive_kek recovery_raw (d_recovery_salt r) in
  let (wr, nr) := wrap_dek (d_recovery_nonce r) recovery_kek dek in
  let k := MkKeyfile (JInt VAULT_SCHEMA_VERSION) (JStr (py "scrypt"))
             (JObj [(py "n", JInt SCRYPT_N); (py "r", JInt SCRYPT_R); (py "p", JInt SCRYPT_P)])
             (Some (d_passphrase_salt r)) (Some wp) (Some np) (Some (d_recovery_salt r)) (Some wr) (Some nr)
             (JFloat (d_now r)) None None in
  let! _ := save_vault_keyfile spill k p in
  iret (k, recovery_code).

(** The keyfile object is updated in place; [salt] and [nonce] are drawn by
    [os.urandom]. *)
Definition change_passphrase (salt nonce : bytes) (old_passphrase new_passphrase : pystr) (device_name : option pystr)
    : io VaultKeyfile unit :=
  let! _ := ilift (validate_passphrase new_passphrase device_name) in
  let! dek := iread (fun k => unlock_with_passphrase k old_passphrase) in
  let! secret := ilift (utf8_encode new_passphrase) in
  let (new_wrapped, new_nonce) := wrap_dek nonce (derive_kek secret salt) dek in
  let! _ := iset (set_passphrase_salt salt) in
  let! _ := iset (set_wrapped_dek_passphrase new_wrapped) in
  iset (set_wrapped_dek_passphrase_nonce new_nonce).
End Vault.

(** ** The keyfile as JSON *)

Lemma unb64_b64 b : unb64 (b64 b) = Ok b.
Proof. destruct b as [b|]; cbn [b64 unb64]; [by rewrite b64decode_encode|done]. Qed.

Lemma from_to_json_dict k : from_json_dict (JObj (to_json_dict k)) = Ok k.
Proof.
  unfold from_json_dict.
  change (item (py "version") (JObj (to_json_dict k))) with (Ok (version k)).
  change (item (py "kdf") (JObj (to_json_dict k))) with (Ok (kdf k)).
  change (item (py "kdf_params") (JObj (to_json_dict k))) with (Ok (kdf_params k)).
  change (item (py "passphrase_salt") (JObj (to_json_dict k))) with (Ok (b64 (passphrase_salt k))).
  change (item (py "wrapped_dek_passphrase") (JObj (to_json_dict k))) with (Ok (b64 (wrapped_dek_passphrase k))).
  change (item (py "wrapped_dek_passphrase_nonce") (JObj (to_json_dict k))) with (Ok (b64 (wrapped_dek_passphrase_nonce k))).
  change (item (py "recovery_salt") (JObj (to_json_dict k))) with (Ok (b64 (recovery_salt k))).
  change (item (py "wrapped_dek_recovery") (JObj (to_json_dict k))) with (Ok (b64 (wrapped_dek_recovery k))).
  change (item (py "wrapped_dek_recovery_nonce") (JObj (to_json_dict k))) with (Ok (b64 (wrapped_dek_recovery_nonce k))).
  change (item (py "created_at") (JObj (to_json_dict k))) with (Ok (created_at k)).
  change (get_item (py "critical_key_salt") (JObj (to_json_dict k))) with (Ok (b64 (critical_key_salt k))).
  change (get_item (py "critical_key_verifier_salt") (JObj (to_json_dict k))) with (Ok (b64 (critical_key_verifier_salt k))).
  repeat (cbn [rbind]; rewrite ?unb64_b64). by destruct k.
Qed.

(** The values of a keyfile that JSON stores exactly. *)
Definition keyfile_ok (k : VaultKeyfile) : Prop :=
  json_ok (version k) = true /\ json_ok (kdf k) = true /\ json_ok (kdf_params k) = true /\ json_ok (created_at k) = true.

Lemma b64_ok b : json_ok (b64 b) = true.
Proof. destruct b as [b|]; [|done]. apply printable_str_ok, b64encode_printable. Qed.

Lemma keyfile_json_ok k : keyfile_ok k -> json_ok (JObj (to_json_dict k)) = true.
Proof.
  intros (Hv & Hk & Hp & Hc). cbn [json_ok]. apply andb_true_iff. split; [vm_compute; done|].
  unfold to_json_dict. cbn [forallb fst snd]. rewrite Hv, Hk, Hp, Hc, !b64_ok. vm_compute. done.
Qed.

(** ** Saving *)

Section SaveFacts.
Context (spill : bytes -> nat) (k : VaultKeyfile) (p : path) (f : fs).

(** What the calls leave, one by one. *)
Lemma save_points_eq :
  save_points spill k p f =
  let f1 := snd (makedirs (save_dir p) f) in
  f :: f1 ::
  match fst (makedirs (save_dir p) f), open_wb f1 (tmp_path p) with
  | Err _, _ => []
  | _, Err _ => [f1]
  | _, Ok (h, f2) =>
      f2 :: match utf8_encode (dumps_indent (JObj (to_json_dict k))) with
            | Err _ => [fh_close h f2]
            | Ok data =>
                let (h, f3) := fh_write spill data h f2 in
                let f4 := fh_close h f3 in
                [f3; f4; match os_replace f4 (tmp_path p) p with
                         | Ok f5 => f5
                         | Err _ => f4
                         end]
            end
  end.
Proof.
  unfold save_points, save_by, write_text_by, recording, ibind, iset, iraise, ichange.
  destruct (makedirs (save_dir p) f) as [[[]|e] f1]; cbn [fst snd]; [|done].
  destruct (open_wb f1 (tmp_path p)) as [[h f2]|e]; [|done]. destruct (utf8_encode _) as [data|e]; [|done].
  destruct (fh_write spill data h f2) as [h3 f3]. by destruct (os_replace _ _ _).
Qed.
Lemma save_vault_keyfile_eq :
  save_vault_keyfile spill k p f =
  (let! _ := makedirs (save_dir p) in
   let! _ := json_dump spill (tmp_path p) (JObj (to_json_dict k)) in
   ichange (fun f => os_replace f (tmp_path p) p)) f.
Proof. done. Qed.

Lemma tmp_path_ne : tmp_path p <> p.
Proof. unfold tmp_path. intros E. apply (f_equal length) in E. rewrite length_app in E. change (length (py ".tmp")) with 4%nat in E. lia. Qed.

(** [p] holds a file's content in the same cases. *)
Definition same_content (f' : fs) : Prop := forall c, read_file f' p = Ok c <-> read_file f p = Ok c.

Lemma makedirs_same_content : same_content (snd (makedirs (save_dir p) f)).
Proof.
  pose proof (makedirs_added (save_dir p) f) as Ha. intros c. split; [|by eapply dirs_added_read].
  destruct Ha as (Hd & _ & Hn). unfold read_file, inode_data. rewrite Hd.
  destruct (Hn p) as [->|(-> & [z ->] & _)]; done.
Qed.

Lemma same_but_content_at f1 f2 : same_content f1 -> same_but (tmp_path p) f1 f2 -> same_content f2.
Proof. intros H1 H2 c. rewrite H2 by (apply not_eq_sym, tmp_path_ne). apply H1. Qed.

Lemma save_points_content f' :
  fs_ok f -> f' ∈ save_points spill k p f ->
  same_content f' \/
  exists data, utf8_encode (dumps_indent (JObj (to_json_dict k))) = Ok data /\ read_file f' p = Ok data.
Proof.
  intros Hf. rewrite save_points_eq. cbv zeta. pose proof makedirs_same_content as Hs1.
  assert (fs_ok (snd (makedirs (save_dir p) f))) as Hf1 by (eapply dirs_added_ok; [apply makedirs_added|done]).
  set (f1 := snd (makedirs (save_dir p) f)) in *. rewrite !elem_of_cons. intros [->|[->|Hin]]; [by left|by left|].
  destruct (fst (makedirs _ _)); [|by apply elem_of_nil in Hin].
  destruct (open_wb f1 (tmp_path p)) as [[h f2]|e] eqn:Eo; [|apply list_elem_of_singleton in Hin as ->; by left].
  apply open_wb_spec in Eo as Ho; [|done]. assert (same_content f2) as Hs2 by (eapply same_but_content_at; [done|apply Ho]).
  apply elem_of_cons in Hin as [->|Hin]; [by left|].
  destruct (utf8_encode _) as [data|e] eqn:Eu.
  - pose proof (fh_write_opened spill data _ _ _ _ Ho) as Hw. destruct (fh_write spill data h f2) as [h3 f3]. cbn in Hw.
    pose proof (close_wrote _ _ _ _ _ Hw) as (Hok4 & Hsb4 & Hr4).
    assert (same_content (fh_close h3 f3)) as Hs4 by (eapply same_but_content_at; [exact Hs1|done]).
    rewrite !elem_of_cons in Hin. destruct Hin as [->|[->|[Hin|Hin]]]; [| | |by apply elem_of_nil in Hin].
    + left. eapply same_but_content_at; [exact Hs1|apply Hw].
    + by left.
    + destruct (os_replace _ _ _) as [f5|] eqn:Er; subst f'; [|by left]. right. exists data. split; [done|].
      apply os_replace_spec in Er as (_ & E & _); [congruence|done|apply tmp_path_ne].
  - apply list_elem_of_singleton in Hin as ->. left. eapply same_but_content_at; [exact Hs1|].
    destruct (close_wrote _ _ _ _ _ Ho) as (_ & ? & _). done.
Qed.

Lemma save_points_last : list.last (save_points spill k p f) = Some (snd (save_vault_keyfile spill k p f)).
Proof.
  rewrite save_points_eq, save_vault_keyfile_eq. unfold json_dump, ibind, ichange. rewrite ?write_text_eq.
  destruct (makedirs (save_dir p) f) as [[[]|e] f1]; cbn [fst snd]; [|done]. rewrite write_text_eq.
  destruct (open_wb f1 (tmp_path p)) as [[h f2]|e]; [|done].
  destruct (utf8_encode _) as [data|e]; [|done]. destruct (fh_write spill data h f2) as [h3 f3].
  by destruct (os_replace _ _ _).
Qed.

Lemma save_loads f1 :
  fs_ok f -> keyfile_ok k -> makedirs (save_dir p) f = (Ok tt, f1) -> isdir f1 p = false -> isdir f1 (tmp_path p) = false ->
  exists f', save_vault_keyfile spill k p f = (Ok tt, f') /\ fs_ok f' /\ load_vault_keyfile p f' = Ok k /\
    exists_ f' (tmp_path p) = false.
Proof.
  intros Hf Hk Hm Hp Ht. rewrite save_vault_keyfile_eq. rewrite (ibind_run _ _ _ _ _ Hm).
  assert (fs_ok f1) as Hf1 by (pose proof (makedirs_added (save_dir p) f) as Ha; rewrite Hm in Ha; by eapply dirs_added_ok).
  destruct (json_dump_wrote spill (tmp_path p) (JObj (to_json_dict k)) f1 Hf1 Ht (keyfile_json_ok k Hk)) as (f2 & Ej & Hw).
  rewrite (ibind_run _ _ _ _ _ Ej). pose proof (wrote_dir _ _ _ _ p Hw Hp) as Hp2. destruct Hw as (Hf2 & _ & Hr).
  unfold ichange. destruct (os_replace f2 (tmp_path p) p) as [f3|e] eqn:Er.
  - apply os_replace_spec in Er as (Hf3 & E3 & Hgone & _); [|done|apply tmp_path_ne].
    eexists. split_and!; [done|done| |].
    + unfold load_vault_keyfile. rewrite (json_load_written p (JObj (to_json_dict k))); [apply from_to_json_dict| |congruence].
      by apply keyfile_json_ok.
    + by apply exists_read, read_file_missing.
  - exfalso. unfold os_replace, isdir, read_file in *. destruct (fs_names f2 !! tmp_path p) as [[]|]; [|done..].
    by destruct (fs_names f2 !! p) as [[]|].
Qed.

Lemma save_error_content e f' : fs_ok f -> save_vault_keyfile spill k p f = (Err e, f') -> same_content f'.
Proof.
  intros Hf. pose proof makedirs_same_content as Hs1.
  assert (fs_ok (snd (makedirs (save_dir p) f))) as Hf1 by (eapply dirs_added_ok; [apply makedirs_added|done]).
  rewrite save_vault_keyfile_eq. unfold json_dump, ibind, ichange.
  destruct (makedirs (save_dir p) f) as [[[]|e1] f1]; cbn [snd] in *; [|by intros [= <- <-]]. rewrite write_text_eq.
  destruct (open_wb f1 (tmp_path p)) as [[h f2]|e2] eqn:Eo; [|by intros [= <- <-]].
  apply open_wb_spec in Eo as Ho; [|done]. destruct (utf8_encode _) as [data|e3].
  - pose proof (fh_write_opened spill data _ _ _ _ Ho) as Hw. destruct (fh_write spill data h f2) as [h3 f3].
    destruct (os_replace _ _ _); [done|]. intros [= <- <-]. eapply same_but_content_at; [exact Hs1|].
    by destruct (close_wrote _ _ _ _ _ Hw) as (_ & ? & _).
  - intros [= <- <-]. eapply same_but_content_at; [exact Hs1|]. by destruct (close_wrote _ _ _ _ _ Ho) as (_ & ? & _).
Qed.
End SaveFacts.

(** ** Unlocking *)

Section Unlock.
Context {S : Scrypt} {SL : ScryptLaws S} {G : AesGcm} {GL : AesGcmLaws G}.

Lemma derive_kek_length secret salt : length (derive_kek secret salt) = 32%nat.
Proof.
  pose proof (scrypt_length salt KEK_LEN SCRYPT_N SCRYPT_R SCRYPT_P secret ltac:(done)) as Hl.
  unfold derive_kek, zlen, KEK_LEN in *. lia.
Qed.

Lemma unwrap_wrap secret salt nonce dek :
  length nonce = 12%nat ->
  unwrap_dek (derive_kek secret salt) (gcm_encrypt (derive_kek secret salt) nonce dek) nonce = Ok dek.
Proof. intros Hn. unfold unwrap_dek. rewrite gcm_decrypt_encrypt; [done|apply derive_kek_length|done]. Qed.

(** The keyfile holds [dek] wrapped under [secret], and under the recovery bytes [raw]. *)
Definition holds_passphrase (dek secret : bytes) (k : VaultKeyfile) : Prop :=
  exists salt nonce, passphrase_salt k = Some salt /\ wrapped_dek_passphrase_nonce k = Some nonce /\
    wrapped_dek_passphrase k = Some (gcm_encrypt (derive_kek secret salt) nonce dek) /\ length nonce = 12%nat.
Definition holds_recovery (dek raw : bytes) (k : VaultKeyfile) : Prop :=
  exists salt nonce, recovery_salt k = Some salt /\ wrapped_dek_recovery_nonce k = Some nonce /\
    wrapped_dek_recovery k = Some (gcm_encrypt (derive_kek raw salt) nonce dek) /\ length nonce = 12%nat.

Lemma holds_passphrase_unlocks dek secret k passphrase :
  holds_passphrase dek secret k -> utf8_encode passphrase = Ok secret -> unlock_with_passphrase k passphrase = Ok dek.
Proof.
  intros (salt & nonce & Es & En & Ew & Hn) Eu. unfold unlock_with_passphrase. rewrite Eu, Es, En, Ew. cbn [rbind as_bytes].
  by apply unwrap_wrap.
Qed.

Lemma holds_recovery_unlocks dek raw k code :
  holds_recovery dek raw k -> normalize_recovery_code code = Ok raw -> unlock_with_recovery_code k code = Ok dek.
Proof.
  intros (salt & nonce & Es & En & Ew & Hn) Eu. unfold unlock_with_recovery_code. rewrite Eu, Es, En, Ew. cbn [rbind as_bytes].
  by apply unwrap_wrap.
Qed.

Lemma change_passphrase_ok salt nonce old new dev k secret dek :
  validate_passphrase new dev = Ok tt -> utf8_encode new = Ok secret -> unlock_with_passphrase k old = Ok dek ->
  length nonce = 12%nat ->
  exists k', change_passphrase salt nonce old new dev k = (Ok tt, k') /\ holds_passphrase dek secret k' /\
    (forall d raw, holds_recovery d raw k -> holds_recovery d raw k') /\ (keyfile_ok k -> keyfile_ok k').
Proof.
  intros Hv Hu Ho Hn. unfold change_passphrase, ibind, ilift, iread, iset. rewrite Hv, Ho, Hu. cbn [wrap_dek fst snd].
  eexists. split; [reflexivity|]. split; [|done]. by exists salt, nonce.
Qed.

(** The draws have the lengths the code asks for. *)
Definition draws_ok (r : draws) : Prop :=
  zlen (d_dek r) = DEK_LEN /\ zlen (d_recovery r) = RECOVERY_CODE_BYTES /\
  zlen (d_passphrase_salt r) = SALT_LEN /\ zlen (d_passphrase_nonce r) = NONCE_LEN /\
  zlen (d_recovery_salt r) = SALT_LEN /\ zlen (d_recovery_nonce r) = NONCE_LEN /\ float_ok (d_now r) = true.

Lemma create_vault_ok spill r passphrase dev p f f1 secret :
  fs_ok f -> vault_exists p f = false -> makedirs (save_dir p) f = (Ok tt, f1) -> isdir f1 p = false ->
  isdir f1 (tmp_path p) = false -> validate_passphrase passphrase dev = Ok tt -> utf8_encode passphrase = Ok secret ->
  draws_ok r ->
  exists k f', create_vault spill r passphrase dev p f = (Ok (k, generate_recovery_code (d_recovery r)), f') /\
    load_vault_keyfile p f' = Ok k /\ keyfile_ok k /\
    holds_passphrase (d_dek r) secret k /\ holds_recovery (d_dek r) (d_recovery r) k.
Proof.
  intros Hf He Hm Hp Ht Hv Hu (_ & Hr & _ & Hn1 & _ & Hn2 & Hnow).
  unfold zlen, RECOVERY_CODE_BYTES, NONCE_LEN in *.
  unfold create_vault, wrap_dek. unfold ibind at 1, iget. rewrite He. unfold ibind at 1, ilift. rewrite Hv.
  unfold ibind at 1. rewrite displayed_code_accepted by lia. unfold ibind at 1. rewrite Hu.
  match goal with |- context [save_vault_keyfile spill ?x p] => set (k := x) end.
  assert (keyfile_ok k) as Hk by (split_and!; [done..|exact Hnow]).
  destruct (save_loads spill k p f f1 Hf Hk Hm Hp Ht) as (f' & Es & _ & Hl & _).
  exists k, f'. rewrite (ibind_run _ _ _ _ _ Es). split_and!; [done|done|done| |].
  - exists (d_passphrase_salt r), (d_passphrase_nonce r). split_and!; [done..|lia].
  - exists (d_recovery_salt r), (d_recovery_nonce r). split_and!; [done..|lia].
Qed.
End Unlock.

(** C28: the vault opens with either secret. With a new path, a valid passphrase
    and a creatable directory, [create_vault] succeeds; the keyfile read back
    from the disk yields the data key with the passphrase and with the recovery
    code, as displayed or in any transcription of it. After a change of the
    passphrase, the new one and the unchanged recovery code yield the same key. *)
Theorem vault_unlocks (S : Scrypt) (SL : ScryptLaws S) (G : AesGcm) (GL : AesGcmLaws G) spill r passphrase dev p f f1 secret :
  fs_ok f -> vault_exists p f = false -> makedirs (save_dir p) f = (Ok tt, f1) -> isdir f1 p = false ->
  isdir f1 (tmp_path p) = false -> validate_passphrase passphrase dev = Ok tt -> utf8_encode passphrase = Ok secret ->
  draws_ok r ->
  exists k code f', create_vault spill r passphrase dev p f = (Ok (k, code), f') /\
    load_vault_keyfile p f' = Ok k /\
    unlock_with_passphrase k passphrase = Ok (d_dek r) /\
    unlock_with_recovery_code k code = Ok (d_dek r) /\
    (forall typed, spells typed (full_code (d_recovery r)) -> unlock_with_recovery_code k typed = Ok (d_dek r)) /\
    (forall salt nonce new dev' secret', length nonce = 12%nat -> validate_passphrase new dev' = Ok tt ->
       utf8_encode new = Ok secret' ->
       exists k', change_passphrase salt nonce passphrase new dev' k = (Ok tt, k') /\
         unlock_with_passphrase k' new = Ok (d_dek r) /\ unlock_with_recovery_code k' code = Ok (d_dek r)).
Proof.
  intros Hf He Hm Hp Ht Hv Hu Hr. assert (length (d_recovery r) = 20%nat) as Hl
    by (destruct Hr as (_ & Hr & _); unfold zlen, RECOVERY_CODE_BYTES in Hr; lia).
  destruct (create_vault_ok spill r passphrase dev p f f1 secret Hf He Hm Hp Ht Hv Hu Hr) as (k & f' & E & Hld & _ & Hpass & Hrec).
  pose proof (holds_passphrase_unlocks _ _ _ _ Hpass Hu) as Hold.
  exists k, (generate_recovery_code (d_recovery r)), f'. split_and!; [done|done|done| | |].
  - eapply holds_recovery_unlocks; [done|]. by apply displayed_code_accepted.
  - intros typed Hsp. eapply holds_recovery_unlocks; [done|]. by apply transcription_accepted.
  - intros salt nonce new dev' secret' Hn Hv' Hu'.
    destruct (change_passphrase_ok salt nonce passphrase new dev' k secret' _ Hv' Hu' Hold Hn) as (k' & Ec & Hp' & Hr' & _).
    exists k'. split_and!; [done|by eapply holds_passphrase_unlocks|].
    eapply holds_recovery_unlocks; [by apply Hr'|]. by apply displayed_code_accepted.
Qed.

(** C29: a crash never damages the keyfile. At every point of a save, before and
    after each call it makes on the file system, whatever part of the temporary
    file has reached the disk, the keyfile's path holds either exactly what it held
    before or the complete new keyfile, which loads; the last of these disks is the
    one the save leaves, whether it succeeds or raises. *)
Theorem keyfile_saved_atomically spill k p f :
  fs_ok f -> keyfile_ok k ->
  (forall f', f' ∈ save_points spill k p f ->
    (forall c, read_file f' p = Ok c <-> read_file f p = Ok c) \/ load_vault_keyfile p f' = Ok k) /\
  list.last (save_points spill k p f) = Some (snd (save_vault_keyfile spill k p f)).
Proof.
  intros Hf Hk. split; [|apply save_points_last]. intros f' Hin. destruct (save_points_content spill k p f f' Hf Hin) as [Hs|(data & Hu & Hr)]; [by left|right].
  pose proof (keyfile_json_ok k Hk) as Hj. unfold load_vault_keyfile.
  rewrite (json_load_written p (JObj (to_json_dict k))); [apply from_to_json_dict|done|].
  rewrite Hr. rewrite utf8_encode_ascii in Hu by by apply dumps_indent_ascii. congruence.
Qed.

(** Failures leave the vault as it was. Whenever [create_vault] raises, what
    the keyfile's path holds is unchanged, and an existing vault is always
    refused; whenever [change_passphrase] raises, the keyfile is unmodified; a
    failed authentication of the wrapped key is reported as [WrongSecretError]. *)
Theorem vault_errors_preserve (S : Scrypt) (G : AesGcm) :
  (forall spill r pass dev p f, vault_exists p f = true ->
     create_vault spill r pass dev p f = (Err VaultExistsError, f)) /\
  (forall spill r pass dev p f e f', fs_ok f -> create_vault spill r pass dev p f = (Err e, f') ->
     forall c, read_file f' p = Ok c <-> read_file f p = Ok c) /\
  (forall salt nonce old new dev k e k', change_passphrase salt nonce old new dev k = (Err e, k') -> k' = k) /\
  (forall kek c nonce, gcm_decrypt kek nonce c = Err InvalidTag -> unwrap_dek kek c nonce = Err WrongSecretError).
Proof.
  split_and!.
  - intros spill r pass dev p f He. unfold create_vault, ibind, iget. by rewrite He.
  - intros spill r pass dev p f e f' Hf. unfold create_vault, wrap_dek. unfold ibind at 1, iget.
    destruct (vault_exists p f) eqn:He; [by intros [= <- <-]|].
    unfold ibind at 1, ilift. destruct (validate_passphrase pass dev); [|by intros [= <- <-]].
    unfold ibind at 1. destruct (normalize_recovery_code _); [|by intros [= <- <-]].
    unfold ibind at 1. destruct (utf8_encode pass); [|by intros [= <- <-]].
    match goal with |- context [save_vault_keyfile spill ?x p] => set (k := x) end. intros E c.
    unfold ibind in E. destruct (save_vault_keyfile spill k p f) as [[[]|e1] f1] eqn:Es; [done|]. injection E as _ <-.
    by eapply (save_error_content spill k p f e1).
  - intros salt nonce old new dev k e k'. unfold change_passphrase, wrap_dek, ibind, ilift, iread, iset.
    repeat (case_match; try done); by intros [= <- <-].
  - intros kek c nonce E. unfold unwrap_dek. by rewrite E.
Qed.

(** ** Examples *)

Definition demo_draws : draws :=
  Draws (map z2b (seqZ 0 32)) (map z2b (seqZ 240 20)) (map z2b (seqZ 1 16)) (map z2b (seqZ 2 12))
    (map z2b (seqZ 3 16)) (map z2b (seqZ 4 12)) (float_of_int 1700000000).
Definition demo_keyfile_path : path := py "/home/u/.peerc/vault_keyfile.json".
Definition demo_dirs : fs := snd (makedirs (save_dir demo_keyfile_path) empty_fs).

Lemma demo_draws_ok : draws_ok demo_draws.
Proof. split_and!; vm_compute; reflexivity. Qed.

Lemma vault_unlocks_witness :
  exists k code f', create_vault (S := toy_scrypt) (G := toy_gcm) length demo_draws (py "correct horse") None demo_keyfile_path empty_fs
    = (Ok (k, code), f') /\ unlock_with_passphrase (S := toy_scrypt) (G := toy_gcm) k (py "correct horse") = Ok (map z2b (seqZ 0 32)).
Proof.
  destruct (vault_unlocks toy_scrypt toy_scrypt_laws toy_gcm toy_gcm_laws length demo_draws (py "correct horse") None
    demo_keyfile_path empty_fs demo_dirs (pyb "correct horse")) as (k & code & f' & E & _ & Hu & _);
    [apply empty_fs_ok|vm_compute; reflexivity..|apply demo_draws_ok|].
  exists k, code, f'. split; [exact E|exact Hu].
Defined.

Definition demo_keyfile : VaultKeyfile :=
  MkKeyfile (JInt 1) (JStr (py "scrypt")) JNull (Some []) (Some []) None (Some []) None None (JInt 0) None None.

Lemma keyfile_saved_atomically_witness :
  Forall (fun f' => (forall c, read_file f' demo_keyfile_path = Ok c <-> read_file empty_fs demo_keyfile_path = Ok c) \/
                    load_vault_keyfile demo_keyfile_path f' = Ok demo_keyfile)
    (save_points length demo_keyfile demo_keyfile_path empty_fs) /\
  length (save_points length demo_keyfile demo_keyfile_path empty_fs) = 6%nat.
Proof.
  split; [|vm_compute; reflexivity]. apply Forall_forall.
  apply (proj1 (keyfile_saved_atomically length demo_keyfile demo_keyfile_path empty_fs empty_fs_ok
    ltac:(split_and!; vm_compute; reflexivity))).
Defined.

(** The parameters stored in a keyfile have no effect on unlocking it. *)
Lemma kdf_params_not_used (S : Scrypt) (G : AesGcm) v kd kp k secret code :
  let k' := MkKeyfile v kd kp (passphrase_salt k) (wrapped_dek_passphrase k) (wrapped_dek_passphrase_nonce k)
              (recovery_salt k) (wrapped_dek_recovery k) (wrapped_dek_recovery_nonce k) (created_at k)
              (critical_key_salt k) (critical_key_verifier_salt k) in
  unlock_with_passphrase k' secret = unlock_with_passphrase k secret /\
  unlock_with_recovery_code k' code = unlock_with_recovery_code k code.
Proof. done. Qed.
