(* ===== verification/IdentityStore.v ===== *)
(** * core/identity/key_storage.py and core/identity/identity_file.py

    Where the device's private key and its public metadata are kept: the
    system's keyring or a private file for the key, a JSON file for the
    metadata; loading, first creation, rotation, and the display-name change of
    discovery.py. *)

From S2P Require Import Prelude PyStr PyFloat Json JsonFacts JsonIndent Sha256 Base64 CryptoIface ToyCrypto SecurityEvents Identity FileSys TextFile.
From stdpp Require Import base gmap strings list option.
From Stdlib Require Import ZArith Lia Strings.Byte.
Open Scope Z_scope.
Open Scope peerc_scope.

(** ** The state: the disk, the permission bits of files, the keyring *)

Record world `{Keyring} : Type := World {
  w_fs : fs;
  w_mode : gmap path Z;
  w_ring : ring
}.
Arguments world {_}.
Arguments World {_}.

Section Lift.
Context `{Keyring}.
(** An operation on the disk. *)
Definition on_fs {A} (m : io fs A) : io world A := fun w =>
  let (r, f) := m (w_fs w) in (r, World f (w_mode w) (w_ring w)).
(** [os.chmod] *)
Definition os_chmod (p : path) (mode : Z) : io world unit :=
  iset (fun w => World (w_fs w) (<[p := mode]> (w_mode w)) (w_ring w)).
(** [os.open(p, O_WRONLY | O_CREAT | O_TRUNC, mode)]: the mode applies to a file
    that did not exist. *)
Definition os_open_mode (umask mode : Z) (p : path) : io world handle := fun w =>
  match open_wb (w_fs w) p with
  | Err e => (Err e, w)
  | Ok (h, f) =>
      let modes := if exists_ (w_fs w) p then w_mode w else <[p := Z.land mode (Z.lnot umask)]> (w_mode w) in
      (Ok h, World f modes (w_ring w))
  end.
(** [with os.fdopen(fd, "w") as f: f.write(text)] *)
Definition write_handle (spill : bytes -> nat) (h : handle) (text : pystr) : io fs unit := fun f =>
  match utf8_encode text with
  | Err e => (Err e, fh_close h f)
  | Ok data => let (h, f) := fh_write spill data h f in (Ok tt, fh_close h f)
  end.
(** [try: m finally: k] for a [k] that does not raise. *)
Definition ifinally {A} (m : io world A) (k : io world unit) : io world A := fun w =>
  let (r, w) := m w in (r, snd (k w)).
End Lift.

(** ** key_storage.py *)

Definition SERVICE_NAME : pystr := py "peerc-device-identity".

Record KeyStore : Type := MkKeyStore {
  plaintext_fallback_path : path;
  backend_name : pystr
}.

Section KeyStorage.
Context `{Keyring} (spill : bytes -> nat) (umask : Z).

Definition keyring_usable : bool :=
  match kr_backend with
  | Err _ => false
  | Ok backend => negb (streq backend (py "keyring.backends.fail"))
  end.

Definition new_key_store (p : path) : KeyStore :=
  MkKeyStore p (if keyring_usable then py "keyring" else py "plaintext-file").

(** 0o600 *)
Definition OWNER_RW : Z := 0x180.

Definition save_plaintext (ks : KeyStore) (key_pem : pystr) : io world unit :=
  let p := plaintext_fallback_path ks in
  let! _ := match dirname p with
            | [] => iret tt
            | d => on_fs (makedirs d)
            end in
  let! h := os_open_mode umask OWNER_RW p in
  ifinally (on_fs (write_handle spill h key_pem)) (os_chmod p OWNER_RW).

Definition load_plaintext (ks : KeyStore) (w : world) : result (option pystr) :=
  if negb (exists_ (w_fs w) (plaintext_fallback_path ks)) then Ok None
  else let* text := read_text (w_fs w) (plaintext_fallback_path ks) in Ok (Some text).

Definition save_private_key (ks : KeyStore) (username key_pem : pystr) : io world pystr := fun w =>
  let fallback : io world pystr := let! _ := save_plaintext ks key_pem in iret (py "plaintext-file") in
  if streq (backend_name ks) (py "keyring") then
    let (r, ring') := kr_set SERVICE_NAME username key_pem (w_ring w) in
    let w := World (w_fs w) (w_mode w) ring' in
    match r with
    | Ok _ => (Ok (py "keyring"), w)
    | Err KeyringError => fallback w
    | Err e => (Err e, w)
    end
  else fallback w.

Definition load_private_key (ks : KeyStore) (username : pystr) (w : world) : result (option pystr) :=
  if streq (backend_name ks) (py "keyring") then
    match kr_get SERVICE_NAME username (w_ring w) with
    | Ok (Some value) => Ok (Some value)
    | Ok None | Err KeyringError => load_plaintext ks w
    | Err e => Err e
    end
  else load_plaintext ks w.

Definition delete_private_key (ks : KeyStore) (username : pystr) : io world unit := fun w =>
  let remove : io world unit :=
    let! found := iget (fun w => exists_ (w_fs w) (plaintext_fallback_path ks)) in
    if found then on_fs (ichange (fun f => os_remove f (plaintext_fallback_path ks))) else iret tt in
  if streq (backend_name ks) (py "keyring") then
    let (r, ring') := kr_delete SERVICE_NAME username (w_ring w) in
    let w := World (w_fs w) (w_mode w) ring' in
    match r with
    | Ok _ | Err KeyringError => remove w
    | Err e => (Err e, w)
    end
  else remove w.
End KeyStorage.

(** ** identity_file.py *)

Definition IDENTITY_SCHEMA_VERSION : Z := 1.
Definition KEYRING_USERNAME : pystr := py "device-identity".

(** The name and creation time of a loaded identity are whatever the file holds. *)
Record DeviceIdentity `{Ed25519} : Type := MkIdentity {
  di_keypair : DeviceKeypair;
  di_name : json;
  di_created_at : json;
  di_storage_backend : pystr
}.
Arguments DeviceIdentity {_}.
Arguments MkIdentity {_}.

Section IdentityFile.
Context {E : Ed25519} {K : Keyring} (spill : bytes -> nat) (umask : Z).

Definition di_device_id (d : DeviceIdentity) : pystr := kp_device_id (di_keypair d).

Definition load_existing (now : pyfloat) (identity_file : path) (ks : KeyStore) (w : world) : result DeviceIdentity :=
  let* meta := json_load identity_file (w_fs w) in
  let* pem := load_private_key ks KEYRING_USERNAME w in
  match pem with
  | None => Err IdentityError
  | Some pem =>
      let* keypair := keypair_from_private_pem pem in
      let* did := get_item (py "device_id") meta in
      if negb (bool_decide (did = JStr (kp_device_id keypair))) then Err IdentityError else
      let* name := get_item (py "name") meta in
      let* created := get_or (py "created_at") (JFloat now) meta in
      Ok (MkIdentity keypair (if truthy name then name else JStr (py "peer")) created (backend_name ks))
  end.

(** The directory of the identity file, then the file itself. *)
Definition write_metadata (identity_file : path) (meta : dict) : io world unit :=
  let! _ := match dirname identity_file with
            | [] => iret tt
            | d => on_fs (makedirs d)
            end in
  on_fs (json_dump spill identity_file (JObj meta)).

Definition metadata (keypair : DeviceKeypair) (name : json) (created_at : pyfloat) : dict :=
  [(py "version", JInt IDENTITY_SCHEMA_VERSION);
   (py "device_id", JStr (kp_device_id keypair));
   (py "public_key", JStr (b64encode (public_key_bytes keypair)));
   (py "name", name);
   (py "created_at", JFloat created_at)].

(** [fresh] is the private key drawn by the library. *)
Definition create_new (fresh : ed_priv) (now : pyfloat) (name : pystr) (identity_file : path) (ks : KeyStore)
    : io world DeviceIdentity :=
  let keypair := generate_keypair fresh in
  let! backend_used := save_private_key spill umask ks KEYRING_USERNAME (private_key_pem keypair) in
  let! _ := write_metadata identity_file (metadata keypair (JStr name) now) in
  iret (MkIdentity keypair (JStr name) (JFloat now) backend_used).

Definition load_or_create_identity (fresh : ed_priv) (now : pyfloat) (name : option pystr) (identity_file : path) (ks : KeyStore)
    : io world DeviceIdentity :=
  let! found := iget (fun w => exists_ (w_fs w) identity_file) in
  if found then iread (load_existing now identity_file ks)
  else create_new fresh now (match name with
                             | Some (c :: s) => c :: s
                             | _ => py "peer"
                             end) identity_file ks.

(** The certificate, the metadata and the event read the clock in turn; the event emitted at the end is part of the result. *)
Definition rotate_identity (fresh : ed_priv) (ts now event_now : pyfloat) (current : DeviceIdentity) (new_name : option pystr)
    (identity_file : path) (ks : KeyStore) : io world (DeviceIdentity * TransitionCertificate * list SecurityEvent) :=
  let new_keypair := generate_keypair fresh in
  let! cert := ilift (create_transition_certificate ts (di_keypair current) new_keypair) in
  let! backend_used := save_private_key spill umask ks KEYRING_USERNAME (private_key_pem new_keypair) in
  let name := match new_name with
              | Some (c :: s) => JStr (c :: s)
              | _ => di_name current
              end in
  let! _ := write_metadata identity_file
              (metadata new_keypair name now ++ [(py "rotated_from", JStr (di_device_id current))]) in
  let event := new_event KEY_ROTATION INFO
    (py "local device identity rotated from " ++ di_device_id current ++ py " to " ++ kp_device_id new_keypair)
    (Some (kp_device_id new_keypair)) event_now
    [(py "old_device_id", JStr (di_device_id current)); (py "new_device_id", JStr (kp_device_id new_keypair))] in
  iret (MkIdentity new_keypair name (JFloat now) backend_used, cert, [event]).
End IdentityFile.

(** ** discovery.py's use of the identity file *)

Definition save_identity (spill : bytes -> nat) (peer_id name : pystr) (config_path : path) : io fs unit :=
  let! found := iget (fun f => exists_ f config_path) in
  if negb found then iret tt else
  let! meta := iread (json_load config_path) in
  let! did := ilift (get_item (py "device_id") meta) in
  if negb (bool_decide (did = JStr peer_id)) then iraise ValueError else
  match meta with
  | JObj kvs => json_dump spill config_path (JObj (dict_set (py "name") (JStr name) kvs))
  | _ => iraise TypeError
  end.

Definition discovery_load_or_create_identity {E : Ed25519} {K : Keyring} (spill : bytes -> nat) (umask : Z)
    (fresh : ed_priv) (now : pyfloat) (hostname : pystr) (config_path : path) (ks : KeyStore) : io world (pystr * json) :=
  let! d := load_or_create_identity spill umask fresh now (Some hostname) config_path ks in
  iret (di_device_id d, di_name d).

(** ** What is stored *)

(** Every readable file other than [p] keeps its content. *)
Definition keeps_files (p : path) (f f' : fs) : Prop := forall q c, q <> p -> read_file f q = Ok c -> read_file f' q = Ok c.

Lemma write_text_inv spill p s f f' :
  write_text spill p s f = (Ok tt, f') -> fs_ok f -> plain_text s -> wrote p (map z2b s) f f'.
Proof.
  intros E Hf Hs. destruct (isdir f p) eqn:Hd.
  - rewrite write_text_eq in E. unfold open_wb, isdir in *. by destruct (fs_names f !! p) as [[]|].
  - destruct (write_text_wrote spill p s f Hf Hd Hs) as (f2 & E2 & Hw). rewrite E in E2. by injection E2 as <-.
Qed.

Lemma dirs_then f p d f1 f2 c :
  fs_ok f -> makedirs d f = (Ok tt, f1) -> wrote p c f1 f2 -> keeps_files p f f2.
Proof.
  intros Hf Hm (_ & Hs & _) q x Hq Hr. rewrite Hs by done. eapply dirs_added_read; [|done].
  pose proof (makedirs_added d f) as Ha. by rewrite Hm in Ha.
Qed.

Section Stored.
Context {K : Keyring} {KL : KeyringLaws K} (spill : bytes -> nat) (umask : Z) (ks : KeyStore).
Let keyfile := plaintext_fallback_path ks.

Lemma save_plaintext_stores pem w w' :
  fs_ok (w_fs w) -> plain_text pem -> save_plaintext spill umask ks pem w = (Ok tt, w') ->
  fs_ok (w_fs w') /\ read_file (w_fs w') keyfile = Ok (map z2b pem) /\ w_ring w' = w_ring w /\
  w_mode w' !! keyfile = Some OWNER_RW /\ keeps_files keyfile (w_fs w) (w_fs w').
Proof.
  intros Hf Hp. unfold save_plaintext. fold keyfile. intros E. apply ibind_ok in E as ([] & w1 & Ed & E).
  assert (w_ring w1 = w_ring w /\ fs_ok (w_fs w1) /\
    forall q c, read_file (w_fs w) q = Ok c -> read_file (w_fs w1) q = Ok c) as (Hr1 & Hf1 & Hk1).
  { destruct (dirname keyfile) as [|x d]; [by injection Ed as <-|]. unfold on_fs in Ed.
    pose proof (makedirs_added (x :: d) (w_fs w)) as Ha.
    destruct (makedirs (x :: d) (w_fs w)) as [r f1]. injection Ed as -> <-. cbn in *.
    split_and!; [done|by eapply dirs_added_ok|]. intros q c. by eapply dirs_added_read. }
  apply ibind_ok in E as (h & w2 & Eo & E). unfold os_open_mode in Eo.
  destruct (open_wb (w_fs w1) keyfile) as [[h' f2]|] eqn:Ew; [|done]. injection Eo as -> <-.
  apply open_wb_spec in Ew as Ho; [|done]. unfold ifinally, on_fs, write_handle in E. cbn [w_fs w_ring w_mode] in E.
  rewrite utf8_encode_ascii in E by by apply plain_ascii.
  pose proof (fh_write_opened spill (map z2b pem) _ _ _ _ Ho) as Hw.
  destruct (fh_write spill (map z2b pem) h f2) as [h3 f3]. injection E as <-. cbn [os_chmod iset snd w_fs w_ring w_mode].
  destruct (close_wrote _ _ _ _ _ Hw) as (H1 & H2 & H3). split_and!; [done|done|done|by rewrite lookup_insert_eq|].
  intros q c Hq Hr. rewrite H2 by done. auto.
Qed.

(** Nothing in the keyring hides the fallback file. *)
Definition fallback_clear (w : world) : Prop :=
  backend_name ks <> py "keyring" \/ kr_get SERVICE_NAME KEYRING_USERNAME (w_ring w) = Ok None \/
  kr_get SERVICE_NAME KEYRING_USERNAME (w_ring w) = Err KeyringError.

Definition key_stored (pem : pystr) (w : world) : Prop :=
  backend_name ks = py "keyring" /\ kr_get SERVICE_NAME KEYRING_USERNAME (w_ring w) = Ok (Some pem) \/
  fallback_clear w /\ read_file (w_fs w) keyfile = Ok (map z2b pem).

Lemma key_stored_loads pem w : plain_text pem -> key_stored pem w -> load_private_key ks KEYRING_USERNAME w = Ok (Some pem).
Proof.
  intros Hp. unfold load_private_key. intros [[-> ->]|[Hc Hr]]; [done|].
  assert (load_plaintext ks w = Ok (Some pem)) as Hl.
  { unfold load_plaintext. fold keyfile. rewrite (read_text_plain _ _ pem) by done.
    destruct (exists_ (w_fs w) keyfile) eqn:Ex; [done|]. apply exists_read in Ex. congruence. }
  destruct (streq _ _) eqn:Es; [|done]. apply streq_spec in Es. destruct Hc as [?|[-> | ->]]; done.
Qed.

Lemma key_stored_kept p pem w w' :
  p <> keyfile -> w_ring w' = w_ring w -> keeps_files p (w_fs w) (w_fs w') -> key_stored pem w -> key_stored pem w'.
Proof.
  intros Hp Hr Hk. unfold key_stored, fallback_clear. rewrite Hr. intros [?|[? Hf]]; [by left|right].
  split; [done|]. apply Hk; [by apply not_eq_sym|done].
Qed.

Lemma save_private_key_stores pem w b w' :
  fs_ok (w_fs w) -> plain_text pem -> save_private_key spill umask ks KEYRING_USERNAME pem w = (Ok b, w') ->
  b = py "keyring" \/ fallback_clear w ->
  key_stored pem w' /\ fs_ok (w_fs w') /\ keeps_files keyfile (w_fs w) (w_fs w') /\
  (b = py "plaintext-file" -> w_mode w' !! keyfile = Some OWNER_RW).
Proof.
  intros Hf Hp E Hb.
  assert (forall w0, w_fs w0 = w_fs w -> fallback_clear w0 ->
    (let! _ := save_plaintext spill umask ks pem in iret (py "plaintext-file")) w0 = (Ok b, w') ->
    key_stored pem w' /\ fs_ok (w_fs w') /\ keeps_files keyfile (w_fs w) (w_fs w') /\
    (b = py "plaintext-file" -> w_mode w' !! keyfile = Some OWNER_RW)) as Hfall.
  { intros w0 Hw0 Hc E0. apply ibind_ok in E0 as ([] & w1 & Es & [= <- <-]).
    apply save_plaintext_stores in Es as (H1 & H2 & H3 & H4 & H5); [|by rewrite Hw0|done].
    rewrite Hw0 in H5. split_and!; [|done..]. right. split; [|done]. unfold fallback_clear. by rewrite H3. }
  unfold save_private_key in E. destruct (streq (backend_name ks) (py "keyring")) eqn:Es.
  - apply streq_spec in Es. destruct (kr_set _ _ _ _) as [[[]|e] r] eqn:Ek.
    + injection E as <- <-. split_and!; [|done|by intros q|done]. left. split; [done|]. by eapply kr_get_set.
    + assert (fallback_clear w -> fallback_clear (World (w_fs w) (w_mode w) r)) as Hc.
      { unfold fallback_clear. cbn. by rewrite (kr_get_failed_set _ _ _ _ _ _ Ek). }
      destruct e; try done. apply (Hfall (World (w_fs w) (w_mode w) r)); [done| |done].
      apply Hc. destruct Hb as [->|]; [|done]. apply ibind_ok in E as (? & ? & _ & [=]).
  - apply (Hfall w); [done| |done]. left. intros Eb. rewrite Eb in Es. done.
Qed.
End Stored.

(** ** Loading what was stored *)

Section Identities.
Context {E : Ed25519} {EL : Ed25519Laws E} {K : Keyring} {KL : KeyringLaws K}.
Context (spill : bytes -> nat) (umask : Z) (ks : KeyStore) (identity_file : path).
Let keyfile := plaintext_fallback_path ks.

Lemma write_metadata_stores meta w w' :
  fs_ok (w_fs w) -> json_ok (JObj meta) = true -> write_metadata spill identity_file meta w = (Ok tt, w') ->
  fs_ok (w_fs w') /\ json_load identity_file (w_fs w') = Ok (JObj meta) /\ exists_ (w_fs w') identity_file = true /\
  w_ring w' = w_ring w /\ w_mode w' = w_mode w /\ keeps_files identity_file (w_fs w) (w_fs w').
Proof.
  intros Hf Hm Ew. unfold write_metadata in Ew. apply ibind_ok in Ew as ([] & w1 & Ed & Ew).
  assert (w_ring w1 = w_ring w /\ w_mode w1 = w_mode w /\ fs_ok (w_fs w1) /\
    forall q c, read_file (w_fs w) q = Ok c -> read_file (w_fs w1) q = Ok c) as (Hr1 & Hm1 & Hf1 & Hk1).
  { destruct (dirname identity_file) as [|x d]; [by injection Ed as <-|]. unfold on_fs in Ed.
    pose proof (makedirs_added (x :: d) (w_fs w)) as Ha.
    destruct (makedirs (x :: d) (w_fs w)) as [r f1]. injection Ed as -> <-. cbn in *.
    split_and!; [done|done|by eapply dirs_added_ok|]. intros q c. by eapply dirs_added_read. }
  unfold on_fs in Ew. destruct (json_dump spill identity_file (JObj meta) (w_fs w1)) as [r f2] eqn:Ej.
  injection Ew as -> <-. cbn. apply write_text_inv in Ej as (H1 & H2 & H3); [|done|by apply dumps_indent_plain].
  split_and!; [done|by apply json_load_written| |done|done|].
  - apply not_false_iff_true. rewrite exists_read. congruence.
  - intros q c Hq Hr. rewrite H2 by done. auto.
Qed.

(** The metadata of an identity, with whatever follows it. *)
Definition describes (meta : dict) (keypair : DeviceKeypair) (name : json) (now : pyfloat) : Prop :=
  dict_get (py "device_id") meta = Some (JStr (kp_device_id keypair)) /\ dict_get (py "name") meta = Some name /\
  dict_get (py "created_at") meta = Some (JFloat now).

Lemma stored_identity_loads meta fresh name now now' w :
  json_load identity_file (w_fs w) = Ok (JObj meta) -> describes meta (generate_keypair fresh) name now ->
  truthy name = true -> key_stored ks (private_key_pem (generate_keypair fresh)) w ->
  load_existing now' identity_file ks w = Ok (MkIdentity (generate_keypair fresh) name (JFloat now) (backend_name ks)).
Proof.
  intros Hj (Hd & Hn & Hc) Ht Hk. unfold load_existing. rewrite Hj. cbn [rbind].
  rewrite (key_stored_loads ks _ w (ed_to_pem_text _) Hk). cbn [rbind].
  change (ed_to_pem _) with (private_key_pem (generate_keypair fresh)). rewrite keypair_from_to_pem.
  change (kp_private (generate_keypair fresh)) with fresh. cbn [rbind]. fold (generate_keypair fresh).
  unfold get_item, get_or. rewrite Hd, Hn, Hc. cbn [rbind default].
  rewrite bool_decide_eq_true_2 by done. cbn [negb rbind]. unfold id. by rewrite Ht.
Qed.

Lemma metadata_describes keypair name now extra : describes (metadata keypair name now ++ extra) keypair name now.
Proof. split_and!; reflexivity. Qed.

Lemma kp_id_ok k : str_ok (kp_device_id (generate_keypair k)) = true.
Proof. apply printable_str_ok, device_id_printable. Qed.

Lemma metadata_ok k name now extra :
  json_ok name = true -> float_ok now = true ->
  extra = [] \/ (exists s, extra = [(py "rotated_from", JStr s)] /\ str_ok s = true) ->
  json_ok (JObj (metadata (generate_keypair k) name now ++ extra)) = true.
Proof.
  intros Hn Hf Hx. cbn [json_ok]. apply andb_true_iff. split.
  - destruct Hx as [->|(s & -> & _)]; vm_compute; done.
  - rewrite forallb_app. apply andb_true_iff. split.
    + unfold metadata. cbn [forallb fst snd json_ok]. rewrite Hn, Hf, kp_id_ok, (printable_str_ok (b64encode _)) by apply b64encode_printable.
      vm_compute. done.
    + destruct Hx as [->|(s & -> & Hs)]; [done|]. cbn [forallb fst snd json_ok]. rewrite Hs. vm_compute. done.
Qed.

(** Saving a key and then the metadata that describes it makes the identity loadable. *)
Lemma stored_then_loads fresh name now extra w b w1 w2 :
  identity_file <> keyfile -> fs_ok (w_fs w) ->
  json_ok (JObj (metadata (generate_keypair fresh) name now ++ extra)) = true -> truthy name = true ->
  save_private_key spill umask ks KEYRING_USERNAME (private_key_pem (generate_keypair fresh)) w = (Ok b, w1) ->
  b = py "keyring" \/ fallback_clear ks w ->
  write_metadata spill identity_file (metadata (generate_keypair fresh) name now ++ extra) w1 = (Ok tt, w2) ->
  fs_ok (w_fs w2) /\ (b = py "plaintext-file" -> w_mode w2 !! keyfile = Some OWNER_RW) /\
  (forall umask' fresh' now' name',
    load_or_create_identity spill umask' fresh' now' name' identity_file ks w2
    = (Ok (MkIdentity (generate_keypair fresh) name (JFloat now) (backend_name ks)), w2)).
Proof.
  intros Hne Hf Hj Ht Es Hb Ew.
  destruct (save_private_key_stores spill umask ks _ w b w1 Hf (ed_to_pem_text _) Es Hb) as (Hk & Hf1 & _ & Hm).
  destruct (write_metadata_stores _ w1 w2 Hf1 Hj Ew) as (Hf2 & Hl & Hx & Hr & Hmode & Hkeep).
  split_and!; [done|intros Eb; rewrite Hmode; auto|]. intros umask' fresh' now' name'.
  unfold load_or_create_identity. unfold ibind, iget. rewrite Hx. unfold iread. f_equal.
  eapply stored_identity_loads; [done|apply metadata_describes|done|]. by eapply key_stored_kept.
Qed.
End Identities.

(** What the first run stores, every later run loads. *)
Lemma first_run_persists (E : Ed25519) (EL : Ed25519Laws E) (K : Keyring) (KL : KeyringLaws K)
    spill umask fresh now name identity_file ks w d w1 :
  fs_ok (w_fs w) -> exists_ (w_fs w) identity_file = false -> identity_file <> plaintext_fallback_path ks ->
  (forall s, name = Some s -> str_ok s = true) -> float_ok now = true -> fallback_clear ks w ->
  load_or_create_identity spill umask fresh now name identity_file ks w = (Ok d, w1) ->
  di_keypair d = generate_keypair fresh /\
  di_name d = JStr (match name with Some (c :: s) => c :: s | _ => py "peer" end) /\
  (forall umask' fresh' now' name', load_or_create_identity spill umask' fresh' now' name' identity_file ks w1
     = (Ok (MkIdentity (di_keypair d) (di_name d) (di_created_at d) (backend_name ks)), w1)) /\
  (di_storage_backend d = py "plaintext-file" -> w_mode w1 !! plaintext_fallback_path ks = Some OWNER_RW).
Proof.
  intros Hf Hx Hne Hname Hnow Hc El. unfold load_or_create_identity in El. unfold ibind at 1, iget in El. rewrite Hx in El.
  set (s := match name with Some (c :: s) => c :: s | _ => py "peer" end) in *.
  assert (str_ok s = true /\ truthy (JStr s) = true) as [Hs Ht].
  { destruct name as [[|c t]|]; [done| |done]. split; [by apply Hname|done]. }
  unfold create_new in El. apply ibind_ok in El as (b & w2 & Es & El). apply ibind_ok in El as ([] & w3 & Ew & [= <- <-]).
  rewrite <- (app_nil_r (metadata _ _ _)) in Ew.
  destruct (stored_then_loads spill umask ks identity_file fresh (JStr s) now [] w b w2 w3) as (_ & Hm & Hl); try done.
  { apply metadata_ok; [done|done|by left]. }
  { by right. }
Qed.

(** C30: the device identity is stable. After a first run that succeeded, with no
    key of an earlier identity in the keyring, every later run, whatever name it
    asks for, returns the same keypair, name and creation time and changes
    nothing; and a key kept in the fallback file is readable by its owner only. *)
Theorem identity_persists (E : Ed25519) (EL : Ed25519Laws E) (K : Keyring) (KL : KeyringLaws K)
    spill umask fresh now name identity_file ks w d w1 :
  fs_ok (w_fs w) -> exists_ (w_fs w) identity_file = false -> identity_file <> plaintext_fallback_path ks ->
  (forall s, name = Some s -> str_ok s = true) -> float_ok now = true -> fallback_clear ks w ->
  load_or_create_identity spill umask fresh now name identity_file ks w = (Ok d, w1) ->
  di_keypair d = generate_keypair fresh /\
  (forall umask' fresh' now' name', load_or_create_identity spill umask' fresh' now' name' identity_file ks w1
     = (Ok (MkIdentity (di_keypair d) (di_name d) (di_created_at d) (backend_name ks)), w1)) /\
  (di_storage_backend d = py "plaintext-file" -> w_mode w1 !! plaintext_fallback_path ks = Some OWNER_RW).
Proof. intros Hf Hx Hne Hname Hnow Hc El. by destruct (first_run_persists E EL K KL spill umask fresh now name identity_file ks w d w1 Hf Hx Hne Hname Hnow Hc El) as (? & _ & ? & ?). Qed.

(** Key rotation takes effect and stays verifiable. A rotation that succeeded,
    with the new key in the keyring or no older key hiding the fallback file,
    leaves a device whose every later run loads the new keypair, and returns a
    certificate from the old to the new device id that verifies. *)
Theorem rotation_persists (E : Ed25519) (EL : Ed25519Laws E) (K : Keyring) (KL : KeyringLaws K)
    spill umask fresh ts now ev_now current new_name identity_file ks w d cert evs w1 exn_text vnow :
  fs_ok (w_fs w) -> identity_file <> plaintext_fallback_path ks -> kp_wf (di_keypair current) ->
  json_ok (di_name current) = true -> truthy (di_name current) = true ->
  (forall s, new_name = Some s -> str_ok s = true) -> float_ok now = true ->
  rotate_identity spill umask fresh ts now ev_now current new_name identity_file ks w = (Ok (d, cert, evs), w1) ->
  di_storage_backend d = py "keyring" \/ fallback_clear ks w ->
  di_keypair d = generate_keypair fresh /\
  (forall umask' fresh' now' name', load_or_create_identity spill umask' fresh' now' name' identity_file ks w1
     = (Ok (MkIdentity (di_keypair d) (di_name d) (di_created_at d) (backend_name ks)), w1)) /\
  old_device_id cert = di_device_id current /\ new_device_id cert = di_device_id d /\
  di_device_id d <> di_device_id current /\
  verify_transition_certificate exn_text vnow cert = (true, []).
Proof.
  intros Hf Hne Hwf Hjn Htn Hname Hnow Er Hb. unfold rotate_identity in Er.
  apply ibind_ok in Er as (c & w0 & Ec & Er). injection Ec as Ec <-. apply ibind_ok in Er as (b & w2 & Es & Er).
  set (name := match new_name with Some (c :: s) => JStr (c :: s) | _ => di_name current end) in *.
  assert (json_ok name = true /\ truthy name = true) as [Hj Ht].
  { destruct new_name as [[|x t]|]; [done| |done]. split; [by apply (Hname (x :: t))|done]. }
  apply ibind_ok in Er as ([] & w3 & Ew & Er). injection Er as <- <- <- <-. cbn [di_storage_backend di_keypair di_name di_created_at] in *.
  assert (kp_device_id (di_keypair current) <> kp_device_id (generate_keypair fresh)) as Hid.
  { intros Eid. unfold create_transition_certificate in Ec. rewrite Eid in Ec.
    by rewrite (proj2 (streq_spec _ _) eq_refl) in Ec. }
  destruct (create_ok ts (di_keypair current) (generate_keypair fresh) c Hwf (keypair_wf fresh) Ec) as (_ & _ & _ & Ho & Hn & _).
  destruct (stored_then_loads spill umask ks identity_file fresh name now [(py "rotated_from", JStr (di_device_id current))]
    w b w2 w3) as (_ & _ & Hl); try done.
  { apply metadata_ok; [done|done|]. right. eexists. split; [done|]. unfold di_device_id. rewrite Hwf.
    apply printable_str_ok, device_id_printable. }
  split_and!; [done|exact Hl|done|done|by apply not_eq_sym|]. by eapply create_verifies, Ec; [|apply keypair_wf].
Qed.

(** When the keyring refuses to store (it is locked, or the user dismisses the
    prompt) while it still holds an older key, the new key goes to the fallback
    file but every later load prefers the older one: a rotation that reported
    success leaves a device that can no longer load its identity. *)
Theorem stale_keyring_locks_out (E : Ed25519) (EL : Ed25519Laws E) (K : Keyring) (KL : KeyringLaws K)
    spill umask fresh ts now ev_now current new_name identity_file ks w r d cert evs w1 :
  fs_ok (w_fs w) -> json_ok (di_name current) = true ->
  (forall s, new_name = Some s -> str_ok s = true) -> float_ok now = true ->
  backend_name ks = py "keyring" ->
  di_keypair current = keypair_from_private_key (kp_private (di_keypair current)) ->
  kr_get SERVICE_NAME KEYRING_USERNAME (w_ring w) = Ok (Some (private_key_pem (di_keypair current))) ->
  kr_set SERVICE_NAME KEYRING_USERNAME (private_key_pem (generate_keypair fresh)) (w_ring w) = (Err KeyringError, r) ->
  rotate_identity spill umask fresh ts now ev_now current new_name identity_file ks w = (Ok (d, cert, evs), w1) ->
  forall fresh' now' name', load_or_create_identity spill umask fresh' now' name' identity_file ks w1 = (Err IdentityError, w1).
Proof.
  intros Hf Hjn Hname Hnow Hbk Hkp Hget Hset Er fresh' now' name'.
  assert (kp_wf (di_keypair current)) as Hwf by (rewrite Hkp; apply keypair_wf). unfold rotate_identity in Er.
  apply ibind_ok in Er as (c & w0 & Ec & Er). injection Ec as Ec <-. apply ibind_ok in Er as (b & w2 & Es & Er).
  set (name := match new_name with Some (c :: s) => JStr (c :: s) | _ => di_name current end) in *.
  assert (json_ok name = true) as Hj by (destruct new_name as [[|x t]|]; [done|by apply (Hname (x :: t))|done]).
  apply ibind_ok in Er as ([] & w3 & Ew & Er). injection Er as <- <- <- <-.
  assert (kp_device_id (di_keypair current) <> kp_device_id (generate_keypair fresh)) as Hid.
  { intros Eid. unfold create_transition_certificate in Ec. rewrite Eid in Ec.
    by rewrite (proj2 (streq_spec _ _) eq_refl) in Ec. }
  assert (w_ring w2 = r /\ fs_ok (w_fs w2)) as [Hr2 Hf2].
  { unfold save_private_key in Es. rewrite Hbk, Hset in Es. apply ibind_ok in Es as ([] & w4 & Es & [= _ <-]).
    apply save_plaintext_stores in Es as (H1 & _ & H3 & _); [done|done|apply ed_to_pem_text]. }
  apply (write_metadata_stores spill) in Ew as (_ & Hl & Hx & Hr3 & _ & _); [|done|].
  2:{ apply metadata_ok; [done|done|]. right. eexists. split; [done|]. unfold di_device_id. rewrite Hwf.
      apply printable_str_ok, device_id_printable. }
  unfold load_or_create_identity, ibind, iget. rewrite Hx. unfold iread. f_equal.
  unfold load_existing. rewrite Hl. cbn [rbind]. unfold load_private_key. rewrite Hbk, Hr3, Hr2.
  rewrite (kr_get_failed_set _ _ _ _ _ _ Hset), Hget.
  change (streq (py "keyring") (py "keyring")) with true. cbn [rbind].
  rewrite keypair_from_to_pem. cbn [rbind]. rewrite <- Hkp.
  match goal with |- context [get_item ?k (JObj ?m)] =>
    change (get_item k (JObj m)) with (Ok (JStr (kp_device_id (generate_keypair fresh)))) end.
  cbn [rbind]. rewrite bool_decide_eq_false_2; [done|]. intros Ei. apply Hid. by injection Ei.
Qed.

(** ** Renaming *)

(** Renaming keeps the identity. Given the device's own id, [save_identity]
    succeeds, and the identity loaded afterwards differs from the one before in
    its name only; given any other id it raises and leaves the file alone. *)
Theorem rename_keeps_identity (E : Ed25519) (K : Keyring) spill now identity_file ks w meta d c name :
  fs_ok (w_fs w) -> identity_file <> plaintext_fallback_path ks ->
  json_load identity_file (w_fs w) = Ok (JObj meta) -> json_ok (JObj meta) = true ->
  load_existing now identity_file ks w = Ok d -> str_ok (c :: name) = true ->
  (exists f', save_identity spill (di_device_id d) (c :: name) identity_file (w_fs w) = (Ok tt, f') /\
     load_existing now identity_file ks (World f' (w_mode w) (w_ring w))
     = Ok (MkIdentity (di_keypair d) (JStr (c :: name)) (di_created_at d) (di_storage_backend d))) /\
  (forall other, other <> di_device_id d ->
     save_identity spill other (c :: name) identity_file (w_fs w) = (Err ValueError, w_fs w)).
Proof.
  intros Hf Hne Hj Hok Hl Hn. unfold load_existing in Hl. rewrite Hj in Hl. cbn [rbind] in Hl.
  destruct (load_private_key ks KEYRING_USERNAME w) as [[pem|]|] eqn:Ek; cbn [rbind] in Hl; [|done..].
  destruct (keypair_from_private_pem pem) as [kp|] eqn:Ep; cbn [rbind] in Hl; [|done].
  destruct (get_item (py "device_id") (JObj meta)) as [did|] eqn:Ed; cbn [rbind] in Hl; [|done].
  destruct (bool_decide_reflect (did = JStr (kp_device_id kp))) as [->|]; cbn [negb] in Hl; [|done].
  unfold get_item, get_or in Hl. cbn [rbind] in Hl. injection Hl as <-.
  cbn [di_keypair di_device_id di_created_at di_storage_backend].
  assert (exists_ (w_fs w) identity_file = true /\ isdir (w_fs w) identity_file = false) as [Hx Hd].
  { unfold json_load, read_text, read_file, exists_, isdir in *.
    destruct (fs_names (w_fs w) !! identity_file) as [[]|]; [|done..]. split; [by apply bool_decide_eq_true_2|done]. }
  unfold save_identity. unfold ibind, iget. rewrite Hx. unfold iread. cbn [negb]. rewrite Hj.
  unfold ilift. rewrite Ed. split.
  - rewrite bool_decide_eq_true_2 by done. cbn [negb].
    set (meta' := dict_set (py "name") (JStr (c :: name)) meta).
    assert (json_ok (JObj meta') = true) as Hok' by (apply json_ok_dict_set; [done|exact Hn|done]).
    destruct (json_dump_wrote spill identity_file (JObj meta') (w_fs w) Hf Hd Hok') as (f' & Ef & Hw).
    exists f'. split; [exact Ef|]. destruct Hw as (_ & Hs & Hr). unfold load_existing. cbn [w_fs].
    rewrite (json_load_written _ _ _ Hok' Hr). cbn [rbind].
    replace (load_private_key ks KEYRING_USERNAME (World f' (w_mode w) (w_ring w))) with (load_private_key ks KEYRING_USERNAME w).
    2:{ unfold load_private_key, load_plaintext, read_text, exists_. cbn [w_fs w_ring].
        assert (read_file f' (plaintext_fallback_path ks) = read_file (w_fs w) (plaintext_fallback_path ks)) as Er
          by (apply Hs; by apply not_eq_sym).
        rewrite Er. replace (bool_decide (is_Some (fs_names f' !! plaintext_fallback_path ks)))
          with (bool_decide (is_Some (fs_names (w_fs w) !! plaintext_fallback_path ks))); [done|].
        apply bool_decide_ext. unfold read_file in Er.
        destruct (fs_names f' !! _) as [[]|], (fs_names (w_fs w) !! _) as [[]|]; try done; naive_solver. }
    rewrite Ek. cbn [rbind]. rewrite Ep. cbn [rbind]. unfold get_item, get_or, meta'. rewrite !dict_get_set.
    change (streq (py "device_id") (py "name")) with false. change (streq (py "created_at") (py "name")) with false.
    change (streq (py "name") (py "name")) with true. unfold get_item, get_or in Ed. cbn [rbind]. injection Ed as Ed. rewrite Ed.
    rewrite bool_decide_eq_true_2 by done. done.
  - intros other Ho. rewrite bool_decide_eq_false_2; [done|]. intros Eo. apply Ho. by injection Eo.
Qed.

(** ** Examples *)

Definition demo_store : KeyStore := MkKeyStore (py "/h/.peerc/device_key.pem") (py "keyring").
Definition demo_identity_file : path := py "/h/.peerc/identity.json".
(** An empty disk, a keyring that stores or refuses to, and what it holds. *)
Definition demo_world (refuses : bool) (keys : list N) : @world toy_keyring :=
  @World toy_keyring empty_fs ∅
    (refuses, map (fun n => (SERVICE_NAME, KEYRING_USERNAME, @ed_to_pem toy_ed25519 n)) keys).

Definition demo_run (fresh : N) (name : option pystr) (w : @world toy_keyring) : result (@DeviceIdentity toy_ed25519) * @world toy_keyring :=
  load_or_create_identity (E := toy_ed25519) (K := toy_keyring) length 0 fresh (float_of_int 5) name demo_identity_file demo_store w.
Definition demo_current : @DeviceIdentity toy_ed25519 :=
  MkIdentity (@generate_keypair toy_ed25519 7%N) (JStr (py "alice")) (JFloat (float_of_int 5)) (py "keyring").
Definition demo_rotate (w : @world toy_keyring) :=
  rotate_identity (E := toy_ed25519) (K := toy_keyring) length 0 9%N (float_of_int 6) (float_of_int 7) (float_of_int 8)
    demo_current None demo_identity_file demo_store w.

Lemma identity_persists_witness :
  exists d w1, demo_run 7%N (Some (py "alice")) (demo_world true []) = (Ok d, w1) /\
    demo_run 8%N None w1 = (Ok (MkIdentity (di_keypair d) (di_name d) (di_created_at d) (py "keyring")), w1).
Proof.
  assert (is_ok (fst (demo_run 7%N (Some (py "alice")) (demo_world true []))) = true) as Hok by (vm_compute; reflexivity).
  destruct (demo_run 7%N (Some (py "alice")) (demo_world true [])) as [[d|e] w1] eqn:Hc; [|done].
  exists d, w1. split; [reflexivity|].
  apply (identity_persists toy_ed25519 toy_ed25519_laws toy_keyring toy_keyring_laws length 0 7%N (float_of_int 5)
    (Some (py "alice")) demo_identity_file demo_store (demo_world true [])).
  - apply empty_fs_ok.
  - vm_compute. reflexivity.
  - discriminate.
  - intros s [= <-]. vm_compute. reflexivity.
  - vm_compute. reflexivity.
  - right. left. vm_compute. reflexivity.
  - exact Hc.
Defined.

Lemma rotation_persists_witness :
  exists d cert evs w1, demo_rotate (demo_world false [7%N]) = (Ok (d, cert, evs), w1) /\
    @verify_transition_certificate toy_ed25519 (fun _ => []) (float_of_int 9) cert = (true, []) /\
    fst (demo_run 8%N None w1) = Ok (MkIdentity (di_keypair d) (di_name d) (di_created_at d) (py "keyring")).
Proof.
  assert (match fst (demo_rotate (demo_world false [7%N])) with
          | Ok (d, _, _) => streq (di_storage_backend d) (py "keyring")
          | Err _ => false
          end = true) as Hok by (vm_compute; reflexivity).
  destruct (demo_rotate (demo_world false [7%N])) as [[[[d cert] evs]|e] w1] eqn:Hc; [|done].
  cbn [fst] in Hok. apply streq_spec in Hok.
  destruct (rotation_persists toy_ed25519 toy_ed25519_laws toy_keyring toy_keyring_laws length 0 9%N (float_of_int 6)
    (float_of_int 7) (float_of_int 8) demo_current None demo_identity_file demo_store (demo_world false [7%N]) d cert evs w1
    (fun _ => []) (float_of_int 9)) as (_ & Hl & _ & _ & _ & Hv).
  - apply empty_fs_ok.
  - discriminate.
  - reflexivity.
  - vm_compute. reflexivity.
  - vm_compute. reflexivity.
  - intros s Hs. discriminate Hs.
  - vm_compute. reflexivity.
  - exact Hc.
  - left. exact Hok.
  - exists d, cert, evs, w1. split; [reflexivity|]. split; [exact Hv|]. unfold demo_run. by rewrite Hl.
Defined.

Lemma stale_keyring_locks_out_witness :
  exists r w1, demo_rotate (demo_world true [7%N]) = (Ok r, w1) /\ demo_run 8%N None w1 = (Err IdentityError, w1).
Proof.
  assert (is_ok (fst (demo_rotate (demo_world true [7%N]))) = true) as Hok by (vm_compute; reflexivity).
  destruct (demo_rotate (demo_world true [7%N])) as [[[[d cert] evs]|e] w1] eqn:Hc; [|done].
  exists (d, cert, evs), w1. split; [reflexivity|].
  apply (stale_keyring_locks_out toy_ed25519 toy_ed25519_laws toy_keyring toy_keyring_laws length 0 9%N (float_of_int 6)
    (float_of_int 7) (float_of_int 8) demo_current None demo_identity_file demo_store (demo_world true [7%N])
    (w_ring (demo_world true [7%N])) d cert evs w1).
  - apply empty_fs_ok.
  - vm_compute. reflexivity.
  - intros s Hs. discriminate Hs.
  - vm_compute. reflexivity.
  - reflexivity.
  - reflexivity.
  - vm_compute. reflexivity.
  - reflexivity.
  - exact Hc.
Defined.

(** The backend reported after the first run is the preferred one, not the one in use. *)
Lemma fallback_reported_as_keyring :
  let (r, w1) := demo_run 7%N (Some (py "alice")) (demo_world true []) in
  let (r2, w2) := demo_run 8%N None w1 in
  match r, r2 with
  | Ok d, Ok d2 => streq (di_storage_backend d) (py "plaintext-file") && streq (di_storage_backend d2) (py "keyring")
                   && bool_decide (read_text (w_fs w2) (plaintext_fallback_path demo_store) = Ok (private_key_pem (di_keypair d2)))
  | _, _ => false
  end = true.
Proof. vm_compute. reflexivity. Qed.

Definition demo_meta : dict := metadata (@generate_keypair toy_ed25519 7%N) (JStr (py "alice")) (float_of_int 5).
Definition demo_stored : @world toy_keyring :=
  @World toy_keyring (Disk {[demo_identity_file := EFile 0]} {[0%nat := map z2b (dumps_indent (JObj demo_meta))]} 1) ∅
    (w_ring (demo_world false [7%N])).

Lemma rename_keeps_identity_witness :
  exists f', save_identity length (di_device_id demo_current) (py "bob") demo_identity_file (w_fs demo_stored) = (Ok tt, f') /\
    load_existing (float_of_int 6) demo_identity_file demo_store (@World toy_keyring f' ∅ (w_ring demo_stored))
    = Ok (MkIdentity (di_keypair demo_current) (JStr (py "bob")) (di_created_at demo_current) (py "keyring")).
Proof.
  apply (rename_keeps_identity toy_ed25519 toy_keyring length (float_of_int 6) demo_identity_file demo_store demo_stored demo_meta
    demo_current 98 (py "ob")).
  - split; unfold demo_stored; cbn [w_fs fs_names fs_next].
    + intros p i [_ [= <-]]%lookup_singleton_Some. lia.
    + intros p q i [<- _]%lookup_singleton_Some [<- _]%lookup_singleton_Some. reflexivity.
  - discriminate.
  - vm_compute. reflexivity.
  - vm_compute. reflexivity.
  - apply (stored_identity_loads (E := toy_ed25519) (K := toy_keyring) demo_store demo_identity_file demo_meta 7%N).
    + vm_compute. reflexivity.
    + rewrite <- (app_nil_r demo_meta). apply metadata_describes.
    + reflexivity.
    + left. split; [reflexivity|]. vm_compute. reflexivity.
  - vm_compute. reflexivity.
Defined.
