(* ===== verification/FloatFacts.v ===== *)
(** * Floats: sizes of mantissas, and quotients that do not overflow *)

From S2P Require Import Prelude PyFloat Json PyValue.
From stdpp Require Import base numbers.
From Stdlib Require Import ZArith Lia Floats.SpecFloat.
Open Scope Z_scope.

Lemma digits_bounds m : 2 ^ (Zpos (digits2_pos m) - 1) <= Zpos m < 2 ^ Zpos (digits2_pos m).
Proof.
  induction m as [m IH|m IH|]; cbn [digits2_pos]; [| |done]; rewrite Pos2Z.inj_succ;
    replace (Z.succ (Zpos (digits2_pos m)) - 1) with (Z.succ (Zpos (digits2_pos m) - 1)) by lia;
    rewrite !Z.pow_succ_r by lia; lia.
Qed.
Lemma digits_unique m k : 0 < k -> 2 ^ (k - 1) <= Zpos m < 2 ^ k -> Zpos (digits2_pos m) = k.
Proof.
  intros Hk Hm. pose proof (digits_bounds m) as Hd.
  assert (k - 1 < Zpos (digits2_pos m)) by (apply (Z.pow_lt_mono_r_iff 2); lia).
  assert (Zpos (digits2_pos m) - 1 < k) by (apply (Z.pow_lt_mono_r_iff 2); lia). lia.
Qed.

Lemma Zdigits_le m k : 0 <= m < 2 ^ k -> 0 <= k -> 0 <= Zdigits2 m <= k.
Proof.
  intros Hm Hk. destruct m as [|p|p]; cbn [Zdigits2]; [lia| |lia]. pose proof (digits_bounds p) as Hp.
  assert (Zpos (digits2_pos p) - 1 < k) by (apply (Z.pow_lt_mono_r_iff 2); lia). lia.
Qed.
Lemma Zdigits_lt m : 0 <= m -> m < 2 ^ Zdigits2 m.
Proof. destruct m as [|p|p]; cbn [Zdigits2]; [done| |lia]. intros _. apply digits_bounds. Qed.

(** ** Rounding does not raise the exponent by much *)

Lemma shr_1_le m mrs : 0 <= shr_m mrs <= m -> 0 <= shr_m (shr_1 mrs) <= m.
Proof. destruct mrs as [[|[p|p|]|[p|p|]] r s]; cbn; lia. Qed.
Lemma iter_shr_le m p mrs : 0 <= shr_m mrs <= m -> 0 <= shr_m (iter_pos shr_1 p mrs) <= m.
Proof. revert mrs. induction p as [p IH|p IH|]; intros mrs H; cbn [iter_pos]; [apply IH, IH, shr_1_le, H|apply IH, IH, H|by apply shr_1_le]. Qed.
Lemma shr_fexp_le m e l : 0 <= m ->
  0 <= shr_m (fst (shr_fexp 53 1024 m e l)) <= m /\ snd (shr_fexp 53 1024 m e l) <= Z.max e (fexp 53 1024 (Zdigits2 m + e)).
Proof.
  intros Hm. unfold shr_fexp. assert (shr_m (shr_record_of_loc m l) = m) as Hs by (by destruct l as [|[]]).
  set (n := fexp 53 1024 (Zdigits2 m + e) - e). destruct n as [|p|p] eqn:En; cbn [shr fst snd]; [rewrite Hs; lia| |rewrite Hs; lia].
  split; [apply iter_shr_le; rewrite Hs; lia|lia].
Qed.

Lemma round_no_overflow s m e l D :
  0 <= m < 2 ^ D -> 0 <= D <= 2000 -> e <= 900 -> D + e <= 900 -> D + Z.max e (D + e - 53) <= 900 ->
  forall b, binary_round_aux 53 1024 s m e l <> S754_infinity b.
Proof.
  intros Hm HD He HDe HDD b. unfold binary_round_aux. destruct (shr_fexp_le m e l) as [Hm1 He1]; [lia|].
  destruct (shr_fexp 53 1024 m e l) as [mrs e1]. cbn [fst snd] in *. set (m2 := round_nearest_even _ _).
  assert (0 <= m2 <= m + 1) as Hm2 by (unfold m2, round_nearest_even; destruct (loc_of_shr_record mrs) as [|[]]; try destruct (Z.even _); lia).
  destruct (shr_fexp_le m2 e1 loc_Exact) as [_ He2]; [lia|]. destruct (shr_fexp 53 1024 m2 e1 loc_Exact) as [mrs2 e2]. cbn [fst snd] in *.
  pose proof (Zdigits_le m D Hm ltac:(lia)) as Hd.
  assert (0 <= Zdigits2 m2 <= D + 1) as Hd2 by (apply Zdigits_le; [|lia]; rewrite Z.pow_add_r, Z.pow_1_r by lia; lia).
  unfold fexp, emin in *. destruct (shr_m mrs2); [done| |done]. rewrite (proj2 (Z.leb_le e2 _)) by lia. done.
Qed.

(** The quotient of two numbers of at most 400 bits is a float. *)
Lemma int_truediv_ok a b : 0 <= a < 2 ^ 400 -> 0 < b < 2 ^ 400 -> exists x, int_truediv a b = Ok x.
Proof.
  intros Ha Hb. unfold int_truediv. rewrite (proj2 (Z.eqb_neq b 0)) by lia. destruct (a =? 0) eqn:Ea; [eauto|]. apply Z.eqb_neq in Ea.
  rewrite !Z.abs_eq by lia. unfold SFdiv_core_binary. rewrite !Z.add_0_r, Z.sub_0_r.
  pose proof (Zdigits_le a 400 ltac:(lia) ltac:(lia)) as Hda. pose proof (Zdigits_le b 400 ltac:(lia) ltac:(lia)) as Hdb.
  set (d1 := Zdigits2 a) in *. set (d2 := Zdigits2 b) in *. set (e := Z.min (fexp 53 1024 (d1 - d2)) 0).
  assert (e = Z.min (d1 - d2 - 53) 0) as He by (unfold e, fexp, emin; lia). clearbody e.
  set (m' := match 0 - e with Zpos _ => Z.shiftl a (0 - e) | Z0 => a | Zneg _ => 0 end).
  assert (0 <= m' < 2 ^ (d1 - e)) as Hm'.
  { pose proof (Zdigits_lt a ltac:(lia)) as Hlt. fold d1 in Hlt. assert (m' = a * 2 ^ (0 - e)) as ->.
    { unfold m'. destruct (0 - e) as [|p|p] eqn:E; [cbn; lia| |lia]. by rewrite Z.shiftl_mul_pow2 by lia. }
    replace (d1 - e) with (d1 + (0 - e)) by lia. rewrite Z.pow_add_r by lia. pose proof (Z.pow_pos_nonneg 2 (0 - e)). nia. }
  pose proof (Z_div_mod m' b ltac:(lia)) as Hqr. destruct (Z.div_eucl m' b) as [q r]. destruct Hqr as [Hq Hr].
  assert (0 <= q < 2 ^ (d1 - e)) as Hq' by nia.
  pose proof (round_no_overflow (xorb (a <? 0) (b <? 0)) q e (new_location b r) (d1 - e) Hq') as Hno.
  destruct (binary_round_aux _ _ _ _ _ _) as [s|s| |s p ex]; eauto. exfalso. apply (Hno ltac:(lia) ltac:(lia) ltac:(lia) ltac:(lia) s). done.
Qed.
