(* ===== verification/PyText.v ===== *)
(** * Splitting and integer parsing of Python strings

    [str.split], [str.splitlines], [int(s, base)], sorted sets of strings and
    dotted IPv4 addresses, as the discovery component uses them. *)

From stdpp Require Import base strings list numbers option sets.
From Stdlib Require Import ZArith Lia Strings.Byte.
From S2P Require Import Prelude PyStr Json.
Open Scope Z_scope.
Open Scope peerc_scope.

(** ** Splitting *)

(** [s.split()]: the maximal runs of non-space characters; [cur] is the run read so far. *)
Fixpoint words_from (cur s : pystr) : list pystr :=
  match s with
  | [] => match cur with [] => [] | _ => [cur] end
  | c :: r => if is_space c then match cur with
                                 | [] => words_from [] r
                                 | _ => cur :: words_from [] r
                                 end
              else words_from (cur ++ [c]) r
  end.
Definition split_ws (s : pystr) : list pystr := words_from [] s.

Definition is_line_break (c : Z) : bool :=
  ((10 <=? c) && (c <=? 13)) || ((28 <=? c) && (c <=? 30)) || (c =? 0x85) || (c =? 0x2028) || (c =? 0x2029).

(** [s.splitlines()]; a final line break ends the last line. *)
Fixpoint lines_from (cur s : pystr) : list pystr :=
  match s with
  | [] => match cur with [] => [] | _ => [cur] end
  | c :: r => if c =? 13 then cur :: match r with
                                     | d :: r' => if d =? 10 then lines_from [] r' else lines_from [] r
                                     | [] => []
                                     end
              else if is_line_break c then cur :: lines_from [] r
              else lines_from (cur ++ [c]) r
  end.
Definition splitlines (s : pystr) : list pystr := lines_from [] s.

(** [f.readlines()] of a text file, without the line ends. *)
Fixpoint readlines_from (cur s : pystr) : list pystr :=
  match s with
  | [] => match cur with [] => [] | _ => [cur] end
  | c :: r => if c =? 10 then cur :: readlines_from [] r else readlines_from (cur ++ [c]) r
  end.
Definition readlines (s : pystr) : list pystr := readlines_from [] s.

(** ** [int(s, base)] *)

(** The code points of the digit zero in each decimal script (Unicode 14). *)
Definition decimal_zeros : list Z :=
  [0x30; 0x660; 0x6f0; 0x7c0; 0x966; 0x9e6; 0xa66; 0xae6; 0xb66; 0xbe6; 0xc66; 0xce6; 0xd66; 0xde6; 0xe50; 0xed0; 0xf20;
   0x1040; 0x1090; 0x17e0; 0x1810; 0x1946; 0x19d0; 0x1a80; 0x1a90; 0x1b50; 0x1bb0; 0x1c40; 0x1c50; 0xa620; 0xa8d0; 0xa900;
   0xa9d0; 0xa9f0; 0xaa50; 0xabf0; 0xff10; 0x104a0; 0x10d30; 0x11066; 0x110f0; 0x11136; 0x111d0; 0x112f0; 0x11450; 0x114d0;
   0x11650; 0x116c0; 0x11730; 0x118e0; 0x11950; 0x11c50; 0x11d50; 0x11da0; 0x16a60; 0x16ac0; 0x16b50; 0x1d7ce; 0x1d7d8;
   0x1d7e2; 0x1d7ec; 0x1d7f6; 0x1e140; 0x1e2f0; 0x1e950; 0x1fbf0].
Definition decimal (c : Z) : option Z :=
  (fun z => c - z) <$> List.find (fun z => (z <=? c) && (c <? z + 10)) decimal_zeros.

(** What the parser sees of a character: digits and spaces of any script become ASCII. *)
Definition int_char (c : Z) : Z :=
  if c <? 127 then c
  else if is_space c then 32
  else match decimal c with
       | Some d => 48 + d
       | None => 63
       end.

Definition digit_value (c : Z) : option Z :=
  if is_digit c then Some (c - 48)
  else if (97 <=? c) && (c <=? 122) then Some (c - 87)
  else if (65 <=? c) && (c <=? 90) then Some (c - 55)
  else None.

(** Digits separated by single underscores; [bare] says that a digit must follow. *)
Fixpoint int_digits (base acc : Z) (bare : bool) (s : pystr) : option Z :=
  match s with
  | [] => if bare then None else Some acc
  | c :: r => if c =? 95 then if bare then None else int_digits base acc true r
              else match digit_value c with
                   | Some d => if d <? base then int_digits base (acc * base + d) false r else None
                   | None => None
                   end
  end.

(** After the sign: the optional 0x of base 16, then the digits; base 10 limits
    their number. *)
Definition int_unsigned (base : Z) (s : pystr) : option Z :=
  match s with
  | z :: x :: r =>
      if (base =? 16) && (z =? 48) && ((x =? 120) || (x =? 88))
      then int_digits base 0 true (default r (eat 95 r))
      else int_digits base 0 true s
  | _ => int_digits base 0 true s
  end.
Definition too_long (base : Z) (s : pystr) : bool :=
  (base =? 10) && (INT_MAX_STR_DIGITS <? zlen (List.filter is_digit s)).

Definition py_int (base : Z) (s : pystr) : result Z :=
  let s := strip_by ascii_space (map int_char s) in
  let '(neg, s) := match eat 45 s, eat 43 s with
                   | Some r, _ => (true, r)
                   | None, Some r => (false, r)
                   | None, None => (false, s)
                   end in
  match int_unsigned base s with
  | Some v => if too_long base s then Err ValueError else Ok (if neg then - v else v)
  | None => Err ValueError
  end.

Example py_int_ex :
  map (py_int 10) [py " +1_000 "; py "1__0"; py "_1"; py "1_"; []; py "0x1f"; [0x663; 0x664]; py "-0"; py "- 5"]
  = [Ok 1000; Err ValueError; Err ValueError; Err ValueError; Err ValueError; Err ValueError; Ok 34; Ok 0; Err ValueError]
  /\ map (py_int 16) [py "0x1f"; py "0x_1f"; py "0x"; py "0100A8C0"; py "-0x5"; py "0x5_"; py "0_x5"]
  = [Ok 31; Ok 31; Err ValueError; Ok 16820416; Ok (-5); Err ValueError; Err ValueError].
Proof. vm_compute. split; reflexivity. Qed.

(** ** Sorted sets of strings and IPv4 addresses *)

Fixpoint set_insert (s : pystr) (l : list pystr) : list pystr :=
  match l with
  | [] => [s]
  | t :: l' => if streq s t then l else if strleb s t then s :: l else t :: set_insert s l'
  end.
(** [sorted(list(set(l)))] *)
Definition sorted_set (l : list pystr) : list pystr := fold_right set_insert [] l.

(** [socket.inet_ntoa(b)] *)
Definition inet_ntoa (b : bytes) : result pystr :=
  if zlen b =? 4 then Ok (join (py ".") (map (fun x => str_of_nonneg (b2z x)) b)) else Err OSError.

(** [socket.inet_aton(s)]: up to four numbers, decimal, octal or hexadecimal, the
    last one filling the remaining bytes; what follows a blank is ignored. *)
Fixpoint c_digits (base acc : Z) (s : pystr) : option Z :=
  match s with
  | [] => Some acc
  | c :: s => match unhex c with
              | Some v => if v <? base then c_digits base (acc * base + v) s else None
              | None => None
              end
  end.
Definition c_number (s : pystr) : option Z :=
  match s with
  | [] => None
  | z :: x :: s' =>
      if (z =? 48) && ((x =? 120) || (x =? 88)) then match s' with [] => None | _ => c_digits 16 0 s' end
      else if z =? 48 then c_digits 8 0 (x :: s')
      else c_digits 10 0 s
  | _ => c_digits 10 0 s
  end.
Fixpoint split_dots (cur s : pystr) : list pystr :=
  match s with
  | [] => [rev cur]
  | c :: s => if c =? 46 then rev cur :: split_dots [] s else split_dots (c :: cur) s
  end.
Fixpoint before_blank (s : pystr) : pystr :=
  match s with
  | [] => []
  | c :: s => if ascii_space c then [] else c :: before_blank s
  end.
Definition address_value (parts : list Z) : option Z :=
  let value := match parts with
               | [a] => Some (0, a, 4)
               | [a; b] => Some (a * 2 ^ 24, b, 3)
               | [a; b; c] => Some (a * 2 ^ 24 + b * 2 ^ 16, c, 2)
               | [a; b; c; d] => Some (a * 2 ^ 24 + b * 2 ^ 16 + c * 2 ^ 8, d, 1)
               | _ => None
               end in
  match value with
  | Some (high, low, width) =>
      if forallb (fun x => x <? 256) (removelast parts) && (low <? 2 ^ (8 * width)) then Some (high + low) else None
  | None => None
  end.
Definition inet_aton (s : pystr) : result bytes :=
  match mapM c_number (split_dots [] (before_blank s)) ≫= address_value with
  | Some v => Ok (be_encode 4 v)
  | None => Err OSError
  end.

Example inet_aton_ex :
  map inet_aton [py "10.0.0.1"; py "127.1"; py "0x7f000001"; py "010.0.0.1"; py "256.0.0.1"; py "1.2.3.4.5"; py "a.b"]
  = [Ok [x0a; x00; x00; x01]; Ok [x7f; x00; x00; x01]; Ok [x7f; x00; x00; x01]; Ok [x08; x00; x00; x01]; Err OSError; Err OSError; Err OSError].
Proof. vm_compute. reflexivity. Qed.

(** ** Facts *)

Lemma byte_part b : c_number (str_of_nonneg (b2z b)) = Some (b2z b) /\
  forallb (fun c => negb (c =? 46) && negb (ascii_space c)) (str_of_nonneg (b2z b)) = true.
Proof. by destruct b. Qed.
Lemma split_dots_part cur s t :
  forallb (fun c => negb (c =? 46) && negb (ascii_space c)) s = true -> split_dots cur (s ++ 46 :: t) = rev (rev s ++ cur) :: split_dots [] t.
Proof.
  revert cur. induction s as [|c s IH]; intros cur Hs; [done|]. cbn [forallb] in Hs. apply andb_true_iff in Hs as [Hc Hs].
  apply andb_true_iff in Hc as [Hc _]. apply negb_true_iff in Hc. cbn [app split_dots]. rewrite Hc, IH by done. cbn [rev].
  by rewrite <- app_assoc.
Qed.
Lemma split_dots_last cur s :
  forallb (fun c => negb (c =? 46) && negb (ascii_space c)) s = true -> split_dots cur s = [rev (rev s ++ cur)].
Proof.
  revert cur. induction s as [|c s IH]; intros cur Hs; [done|]. cbn [forallb] in Hs. apply andb_true_iff in Hs as [Hc Hs].
  apply andb_true_iff in Hc as [Hc _]. apply negb_true_iff in Hc. cbn [split_dots]. rewrite Hc, IH by done. cbn [rev].
  by rewrite <- app_assoc.
Qed.
Lemma before_blank_id s : forallb (fun c => negb (ascii_space c)) s = true -> before_blank s = s.
Proof.
  induction s as [|c s IH]; [done|]. cbn. intros [Hc Hs]%andb_true_iff. apply negb_true_iff in Hc. rewrite Hc. f_equal. auto.
Qed.

(** The dotted form of an address is read back. *)
Lemma inet_aton_ntoa b ip : inet_ntoa b = Ok ip -> inet_aton ip = Ok b.
Proof.
  unfold inet_ntoa. destruct (zlen b =? 4) eqn:El; [|done]. apply Z.eqb_eq in El. intros [= <-].
  destruct b as [|b1 [|b2 [|b3 [|b4 [|]]]]]; try (unfold zlen in El; cbn in El; lia). clear El. cbn [map].
  destruct (byte_part b1) as [N1 S1], (byte_part b2) as [N2 S2], (byte_part b3) as [N3 S3], (byte_part b4) as [N4 S4].
  set (s1 := str_of_nonneg (b2z b1)) in *. set (s2 := str_of_nonneg (b2z b2)) in *.
  set (s3 := str_of_nonneg (b2z b3)) in *. set (s4 := str_of_nonneg (b2z b4)) in *.
  assert (forall s, forallb (fun c => negb (c =? 46) && negb (ascii_space c)) s = true -> forallb (fun c => negb (ascii_space c)) s = true) as Hsp.
  { intros s. rewrite !forallb_forall. intros H c Hc. specialize (H c Hc). by apply andb_true_iff in H as [_ H]. }
  unfold inet_aton. change (join (py ".") [s1; s2; s3; s4]) with (s1 ++ 46 :: s2 ++ 46 :: s3 ++ 46 :: s4).
  rewrite before_blank_id.
  2: { rewrite !forallb_app. cbn [forallb]. rewrite !forallb_app. cbn [forallb]. rewrite !forallb_app. cbn [forallb].
       by rewrite !Hsp by done. }
  rewrite !split_dots_part, split_dots_last by done. rewrite !app_nil_r, !rev_involutive.
  replace (mapM c_number [s1; s2; s3; s4]) with (Some [b2z b1; b2z b2; b2z b3; b2z b4]) by (cbn; by rewrite N1; cbn; rewrite N2; cbn; rewrite N3; cbn; rewrite N4).
  cbn [mbind option_bind]. unfold address_value. cbn [removelast forallb].
  pose proof (b2z_range b1). pose proof (b2z_range b2). pose proof (b2z_range b3). pose proof (b2z_range b4).
  rewrite !(proj2 (Z.ltb_lt _ _)) by lia. cbn [andb].
  replace (b2z b1 * 2 ^ 24 + b2z b2 * 2 ^ 16 + b2z b3 * 2 ^ 8 + b2z b4) with (be_decode [b1; b2; b3; b4]) by (cbn; lia).
  exact (f_equal Ok (be_encode_decode [b1; b2; b3; b4])).
Qed.
Lemma strip_by_none p s : Forall (fun c => p c = false) s -> strip_by p s = s.
Proof.
  assert (forall t, Forall (fun c => p c = false) t -> lstrip_by p t = t) as Hl
    by (intros t Ht; destruct Ht as [|c t' Hc _]; cbn; [done|by rewrite Hc]).
  intros H. unfold strip_by. rewrite (Hl s) by done. rewrite Hl by by apply Forall_rev. apply rev_involutive.
Qed.

Lemma int_digits_dec ds : Forall (fun c => is_digit c = true) ds -> forall acc bare,
  ds <> [] \/ bare = false -> int_digits 10 acc bare ds = Some (fold_left (fun a d => a * 10 + (d - 48)) ds acc).
Proof.
  induction 1 as [|c ds Hc _ IH]; intros acc bare Hne; [destruct Hne as [|Hb]; [done|by subst]|]. cbn [int_digits fold_left].
  pose proof Hc as Hr. unfold is_digit in Hr. zbool. rewrite (proj2 (Z.eqb_neq c 95)) by lia.
  unfold digit_value. rewrite Hc. rewrite (proj2 (Z.ltb_lt (c - 48) 10)) by lia. apply IH. by right.
Qed.

Lemma int_unsigned_10 s : int_unsigned 10 s = int_digits 10 0 true s.
Proof. by destruct s as [|z [|x r]]. Qed.

(** [int(str(n)) = n] *)
Lemma py_int_str n : 0 <= n -> zlen (str_of_nonneg n) <= INT_MAX_STR_DIGITS -> py_int 10 (str_of_nonneg n) = Ok n.
Proof.
  intros Hn Hlen. destruct (str_of_nonneg_spec n Hn) as (Hv & Hd & Hne & _). set (s := str_of_nonneg n) in *.
  assert (Forall (fun c => 48 <= c <= 57) s) as Hr
    by (revert Hd; apply List.Forall_impl; intros c Hc; unfold is_digit in Hc; zbool; lia).
  unfold py_int. replace (map int_char s) with s.
  2:{ clear -Hr. induction Hr as [|c s Hc _ IH]; [done|]. cbn. rewrite <- IH. f_equal. unfold int_char.
      by rewrite (proj2 (Z.ltb_lt c 127)) by lia. }
  rewrite strip_by_none.
  2:{ revert Hr. apply List.Forall_impl. intros c Hc. unfold ascii_space. apply orb_false_iff.
      split; [lia|]. apply andb_false_iff. right. lia. }
  assert (forall x, x < 48 -> eat x s = None) as Heat.
  { intros x Hx. destruct Hr as [|c t Hc _]; [done|]. cbn. by rewrite (proj2 (Z.eqb_neq c x)) by lia. }
  rewrite !Heat by lia. rewrite int_unsigned_10, int_digits_dec by (done || by left). fold (dec_value s). rewrite Hv.
  unfold too_long. change (10 =? 10) with true. cbn [andb]. replace (List.filter is_digit s) with s.
  - by rewrite (proj2 (Z.ltb_ge _ _)) by lia.
  - clear -Hd. induction Hd as [|c s Hc _ IH]; [done|]. cbn. by rewrite Hc, <- IH.
Qed.

Lemma set_insert_elem s l t : t ∈ set_insert s l <-> t = s \/ t ∈ l.
Proof.
  induction l as [|x l IH]; cbn [set_insert]; [set_solver|].
  destruct (streq s x) eqn:E; [apply streq_spec in E as ->; set_solver|]. destruct (strleb s x); set_solver.
Qed.

Lemma sorted_set_elem l t : t ∈ sorted_set l <-> t ∈ l.
Proof. induction l as [|x l IH]; cbn [sorted_set fold_right]; [done|]. fold (sorted_set l). rewrite set_insert_elem. set_solver. Qed.
