(* ===== verification/Discovery.v ===== *)
(** * discovery.py: finding peers by UDP broadcast and mDNS

    The announcement packet and its validation, the registry of live peers, the
    mDNS records mapped to the same packets, and the broadcast targets. What a
    call sends, reports to a callback or emits is the list of its outputs. *)

From S2P Require Import Prelude PyStr PyFloat PyText Json JsonFacts PyValue Sha256 Base64 SecurityEvents.
From stdpp Require Import base strings list option list_numbers relations.
From Stdlib Require Import ZArith Lia Strings.Byte.
Open Scope Z_scope.
Open Scope peerc_scope.

Definition BROADCAST_PORT : Z := 9999.
Definition PEER_TIMEOUT : pyfloat := float_of_int 10.
Definition PROTOCOL_VERSION : Z := 2.
Definition MDNS_SERVICE_TYPE : pystr := py "_peerc._tcp.local.".

(** ** The registry

    The dataclass does not check its fields: an id, name or port taken from a
    message is whatever JSON value the message held. *)

Record Peer : Type := MkPeer {
  p_peer_id : json;
  p_name : json;
  p_ip : pystr;
  p_tcp_port : json;
  p_public_key : bytes;
  p_last_seen : pyfloat
}.

#[export] Instance Peer_eq_dec : EqDecision Peer.
Proof. solve_decision. Defined.

(** What the outside sees: a callback, a datagram to an address, a security event. *)
Inductive output : Type :=
  | PeerNew (p : Peer)
  | PeerLost (p : Peer)
  | SendTo (payload : bytes) (ip : pystr) (port : Z)
  | Emitted (e : SecurityEvent).

(** [_peers]: the dict from peer id to peer, in insertion order. *)
Abbreviation registry := (list (pykey * Peer)).

Fixpoint peer_get (id : pykey) (r : registry) : option Peer :=
  match r with
  | [] => None
  | (k, p) :: r => if bool_decide (id = k) then Some p else peer_get id r
  end.
(** The update in place of the entry of [id]. *)
Definition peer_update (id : pykey) (f : Peer -> Peer) (r : registry) : registry :=
  map (fun kp => if bool_decide (id = kp.1) then (kp.1, f kp.2) else kp) r.
(** [self._peers.pop(id)] *)
Definition peer_pop (id : pykey) (r : registry) : registry := List.filter (fun kp => negb (bool_decide (id = kp.1))) r.

(** [PeerRegistry.__init__] *)
Definition new_registry : registry := [].

(** [upsert] for an id that is filed under [key]. *)
Definition upsert_at (now : pyfloat) (key : pykey) (id name : json) (ip : pystr) (port : json) (pk : bytes) (r : registry)
    : registry * list output :=
  match peer_get key r with
  | None => let p := MkPeer id name ip port pk now in (r ++ [(key, p)], [PeerNew p])
  | Some _ =>
      (peer_update key (fun p => MkPeer (p_peer_id p) name ip port
                                  (if bool_decide (pk = []) then p_public_key p else pk) now) r, [])
  end.
Definition upsert (now : pyfloat) (id name : json) (ip : pystr) (port : json) (pk : bytes) (r : registry)
    : result (registry * list output) :=
  match key_of id with
  | None => Err TypeError
  | Some key => Ok (upsert_at now key id name ip port pk r)
  end.
(** [upsert] with a string id, which is always hashable. *)
Definition upsert_str (now : pyfloat) (id name ip : pystr) (port : json) (pk : bytes) (r : registry) : registry * list output :=
  upsert_at now (KStr id) (JStr id) (JStr name) ip port pk r.

(** [get], which raises on an id that cannot be hashed. *)
Definition registry_get (id : json) (r : registry) : result (option Peer) :=
  match key_of id with
  | None => Err TypeError
  | Some key => Ok (peer_get key r)
  end.

Definition stale (now : pyfloat) (p : Peer) : bool := float_gt (float_sub now (p_last_seen p)) PEER_TIMEOUT.

(** The loop over [stale_ids]. *)
Fixpoint pop_all (ids : list pykey) (r : registry) : registry * list output :=
  match ids with
  | [] => (r, [])
  | id :: ids =>
      let lost := match peer_get id r with
                  | Some p => [PeerLost p]
                  | None => []
                  end in
      let (r, out) := pop_all ids (peer_pop id r) in (r, lost ++ out)
  end.
Definition prune_stale (now : pyfloat) (r : registry) : registry * list output :=
  pop_all (map fst (List.filter (fun kp => stale now kp.2) r)) r.

Definition list_peers (r : registry) : list Peer := map snd r.

(** ** Broadcast targets *)

(** [struct.pack("<L", int(gw, 16))] and its dotted form; any failure ends the
    scan of the routing table. *)
Definition gateway_ip (gw : pystr) : option pystr :=
  match py_int 16 gw with
  | Ok v => if (0 <=? v) && (v <? 2 ^ 32) then match inet_ntoa (rev (be_encode 4 v)) with
                                              | Ok ip => Some ip
                                              | Err _ => None
                                              end
            else None
  | Err _ => None
  end.
Fixpoint route_targets (lines : list pystr) : list pystr :=
  match lines with
  | [] => []
  | line :: lines =>
      match split_ws line with
      | _ :: dest :: gw :: _ =>
          if streq dest (py "00000000") && negb (streq gw (py "00000000"))
          then match gateway_ip gw with
               | Some ip => ip :: route_targets lines
               | None => []
               end
          else route_targets lines
      | _ => route_targets lines
      end
  end.
(** [parts[parts.index(w) + 1]] when there is one *)
Fixpoint word_after (w : pystr) (parts : list pystr) : option pystr :=
  match parts with
  | [] => None
  | x :: r => if streq x w then head r else word_after w r
  end.
Definition words_after (w out : pystr) : list pystr := omap (fun line => word_after w (split_ws line)) (splitlines out).

(** The routing table and the output of the two [ip] commands; [None] where
    reading them raised. *)
Definition get_broadcast_targets (route ip_addr ip_route : option pystr) : list pystr :=
  sorted_set (py "255.255.255.255"
    :: match route with
       | Some text => route_targets (tail (readlines text))
       | None => []
       end
    ++ match ip_addr with
       | Some out => words_after (py "brd") out
       | None => []
       end
    ++ match ip_route with
       | Some out => words_after (py "via") out
       | None => []
       end).

(** [local_ips] of [get_network_info]: [None] where name resolution raised. *)
Definition local_ips (resolved : option (list pystr)) : list pystr :=
  match resolved with
  | Some ips => List.filter (fun ip => negb (prefixb (py "127.") ip)) ips
  | None => []
  end.

Record network_info : Type := NetworkInfo {
  ni_local_ips : list pystr;
  ni_targets : list pystr;
  ni_mdns_available : bool
}.
(** What the host answers: the routing table, the two [ip] commands, and the
    addresses of its own name; [None] where asking raised. *)
Record host_info : Type := HostInfo {
  hi_route : option pystr;
  hi_ip_addr : option pystr;
  hi_ip_route : option pystr;
  hi_resolved : option (list pystr)
}.
Definition broadcast_targets (h : host_info) : list pystr := get_broadcast_targets (hi_route h) (hi_ip_addr h) (hi_ip_route h).
Definition get_network_info (mdns_available : bool) (h : host_info) : network_info :=
  NetworkInfo (local_ips (hi_resolved h)) (broadcast_targets h) mdns_available.

(** ** mDNS records *)

Definition build_mdns_txt (version : Z) (device_id : pystr) (public_key : bytes) (name : pystr) (tcp_port : Z) : list (pystr * pystr) :=
  [(py "version", str_of_int version);
   (py "device_id", device_id);
   (py "public_key", b64encode public_key);
   (py "name", take 64 name);
   (py "tcp_port", str_of_int tcp_port)].

Fixpoint txt_get (k : pystr) (txt : list (pystr * pystr)) : option pystr :=
  match txt with
  | [] => None
  | (k', v) :: txt => if streq k k' then Some v else txt_get k txt
  end.

Definition safe_int (v : pystr) : Z :=
  match py_int 10 v with
  | Ok n => n
  | Err _ => 0
  end.

(** [json.dumps(...).encode("utf-8")]; the text is ASCII. *)
Definition encode_json (j : json) : bytes := map z2b (dumps j).

Definition announce_packet (version : Z) (device_id public_key name : pystr) (tcp_port : Z) (reply : bool) : json :=
  JObj [(py "type", JStr (py "announce"));
        (py "version", JInt version);
        (py "device_id", JStr device_id);
        (py "public_key", JStr public_key);
        (py "name", JStr name);
        (py "tcp_port", JInt tcp_port);
        (py "reply", JBool reply)].

Definition mdns_txt_to_packet (txt : list (pystr * pystr)) (src_ip : pystr) : bytes :=
  let version := match txt_get (py "version") txt with
                 | Some v => safe_int v
                 | None => 0
                 end in
  encode_json (announce_packet version (default [] (txt_get (py "device_id") txt)) (default [] (txt_get (py "public_key") txt))
    (default src_ip (txt_get (py "name") txt)) (safe_int (default (py "0") (txt_get (py "tcp_port") txt))) false).

(** The decoded TXT properties of a resolved service: a later key replaces an
    earlier one; a key without a value has the empty string. *)
Fixpoint txt_set (k v : pystr) (txt : list (pystr * pystr)) : list (pystr * pystr) :=
  match txt with
  | [] => [(k, v)]
  | (k', v') :: txt => if streq k k' then (k', v) :: txt else (k', v') :: txt_set k v txt
  end.
Fixpoint decode_properties (props : list (bytes * option bytes)) (txt : list (pystr * pystr)) : result (list (pystr * pystr)) :=
  match props with
  | [] => Ok txt
  | (k, v) :: props =>
      let* key := utf8_decode k in
      let* val := match v with
                  | Some b => utf8_decode b
                  | None => Ok []
                  end in
      decode_properties props (txt_set key val txt)
  end.

(** What the library made of a request for a service: the properties and the
    addresses it reports, in its own order. *)
Definition resolution : Type := option (list (bytes * option bytes) * list bytes).
(** [_handle_info]; [requested] is the outcome of [info.request]: the service,
    [None] when the request timed out, or what the call raised. The result is the
    packet and source address passed to [on_packet]. *)
Definition handle_info (requested : result resolution) : result (option (bytes * pystr)) :=
  match requested with
  | Err e => Err e
  | Ok None => Ok None
  | Ok (Some (props, addresses)) =>
      let* txt := decode_properties props [] in
      let src_ip := match addresses with
                    | a :: _ => match inet_ntoa a with
                                | Ok ip => ip
                                | Err _ => py "0.0.0.0"
                                end
                    | [] => py "0.0.0.0"
                    end in
      Ok (Some (mdns_txt_to_packet txt src_ip, src_ip))
  end.

(** ** Announcing and listening *)

Record Discovery : Type := MkDiscovery {
  self_id : pystr;
  self_name : pystr;
  self_port : Z;
  self_key : bytes
}.

Definition mdns_service_name (d : Discovery) : pystr := take 16 (self_id d) ++ py "." ++ MDNS_SERVICE_TYPE.
Definition mdns_txt (d : Discovery) : list (pystr * pystr) :=
  build_mdns_txt PROTOCOL_VERSION (self_id d) (self_key d) (self_name d) (self_port d).

Definition build_payload (d : Discovery) (reply : bool) : bytes :=
  encode_json (announce_packet PROTOCOL_VERSION (self_id d) (b64encode (self_key d)) (self_name d) (self_port d) reply).

Definition probe_peer (d : Discovery) (ip : pystr) (port : Z) : list output := [SendTo (build_payload d true) ip port].
(** [broadcast_now], and one round of [_announce_loop]. *)
Definition broadcast_now (d : Discovery) (targets : list pystr) : list output :=
  map (fun t => SendTo (build_payload d true) t BROADCAST_PORT) targets.

(** [v == n] for a value read from JSON. *)
Definition eq_int (v : json) (n : Z) : bool :=
  match v with
  | JInt m => m =? n
  | JFloat x => float_eq_int x n
  | JBool b => (if b then 1 else 0) =? n
  | _ => false
  end.

Definition mismatch_event (now : pyfloat) (ip device_id : pystr) : SecurityEvent :=
  new_event AUTH_FAILED WARNING
    (py "discovery packet from " ++ ip ++ py " claimed device_id " ++ take 16 device_id
     ++ py "... but it doesn't match sha256(public_key) " ++ [0x2014] ++ py " dropping as internally inconsistent")
    (Some device_id) now
    [(py "stage", JStr (py "discovery")); (py "reason", JStr (py "device_id_pubkey_mismatch")); (py "source_ip", JStr ip)].

(** The identity checks of [_handle_packet] on a decoded message: [inl] is the
    message to go on with, [inr] what a dropped one emits. *)
Definition check_identity (now : pyfloat) (d : Discovery) (ip : pystr) (msg : dict) : (pystr * bytes) + list output :=
  match dict_get (py "device_id") msg, dict_get (py "public_key") msg with
  | Some (JStr device_id), Some (JStr public_key_b64) =>
      if streq device_id [] then inr []
      else if streq public_key_b64 [] then inr []
      else match b64decode true public_key_b64 with
           | Err _ => inr []
           | Ok pk =>
               if negb (zlen pk =? 32) then inr []
               else if negb (streq (sha256_hex pk) device_id) then inr [Emitted (mismatch_event now ip device_id)]
               else if streq device_id (self_id d) then inr []
               else inl (device_id, pk)
           end
  | _, _ => inr []
  end.

Definition display_name (ip : pystr) (msg : dict) : pystr :=
  take 64 (match dict_get (py "name") msg with
           | Some (JStr name) => if streq (strip name) [] then ip else name
           | _ => ip
           end).

Definition handle_message (now : pyfloat) (d : Discovery) (ip : pystr) (msg : dict) (r : registry) : registry * list output :=
  if negb (match dict_get (py "type") msg with
           | Some (JStr t) => streq t (py "announce")
           | _ => false
           end) then (r, [])
  else if negb (eq_int (default JNull (dict_get (py "version") msg)) PROTOCOL_VERSION) then (r, [])
  else match check_identity now d ip msg with
       | inr out => (r, out)
       | inl (device_id, pk) =>
           let name := display_name ip msg in
           let tcp_port := default (JInt 0) (dict_get (py "tcp_port") msg) in
           match as_int tcp_port with
           | None => (r, [])
           | Some port =>
               if negb ((0 <? port) && (port <? 65536)) then (r, [])
               else
                 let (r, out) := upsert_str now device_id name ip tcp_port pk r in
                 (r, out ++ if truthy (default (JBool true) (dict_get (py "reply") msg))
                            then [SendTo (build_payload d false) ip BROADCAST_PORT] else [])
           end
       end.

(** [_handle_packet]: only a JSON or UTF-8 decoding failure is caught. *)
Definition handle_packet (now : pyfloat) (d : Discovery) (data : bytes) (ip : pystr) (r : registry) : result (registry * list output) :=
  match (let* text := utf8_decode data in loads text) with
  | Err JSONDecodeError | Err UnicodeDecodeError => Ok (r, [])
  | Err e => Err e
  | Ok (JObj msg) => Ok (handle_message now d ip msg r)
  | Ok _ => Ok (r, [])
  end.

(** ** Facts about the registry *)

Lemma peer_get_Some id r p : peer_get id r = Some p -> (id, p) ∈ r.
Proof.
  induction r as [|[k q] r IH]; cbn; [done|]. case_bool_decide as E; [|by right; apply IH].
  subst k. intros [= ->]. by left.
Qed.
Lemma peer_get_None id r : peer_get id r = None <-> id ∉ map fst r.
Proof.
  induction r as [|[k q] r IH]; cbn; [split; [intros _; apply not_elem_of_nil|done]|].
  rewrite not_elem_of_cons. case_bool_decide as E; [naive_solver|]. rewrite IH. naive_solver.
Qed.

Lemma peer_get_snoc id p r : peer_get id r = None -> peer_get id (r ++ [(id, p)]) = Some p.
Proof.
  induction r as [|[k q] r IH]; cbn; [intros _; by rewrite bool_decide_eq_true_2|].
  case_bool_decide; [done|]. apply IH.
Qed.
Lemma peer_get_update id f r : peer_get id (peer_update id f r) = f <$> peer_get id r.
Proof.
  induction r as [|[k q] r IH]; cbn; [done|]. case_bool_decide as E; cbn.
  - by rewrite bool_decide_eq_true_2.
  - rewrite bool_decide_eq_false_2 by done. apply IH.
Qed.
Lemma peer_get_update_ne id id' f r : id' <> id -> peer_get id' (peer_update id f r) = peer_get id' r.
Proof.
  intros Hne. induction r as [|[k q] r IH]; cbn; [done|]. case_bool_decide as E; cbn.
  - subst k. by rewrite !bool_decide_eq_false_2.
  - by case_bool_decide.
Qed.
Lemma peer_get_app id r r' : peer_get id (r ++ r') = match peer_get id r with Some p => Some p | None => peer_get id r' end.
Proof. induction r as [|[k q] r IH]; cbn; [done|]. by case_bool_decide. Qed.
Lemma peer_update_keys id f r : map fst (peer_update id f r) = map fst r.
Proof. induction r as [|[k q] r IH]; cbn; [done|]. f_equal; [by case_bool_decide|apply IH]. Qed.

(** Registering a peer touches its own entry only. *)
Lemma upsert_at_other now key id name ip port pk r key' :
  key' <> key -> peer_get key' (fst (upsert_at now key id name ip port pk r)) = peer_get key' r.
Proof.
  intros Hne. unfold upsert_at. destruct (peer_get key r); cbn [fst]; [by apply peer_get_update_ne|].
  rewrite peer_get_app. cbn. rewrite bool_decide_eq_false_2 by done. by destruct (peer_get key' r).
Qed.
Lemma upsert_at_keys now key id name ip port pk r :
  NoDup (map fst r) -> NoDup (map fst (fst (upsert_at now key id name ip port pk r))).
Proof.
  intros Hnd. unfold upsert_at. destruct (peer_get key r) eqn:E; cbn [fst]; [by rewrite peer_update_keys|].
  rewrite map_app. apply NoDup_app. split; [done|]. split; [|apply NoDup_singleton].
  intros x Hx ->%list_elem_of_singleton. by apply peer_get_None in E.
Qed.

(** The loop of [prune_stale] removes exactly the stale entries, in order. *)
Lemma pop_all_partition (P : Peer -> bool) r : NoDup (map fst r) ->
  pop_all (map fst (List.filter (fun kp => P kp.2) r)) r
  = (List.filter (fun kp => negb (P kp.2)) r, map (fun kp => PeerLost kp.2) (List.filter (fun kp => P kp.2) r)).
Proof.
  assert (forall ids k q t, k ∉ ids -> pop_all ids ((k, q) :: t) = ((k, q) :: fst (pop_all ids t), snd (pop_all ids t))) as Hskip.
  { induction ids as [|id ids IH]; intros k q t Hk; [done|]. apply not_elem_of_cons in Hk as [Hk Hids]. cbn [pop_all peer_get peer_pop].
    unfold peer_pop. cbn [List.filter fst]. rewrite bool_decide_eq_false_2 by congruence. cbn [negb]. rewrite IH by done.
    by destruct (pop_all ids _). }
  induction r as [|[k q] r IH]; [done|]. cbn [map fst]. intros [Hk Hnd]%NoDup_cons. cbn [List.filter snd].
  destruct (P q) eqn:EP; cbn [negb map fst].
  - cbn [pop_all peer_get]. rewrite bool_decide_eq_true_2 by done. unfold peer_pop. cbn [List.filter fst].
    rewrite bool_decide_eq_true_2 by done. cbn [negb].
    replace (List.filter (fun kp => negb (bool_decide (k = kp.1))) r) with r; [by rewrite IH|].
    clear -Hk. induction r as [|[a b] r IH]; [done|]. cbn [map fst] in Hk. apply not_elem_of_cons in Hk as [Ha Hr]. cbn.
    rewrite bool_decide_eq_false_2 by done. cbn. by rewrite <- IH.
  - rewrite Hskip; [by rewrite IH|]. intros Hin. apply Hk. apply list_elem_of_In, in_map_iff in Hin as ([a b] & <- & Hin).
    apply filter_In in Hin as [Hin _]. apply list_elem_of_In, in_map_iff. by exists (a, b).
Qed.

(** ** Packets *)

Lemma handle_packet_json now d j ip r :
  json_ok j = true -> handle_packet now d (encode_json j) ip r
  = match j with
    | JObj msg => Ok (handle_message now d ip msg r)
    | _ => Ok (r, [])
    end.
Proof.
  intros Hj. unfold handle_packet, encode_json. rewrite utf8_decode_ascii by by apply dumps_ascii. cbn [rbind].
  rewrite loads_dumps by done. by destruct j.
Qed.

Lemma announce_ok v id pk name port reply :
  0 <= v < 65536 -> 0 <= port < 65536 -> str_ok id = true -> str_ok name = true ->
  json_ok (announce_packet v id (b64encode pk) name port reply) = true.
Proof.
  assert (forall n, 0 <= n < 65536 -> (zlen (str_of_nonneg (Z.abs n)) <=? INT_MAX_STR_DIGITS) = true) as Hint.
  { intros n Hn. apply Z.leb_le. rewrite Z.abs_eq by lia. pose proof (str_of_nonneg_length n ltac:(lia)).
    pose proof (Z.log2_le_mono n 65536 ltac:(lia)). change (Z.log2 65536) with 16 in *. unfold INT_MAX_STR_DIGITS. lia. }
  intros Hv Hp Hid Hname. unfold announce_packet. cbn [json_ok]. apply andb_true_iff. split; [vm_compute; done|].
  cbn [forallb fst snd json_ok]. rewrite !Hint by done. rewrite Hid, Hname, (printable_str_ok (b64encode pk)) by apply b64encode_printable.
  vm_compute. done.
Qed.

(** The name a peer is shown under. *)
Definition shown (ip name : pystr) : pystr := take 64 (if streq (strip name) [] then ip else name).

(** A device that announces itself truthfully. *)
Definition disc_ok (d : Discovery) : Prop :=
  self_id d = sha256_hex (self_key d) /\ length (self_key d) = 32%nat /\ 0 < self_port d < 65536 /\ str_ok (self_name d) = true.

Lemma id_str_ok d : disc_ok d -> str_ok (self_id d) = true.
Proof. intros (-> & _). apply printable_str_ok, hex_of_bytes_printable. Qed.

Lemma handle_announcement now d a ip r reply :
  disc_ok a -> self_id a <> self_id d ->
  handle_packet now d (build_payload a reply) ip r
  = let (r, out) := upsert_str now (self_id a) (shown ip (self_name a)) ip (JInt (self_port a)) (self_key a) r in
    Ok (r, out ++ if reply then [SendTo (build_payload d false) ip BROADCAST_PORT] else []).
Proof.
  intros Ha Hne. pose proof (id_str_ok a Ha) as Hid. destruct Ha as (Eid & Hk & Hp & Hn). unfold build_payload at 1.
  rewrite handle_packet_json by (apply announce_ok; [done|lia|done|done]). unfold announce_packet, handle_message.
  set (msg := [(py "type", JStr (py "announce")); _; _; _; _; _; _]).
  change (dict_get (py "type") msg) with (Some (JStr (py "announce"))).
  change (dict_get (py "version") msg) with (Some (JInt PROTOCOL_VERSION)).
  change (dict_get (py "tcp_port") msg) with (Some (JInt (self_port a))).
  change (dict_get (py "reply") msg) with (Some (JBool reply)).
  cbn match. rewrite (proj2 (streq_spec _ _) eq_refl). cbn [negb default eq_int id].
  change (PROTOCOL_VERSION =? PROTOCOL_VERSION) with true. cbn [negb].
  unfold check_identity.
  change (dict_get (py "device_id") msg) with (Some (JStr (self_id a))).
  change (dict_get (py "public_key") msg) with (Some (JStr (b64encode (self_key a)))). cbn match.
  assert (streq (self_id a) [] = false) as ->.
  { apply not_true_is_false. intros E%streq_spec. rewrite Eid in E. apply (f_equal length) in E.
    unfold sha256_hex in E. rewrite hex_of_bytes_length, sha256_length in E. done. }
  assert (streq (b64encode (self_key a)) [] = false) as ->.
  { apply not_true_is_false. intros E%streq_spec. pose proof (b64encode_length (self_key a)) as Hl. rewrite E in Hl.
    unfold zlen in Hl. rewrite Hk in Hl. done. }
  rewrite b64decode_encode. unfold zlen. rewrite Hk. change (Z.of_nat 32 =? 32) with true. cbn [negb].
  rewrite <- Eid, (proj2 (streq_spec _ _) eq_refl). cbn [negb].
  assert (streq (self_id a) (self_id d) = false) as -> by (apply not_true_is_false; by intros E%streq_spec).
  cbn [as_int]. change (display_name ip msg) with (shown ip (self_name a)).
  rewrite (proj2 (Z.ltb_lt 0 _)), (proj2 (Z.ltb_lt _ 65536)) by lia. cbn [andb negb id truthy default].
  by destruct (upsert_str _ _ _ _ _ _ _).
Qed.

(** ** The registry's invariant *)

(** An entry is filed under the id of its own key, is not this device, and has
    a usable port and a bounded name. *)
Definition entry_ok (self : pystr) (kp : pykey * Peer) : Prop :=
  exists id name port, kp.1 = KStr id /\ p_peer_id kp.2 = JStr id /\ p_name kp.2 = JStr name /\
    as_int (p_tcp_port kp.2) = Some port /\
    id = sha256_hex (p_public_key kp.2) /\ zlen (p_public_key kp.2) = 32 /\ id <> self /\ 0 < port < 65536 /\ zlen name <= 64.
Definition reg_ok (self : pystr) (r : registry) : Prop := NoDup (map fst r) /\ Forall (entry_ok self) r.

Lemma zlen_take_64 (s : pystr) : zlen (take 64 s) <= 64.
Proof. unfold zlen. rewrite length_take. lia. Qed.

Lemma upsert_ok self now id name ip tcp_port port pk r :
  reg_ok self r -> id = sha256_hex pk -> zlen pk = 32 -> id <> self ->
  as_int tcp_port = Some port -> 0 < port < 65536 -> zlen name <= 64 ->
  let r' := fst (upsert_str now id name ip tcp_port pk r) in
  reg_ok self r' /\ peer_get (KStr id) r' = Some (MkPeer (JStr id) (JStr name) ip tcp_port pk now).
Proof.
  intros [Hnd Hall] Hid Hpk Hself Hint Hport Hname. unfold upsert_str.
  assert (pk <> []) as Hne by (intros ->; done).
  assert (entry_ok self (KStr id, MkPeer (JStr id) (JStr name) ip tcp_port pk now)) as Hnew by (exists id, name, port; split_and!; (done || lia)).
  pose proof (upsert_at_keys now (KStr id) (JStr id) (JStr name) ip tcp_port pk r Hnd) as Hkeys.
  revert Hkeys. unfold upsert_at. destruct (peer_get (KStr id) r) as [p|] eqn:E; cbn [fst]; intros Hkeys.
  - assert (p_peer_id p = JStr id) as Hpid.
    { apply peer_get_Some in E. rewrite Forall_forall in Hall. by destruct (Hall _ E) as (? & ? & ? & [= <-] & ? & _). }
    rewrite (bool_decide_eq_false_2 (pk = [])) by done. split; [split; [by rewrite peer_update_keys|]|].
    + unfold peer_update. apply Forall_map. revert Hall. apply List.Forall_impl. intros [k q] Hq. cbn [fst snd].
      destruct (decide (KStr id = k)) as [<-|Ek]; [rewrite bool_decide_eq_true_2 by done|by rewrite bool_decide_eq_false_2].
      destruct Hq as (? & ? & ? & [= <-] & Hq & _). cbn [fst snd] in Hq. by rewrite Hq.
    + rewrite peer_get_update, E. cbn. by rewrite Hpid.
  - split; [split; [done|]|by apply peer_get_snoc]. apply Forall_app. split; [done|by constructor].
Qed.

(** A message changes the registry by one validated registration, or not at all. *)
Lemma handle_message_cases now d ip msg r :
  fst (handle_message now d ip msg r) = r \/
  exists id name tcp_port port pk, fst (handle_message now d ip msg r) = fst (upsert_str now id name ip tcp_port pk r) /\
    id = sha256_hex pk /\ zlen pk = 32 /\ id <> self_id d /\ as_int tcp_port = Some port /\ 0 < port < 65536 /\ zlen name <= 64.
Proof.
  unfold handle_message. destruct (negb _); [by left|]. destruct (negb _); [by left|].
  destruct (check_identity now d ip msg) as [[id pk]|out] eqn:Ec; [|by left]. cbv zeta.
  destruct (as_int _) as [port|] eqn:Ei; [|by left]. destruct (negb _) eqn:Ep; [by left|].
  assert (id = sha256_hex pk /\ zlen pk = 32 /\ id <> self_id d) as (H1 & H2 & H3).
  { unfold check_identity in Ec. repeat (case_match; try done); simplify_eq. zbool.
    split_and!; [by symmetry; apply streq_spec|done|].
    intros E. match goal with H : streq _ (self_id d) = false |- _ => by rewrite (proj2 (streq_spec _ _) E) in H end. }
  zbool. right. eexists id, (display_name ip msg), _, port, pk. split_and!; [|done..|apply zlen_take_64].
  by destruct (upsert_str now id (display_name ip msg) ip _ pk r).
Qed.

Lemma handle_message_ok now d ip msg r : reg_ok (self_id d) r -> reg_ok (self_id d) (fst (handle_message now d ip msg r)).
Proof.
  intros Hr. destruct (handle_message_cases now d ip msg r) as [->|(id & name & tp & port & pk & -> & H1 & H2 & H3 & H4 & H5 & H6)]; [done|].
  by eapply upsert_ok.
Qed.

Lemma prune_ok self now r : reg_ok self r -> reg_ok self (fst (prune_stale now r)).
Proof.
  intros [Hnd Hall]. unfold prune_stale. rewrite (pop_all_partition (stale now)) by done. cbn [fst]. split.
  - clear Hall. induction r as [|[k q] r IH]; [done|]. cbn [map fst] in Hnd. apply NoDup_cons in Hnd as [Hk Hnd].
    cbn. destruct (stale now q); cbn; [auto|]. apply NoDup_cons. split; [|auto]. intros Hin. apply Hk.
    apply list_elem_of_In, in_map_iff in Hin as ([a b] & <- & Hin). apply filter_In in Hin as [Hin _].
    apply list_elem_of_In, in_map_iff. by exists (a, b).
  - rewrite List.Forall_forall in *. intros x [Hx _]%filter_In. auto.
Qed.

(** What happens to a running instance's registry: a packet from anywhere, or
    the periodic pruning. *)
Inductive disc_step (d : Discovery) : registry -> registry -> Prop :=
  | step_packet now data ip r r' out : handle_packet now d data ip r = Ok (r', out) -> disc_step d r r'
  | step_prune now r : disc_step d r (fst (prune_stale now r)).

Lemma disc_step_ok d r r' : disc_step d r r' -> reg_ok (self_id d) r -> reg_ok (self_id d) r'.
Proof.
  destruct 1 as [now data ip r r' out E|now r]; intros Hr; [|by apply prune_ok].
  unfold handle_packet in E. repeat (case_match; try done); simplify_eq; try done.
  match goal with H : handle_message _ _ _ ?m _ = _ |- _ => pose proof (handle_message_ok now d ip m r Hr) as Hm; by rewrite H in Hm end.
Qed.

(** Whatever packets arrive, in any order and interleaved with pruning, the
    registry only ever holds self-consistent peers: each is filed once, under the
    SHA-256 digest of its own 32-byte key, is not this device, and has a port
    between 1 and 65535 and a name of at most 64 characters. (What the
    application's own handlers add to the table is the subject of ui.py's model.) *)
Theorem registry_sound d r :
  rtc (disc_step d) [] r ->
  NoDup (map fst r) /\
  forall key p, (key, p) ∈ r ->
    exists id name port, key = KStr id /\ p_peer_id p = JStr id /\ p_name p = JStr name /\ as_int (p_tcp_port p) = Some port /\
      id = sha256_hex (p_public_key p) /\ zlen (p_public_key p) = 32 /\ id <> self_id d /\
      0 < port < 65536 /\ zlen name <= 64.
Proof.
  intros H. assert (reg_ok (self_id d) r) as [Hn Hall].
  { assert (reg_ok (self_id d) []) as H0 by (split; constructor). revert H0.
    induction H as [|x y z Hs _ IH]; [done|]. intros Hx. by eapply IH, disc_step_ok. }
  split; [done|]. intros key p Hin. rewrite Forall_forall in Hall. exact (Hall _ Hin).
Qed.

(** The entry an announcement of [d] received from [ip] leaves. *)
Definition announced (d : Discovery) (ip : pystr) (now : pyfloat) : Peer :=
  MkPeer (JStr (self_id d)) (JStr (shown ip (self_name d))) ip (JInt (self_port d)) (self_key d) now.

Lemma announcement_registers x self ip r now :
  disc_ok x -> self_id x <> self -> reg_ok self r ->
  let r' := fst (upsert_str now (self_id x) (shown ip (self_name x)) ip (JInt (self_port x)) (self_key x) r) in
  reg_ok self r' /\ peer_get (KStr (self_id x)) r' = Some (announced x ip now).
Proof.
  intros (Hid & Hk & Hp & _) Hxy Hr. apply (upsert_ok self now _ _ _ _ (self_port x)); try done; [unfold zlen; lia|apply zlen_take_64].
Qed.

(** C32: one announcement makes two devices know each other. When a's broadcast
    reaches b, b registers a and answers with exactly one unicast packet; when
    that reaches a, a registers b and sends nothing more, so the exchange ends. *)
Theorem announcement_discovers_both a b ipa ipb ra rb t1 t2 :
  disc_ok a -> disc_ok b -> self_id a <> self_id b -> reg_ok (self_id a) ra -> reg_ok (self_id b) rb ->
  exists rb' new_b ra' new_a,
    handle_packet t1 b (build_payload a true) ipa rb
      = Ok (rb', new_b ++ [SendTo (build_payload b false) ipa BROADCAST_PORT]) /\
    peer_get (KStr (self_id a)) rb' = Some (announced a ipa t1) /\
    handle_packet t2 a (build_payload b false) ipb ra = Ok (ra', new_a) /\
    peer_get (KStr (self_id b)) ra' = Some (announced b ipb t2) /\
    (forall payload ip port, SendTo payload ip port ∉ new_a) /\ (forall payload ip port, SendTo payload ip port ∉ new_b).
Proof.
  intros Ha Hb Hne Hra Hrb.
  assert (forall now id name ip port pk r r' out, upsert_str now id name ip port pk r = (r', out) ->
    forall payload i q, SendTo payload i q ∉ out) as Hout.
  { intros now id name ip port pk r r' out. unfold upsert_str, upsert_at. case_match; intros [= <- <-] payload i q Hin.
    - by apply elem_of_nil in Hin.
    - by apply list_elem_of_singleton in Hin. }
  rewrite (handle_announcement t1 b a ipa rb true Ha Hne), (handle_announcement t2 a b ipb ra false Hb (not_eq_sym Hne)).
  destruct (announcement_registers a (self_id b) ipa rb t1 Ha Hne Hrb) as [_ G1].
  destruct (announcement_registers b (self_id a) ipb ra t2 Hb (not_eq_sym Hne) Hra) as [_ G2].
  destruct (upsert_str t1 _ _ _ _ _ rb) as [rb' ob] eqn:E1, (upsert_str t2 _ _ _ _ _ ra) as [ra' oa] eqn:E2.
  exists rb', ob, ra', oa. rewrite app_nil_r. split_and!; [done|done|done|done|by eapply Hout|by eapply Hout].
Qed.

(** ** mDNS *)

Lemma str_ok_take n s : str_ok s = true -> str_ok (take n s) = true.
Proof.
  revert n. induction s as [|c s IH]; intros [|n] H; [done..|]. cbn [take str_ok] in *.
  apply andb_true_iff in H as [H Hs]. apply andb_true_iff in H as [Hc Hh]. rewrite IH, Hc by done.
  destruct (is_high c); [|done]. destruct n, s as [|x s]; [done..|]. cbn in *. by rewrite Hh.
Qed.

Lemma safe_int_str n : 0 <= n < 65536 -> safe_int (str_of_int n) = n.
Proof.
  intros Hn. unfold safe_int, str_of_int. rewrite (proj2 (Z.ltb_ge n 0)) by lia. rewrite py_int_str; [done|lia|].
  pose proof (str_of_nonneg_length n ltac:(lia)). pose proof (Z.log2_le_mono n 65536 ltac:(lia)).
  change (Z.log2 65536) with 16 in *. unfold INT_MAX_STR_DIGITS. lia.
Qed.

Lemma take_64_idem (s : pystr) : take 64 (take 64 s) = take 64 s.
Proof. rewrite take_take. done. Qed.

(** Only the shown name matters to the handling of an announcement. *)
Lemma announcement_name now d v id pk name name' port reply ip r :
  0 <= v < 65536 -> 0 <= port < 65536 -> str_ok id = true -> str_ok name = true -> str_ok name' = true ->
  shown ip name = shown ip name' ->
  handle_packet now d (encode_json (announce_packet v id (b64encode pk) name port reply)) ip r
  = handle_packet now d (encode_json (announce_packet v id (b64encode pk) name' port reply)) ip r.
Proof.
  intros Hv Hp Hid Hn Hn' Hs. rewrite !handle_packet_json by by apply announce_ok. unfold announce_packet. f_equal.
  set (m := [_; _; _; _; (_, JStr name); _; _]). set (m' := [_; _; _; _; (_, JStr name'); _; _]).
  unfold handle_message, check_identity.
  change (display_name ip m) with (shown ip name). change (display_name ip m') with (shown ip name'). rewrite Hs.
  reflexivity.
Qed.

(** MDNS and UDP discovery are equivalent. The packet synthesised from a
    device's mDNS record is handled exactly like its own UDP announcement that
    asks for no reply: the same validation, the same registry, the same outputs,
    for every receiver and state, provided that cutting the name to 64 characters
    does not leave a blank name. *)
Theorem mdns_equivalent_to_udp now d sender src_ip ip r :
  disc_ok sender -> streq (strip (take 64 (self_name sender))) [] = streq (strip (self_name sender)) [] ->
  handle_packet now d (mdns_txt_to_packet (mdns_txt sender) src_ip) ip r
  = handle_packet now d (build_payload sender false) ip r.
Proof.
  intros Hs Hblank. pose proof (id_str_ok sender Hs) as Hid. destruct Hs as (_ & _ & Hp & Hn).
  unfold build_payload, mdns_txt_to_packet.
  change (txt_get (py "version") (mdns_txt sender)) with (Some (str_of_int PROTOCOL_VERSION)).
  change (txt_get (py "device_id") (mdns_txt sender)) with (Some (self_id sender)).
  change (txt_get (py "public_key") (mdns_txt sender)) with (Some (b64encode (self_key sender))).
  change (txt_get (py "name") (mdns_txt sender)) with (Some (take 64 (self_name sender))).
  change (txt_get (py "tcp_port") (mdns_txt sender)) with (Some (str_of_int (self_port sender))).
  cbn match. cbn [default id]. unfold id. rewrite !safe_int_str by (done || lia).
  apply announcement_name; [done|lia|done|by apply str_ok_take|done|].
  unfold shown. rewrite Hblank. destruct (streq (strip (self_name sender)) []); [done|]. apply take_64_idem.
Qed.

(** Pruning is exact. The loop over the collected ids removes from a sound
    registry exactly the peers silent for more than [PEER_TIMEOUT], keeps the
    others in order, and reports each removed peer once. *)
Theorem prune_stale_exact self now r :
  reg_ok self r ->
  prune_stale now r = (List.filter (fun kp => negb (stale now kp.2)) r,
                       map (fun kp => PeerLost kp.2) (List.filter (fun kp => stale now kp.2) r)).
Proof. intros [Hnd _]. by apply pop_all_partition. Qed.

(** ** Examples *)

Definition demo_disc (n : Z) (name : pystr) : Discovery :=
  let key := replicate 32 (z2b n) in MkDiscovery (sha256_hex key) name (5000 + n) key.

Lemma demo_disc_ok n name : 0 < n < 100 -> str_ok name = true -> disc_ok (demo_disc n name).
Proof. intros Hn Hs. repeat apply conj; [reflexivity|reflexivity|cbn; lia|cbn; lia|exact Hs]. Qed.

Lemma announcement_discovers_both_witness :
  exists rb' out, handle_packet (float_of_int 3) (demo_disc 2 (py "bob")) (build_payload (demo_disc 1 (py "ann")) true) (py "10.0.0.1") []
    = Ok (rb', out) /\ map p_name (list_peers rb') = [JStr (py "ann")].
Proof.
  destruct (announcement_discovers_both (demo_disc 1 (py "ann")) (demo_disc 2 (py "bob")) (py "10.0.0.1") (py "10.0.0.2") [] []
    (float_of_int 3) (float_of_int 4)) as (rb' & ob & ra' & oa & E & _).
  - apply demo_disc_ok; [lia|reflexivity].
  - apply demo_disc_ok; [lia|reflexivity].
  - vm_compute. discriminate.
  - split; constructor.
  - split; constructor.
  - eexists _, _. split; [exact E|]. revert E.
    assert (forall x : result (registry * list output), (let* y := x in Ok (map p_name (list_peers (fst y)))) = Ok [JStr (py "ann")] ->
      forall r o, x = Ok (r, o) -> map p_name (list_peers r) = [JStr (py "ann")]) as Hx by (intros x Hx r o ->; by injection Hx).
    apply Hx. vm_compute. reflexivity.
Defined.

Lemma mdns_equivalent_to_udp_witness :
  handle_packet (float_of_int 3) (demo_disc 2 []) (mdns_txt_to_packet (mdns_txt (demo_disc 1 (py "ann"))) (py "0.0.0.0")) (py "10.0.0.1") []
  = handle_packet (float_of_int 3) (demo_disc 2 []) (build_payload (demo_disc 1 (py "ann")) false) (py "10.0.0.1") [].
Proof.
  apply mdns_equivalent_to_udp; [apply demo_disc_ok; [lia|reflexivity]|vm_compute; reflexivity].
Defined.

Lemma prune_stale_exact_witness :
  let key := replicate 32 x01 in
  let p := MkPeer (JStr (sha256_hex key)) (JStr (py "ann")) (py "10.0.0.1") (JInt 5001) key (float_of_int 3) in
  prune_stale (float_of_int 20) [(KStr (sha256_hex key), p)] = ([], [PeerLost p]).
Proof.
  intros key p. rewrite (prune_stale_exact [] (float_of_int 20)); [vm_compute; reflexivity|].
  split; [apply NoDup_singleton|]. constructor; [|constructor]. exists (sha256_hex key), (py "ann"), 5001.
  repeat apply conj; try reflexivity; vm_compute; discriminate.
Defined.

Lemma registry_sound_witness :
  exists r out, handle_packet (float_of_int 3) (demo_disc 2 []) (build_payload (demo_disc 1 (py "ann")) true) (py "10.0.0.1") [] = Ok (r, out) /\
    length r = 1%nat /\ forall key p, (key, p) ∈ r -> key = KStr (sha256_hex (p_public_key p)).
Proof.
  assert (match handle_packet (float_of_int 3) (demo_disc 2 []) (build_payload (demo_disc 1 (py "ann")) true) (py "10.0.0.1") [] with
          | Ok (r, _) => length r
          | Err _ => 0%nat
          end = 1%nat) as Hl by (vm_compute; reflexivity).
  destruct (handle_packet (float_of_int 3) (demo_disc 2 []) (build_payload (demo_disc 1 (py "ann")) true) (py "10.0.0.1") [])
    as [[r out]|e] eqn:E; [|discriminate Hl].
  exists r, out. split; [reflexivity|]. split; [exact Hl|]. intros key p Hin.
  destruct (proj2 (registry_sound (demo_disc 2 []) r (rtc_once _ _ (step_packet _ _ _ _ _ _ _ E))) key p Hin)
    as (id & name & port & -> & _ & _ & _ & <- & _). reflexivity.
Defined.

(** A name of blanks longer than 64 characters is where the two transports differ. *)
Lemma mdns_blank_name_differs :
  let a := demo_disc 1 (replicate 64 32 ++ py "x") in
  let names x := match x with Ok (r, _) => map p_name (list_peers r) | Err _ => [] end in
  names (handle_packet (float_of_int 3) (demo_disc 2 []) (mdns_txt_to_packet (mdns_txt a) (py "0.0.0.0")) (py "10.0.0.1") []) = [JStr (py "10.0.0.1")] /\
  names (handle_packet (float_of_int 3) (demo_disc 2 []) (build_payload a false) (py "10.0.0.1") []) = [JStr (replicate 64 32)].
Proof. split; vm_compute; reflexivity. Qed.

(** The default gateway of a routing table, the broadcast address of an interface. *)
Example targets_ex :
  get_broadcast_targets
    (Some (py "Iface Destination Gateway Flags" ++ [10] ++ py "wlan0 00000000 0100A8C0 0003" ++ [10]))
    (Some (py "2: wlan0 inet 192.168.0.7/24 brd 192.168.0.255 scope global" ++ [10])) None
  = [py "192.168.0.1"; py "192.168.0.255"; py "255.255.255.255"].
Proof. vm_compute. reflexivity. Qed.
