(* ===== verification/Timestamps.v ===== *)
(** * Timestamps as floats

    [time.time()] between 2004 and 2038 is a float between 2^30 and 2^31, a
    multiple of 2^-22: a whole number of ticks of about a quarter microsecond.
    The difference of two such timestamps is exact, so comparing it with a
    timeout compares the ticks. *)

From S2P Require Import Prelude PyFloat FloatFacts.
From stdpp Require Import base numbers.
From Stdlib Require Import ZArith Lia Floats.SpecFloat.
Open Scope Z_scope.

Definition TICKS : Z := 2 ^ 22.
(** The ticks of the timestamps of that time span. *)
Definition in_span (n : Z) : Prop := 2 ^ 52 <= n < 2 ^ 53.
Definition stamp (n : Z) : pyfloat := S754_finite false (Z.to_pos n) (-22).

(** ** Normalisation of a short integer is exact *)

Lemma shifted_pos m d : Zpos (Pos.iter xO m d) = Zpos m * 2 ^ Zpos d.
Proof.
  induction d as [|d IH] using Pos.peano_ind; [cbn; lia|]. rewrite Pos.iter_succ, Pos2Z.inj_succ, Z.pow_succ_r by lia.
  change (Zpos (xO (Pos.iter xO m d))) with (2 * Zpos (Pos.iter xO m d)). rewrite IH. lia.
Qed.

(** A negative number stays one, whatever it is rounded to. *)
Lemma negative_compare p T' e : SFltb (S754_finite false T' e) (binary_round 53 1024 true p (-22)) = false.
Proof.
  unfold binary_round. destruct (shl_align _ _ _) as [mz ez]. unfold binary_round_aux.
  destruct (shr_fexp _ _ _ _ _) as [mrs e1]. destruct (shr_fexp _ _ _ _ _) as [mrs2 e2]. by destruct (shr_m mrs2); [|destruct (_ <=? _)|].
Qed.

(** An integer of less than 53 bits, scaled by 2^-22, is the float with a
    mantissa of 53 bits. *)
Lemma normalize_exact m :
  Zpos (digits2_pos m) < 53 ->
  exists m', binary_normalize 53 1024 (Zpos m) (-22) false = S754_finite false m' (Zpos (digits2_pos m) - 75) /\
    Zpos m' = Zpos m * 2 ^ (53 - Zpos (digits2_pos m)).
Proof.
  intros Hd. set (k := Zpos (digits2_pos m)) in *. unfold binary_normalize, binary_round. fold k.
  assert (fexp 53 1024 (k + -22) = k - 75) as Hf by (unfold fexp, emin; lia). rewrite Hf.
  unfold shl_align. replace (k - 75 - -22) with (k - 53) by lia.
  destruct (k - 53) as [|p|d] eqn:E; [lia..|]. set (m' := Pos.iter xO m d).
  assert (Zpos m' = Zpos m * 2 ^ (53 - k)) as Hm' by (unfold m'; rewrite shifted_pos; do 2 f_equal; lia).
  pose proof (digits_bounds m) as Hb. fold k in Hb.
  assert (Zpos (digits2_pos m') = 53) as Hd'.
  { apply digits_unique; [lia|]. rewrite Hm'. replace (2 ^ (53 - 1)) with (2 ^ (k - 1) * 2 ^ (53 - k)) by (rewrite <- Z.pow_add_r by lia; f_equal; lia).
    replace (2 ^ 53) with (2 ^ k * 2 ^ (53 - k)) by (rewrite <- Z.pow_add_r by lia; f_equal; lia). split; [apply Z.mul_le_mono_nonneg_r|apply Z.mul_lt_mono_pos_r]; lia. }
  exists m'. split; [|exact Hm']. unfold binary_round_aux, shr_fexp. cbn [Zdigits2]. rewrite Hd'.
  assert (fexp 53 1024 (53 + (k - 75)) - (k - 75) = 0) as Hz by (unfold fexp, emin; lia). rewrite Hz.
  cbn [shr shr_record_of_loc shr_m loc_of_shr_record round_nearest_even Zdigits2]. rewrite Hd', Hz. cbn [shr shr_m].
  by rewrite (proj2 (Z.leb_le _ _)) by lia.
Qed.

(** Positive floats with full mantissas are ordered by their values. *)
Lemma compare_ticks m n :
  Zpos (digits2_pos m) < 53 -> Zpos (digits2_pos n) < 53 ->
  SFltb (binary_normalize 53 1024 (Zpos m) (-22) false) (binary_normalize 53 1024 (Zpos n) (-22) false) = (Zpos m <? Zpos n).
Proof.
  intros Hm Hn. destruct (normalize_exact m Hm) as (m' & -> & Em), (normalize_exact n Hn) as (n' & -> & En).
  pose proof (digits_bounds m) as Bm. pose proof (digits_bounds n) as Bn.
  set (k := Zpos (digits2_pos m)) in *. set (l := Zpos (digits2_pos n)) in *. unfold SFltb, SFcompare.
  destruct (Z.compare_spec (k - 75) (l - 75)) as [E|E|E].
  - assert (l = k) as -> by lia. change (Pos.compare_cont Eq m' n') with (Pos.compare m' n').
    destruct (Z.ltb_spec (Zpos m) (Zpos n)) as [Hlt|Hge].
    + assert (Zpos m' < Zpos n') as Hlt' by (rewrite Em, En; apply Z.mul_lt_mono_pos_r; lia).
      by rewrite (proj2 (Pos.compare_lt_iff m' n')) by exact Hlt'.
    + assert (Zpos n' <= Zpos m') as Hge' by (rewrite Em, En; apply Z.mul_le_mono_nonneg_r; lia).
      destruct (Pos.compare_spec m' n'); [done|lia|done].
  - symmetry. apply Z.ltb_lt. assert (2 ^ k <= 2 ^ (l - 1)) by (apply Z.pow_le_mono_r; lia). lia.
  - symmetry. apply Z.ltb_ge. assert (2 ^ l <= 2 ^ (k - 1)) by (apply Z.pow_le_mono_r; lia). lia.
Qed.

(** The difference of two timestamps, compared with a whole number of ticks. *)
Lemma elapsed_exact T n m :
  in_span n -> in_span m -> Zpos (digits2_pos T) < 53 ->
  float_gt (float_sub (stamp n) (stamp m)) (binary_normalize 53 1024 (Zpos T) (-22) false) = (Zpos T <? n - m).
Proof.
  unfold in_span, stamp, float_gt, float_sub. intros Hn Hm HT. cbn [SFsub].
  change (Z.min (-22) (-22)) with (-22). unfold shl_align. change (-22 - -22) with 0. cbn [fst cond_Zopp].
  rewrite !Z2Pos.id by lia. destruct (normalize_exact T HT) as (T' & ET & _).
  destruct (n - m) as [|p|p] eqn:E.
  - by rewrite ET.
  - apply compare_ticks; [done|]. pose proof (digits_bounds p) as Hb.
    assert (Zpos (digits2_pos p) - 1 < 52) by (apply (Z.pow_lt_mono_r_iff 2); lia). lia.
  - rewrite ET. apply negative_compare.
Qed.
