(* ===== verification/DiscoveryLoops.v ===== *)
(** * discovery.py: the running service

    The sockets, the announce, listen and prune loops, the mDNS service and its
    browser, and their common run. Each turn of a loop is one input of a state
    machine: what the network, the clock, the host or the application did. The
    bodies of the handlers are those of [Discovery]. What the mDNS library does
    (registering, resolving a service) is part of the inputs; that its object
    stays open when unregistering fails is not modelled. *)

From S2P Require Import Prelude PyStr PyFloat PyText Json JsonFacts PyValue Sha256 Base64 SecurityEvents Timestamps Discovery.
From stdpp Require Import base gmap sets strings list option list_numbers relations.
From Stdlib Require Import ZArith Lia Strings.Byte Floats.SpecFloat.
Open Scope Z_scope.
Open Scope peerc_scope.

Definition ANNOUNCE_INTERVAL : pyfloat := float_of_int 3.
Definition MDNS_ANNOUNCE_INTERVAL : pyfloat := float_of_int 10.

(** ** Sockets *)

(** [_sock], [_send_sock], the sockets that are open, and the next one's number. *)
Record Sockets : Type := MkSockets {
  sk_sock : option nat;
  sk_send : option nat;
  sk_open : gset nat;
  sk_next : nat
}.
Definition no_sockets : Sockets := MkSockets None None ∅ 0.

(** [_get_send_socket]; [created] tells whether the system grants a socket. *)
Definition get_send_socket (created : bool) (s : Sockets) : result nat * Sockets :=
  match sk_send s with
  | Some n => (Ok n, s)
  | None =>
      if created
      then (Ok (sk_next s), MkSockets (sk_sock s) (Some (sk_next s)) ({[sk_next s]} ∪ sk_open s) (S (sk_next s)))
      else (Err OSError, s)
  end.
(** [self._sock = self._make_broadcast_socket()]; [bound] tells whether the port
    could be bound. A socket that could not is dropped, and closed with it. *)
Definition open_broadcast_socket (bound : bool) (s : Sockets) : result nat * Sockets :=
  if bound
  then (Ok (sk_next s), MkSockets (Some (sk_next s)) (sk_send s) ({[sk_next s]} ∪ sk_open s) (S (sk_next s)))
  else (Err OSError, MkSockets (sk_sock s) (sk_send s) (sk_open s) (S (sk_next s))).
(** The [finally] clauses of the announce and the listen loop. *)
Definition close_send (s : Sockets) : Sockets :=
  match sk_send s with
  | Some n => MkSockets (sk_sock s) None (sk_open s ∖ {[n]}) (sk_next s)
  | None => s
  end.
Definition close_sock (s : Sockets) : Sockets :=
  match sk_sock s with
  | Some n => MkSockets None (sk_send s) (sk_open s ∖ {[n]}) (sk_next s)
  | None => s
  end.

(** ** The mDNS service *)

Record ServiceInfo : Type := MkService {
  si_type : pystr;
  si_name : pystr;
  si_addresses : list bytes;
  si_port : Z;
  si_properties : list (pystr * pystr)
}.

(** The addresses converted before one fails. *)
Fixpoint packed_ips (ips : list pystr) : list bytes :=
  match ips with
  | [] => []
  | ip :: ips =>
      if prefixb (py "127.") ip then packed_ips ips
      else match inet_aton ip with
           | Ok b => b :: packed_ips ips
           | Err _ => []
           end
  end.
(** [_make_service_info] of the object that holds [d]'s values; [resolved] are
    the addresses of the host's name. *)
Definition make_service_info (d : Discovery) (resolved : option (list pystr)) : ServiceInfo :=
  let local_ips := match resolved with
                   | Some ips => packed_ips ips
                   | None => []
                   end in
  MkService MDNS_SERVICE_TYPE (mdns_service_name d)
    (match local_ips with [] => [[x7f; x00; x00; x01]] | _ => local_ips end)
    (self_port d) (mdns_txt d).

(** ** The loops *)

Inductive status : Type := Idle | Alive | Ended (e : exn) | Cancelled.
#[export] Instance status_eq_dec : EqDecision status.
Proof. solve_decision. Defined.

(** [lo_mdns]: the values the [MDNSDiscovery] was made with, and the record it
    registered first. *)
Record Loops : Type := MkLoops {
  lo_disc : Discovery;
  lo_registry : registry;
  lo_sockets : Sockets;
  lo_announce : status;
  lo_listen : status;
  lo_prune : status;
  lo_mdns_status : status;
  lo_mdns : option (Discovery * ServiceInfo)
}.

Inductive loop_output : Type :=
  | Out (o : output)
  | Registered (i : ServiceInfo)
  | Updated (i : ServiceInfo)
  | Unregistered (i : ServiceInfo).

Definition set_registry (r : registry) (l : Loops) : Loops :=
  MkLoops (lo_disc l) r (lo_sockets l) (lo_announce l) (lo_listen l) (lo_prune l) (lo_mdns_status l) (lo_mdns l).
Definition set_sockets (s : Sockets) (l : Loops) : Loops :=
  MkLoops (lo_disc l) (lo_registry l) s (lo_announce l) (lo_listen l) (lo_prune l) (lo_mdns_status l) (lo_mdns l).
Definition set_announce (st : status) (l : Loops) : Loops :=
  MkLoops (lo_disc l) (lo_registry l) (lo_sockets l) st (lo_listen l) (lo_prune l) (lo_mdns_status l) (lo_mdns l).
Definition set_listen (st : status) (l : Loops) : Loops :=
  MkLoops (lo_disc l) (lo_registry l) (lo_sockets l) (lo_announce l) st (lo_prune l) (lo_mdns_status l) (lo_mdns l).
Definition set_prune (st : status) (l : Loops) : Loops :=
  MkLoops (lo_disc l) (lo_registry l) (lo_sockets l) (lo_announce l) (lo_listen l) st (lo_mdns_status l) (lo_mdns l).
Definition set_mdns (st : status) (m : option (Discovery * ServiceInfo)) (l : Loops) : Loops :=
  MkLoops (lo_disc l) (lo_registry l) (lo_sockets l) (lo_announce l) (lo_listen l) (lo_prune l) st m.
Definition set_disc (d : Discovery) (l : Loops) : Loops :=
  MkLoops d (lo_registry l) (lo_sockets l) (lo_announce l) (lo_listen l) (lo_prune l) (lo_mdns_status l) (lo_mdns l).

Definition alive (st : status) : bool := bool_decide (st = Alive).

(** [Discovery.__init__] *)
Definition new_discovery (d : Discovery) (r : registry) : Loops := MkLoops d r no_sockets Idle Idle Idle Idle None.

(** [run]: the loops begin; the listening socket is opened first thing, and the
    mDNS record is registered where the library is there. [zeroconf] tells
    whether its objects could be made, [registered] whether registering went
    through; what fails otherwise ends the mDNS loop with a warning. *)
Definition run (mdns_available bound zeroconf registered : bool) (h : host_info) (l : Loops) : Loops * list loop_output :=
  let l := set_prune Alive (set_announce Alive l) in
  let '(opened, s) := open_broadcast_socket bound (lo_sockets l) in
  let l := set_sockets s (set_listen (match opened with Ok _ => Alive | Err e => Ended e end) l) in
  if negb mdns_available then (l, [])
  else if negb zeroconf then (set_mdns (Ended OSError) None l, [])
  else
    let info := make_service_info (lo_disc l) (hi_resolved h) in
    (set_mdns Alive (Some (lo_disc l, info)) l, if registered then [Registered info] else []).

(** One turn of [_announce_loop]. A socket that cannot be made ends the loop. *)
Definition announce_turn (h : host_info) (created : bool) (l : Loops) : Loops * list loop_output :=
  if negb (alive (lo_announce l)) then (l, []) else
  let targets := broadcast_targets h in
  match get_send_socket created (lo_sockets l) with
  | (Ok _, s) => (set_sockets s l, map Out (broadcast_now (lo_disc l) targets))
  | (Err e, s) => (set_announce (Ended e) (set_sockets (close_send s) l), [])
  end.

(** What a handled packet puts out; the reply needs the sending socket. *)
Definition is_datagram (o : output) : bool :=
  match o with
  | SendTo _ _ _ => true
  | _ => false
  end.
Definition put_out (created : bool) (outs : list output) (l : Loops) : Loops * list loop_output :=
  if existsb is_datagram outs then
    match get_send_socket created (lo_sockets l) with
    | (Ok _, s) => (set_sockets s l, map Out outs)
    | (Err _, s) => (set_sockets s l, map Out (List.filter (fun o => negb (is_datagram o)) outs))
    end
  else (l, map Out outs).

(** What escapes the handler of a datagram ends the listen loop and closes its
    socket. *)
Definition end_listen (e : exn) (l : Loops) : Loops * list loop_output :=
  (set_listen (Ended e) (set_sockets (close_sock (lo_sockets l)) l), []).
(** One turn of [_listen_loop]: a datagram, or a failed receive, after which the
    loop goes on. *)
Definition listen_turn (now : pyfloat) (received : option (bytes * pystr)) (created : bool) (l : Loops) : Loops * list loop_output :=
  if negb (alive (lo_listen l)) then (l, []) else
  match received with
  | None => (l, [])
  | Some (data, ip) =>
      match handle_packet now (lo_disc l) data ip (lo_registry l) with
      | Ok (r, outs) => put_out created outs (set_registry r l)
      | Err e => end_listen e l
      end
  end.

(** A turn with a datagram nested too deeply for the interpreter: [json.loads]
    raises [RecursionError], which the handler does not catch. *)
Definition overflow_turn (l : Loops) : Loops * list loop_output :=
  if negb (alive (lo_listen l)) then (l, []) else end_listen RecursionError l.

(** One turn of [_prune_loop]. *)
Definition prune_turn (now : pyfloat) (l : Loops) : Loops * list loop_output :=
  if negb (alive (lo_prune l)) then (l, []) else
  let '(r, outs) := prune_stale now (lo_registry l) in (set_registry r l, map Out outs).

(** [add_service] and [update_service] of the browser's listener, for the
    outcome of the request; what they raise stays with the browser. *)
Definition browse_turn (now : pyfloat) (info : result resolution) (created : bool) (l : Loops) : Loops * list loop_output :=
  if negb (alive (lo_mdns_status l)) then (l, []) else
  match handle_info info with
  | Ok (Some (packet, src_ip)) =>
      match handle_packet now (lo_disc l) packet src_ip (lo_registry l) with
      | Ok (r, outs) => put_out created outs (set_registry r l)
      | Err _ => (l, [])
      end
  | _ => (l, [])
  end.
(** [remove_service] *)
Definition remove_service (l : Loops) : Loops * list loop_output := (l, []).

(** One turn of [MDNSDiscovery.run]'s refreshing loop. *)
Definition refresh_turn (h : host_info) (sent : bool) (l : Loops) : Loops * list loop_output :=
  match lo_mdns l with
  | Some (d, _) =>
      if alive (lo_mdns_status l) && sent then (l, [Updated (make_service_info d (hi_resolved h))]) else (l, [])
  | None => (l, [])
  end.

(** Cancelling every loop that is alive, with its clean-up. *)
Definition cancelled (st : status) : status := if alive st then Cancelled else st.
Definition cancel_loops (l : Loops) : Loops * list loop_output :=
  let s := lo_sockets l in
  let s := if alive (lo_announce l) then close_send s else s in
  let s := if alive (lo_listen l) then close_sock s else s in
  let outs := match lo_mdns l with
              | Some (_, info) => if alive (lo_mdns_status l) then [Unregistered info] else []
              | None => []
              end in
  (MkLoops (lo_disc l) (lo_registry l) s (cancelled (lo_announce l)) (cancelled (lo_listen l)) (cancelled (lo_prune l))
     (cancelled (lo_mdns_status l)) (lo_mdns l), outs).
(** [await asyncio.gather]: what the announce or the listen loop raises
    ends [run], and leaves the other loops running; the mDNS loop keeps its
    exceptions to itself. *)
Definition failed (st : status) : bool :=
  match st with
  | Ended _ => true
  | _ => false
  end.
Definition run_over (l : Loops) : bool := failed (lo_announce l) || failed (lo_listen l).
(** Cancelling [run]: gather passes the cancellation on to the loops, unless one
    of them raised; [run] is over then, and there is nothing to cancel. *)
Definition cancel (l : Loops) : Loops * list loop_output := if run_over l then (l, []) else cancel_loops l.

(** [probe_peer] and [broadcast_now] on the running service; where no socket can
    be made, the first does nothing and the second raises to its caller. *)
Definition probe (ip : pystr) (created : bool) (l : Loops) : Loops * list loop_output :=
  match get_send_socket created (lo_sockets l) with
  | (Ok _, s) => (set_sockets s l, map Out (probe_peer (lo_disc l) ip BROADCAST_PORT))
  | (Err _, s) => (set_sockets s l, [])
  end.
Definition rebroadcast (h : host_info) (created : bool) (l : Loops) : Loops * list loop_output :=
  match get_send_socket created (lo_sockets l) with
  | (Ok _, s) => (set_sockets s l, map Out (broadcast_now (lo_disc l) (broadcast_targets h)))
  | (Err _, s) => (set_sockets s l, [])
  end.
(** [self._discovery.name = arg] *)
Definition rename (name : pystr) (l : Loops) : Loops * list loop_output :=
  let d := lo_disc l in (set_disc (MkDiscovery (self_id d) name (self_port d) (self_key d)) l, []).

(** [Cancelling] cancels the task of [run]; [ShuttingDown] is the end of the event
    loop, which cancels every task there is. *)
Inductive input : Type :=
  | Announcing (h : host_info) (created : bool)
  | Listening (now : pyfloat) (received : option (bytes * pystr)) (created : bool)
  | Pruning (now : pyfloat)
  | Browsing (now : pyfloat) (info : result resolution) (created : bool)
  | Removing
  | Refreshing (h : host_info) (sent : bool)
  | Probing (ip : pystr) (created : bool)
  | Rebroadcasting (h : host_info) (created : bool)
  | Renaming (name : pystr)
  | Cancelling
  | ShuttingDown
  | Overflowing.

Definition on_input (i : input) (l : Loops) : Loops * list loop_output :=
  match i with
  | Announcing h created => announce_turn h created l
  | Listening now received created => listen_turn now received created l
  | Pruning now => prune_turn now l
  | Browsing now info created => browse_turn now info created l
  | Removing => remove_service l
  | Refreshing h sent => refresh_turn h sent l
  | Probing ip created => probe ip created l
  | Rebroadcasting h created => rebroadcast h created l
  | Renaming name => rename name l
  | Cancelling => cancel l
  | ShuttingDown => cancel_loops l
  | Overflowing => overflow_turn l
  end.
Fixpoint on_inputs (ins : list input) (l : Loops) : Loops * list loop_output :=
  match ins with
  | [] => (l, [])
  | i :: ins => let '(l, o1) := on_input i l in let '(l, o2) := on_inputs ins l in (l, o1 ++ o2)
  end.

(** ** What a turn does to the registry *)

Lemma put_out_registry created outs l : lo_registry (fst (put_out created outs l)) = lo_registry l.
Proof. unfold put_out. destruct (existsb _ _); [|done]. by destruct (get_send_socket _ _) as [[]]. Qed.
Lemma put_out_rest created outs l : lo_disc (fst (put_out created outs l)) = lo_disc l /\ lo_listen (fst (put_out created outs l)) = lo_listen l /\
  lo_prune (fst (put_out created outs l)) = lo_prune l /\ lo_announce (fst (put_out created outs l)) = lo_announce l.
Proof. unfold put_out. destruct (existsb _ _); [|done]. by destruct (get_send_socket _ _) as [[]]. Qed.

(** The time an input carries, and the packet it brings. *)
Definition input_time (i : input) : option pyfloat :=
  match i with
  | Listening now _ _ | Pruning now | Browsing now _ _ => Some now
  | _ => None
  end.
Definition input_packet (i : input) : option (bytes * pystr) :=
  match i with
  | Listening _ received _ => received
  | Browsing _ info _ => match handle_info info with
                         | Ok p => p
                         | Err _ => None
                         end
  | _ => None
  end.

(** The registry is changed by packets, from either transport, and by pruning. *)
Inductive turned (i : input) (l : Loops) : registry -> Prop :=
  | turned_same : turned i l (lo_registry l)
  | turned_packet now data ip r outs :
      input_time i = Some now -> input_packet i = Some (data, ip) ->
      handle_packet now (lo_disc l) data ip (lo_registry l) = Ok (r, outs) -> turned i l r
  | turned_prune now : i = Pruning now -> lo_prune l = Alive -> turned i l (fst (prune_stale now (lo_registry l))).
Lemma turned_eq i l r : r = lo_registry l -> turned i l r.
Proof. intros ->. apply turned_same. Qed.
#[local] Ltac same := apply turned_eq; reflexivity.
Lemma on_input_registry i l : turned i l (lo_registry (fst (on_input i l))).
Proof.
  destruct i as [h c|now rcv c|now|now info c| |h s|ip c|h c|name| | |]; cbn [on_input].
  - unfold announce_turn. destruct (negb _); [same|]. destruct (get_send_socket _ _) as [[]]; same.
  - unfold listen_turn. destruct (negb _); [same|]. destruct rcv as [[data ip]|]; [|same].
    destruct (handle_packet _ _ _ _ _) as [[r outs]|e] eqn:E; [|same]. rewrite put_out_registry. by eapply turned_packet.
  - unfold prune_turn. destruct (alive (lo_prune l)) eqn:Ea; cbn [negb]; [|same].
    apply bool_decide_eq_true in Ea. pose proof (turned_prune (Pruning now) l now eq_refl Ea) as Hp. by destruct (prune_stale _ _).
  - unfold browse_turn. destruct (negb _); [same|]. destruct (handle_info info) as [[[packet ip]|]|] eqn:Eh; try same.
    destruct (handle_packet _ _ _ _ _) as [[r outs]|e] eqn:E; [|same]. rewrite put_out_registry.
    eapply turned_packet; [done|cbn; by rewrite Eh|exact E].
  - same.
  - unfold refresh_turn. destruct (lo_mdns l) as [[d info]|]; [|same]. destruct (_ && _); same.
  - unfold probe. destruct (get_send_socket _ _) as [[]]; same.
  - unfold rebroadcast. destruct (get_send_socket _ _) as [[]]; same.
  - same.
  - unfold cancel. destruct (run_over l); same.
  - same.
  - unfold overflow_turn. destruct (negb _); same.
Qed.

Lemma on_input_self i l : self_id (lo_disc (fst (on_input i l))) = self_id (lo_disc l).
Proof.
  destruct i as [h c|now rcv c|now|now info c| |h s|ip c|h c|name| | |]; cbn [on_input];
    unfold announce_turn, listen_turn, end_listen, overflow_turn, prune_turn, browse_turn, refresh_turn, probe, rebroadcast, cancel;
    repeat (case_match; try done); try reflexivity; by rewrite (proj1 (put_out_rest _ _ _)).
Qed.
Lemma turned_ok i l r : turned i l r -> reg_ok (self_id (lo_disc l)) (lo_registry l) -> reg_ok (self_id (lo_disc l)) r.
Proof. destruct 1 as [|now data ip r outs _ _ E|now]; intros Hr; [done| |by apply prune_ok]. eapply disc_step_ok; [by eapply step_packet|done]. Qed.

(** ** Sockets and loops *)

(** The open sockets are the two the service holds. *)
Definition sockets_ok (s : Sockets) : Prop :=
  (forall n, n ∈ sk_open s <-> sk_sock s = Some n \/ sk_send s = Some n) /\
  (forall n, n ∈ sk_open s -> (n < sk_next s)%nat) /\ (forall n, sk_sock s = Some n -> sk_send s <> Some n).

Lemma get_send_ok created s : sockets_ok s -> sockets_ok (snd (get_send_socket created s)) /\ sk_sock (snd (get_send_socket created s)) = sk_sock s.
Proof.
  intros H. pose proof H as (Ho & Hn & Hd). unfold get_send_socket. destruct (sk_send s) as [n|] eqn:Es; [done|]. destruct created; [|done].
  cbn [snd]. split; [|done]. split_and!; cbn.
  - intros n. rewrite elem_of_union, elem_of_singleton, Ho. naive_solver.
  - intros n. rewrite elem_of_union, elem_of_singleton. intros [->|Hin%Hn]; lia.
  - intros n Hk [= <-]. assert (sk_next s ∈ sk_open s) as Hin by (apply Ho; by left). apply Hn in Hin. lia.
Qed.
Lemma close_send_ok s : sockets_ok s -> sockets_ok (close_send s) /\ sk_sock (close_send s) = sk_sock s /\ sk_send (close_send s) = None.
Proof.
  intros Hs. pose proof Hs as (Ho & Hn & Hd). unfold close_send. destruct (sk_send s) as [n|] eqn:Es; [|done]. split; [|done]. split_and!; cbn.
  - intros k. rewrite elem_of_difference, elem_of_singleton, Ho. split; [naive_solver|]. intros [H|H]; [|done].
    split; [by left|]. intros ->. by apply (Hd n).
  - intros k [H _]%elem_of_difference. auto.
  - done.
Qed.
Lemma close_sock_ok s : sockets_ok s -> sockets_ok (close_sock s) /\ sk_sock (close_sock s) = None /\ sk_send (close_sock s) = sk_send s.
Proof.
  intros Hs. pose proof Hs as (Ho & Hn & Hd). unfold close_sock. destruct (sk_sock s) as [n|] eqn:Es; [|done]. split; [|done]. split_and!; cbn.
  - intros k. rewrite elem_of_difference, elem_of_singleton, Ho. split; [naive_solver|]. intros [H|H]; [done|].
    split; [by right|]. intros ->. by apply (Hd n).
  - intros k [H _]%elem_of_difference. auto.
  - done.
Qed.

Record loops_ok (l : Loops) : Prop := {
  ok_peers : reg_ok (self_id (lo_disc l)) (lo_registry l);
  ok_sockets : sockets_ok (lo_sockets l);
  ok_listening : lo_listen l = Alive <-> is_Some (sk_sock (lo_sockets l))
}.

Lemma put_out_ok created outs l : loops_ok l -> loops_ok (fst (put_out created outs l)).
Proof.
  intros [Hp Hs Hl]. unfold put_out. destruct (existsb _ _); [|done]. destruct (get_send_ok created _ Hs) as [Hs' Hk].
  destruct (get_send_socket _ _) as [[n|e] s]; cbn [snd] in *; constructor; cbn; rewrite ?Hk; done.
Qed.
Lemma with_send_ok created l s r : loops_ok l -> get_send_socket created (lo_sockets l) = (r, s) -> loops_ok (set_sockets s l).
Proof.
  intros [Hp Hs Hl] E. destruct (get_send_ok created _ Hs) as [Hs' Hk]. rewrite E in Hs', Hk. constructor; cbn in *; rewrite ?Hk; done.
Qed.
Lemma with_registry_ok l r : loops_ok l -> reg_ok (self_id (lo_disc l)) r -> loops_ok (set_registry r l).
Proof. by intros [] ?. Qed.

Lemma cancelled_alive st : cancelled st <> Alive.
Proof. unfold cancelled, alive. by case_bool_decide. Qed.

Lemma end_listen_ok e l : loops_ok l -> loops_ok (fst (end_listen e l)).
Proof.
  intros H. destruct (close_sock_ok _ (ok_sockets l H)) as (Hs' & Hk & _). destruct H as [Hp _ _]. constructor; cbn; [done|done|].
  rewrite Hk. split; [done|by intros []].
Qed.
Lemma cancel_loops_ok l : loops_ok l -> loops_ok (fst (cancel_loops l)).
Proof.
  intros [Hp Hs Hl]. unfold cancel_loops. constructor; cbn; [done| |].
  - destruct (alive (lo_listen l)), (alive (lo_announce l)); repeat first [apply close_sock_ok|apply close_send_ok]; done.
  - split; [by intros Ha%cancelled_alive|]. intros Hk. exfalso. unfold alive in Hk. case_bool_decide as E.
    + destruct (bool_decide _) in Hk.
      * destruct (close_send_ok _ Hs) as (Hs' & _). destruct (close_sock_ok _ Hs') as (_ & Hz & _). rewrite Hz in Hk. by destruct Hk.
      * destruct (close_sock_ok _ Hs) as (_ & Hz & _). rewrite Hz in Hk. by destruct Hk.
    + apply E, Hl. destruct (bool_decide _) in Hk; [|done]. destruct (close_send_ok _ Hs) as (_ & Hz & _). by rewrite Hz in Hk.
Qed.
Lemma on_input_ok i l : loops_ok l -> loops_ok (fst (on_input i l)).
Proof.
  intros H. pose proof (turned_ok _ _ _ (on_input_registry i l) (ok_peers l H)) as Hr. revert Hr.
  destruct i as [h c|now rcv c|now|now info c| |h s|ip c|h c|name| | |]; cbn [on_input]; intros Hr.
  - unfold announce_turn. destruct (negb _); [done|]. destruct (get_send_socket c (lo_sockets l)) as [[n|e] s] eqn:E.
    + by eapply with_send_ok.
    + pose proof (with_send_ok c l s _ H E) as [Hp Hs Hl]. destruct (close_send_ok _ Hs) as (Hs' & Hk & _).
      cbn in *. constructor; cbn; rewrite ?Hk; done.
  - revert Hr. unfold listen_turn. destruct (negb _); [done|]. destruct rcv as [[data ip]|]; [|done].
    destruct (handle_packet _ _ _ _ _) as [[r outs]|e]; intros Hr.
    + rewrite put_out_registry in Hr. apply put_out_ok, with_registry_ok; done.
    + by apply end_listen_ok.
  - revert Hr. unfold prune_turn. destruct (negb _); [done|]. destruct (prune_stale _ _). by apply with_registry_ok.
  - revert Hr. unfold browse_turn. destruct (negb _); [done|]. destruct (handle_info info) as [[[packet ip]|]|]; try done.
    destruct (handle_packet _ _ _ _ _) as [[r outs]|e]; intros Hr; [|done].
    rewrite put_out_registry in Hr. apply put_out_ok, with_registry_ok; done.
  - done.
  - unfold refresh_turn. destruct (lo_mdns l) as [[d info]|]; [|done]. by destruct (_ && _).
  - unfold probe. destruct (get_send_socket c (lo_sockets l)) as [[n|e] s] eqn:E; by eapply with_send_ok.
  - unfold rebroadcast. destruct (get_send_socket c (lo_sockets l)) as [[n|e] s] eqn:E; by eapply with_send_ok.
  - by destruct H.
  - unfold cancel. destruct (run_over l); [done|]. by apply cancel_loops_ok.
  - by apply cancel_loops_ok.
  - unfold overflow_turn. destruct (negb _); [done|]. by apply end_listen_ok.
Qed.
Lemma on_inputs_ok ins l : loops_ok l -> loops_ok (fst (on_inputs ins l)).
Proof.
  revert l. induction ins as [|i ins IH]; intros l H; [done|]. cbn [on_inputs]. pose proof (on_input_ok i l H) as H1.
  destruct (on_input i l) as [l1 o1]. specialize (IH l1 H1). by destruct (on_inputs ins l1).
Qed.
Lemma run_ok ma bound zc reg h d : loops_ok (fst (run ma bound zc reg h (new_discovery d []))).
Proof.
  assert (reg_ok (self_id d) []) as H0 by (split; constructor).
  assert (forall st m, loops_ok (set_mdns st m (fst (run false bound zc reg h (new_discovery d []))))) as H.
  { intros st m. unfold run. cbn [negb]. destruct bound; constructor; cbn.
    - done.
    - split_and!; cbn; [|set_solver|done]. intros n. rewrite elem_of_union, elem_of_singleton. set_solver.
    - done.
    - done.
    - split_and!; cbn; [|set_solver|done]. set_solver.
    - split; [done|by intros []]. }
  revert H. unfold run. destruct bound, ma, zc; cbn; intros H;
    first [exact (H Idle None)|exact (H (Ended OSError) None)|exact (H Alive (Some (d, make_service_info d (hi_resolved h))))].
Qed.

(** Until they are cancelled the pruning runs, and the announce and the listen
    loop run or have failed; they are cancelled together. *)
Definition going (st : status) : Prop := st = Alive \/ failed st = true.
Definition stopped (l : Loops) : Prop :=
  lo_announce l <> Alive /\ lo_listen l <> Alive /\ lo_prune l <> Alive /\ lo_mdns_status l <> Alive.
Definition together (l : Loops) : Prop := (lo_prune l = Alive /\ going (lo_announce l) /\ going (lo_listen l)) \/ stopped l.

Lemma cancel_loops_stops l : stopped (fst (cancel_loops l)).
Proof. split_and!; apply cancelled_alive. Qed.
(** A turn of a loop fails that loop at most. *)
Lemma on_input_statuses i l : i <> Cancelling -> i <> ShuttingDown ->
  let l' := fst (on_input i l) in
  lo_prune l' = lo_prune l /\ lo_mdns_status l' = lo_mdns_status l /\
  (lo_announce l' = lo_announce l \/ failed (lo_announce l') = true) /\ (lo_listen l' = lo_listen l \/ failed (lo_listen l') = true).
Proof.
  cbv zeta. destruct i as [h c|now rcv c|now|now info c| |h s|ip c|h c|name| | |]; intros Hc Hs; try done; cbn [on_input];
    unfold announce_turn, listen_turn, end_listen, overflow_turn, prune_turn, browse_turn, refresh_turn, probe, rebroadcast, put_out;
    repeat (case_match; try (split_and!; by auto)); split_and!; by auto.
Qed.
Lemma on_input_together i l : together l -> together (fst (on_input i l)).
Proof.
  intros H. assert (i = Cancelling \/ i = ShuttingDown \/ i <> Cancelling /\ i <> ShuttingDown) as [->|[->|[Hc Hs]]].
  { destruct i; auto. }
  - cbn [on_input]. unfold cancel. destruct (run_over l); [done|]. right. apply cancel_loops_stops.
  - right. apply cancel_loops_stops.
  - destruct (on_input_statuses i l Hc Hs) as (Hp & Hm & Ha & Hl). unfold together, going, stopped in *. rewrite Hp, Hm.
    assert (forall st st', st = Alive \/ failed st = true -> st' = st \/ failed st' = true -> st' = Alive \/ failed st' = true) as Hg by naive_solver.
    assert (forall st st', st <> Alive -> st' = st \/ failed st' = true -> st' <> Alive) as Hn by naive_solver.
    destruct H as [(Hp' & Ha' & Hl')|(Ha' & Hl' & Hpm)]; [left|right]; eauto 6.
Qed.
Lemma on_inputs_together ins l : together l -> together (fst (on_inputs ins l)).
Proof.
  revert l. induction ins as [|i ins IH]; intros l H; [done|]. cbn [on_inputs]. pose proof (on_input_together i l H) as H1.
  destruct (on_input i l) as [l1 o1]. specialize (IH l1 H1). by destruct (on_inputs ins l1).
Qed.
Lemma run_together ma bound zc reg h l : together (fst (run ma bound zc reg h l)).
Proof. left. unfold run. destruct bound, ma, zc; cbn; unfold going; auto. Qed.

(** What is left open when every loop has been cancelled: a sending socket opened
    after the announce loop failed. *)
Lemma cancel_loops_sockets l n : loops_ok l -> n ∈ sk_open (lo_sockets (fst (cancel_loops l))) ->
  lo_announce l <> Alive /\ sk_send (lo_sockets l) = Some n.
Proof.
  intros H. pose proof (cancel_loops_ok l H) as [_ (Ho & _) Hk]. rewrite Ho. intros [Hs|Hs].
  { exfalso. apply (cancelled_alive (lo_listen l)), Hk. by rewrite Hs. }
  assert (forall s, sk_send (if alive (lo_listen l) then close_sock s else s) = sk_send s) as Hsock
    by (intros s; destruct (alive _); [|done]; unfold close_sock; by destruct (sk_sock s)).
  unfold cancel_loops in Hs. cbn [fst lo_sockets] in Hs. rewrite Hsock in Hs. unfold alive in Hs. case_bool_decide as Ea; [|done].
  by rewrite (proj2 (proj2 (close_send_ok _ (ok_sockets l H)))) in Hs.
Qed.
Lemma stopped_cancel l : stopped l -> cancel_loops l = (l, []).
Proof.
  intros (Ha & Hl & Hp & Hm). unfold cancel_loops, cancelled, alive. rewrite !bool_decide_eq_false_2 by done.
  destruct l as [d r s a li p m [[d0 i0]|]]; done.
Qed.

Lemma on_inputs_self ins l : self_id (lo_disc (fst (on_inputs ins l))) = self_id (lo_disc l).
Proof.
  revert l. induction ins as [|i ins IH]; intros l; [done|]. cbn [on_inputs]. pose proof (on_input_self i l) as H1.
  destruct (on_input i l) as [l1 o1]. specialize (IH l1). destruct (on_inputs ins l1). cbn in *. congruence.
Qed.

(** C33: the discovery service is sound however its loops run. After the start,
    over any inputs (announce turns, datagrams, too deeply nested ones included,
    failed receives, pruning, browsed mDNS services, refreshes, probes, renames, refused sockets, cancellations):
    every peer in the registry is filed once, under the digest of its own 32-byte
    key, is not this device and has a valid port and a bounded name; the open
    sockets are exactly the listening and the sending socket; the listening socket
    is there exactly while the listen loop runs. Cancelling the run stops the
    announce, listen, prune and mDNS loops and leaves no socket open, if the loops
    were running; but once the announce or the listen loop has raised, the run is
    over and cancelling it changes nothing: the other loops go on with their
    sockets. They stop with the event loop, which leaves no listening socket, and
    a sending socket only where one was opened after the announce loop failed. *)
Theorem loops_sound mdns bound zeroconf registered h d ins l outs :
  on_inputs ins (fst (run mdns bound zeroconf registered h (new_discovery d []))) = (l, outs) ->
  NoDup (map fst (lo_registry l)) /\
  (forall key p, (key, p) ∈ lo_registry l ->
    exists id name port, key = KStr id /\ p_peer_id p = JStr id /\ p_name p = JStr name /\ as_int (p_tcp_port p) = Some port /\
      id = sha256_hex (p_public_key p) /\ zlen (p_public_key p) = 32 /\ id <> self_id d /\ 0 < port < 65536 /\ zlen name <= 64) /\
  (forall n, n ∈ sk_open (lo_sockets l) <-> sk_sock (lo_sockets l) = Some n \/ sk_send (lo_sockets l) = Some n) /\
  (lo_listen l = Alive <-> is_Some (sk_sock (lo_sockets l))) /\
  (match lo_announce l, lo_listen l with
   | Alive, Alive => let l' := fst (on_input Cancelling l) in stopped l' /\ sk_open (lo_sockets l') = ∅
   | _, _ => on_input Cancelling l = (l, [])
   end) /\
  let l' := fst (on_input ShuttingDown l) in
  stopped l' /\ sk_sock (lo_sockets l') = None /\
  (forall n, n ∈ sk_open (lo_sockets l') -> lo_announce l <> Alive /\ sk_send (lo_sockets l) = Some n).
Proof.
  intros E. pose proof (run_ok mdns bound zeroconf registered h d) as H0.
  pose proof (on_inputs_self ins (fst (run mdns bound zeroconf registered h (new_discovery d [])))) as Hself. rewrite E in Hself.
  assert (self_id (lo_disc (fst (run mdns bound zeroconf registered h (new_discovery d [])))) = self_id d) as Hd
    by (unfold run; destruct bound, mdns, zeroconf; done).
  pose proof (on_inputs_ok ins _ H0) as Hl. pose proof (on_inputs_together ins _ (run_together mdns bound zeroconf registered h (new_discovery d []))) as Ht.
  rewrite E in Hl, Ht. cbn [fst] in Hself, Hl, Ht. rewrite Hd in Hself.
  pose proof (cancel_loops_stops l) as Hstop. pose proof (fun n => cancel_loops_sockets l n Hl) as Hopen.
  pose proof (ok_listening _ (cancel_loops_ok l Hl)) as Hk. destruct Hl as [[Hnd Hall] (Ho & _) Hlist]. rewrite Hself in Hall.
  split; [done|]. split; [intros key p Hin; rewrite Forall_forall in Hall; exact (Hall _ Hin)|].
  split; [done|]. split; [done|]. split.
  - cbn [on_input]. unfold cancel, run_over. destruct Ht as [(_ & [Ha|Ha] & [Hb|Hb])|Hs].
    + rewrite Ha, Hb. cbn. split; [done|]. apply set_eq. intros n. split; [|by intros ?%elem_of_empty]. intros Hin. by destruct (Hopen n Hin).
    + rewrite Hb, orb_true_r. destruct (lo_listen l); try done. by destruct (lo_announce l).
    + rewrite Ha. destruct (lo_announce l); try done.
    + rewrite Ha. destruct (lo_announce l); try done.
    + rewrite (stopped_cancel l Hs). destruct Hs as (Ha & _). destruct (lo_announce l), (lo_listen l); try done; by destruct (_ || _).
  - cbn [on_input]. split; [done|]. split; [|exact Hopen]. apply eq_None_not_Some. intros Hs. apply (cancelled_alive (lo_listen l)). by apply Hk.
Qed.

(** When the listening port is taken, the run is over at once: cancelling it has
    no effect, and the device goes on announcing itself. *)
Theorem unbound_listener_leaves_announcing mdns zeroconf registered h d :
  let l := fst (run mdns false zeroconf registered h (new_discovery d [])) in
  on_input Cancelling l = (l, []) /\
  snd (on_inputs [Cancelling; Announcing h true] l) = map Out (broadcast_now d (broadcast_targets h)).
Proof. unfold run. destruct mdns, zeroconf; cbn [negb fst]; (split; [reflexivity|]); apply (app_nil_r (map Out (broadcast_now d (broadcast_targets h)))). Qed.

(** A loop that ended does not come back. *)
Lemma on_input_alive i l :
  (lo_listen (fst (on_input i l)) = Alive -> lo_listen l = Alive) /\ (lo_prune (fst (on_input i l)) = Alive -> lo_prune l = Alive).
Proof.
  destruct i as [h c|now rcv c|now|now info c| |h s|ip c|h c|name| | |]; cbn [on_input];
    unfold announce_turn, listen_turn, end_listen, overflow_turn, prune_turn, browse_turn, refresh_turn, probe, rebroadcast;
    repeat (case_match; try done); try done;
    try (match goal with |- context [put_out ?c ?o ?x] => destruct (put_out_rest c o x) as (_ & -> & -> & _) end; done).
  - unfold cancel. destruct (run_over l); [done|]. split; by intros ?%cancelled_alive.
  - split; by intros ?%cancelled_alive.
Qed.
Lemma on_inputs_alive ins l :
  (lo_listen (fst (on_inputs ins l)) = Alive -> lo_listen l = Alive) /\ (lo_prune (fst (on_inputs ins l)) = Alive -> lo_prune l = Alive).
Proof.
  revert l. induction ins as [|i ins IH]; intros l; [done|]. cbn [on_inputs]. pose proof (on_input_alive i l) as [H1 H2].
  destruct (on_input i l) as [l1 o1]. destruct (IH l1) as [H3 H4]. destruct (on_inputs ins l1) as [l2 o2]. cbn in *. auto.
Qed.

(** One datagram nested deeply enough leaves a running service deaf: whatever comes
    after it, no datagram is handled any more. *)
Theorem nested_datagram_ends_listening ins l :
  lo_listen l = Alive ->
  let l' := fst (on_inputs (Overflowing :: ins) l) in
  lo_listen l' <> Alive /\ (forall now received created, on_input (Listening now received created) l' = (l', [])).
Proof.
  intros Hl. cbv zeta. assert (lo_listen (fst (on_inputs (Overflowing :: ins) l)) <> Alive) as H.
  { cbn [on_inputs on_input]. unfold overflow_turn, end_listen, alive. rewrite bool_decide_eq_true_2 by done. cbn [negb].
    match goal with |- context [on_inputs ins ?x] => pose proof (proj1 (on_inputs_alive ins x)) as Ha; destruct (on_inputs ins x) as [l2 o2] end.
    cbn in *. intros E. by specialize (Ha E). }
  split; [done|]. intros now received created. cbn [on_input]. unfold listen_turn, alive. by rewrite bool_decide_eq_false_2.
Qed.

(** ** Presence *)

Definition TIMEOUT_TICKS : Z := 10 * TICKS.
Lemma stale_exact n m p : in_span n -> in_span m -> p_last_seen p = stamp m -> stale (stamp n) p = (TIMEOUT_TICKS <? n - m).
Proof. intros Hn Hm E. unfold stale. rewrite E. by apply (elapsed_exact 41943040). Qed.

(** The device is registered, and was last heard at tick [m]. *)
Definition heard_at (id : pystr) (m : Z) (r : registry) : Prop :=
  exists p, peer_get (KStr id) r = Some p /\ p_last_seen p = stamp m.

Lemma upsert_at_seen now key id name ip port pk r :
  exists p, peer_get key (fst (upsert_at now key id name ip port pk r)) = Some p /\ p_last_seen p = now.
Proof.
  unfold upsert_at. destruct (peer_get key r) as [p|] eqn:E; cbn [fst].
  - rewrite peer_get_update, E. by eexists.
  - rewrite peer_get_snoc by done. by eexists.
Qed.
(** A packet leaves an entry alone or refreshes it. *)
Lemma packet_entry now d data ip r r' outs k :
  handle_packet now d data ip r = Ok (r', outs) ->
  peer_get k r' = peer_get k r \/ exists p, peer_get k r' = Some p /\ p_last_seen p = now.
Proof.
  intros E. unfold handle_packet in E. repeat (case_match; try done); simplify_eq; try by left.
  match goal with H : handle_message _ _ _ ?m _ = (r', _) |- _ =>
    destruct (handle_message_cases now d ip m r) as [Hm|(id & name & tp & port & pk & Hm & _)]; rewrite H in Hm; cbn [fst] in Hm end; subst r'; [by left|].
  destruct (decide (k = KStr id)) as [->|Hk]; [right; apply upsert_at_seen|left; by apply upsert_at_other].
Qed.
Lemma prune_entry self now r k : reg_ok self r ->
  peer_get k (fst (prune_stale now r)) = match peer_get k r with
                                         | Some p => if stale now p then None else Some p
                                         | None => None
                                         end.
Proof.
  intros Hr. rewrite (prune_stale_exact self) by done. cbn [fst]. destruct Hr as [Hnd _].
  induction r as [|[k' p] r IH]; [done|]. cbn [map fst] in Hnd. apply NoDup_cons in Hnd as [Hk' Hnd]. cbn [List.filter peer_get snd].
  destruct (decide (k = k')) as [->|Hne].
  - rewrite bool_decide_eq_true_2 by done. destruct (stale now p); cbn [negb peer_get]; [|by rewrite bool_decide_eq_true_2].
    rewrite IH by done. by rewrite (proj2 (peer_get_None k' r)).
  - rewrite (bool_decide_eq_false_2 (k = k')) by done. destruct (stale now p); cbn [negb peer_get]; [by apply IH|].
    rewrite bool_decide_eq_false_2 by done. by apply IH.
Qed.

(** The inputs carry timestamps of the span that do not run backwards, from [t] on. *)
Inductive timed : Z -> list input -> Prop :=
  | timed_nil t : timed t []
  | timed_at t n i ins : input_time i = Some (stamp n) -> in_span n -> t <= n -> timed n ins -> timed t (i :: ins)
  | timed_free t i ins : input_time i = None -> timed t ins -> timed t (i :: ins).

(** [x] keeps announcing: whenever stale peers are pruned, an announcement of [x]
    was received no longer ago than the timeout; [last] is the latest one. *)
Inductive announces (x : Discovery) : Z -> list input -> Prop :=
  | ann_nil last : announces x last []
  | ann_again last n reply ip created ins :
      announces x n ins -> announces x last (Listening (stamp n) (Some (build_payload x reply, ip)) created :: ins)
  | ann_prune last n ins : n - last <= TIMEOUT_TICKS -> announces x last ins -> announces x last (Pruning (stamp n) :: ins)
  | ann_other last i ins : (forall now, i <> Pruning now) -> announces x last ins -> announces x last (i :: ins).

Lemma stamp_inj n m : in_span n -> stamp n = stamp m -> n = m.
Proof. unfold in_span, stamp. intros Hn E. injection E as E. destruct m; cbn in E; lia. Qed.

(** An input keeps an entry, refreshes it, or prunes it. *)
Lemma input_entry i l k : loops_ok l ->
  let r' := lo_registry (fst (on_input i l)) in
  peer_get k r' = peer_get k (lo_registry l) \/
  (exists p now, peer_get k r' = Some p /\ p_last_seen p = now /\ input_time i = Some now) \/
  (exists p now, i = Pruning now /\ peer_get k (lo_registry l) = Some p /\ stale now p = true /\ peer_get k r' = None).
Proof.
  intros [Hr _ _]. cbv zeta. destruct (on_input_registry i l) as [|now data ip r outs Ht _ E|now Hi _]; [by left| |].
  - destruct (packet_entry _ _ _ _ _ _ _ k E) as [H|(p & Hp & Hs)]; [by left|]. right. left. by exists p, now.
  - rewrite (prune_entry (self_id (lo_disc l))) by done. destruct (peer_get k (lo_registry l)) as [p|]; [|by left].
    destruct (stale now p) eqn:Es; [|by left]. right. right. by exists p, now.
Qed.

(** A received announcement is heard. *)
Lemma announcement_heard x n reply ip created l :
  disc_ok x -> self_id x <> self_id (lo_disc l) -> lo_listen l = Alive ->
  heard_at (self_id x) n (lo_registry (fst (listen_turn (stamp n) (Some (build_payload x reply, ip)) created l))).
Proof.
  intros Hx Hne Hal. unfold listen_turn, alive. rewrite bool_decide_eq_true_2 by done. cbn [negb].
  rewrite handle_announcement by done. destruct (upsert_str _ _ _ _ _ _ _) as [r outs] eqn:E. rewrite put_out_registry. cbn.
  pose proof (upsert_at_seen (stamp n) (KStr (self_id x)) (JStr (self_id x)) (JStr (shown ip (self_name x))) ip (JInt (self_port x))
    (self_key x) (lo_registry l)) as H. unfold upsert_str in E. by rewrite E in H.
Qed.

(** A peer that keeps announcing stays. *)
Lemma kept_while_announcing x ins : disc_ok x -> forall t last m l,
  loops_ok l -> self_id x <> self_id (lo_disc l) -> lo_listen (fst (on_inputs ins l)) = Alive ->
  timed t ins -> announces x last ins -> last <= m <= t -> in_span m -> heard_at (self_id x) m (lo_registry l) ->
  exists m', heard_at (self_id x) m' (lo_registry (fst (on_inputs ins l))).
Proof.
  intros Hx. induction ins as [|i ins IH]; intros t last m l Hl Hne Hal Ht Ha Hlast Hm (p & Hp & Hs); [by exists m, p|].
  cbn [on_inputs] in *. pose proof (on_input_ok i l Hl) as Hl1. pose proof (on_input_self i l) as Hself.
  pose proof (input_entry i l (KStr (self_id x)) Hl) as He. cbv zeta in He.
  destruct (on_input i l) as [l1 o1] eqn:Ei. cbn [fst] in *.
  assert (lo_listen (fst (on_inputs ins l1)) = Alive) as Hal1 by (by destruct (on_inputs ins l1)).
  assert (forall t last m, timed t ins -> announces x last ins -> last <= m <= t -> in_span m -> heard_at (self_id x) m (lo_registry l1) ->
    exists m', heard_at (self_id x) m' (lo_registry (fst (let '(l2, o2) := on_inputs ins l1 in (l2, o1 ++ o2))))) as Hgo.
  { intros t' last' m' H1 H2 H3 H4 H5. destruct (IH t' last' m' l1) as [q Hq]; try done; [by rewrite Hself|].
    exists q. by destruct (on_inputs ins l1). }
  assert (exists t', timed t' ins /\ t <= t' /\ (forall now, input_time i = Some now -> now = stamp t' /\ in_span t')) as (t' & Ht' & Hle & Hnow).
  { inversion Ht as [|? n ? ? Hi Hn Hge Hrest|? ? ? Hi Hrest]; subst; [exists n|exists t]; (split; [done|]); (split; [lia|]); intros now; rewrite Hi;
      [by intros [= <-]|done]. }
  assert (exists m', m <= m' <= t' /\ in_span m' /\ (heard_at (self_id x) m' (lo_registry l1) \/
    exists n, i = Pruning (stamp n) /\ TIMEOUT_TICKS < n - m)) as (m' & Hm' & Hsp & Hcase).
  { destruct He as [E|[(q & now & Hq & Hqs & Hqt)|(q & now & -> & Hq & Hst & _)]].
    - exists m. split; [lia|]. split; [done|]. left. exists p. by rewrite E.
    - destruct (Hnow _ Hqt) as [-> Hspan]. exists t'. split; [lia|]. split; [done|]. left. by exists q.
    - destruct (Hnow now eq_refl) as [-> Hspan]. exists m. split; [lia|]. split; [done|]. right. exists t'. split; [done|].
      rewrite Hp in Hq. injection Hq as <-. rewrite (stale_exact t' m p) in Hst by done. by apply Z.ltb_lt. }
  inversion Ha as [|? n reply ip created ? Hn|? n ? Hn Hrest|? ? ? Hi Hrest]; subst.
  - destruct (Hnow _ eq_refl) as [En Hspan]. apply eq_sym, stamp_inj in En as ->; [|done]. apply (Hgo n n n); [done|done|lia|done|].
    pose proof (announcement_heard x n reply ip created l Hx Hne) as Hh. cbn [on_input] in Ei. rewrite Ei in Hh. apply Hh.
    apply (proj1 (on_inputs_alive (Listening (stamp n) (Some (build_payload x reply, ip)) created :: ins) l)). cbn [on_inputs on_input]. by rewrite Ei.
  - destruct Hcase as [Hh|(n' & [= En] & Hgt)]; [apply (Hgo t' last m'); [done|done|lia|done|done]|].
    destruct (Hnow _ eq_refl) as [En' Hspan]. apply eq_sym, stamp_inj in En' as ->; [|done].
    assert (n' = n) as -> by (unfold stamp in *; unfold in_span in Hspan; destruct n'; cbn in En; lia). lia.
  - destruct Hcase as [Hh|(n' & -> & _)]; [|by destruct (Hi (stamp n'))]. apply (Hgo t' last m'); [done|done|lia|done|done].
Qed.

(** A packet, and an input, that carries the id of a device. *)
Definition packet_claims (id : pystr) (data : bytes) : bool :=
  match (let* text := utf8_decode data in loads text) with
  | Ok (JObj msg) => bool_decide (dict_get (py "device_id") msg = Some (JStr id))
  | _ => false
  end.
Definition input_claims (id : pystr) (i : input) : bool :=
  match input_packet i with
  | Some (data, _) => packet_claims id data
  | None => false
  end.

Lemma unclaimed_entry now d data ip r r' outs id :
  handle_packet now d data ip r = Ok (r', outs) -> packet_claims id data = false -> peer_get (KStr id) r' = peer_get (KStr id) r.
Proof.
  unfold handle_packet, packet_claims. destruct (let* text := utf8_decode data in loads text) as [[| | | | | |msg]|e];
    try (intros [= <- _] _; done); [|destruct e; try done; by intros [= <- _] _].
  intros [= E] Hc%bool_decide_eq_false. unfold handle_message in E. destruct (negb _); [by simplify_eq|]. destruct (negb _); [by simplify_eq|].
  destruct (check_identity now d ip msg) as [[id' pk]|out] eqn:Ec; [|by simplify_eq]. cbv zeta in E.
  destruct (as_int _); [|by simplify_eq]. destruct (negb _); [by simplify_eq|].
  assert (dict_get (py "device_id") msg = Some (JStr id')) as Hid
    by (unfold check_identity in Ec; repeat (case_match; try done); by simplify_eq).
  destruct (upsert_str _ _ _ _ _ _ _) as [r1 o1] eqn:Eu. injection E as <- _.
  change r1 with (fst (r1, o1)). rewrite <- Eu. apply upsert_at_other. congruence.
Qed.
Lemma unclaimed_input i l id p : loops_ok l -> input_claims id i = false -> peer_get (KStr id) (lo_registry l) = Some p ->
  peer_get (KStr id) (lo_registry (fst (on_input i l))) = Some p \/
  exists now, i = Pruning now /\ stale now p = true /\ lo_prune l = Alive /\ peer_get (KStr id) (lo_registry (fst (on_input i l))) = None.
Proof.
  intros [Hr _ _] Hc Hp. destruct (on_input_registry i l) as [|now data ip r outs Ht Hpk E|now Hi Ha]; [by left| |].
  - left. rewrite <- Hp. eapply unclaimed_entry; [exact E|]. unfold input_claims in Hc. by rewrite Hpk in Hc.
  - rewrite (prune_entry (self_id (lo_disc l))), Hp by done. destruct (stale now p) eqn:Es; [|by left]. right. by exists now.
Qed.
Lemma unclaimed_absent ins id : forall l, loops_ok l -> Forall (fun i => input_claims id i = false) ins ->
  peer_get (KStr id) (lo_registry l) = None -> peer_get (KStr id) (lo_registry (fst (on_inputs ins l))) = None.
Proof.
  induction ins as [|i ins IH]; intros l Hl Hc Hn; [done|]. apply Forall_cons in Hc as [Hi Hc]. cbn [on_inputs].
  pose proof (on_input_ok i l Hl) as Hl1.
  assert (peer_get (KStr id) (lo_registry (fst (on_input i l))) = None) as Hn1.
  { destruct (on_input_registry i l) as [|now data ip r outs Ht Hpk E|now _ _]; [done| |].
    - rewrite <- Hn. eapply unclaimed_entry; [exact E|]. unfold input_claims in Hi. by rewrite Hpk in Hi.
    - rewrite (prune_entry (self_id (lo_disc l))), Hn by apply Hl. done. }
  destruct (on_input i l) as [l1 o1]. specialize (IH l1 Hl1 Hc Hn1). by destruct (on_inputs ins l1).
Qed.
Lemma prune_reports now l p k : loops_ok l -> lo_prune l = Alive -> peer_get k (lo_registry l) = Some p -> stale now p = true ->
  Out (PeerLost p) ∈ snd (on_input (Pruning now) l).
Proof.
  intros [Hr _ _] Ha Hp Hs. cbn [on_input]. unfold prune_turn, alive. rewrite bool_decide_eq_true_2 by done. cbn [negb].
  rewrite (prune_stale_exact (self_id (lo_disc l))) by done. cbn [snd]. apply list_elem_of_In, in_map_iff. exists (PeerLost p). split; [done|].
  apply in_map_iff. exists (k, p). split; [done|]. apply filter_In. split; [|done]. apply list_elem_of_In. by apply peer_get_Some.
Qed.

(** A peer that falls silent is dropped by the first pruning after the timeout. *)
Lemma dropped_when_silent id ins : forall t n m l p,
  loops_ok l -> lo_prune (fst (on_inputs ins l)) = Alive -> timed t ins -> Forall (fun i => input_claims id i = false) ins ->
  peer_get (KStr id) (lo_registry l) = Some p -> p_last_seen p = stamp m -> in_span m ->
  Pruning (stamp n) ∈ ins -> TIMEOUT_TICKS < n - m ->
  peer_get (KStr id) (lo_registry (fst (on_inputs ins l))) = None /\ Out (PeerLost p) ∈ snd (on_inputs ins l).
Proof.
  induction ins as [|i ins IH]; intros t n m l p Hl Hal Ht Hc Hp Hs Hm Hin Hgt; [by apply elem_of_nil in Hin|].
  apply Forall_cons in Hc as [Hi Hc]. pose proof (proj2 (on_inputs_alive (i :: ins) l) Hal) as Ha.
  pose proof (on_input_ok i l Hl) as Hl1. cbn [on_inputs] in *.
  destruct (unclaimed_input i l id p Hl Hi Hp) as [Hp1|(now & Ei & Hst & _ & Hn1)].
  - assert (exists t', timed t' ins) as [t' Ht'] by (inversion Ht; subst; eauto).
    assert (Pruning (stamp n) ∈ ins) as Hin'.
    { apply elem_of_cons in Hin as [<-|Hin]; [|done]. exfalso.
      assert (in_span n) as Hn by (inversion Ht as [|? n' ? ? E Hsp|? ? ? E]; subst; [|done]; injection E as E; unfold in_span in *; destruct n; cbn in E; lia).
      assert (stale (stamp n) p = true) as Hst by (rewrite (stale_exact n m) by done; by apply Z.ltb_lt).
      revert Hp1. cbn [on_input]. unfold prune_turn, alive. rewrite bool_decide_eq_true_2 by done. cbn [negb].
      pose proof (prune_entry (self_id (lo_disc l)) (stamp n) (lo_registry l) (KStr id) (ok_peers l Hl)) as He. rewrite Hp, Hst in He.
      destruct (prune_stale _ _). cbn in *. congruence. }
    destruct (on_input i l) as [l1 o1]. assert (lo_prune (fst (on_inputs ins l1)) = Alive) as Hal1 by (by destruct (on_inputs ins l1)).
    destruct (IH t' n m l1 p Hl1 Hal1 Ht' Hc Hp1 Hs Hm Hin' Hgt) as [H1 H2]. destruct (on_inputs ins l1) as [l2 o2]. cbn in *.
    split; [done|]. apply elem_of_app. by right.
  - pose proof (prune_reports now l p (KStr id) Hl Ha Hp Hst) as Hout. subst i.
    destruct (on_input (Pruning now) l) as [l1 o1]. pose proof (unclaimed_absent ins id l1 Hl1 Hc Hn1) as Hn2.
    destruct (on_inputs ins l1) as [l2 o2]. cbn in *. split; [done|]. apply elem_of_app. by left.
Qed.

(** C34: presence follows the announcements. From a registry in which a device was
    last heard at time m, over any further inputs whose timestamps do not run
    backwards: as long as an announcement of the device was received no more than
    ten seconds before each pruning, whatever else is received, it is never
    dropped; and if no packet with its id arrives any more, the first pruning
    more than ten seconds after m drops it for good and reports exactly its entry
    as lost. The timestamps are the floats of [time.time()], compared by the
    code's float subtraction. *)
Theorem presence_tracks_announcements x t m l ins :
  loops_ok l -> disc_ok x -> self_id x <> self_id (lo_disc l) ->
  in_span m -> m <= t -> timed t ins -> heard_at (self_id x) m (lo_registry l) ->
  (announces x m ins -> lo_listen (fst (on_inputs ins l)) = Alive ->
    exists m', heard_at (self_id x) m' (lo_registry (fst (on_inputs ins l)))) /\
  (forall n, Forall (fun i => input_claims (self_id x) i = false) ins -> lo_prune (fst (on_inputs ins l)) = Alive ->
    Pruning (stamp n) ∈ ins -> TIMEOUT_TICKS < n - m ->
    exists p, peer_get (KStr (self_id x)) (lo_registry l) = Some p /\
      peer_get (KStr (self_id x)) (lo_registry (fst (on_inputs ins l))) = None /\ Out (PeerLost p) ∈ snd (on_inputs ins l)).
Proof.
  intros Hl Hx Hne Hm Hle Ht Hh. split.
  - intros Ha Hal. apply (kept_while_announcing x ins Hx t m m l); done.
  - intros n Hc Hal Hin Hgt. destruct Hh as (p & Hp & Hs). exists p. split; [done|].
    by apply (dropped_when_silent (self_id x) ins t n m l p).
Qed.

(** ** mDNS *)

(** A record's properties as bytes. *)
Fixpoint txt_bytes (txt : list (pystr * pystr)) : result (list (bytes * option bytes)) :=
  match txt with
  | [] => Ok []
  | (k, v) :: txt =>
      let* key := utf8_encode k in
      let* val := utf8_encode v in
      let* rest := txt_bytes txt in
      Ok ((key, Some val) :: rest)
  end.

Lemma txt_set_new k v txt : k ∉ map fst txt -> txt_set k v txt = txt ++ [(k, v)].
Proof.
  induction txt as [|[k' v'] txt IH]; [done|]. cbn [map fst txt_set app]. intros [Hne Hk]%not_elem_of_cons.
  replace (streq k k') with false by (symmetry; apply not_true_is_false; by intros ?%streq_spec). f_equal. by apply IH.
Qed.
Lemma decode_txt_bytes txt props acc :
  txt_bytes txt = Ok props -> forallb (fun kv => forallb cp_ok kv.1 && forallb cp_ok kv.2) txt = true ->
  NoDup (map fst (acc ++ txt)) -> decode_properties props acc = Ok (acc ++ txt).
Proof.
  revert props acc. induction txt as [|[k v] txt IH]; intros props acc; cbn [txt_bytes].
  { intros [= <-] _ _. cbn. by rewrite app_nil_r. }
  intros E. apply rbind_ok in E as (key & Ek & E). apply rbind_ok in E as (val & Ev & E). apply rbind_ok in E as (rest & Er & [= <-]).
  cbn [forallb fst snd]. intros Hok Hnd. apply andb_true_iff in Hok as [Hkv Hok]. apply andb_true_iff in Hkv as [Hk Hv].
  cbn [decode_properties]. rewrite (utf8_decode_encode _ _ Hk Ek), (utf8_decode_encode _ _ Hv Ev). cbn [rbind].
  rewrite txt_set_new.
  - rewrite (IH rest (acc ++ [(k, v)]) Er Hok); [by rewrite <- app_assoc|]. by rewrite <- app_assoc.
  - rewrite map_app in Hnd. apply NoDup_app in Hnd as (_ & Hd & _). intros Hin. apply (Hd k Hin). by left.
Qed.

Lemma port_cps n : 0 <= n -> forallb cp_ok (str_of_int n) = true.
Proof.
  intros Hn. unfold str_of_int. rewrite (proj2 (Z.ltb_ge n 0)) by lia. destruct (str_of_nonneg_spec n Hn) as (_ & Hd & _).
  apply forallb_forall. intros c Hc. rewrite List.Forall_forall in Hd. specialize (Hd c Hc). unfold is_digit in Hd.
  unfold cp_ok, is_surrogate. zbool. lia.
Qed.
Lemma cps_take n s : forallb cp_ok s = true -> forallb cp_ok (take n s) = true.
Proof. revert n. induction s as [|c s IH]; intros [|n] H; cbn in *; [done..|]. apply andb_true_iff in H as [Hc Hs]. rewrite Hc. by apply IH. Qed.
Lemma mdns_txt_cps d : disc_ok d -> forallb cp_ok (self_name d) = true ->
  forallb (fun kv => forallb cp_ok kv.1 && forallb cp_ok kv.2) (mdns_txt d) = true.
Proof.
  intros (Hid & _ & Hp & _) Hn. unfold mdns_txt, build_mdns_txt. cbn [forallb fst snd].
  rewrite (printable_cps (self_id d)) by (rewrite Hid; apply hex_of_bytes_printable).
  rewrite (printable_cps (b64encode _)) by apply b64encode_printable. rewrite (cps_take 64 _ Hn), (port_cps (self_port d)) by lia. done.
Qed.

Lemma inet_aton_length ip b : inet_aton ip = Ok b -> zlen b = 4.
Proof. unfold inet_aton. destruct (_ ≫= _); [|done]. by intros [= <-]. Qed.
Lemma packed_ips_length ips : Forall (fun b => zlen b = 4) (packed_ips ips).
Proof.
  induction ips as [|ip ips IH]; [constructor|]. cbn [packed_ips]. destruct (prefixb _ _); [done|].
  destruct (inet_aton ip) as [b|] eqn:E; constructor; [by eapply inet_aton_length|done].
Qed.
(** A device always advertises an address, and each is one of IPv4. *)
Lemma service_addresses d resolved :
  si_addresses (make_service_info d resolved) <> [] /\ Forall (fun b => zlen b = 4) (si_addresses (make_service_info d resolved)).
Proof.
  cbn [make_service_info si_addresses]. assert (Forall (fun b => zlen b = 4) (match resolved with Some ips => packed_ips ips | None => [] end)) as H
    by (destruct resolved; [apply packed_ips_length|constructor]).
  destruct (match resolved with Some ips => packed_ips ips | None => [] end); [|done]. split; [done|]. by repeat constructor.
Qed.

(** C35: a service the mDNS library resolves is treated as a datagram. When it
    reports, of the record a device advertises (its name being encodable and not
    blank once cut), the advertised properties and addresses, in any order, a
    running service does exactly what it does for a datagram with the device's
    announcement, without reply, from the address reported first, which is one the
    device advertises: same registry, same outputs, same sockets. When the request
    times out or raises, whatever it raises, nothing happens. *)
Theorem mdns_service_equivalent now sender resolved props addresses created l :
  let record := make_service_info sender resolved in
  disc_ok sender -> forallb cp_ok (self_name sender) = true ->
  streq (strip (take 64 (self_name sender))) [] = streq (strip (self_name sender)) [] ->
  txt_bytes (si_properties record) = Ok props -> addresses ≡ₚ si_addresses record ->
  self_id sender <> self_id (lo_disc l) -> lo_listen l = Alive -> lo_mdns_status l = Alive ->
  (exists b ip, head addresses = Some b /\ b ∈ si_addresses record /\ inet_ntoa b = Ok ip /\
    browse_turn now (Ok (Some (props, addresses))) created l = listen_turn now (Some (build_payload sender false, ip)) created l) /\
  browse_turn now (Ok None) created l = (l, []) /\ (forall e, browse_turn now (Err e) created l = (l, [])).
Proof.
  cbv zeta. intros Hok Hcps Hblank Hprops Haddr Hne Hl Hm. split; [|unfold browse_turn, alive; rewrite Hm; done].
  destruct (service_addresses sender resolved) as [Hnil Hlen].
  destruct addresses as [|b rest]; [by apply Permutation_nil_l in Haddr as Hz; rewrite <- Hz in Hnil|].
  assert (b ∈ si_addresses (make_service_info sender resolved)) as Hb by (rewrite <- Haddr; by left).
  rewrite Forall_forall in Hlen. specialize (Hlen b Hb). destruct (inet_ntoa b) as [ip|e] eqn:Hip; [|unfold inet_ntoa in Hip; by rewrite Hlen in Hip].
  exists b, ip. split; [done|]. split; [done|]. split; [done|].
  assert (handle_info (Ok (Some (props, b :: rest))) = Ok (Some (mdns_txt_to_packet (mdns_txt sender) ip, ip))) as Hinfo.
  { cbn [handle_info]. rewrite (decode_txt_bytes _ _ [] Hprops (mdns_txt_cps sender Hok Hcps)); [cbn [rbind]; by rewrite Hip|].
    change (NoDup (map py ["version"%string; "device_id"%string; "public_key"%string; "name"%string; "tcp_port"%string])). apply (bool_decide_eq_true (NoDup _)). vm_compute. reflexivity. }
  unfold browse_turn, listen_turn. rewrite Hinfo. unfold alive. rewrite Hl, Hm, mdns_equivalent_to_udp by done.
  rewrite handle_announcement by done. cbn [bool_decide negb]. by destruct (upsert_str _ _ _ _ _ _ _).
Qed.

(** The browser calls its listener on the event loop, where the library's blocking
    request refuses to run and raises: then browsing finds nobody, and the service
    is what it would be without it. *)
Definition is_browsing (i : input) : bool :=
  match i with
  | Browsing _ _ _ => true
  | _ => false
  end.
Theorem refused_requests_find_nobody ins l :
  Forall (fun i => match i with Browsing _ info _ => info = Err RuntimeError | _ => True end) ins ->
  on_inputs ins l = on_inputs (List.filter (fun i => negb (is_browsing i)) ins) l.
Proof.
  revert l. induction ins as [|i ins IH]; intros l H; [done|]. apply Forall_cons in H as [Hi H].
  destruct i as [h c|now rcv c|now|now info c| |h s|ip c|h c|name| | |]; cbn [List.filter is_browsing negb on_inputs];
    try (destruct (on_input _ l) as [l1 o1]; by rewrite (IH l1 H)).
  subst info. assert (on_input (Browsing now (Err RuntimeError) c) l = (l, [])) as -> by (cbn; unfold browse_turn; by destruct (negb _)).
  rewrite <- (IH l H). by destruct (on_inputs ins l).
Qed.

(** The mDNS object copies the name when it is made: after a rename, the record
    it keeps refreshing, and re-announcing, still carries the name the service
    was started with, while the datagrams carry the new one. *)
Lemma on_input_mdns i l : lo_mdns (fst (on_input i l)) = lo_mdns l.
Proof.
  destruct i as [h c|now rcv c|now|now info c| |h s|ip c|h c|name| | |]; cbn [on_input];
    unfold announce_turn, listen_turn, end_listen, overflow_turn, prune_turn, browse_turn, refresh_turn, probe, rebroadcast, cancel, put_out;
    repeat (case_match; try done); done.
Qed.
Theorem refreshed_record_keeps_old_name ins l d0 info h name :
  lo_mdns l = Some (d0, info) -> lo_disc (fst (on_inputs ins l)) = MkDiscovery (self_id d0) name (self_port d0) (self_key d0) ->
  lo_mdns_status (fst (on_inputs ins l)) = Alive ->
  exists record, snd (on_input (Refreshing h true) (fst (on_inputs ins l))) = [Updated record] /\
    txt_get (py "name") (si_properties record) = Some (take 64 (self_name d0)) /\
    forall created, lo_announce (fst (on_inputs ins l)) = Alive -> sk_send (lo_sockets (fst (on_inputs ins l))) <> None ->
      snd (on_input (Announcing h created) (fst (on_inputs ins l)))
      = map Out (broadcast_now (MkDiscovery (self_id d0) name (self_port d0) (self_key d0)) (broadcast_targets h)).
Proof.
  intros Hm Hd Ha.
  assert (lo_mdns (fst (on_inputs ins l)) = lo_mdns l) as Hk.
  { clear. revert l. induction ins as [|i ins IH]; intros l; [done|]. cbn [on_inputs]. pose proof (on_input_mdns i l) as H1.
    destruct (on_input i l) as [l1 o1]. specialize (IH l1). destruct (on_inputs ins l1). cbn in *. congruence. }
  set (l' := fst (on_inputs ins l)) in *. cbn [on_input]. unfold refresh_turn, alive. rewrite Hk, Hm, bool_decide_eq_true_2 by done.
  eexists. split; [reflexivity|]. split; [reflexivity|]. intros created Hal Hs. unfold announce_turn, alive, get_send_socket.
  rewrite bool_decide_eq_true_2 by done. destruct (sk_send (lo_sockets l')); [|done]. cbn. by rewrite Hd.
Qed.

(** ** Examples *)

Definition demo_host : host_info := HostInfo None None None (Some [py "127.0.1.1"; py "10.0.0.1"]).
Definition demo_loops : Loops := fst (run true true true true demo_host (new_discovery (demo_disc 2 (py "bob")) [])).
Definition T0 : Z := 2 ^ 52.
Definition demo_announcement (n : Z) : input := Listening (stamp n) (Some (build_payload (demo_disc 1 (py "ann")) true, py "10.0.0.1")) true.
Definition demo_heard : Loops := fst (on_inputs [demo_announcement T0] demo_loops).

Lemma loops_sound_witness :
  exists l outs, on_inputs [demo_announcement T0] demo_loops = (l, outs) /\
    length (lo_registry l) = 1%nat /\ size (sk_open (lo_sockets l)) = 2%nat /\
    stopped (fst (on_input Cancelling l)) /\ sk_open (lo_sockets (fst (on_input Cancelling l))) = ∅.
Proof.
  assert ((let l := fst (on_inputs [demo_announcement T0] demo_loops) in
    (length (lo_registry l), size (sk_open (lo_sockets l)), lo_announce l, lo_listen l)) = (1%nat, 2%nat, Alive, Alive)) as Hl
    by (vm_compute; reflexivity).
  destruct (on_inputs [demo_announcement T0] demo_loops) as [l outs] eqn:E. cbv zeta in Hl. cbn [fst] in Hl. injection Hl as Hn Hs Ha Hb.
  exists l, outs. split; [reflexivity|]. split; [exact Hn|]. split; [exact Hs|].
  destruct (loops_sound true true true true demo_host (demo_disc 2 (py "bob")) [demo_announcement T0] l outs E) as (_ & _ & _ & _ & H & _).
  rewrite Ha, Hb in H. exact H.
Defined.

Lemma presence_tracks_announcements_witness :
  exists p, peer_get (KStr (self_id (demo_disc 1 (py "ann")))) (lo_registry demo_heard) = Some p /\
    peer_get (KStr (self_id (demo_disc 1 (py "ann"))))
      (lo_registry (fst (on_inputs [Pruning (stamp (T0 + 5 * TICKS)); Pruning (stamp (T0 + 11 * TICKS))] demo_heard))) = None.
Proof.
  set (ins := [Pruning (stamp (T0 + 5 * TICKS)); Pruning (stamp (T0 + 11 * TICKS))]).
  assert (loops_ok demo_heard) as Hok by (apply on_inputs_ok, run_ok).
  destruct (presence_tracks_announcements (demo_disc 1 (py "ann")) T0 T0 demo_heard ins) as [_ H].
  - exact Hok.
  - apply demo_disc_ok; [lia|reflexivity].
  - unfold demo_heard. vm_compute. discriminate.
  - split; vm_compute; [discriminate|reflexivity].
  - lia.
  - eapply timed_at; [reflexivity|split; vm_compute; [discriminate|reflexivity]|vm_compute; discriminate|].
    eapply timed_at; [reflexivity|split; vm_compute; [discriminate|reflexivity]|vm_compute; discriminate|apply timed_nil].
  - apply (announcement_heard (demo_disc 1 (py "ann")) T0 true (py "10.0.0.1") true demo_loops); [apply demo_disc_ok; [lia|reflexivity]| |].
    + vm_compute. discriminate.
    + vm_compute. reflexivity.
  - destruct (H (T0 + 11 * TICKS)) as (p & Hp & Hn & _).
    + repeat constructor.
    + vm_compute. reflexivity.
    + right. left.
    + vm_compute. reflexivity.
    + exists p. split; [exact Hp|exact Hn].
Defined.

(** A host with two addresses, which the library reports last one first. *)
Lemma mdns_service_equivalent_witness :
  exists props,
    browse_turn (stamp T0) (Ok (Some (props, [[x0a; x00; x00; x02]; [x0a; x00; x00; x01]]))) true demo_loops
    = listen_turn (stamp T0) (Some (build_payload (demo_disc 1 (py "ann")) false, py "10.0.0.2")) true demo_loops.
Proof.
  set (resolved := Some [py "127.0.1.1"; py "10.0.0.1"; py "10.0.0.2"]).
  destruct (txt_bytes (mdns_txt (demo_disc 1 (py "ann")))) as [props|e] eqn:E; [|vm_compute in E; discriminate E].
  exists props.
  destruct (mdns_service_equivalent (stamp T0) (demo_disc 1 (py "ann")) resolved props [[x0a; x00; x00; x02]; [x0a; x00; x00; x01]] true demo_loops)
    as [(b & ip & Hb & _ & Hip & H) _].
  - apply demo_disc_ok; [lia|reflexivity].
  - reflexivity.
  - vm_compute. reflexivity.
  - exact E.
  - change (si_addresses (make_service_info (demo_disc 1 (py "ann")) resolved)) with [[x0a; x00; x00; x01]; [x0a; x00; x00; x02]]. apply perm_swap.
  - vm_compute. discriminate.
  - vm_compute. reflexivity.
  - vm_compute. reflexivity.
  - injection Hb as <-. vm_compute in Hip. injection Hip as <-. exact H.
Defined.
