(* ===== verification/App.v ===== *)
(** * ui.py: reading the input line

    Commands and their arguments, the target of /connect, the nickname check,
    and which tool takes the clipboard. The application itself is [ChatApp]. *)

From S2P Require Import Prelude PyStr PyText Json FileSys.
From stdpp Require Import base strings list option list_numbers relations.
From Stdlib Require Import ZArith Lia Strings.Byte.
Open Scope Z_scope.
Open Scope peerc_scope.

Definition UI_TCP_PORT : Z := 5656.

(** ** The input line *)

Inductive command : Type :=
  | Help
  | Connect (arg : pystr)
  | Peers
  | Msg (arg : pystr)
  | SendFile (arg : pystr)
  | Nick (arg : pystr)
  | Copy (arg : pystr)
  | Clear
  | Info
  | Quit
  | Unknown (word : pystr).   (* as typed: it is reported in lower case *)

(** [text.split(maxsplit=1)]: the first word and what follows it. *)
Fixpoint first_word (s : pystr) : pystr * pystr :=
  match s with
  | [] => ([], [])
  | c :: r => if is_space c then ([], lstrip_by is_space s) else let (w, r) := first_word r in (c :: w, r)
  end.

Definition one_of (cmd : pystr) (names : list string) : bool := existsb (fun n => streq cmd (py n)) names.

Definition parse_command (text : pystr) : command :=
  let (word, rest) := first_word (lstrip_by is_space text) in
  let cmd := lower word in
  let arg := strip rest in
  if one_of cmd ["/help"; "/h"] then Help
  else if one_of cmd ["/connect"; "/add"] then Connect arg
  else if one_of cmd ["/peers"] then Peers
  else if one_of cmd ["/msg"] then Msg arg
  else if one_of cmd ["/send"] then SendFile arg
  else if one_of cmd ["/nick"] then Nick arg
  else if one_of cmd ["/copy"] then Copy arg
  else if one_of cmd ["/clear"; "/cls"] then Clear
  else if one_of cmd ["/info"; "/me"] then Info
  else if one_of cmd ["/quit"; "/exit"; "/q"] then Quit
  else Unknown word.

(** ** /connect *)

(** The characters [str.isdigit] accepts beyond the decimal ones. *)
Definition other_digits : list (Z * Z) :=
  [(0xb2, 0xb3); (0xb9, 0xb9); (0x1369, 0x1371); (0x19da, 0x19da); (0x2070, 0x2070); (0x2074, 0x2079); (0x2080, 0x2089);
   (0x2460, 0x2468); (0x2474, 0x247c); (0x2488, 0x2490); (0x24ea, 0x24ea); (0x24f5, 0x24fd); (0x24ff, 0x24ff);
   (0x2776, 0x277e); (0x2780, 0x2788); (0x278a, 0x2792); (0x10a40, 0x10a43); (0x10e60, 0x10e68); (0x11052, 0x1105a);
   (0x1f100, 0x1f10a)].
Definition isdigit_char (c : Z) : bool :=
  bool_decide (is_Some (decimal c)) || existsb (fun ab => (ab.1 <=? c) && (c <=? ab.2)) other_digits.
Definition isdigit (s : pystr) : bool := negb (streq s []) && forallb isdigit_char s.

Definition COLON : Z := 58.
Definition LBRACKET : Z := 91.
Definition RBRACKET : Z := 93.

(** [s.find(c)] and [s.count(c)] *)
Fixpoint find_char (c : Z) (s : pystr) : option nat :=
  match s with
  | [] => None
  | x :: s => if x =? c then Some 0%nat else S <$> find_char c s
  end.
Definition count_char (c : Z) (s : pystr) : Z := zlen (List.filter (fun x => x =? c) s).

(** The address and port of /connect; [int] raises on a character that
    [isdigit] accepts but that is no decimal digit. *)
Definition parse_connect (arg : pystr) : result (pystr * Z) :=
  if prefixb [LBRACKET] arg then
    match find_char RBRACKET arg with
    | Some closing =>
        let ip := take (closing - 1) (drop 1 arg) in
        let rest := drop (S closing) arg in
        match eat COLON rest with
        | Some port_str => if isdigit port_str then let* port := py_int 10 port_str in Ok (ip, port) else Ok (ip, UI_TCP_PORT)
        | None => Ok (ip, UI_TCP_PORT)
        end
    | None => Ok (arg, UI_TCP_PORT)
    end
  else if count_char COLON arg =? 1 then
    let i := Z.to_nat (rfind COLON arg) in
    let port_str := drop (S i) arg in
    if isdigit port_str then let* port := py_int 10 port_str in Ok (take i arg, port) else Ok (arg, UI_TCP_PORT)
  else Ok (arg, UI_TCP_PORT).

Example parse_connect_ex :
  map parse_connect [py "10.0.0.7"; py "10.0.0.7:80"; py "[fe80::1]:99"; py "fe80::1"; py "host:x"; py "[::1]"; [49; 58; 0xb2]]
  = [Ok (py "10.0.0.7", 5656); Ok (py "10.0.0.7", 80); Ok (py "fe80::1", 99); Ok (py "fe80::1", 5656); Ok (py "host:x", 5656);
     Ok (py "::1", 5656); Err ValueError].
Proof. vm_compute. reflexivity. Qed.

(** [addr_key.rsplit(":", 1)[0]] *)
Definition host_of (addr_key : pystr) : pystr :=
  let i := rfind COLON addr_key in if i <? 0 then addr_key else take (Z.to_nat i) addr_key.
Definition addr_text (ip : pystr) (port : Z) : pystr := ip ++ COLON :: str_of_int port.

(** The checks of /nick on a non-empty argument. *)
Definition nick_ok (arg : pystr) : bool :=
  negb (existsb (fun c => (c <? 0x20) || (c =? 0x7f)) arg) && (zlen arg <=? 32).

(** ** The clipboard *)

Inductive clip_tool : Type := WlCopy | XClip | XSel.
(** [copy_to_system_clipboard]: the tool that took the text. [installed] is
    [shutil.which], [works] whether the process took its input in time. *)
Definition copy_to_system_clipboard (installed works : clip_tool -> bool) (text : pystr) : option clip_tool :=
  List.find (fun t => installed t && works t && is_ok (utf8_encode text)) [WlCopy; XClip; XSel].

(** ** Parsing *)

Lemma isdigit_str n : 0 <= n -> isdigit (str_of_nonneg n) = true.
Proof.
  intros Hn. destruct (str_of_nonneg_spec n Hn) as (_ & Hd & Hne & _). unfold isdigit. apply andb_true_iff. split.
  - apply negb_true_iff, not_true_is_false. by intros E%streq_spec.
  - apply forallb_forall. rewrite List.Forall_forall in Hd. intros c Hc. apply Hd in Hc. unfold is_digit in Hc. zbool.
    unfold isdigit_char. apply orb_true_iff. left. apply bool_decide_eq_true. unfold decimal, decimal_zeros.
    cbn [List.find]. rewrite (proj2 (Z.leb_le 0x30 c)), (proj2 (Z.ltb_lt c (0x30 + 10))) by lia. cbn. eauto.
Qed.

Lemma digits_no_char c n : 0 <= n -> c < 48 \/ 57 < c -> c ∉ str_of_nonneg n.
Proof.
  intros Hn Hc Hin. destruct (str_of_nonneg_spec n Hn) as (_ & Hd & _). rewrite Forall_forall in Hd.
  apply Hd in Hin. unfold is_digit in Hin. zbool. lia.
Qed.

Lemma rfind_absent c s : c ∉ s -> rfind c s = -1.
Proof.
  induction s as [|x s IH]; [done|]. rewrite not_elem_of_cons. intros [Hx Hs]. cbn [rfind]. rewrite IH by done.
  change (0 <=? -1) with false. cbn match. by rewrite (proj2 (Z.eqb_neq x c)).
Qed.
Lemma rfind_last c s t : c ∉ t -> rfind c (s ++ c :: t) = zlen s.
Proof.
  intros Ht. induction s as [|x s IH].
  - cbn [app rfind]. rewrite rfind_absent by done. change (0 <=? -1) with false. cbn match. by rewrite Z.eqb_refl.
  - cbn [app rfind]. rewrite IH, zlen_cons. pose proof (zlen_nonneg s). rewrite (proj2 (Z.leb_le 0 (zlen s))) by lia. lia.
Qed.
Lemma count_char_absent c s : c ∉ s -> count_char c s = 0.
Proof.
  unfold count_char. induction s as [|x s IH]; [done|]. rewrite not_elem_of_cons. intros [Hx Hs]. cbn [List.filter].
  rewrite (proj2 (Z.eqb_neq x c)) by congruence. auto.
Qed.
Lemma count_char_app c s t : count_char c (s ++ t) = count_char c s + count_char c t.
Proof. unfold count_char. rewrite List.filter_app. apply zlen_app. Qed.
Lemma find_char_first c s t : c ∉ s -> find_char c (s ++ c :: t) = Some (length s).
Proof.
  induction s as [|x s IH]; cbn; [intros _; by rewrite Z.eqb_refl|]. rewrite not_elem_of_cons. intros [Hx Hs].
  rewrite (proj2 (Z.eqb_neq x c)) by congruence. by rewrite IH.
Qed.
Lemma eat_head c t : eat c (c :: t) = Some t.
Proof. cbn. by rewrite Z.eqb_refl. Qed.

(** The argument of /connect is read as it is meant: "host:port" for a host
    without colons, "[address]:port" for any bracketed address, and a bare
    address, IPv6 included, with the default port. *)
Theorem connect_target_parsed ip port :
  0 <= port -> zlen (str_of_nonneg port) <= INT_MAX_STR_DIGITS -> ip <> [] ->
  (COLON ∉ ip -> prefixb [LBRACKET] ip = false -> parse_connect (ip ++ COLON :: str_of_nonneg port) = Ok (ip, port)) /\
  (RBRACKET ∉ ip -> parse_connect (LBRACKET :: ip ++ RBRACKET :: COLON :: str_of_nonneg port) = Ok (ip, port)) /\
  (count_char COLON ip <> 1 -> prefixb [LBRACKET] ip = false -> parse_connect ip = Ok (ip, UI_TCP_PORT)).
Proof.
  intros Hp Hl Hne. pose proof (isdigit_str port Hp) as Hd. pose proof (py_int_str port Hp Hl) as Hi. split_and!.
  - intros Hc Hb. unfold parse_connect. cbv zeta. replace (prefixb [LBRACKET] (ip ++ _)) with false by (destruct ip; [done|exact (eq_sym Hb)]).
    assert (COLON ∉ str_of_nonneg port) as Hcp by (apply digits_no_char; [done|unfold COLON; lia]).
    rewrite count_char_app, count_char_absent by done. unfold count_char. cbn [List.filter]. rewrite Z.eqb_refl.
    fold (count_char COLON (str_of_nonneg port)). rewrite zlen_cons. fold (count_char COLON (str_of_nonneg port)).
    rewrite count_char_absent by done. cbn match. rewrite rfind_last by done. unfold zlen. rewrite Nat2Z.id.
    change (ip ++ COLON :: str_of_nonneg port) with (ip ++ [COLON] ++ str_of_nonneg port).
    rewrite app_assoc, drop_app_length' by (rewrite length_app; cbn; lia). rewrite Hd, Hi. cbn [rbind]. rewrite <- app_assoc. by rewrite take_app_length.
  - intros Hr. unfold parse_connect. cbv zeta. change (prefixb [LBRACKET] (LBRACKET :: _)) with true. cbn match.
    change (LBRACKET :: ip ++ RBRACKET :: COLON :: str_of_nonneg port)
      with ((LBRACKET :: ip) ++ RBRACKET :: COLON :: str_of_nonneg port).
    rewrite find_char_first by (rewrite not_elem_of_cons; split; done).
    replace (drop (S (length (LBRACKET :: ip))) ((LBRACKET :: ip) ++ RBRACKET :: COLON :: str_of_nonneg port))
      with (COLON :: str_of_nonneg port).
    2:{ change (RBRACKET :: ?x) with ([RBRACKET] ++ x). rewrite app_assoc. rewrite drop_app_length'; [done|].
        rewrite length_app. cbn. lia. }
    rewrite eat_head, Hd, Hi. cbn [rbind length drop app]. rewrite Nat.sub_1_r. cbn [Nat.pred]. by rewrite drop_0, take_app_length.
  - intros Hc Hb. unfold parse_connect. rewrite Hb. by rewrite (proj2 (Z.eqb_neq _ 1)).
Qed.
