(* ===== verification/Tasks.v ===== *)
(** * Coroutines

    An asynchronous handler runs atomically up to an await that suspends it, and
    goes on from there with the answer and the state it then finds, whatever
    other handlers have made of it. [act W A] is such a handler with a result in
    [A] over the state [W]; the waits and their answers are the parameter. The
    logic [keeps] proves that a handler keeps an invariant at every suspension
    point, hence in every interleaving ([pool_keeps]); and it accounts for tokens
    in the state, which a handler may put there only while it holds them, so that
    none is left when no handler is suspended. *)

From S2P Require Import Prelude.
From stdpp Require Import base gmap sets list option relations.
From Stdlib Require Import Lia.

Open Scope peerc_scope.

Section Tasks.
Context {W wait : Type} {answer : wait -> Type}.

(** What is left of a handler: its outcome, or what it waits for and how it
    goes on. *)
#[warnings="-register-all"]
Inductive run (A : Type) : Type :=
  | Now (r : result A)
  | Wait (w : wait) (k : answer w -> W -> W * run A).
#[global] Arguments Now {A} r.
#[global] Arguments Wait {A} w k.

Section RunInd.
Context {A : Type} (P : run A -> Prop).
Hypothesis Hnow : forall r, P (Now r).
Hypothesis Hwait : forall w k, (forall ans s, P (snd (k ans s))) -> P (Wait w k).
Fixpoint run_ind' (r : run A) : P r :=
  match r with
  | Now r => Hnow r
  | Wait w k => Hwait w k (fun ans s => run_ind' (snd (k ans s)))
  end.
End RunInd.

Definition act (A : Type) : Type := W -> W * run A.

Definition aret {A} (a : A) : act A := fun w => (w, Now (Ok a)).
Definition araise {A} (e : exn) : act A := fun w => (w, Now (Err e)).
Definition alift {A} (r : result A) : act A := fun w => (w, Now r).
Definition aget {A} (f : W -> A) : act A := fun w => (w, Now (Ok (f w))).
Definition aset (f : W -> W) : act unit := fun w => (f w, Now (Ok tt)).
Definition await (w : wait) : act (answer w) := fun s => (s, Wait w (fun ans s => (s, Now (Ok ans)))).

(** An operation on the state that may raise. *)
Definition atomic {A} (f : W -> result (A * W)) : act A := fun w =>
  match f w with
  | Ok (a, w) => (w, Now (Ok a))
  | Err e => (w, Now (Err e))
  end.

(** Goes on with the outcome of [m], whether it returned or raised. *)
Fixpoint run_case {A B} (r : run A) (f : result A -> act B) (s : W) : W * run B :=
  match r with
  | Now r => f r s
  | Wait w k => (s, Wait w (fun ans s => let (s, r) := k ans s in run_case r f s))
  end.
Definition acase {A B} (m : act A) (f : result A -> act B) : act B := fun s => let (s, r) := m s in run_case r f s.

Definition abind {A B} (m : act A) (f : A -> act B) : act B :=
  acase m (fun x => match x with Ok a => f a | Err e => araise e end).

(** [try: m except Exception as e: h e] *)
Definition acatch {A} (m : act A) (h : exn -> act A) : act A :=
  acase m (fun x => match x with Ok a => aret a | Err e => h e end).

Fixpoint aeach {A} (f : A -> act unit) (l : list A) : act unit :=
  match l with
  | [] => aret tt
  | x :: l => abind (f x) (fun _ => aeach f l)
  end.

(** Running a handler to its end, every wait answered at once by [env]. *)
Fixpoint finish {A} (env : forall w, answer w) (s : W) (r : run A) : W * result A :=
  match r with
  | Now r => (s, r)
  | Wait w k => let (s, r) := k (env w) s in finish env s r
  end.
Definition perform {A} (env : forall w, answer w) (m : act A) (s : W) : W * result A :=
  let (s, r) := m s in finish env s r.

Lemma finish_case {A B} env (r : run A) (f : result A -> act B) s :
  (let (s, r) := run_case r f s in finish env s r) = (let (s, x) := finish env s r in perform env (f x) s).
Proof.
  revert s. induction r as [x|w k IH] using run_ind'; intros s; [done|]. cbn. specialize (IH (env w) s).
  destruct (k (env w) s) as [s' r']. apply IH.
Qed.
Lemma perform_case {A B} env (m : act A) (f : result A -> act B) s :
  perform env (acase m f) s = (let (s, x) := perform env m s in perform env (f x) s).
Proof. unfold perform at 1 2, acase. destruct (m s) as [s' r]. apply finish_case. Qed.

Lemma perform_bind {A B} env (m : act A) (f : A -> act B) s :
  perform env (abind m f) s
  = match perform env m s with
    | (s, Ok a) => perform env (f a) s
    | (s, Err e) => (s, Err e)
    end.
Proof. unfold abind. rewrite perform_case. by destruct (perform env m s) as [s' [a|e]]. Qed.
Lemma perform_catch {A} env (m : act A) (h : exn -> act A) s :
  perform env (acatch m h) s
  = match perform env m s with
    | (s, Ok a) => (s, Ok a)
    | (s, Err e) => perform env (h e) s
    end.
Proof. unfold acatch. rewrite perform_case. by destruct (perform env m s) as [s' [a|e]]. Qed.

Lemma perform_each_app {A} env (f : A -> act unit) l1 l2 s :
  perform env (aeach f (l1 ++ l2)) s = perform env (abind (aeach f l1) (fun _ => aeach f l2)) s.
Proof.
  revert s. induction l1 as [|x l1 IH]; intros s; cbn [aeach app]; [by rewrite perform_bind|].
  rewrite !perform_bind. destruct (perform env (f x) s) as [s' [[]|e]]; [|done]. by rewrite IH, perform_bind.
Qed.

(** ** Suspended runs *)

(** Answering waits by [env] leads from one point of a handler to another. *)
Inductive reaches {A} (env : forall w, answer w) : W * run A -> W * run A -> Prop :=
  | reaches_refl x : reaches env x x
  | reaches_step s w k x : reaches env (k (env w) s) x -> reaches env (s, Wait w k) x.

(** A handler that stops in state [s'] to wait for [w], and what it does from a
    later state on once it is answered, the waits after that answered by [env]. *)
Definition suspends {A} (env : forall w, answer w) (m : act A) (s s' : W) (w : wait) (K : answer w -> W -> W * result A) : Prop :=
  exists k, reaches env (m s) (s', Wait w k) /\ forall ans t, (let (t, r) := k ans t in finish env t r) = K ans t.

Lemma reaches_perform {A B} env (m : act A) (f : A -> act B) s s' a :
  perform env m s = (s', Ok a) -> reaches env (abind m f s) (f a s').
Proof.
  unfold perform, abind, acase. destruct (m s) as [s0 r]. revert s0. induction r as [r|w k IH] using run_ind'; intros s0; cbn.
  - intros [= -> ->]. apply reaches_refl.
  - intros E. apply reaches_step. cbv beta. specialize (IH (env w) s0). destruct (k (env w) s0) as [s1 r1]. by apply IH.
Qed.
Lemma reaches_trans {A} env (x y z : W * run A) : reaches env x y -> reaches env y z -> reaches env x z.
Proof. induction 1; [done|]. intros Hz. apply reaches_step. auto. Qed.
Lemma reaches_case {A B} env s r s' w k (f : result A -> act B) :
  reaches env (s, r) (s', Wait w k) -> reaches env (run_case r f s) (run_case (Wait w k) f s').
Proof.
  intros H. remember (s, r) as x eqn:Ex. remember (s', Wait w k) as y eqn:Ey. revert s r Ex. induction H as [x|s1 w1 k1 x H IH]; intros s r Ex.
  - rewrite Ey in Ex. injection Ex as <- <-. apply reaches_refl.
  - injection Ex as -> <-. cbn [run_case]. apply reaches_step. cbv beta. destruct (k1 (env w1) s) as [s2 r2]. by apply (IH Ey s2 r2).
Qed.

Lemma suspends_await env w s : suspends env (await w) s s w (fun ans t => (t, Ok ans)).
Proof. eexists. split; [apply reaches_refl|done]. Qed.
Lemma suspends_after {A B} env (m : act A) (f : A -> act B) a s s1 s2 w K :
  perform env m s = (s1, Ok a) -> suspends env (f a) s1 s2 w K -> suspends env (abind m f) s s2 w K.
Proof. intros Hm (k & Hk & HK). exists k. split; [|done]. eapply reaches_trans; [by apply reaches_perform|done]. Qed.
Lemma suspends_case {A B} env (m : act A) (f : result A -> act B) s s' w K :
  suspends env m s s' w K ->
  suspends env (acase m f) s s' w (fun ans t => let (t, x) := K ans t in perform env (f x) t).
Proof.
  intros (k & Hk & HK). eexists. split.
  - unfold acase. destruct (m s) as [s0 r]. exact (reaches_case env s0 r s' w k f Hk).
  - intros ans t. cbv beta. rewrite <- HK. destruct (k ans t) as [t1 r1]. apply finish_case.
Qed.
Lemma suspends_ext {A} env (m : act A) s s' w K K' : (forall ans t, K ans t = K' ans t) -> suspends env m s s' w K -> suspends env m s s' w K'.
Proof. intros E (k & Hk & HK). exists k. split; [done|]. intros ans t. by rewrite <- E. Qed.
Lemma suspends_bind {A B} env (m : act A) (f : A -> act B) s s' w K :
  suspends env m s s' w K ->
  suspends env (abind m f) s s' w (fun ans t => match K ans t with
                                                | (t, Ok a) => perform env (f a) t
                                                | (t, Err e) => (t, Err e)
                                                end).
Proof. intros H. eapply suspends_ext; [|apply suspends_case; exact H]. intros ans t. cbv beta. destruct (K ans t) as [t' [a|e]]; reflexivity. Qed.
Lemma suspends_catch {A} env (m : act A) h s s' w K :
  suspends env m s s' w K ->
  suspends env (acatch m h) s s' w (fun ans t => match K ans t with
                                                 | (t, Ok a) => (t, Ok a)
                                                 | (t, Err e) => perform env (h e) t
                                                 end).
Proof. intros H. eapply suspends_ext; [|apply suspends_case; exact H]. intros ans t. cbv beta. destruct (K ans t) as [t' [a|e]]; reflexivity. Qed.

(** ** Invariants and tokens *)

Section Keeps.
Context {T : Type} `{Countable T}.
Variable I : W -> Prop.
Variable tok : W -> gset T.

(** A suspended run that holds the tokens [O]: when it goes on it keeps the
    invariant, gives these back but for those it then holds, and adds no others;
    a run that is over holds none. *)
Fixpoint keeps_run {A} (O : gset T) (r : run A) : Prop :=
  match r with
  | Now _ => O = ∅
  | Wait w k => forall ans s, I s -> let (s', r) := k ans s in
      I s' /\ exists O', tok s' ⊆ tok s ∖ O ∪ O' /\ keeps_run O' r
  end.
(** A handler that is to give back [O]. *)
Definition returns {A} (O : gset T) (m : act A) : Prop := forall s, I s -> let (s', r) := m s in
  I s' /\ exists O', tok s' ⊆ tok s ∖ O ∪ O' /\ keeps_run O' r.
Definition keeps {A} (m : act A) : Prop := returns ∅ m.

Lemma split_tokens (X O : gset T) : X ⊆ X ∖ O ∪ O.
Proof. intros x Hx. destruct (decide (x ∈ O)); set_solver. Qed.

Lemma keeps_now {A} s (r : result A) : I s -> I s /\ exists O', tok s ⊆ tok s ∖ ∅ ∪ O' /\ keeps_run O' (Now r).
Proof. intros Hs. split; [done|]. exists ∅. split; [set_solver|done]. Qed.
Lemma keeps_ret {A} (a : A) : keeps (aret a).
Proof. intros s Hs. by apply keeps_now. Qed.
Lemma keeps_raise {A} e : keeps (@araise A e).
Proof. intros s Hs. by apply keeps_now. Qed.
Lemma keeps_lift {A} (r : result A) : keeps (alift r).
Proof. intros s Hs. by apply keeps_now. Qed.
Lemma keeps_get {A} (f : W -> A) : keeps (aget f).
Proof. intros s Hs. by apply keeps_now. Qed.
Lemma keeps_set f : (forall s, I s -> I (f s) /\ tok (f s) ⊆ tok s) -> keeps (aset f).
Proof. intros Hf s Hs. destruct (Hf s Hs) as [H1 H2]. split; [done|]. exists ∅. split; [set_solver|done]. Qed.
Lemma keeps_atomic {A} (f : W -> result (A * W)) :
  (forall s a s', I s -> f s = Ok (a, s') -> I s' /\ tok s' ⊆ tok s) -> keeps (atomic f).
Proof.
  intros Hf s Hs. unfold atomic. destruct (f s) as [[a s']|e] eqn:E; [|by apply keeps_now].
  destruct (Hf s a s' Hs E) as [H1 H2]. split; [done|]. exists ∅. split; [set_solver|done].
Qed.
(** What is read from the state is known of the state. *)
Lemma keeps_get_then {A B} (f : W -> A) (Q : A -> Prop) (k : A -> act B) :
  (forall s, I s -> Q (f s)) -> (forall a, Q a -> keeps (k a)) -> keeps (abind (aget f) k).
Proof. intros Hf Hk s Hs. apply (Hk _ (Hf s Hs) s Hs). Qed.
(** What a computation returned is known of it. *)
Lemma keeps_lift_then {A B} (r : result A) (k : A -> act B) : (forall x, r = Ok x -> keeps (k x)) -> keeps (abind (alift r) k).
Proof. intros Hk s Hs. destruct r as [x|e]; [by apply (Hk x eq_refl s Hs)|by apply keeps_now]. Qed.
Lemma keeps_await w : keeps (await w).
Proof.
  intros s Hs. split; [done|]. exists ∅. split; [set_solver|]. intros ans s' Hs'. by apply keeps_now.
Qed.

(** Going on with the outcome of a handler, tokens being held meanwhile. *)
Lemma returns_run_case {A B} O (r : run A) (f : result A -> act B) :
  (forall x, returns O (f x)) -> forall P, keeps_run P r -> forall s, I s -> let (s', r') := run_case r f s in
  I s' /\ exists O', tok s' ⊆ tok s ∖ (O ∪ P) ∪ O' /\ keeps_run O' r'.
Proof.
  intros Hf. induction r as [x|w k IH] using run_ind'; intros P Hr s Hs.
  - cbn in Hr. subst P. cbn [run_case]. pose proof (Hf x s Hs) as Hx. destruct (f x s) as [s' r']. destruct Hx as [H1 (O' & H2 & H3)].
    split; [done|]. exists O'. split; [set_solver|done].
  - cbn [run_case]. split; [done|]. exists (O ∪ P). split; [apply split_tokens|]. intros ans s1 Hs1. specialize (Hr ans s1 Hs1).
    specialize (IH ans s1). destruct (k ans s1) as [s2 r2]. destruct Hr as [Hs2 (P2 & Ht2 & Hr2)].
    cbn [snd] in IH. specialize (IH P2 Hr2 s2 Hs2). destruct (run_case r2 f s2) as [s3 r3]. destruct IH as [Hs3 (O3 & Ht3 & Hr3)].
    split; [done|]. exists O3. split; [|done]. set_solver.
Qed.
Lemma returns_case {A B} O (m : act A) (f : result A -> act B) : keeps m -> (forall x, returns O (f x)) -> returns O (acase m f).
Proof.
  intros Hm Hf s Hs. unfold acase. pose proof (Hm s Hs) as Hms. destruct (m s) as [s1 r]. destruct Hms as [Hs1 (P & Ht & Hr)].
  pose proof (returns_run_case O r f Hf P Hr s1 Hs1) as Hc. destruct (run_case r f s1) as [s2 r2].
  destruct Hc as [Hs2 (O2 & Ht2 & Hr2)]. split; [done|]. exists O2. split; [set_solver|done].
Qed.

Lemma keeps_ext {A} O (m m' : act A) : (forall s, m s = m' s) -> returns O m' -> returns O m.
Proof. intros E Hm s Hs. rewrite E. by apply Hm. Qed.
Lemma keeps_case {A B} (m : act A) (f : result A -> act B) : keeps m -> (forall x, keeps (f x)) -> keeps (acase m f).
Proof. apply returns_case. Qed.

Lemma keeps_bind {A B} (m : act A) (f : A -> act B) : keeps m -> (forall a, keeps (f a)) -> keeps (abind m f).
Proof. intros Hm Hf. apply keeps_case; [done|]. intros [a|e]; [apply Hf|apply keeps_raise]. Qed.
Lemma keeps_catch {A} (m : act A) (h : exn -> act A) : keeps m -> (forall e, keeps (h e)) -> keeps (acatch m h).
Proof. intros Hm Hh. apply keeps_case; [done|]. intros [a|e]; [apply keeps_ret|apply Hh]. Qed.

Lemma keeps_each {A} (f : A -> act unit) l : (forall x, keeps (f x)) -> keeps (aeach f l).
Proof. intros Hf. induction l as [|x l IH]; [apply keeps_ret|]. apply keeps_bind; [apply Hf|done]. Qed.

(** An operation that takes tokens the rest gives back, or takes none. *)
Lemma keeps_take {A B} (f : W -> result (A * W)) O (k : A -> act B) :
  (forall s a s', I s -> f s = Ok (a, s') -> I s' /\
     (tok s' ⊆ tok s ∪ O /\ returns O (k a) \/ tok s' ⊆ tok s /\ keeps (k a))) ->
  keeps (abind (atomic f) k).
Proof.
  intros Hf s Hs. unfold abind, acase, atomic. destruct (f s) as [[a s']|e] eqn:E; [|by apply keeps_now]. cbn [run_case].
  destruct (Hf s a s' Hs E) as [Hs' [[Ht Hk]|[Ht Hk]]]; pose proof (Hk s' Hs') as Hk'; destruct (k a s') as [s2 r2];
    destruct Hk' as [Hs2 (O2 & Ht2 & Hr2)]; (split; [done|]); exists O2; (split; [set_solver|done]).
Qed.
(** One that gives them back, and does not raise. *)
Lemma returns_give {A B} (f : W -> result (A * W)) O (k : A -> act B) :
  (forall s, I s -> exists a s', f s = Ok (a, s') /\ I s' /\ tok s' ⊆ tok s ∖ O) -> (forall a, keeps (k a)) ->
  returns O (abind (atomic f) k).
Proof.
  intros Hf Hk s Hs. unfold abind, acase, atomic. destruct (Hf s Hs) as (a & s' & -> & Hs' & Ht). cbn [run_case].
  pose proof (Hk a s' Hs') as Hk'. destruct (k a s') as [s2 r2]. destruct Hk' as [Hs2 (O2 & Ht2 & Hr2)]. split; [done|].
  exists O2. split; [set_solver|done].
Qed.
Lemma bind_atomic {A B C} (f : W -> result (A * W)) (g : A -> act B) (k : B -> act C) s :
  abind (abind (atomic f) g) k s = abind (atomic f) (fun a => abind (g a) k) s.
Proof. unfold abind, acase, atomic. by destruct (f s) as [[a s']|e]. Qed.

(** ** Interleavings *)

(** The event loop: the state and the suspended handlers. A handler starts, or
    one of the suspended ones receives its answer. *)
Inductive loop_step (starts : act unit -> Prop) : W * list (run unit) -> W * list (run unit) -> Prop :=
  | loop_start m s s' r pool : starts m -> m s = (s', r) -> loop_step starts (s, pool) (s', r :: pool)
  | loop_resume s s' w k ans r pool1 pool2 :
      k ans s = (s', r) -> loop_step starts (s, pool1 ++ Wait w k :: pool2) (s', pool1 ++ r :: pool2).

Lemma pool_step starts X Os s pool s' pool' :
  (forall m, starts m -> keeps m) -> loop_step starts (s, pool) (s', pool') ->
  I s -> Forall2 keeps_run Os pool -> tok s ⊆ X ∪ ⋃ Os ->
  I s' /\ exists Os', Forall2 keeps_run Os' pool' /\ tok s' ⊆ X ∪ ⋃ Os'.
Proof.
  intros Hm Hs HI Hp Ht. inversion Hs as [m s1 s2 r pool1 Hst Hrun|s1 s2 w k ans r p1 p2 Hk]; subst.
  - pose proof (Hm m Hst _ HI) as Hkm. rewrite Hrun in Hkm. destruct Hkm as [HI' (O & HO & Hr)]. split; [done|].
    exists (O :: Os). split; [by constructor|]. cbn. set_solver.
  - apply Forall2_app_inv_r in Hp as (Os1 & Os2 & H1 & H2 & ->). inversion H2 as [|O ? Os2' ? Hw H3]; subst. specialize (Hw ans _ HI).
    rewrite Hk in Hw. destruct Hw as [HI' (O' & HO & Hr)]. split; [done|]. exists (Os1 ++ O' :: Os2').
    split; [by apply Forall2_app; [|constructor]|]. rewrite !union_list_app in *. cbn in *. set_solver.
Qed.

Definition finished (r : run unit) : Prop := match r with Now _ => True | Wait _ _ => False end.

(** In every interleaving the invariant holds, and the tokens are those of
    suspended handlers: there are none, if there were none at the start, when no
    handler is suspended. *)
Lemma pool_keeps starts s s' pool' :
  rtc (loop_step starts) (s, []) (s', pool') ->
  (forall m, starts m -> keeps m) -> I s -> I s' /\ (tok s = ∅ -> Forall finished pool' -> tok s' = ∅).
Proof.
  intros Hr Hm HI.
  assert (I s' /\ exists Os, Forall2 keeps_run Os pool' /\ tok s' ⊆ tok s ∪ ⋃ Os) as [HI' (Os & Hp & HO)].
  { refine (rtc_ind_r (fun x => I x.1 /\ exists Os, Forall2 keeps_run Os x.2 /\ tok x.1 ⊆ tok s ∪ ⋃ Os) (s, []) _ _ (s', pool') Hr).
    - split; [done|]. exists []. split; [constructor|]. cbn. set_solver.
    - intros [s1 p1] [s2 p2] _ Hs [H1 (Os & H2 & H3)]. by eapply pool_step. }
  split; [done|]. intros Ht Hfin. assert (⋃ Os = (∅ : gset T)) as E; [|set_solver].
  clear HO Hr. induction Hp as [|O r Os pool Hr' _ IH]; [done|]. apply Forall_cons in Hfin as [H1 H2]. cbn. rewrite (IH H2).
  destruct r; [|done]. cbn in Hr'. set_solver.
Qed.
End Keeps.
End Tasks.

Arguments run W {wait} answer A.
Arguments act W {wait} answer A.
Arguments loop_step {W wait answer} starts _ _.

Declare Scope act_scope.
Delimit Scope act_scope with act.
Notation "'do!' x ':=' m 'in' k" := (abind m (fun x => k))
  (at level 10, x pattern, m at level 100, k at level 200) : act_scope.
Notation "m ';;;' k" := (abind m (fun _ => k)) (at level 60, right associativity) : act_scope.

Create HintDb keeps discriminated.
#[export] Hint Resolve keeps_ret keeps_raise keeps_lift keeps_get keeps_await : keeps.

(** Splits a handler into its operations; what remains are its state changes. *)
Ltac keeps_step :=
  cbv beta zeta;
  match goal with
  | |- keeps _ _ (abind _ _) => apply keeps_bind; [|intros ?]
  | |- keeps _ _ (acatch _ _) => apply keeps_catch; [|intros ?]
  | |- keeps _ _ (aeach _ _) => apply keeps_each; intros ?
  | |- keeps _ _ (match ?x with _ => _ end) => destruct x
  | |- keeps _ _ _ => solve [auto with keeps]
  end.
