(* ===== verification/ChatApp.v ===== *)
(** * ui.py: the application

    [ChatApp]: its state and its handlers, written as the coroutines of [Tasks]
    over one state that holds the screen, the peer registry, the connection
    manager, the chat and file sessions and the discovery object. A handler is
    suspended where the code awaits a connection being opened, a writer being
    drained, the user's answer in the offer dialog (when a worker may show it), or
    the acknowledgement of a sent file; everything else runs at once. What leaves
    the process is a list of effects. The widgets' rendering is a parameter: which markup they accept, and the text of what they show. *)

From S2P Require Import Prelude PyStr PyFloat PyText Json PyValue SecurityEvents EventBus Frame FileData Messages FileSys TextFile Transfer Peer Chat FileSession IdentityStore Discovery App Tasks.
From stdpp Require Import base gmap strings list option list_numbers.
From Stdlib Require Import ZArith Lia Strings.Byte.
Open Scope Z_scope.
Open Scope peerc_scope.
Open Scope act_scope.

(** ** What the application relies on *)

(** Tables of the Unicode database, the markup library, the log widget, the
    wording of exceptions, and the outside world: its [n]th answer to a question
    for the time, for a random UUID, about the host's network and disk, or whether
    a write to a file is refused, and after how many bytes. *)
Class Platform : Type := {
  isprintable : Z -> bool;
  lower_text : pystr -> pystr;
  rich_escape : pystr -> pystr;
  markup_ok : pystr -> bool;
  strip_texts : list pystr -> list pystr;
  exn_text : exn -> pystr;
  time_at : nat -> pyfloat;
  uuid_at : nat -> pystr;
  host_at : nat -> host_info;
  os_at : nat -> host;
  spill_at : bytes -> nat;
  write_failure_at : nat -> option nat;
  identity_file : path;
  mdns_available : bool
}.

(** ** State *)

Inductive ui_effect : Type :=
  | Net (o : Discovery.output)
  | Copied (text : json)
  | Notified (message title : pystr)
  | Exited.

(** The title, the texts written to the log since it was last cleared, the
    sidebar's items (label and name), and the effects so far. *)
Record Screen : Type := MkScreen {
  sc_title : pystr;
  sc_log : list pystr;
  sc_sidebar : list (pystr * json);
  sc_effects : list ui_effect
}.
Record Profile : Type := MkProfile {
  my_peer_id : pystr;
  my_display_name : pystr;
  my_active_peer_id : option json;
  my_last_received : json
}.
(** The connection manager with its running read loops, by connection number. *)
Record Network : Type := MkNetwork {
  net_manager : ConnectionManager;
  net_loops : gmap nat pystr;
  net_next : nat
}.
(** The chat session and its running timeout tasks; and, for the account of what
    becomes of each message, the ids of those being sent and of those whose send
    raised. *)
Record Chatting : Type := MkChatting {
  ch_session : ChatSession;
  ch_timers : gset pystr;
  ch_sending : gset pystr;
  ch_raised : gset pystr
}.
(** The sending tasks that were created and have not begun, and what became of
    the acknowledgement event of each transfer: set, with its success flag. The
    transfer objects outlive their entries in the session's table. *)
Record Uploads : Type := MkUploads {
  up_tasks : list OutgoingTransfer;
  up_acks : gmap pystr bool
}.
Record ChatApp : Type := MkChatApp {
  app_screen : Screen;
  app_me : Profile;
  app_registry : registry;
  app_discovery : Discovery;
  app_network : Network;
  app_chat : Chatting;
  app_files : sstate;
  app_uploads : Uploads;
  app_posted : list event;   (* events whose publication is scheduled *)
  app_asked : nat            (* questions put to the outside world *)
}.

Definition with_screen (f : Screen -> Screen) (a : ChatApp) : ChatApp :=
  MkChatApp (f (app_screen a)) (app_me a) (app_registry a) (app_discovery a) (app_network a) (app_chat a) (app_files a) (app_uploads a)
    (app_posted a) (app_asked a).
Definition with_me (f : Profile -> Profile) (a : ChatApp) : ChatApp :=
  MkChatApp (app_screen a) (f (app_me a)) (app_registry a) (app_discovery a) (app_network a) (app_chat a) (app_files a) (app_uploads a)
    (app_posted a) (app_asked a).
Definition with_registry (r : registry) (a : ChatApp) : ChatApp :=
  MkChatApp (app_screen a) (app_me a) r (app_discovery a) (app_network a) (app_chat a) (app_files a) (app_uploads a) (app_posted a) (app_asked a).
Definition with_discovery (d : Discovery) (a : ChatApp) : ChatApp :=
  MkChatApp (app_screen a) (app_me a) (app_registry a) d (app_network a) (app_chat a) (app_files a) (app_uploads a) (app_posted a) (app_asked a).
Definition with_network (n : Network) (a : ChatApp) : ChatApp :=
  MkChatApp (app_screen a) (app_me a) (app_registry a) (app_discovery a) n (app_chat a) (app_files a) (app_uploads a) (app_posted a) (app_asked a).
Definition with_chat (c : Chatting) (a : ChatApp) : ChatApp :=
  MkChatApp (app_screen a) (app_me a) (app_registry a) (app_discovery a) (app_network a) c (app_files a) (app_uploads a) (app_posted a) (app_asked a).
Definition with_files (f : sstate) (a : ChatApp) : ChatApp :=
  MkChatApp (app_screen a) (app_me a) (app_registry a) (app_discovery a) (app_network a) (app_chat a) f (app_uploads a) (app_posted a) (app_asked a).
Definition with_uploads (u : Uploads) (a : ChatApp) : ChatApp :=
  MkChatApp (app_screen a) (app_me a) (app_registry a) (app_discovery a) (app_network a) (app_chat a) (app_files a) u (app_posted a) (app_asked a).
Definition with_posted (es : list event) (a : ChatApp) : ChatApp :=
  MkChatApp (app_screen a) (app_me a) (app_registry a) (app_discovery a) (app_network a) (app_chat a) (app_files a) (app_uploads a) es (app_asked a).
Definition ask_next (a : ChatApp) : ChatApp :=
  MkChatApp (app_screen a) (app_me a) (app_registry a) (app_discovery a) (app_network a) (app_chat a) (app_files a) (app_uploads a)
    (app_posted a) (S (app_asked a)).

Definition set_title (t : pystr) (s : Screen) : Screen := MkScreen t (sc_log s) (sc_sidebar s) (sc_effects s).
Definition set_log (l : list pystr) (s : Screen) : Screen := MkScreen (sc_title s) l (sc_sidebar s) (sc_effects s).
Definition set_sidebar (l : list (pystr * json)) (s : Screen) : Screen := MkScreen (sc_title s) (sc_log s) l (sc_effects s).
Definition add_effect (e : ui_effect) (s : Screen) : Screen := MkScreen (sc_title s) (sc_log s) (sc_sidebar s) (sc_effects s ++ [e]).
Definition set_name (n : pystr) (p : Profile) : Profile := MkProfile (my_peer_id p) n (my_active_peer_id p) (my_last_received p).
Definition set_active (v : json) (p : Profile) : Profile :=
  MkProfile (my_peer_id p) (my_display_name p) (Some v) (my_last_received p).
Definition set_last (v : json) (p : Profile) : Profile := MkProfile (my_peer_id p) (my_display_name p) (my_active_peer_id p) v.

(** ** Awaits *)

Inductive wait : Type :=
  | Opening (ip : pystr) (port : Z)
  | Draining (addr_key : pystr)
  | Answering (sender_name filename : pystr) (size : Z)
  | Acking (transfer_id : pystr).
(** [asyncio.open_connection] under its timeout: open, or the exception;
    [writer.drain()]: the exception it raised, if any; the dialog:
    whether the offer was accepted; the acknowledgement of a sent file: whether
    the wait timed out. *)
Definition answer (w : wait) : Type :=
  match w with
  | Opening _ _ => result unit
  | Draining _ => option exn
  | Answering _ _ _ => bool
  | Acking _ => bool
  end.

Section Handlers.
Context `{PF : Platform}.
Abbreviation act A := (act ChatApp answer A).

Definition ask {A} (f : nat -> A) : act A := do! n := aget app_asked in aset ask_next ;;; aret (f n).
Definition now : act pyfloat := ask time_at.
Definition new_uuid : act pystr := ask uuid_at.

Definition text (v : json) : pystr := py_text isprintable v.
Definition effect (e : ui_effect) : act unit := aset (with_screen (add_effect e)).

(** Waiting for the environment. *)
Definition wait_for (w : wait) : act (answer w) := await w.

(** ** The screen *)

(** [_log]: what the widget refuses is dropped. *)
Definition log (t : pystr) : act unit :=
  aset (with_screen (fun s => if markup_ok t then set_log (sc_log s ++ [t]) s else s)).

Definition title_of (name peer_id : pystr) : pystr := py "peerc " ++ [0x2014] ++ py " " ++ name ++ py " (" ++ take 8 peer_id ++ py ")".

(** [v == w], NaN being unequal to itself. *)
Definition same_id (v : json) (w : option json) : bool :=
  match key_of v with
  | Some k => bool_decide (key_of (default JNull w) = Some k) && negb (bool_decide (v = JFloat SpecFloat.S754_nan))
  | None => false
  end.

Definition peer_label (p : Discovery.Peer) (is_active : bool) : pystr :=
  (if is_active then py "[bold cyan]" ++ [0x25ba] ++ py "[/bold cyan] " else py "  ")
  ++ py "[bold]" ++ text (p_name p) ++ py "[/bold]" ++ [10] ++ py "  [dim]" ++ p_ip p ++ py ":" ++ text (p_tcp_port p) ++ py "[/dim]".
Definition refresh_peer_list : act unit :=
  aset (fun a => with_screen (set_sidebar (map (fun p => (peer_label p (same_id (p_peer_id p) (my_active_peer_id (app_me a))), p_peer_id p))
                                             (list_peers (app_registry a)))) a).

Definition activate (v : json) : act unit := aset (with_me (set_active v)).
(** [if self.active_peer_id is None: self.active_peer_id = v] *)
Definition activate_if_none (v : json) : act unit :=
  do! active := aget (fun a => my_active_peer_id (app_me a)) in
  match active with
  | None => activate v
  | Some _ => aret tt
  end.

Definition on_peer_new (p : Discovery.Peer) : act unit :=
  log (py "[green]+ " ++ text (p_name p) ++ py " came online (" ++ p_ip p ++ py ")[/green]") ;;;
  refresh_peer_list ;;;
  activate_if_none (p_peer_id p).
Definition on_peer_lost (p : Discovery.Peer) : act unit :=
  log (py "[red]- " ++ text (p_name p) ++ py " went offline[/red]") ;;;
  refresh_peer_list.

Definition on_security_warning (event_type severity : pystr) (peer_id : option pystr) : act unit :=
  let peer_info := match peer_id with
                   | Some (c :: s) => py " (peer " ++ take 8 (c :: s) ++ py ")"
                   | _ => []
                   end in
  let color := if streq severity (py "HIGH") || streq severity (py "CRITICAL") then py "red" else py "yellow" in
  log (py "[" ++ color ++ py "][bold]SECURITY " ++ severity ++ py ":[/bold] " ++ event_type ++ peer_info ++ py "[/" ++ color ++ py "]").

(** ** Discovery's callbacks *)

(** What a registry or packet operation put out: callbacks run, datagrams go
    out, security events reach the bridge, which posts warnings. *)
Definition on_output (o : Discovery.output) : act unit :=
  match o with
  | PeerNew p => on_peer_new p
  | PeerLost p => on_peer_lost p
  | SendTo _ _ _ => effect (Net o)
  | Emitted e => match on_security_event WARNING e with
                 | Some ev => aset (fun a => with_posted (app_posted a ++ [ev]) a)
                 | None => aret tt
                 end
  end.

Definition upsert (id name : json) (ip : pystr) (tcp_port : json) : act unit :=
  do! t := now in
  do! outs := atomic (fun a => let* (r, outs) := Discovery.upsert t id name ip tcp_port [] (app_registry a) in
                               Ok (outs, with_registry r a)) in
  aeach on_output outs.

Definition on_packet (data : bytes) (ip : pystr) : act unit :=
  do! t := now in
  do! outs := atomic (fun a => let* (r, outs) := handle_packet t (app_discovery a) data ip (app_registry a) in
                               Ok (outs, with_registry r a)) in
  aeach on_output outs.
Definition on_prune : act unit :=
  do! t := now in
  do! outs := atomic (fun a => let '(r, outs) := prune_stale t (app_registry a) in Ok (outs, with_registry r a)) in
  aeach on_output outs.

(** ** The connection manager, where it awaits *)

Definition set_manager (m : ConnectionManager) (n : Network) : Network := MkNetwork m (net_loops n) (net_next n).
Definition write_to (cid : nat) (bs : bytes) (m : ConnectionManager) : ConnectionManager :=
  Conns (max_connections m) (connections m) (closed m) (<[cid := default [] (written m !! cid) ++ bs]> (written m)) (conn_events m).
Definition drop_connection (addr_key : pystr) (m : ConnectionManager) : ConnectionManager :=
  Conns (max_connections m) (delete addr_key (connections m)) (closed m) (written m) (conn_events m).
Definition on_manager (f : ConnectionManager -> ConnectionManager) : act unit :=
  aset (fun a => with_network (set_manager (f (net_manager (app_network a))) (app_network a)) a).

(** [manager.send] and [send_binary]: the bytes are queued, then the writer is
    drained. A lost peer is dropped; any other exception of the drain escapes. *)
Definition manager_write (addr_key : pystr) (encoded : result bytes) : act bool :=
  do! m := aget (fun a => net_manager (app_network a)) in
  match connections m !! addr_key with
  | None => aret false
  | Some cid =>
      do! frame := alift encoded in
      on_manager (write_to cid frame) ;;;
      do! raised := wait_for (Draining addr_key) in
      match raised with
      | None => aret true
      | Some (ConnectionResetError | BrokenPipeError) => on_manager (drop_connection addr_key) ;;; aret false
      | Some e => araise e
      end
  end.

Definition manager_send (addr_key : pystr) (message : dict) : act bool := manager_write addr_key (encode_frame (JObj message)).
Definition manager_send_binary (addr_key : pystr) (payload : bytes) : act bool :=
  manager_write addr_key (encode_binary_frame payload).

(** The registration of a connection under the next number, and its read loop. *)
Definition registered (addr_key : pystr) (incoming : bool) (n : Network) : Network :=
  MkNetwork (add_connection addr_key (net_next n) incoming (net_manager n)) (<[net_next n := addr_key]> (net_loops n)) (S (net_next n)).
Definition register_connection (addr_key : pystr) (incoming : bool) : act unit :=
  aset (fun a => with_network (registered addr_key incoming (app_network a)) a).

(** [manager.connect_to] *)
Definition manager_connect_to (ip : pystr) (port : Z) : act pystr :=
  let addr_key := addr_text ip port in
  do! m := aget (fun a => net_manager (app_network a)) in
  do! connected := alift (connect_check addr_key m) in
  if connected then aret addr_key else
  do! opened := wait_for (Opening ip port) in
  alift opened ;;; register_connection addr_key false ;;; aret addr_key.

(** [_handle_incoming] up to its read loop, and the end of a read loop. *)
Definition accepted (addr_key : pystr) (n : Network) : Network :=
  if fst (handle_incoming addr_key (net_next n) (net_manager n)) then registered addr_key true n
  else MkNetwork (close_writer (net_next n) (net_manager n)) (net_loops n) (S (net_next n)).
Definition accept_connection (addr_key : pystr) : act unit := aset (fun a => with_network (accepted addr_key (app_network a)) a).
Definition loop_ended (cid : nat) (n : Network) : Network :=
  match net_loops n !! cid with
  | None => n
  | Some addr_key => MkNetwork (read_loop_end addr_key cid (net_manager n)) (delete cid (net_loops n)) (net_next n)
  end.
Definition end_read_loop (cid : nat) : act unit := aset (fun a => with_network (loop_ended cid (app_network a)) a).

(** ** The chat session *)

(** [_on_status_change], called for every status the session announces. *)
Definition on_status_change (status : cstatus) : act unit :=
  let mark := match status with
              | Delivered => py "delivered " ++ [0x2713; 0x2713]
              | _ => py "failed " ++ [0x2717]
              end in
  log (py "[dim]  (" ++ mark ++ py ")[/dim]").

(** An operation of the session, and the callback for what it announced. *)
Definition on_chat {A} (f : Chatting -> result (A * Chatting)) : act A :=
  do! (x, ns) := atomic (fun a => let c := app_chat a in
                                  let* (x, c') := f c in
                                  Ok ((x, drop (length (notices (ch_session c))) (notices (ch_session c'))), with_chat c' a)) in
  aeach (fun n => on_status_change (snd (fst n))) ns ;;; aret x.

(** [send_chat] around its await: the message is tracked before it is sent, and
    guarded by a timeout task once it is; where the send raises it stays tracked,
    and the exception goes on. *)
Definition begin_send (mid : pystr) (t : pyfloat) (addr_key sender_id sender_name text : pystr) (c : Chatting)
    : result (dict * bool * Chatting) :=
  let '(message, sends, s) := send_chat_begin mid t addr_key sender_id sender_name text (ch_session c) in
  Ok (message, sends, MkChatting s (ch_timers c) (if sends then {[mid]} ∪ ch_sending c else ch_sending c) (ch_raised c)).
Definition end_send (mid addr_key : pystr) (ok : result bool) (c : Chatting) : result (result bool * Chatting) :=
  let '(outcome, s) := send_chat_end mid addr_key ok (ch_session c) in
  Ok (outcome, MkChatting s (match outcome with Ok true => {[mid]} ∪ ch_timers c | _ => ch_timers c end)
                 (ch_sending c ∖ {[mid]})
                 (match outcome with Err _ => {[mid]} ∪ ch_raised c | Ok _ => ch_raised c end)).
Definition acknowledge (message : dict) (c : Chatting) : result (unit * Chatting) :=
  let* (cancelled, s) := handle_ack message (ch_session c) in
  Ok (tt, MkChatting s (match cancelled with
                        | Some mid => ch_timers c ∖ {[mid]}
                        | None => ch_timers c
                        end) (ch_sending c) (ch_raised c)).
(** The end of a timeout task's sleep. *)
Definition expire (mid : pystr) (c : Chatting) : result (unit * Chatting) :=
  if bool_decide (mid ∈ ch_timers c) then Ok (tt, MkChatting (timeout_expired mid (ch_session c)) (ch_timers c ∖ {[mid]}) (ch_sending c) (ch_raised c))
  else Ok (tt, c).

(** [chat_session.send_chat] *)
Definition send_chat (addr_key sender_id sender_name text : pystr) : act pystr :=
  do! mid := new_uuid in
  do! t := now in
  do! (message, sends) := on_chat (begin_send mid t addr_key sender_id sender_name text) in
  if negb sends then aret mid else
  acase (manager_send addr_key message) (fun ok =>
    do! outcome := on_chat (end_send mid addr_key ok) in
    alift outcome ;;; aret mid).

Definition ack_timeout (mid : pystr) : act unit := on_chat (expire mid).

(** ** Registering peers from messages *)

Definition field (k : pystr) (dflt : json) (message : dict) : json := default dflt (dict_get k message).

(** A claimed sender is registered under the address the message came from. *)
Definition learn_peer (id name : json) (ip : pystr) (tcp_port : json) : act bool :=
  do! me := aget app_me in
  if truthy id && negb (bool_decide (id = JStr (my_peer_id me)))
  then upsert id name ip tcp_port ;;; refresh_peer_list ;;; activate_if_none id ;;; aret true
  else aret false.

(** [rich_escape] of a value; the markup library takes strings only. *)
Definition escape (v : json) : result pystr :=
  match v with
  | JStr s => Ok (rich_escape s)
  | _ => Err TypeError
  end.

(** [_on_chat_received] *)
Definition on_chat_received (addr_key : pystr) (message : dict) : act unit :=
  let sender_id := field (py "sender_id") (JStr []) message in
  let sender_name := field (py "sender_name") (JStr (py "peer")) message in
  let msg_text := field (py "text") (JStr []) message in
  aset (with_me (set_last msg_text)) ;;;
  learn_peer sender_id sender_name (host_of addr_key) (JInt UI_TCP_PORT) ;;;
  do! name := alift (escape sender_name) in
  do! body := alift (escape msg_text) in
  log (py "[bold green]<" ++ name ++ py ">[/bold green] " ++ body).

(** The type of a message, where it is a string. *)
Definition has_type (t : string) (message : dict) : bool :=
  match dict_get (py "type") message with
  | Some (JStr s) => streq s (py t)
  | _ => false
  end.

(** [_on_network_message_handshake] *)
Definition on_network_message_handshake (addr_key : pystr) (message : dict) : act unit :=
  let ip := host_of addr_key in
  let learn := learn_peer (field (py "peer_id") (JStr []) message) (field (py "sender_name") (JStr ip) message) ip
                 (field (py "tcp_port") (JInt UI_TCP_PORT) message) in
  if has_type "hello" message then
    do! learned := learn in
    if negb learned then aret tt else
    do! me := aget app_me in
    do! t := now in
    manager_send addr_key (make_hello_ack t (my_peer_id me) (my_display_name me) UI_TCP_PORT) ;;; aret tt
  else if has_type "hello_ack" message then learn ;;; aret tt
  else aret tt.

(** [chat_session._on_network_message] *)
Definition chat_network_message (addr_key : pystr) (message : dict) : act unit :=
  if has_type "chat" message then
    do! t := now in
    do! (ack, _) := alift (handle_incoming_chat t addr_key message) in
    manager_send addr_key ack ;;; on_chat_received addr_key message
  else if has_type "chat_ack" message then on_chat (acknowledge message)
  else aret tt.

(** ** File transfer callbacks *)

(** The labels of [FileOfferModal.compose]. *)
Definition size_kb (size : Z) : result pystr := let* x := int_truediv size 1024 in Ok (format_fixed 1 x).
Definition offer_modal_labels (sender_name filename : pystr) (size : Z) : result (list pystr) :=
  let* kb := size_kb size in
  Ok [sender_name ++ py " wants to send you a file:"; py "  " ++ filename ++ py "  (" ++ kb ++ py " KB)"].

(** The dialog's answer, by the id of the button pressed. *)
Definition on_button_pressed (button_id : pystr) : bool := streq button_id (py "accept").

(** [push_screen_wait], as the terminal library documents it: only a worker may
    show a screen and wait for its result, elsewhere the call raises. *)
Definition push_screen_wait (in_worker : bool) (sender_name filename : pystr) (size : Z) : act bool :=
  if in_worker then wait_for (Answering sender_name filename size) else araise NoActiveWorker.

(** [_on_offer_received] *)
Definition on_offer_received (in_worker : bool) (filename : pystr) (size : Z) (sender_name : json) : act bool :=
  do! name := alift (escape sender_name) in
  do! kb := alift (size_kb size) in
  log (py "[yellow]File offer from " ++ name ++ py ": " ++ rich_escape filename ++ py " (" ++ kb ++ py " KB)[/yellow]") ;;;
  do! accepted := push_screen_wait in_worker (text sender_name) filename size in
  log (py "[yellow]  -> " ++ (if accepted then py "accepted" else py "rejected") ++ py "[/yellow]") ;;;
  aret accepted.

(** [_on_transfer_progress] *)
Definition percent_text (done total : Z) : result pystr :=
  if total =? 0 then Ok (py "0")
  else let* x := int_truediv done total in Ok (format_fixed 0 (float_mul x (float_of_int 100))).
Definition on_transfer_progress (transfer_id : json) (done total : Z) : act unit :=
  do! pct := alift (percent_text done total) in
  do! short := alift (slice_to 8 transfer_id) in
  log (py "[dim]  transfer " ++ short ++ py ": " ++ pct ++ py "%[/dim]").

(** [_on_transfer_complete] *)
Definition on_transfer_complete (transfer_id : json) (success : bool) (filepath : option pystr) : act unit :=
  if success then log (py "[green]File received: " ++ default (py "None") filepath ++ py "[/green]")
  else do! short := alift (slice_to 8 transfer_id) in log (py "[red]File transfer " ++ short ++ py " failed or was rejected[/red]").

(** ** The active peer *)

(** [_active_addr_key] *)
Definition active_addr_key : act (option pystr) :=
  do! a := aget id in
  match my_active_peer_id (app_me a) with
  | None => aret None
  | Some v =>
      do! p := alift (registry_get v (app_registry a)) in
      aret ((fun p => p_ip p ++ py ":" ++ text (p_tcp_port p)) <$> p)
  end.

(** [_ensure_connected]: a key with a colon splits at its last one. *)
Definition ensure_connected (addr_key : pystr) : act bool :=
  do! m := aget (fun a => net_manager (app_network a)) in
  if is_connected addr_key m then aret true else
  acatch
    (let i := rfind COLON addr_key in
     if i <? 0 then araise ValueError else
     do! port := alift (py_int 10 (drop (S (Z.to_nat i)) addr_key)) in
     manager_connect_to (take (Z.to_nat i) addr_key) port ;;; aret true)
    (fun e => log (py "[red]Connection error to " ++ addr_key ++ py ": " ++ exn_text e ++ py "[/red]") ;;; aret false).

(** ** Commands *)

Definition help_lines : list pystr :=
  [py "[bold yellow]" ++ [0x2554] ++ replicate 23 0x2550 ++ py " Commands " ++ replicate 23 0x2550 ++ [0x2557] ++ py "[/bold yellow]";
   py " [bold cyan]/connect <ip>[:port][/bold cyan]  Connect to peer IP (hotspot / AP fix)";
   py " [bold cyan]/peers[/bold cyan]                List all discovered peers & status";
   py " [bold cyan]/msg <name|id>[/bold cyan]        Switch active chat recipient";
   py " [bold cyan]/send <filepath>[/bold cyan]      Offer a file to active peer";
   py " [bold cyan]/nick <new-name>[/bold cyan]      Change display name and re-announce";
   py " [bold cyan]/copy [all|last][/bold cyan]      Copy chat log or last message";
   py " [bold cyan]/clear[/bold cyan]                Clear chat log screen";
   py " [bold cyan]/info[/bold cyan] or [bold cyan]/me[/bold cyan]           Show self identity & network details";
   py " [bold cyan]/quit[/bold cyan] or [bold cyan]/exit[/bold cyan]          Exit application";
   py "[bold yellow]" ++ [0x255a] ++ replicate 23 0x2550 ++ py " Shortcuts " ++ replicate 22 0x2550 ++ [0x255d] ++ py "[/bold yellow]";
   py " [dim]" ++ [0x2022] ++ py " Block text with mouse cursor, then press Ctrl+C or Ctrl+Shift+C to copy[/dim]";
   py " [dim]" ++ [0x2022] ++ py " Click any peer in the sidebar to switch conversation[/dim]";
   py " [dim]" ++ [0x2022] ++ py " Ctrl+C : Copy selected text (or quit if nothing selected)[/dim]";
   py " [dim]" ++ [0x2022] ++ py " Ctrl+Shift+C : Copy selected text to clipboard[/dim]";
   py " [dim]" ++ [0x2022] ++ py " Ctrl+Q : Quit peerc immediately[/dim]";
   py " [dim]" ++ [0x2022] ++ py " Ctrl+K : Clear chat history[/dim]"].

Definition target_text (ip : pystr) (port : Z) : pystr := ip ++ py ":" ++ str_of_int port.

(** /connect once the connection is open and the hello sent. *)
Definition connected (ip : pystr) (port : Z) : act unit :=
  do! r := aget app_registry in
  match List.find (fun p => streq (p_ip p) ip) (list_peers r) with
  | None =>
      let manual_id := JStr (py "peer-" ++ ip) in
      upsert manual_id (JStr (py "Peer (" ++ ip ++ py ")")) ip (JInt port) ;;; activate manual_id
  | Some existing => activate (p_peer_id existing)
  end.

Definition cmd_connect (arg : pystr) : act unit :=
  if streq arg [] then log (py "[yellow]Usage: /connect <ip> or /connect <ip>:<port> (IPv6: /connect [::1]:5656)[/yellow]") else
  do! (ip, port) := alift (parse_connect arg) in
  log (py "[cyan]Connecting to " ++ target_text ip port ++ py "...[/cyan]") ;;;
  do! d := aget app_discovery in
  aeach on_output (probe_peer d ip BROADCAST_PORT) ;;;
  acatch
    (do! addr_key := manager_connect_to ip port in
     do! me := aget app_me in
     do! t := now in
     manager_send addr_key (make_hello t (my_peer_id me) (my_display_name me) UI_TCP_PORT) ;;;
     connected ip port ;;;
     refresh_peer_list ;;;
     log (py "[green]" ++ [0x2713] ++ py " Connected to " ++ target_text ip port ++ py "! Active peer set.[/green]"))
    (fun e => log (py "[red]Failed to connect to " ++ target_text ip port ++ py ": " ++ exn_text e ++ py "[/red]")).

Definition cmd_peers : act unit :=
  do! a := aget id in
  match list_peers (app_registry a) with
  | [] => log (py "[yellow]No peers currently detected. Use /connect <ip> to connect directly.[/yellow]")
  | peers =>
      log (py "[bold yellow]Discovered peers:[/bold yellow]") ;;;
      aeach (fun p =>
        let active := if same_id (p_peer_id p) (my_active_peer_id (app_me a)) then py " [bold cyan](ACTIVE)[/bold cyan]" else [] in
        do! short := alift (slice_to 8 (p_peer_id p)) in
        log (py "  " ++ [0x2022] ++ py " [bold]" ++ text (p_name p) ++ py "[/bold] (" ++ short ++ py ") at "
             ++ p_ip p ++ py ":" ++ text (p_tcp_port p) ++ active)) peers
  end.

(** The first peer /msg matches: by a part of its name, or the start of its id. *)
Fixpoint match_peer (arg : pystr) (peers : list Discovery.Peer) : result (option Discovery.Peer) :=
  match peers with
  | [] => Ok None
  | p :: peers =>
      let* name := str_method (p_name p) in
      if substringb (lower_text arg) (lower_text name) then Ok (Some p) else
      let* peer_id := str_method (p_peer_id p) in
      if prefixb arg peer_id then Ok (Some p) else match_peer arg peers
  end.
Definition cmd_msg (arg : pystr) : act unit :=
  if streq arg [] then log (py "[yellow]Usage: /msg <name-or-id-prefix>[/yellow]") else
  do! r := aget app_registry in
  do! m := alift (match_peer arg (list_peers r)) in
  match m with
  | Some p =>
      activate (p_peer_id p) ;;;
      log (py "[cyan]Active peer -> " ++ text (p_name p) ++ py "[/cyan]") ;;;
      refresh_peer_list
  | None => log (py "[red]No peer matching '" ++ arg ++ py "'[/red]")
  end.

(** An operation of the file session on its tables and the disk, which may raise
    half way. *)
Definition on_files {A} (f : sstate -> result A * sstate) : act A :=
  fun a => let '(r, st) := f (app_files a) in (with_files st a, Now r).

(** [file_session.offer_file] *)
Definition offer_file (addr_key : pystr) (filepath : path) : act (option pystr) :=
  do! (_, f) := aget app_files in
  do! _ := alift (let* _ := getsize f filepath in sha256_file f filepath DEFAULT_HASH_CHUNK_SIZE) in
  do! uuid4 := new_uuid in
  do! t := now in
  do! (transfer, _) := alift (offer_file_begin f uuid4 t addr_key filepath) in
  do! ok := manager_send addr_key (make_file_offer t uuid4 [] [] (ot_filename transfer) (ot_size transfer) (ot_checksum transfer)) in
  on_files (fun '(s, f) => let '(r, s) := offer_file_end transfer ok s in (Ok r, (s, f))).

Definition isfile (f : fs) (p : path) : bool := exists_ f p && negb (isdir f p).
Definition cmd_send (arg : pystr) : act unit :=
  do! (_, f) := aget app_files in
  if streq arg [] || negb (isfile f arg) then log (py "[red]File not found: " ++ arg ++ py "[/red]") else
  do! addr_key := active_addr_key in
  match addr_key with
  | None => log (py "[red]No active peer. Use /msg <name> or /connect <ip> first.[/red]")
  | Some addr_key =>
      do! connected := ensure_connected addr_key in
      if negb connected then aret tt else
      do! transfer_id := offer_file addr_key arg in
      match transfer_id with
      | None => log (py "[red]Could not offer " ++ basename arg ++ py ": not connected[/red]")
      | Some transfer_id => log (py "[cyan]Offered " ++ basename arg ++ py " (" ++ take 8 transfer_id ++ py ")[/cyan]")
      end
  end.

(** [discovery.save_identity] on the application's disk. *)
Definition save_display_name (peer_id name : pystr) : act unit :=
  on_files (fun '(s, f) => let '(r, f) := save_identity spill_at peer_id name identity_file f in (r, (s, f))).
Definition rename_discovery (name : pystr) (d : Discovery) : Discovery := MkDiscovery (self_id d) name (self_port d) (self_key d).

Definition cmd_nick (arg : pystr) : act unit :=
  do! me := aget app_me in
  let old_name := my_display_name me in
  if streq arg [] then log (py "[yellow]Current nickname: " ++ rich_escape old_name ++ py ". Usage: /nick <new_name>[/yellow]") else
  if existsb (fun c => (c <? 0x20) || (c =? 0x7f)) arg
  then log (py "[red]Nickname cannot contain control characters or newlines.[/red]") else
  if 32 <? zlen arg then log (py "[red]Nickname too long (max 32 characters).[/red]") else
  aset (fun a => with_discovery (rename_discovery arg (app_discovery a))
                   (with_screen (set_title (title_of arg (my_peer_id me))) (with_me (set_name arg) a))) ;;;
  save_display_name (my_peer_id me) arg ;;;
  do! h := ask host_at in
  do! d := aget app_discovery in
  aeach on_output (broadcast_now d (broadcast_targets h)) ;;;
  log (py "[green]Nickname changed from '" ++ rich_escape old_name ++ py "' to '" ++ rich_escape arg ++ py "'[/green]").

(** The lines of the log as the widget shows them, and all of them as one text
    ([get_selection] selects from it too). *)
Definition rstrip (s : pystr) : pystr := rev (lstrip_by is_space (rev s)).
Definition log_text (a : ChatApp) : pystr := Json.join [10] (map rstrip (strip_texts (sc_log (app_screen a)))).
Definition notify (message title : pystr) : act unit := effect (Notified message title).

Definition cmd_copy (arg : pystr) : act unit :=
  do! a := aget id in
  if streq arg (py "all") then
    match log_text a with
    | [] => log (py "[yellow]Chat log is empty.[/yellow]")
    | all_text =>
        effect (Copied (JStr all_text)) ;;;
        log (py "[green]Copied all chat history to clipboard![/green]") ;;;
        notify (py "All chat history copied!") (py "Clipboard")
    end
  else if truthy (my_last_received (app_me a)) then
    effect (Copied (my_last_received (app_me a))) ;;;
    log (py "[green]Copied last message: '" ++ text (my_last_received (app_me a)) ++ py "'[/green]") ;;;
    do! short := alift (slice_to 20 (my_last_received (app_me a))) in
    notify (py "Copied: " ++ short) (py "Clipboard")
  else
    match list.last (strip_texts (sc_log (app_screen a))) with
    | Some line =>
        effect (Copied (JStr (strip line))) ;;;
        log (py "[green]Copied: '" ++ strip line ++ py "'[/green]") ;;;
        notify (py "Copied last line!") (py "Clipboard")
    | None => log (py "[yellow]No message to copy.[/yellow]")
    end.

Definition clear_chat : act unit :=
  aset (with_screen (set_log [])) ;;; log (py "[dim]Chat log cleared.[/dim]").

Definition cmd_info : act unit :=
  do! h := ask host_at in
  do! a := aget id in
  let net := get_network_info mdns_available h in
  let ips := Json.join (py ", ") (ni_local_ips net) in
  let ips_str := match ips with [] => py "unknown" | _ => ips end in
  do! active_peer := match my_active_peer_id (app_me a) with
                     | Some v => if truthy v then alift (registry_get v (app_registry a)) else aret None
                     | None => aret None
                     end in
  aeach log
    [py "[bold yellow]" ++ [0x2554] ++ replicate 20 0x2550 ++ py " Self Info " ++ replicate 20 0x2550 ++ [0x2557] ++ py "[/bold yellow]";
     py "  [bold]Name:[/bold]       " ++ my_display_name (app_me a);
     py "  [bold]Peer ID:[/bold]    " ++ my_peer_id (app_me a);
     py "  [bold]TCP Port:[/bold]   " ++ str_of_int UI_TCP_PORT;
     py "  [bold]UDP Port:[/bold]   " ++ str_of_int BROADCAST_PORT;
     py "  [bold]Local IPs:[/bold]  " ++ ips_str;
     py "  [bold]Broadcasts:[/bold] " ++ Json.join (py ", ") (ni_targets net);
     py "  [bold]Active Peer:[/bold]" ++ match active_peer with
                                         | Some p => text (p_name p) ++ py " (" ++ p_ip p ++ py ")"
                                         | None => py "None"
                                         end;
     py "[bold yellow]" ++ [0x255a] ++ replicate 51 0x2550 ++ [0x255d] ++ py "[/bold yellow]"].

(** [_handle_command] *)
Definition handle_command (line : pystr) : act unit :=
  match parse_command line with
  | Help => aeach log help_lines
  | Connect arg => cmd_connect arg
  | Peers => cmd_peers
  | Msg arg => cmd_msg arg
  | SendFile arg => cmd_send arg
  | Nick arg => cmd_nick arg
  | Copy arg => cmd_copy arg
  | Clear => clear_chat
  | Info => cmd_info
  | Quit => effect Exited
  | Unknown word => log (py "[red]Unknown command: " ++ lower_text word ++ py ". Type /help for command list.[/red]")
  end.

(** [on_input_submitted] *)
Definition on_input_submitted (value : pystr) : act unit :=
  let line := strip value in
  if streq line [] then aret tt else
  if prefixb (py "/") line then handle_command line else
  do! addr_key := active_addr_key in
  match addr_key with
  | None => log (py "[red]No active peer. Use /msg <name> or /connect <ip> to select one.[/red]")
  | Some addr_key =>
      do! connected := ensure_connected addr_key in
      if negb connected then aret tt else
      do! me := aget app_me in
      send_chat addr_key (my_peer_id me) (my_display_name me) line ;;;
      log (py "[bold cyan]<you>[/bold cyan] " ++ line)
  end.

(** ** Mouse and keys *)

(** [on_list_view_selected]: the name of the item, if there is one. *)
Definition on_list_view_selected (item : option json) : act unit :=
  match item with
  | Some v =>
      if negb (truthy v) then aret tt else
      activate v ;;;
      do! r := aget app_registry in
      do! peer := alift (registry_get v r) in
      log (py "[cyan]Active peer -> " ++ text (match peer with Some p => p_name p | None => v end) ++ py "[/cyan]") ;;;
      refresh_peer_list
  | None => aret tt
  end.

(** [action_copy_selection] and [action_copy_or_quit], for the selected text. *)
Definition copy_selected (selected : pystr) : act unit :=
  let preview := take 32 (strip selected) ++ (if 32 <? zlen (strip selected) then py "..." else []) in
  effect (Copied (JStr selected)) ;;; notify (py "Copied: " ++ preview) (py "Clipboard").
Definition action_copy_selection (selected : pystr) : act unit :=
  if streq selected [] then notify (py "No text selected to copy") (py "Clipboard") else copy_selected selected.
Definition action_copy_or_quit (selected : pystr) : act unit :=
  if streq selected [] then effect Exited else copy_selected selected.

End Handlers.

(** The scope of the handlers ends here. *)
Close Scope act_scope.
