(* ===== verification/ChatLoop.v ===== *)
(** * ui.py: the application as its event loop runs it

    The handlers of the file session as coroutines of the application, composed
    from the parts of [FileSession]; the event bus that routes messages to the
    sessions; the offer callback; what the event loop may start; and the start
    itself. *)

From S2P Require Import Prelude PyStr PyFloat PyText Json PyValue SecurityEvents EventBus Frame FileData Messages FileSys TextFile Transfer Peer Chat FileSession IdentityStore Discovery App Tasks ChatApp.
From stdpp Require Import base gmap strings list option list_numbers.
From Stdlib Require Import ZArith Lia Strings.Byte.
Open Scope Z_scope.
Open Scope peerc_scope.
Open Scope act_scope.

Section Loop.
Context `{PF : Platform}.
Abbreviation act A := (act ChatApp answer A).

(** ** The file session *)

(** What a part of a handler asks for: messages are sent and the callbacks run;
    the offer event has no subscriber here. *)
Definition file_effect (e : FileSession.effect) : act unit :=
  match e with
  | Send addr_key message => manager_send addr_key message ;;; aret tt
  | SendBinary addr_key payload => manager_send_binary addr_key payload ;;; aret tt
  | Offered _ _ _ _ => aret tt
  | Progress transfer_id done total _ => on_transfer_progress transfer_id done total
  | Complete transfer_id success filepath _ => on_transfer_complete transfer_id success filepath
  end.

(** A field of a validated message. *)
Definition text_item (k : string) (message : dict) : result pystr :=
  let* v := dict_item (py k) message in
  match v with
  | JStr s => Ok s
  | _ => Err TypeError
  end.
Definition int_item (k : string) (message : dict) : result Z :=
  let* v := dict_item (py k) message in
  match as_int v with
  | Some n => Ok n
  | None => Err TypeError
  end.

(** The [on_offer_received] argument of the session; without one every offer is
    accepted. *)
Definition offer_callback : Type := option (pystr -> Z -> json -> act bool).
Definition ask_offer (on_offer : offer_callback) (filename : pystr) (size : Z) (sender_name : json) : act bool :=
  match on_offer with
  | None => aret true
  | Some callback => callback filename size sender_name
  end.

(** [_handle_offer] *)
Definition file_offer (on_offer : offer_callback) (addr_key : pystr) (message : dict) : act unit :=
  do! transfer_id := alift (dict_item (py "transfer_id") message) in
  do! filename := alift (text_item "filename" message) in
  do! size := alift (int_item "size" message) in
  do! checksum := alift (text_item "checksum" message) in
  let sender_name := match dict_get (py "sender_name") message with
                     | Some v => if truthy v then v else JStr (py "peer")
                     | None => JStr (py "peer")
                     end in
  do! os := ask os_at in
  do! t := now in
  do! (dest_path, es) := on_files (fun st => let '(r, es) := handle_offer_check os t addr_key transfer_id filename size st in
                                             (let* d := r in Ok (d, es), st)) in
  aeach file_effect es ;;;
  match dest_path with
  | None => aret tt
  | Some dest_path =>
      do! accept := ask_offer on_offer filename size sender_name in
      do! t := now in
      do! es := on_files (handle_offer_answer t addr_key transfer_id filename size checksum sender_name dest_path accept) in
      aeach file_effect es
  end.

(** [self._outgoing.get(message["transfer_id"])]: the keys are strings. *)
Definition outgoing_id (message : dict) : result (option pystr) :=
  let* v := dict_item (py "transfer_id") message in
  match key_of v with
  | None => Err TypeError
  | Some (KStr tid) => Ok (Some tid)
  | Some _ => Ok None
  end.
Definition outgoing_get (message : dict) : act (option OutgoingTransfer) :=
  do! tid := alift (outgoing_id message) in
  do! (s, _) := aget app_files in
  aret (tid ≫= fun tid => fs_outgoing s !! tid).

Definition add_task (t : OutgoingTransfer) (u : Uploads) : Uploads := MkUploads (up_tasks u ++ [t]) (up_acks u).
Definition set_ack (tid : pystr) (success : bool) (u : Uploads) : Uploads := MkUploads (up_tasks u) (<[tid := success]> (up_acks u)).
Definition on_uploads (f : Uploads -> Uploads) : act unit := aset (fun a => with_uploads (f (app_uploads a)) a).

(** [_handle_accept]: the sending task is created and begins later. *)
Definition file_accept (message : dict) : act unit :=
  do! transfer := outgoing_get message in
  match transfer with
  | None => aret tt
  | Some t =>
      on_files (fun '(s, f) => (Ok tt, (snd (handle_accept (ot_transfer_id t) s), f))) ;;;
      on_uploads (add_task t)
  end.

(** [_handle_reject] *)
Definition file_reject (message : dict) : act unit :=
  do! transfer := outgoing_get message in
  match transfer with
  | None => aret tt
  | Some t =>
      do! es := on_files (fun '(s, f) => let '(es, s) := handle_reject (ot_transfer_id t) s in (Ok es, (s, f))) in
      aeach file_effect es
  end.

(** [_handle_complete_ack] *)
Definition file_complete_ack (message : dict) : act unit :=
  do! transfer := outgoing_get message in
  let success := truthy (default JNull (dict_get (py "success") message)) in
  match transfer with
  | None => aret tt
  | Some t =>
      on_files (fun '(s, f) => (Ok tt, (handle_complete_ack (ot_transfer_id t) success s, f))) ;;;
      on_uploads (set_ack (ot_transfer_id t) success)
  end.

(** [_handle_chunk], for the message of a binary frame and for a JSON message. *)
Definition file_chunk (fd : file_data) : act unit :=
  do! failure := ask write_failure_at in
  do! es := on_files (handle_chunk spill_at failure (fd_transfer_id fd) (fd_sequence fd) (fd_offset fd) (fd_data fd)) in
  aeach file_effect es.
Definition file_chunk_json (message : dict) : act unit :=
  do! es := on_files (handle_chunk_json message) in
  aeach file_effect es.

(** [_handle_done] *)
Definition file_done (addr_key : pystr) (message : dict) : act unit :=
  do! transfer_id := alift (dict_item (py "transfer_id") message) in
  do! (transfer, es) := on_files (handle_done_begin addr_key transfer_id) in
  aeach file_effect es ;;;
  match transfer with
  | None => aret tt
  | Some (t, success) =>
      do! es := on_files (fun '(s, f) => let '(r, f) := handle_done_end t success f in (r, (s, f))) in
      aeach file_effect es
  end.

(** ** The sending task *)

(** The chunk loop; [false] when a send failed. *)
Fixpoint send_each (t : OutgoingTransfer) (cs : list chunk) (bytes_sent : Z) : act bool :=
  match cs with
  | [] => aret true
  | (index, offset, data) :: cs =>
      do! payload := alift (encode_file_data (ot_transfer_id t) index offset data) in
      do! ok := manager_send_binary (ot_addr_key t) payload in
      if negb ok then on_transfer_complete (JStr (ot_transfer_id t)) false None ;;; aret false else
      let bytes_sent := bytes_sent + zlen data in
      on_transfer_progress (JStr (ot_transfer_id t)) bytes_sent (ot_size t) ;;;
      send_each t cs bytes_sent
  end.

(** [_send_chunks]: the chunks of the file as it is when it is opened, the final
    message, and the wait for the acknowledgement. *)
Definition send_chunks_task (t : OutgoingTransfer) : act unit :=
  let tid := ot_transfer_id t in
  let body :=
    do! (_, f) := aget app_files in
    do! cs := alift (read_chunks f (ot_filepath t) 0 CHUNK_SIZE) in
    do! sent := send_each t cs 0 in
    if negb sent then aret tt else
    manager_send (ot_addr_key t) (make_file_done tid (ot_checksum t)) ;;;
    on_files (fun '(s, f) => (Ok tt, (mark_outgoing tid OAwaitingAck s, f))) ;;;
    do! timed_out := wait_for (Acking tid) in
    do! u := aget app_uploads in
    let success := negb timed_out && default false (up_acks u !! tid) in
    on_transfer_complete (JStr tid) success (if success then Some (ot_filepath t) else None) in
  let handled := acatch body (fun e => if is_oserror e then on_transfer_complete (JStr tid) false None else araise e) in
  let finally := on_files (fun '(s, f) => (Ok tt, (send_chunks_end t s, f))) in
  do! _ := acatch handled (fun e => finally ;;; araise e) in
  finally.

(** The event loop begins the task created first. *)
Definition begin_upload : act unit :=
  do! u := aget app_uploads in
  match up_tasks u with
  | [] => aret tt
  | t :: ts => on_uploads (fun u => MkUploads ts (up_acks u)) ;;; send_chunks_task t
  end.

(** ** The event bus *)

Definition H_CHAT : EventBus.handler := 0%nat.
Definition H_FILE : EventBus.handler := 1%nat.
Definition H_HANDSHAKE : EventBus.handler := 2%nat.
Definition H_WARNING : EventBus.handler := 3%nat.

(** The subscriptions [on_mount] leaves: the two sessions' own, then its own. *)
Definition app_bus : EventBus :=
  subscribe CSecurityWarning H_WARNING
    (subscribe CNetworkMessageReceived H_HANDSHAKE
      (subscribe CNetworkMessageReceived H_FILE
        (subscribe CNetworkMessageReceived H_CHAT empty_bus))).

(** The JSON part of the message the read loop publishes. *)
Definition message_dict (m : net_message) : dict :=
  match m with
  | NJson d => d
  | NFileData fd => [(py "transfer_id", JStr (fd_transfer_id fd)); (py "sequence", JInt (fd_sequence fd));
                     (py "offset", JInt (fd_offset fd)); (py "type", JStr (py "file_data"))]
  end.
Definition network_event (t : pyfloat) (addr_key : pystr) (m : net_message) : event :=
  Event t (NetworkMessageReceived addr_key (message_dict m) (match m with NJson _ => py "json" | NFileData _ => py "binary" end)).

(** [file_session._on_network_message] *)
Definition file_network_message (on_offer : offer_callback) (addr_key : pystr) (m : net_message) : act unit :=
  let handler := match dict_get (py "type") (message_dict m) with
                 | Some (JStr t) => route t
                 | _ => None
                 end in
  match handler, m with
  | None, _ => aret tt
  | Some HOffer, NJson d => file_offer on_offer addr_key d
  | Some HAccept, NJson d => file_accept d
  | Some HReject, NJson d => file_reject d
  | Some HDone, NJson d => file_done addr_key d
  | Some HCompleteAck, NJson d => file_complete_ack d
  | Some HChunk, NJson d => file_chunk_json d
  | Some _, NFileData fd => file_chunk fd
  end.

Definition network_handler (on_offer : offer_callback) (h : EventBus.handler) (addr_key : pystr) (m : net_message) : act unit :=
  if bool_decide (h = H_CHAT) then chat_network_message addr_key (message_dict m)
  else if bool_decide (h = H_FILE) then file_network_message on_offer addr_key m
  else if bool_decide (h = H_HANDSHAKE) then on_network_message_handshake addr_key (message_dict m)
  else aret tt.
Definition warning_handler (h : EventBus.handler) (ev : event) : act unit :=
  match ev_data ev with
  | SecurityWarning event_type severity _ peer_id =>
      if bool_decide (h = H_WARNING) then on_security_warning event_type severity peer_id else aret tt
  | _ => aret tt
  end.
(** [event_bus.publish]: the exceptions of a handler stay with it. *)
Definition publish_to (call : EventBus.handler -> act unit) (ev : event) : act unit :=
  aeach (fun h => acatch (call h) (fun _ => aret tt)) (collect_handlers app_bus ev).

(** A message the read loop let through, published to the sessions. *)
Definition deliver_message (on_offer : offer_callback) (addr_key : pystr) (m : net_message) : act unit :=
  do! t := now in publish_to (fun h => network_handler on_offer h addr_key m) (network_event t addr_key m).
(** The application gives its file session a callback that shows a dialog. The
    callback runs in the read loop of a connection, a task of asyncio: the
    program starts no worker. *)
Definition app_offer : offer_callback := Some (on_offer_received false).
Definition on_network_message (addr_key : pystr) (m : net_message) : act unit := deliver_message app_offer addr_key m.
(** The next scheduled publication. *)
Definition run_posted : act unit :=
  do! posted := aget app_posted in
  match posted with
  | [] => aret tt
  | ev :: posted => aset (with_posted posted) ;;; publish_to (fun h => warning_handler h ev) ev
  end.

(** ** The event loop *)

(** What the event loop starts: a line entered, a datagram, the pruning and the
    refreshing ticks, a message a read loop let through, a scheduled publication,
    a sending task, a timeout, a click, the copy and clear keys, connections
    opened by peers and ended. *)
Inductive started : act unit -> Prop :=
  | start_line value : started (on_input_submitted value)
  | start_packet data ip : started (on_packet data ip)
  | start_prune : started on_prune
  | start_refresh : started refresh_peer_list
  | start_message addr_key m : admissible m -> started (on_network_message addr_key m)
  | start_posted : started run_posted
  | start_upload : started begin_upload
  | start_timeout mid : started (ack_timeout mid)
  | start_click item : started (on_list_view_selected item)
  | start_copy selected : started (action_copy_selection selected)
  | start_copy_or_quit selected : started (action_copy_or_quit selected)
  | start_clear : started clear_chat
  | start_accept addr_key : started (accept_connection addr_key)
  | start_close cid : started (end_read_loop cid).

(** ** Start *)

Definition DOWNLOADS_DIR : path := py "downloads".

(** [on_mount], from the loaded identity; [server] is the outcome of opening the
    listening socket. *)
Definition on_mount (peer_id name : pystr) (public_key : bytes) (server : result unit) (disk : fs) : result ChatApp :=
  let '(made, disk) := makedirs DOWNLOADS_DIR disk in
  let* _ := made in
  let* _ := server in
  Ok (MkChatApp
        (MkScreen (title_of name peer_id)
           [py "[bold cyan]Started as " ++ name ++ py " (" ++ take 8 peer_id ++ py ")[/bold cyan]";
            py "Waiting for peers... use [bold yellow]/help[/bold yellow] for commands.";
            py "[dim]Tip: Drag mouse over text to block/select. Press Ctrl+C or Ctrl+Shift+C to copy. Press Ctrl+Q to quit.[/dim]"]
           [] [])
        (MkProfile peer_id name None (JStr []))
        new_registry
        (MkDiscovery peer_id name UI_TCP_PORT public_key)
        (MkNetwork (new_connection_manager MAX_CONNECTIONS) ∅ 0)
        (MkChatting new_chat_session ∅ ∅ ∅)
        (FSession DOWNLOADS_DIR ∅ ∅, disk)
        (MkUploads [] ∅)
        [] 0).
End Loop.

(** The scope of the handlers ends here. *)
Close Scope act_scope.
