(* ===== verification/ChatAppFacts.v ===== *)
(** * ui.py: what holds of the application

    The invariant every handler keeps at every suspension point, hence over all
    interleavings; what a typed line does end to end; what hostile messages do
    to the commands. *)

From S2P Require Import Prelude PyStr PyFloat PyText Json JsonFacts PyValue Sha256 SecurityEvents EventBus Frame FileData Messages FileSys TextFile Transfer Peer Chat FileSession FileSessionFacts IdentityStore Discovery App Tasks ChatApp ChatLoop.
From stdpp Require Import base gmap strings list option list_numbers relations.
From Stdlib Require Import ZArith Lia Strings.Byte.
Open Scope Z_scope.
Open Scope peerc_scope.

(** ** What the application's state goes through *)

Definition renamed (name : pystr) (a : ChatApp) : ChatApp :=
  with_discovery (rename_discovery name (app_discovery a))
    (with_screen (set_title (title_of name (my_peer_id (app_me a)))) (with_me (set_name name) a)).

(** The changes of state, each the doing of one operation of one component. *)
Inductive change : ChatApp -> ChatApp -> Prop :=
  | change_screen f a : sc_title (f (app_screen a)) = sc_title (app_screen a) -> change a (with_screen f a)
  | change_last v a : change a (with_me (set_last v) a)
  | change_asked a : change a (ask_next a)
  | change_files spill st a : sstep spill (app_files a) st -> change a (with_files st a)
  | change_uploads u a : change a (with_uploads u a)
  | change_posted es a : change a (with_posted es a)
  | change_upsert t id name ip port r outs a :
      truthy id = true -> id <> JStr (my_peer_id (app_me a)) ->
      Discovery.upsert t id name ip port [] (app_registry a) = Ok (r, outs) -> change a (with_registry r a)
  | change_packet t data ip r outs a :
      handle_packet t (app_discovery a) data ip (app_registry a) = Ok (r, outs) -> change a (with_registry r a)
  | change_prune t a : change a (with_registry (fst (prune_stale t (app_registry a))) a)
  | change_write cid bs a :
      change a (with_network (set_manager (write_to cid bs (net_manager (app_network a))) (app_network a)) a)
  | change_drop addr a :
      change a (with_network (set_manager (drop_connection addr (net_manager (app_network a))) (app_network a)) a)
  | change_register addr incoming a : change a (with_network (registered addr incoming (app_network a)) a)
  | change_accept addr a : change a (with_network (accepted addr (app_network a)) a)
  | change_end cid a : change a (with_network (loop_ended cid (app_network a)) a)
  | change_end_send mid addr ok x c a : end_send mid addr ok (app_chat a) = Ok (x, c) -> change a (with_chat c a)
  | change_ack message x c a : acknowledge message (app_chat a) = Ok (x, c) -> change a (with_chat c a)
  | change_expire mid x c a : expire mid (app_chat a) = Ok (x, c) -> change a (with_chat c a)
  | change_name name a : change a (renamed name a).
(** The one change that only this device's user makes once there is an active peer. *)
Definition switch (a a' : ChatApp) : Prop := exists v, a' = with_me (set_active v) a.
(** And the one that leaves a message to be dealt with by the handler that makes it. *)
Definition begins (a a' : ChatApp) : Prop := exists mid t addr sid name msg x c,
  begin_send mid t addr sid name msg (app_chat a) = Ok (x, c) /\ a' = with_chat c a.
Definition step (a a' : ChatApp) : Prop := change a a' \/ switch a a' \/ begins a a'.

(** The messages being sent: the tokens of the handlers that are sending them. *)
Definition sending (a : ChatApp) : gset pystr := ch_sending (app_chat a).
Lemma end_send_ok mid addr ok c : exists x c', end_send mid addr ok c = Ok (x, c') /\ ch_sending c' = ch_sending c ∖ {[mid]}.
Proof. unfold end_send. destruct (send_chat_end mid addr ok (ch_session c)) as [outcome s]. by eexists _, _. Qed.
Lemma change_sending a a' : change a a' -> sending a' ⊆ sending a.
Proof.
  destruct 1 as [| | | | | | | | | | | | | |mid addr ok x c a E|message x c a E|mid x c a E|]; try done.
  - destruct (end_send_ok mid addr ok (app_chat a)) as (x' & c' & E' & Hs). rewrite E in E'. injection E' as <- <-.
    unfold sending. cbn. rewrite Hs. set_solver.
  - apply rbind_ok in E as ([y s'] & _ & [= _ <-]). done.
  - unfold expire in E. case_bool_decide; by injection E as _ <-.
Qed.
Create HintDb changes discriminated.
#[local] Hint Constructors change : changes.

Lemma step_me a a' : rtc step a a' -> my_peer_id (app_me a') = my_peer_id (app_me a).
Proof.
  induction 1 as [|x y z Hs _ IH]; [done|]. rewrite IH.
  by destruct Hs as [[]|[[v ->]|(mid & t & addr & sid & name & msg & w & c & _ & ->)]].
Qed.

(** ** Every handler goes through such changes only

    An invariant of the changes is kept by every handler; of those that only
    switch the active peer when there is none, also when a user's switch would
    break it. *)

Section Changes.
Context `{PF : Platform} (self : pystr) (I : ChatApp -> Prop).
Hypothesis Hme : forall a, I a -> my_peer_id (app_me a) = self.
Hypothesis Hchange : forall a a', change a a' -> I a -> I a'.
#[local] Abbreviation kept m := (keeps (answer := answer) I sending m).
Hypothesis Hnone : forall v, kept (activate_if_none v).
#[local] Hint Resolve Hnone : keeps.

Lemma keeps_change f : (forall a, I a -> change a (f a)) -> kept (aset f).
Proof. intros Hf. apply keeps_set. intros a Ha. split; [by eapply Hchange; [apply Hf|]|]. by apply change_sending, Hf. Qed.
Lemma keeps_operation {A} (f : ChatApp -> result (A * ChatApp)) :
  (forall s x s', I s -> f s = Ok (x, s') -> change s s') -> kept (atomic f).
Proof.
  intros Hf. apply keeps_atomic. intros s x s' Hs E. pose proof (Hf s x s' Hs E) as Hc.
  split; [by eapply Hchange|by apply change_sending].
Qed.
Ltac one_change := apply keeps_change; intros a Ha; eauto with changes.
Ltac one_operation := apply keeps_operation; intros s x s' Ha E.

Lemma keeps_log t : kept (log t).
Proof. one_change. apply change_screen. by case_match. Qed.
Lemma keeps_effect e : kept (effect e).
Proof. one_change. Qed.
Lemma keeps_refresh : kept refresh_peer_list.
Proof. one_change. Qed.
Lemma keeps_clear : kept clear_chat.
Proof. apply keeps_bind; [|intros; apply keeps_log]. one_change. Qed.
Lemma keeps_set_last v : kept (aset (with_me (set_last v))).
Proof. one_change. Qed.
Lemma keeps_ask {A} (f : nat -> A) : kept (ask f).
Proof. apply keeps_bind; [auto with keeps|]. intros n. apply keeps_bind; [|auto with keeps]. one_change. Qed.
Lemma keeps_clock : kept now.
Proof. apply keeps_ask. Qed.
Lemma keeps_uuid : kept new_uuid.
Proof. apply keeps_ask. Qed.
Lemma keeps_post f : kept (aset (fun a => with_posted (f a) a)).
Proof. one_change. Qed.
Lemma keeps_set_posted l : kept (aset (with_posted l)).
Proof. one_change. Qed.
Lemma keeps_wait w : kept (wait_for w).
Proof. apply keeps_await. Qed.
#[local] Hint Resolve keeps_log keeps_effect keeps_refresh keeps_clear keeps_set_last keeps_ask keeps_clock keeps_uuid keeps_post
  keeps_set_posted keeps_wait : keeps.

Ltac keeps_all := repeat keeps_step.

Lemma keeps_output o : kept (on_output o).
Proof. unfold on_output, on_peer_new, on_peer_lost. keeps_all. Qed.
#[local] Hint Resolve keeps_output : keeps.

Lemma keeps_upsert id name ip port :
  truthy id && negb (bool_decide (id = JStr self)) = true -> kept (upsert id name ip port).
Proof.
  intros Hid. unfold upsert. keeps_step; [keeps_step|]. keeps_step; [|keeps_all]. one_operation.
  apply rbind_ok in E as ([r out] & E & [= _ <-]). zbool. eapply change_upsert; [done| |exact E].
  by rewrite (Hme _ Ha).
Qed.
Lemma keeps_packet data ip : kept (on_packet data ip).
Proof.
  unfold on_packet. keeps_step; [keeps_step|]. keeps_step; [|keeps_all]. one_operation.
  apply rbind_ok in E as ([r out] & E & [= _ <-]). by eapply change_packet.
Qed.
Lemma keeps_prune : kept on_prune.
Proof.
  unfold on_prune. keeps_step; [keeps_step|]. keeps_step; [|keeps_all]. one_operation.
  pose proof (change_prune a s) as Hc. destruct (prune_stale a (app_registry s)) as [r out]. by injection E as _ <-.
Qed.
#[local] Hint Resolve keeps_packet keeps_prune : keeps.

Lemma keeps_write cid bs : kept (on_manager (write_to cid bs)).
Proof. one_change. Qed.
Lemma keeps_drop addr : kept (on_manager (drop_connection addr)).
Proof. one_change. Qed.
Lemma keeps_register addr incoming : kept (register_connection addr incoming).
Proof. one_change. Qed.
Lemma keeps_accept addr : kept (accept_connection addr).
Proof. one_change. Qed.
Lemma keeps_end_loop cid : kept (end_read_loop cid).
Proof. one_change. Qed.
#[local] Hint Resolve keeps_write keeps_drop keeps_register keeps_accept keeps_end_loop : keeps.

Lemma keeps_write_frame addr encoded : kept (manager_write addr encoded).
Proof. unfold manager_write. keeps_all. Qed.
Lemma keeps_send addr message : kept (manager_send addr message).
Proof. apply keeps_write_frame. Qed.
Lemma keeps_send_binary addr payload : kept (manager_send_binary addr payload).
Proof. apply keeps_write_frame. Qed.
Lemma keeps_connect_to ip port : kept (manager_connect_to ip port).
Proof. unfold manager_connect_to. keeps_all. Qed.
#[local] Hint Resolve keeps_send keeps_send_binary keeps_connect_to : keeps.

(** ** The chat session *)

Lemma keeps_on_chat {A} (f : Chatting -> result (A * Chatting)) :
  (forall a x c, f (app_chat a) = Ok (x, c) -> change a (with_chat c a)) -> kept (on_chat f).
Proof.
  intros Hf. unfold on_chat. keeps_step; [|destruct a; unfold on_status_change; keeps_all]. one_operation.
  apply rbind_ok in E as ([y c] & E & [= _ <-]). by eapply Hf.
Qed.
Lemma keeps_end_send mid addr ok : kept (on_chat (end_send mid addr ok)).
Proof. apply keeps_on_chat. eauto with changes. Qed.
Lemma keeps_acknowledge message : kept (on_chat (acknowledge message)).
Proof. apply keeps_on_chat. eauto with changes. Qed.
Lemma keeps_expire mid : kept (on_chat (expire mid)).
Proof. apply keeps_on_chat. eauto with changes. Qed.
#[local] Hint Resolve keeps_end_send keeps_acknowledge keeps_expire : keeps.

(** ** The handlers *)

Lemma keeps_learn_peer id name ip port : kept (learn_peer id name ip port).
Proof.
  unfold learn_peer. apply (keeps_get_then _ _ _ (fun me => my_peer_id me = self)); [exact Hme|]. intros me ->. cbn beta.
  destruct (truthy id && _) eqn:E; [|keeps_all]. pose proof (keeps_upsert id name ip port E). keeps_all.
Qed.
#[local] Hint Resolve keeps_learn_peer : keeps.
Lemma keeps_chat_received addr message : kept (on_chat_received addr message).
Proof. unfold on_chat_received. keeps_all. Qed.
#[local] Hint Resolve keeps_chat_received : keeps.
Lemma keeps_hello addr message : kept (on_network_message_handshake addr message).
Proof. unfold on_network_message_handshake. keeps_all. Qed.
Lemma keeps_chat_message addr message : kept (chat_network_message addr message).
Proof. unfold chat_network_message. keeps_all. Qed.
Lemma keeps_warning t sev pid : kept (on_security_warning t sev pid).
Proof. apply keeps_log. Qed.
#[local] Hint Resolve keeps_hello keeps_chat_message keeps_warning : keeps.

Lemma keeps_offer worker filename size sender : kept (on_offer_received worker filename size sender).
Proof.
  assert (forall who, kept (push_screen_wait worker who filename size)) as Hask
    by (intros who; unfold push_screen_wait; destruct worker; [apply (keeps_wait (Answering who filename size))|apply keeps_raise]).
  unfold on_offer_received. keeps_all.
Qed.
Lemma keeps_progress tid n total : kept (on_transfer_progress tid n total).
Proof. unfold on_transfer_progress. keeps_all. Qed.
Lemma keeps_complete tid ok p : kept (on_transfer_complete tid ok p).
Proof. unfold on_transfer_complete. keeps_all. Qed.
#[local] Hint Resolve keeps_offer keeps_progress keeps_complete : keeps.

(** An operation of the file session that does not raise half way. *)
Lemma keeps_files {A} (f : sstate -> result A * sstate) :
  (forall st, exists spill, sstep spill st (snd (f st))) -> kept (on_files f).
Proof.
  intros Hf a Ha. unfold on_files. destruct (Hf (app_files a)) as [spill Hs]. destruct (f (app_files a)) as [r st].
  split; [eapply Hchange; [|exact Ha]; by apply (change_files spill)|]. exists ∅. split; [|done].
  change (sending (with_files st a)) with (sending a). set_solver.
Qed.
Lemma keeps_files_then {A B} (f : sstate -> result A * sstate) (k : A -> act ChatApp answer B) :
  (forall st, exists spill, sstep spill st (snd (f st))) -> (forall x, (exists st, fst (f st) = Ok x) -> kept (k x)) ->
  kept (abind (on_files f) k).
Proof.
  intros Hf Hk a Ha. pose proof (keeps_files f Hf a Ha) as Hs. unfold abind, acase, on_files in *.
  destruct (f (app_files a)) as [[x|e] st] eqn:E; [|exact Hs]. refine (Hk x _ (with_files st a) (proj1 Hs)). exists (app_files a). by rewrite E.
Qed.
(** The session's sender side, and the disk alone. *)
Lemma sender_step spill (st : sstate) s f : fs_incoming s = fs_incoming (fst st) -> f = snd st -> sstep spill st (s, f).
Proof. destruct st as [s0 f0]. cbn. intros E ->. by apply s_sender. Qed.
Lemma same_step spill (st : sstate) : sstep spill st st.
Proof. destruct st as [s f]. apply s_disk. Qed.
#[local] Hint Resolve keeps_files : keeps.

Lemma keeps_file_effect e : kept (file_effect e).
Proof. destruct e; cbn [file_effect]; keeps_all. Qed.
#[local] Hint Resolve keeps_file_effect : keeps.
Lemma keeps_uploads f : kept (on_uploads f).
Proof. one_change. Qed.
Lemma keeps_outgoing d : kept (outgoing_get d).
Proof. unfold outgoing_get. keeps_all. Qed.
#[local] Hint Resolve keeps_uploads keeps_outgoing : keeps.

Lemma keeps_addr_key : kept active_addr_key.
Proof. unfold active_addr_key. keeps_all. Qed.
Lemma keeps_ensure addr : kept (ensure_connected addr).
Proof. unfold ensure_connected. keeps_all. Qed.
#[local] Hint Resolve keeps_addr_key keeps_ensure : keeps.

Lemma keeps_file_offer addr d :
  (forall n, int_item "size" d = Ok n -> 0 <= n) -> kept (file_offer app_offer addr d).
Proof.
  intros Hsize. unfold file_offer. do 2 (keeps_step; [apply keeps_lift|]). apply keeps_lift_then. intros size Hn.
  do 3 (keeps_step; [keeps_all|]). apply keeps_files_then.
  { intros st. exists length. destruct (handle_offer_check _ _ _ _ _ _ st). apply same_step. }
  intros [dest es] [st Hd]. keeps_step; [keeps_all|]. destruct dest as [dest|]; [|apply keeps_ret].
  assert (size <= MAX_INCOMING_FILE_SIZE) as Hmax.
  { unfold handle_offer_check, safe_dest_path in Hd. destruct st as [s f]. destruct (_ <? size) eqn:E; [by cbn in Hd; simplify_eq|]. by zbool. }
  cbn [ask_offer app_offer]. do 2 (keeps_step; [keeps_all|]). keeps_step; [|keeps_all]. apply keeps_files. intros st'. exists length. apply s_answer. auto.
Qed.
Lemma keeps_file_accept d : kept (file_accept d).
Proof.
  unfold file_accept. keeps_all. apply keeps_files. intros [s f]. exists length. apply sender_step; [|done].
  unfold handle_accept. by case_match.
Qed.
Lemma keeps_file_reject d : kept (file_reject d).
Proof.
  unfold file_reject. keeps_all. apply keeps_files. intros [s f]. exists length. unfold handle_reject.
  by destruct (fs_outgoing s !! _); apply sender_step.
Qed.
Lemma keeps_file_complete_ack d : kept (file_complete_ack d).
Proof.
  unfold file_complete_ack. keeps_all. apply keeps_files. intros [s f]. exists length. apply sender_step; [|done].
  unfold handle_complete_ack. by case_match.
Qed.
Lemma keeps_file_chunk fd : kept (file_chunk fd).
Proof. unfold file_chunk. keeps_all. apply keeps_files. intros st. exists spill_at. apply s_chunk. Qed.
Lemma keeps_file_chunk_json d : kept (file_chunk_json d).
Proof. unfold file_chunk_json. keeps_all. apply keeps_files. intros st. exists spill_at. apply s_chunk_json. Qed.
Lemma keeps_file_done addr d : kept (file_done addr d).
Proof.
  unfold file_done. keeps_all; apply keeps_files; intros st; exists length; [apply s_done|].
  destruct st as [s f]. destruct (handle_done_end _ _ f). apply s_disk.
Qed.
#[local] Hint Resolve keeps_file_accept keeps_file_reject keeps_file_complete_ack keeps_file_chunk keeps_file_chunk_json keeps_file_done : keeps.

(** A validated offer declares a size that is no negative number. *)
Lemma valid_offer_size d n :
  admissible (NJson d) -> dict_get (py "type") d = Some (JStr (py "file_offer")) -> int_item "size" d = Ok n -> 0 <= n.
Proof.
  cbn [admissible]. intros Hv%validate_message_schema_ok Ht Hn. unfold schema_ok in Hv. rewrite Ht in Hv. rename Hv into Hok.
  apply andb_true_iff in Hok as [_ Hv]. change (Messages.assoc (py "file_offer") schema)
    with (Some [(py "transfer_id", anything); (py "filename", nonempty_str); (py "size", nonneg_int); (py "checksum", nonempty_str)]) in Hv.
  cbn [forallb] in Hv. rewrite !andb_true_iff in Hv. destruct Hv as (_ & _ & Hv & _). unfold field_ok in Hv. cbn [fst snd] in Hv.
  unfold int_item, dict_item in Hn. destruct (dict_get (py "size") d) as [v|]; [|done]. cbn [rbind] in Hn. unfold nonneg_int in Hv.
  destruct (as_int v) as [m|]; [|done]. apply Ok_inj in Hn as <-. by zbool.
Qed.
Lemma route_offer t : route t = Some HOffer -> t = py "file_offer".
Proof.
  unfold route, handlers. cbn [Messages.assoc]. destruct (streq t (py "file_offer")) eqn:E; [by apply streq_spec in E|].
  repeat (destruct (streq t _); [discriminate|]). discriminate.
Qed.


Lemma keeps_file_message addr m : admissible m -> kept (file_network_message app_offer addr m).
Proof.
  intros Hm. unfold file_network_message. destruct m as [d|fd]; cbn [message_dict].
  - destruct (dict_get (py "type") d) as [[| | | |t| |]|] eqn:Et; try apply keeps_ret.
    destruct (route t) as [[]|] eqn:Er; auto with keeps.
    apply keeps_file_offer. intros n Hn. apply (valid_offer_size d n Hm); [|done]. by rewrite Et, (route_offer t Er).
  - change (route (py "file_data")) with (Some HChunk). apply keeps_file_chunk.
Qed.
#[local] Hint Resolve keeps_file_message : keeps.

Lemma keeps_send_each t cs sent : kept (send_each t cs sent).
Proof. revert sent. induction cs as [|[[i o] d] cs IH]; intros sent; cbn [send_each]; keeps_all. Qed.
#[local] Hint Resolve keeps_send_each : keeps.
Lemma keeps_upload : kept begin_upload.
Proof.
  unfold begin_upload. keeps_step; [keeps_all|]. destruct (up_tasks _) as [|t ts]; [keeps_all|]. keeps_step; [keeps_all|].
  assert (kept (on_files (fun '(s, f) => (Ok tt, (send_chunks_end t s, f))))) as Hend
    by (apply keeps_files; intros [s f]; exists length; by apply sender_step).
  assert (kept (on_files (fun '(s, f) => (Ok tt, (mark_outgoing (ot_transfer_id t) OAwaitingAck s, f))))) as Hmark
    by (apply keeps_files; intros [s f]; exists length; apply sender_step; [|done]; unfold mark_outgoing; by case_match).
  unfold send_chunks_task. keeps_all.
Qed.
#[local] Hint Resolve keeps_upload : keeps.

Lemma keeps_publish call ev : (forall h, kept (call h)) -> kept (publish_to call ev).
Proof. intros Hc. unfold publish_to. keeps_all. Qed.
Lemma keeps_message addr m : admissible m -> kept (on_network_message addr m).
Proof.
  intros Hm. unfold on_network_message, deliver_message. keeps_step; [keeps_all|]. apply keeps_publish. intros h. unfold network_handler. keeps_all.
Qed.
Lemma keeps_posted : kept run_posted.
Proof.
  unfold run_posted. keeps_step; [keeps_all|]. case_match; [keeps_all|]. keeps_step; [keeps_all|]. apply keeps_publish.
  intros h. unfold warning_handler. keeps_all.
Qed.
#[local] Hint Resolve keeps_message keeps_posted : keeps.


(** What peers and the clock start. *)
Inductive from_outside : act ChatApp answer unit -> Prop :=
  | outside_packet data ip : from_outside (on_packet data ip)
  | outside_prune : from_outside on_prune
  | outside_refresh : from_outside refresh_peer_list
  | outside_message addr_key m : admissible m -> from_outside (on_network_message addr_key m)
  | outside_posted : from_outside run_posted
  | outside_upload : from_outside begin_upload
  | outside_timeout mid : from_outside (ack_timeout mid)
  | outside_accept addr_key : from_outside (accept_connection addr_key)
  | outside_close cid : from_outside (end_read_loop cid).
Lemma keeps_outside m : from_outside m -> kept m.
Proof.
  destruct 1; unfold ack_timeout; keeps_all.
Qed.

Hypothesis Hself : prefixb (py "peer-") self = false.
Hypothesis Hswitch : forall v, kept (activate v).
#[local] Hint Resolve Hswitch : keeps.
Hypothesis Hbegin : forall a a', begins a a' -> I a -> I a'.

(** [send_chat] holds the message's token from its registration to the end of
    the send, which gives it back whether it returns or raises. *)
Lemma returns_end_send mid addr message :
  returns (answer := answer) I sending {[mid]} (acase (manager_send addr message) (fun ok =>
    abind (on_chat (end_send mid addr ok)) (fun outcome => abind (alift outcome) (fun _ => aret mid)))).
Proof.
  apply returns_case; [apply keeps_send|]. intros ok. unfold on_chat. apply (keeps_ext _ _ _ _ _ (bind_atomic _ _ _)).
  apply returns_give.
  - intros s Hs. destruct (end_send_ok mid addr ok (app_chat s)) as (x & c & E & Ht). rewrite E. cbn [rbind].
    do 2 eexists. split; [reflexivity|]. split; [eapply Hchange; [|exact Hs]; by eapply change_end_send|].
    unfold sending. cbn. by rewrite Ht.
  - intros [outcome ns]. unfold on_status_change. keeps_all.
Qed.
Lemma keeps_send_chat addr sid name msg : kept (send_chat addr sid name msg).
Proof.
  unfold send_chat. do 2 (keeps_step; [keeps_all|]). rename a into mid, a0 into t. unfold on_chat at 1.
  apply (keeps_ext _ _ _ _ _ (bind_atomic _ _ _)). apply (keeps_take _ _ _ {[mid]}). intros s [[message sends] ns] s' Hs E.
  apply rbind_ok in E as ([[m b] c] & E & [= <- <- <- <-]). split; [apply (Hbegin s); [|exact Hs]; by do 9 eexists|].
  unfold begin_send, send_chat_begin in E. destruct (_ <? _) in E; injection E as <- <- <-.
  - right. split; [done|]. cbn [ch_session notices notify_status]. rewrite drop_app_length.
    apply (keeps_ext _ _ _ _ (abind (on_status_change Failed) (fun _ => aret mid))); [done|].
    change (kept (abind (on_status_change Failed) (fun _ => aret mid))). unfold on_status_change. keeps_all.
  - left. split; [unfold sending; cbn; set_solver|]. cbn [ch_session notices negb]. rewrite drop_ge by lia. apply returns_end_send.
Qed.
#[local] Hint Resolve keeps_send_chat : keeps.

Lemma keeps_save_name id name : kept (save_display_name id name).
Proof. apply keeps_files. intros [s f]. exists length. destruct (save_identity _ _ _ _ _). apply s_disk. Qed.
Lemma keeps_offer_file addr p : kept (offer_file addr p).
Proof.
  unfold offer_file. keeps_all. apply keeps_files. intros st. exists length. destruct st as [s fd]. unfold offer_file_end.
  match goal with |- context [if ?ok then _ else _] => destruct ok end; by apply sender_step.
Qed.
#[local] Hint Resolve keeps_save_name keeps_offer_file : keeps.
Lemma keeps_cmd_connect arg : kept (cmd_connect arg).
Proof.
  assert (forall ip port, kept (connected ip port)) as Hc.
  { intros ip port. unfold connected. apply keeps_bind; [keeps_all|]. intros r. destruct (List.find _ _); [keeps_all|].
    keeps_step; [|keeps_all]. apply keeps_upsert. apply andb_true_iff. split; [reflexivity|].
    apply negb_true_iff, bool_decide_eq_false_2. intros E.
    apply (f_equal (fun v => match v with JStr s => s | _ => [] end)) in E. rewrite <- E in Hself. discriminate Hself. }
  unfold cmd_connect. keeps_all.
Qed.
Lemma keeps_cmd_nick arg : kept (cmd_nick arg).
Proof.
  unfold cmd_nick. apply (keeps_get_then _ _ _ (fun me => my_peer_id me = self)); [exact Hme|]. intros me ->.
  do 3 (keeps_step; [keeps_all|]). keeps_step; [|keeps_all].
  apply keeps_change. intros a Ha. rewrite <- (Hme _ Ha). apply change_name.
Qed.
Lemma keeps_copy_selected selected : kept (copy_selected selected).
Proof. unfold copy_selected, notify. keeps_all. Qed.
#[local] Hint Resolve keeps_cmd_connect keeps_cmd_nick keeps_copy_selected : keeps.

Lemma keeps_command line : kept (handle_command line).
Proof.
  unfold handle_command. destruct (parse_command line); auto with keeps.
  all: unfold cmd_peers, cmd_msg, cmd_send, cmd_copy, cmd_info, notify; keeps_all.
Qed.
#[local] Hint Resolve keeps_command : keeps.

Lemma keeps_input value : kept (on_input_submitted value).
Proof. unfold on_input_submitted. keeps_all. Qed.
Lemma keeps_click item : kept (on_list_view_selected item).
Proof. unfold on_list_view_selected. keeps_all. Qed.
Lemma keeps_copy selected : kept (action_copy_selection selected).
Proof. unfold action_copy_selection, notify. keeps_all. Qed.
Lemma keeps_copy_or_quit selected : kept (action_copy_or_quit selected).
Proof. unfold action_copy_or_quit. keeps_all. Qed.
#[local] Hint Resolve keeps_input keeps_click keeps_copy keeps_copy_or_quit : keeps.

Lemma keeps_started m : started m -> kept m.
Proof.
  destruct 1; unfold ack_timeout; keeps_all.
Qed.
End Changes.

(** ** The invariant *)

(** Each peer is filed once, under its own id, and this device is not filed. *)
Definition registry_ok (self : pystr) (r : registry) : Prop :=
  NoDup (map fst r) /\ Forall (fun kp => key_of (p_peer_id kp.2) = Some kp.1 /\ kp.1 <> KStr self) r.

(** A tracked message is being sent, is guarded by a running timeout, or its send
    raised. *)
Definition timers_ok (c : Chatting) : Prop :=
  forall mid st, pending (ch_session c) !! mid = Some st -> mid ∈ ch_sending c \/ mid ∈ ch_timers c \/ mid ∈ ch_raised c.

Record app_ok (self : pystr) (key : bytes) (a : ChatApp) : Prop := {
  ok_me : my_peer_id (app_me a) = self;
  ok_title : sc_title (app_screen a) = title_of (my_display_name (app_me a)) self;
  ok_discovery : app_discovery a = MkDiscovery self (my_display_name (app_me a)) UI_TCP_PORT key;
  ok_registry : registry_ok self (app_registry a);
  ok_network : Peer.table_ok (PState (net_manager (app_network a)) [] (net_loops (app_network a)) (net_next (app_network a)));
  ok_timers : timers_ok (app_chat a);
  ok_files : session_ok (fst (app_files a))
}.

Lemma upsert_at_registry self now key id name ip port pk r :
  registry_ok self r -> key_of id = Some key -> key <> KStr self ->
  registry_ok self (fst (upsert_at now key id name ip port pk r)).
Proof.
  intros [Hnd Hall] Hid Hne. split; [by apply upsert_at_keys|]. unfold upsert_at.
  destruct (peer_get key r) eqn:E; cbn [fst].
  - unfold peer_update. apply Forall_map. revert Hall. apply List.Forall_impl. intros [k q] Hq. by case_bool_decide.
  - apply Forall_app. split; [done|by repeat constructor].
Qed.

Lemma prune_registry self now r : registry_ok self r -> registry_ok self (fst (prune_stale now r)).
Proof.
  intros [Hnd Hall]. unfold prune_stale. rewrite (pop_all_partition (stale now)) by done. cbn [fst]. split.
  - eapply sublist_NoDup; [exact Hnd|]. clear. induction r as [|[k q] r IH]; [done|]. cbn.
    destruct (stale now q); cbn; by constructor.
  - rewrite List.Forall_forall in *. intros x [Hx _]%filter_In. auto.
Qed.

Lemma packet_registry self now d data ip r r' out :
  self_id d = self -> registry_ok self r -> handle_packet now d data ip r = Ok (r', out) -> registry_ok self r'.
Proof.
  intros <- Hr E. unfold handle_packet in E. repeat (case_match; try done); simplify_eq; try done.
  match goal with H : handle_message _ _ _ ?m _ = (r', _) |- _ =>
    destruct (handle_message_cases now d ip m r) as [Hm|(id & name & tp & port & pk & Hm & _ & _ & Hid & _)]; rewrite H in Hm; cbn in Hm end.
  - by rewrite Hm.
  - rewrite Hm. apply upsert_at_registry; [done|done|]. by intros [= ->].
Qed.


(** Only the message [mid] stops being accounted for as it was. *)
Lemma timers_ok_but mid s s' ts ts' sn sn' ra ra' :
  timers_ok (MkChatting s ts sn ra) -> (forall m, m <> mid -> pending s' !! m = pending s !! m) ->
  ts ∖ {[mid]} ⊆ ts' -> sn ∖ {[mid]} ⊆ sn' -> ra ⊆ ra' ->
  (is_Some (pending s' !! mid) -> mid ∈ sn' \/ mid ∈ ts' \/ mid ∈ ra') ->
  timers_ok (MkChatting s' ts' sn' ra').
Proof.
  intros H Hp Ht Hs Hr Hm m st Hst. cbn in *. destruct (decide (m = mid)) as [->|Hne]; [eauto|].
  rewrite Hp in Hst by done. specialize (H m st Hst). cbn in H. set_solver.
Qed.

Lemma begin_send_timers mid t addr sid name msg c x c' :
  timers_ok c -> begin_send mid t addr sid name msg c = Ok (x, c') -> timers_ok c'.
Proof.
  destruct c as [s ts sn ra]. unfold begin_send, send_chat_begin. intros H E. cbn in E.
  destruct (_ <? _); injection E as _ <-; [done|]. eapply (timers_ok_but mid); [exact H| |set_solver..].
  intros m Hm. cbn. by rewrite lookup_insert_ne.
Qed.
Lemma end_send_timers mid addr ok c x c' : timers_ok c -> end_send mid addr ok c = Ok (x, c') -> timers_ok c'.
Proof.
  destruct c as [s ts sn ra]. unfold end_send, send_chat_end. intros H E. cbn in E.
  destruct ok as [[]|e]; [destruct (pending s !! mid) eqn:Ep| |]; injection E as _ <-.
  - eapply (timers_ok_but mid); [exact H| |set_solver..]. intros m Hm. cbn. by rewrite lookup_insert_ne.
  - eapply (timers_ok_but mid); [exact H|done|set_solver..|]. rewrite Ep. by intros [? ?].
  - eapply (timers_ok_but mid); [exact H| |set_solver..|]; cbn; [intros m Hm; by rewrite lookup_delete_ne|].
    rewrite lookup_delete_eq. by intros [? ?].
  - eapply (timers_ok_but mid); [exact H|done|set_solver..].
Qed.
Lemma acknowledge_timers message c x c' : timers_ok c -> acknowledge message c = Ok (x, c') -> timers_ok c'.
Proof.
  destruct c as [s ts sn ra]. intros H E. apply rbind_ok in E as ([c s'] & E & [= _ <-]). cbn in *.
  unfold handle_ack in E. destruct (hashable _); [|done]. destruct (default JNull _) as [| | | |m| |]; try (injection E as <- <-; by destruct s).
  destruct (pending s !! m) as [st|] eqn:Ep; [|injection E as <- <-; by destruct s].
  injection E as <- <-. eapply (timers_ok_but m); [exact H| |by destruct (sm_timer st); set_solver|set_solver..|]; cbn.
  - intros m' Hm. by rewrite lookup_delete_ne.
  - rewrite lookup_delete_eq. by intros [? ?].
Qed.
Lemma expire_timers mid c x c' : timers_ok c -> expire mid c = Ok (x, c') -> timers_ok c'.
Proof.
  destruct c as [s ts sn ra]. intros H E. unfold expire in E. cbn in E. case_bool_decide; [|by simplify_eq].
  injection E as _ <-. unfold timeout_expired. destruct (pending s !! mid) as [st|] eqn:Ep.
  - eapply (timers_ok_but mid); [exact H| |set_solver..|]; cbn; [intros m' Hm; by rewrite lookup_delete_ne|].
    rewrite lookup_delete_eq. by intros [? ?].
  - eapply (timers_ok_but mid); [exact H|done|set_solver..|]. rewrite Ep. by intros [? ?].
Qed.

(** Each network change is a step of the connection manager's own model. *)
Definition pstate_of (n : Network) : pstate := PState (net_manager n) [] (net_loops n) (net_next n).
Lemma accepted_table addr n : Peer.table_ok (pstate_of n) -> Peer.table_ok (pstate_of (accepted addr n)).
Proof.
  destruct n as [m lp n]. unfold accepted, handle_incoming, pstate_of. cbn. intros Ht.
  destruct (max_connections m <=? count m) eqn:El; cbn.
  - eapply table_ok_step; [exact Ht|]. apply (p_refused addr). unfold handle_incoming. by rewrite El.
  - by eapply table_ok_add.
Qed.
Lemma loop_ended_table cid n : Peer.table_ok (pstate_of n) -> Peer.table_ok (pstate_of (loop_ended cid n)).
Proof.
  destruct n as [m lp n]. unfold loop_ended, pstate_of. cbn. intros Ht. destruct (lp !! cid) as [addr|] eqn:El; [|done].
  eapply table_ok_step; [exact Ht|]. by apply p_loop_end.
Qed.

Lemma change_ok self key a a' : change a a' -> app_ok self key a -> app_ok self key a'.
Proof.
  intros Hc Ha. pose proof Ha as [Hme Htitle Hdisc Hreg Hnet Htim Hfiles].
  destruct Hc as [f a Hf|v a|a|spill st a E|u a|es a|t id name ip port r outs a H1 H2 E|t data ip r outs a E|t a|cid bs a|addr a|addr inc a|addr a|cid a
    |mid addr ok x c a E|message x c a E|mid x c a E|name a]; constructor; cbn; try assumption.
  - by rewrite Hf.
  - by eapply session_ok_step.
  - unfold Discovery.upsert in E. destruct (key_of id) as [k|] eqn:Ek; [|done]. apply Ok_inj in E.
    replace r with (fst (upsert_at t k id name ip port [] (app_registry a))) by by rewrite E.
    apply upsert_at_registry; [done|done|]. intros ->. apply H2. rewrite Hme.
    destruct id as [| | |x|i| |]; cbn in Ek; try discriminate Ek; [by destruct (float_integer x)|congruence].
  - eapply packet_registry; [|exact Hreg|exact E]. by rewrite Hdisc.
  - by apply prune_registry.
  - eapply table_ok_fewer; [exact Hnet|reflexivity|]. cbn. by intros k c [_ H]%lookup_delete_Some.
  - eapply table_ok_add; exact Hnet.
  - by apply accepted_table.
  - by apply loop_ended_table.
  - by eapply end_send_timers.
  - by eapply acknowledge_timers.
  - by eapply expire_timers.
  - by rewrite Hme.
  - rewrite Hdisc. done.
Qed.

Lemma step_ok self key a a' : step a a' -> app_ok self key a -> app_ok self key a'.
Proof.
  intros [Hc|[[v ->]|(mid & t & addr & sid & name & msg & x & c & E & ->)]]; [by apply change_ok|..]; intros []; constructor; try done.
  by eapply begin_send_timers.
Qed.

Lemma mount_ok peer_id name key server disk a : on_mount peer_id name key server disk = Ok a -> app_ok peer_id key a.
Proof.
  unfold on_mount. destruct (makedirs _ _) as [made disk']. intros E. inv_ok. constructor; cbn; try done.
  - split; constructor.
  - split; cbn; [done|]. intros c [[? ?]|?]; done.
Qed.

(** ** Over all interleavings *)

Section Reachable.
Context `{PF : Platform}.

(** The application some time after it started. *)
Definition reachable (a0 a : ChatApp) : Prop := exists pool, rtc (loop_step started) (a0, []) (a, pool).

Lemma keeps_any I a0 : (forall a a', step a a' -> I a -> I a') -> (forall a, I a -> my_peer_id (app_me a) = my_peer_id (app_me a0)) ->
  prefixb (py "peer-") (my_peer_id (app_me a0)) = false -> forall m, started m -> keeps (answer := answer) I sending m.
Proof.
  intros Hs Hme Hp. assert (forall v, keeps (answer := answer) I sending (activate v)) as Hact.
  { intros v. apply keeps_set. intros a Ha. split; [|done]. eapply Hs; [|exact Ha]. right. left. by exists v. }
  apply (keeps_started (my_peer_id (app_me a0))); try done; [by intros a a' Hc; apply Hs; left| |by intros a a' Hc; apply Hs; right; right].
  intros v. unfold activate_if_none. repeat keeps_step.
Qed.
Lemma reachable_steps a0 a pool :
  prefixb (py "peer-") (my_peer_id (app_me a0)) = false -> rtc (loop_step started) (a0, []) (a, pool) ->
  rtc step a0 a /\ (sending a0 = ∅ -> Forall finished pool -> sending a = ∅).
Proof.
  intros Hp Hr. refine (pool_keeps (rtc step a0) sending _ _ _ _ Hr _ (rtc_refl _ _)).
  apply (keeps_any _ a0); [|apply step_me|done]. intros x y Hs Hx. by eapply rtc_r.
Qed.

Lemma reachable_ok peer_id name key server disk a0 a :
  on_mount peer_id name key server disk = Ok a0 -> prefixb (py "peer-") peer_id = false -> reachable a0 a -> app_ok peer_id key a.
Proof.
  intros Hm Hp [pool Hr]. pose proof (mount_ok _ _ _ _ _ _ Hm) as H0.
  apply reachable_steps in Hr as [Hr _]; [|by rewrite (ok_me _ _ _ H0)]. clear Hm.
  induction Hr as [|x y z Hs _ IH]; [done|]. by eapply IH, step_ok.
Qed.
End Reachable.
