(* ===== verification/ChatAppRuns.v ===== *)
(** * ui.py: straight runs of the application's handlers

    What a handler leaves when every wait is answered at once: sending on a
    connection, a typed line, received chat, hello and acknowledgement messages;
    and what is written being read back at the other end. *)

From S2P Require Import Prelude PyStr PyFloat PyText Json JsonFacts PyValue Sha256 SecurityEvents EventBus Frame FileData Messages FileSys TextFile CryptoIface ToyCrypto Identity Transfer Peer Chat FileSession FileSessionFacts IdentityStore Discovery App Tasks ChatApp ChatLoop ChatAppFacts.
From stdpp Require Import base gmap sets strings list option list_numbers relations.
From Stdlib Require Import ZArith Lia Strings.Byte.
Open Scope Z_scope.
Open Scope peerc_scope.

(** ** Straight runs

    A handler run to its end with every wait answered at once. *)

Definition responsive (env : forall w, answer w) : Prop := forall addr, env (Draining addr) = None.

Section Runs.
Context `{PF : Platform} (env : forall w, answer w).
#[local] Abbreviation run m a := (perform (answer := answer) env m a).

Definition logged (t : pystr) (a : ChatApp) : ChatApp :=
  with_screen (fun s => if markup_ok t then set_log (sc_log s ++ [t]) s else s) a.

Lemma run_get_then {A B} (f : ChatApp -> A) (k : A -> act ChatApp answer B) a : run (abind (aget f) k) a = run (k (f a)) a.
Proof. by rewrite perform_bind. Qed.
Lemma run_set_then {B} f (k : unit -> act ChatApp answer B) a : run (abind (aset f) k) a = run (k tt) (f a).
Proof. by rewrite perform_bind. Qed.
Lemma run_ask_then {A B} (f : nat -> A) (k : A -> act ChatApp answer B) a :
  run (abind (ask f) k) a = run (k (f (app_asked a))) (ask_next a).
Proof. by rewrite perform_bind. Qed.
Lemma run_lift_then {A B} r x (k : A -> act ChatApp answer B) a : r = Ok x -> run (abind (alift r) k) a = run (k x) a.
Proof. intros ->. by rewrite perform_bind. Qed.
Lemma run_atomic_then {A B} f x a' (k : A -> act ChatApp answer B) a :
  f a = Ok (x, a') -> run (abind (atomic f) k) a = run (k x) a'.
Proof. intros E. rewrite perform_bind. unfold perform at 1, atomic. by rewrite E. Qed.
Lemma run_then {A B} (m : act ChatApp answer A) x a' (k : A -> act ChatApp answer B) a :
  run m a = (a', Ok x) -> run (abind m k) a = run (k x) a'.
Proof. intros E. by rewrite perform_bind, E. Qed.
Lemma run_catch_ok {A} (m : act ChatApp answer A) h x a' a : run m a = (a', Ok x) -> run (acatch m h) a = (a', Ok x).
Proof. intros E. by rewrite perform_catch, E. Qed.
Lemma run_log t a : run (log t) a = (logged t a, Ok tt).
Proof. done. Qed.

(** The state a write leaves. *)
Definition sent_to (cid : nat) (bs : bytes) (a : ChatApp) : ChatApp :=
  with_network (set_manager (write_to cid bs (net_manager (app_network a))) (app_network a)) a.
Lemma run_write addr encoded cid bs a :
  responsive env -> connections (net_manager (app_network a)) !! addr = Some cid -> encoded = Ok bs ->
  run (manager_write addr encoded) a = (sent_to cid bs a, Ok true).
Proof.
  intros Henv Hc ->. unfold manager_write. rewrite run_get_then, Hc. rewrite (run_lift_then _ bs) by done. unfold on_manager.
  rewrite run_set_then. rewrite perform_bind. unfold perform at 1, wait_for, await. cbn [finish]. rewrite Henv. done.
Qed.
Lemma run_write_closed addr encoded a :
  connections (net_manager (app_network a)) !! addr = None -> run (manager_write addr encoded) a = (a, Ok false).
Proof. intros Hc. unfold manager_write. by rewrite run_get_then, Hc. Qed.

(** A chat operation that announces [ns]. *)
Lemma run_on_chat {A} (f : Chatting -> result (A * Chatting)) x c ns a :
  f (app_chat a) = Ok (x, c) -> notices (ch_session c) = notices (ch_session (app_chat a)) ++ ns ->
  run (on_chat f) a = run (abind (aeach (fun n => on_status_change (snd (fst n))) ns) (fun _ => aret x)) (with_chat c a).
Proof.
  intros E Hn. unfold on_chat. rewrite (run_atomic_then _ (x, ns) (with_chat c a)); [done|].
  cbv zeta. rewrite E. cbn [rbind]. by rewrite Hn, drop_app_length.
Qed.
End Runs.

(** ** From the keyboard to the wire *)

Section Typed.
Context `{PF : Platform} (env : forall w, answer w).
Hypothesis Henv : responsive env.
#[local] Abbreviation run m a := (perform (answer := answer) env m a).

(** The message a line becomes. *)
Definition line_id (a : ChatApp) : pystr := uuid_at (app_asked a).
Definition line_message (line : pystr) (a : ChatApp) : dict :=
  make_chat_message (line_id a) (time_at (S (app_asked a))) (my_peer_id (app_me a)) (my_display_name (app_me a)) line.

(** A message tracked under [mid] and guarded by its timeout. *)
Definition tracked (mid addr : pystr) (c : Chatting) : Chatting :=
  MkChatting (Chat (<[mid := SentMessage addr Sent true]> (pending (ch_session c))) (notices (ch_session c))) ({[mid]} ∪ ch_timers c)
    (({[mid]} ∪ ch_sending c) ∖ {[mid]}) (ch_raised c).

Lemma run_send_chat addr cid line bs a :
  chat_text_fits (JStr line) = true -> connections (net_manager (app_network a)) !! addr = Some cid ->
  encode_frame (JObj (line_message line a)) = Ok bs ->
  run (send_chat addr (my_peer_id (app_me a)) (my_display_name (app_me a)) line) a
  = (with_chat (tracked (line_id a) addr (app_chat a)) (sent_to cid bs (ask_next (ask_next a))), Ok (line_id a)).
Proof.
  intros Hfit Hconn Henc. unfold send_chat, new_uuid, now. rewrite !run_ask_then. fold (line_id a).
  set (a2 := ask_next (ask_next a)). change (app_asked (ask_next a)) with (S (app_asked a)). fold (line_message line a).
  set (c1 := MkChatting (Chat (<[line_id a := SentMessage addr Sent false]> (pending (ch_session (app_chat a)))) (notices (ch_session (app_chat a))))
               (ch_timers (app_chat a)) ({[line_id a]} ∪ ch_sending (app_chat a)) (ch_raised (app_chat a))).
  rewrite (run_then _ _ (line_message line a, true) (with_chat c1 a2)).
  2:{ rewrite (run_on_chat _ _ (line_message line a, true) c1 []); [done| |by rewrite app_nil_r].
      unfold begin_send, send_chat_begin. cbn in Hfit. apply negb_true_iff in Hfit. rewrite Hfit. done. }
  cbn [negb]. unfold manager_send. rewrite perform_case. erewrite run_write by done.
  rewrite (run_then _ _ (Ok true) (with_chat (tracked (line_id a) addr (app_chat a)) (sent_to cid bs a2))); [done|].
  rewrite (run_on_chat _ _ (Ok true) (tracked (line_id a) addr (app_chat a)) []); [done| |by rewrite app_nil_r].
  unfold end_send, send_chat_end. cbn. rewrite lookup_insert_eq. unfold tracked. by rewrite insert_insert_eq.
Qed.

(** The address the active peer is reached at. *)
Definition reached_at (a : ChatApp) (addr : pystr) : Prop :=
  exists v p, my_active_peer_id (app_me a) = Some v /\ registry_get v (app_registry a) = Ok (Some p) /\
    addr = p_ip p ++ py ":" ++ text (p_tcp_port p).

Lemma run_reached addr a : reached_at a addr -> run active_addr_key a = (a, Ok (Some addr)).
Proof.
  intros (v & p & Hact & Hreg & ->). unfold active_addr_key. rewrite run_get_then. unfold id. rewrite Hact.
  by rewrite (run_lift_then _ _ (Some p)).
Qed.
Lemma run_connected addr cid a :
  connections (net_manager (app_network a)) !! addr = Some cid -> run (ensure_connected addr) a = (a, Ok true).
Proof.
  intros Hc. unfold ensure_connected. rewrite run_get_then. unfold is_connected.
  by rewrite bool_decide_eq_true_2 by (rewrite Hc; eauto).
Qed.

Lemma run_line value addr cid bs a :
  strip value <> [] -> prefixb (py "/") (strip value) = false -> reached_at a addr ->
  connections (net_manager (app_network a)) !! addr = Some cid -> chat_text_fits (JStr (strip value)) = true ->
  encode_frame (JObj (line_message (strip value) a)) = Ok bs ->
  run (on_input_submitted value) a
  = (logged (py "[bold cyan]<you>[/bold cyan] " ++ strip value)
       (with_chat (tracked (line_id a) addr (app_chat a)) (sent_to cid bs (ask_next (ask_next a)))), Ok tt).
Proof.
  intros Hne Hcmd Hreach Hconn Hfit Henc. unfold on_input_submitted. cbv zeta.
  replace (streq (strip value) []) with false by (symmetry; apply not_true_is_false; by intros E%streq_spec). rewrite Hcmd.
  rewrite (run_then _ _ _ _ _ _ (run_reached _ _ Hreach)), (run_then _ _ _ _ _ _ (run_connected _ _ _ Hconn)).
  cbn [negb]. rewrite run_get_then, (run_then _ _ _ _ _ _ (run_send_chat _ _ _ _ _ Hfit Hconn Henc)). done.
Qed.
End Typed.

(** ** From the wire to the other screen *)

Section Received.
Context `{PF : Platform} (env : forall w, answer w).
Hypothesis Henv : responsive env.
#[local] Abbreviation run m a := (perform (answer := answer) env m a).

(** The registration of a sender changes the registry, the active peer where
    there was none, and the screen; the rest stays. *)
Record learned (sid : pystr) (name : json) (ip : pystr) (port : json) (b b' : ChatApp) : Prop := {
  learned_registry : app_registry b' = fst (upsert_at (time_at (app_asked b)) (KStr sid) (JStr sid) name ip port [] (app_registry b));
  learned_active : my_active_peer_id (app_me b') = Some (default (JStr sid) (my_active_peer_id (app_me b)));
  learned_me : my_peer_id (app_me b') = my_peer_id (app_me b) /\ my_display_name (app_me b') = my_display_name (app_me b) /\
    my_last_received (app_me b') = my_last_received (app_me b);
  learned_rest : app_network b' = app_network b /\ app_chat b' = app_chat b /\ app_files b' = app_files b /\
    app_discovery b' = app_discovery b /\ app_posted b' = app_posted b
}.

Definition refreshed (a : ChatApp) : ChatApp :=
  with_screen (set_sidebar (map (fun p => (peer_label p (same_id (p_peer_id p) (my_active_peer_id (app_me a))), p_peer_id p))
                              (list_peers (app_registry a)))) a.
Definition activated (v : json) (a : ChatApp) : ChatApp :=
  match my_active_peer_id (app_me a) with
  | None => with_me (set_active v) a
  | Some _ => a
  end.
Lemma run_refresh a : run refresh_peer_list a = (refreshed a, Ok tt).
Proof. done. Qed.
Lemma run_activate_if_none v a : run (activate_if_none v) a = (activated v a, Ok tt).
Proof. unfold activate_if_none, activated. rewrite run_get_then. by destruct (my_active_peer_id (app_me a)). Qed.

Lemma run_learn_peer sid name ip port b :
  sid <> [] -> sid <> my_peer_id (app_me b) ->
  exists b', run (learn_peer (JStr sid) name ip port) b = (b', Ok true) /\ learned sid name ip port b b'.
Proof.
  intros Hne Hown. unfold learn_peer. rewrite run_get_then.
  replace (truthy (JStr sid) && negb (bool_decide (JStr sid = JStr (my_peer_id (app_me b))))) with true.
  2:{ symmetry. apply andb_true_iff. split; apply negb_true_iff, bool_decide_eq_false_2; congruence. }
  set (t := time_at (app_asked b)).
  set (u := upsert_at t (KStr sid) (JStr sid) name ip port [] (app_registry b)).
  set (b1 := with_registry (fst u) (ask_next b)).
  assert (exists b2, run (upsert (JStr sid) name ip port) b = (b2, Ok tt) /\
    (b2 = b1 \/ exists t, b2 = activated (JStr sid) (refreshed (logged t b1)))) as (b2 & E2 & Hb2).
  { unfold upsert, now. rewrite run_ask_then. fold t.
    rewrite (run_atomic_then _ _ (snd u) b1) 
      by (change ((let* (r, outs) := Ok u in Ok (outs, with_registry r (ask_next b))) = Ok (snd u, with_registry (fst u) (ask_next b)));
          generalize u; by intros []).
    unfold u, upsert_at. destruct (peer_get (KStr sid) (app_registry b)) eqn:Eg; cbn [snd aeach]; [by exists b1; split; [|left]|].
    eexists. split; [|right; eexists; reflexivity]. cbn [on_output]. unfold on_peer_new.
    rewrite (run_then _ _ tt (activated (JStr sid) (refreshed (logged (py "[green]+ " ++ text name ++ py " came online (" ++ ip ++ py ")[/green]") b1))));
      [reflexivity|].
    rewrite (run_then _ _ tt _ _ _ (run_log env _ b1)), (run_then _ _ tt _ _ _ (run_refresh _)). cbn [p_peer_id]. apply run_activate_if_none. }
  rewrite (run_then _ _ _ _ _ _ E2), (run_then _ _ _ _ _ _ (run_refresh b2)), (run_then _ _ _ _ _ _ (run_activate_if_none _ _)).
  eexists. split; [reflexivity|]. unfold activated.
  destruct Hb2 as [->|[t' ->]]; unfold activated; cbn; destruct (my_active_peer_id (app_me b)) eqn:Ea; cbn; rewrite ?Ea; constructor; cbn; rewrite ?Ea; done.
Qed.

(** The entry of a registered sender. *)
Lemma upsert_at_entry self t sid name ip port r :
  registry_ok self r ->
  peer_get (KStr sid) (fst (upsert_at t (KStr sid) (JStr sid) name ip port [] r))
  = Some (MkPeer (JStr sid) name ip port (match peer_get (KStr sid) r with Some p => p_public_key p | None => [] end) t).
Proof.
  intros [_ Hall]. unfold upsert_at. destruct (peer_get (KStr sid) r) as [p|] eqn:Eg; cbn [fst]; [|by rewrite peer_get_snoc].
  rewrite peer_get_update, Eg. cbn. assert (p_peer_id p = JStr sid) as ->; [|done].
  apply peer_get_Some in Eg. rewrite Forall_forall in Hall. destruct (Hall _ Eg) as [Hk _]. cbn in Hk.
  destruct (p_peer_id p) as [| | |x|i| |]; cbn in Hk; try discriminate Hk; [by destruct (float_integer x)|congruence].
Qed.

(** A message's type decides which handler acts. *)
Lemma run_no_file_message addr d b :
  match dict_get (py "type") d with Some (JStr t) => route t = None | _ => True end ->
  run (file_network_message app_offer addr (NJson d)) b = (b, Ok tt).
Proof. intros H. unfold file_network_message. cbn [message_dict]. destruct (dict_get _ d) as [[]|]; try done. by rewrite H. Qed.
Lemma run_publish addr d b :
  has_type "hello" d = false -> has_type "hello_ack" d = false ->
  match dict_get (py "type") d with Some (JStr t) => route t = None | _ => True end ->
  run (on_network_message addr (NJson d)) b
  = run (abind (acatch (chat_network_message addr d) (fun _ => aret tt)) (fun _ => aret tt)) (ask_next b).
Proof.
  intros H1 H2 H3. unfold on_network_message, deliver_message, now. rewrite run_ask_then. unfold publish_to.
  change (collect_handlers app_bus _) with [H_CHAT; H_FILE; H_HANDSHAKE]. cbn [aeach].
  unfold network_handler. cbn [message_dict].
  change (bool_decide (H_CHAT = H_CHAT)) with true. cbn match.
  set (chat := acatch (chat_network_message addr d) _). rewrite !(perform_bind env chat).
  destruct (run chat (ask_next b)) as [b' [[]|e]]; [|done].
  assert (run (acatch (file_network_message app_offer addr (NJson d)) (fun _ => aret tt)) b' = (b', Ok tt)) as Hf.
  { apply run_catch_ok, run_no_file_message. done. }
  rewrite (run_then _ _ _ _ _ _ Hf). unfold on_network_message_handshake. rewrite H1, H2. done.
Qed.
Lemma run_publish_hello addr d b :
  has_type "chat" d = false -> has_type "chat_ack" d = false ->
  match dict_get (py "type") d with Some (JStr t) => route t = None | _ => True end ->
  run (on_network_message addr (NJson d)) b
  = run (abind (acatch (on_network_message_handshake addr d) (fun _ => aret tt)) (fun _ => aret tt)) (ask_next b).
Proof.
  intros H1 H2 H3. unfold on_network_message, deliver_message, now. rewrite run_ask_then. unfold publish_to.
  change (collect_handlers app_bus _) with [H_CHAT; H_FILE; H_HANDSHAKE]. cbn [aeach].
  unfold network_handler. cbn [message_dict].
  assert (run (acatch (chat_network_message addr d) (fun _ => aret tt)) (ask_next b) = (ask_next b, Ok tt)) as Hc
    by (apply run_catch_ok; unfold chat_network_message; by rewrite H1, H2).
  assert (run (acatch (file_network_message app_offer addr (NJson d)) (fun _ => aret tt)) (ask_next b)
    = (ask_next b, Ok tt)) as Hf by (by apply run_catch_ok, run_no_file_message).
  by rewrite (run_then _ _ _ _ _ _ Hc), (run_then _ _ _ _ _ _ Hf).
Qed.

(** Whatever becomes of a message, sending it leaves the registry and the profile alone. *)
Lemma run_send_frame addr d a :
  exists a' r, run (manager_send addr d) a = (a', r) /\ app_registry a' = app_registry a /\ app_me a' = app_me a.
Proof.
  unfold manager_send, manager_write. rewrite run_get_then. destruct (connections _ !! addr) as [cid|]; [|by eexists _, _].
  destruct (encode_frame (JObj d)) as [bs|e]; [|by eexists _, _]. rewrite (run_lift_then _ _ bs) by done.
  unfold on_manager. rewrite run_set_then, perform_bind. unfold perform at 1, wait_for, await. cbn [finish].
  destruct (env (Draining addr)) as [e|]; [|by eexists _, _]. destruct e; rewrite ?run_set_then; by eexists _, _.
Qed.

(** What a received chat message leaves. *)
Record chat_arrived (addr sid name line : pystr) (ack : bytes) (cid : nat) (b b' : ChatApp) : Prop := {
  arrived_peer : exists seen, app_registry b'
    = fst (upsert_at seen (KStr sid) (JStr sid) (JStr name) (host_of addr) (JInt UI_TCP_PORT) [] (app_registry b));
  arrived_active : my_active_peer_id (app_me b') = Some (default (JStr sid) (my_active_peer_id (app_me b)));
  arrived_last : my_last_received (app_me b') = JStr line;
  arrived_shown : markup_ok (py "[bold green]<" ++ rich_escape name ++ py ">[/bold green] " ++ rich_escape line) = true ->
    list.last (sc_log (app_screen b')) = Some (py "[bold green]<" ++ rich_escape name ++ py ">[/bold green] " ++ rich_escape line);
  arrived_ack : net_manager (app_network b') = write_to cid ack (net_manager (app_network b))
}.

Lemma run_chat_received addr cid mid t sid name line ack b :
  sid <> [] -> sid <> my_peer_id (app_me b) ->
  connections (net_manager (app_network b)) !! addr = Some cid ->
  encode_frame (JObj (make_chat_ack (time_at (S (app_asked b))) (JStr mid))) = Ok ack ->
  exists b', run (on_network_message addr (NJson (make_chat_message mid t sid name line))) b = (b', Ok tt) /\
    chat_arrived addr sid name line ack cid b b'.
Proof.
  intros Hne Hown Hconn Hack. set (d := make_chat_message mid t sid name line).
  rewrite run_publish by reflexivity. set (b1 := ask_next b).
  set (b2 := with_me (set_last (JStr line)) (sent_to cid ack (ask_next b1))).
  destruct (run_learn_peer sid (JStr name) (host_of addr) (JInt UI_TCP_PORT) b2 Hne Hown) as (b3 & E3 & [Hr Ha [_ [_ Hl]] [Hn _]]).
  assert (run (chat_network_message addr d) b1
    = (logged (py "[bold green]<" ++ rich_escape name ++ py ">[/bold green] " ++ rich_escape line) b3, Ok tt)) as Hrun.
  { unfold chat_network_message. change (has_type "chat" d) with true. cbn match. unfold now. rewrite run_ask_then.
    rewrite (run_lift_then _ _ (make_chat_ack (time_at (S (app_asked b))) (JStr mid),
      Chat.MkChatReceived addr (JStr sid) (JStr name) (JStr line) (JStr mid) d)) by reflexivity.
    unfold manager_send. rewrite (run_then _ _ true (sent_to cid ack (ask_next b1))) by (apply run_write; [exact Henv|exact Hconn|exact Hack]).
    unfold on_chat_received. rewrite run_set_then. fold b2.
    change (field (py "sender_id") (JStr []) d) with (JStr sid). change (field (py "sender_name") (JStr (py "peer")) d) with (JStr name).
    change (field (py "text") (JStr []) d) with (JStr line). fold b2. rewrite (run_then _ _ _ _ _ _ E3).
    rewrite (run_lift_then _ _ (rich_escape name)), (run_lift_then _ _ (rich_escape line)) by reflexivity. done. }
  rewrite (run_then _ _ tt _ _ _ (run_catch_ok _ _ _ _ _ _ Hrun)).
  eexists. split; [reflexivity|]. constructor; cbn [app_registry app_me app_network logged with_screen].
  - eexists. exact Hr.
  - exact Ha.
  - exact Hl.
  - intros Hm. unfold logged. cbn. rewrite Hm. cbn. apply list.last_snoc.
  - by rewrite Hn.
Qed.
End Received.

(** ** And back *)

Section Acknowledged.
Context `{PF : Platform} (env : forall w, answer w).
#[local] Abbreviation run m a := (perform (answer := answer) env m a).

Definition settled (mid addr : pystr) (c : Chatting) : Chatting :=
  MkChatting (Chat (delete mid (pending (ch_session c))) (notices (ch_session c) ++ [(mid, Delivered, addr)])) (ch_timers c ∖ {[mid]})
    (ch_sending c) (ch_raised c).

Lemma run_ack t mid addr addr0 a :
  pending (ch_session (app_chat a)) !! mid = Some (SentMessage addr0 Sent true) ->
  run (on_network_message addr (NJson (make_chat_ack t (JStr mid)))) a
  = (logged (py "[dim]  (" ++ (py "delivered " ++ [0x2713; 0x2713]) ++ py ")[/dim]")
       (with_chat (settled mid addr0 (app_chat a)) (ask_next a)), Ok tt).
Proof.
  intros Hp. set (d := make_chat_ack t (JStr mid)). rewrite run_publish by reflexivity.
  set (a1 := ask_next a). set (a2 := logged _ (with_chat (settled mid addr0 (app_chat a)) a1)).
  assert (run (chat_network_message addr d) a1 = (a2, Ok tt)) as Hrun; [|by rewrite (run_then _ _ tt _ _ _ (run_catch_ok _ _ _ _ _ _ Hrun))].
  unfold chat_network_message. change (has_type "chat" d) with false. change (has_type "chat_ack" d) with true. cbn match.
  rewrite (run_on_chat _ _ tt (settled mid addr0 (app_chat a)) [(mid, Delivered, addr0)]); [reflexivity| |reflexivity].
  unfold acknowledge, handle_ack. change (default JNull (dict_get (py "message_id") d)) with (JStr mid).
  cbn [hashable]. cbn match. change (app_chat a1) with (app_chat a). rewrite Hp. reflexivity.
Qed.
End Acknowledged.

(** [bs] is the frame of [m]. *)
Definition framed (bs : bytes) (m : net_message) : Prop := forall rest, next_message None (bs ++ rest) = Ok (m, rest).

(** A message a factory built is read back from what was written. *)
Lemma produced_framed d :
  produced d -> zlen (dumps (JObj d)) <= MAX_MESSAGE_SIZE -> exists bs, encode_frame (JObj d) = Ok bs /\ framed bs (NJson d).
Proof.
  intros Hp Hlen. assert (frame_ok (FJson (JObj d)) = true) as Hf by (unfold frame_ok; rewrite produced_json_ok by done; by apply Z.leb_le).
  destruct (frame_ok_encodes _ Hf) as [bs Hbs]. exists bs. split; [exact Hbs|]. intros rest.
  apply (carried_message (OJson d)); [|exact Hbs]. split; [exact Hf|]. split; [done|].
  by eapply validate_message_schema_ok, produced_valid.
Qed.

Lemma produced_carried d :
  produced d -> zlen (dumps (JObj d)) <= MAX_MESSAGE_SIZE ->
  exists bs, encode_frame (JObj d) = Ok bs /\ next_message None bs = Ok (NJson d, []).
Proof. intros Hp Hlen. destruct (produced_framed d Hp Hlen) as (bs & Hbs & Hf). exists bs. split; [exact Hbs|]. rewrite <- (app_nil_r bs). apply Hf. Qed.

(** What is written to a connection whose queue is empty is what its reader gets. *)
Lemma queued_written cid bs m : queued m cid = [] -> queued (write_to cid bs m) cid = bs.
Proof. unfold queued, write_to. cbn. intros ->. by rewrite lookup_insert_eq. Qed.

(** ** Applications for examples *)

Definition demo_platform : Platform := {|
  isprintable := fun _ => true; lower_text := lower; rich_escape := fun s => s; markup_ok := fun _ => true; strip_texts := fun l => l;
  exn_text := fun _ => py "error"; time_at := fun n => float_of_int (Z.of_nat n); uuid_at := fun n => py "u" ++ str_of_int (Z.of_nat n);
  host_at := fun _ => HostInfo None None None None; spill_at := length; write_failure_at := fun _ => None; identity_file := py "/h/.peerc/identity.json";
  os_at := fun _ => Host (fun _ => None) (fun p => py "/home/u/" ++ p); mdns_available := false |}.
Definition all_well (w : wait) : answer w :=
  match w with
  | Opening _ _ => Ok tt
  | Draining _ => None
  | Answering _ _ _ => true
  | Acking _ => false
  end.

(** An application with one connection, to [addr]. *)
Definition demo_chat_app (id name : pystr) (key : bytes) (r : registry) (active : option json) (addr : pystr) (disk : fs) : ChatApp :=
  MkChatApp (MkScreen (title_of name id) [] [] []) (MkProfile id name active (JStr [])) r (MkDiscovery id name UI_TCP_PORT key)
    (MkNetwork (add_connection addr 0 false (new_connection_manager MAX_CONNECTIONS)) (<[0%nat := addr]> ∅) 1)
    (MkChatting new_chat_session ∅ ∅ ∅) (FSession DOWNLOADS_DIR ∅ ∅, disk) (MkUploads [] ∅) [] 0.
Definition demo_peer (id name : string) : Discovery.Peer :=
  MkPeer (JStr (py id)) (JStr (py name)) (py "10.0.0.2") (JInt 5656) [x01] (float_of_int 1).
Definition demo_ann : ChatApp :=
  demo_chat_app (py "a1") (py "ann") [] [(KStr (py "b2"), demo_peer "b2" "bob")] (Some (JStr (py "b2"))) (py "10.0.0.2:5656") empty_fs.
Definition demo_bob : ChatApp := demo_chat_app (py "b2") (py "bob") [] [] None (py "10.0.0.1:4000") empty_fs.
