(* ===== verification/ChatAppProps.v ===== *)
(** * ui.py: properties of the application

    What holds over all interleavings, what a typed line does from one user's
    keyboard to the other's screen and back, what a rename does on disk and on
    the network, and what unauthenticated messages can do. *)

From S2P Require Import Prelude PyStr PyFloat PyText Json JsonFacts PyValue Sha256 SecurityEvents EventBus Frame FileData Messages FileSys TextFile CryptoIface ToyCrypto Identity Transfer Peer Chat FileSession FileSessionFacts IdentityStore Discovery App Tasks ChatApp ChatLoop ChatAppFacts ChatAppRuns.
From stdpp Require Import base gmap sets strings list option list_numbers relations.
From Stdlib Require Import ZArith Lia Strings.Byte.
Open Scope Z_scope.
Open Scope peerc_scope.

(** ** A line, from one user to the other *)

(** C8: a chat message from one keyboard to the other screen and back. In two
    running applications, a line that is no command, typed while the active peer
    is connected, goes out as one message that the other side's read loop
    decodes; there it registers its sender under the address it came from, is
    shown (escaped) as the last line, and is acknowledged; the acknowledgement
    settles the message at the sender: delivered once, tracked no more, its
    timeout cancelled. *)
Theorem chat_end_to_end (PFa PFb : Platform) env value addr cid addr_b cid_b a b :
  let line := strip value in
  let mid := line_id (PF := PFa) a in
  let message := line_message (PF := PFa) line a in
  let ack := make_chat_ack (time_at (Platform := PFb) (S (app_asked b))) (JStr mid) in
  let sid := my_peer_id (app_me a) in
  let name := my_display_name (app_me a) in
  let shown := py "[bold green]<" ++ rich_escape (Platform := PFb) name ++ py ">[/bold green] " ++ rich_escape (Platform := PFb) line in
  responsive env ->
  line <> [] -> prefixb (py "/") line = false -> reached_at (PF := PFa) a addr ->
  sok [mid; sid; name; line] = true -> chat_text_fits (JStr line) = true ->
  float_ok (time_at (Platform := PFa) (S (app_asked a))) = true -> float_ok (time_at (Platform := PFb) (S (app_asked b))) = true ->
  zlen (dumps (JObj message)) <= MAX_MESSAGE_SIZE -> zlen (dumps (JObj ack)) <= MAX_MESSAGE_SIZE ->
  connections (net_manager (app_network a)) !! addr = Some cid -> queued (net_manager (app_network a)) cid = [] ->
  connections (net_manager (app_network b)) !! addr_b = Some cid_b -> queued (net_manager (app_network b)) cid_b = [] ->
  registry_ok (my_peer_id (app_me b)) (app_registry b) -> sid <> [] -> sid <> my_peer_id (app_me b) ->
  exists a1 b1 a2,
    perform env (on_input_submitted (PF := PFa) value) a = (a1, Ok tt) /\
    next_message None (queued (net_manager (app_network a1)) cid) = Ok (NJson message, []) /\
    perform env (on_network_message (PF := PFb) addr_b (NJson message)) b = (b1, Ok tt) /\
    (exists pk seen, peer_get (KStr sid) (app_registry b1) = Some (MkPeer (JStr sid) (JStr name) (host_of addr_b) (JInt UI_TCP_PORT) pk seen)) /\
    (markup_ok (Platform := PFb) shown = true -> list.last (sc_log (app_screen b1)) = Some shown) /\
    next_message None (queued (net_manager (app_network b1)) cid_b) = Ok (NJson ack, []) /\
    perform env (on_network_message (PF := PFa) addr (NJson ack)) a1 = (a2, Ok tt) /\
    pending (ch_session (app_chat a2)) !! mid = None /\ (mid ∉ ch_timers (app_chat a2)) /\
    notices (ch_session (app_chat a2)) = notices (ch_session (app_chat a)) ++ [(mid, Delivered, addr)].
Proof.
  intros line mid message ack sid name shown Henv Hne Hcmd Hreach Hsok Hfit Hta Htb Hlen Hlen' Hca Hqa Hcb Hqb Hreg Hsid Hown.
  destruct (produced_carried message) as (bs & Hbs & Hread); [by apply P_chat|done|].
  destruct (produced_carried ack) as (bs' & Hbs' & Hread'); [|done|].
  { apply P_chat_ack; [|done]. cbn [sok forallb] in Hsok. zbool. done. }
  pose proof (run_line (PF := PFa) env Henv value addr cid bs a Hne Hcmd Hreach Hca Hfit Hbs) as Ha. fold line mid in Ha.
  destruct (run_chat_received (PF := PFb) env Henv addr_b cid_b mid (time_at (Platform := PFa) (S (app_asked a))) sid name line bs' b Hsid Hown Hcb Hbs')
    as (b1 & Hb & [[seen Hpeer] _ _ Hshown Hack]).
  eexists _, b1, _. split; [exact Ha|]. split; [cbn; by rewrite queued_written|]. split; [exact Hb|].
  split; [rewrite Hpeer, (upsert_at_entry (my_peer_id (app_me b))) by done; eauto|]. split; [exact Hshown|]. split; [by rewrite Hack, queued_written|].
  split; [apply (run_ack (PF := PFa) env _ mid addr addr); cbn; by rewrite lookup_insert_eq|].
  cbn. rewrite delete_insert_eq, lookup_delete_eq. split; [done|]. split; [set_solver|done].
Qed.

(** ** Over all interleavings *)

(** C10: the running application is consistent whatever happens. From its start, over
    any interleaving of typed lines, clicks, datagrams, messages, connections,
    timeouts and file transfers, handlers being suspended and resumed
    in any order, with any answers: the title and the announced name are the
    current display name; each peer is filed once, under its own id, and this
    device is not; every address of the connection table leads to an open
    connection to it whose read loop runs; every chat message still tracked is
    being sent, or is guarded by a running timeout, or its send raised, and a
    message is being sent only while a handler is suspended; and every file being
    received is filed under its id, is open and has taken in at most its declared
    size, itself within the limit. *)
Theorem app_sound (PF : Platform) peer_id name key server disk a0 a pool :
  on_mount peer_id name key server disk = Ok a0 -> prefixb (py "peer-") peer_id = false ->
  rtc (loop_step started) (a0, []) (a, pool) ->
  sc_title (app_screen a) = title_of (my_display_name (app_me a)) peer_id /\
  app_discovery a = MkDiscovery peer_id (my_display_name (app_me a)) UI_TCP_PORT key /\
  NoDup (map fst (app_registry a)) /\
  (forall k p, (k, p) ∈ app_registry a -> key_of (p_peer_id p) = Some k /\ k <> KStr peer_id) /\
  (forall addr cid, connections (net_manager (app_network a)) !! addr = Some cid ->
     net_loops (app_network a) !! cid = Some addr /\ cid ∉ closed (net_manager (app_network a))) /\
  (forall mid st, pending (ch_session (app_chat a)) !! mid = Some st ->
     mid ∈ ch_sending (app_chat a) \/ mid ∈ ch_timers (app_chat a) \/ mid ∈ ch_raised (app_chat a)) /\
  (Forall finished pool -> ch_sending (app_chat a) = ∅) /\
  (forall k t, fs_incoming (fst (app_files a)) !! k = Some t ->
     key_of (it_transfer_id t) = Some k /\ is_Some (it_handle t) /\
     0 <= it_bytes_received t <= it_size t /\ it_size t <= MAX_INCOMING_FILE_SIZE).
Proof.
  intros Hm Hp Hr. pose proof (mount_ok _ _ _ _ _ _ Hm) as H0.
  assert (sending a0 = ∅) as He
    by (clear -Hm; unfold on_mount in Hm; destruct (makedirs _ _) as [made disk']; by inv_ok).
  destruct (reachable_steps a0 a pool ltac:(by rewrite (ok_me _ _ _ H0)) Hr) as [_ Hsend].
  destruct (reachable_ok _ _ _ _ _ _ _ Hm Hp (ex_intro _ pool Hr)) as [_ Ht Hd [Hnd Hall] [Hnet _] Htim Hfiles].
  split_and!; [exact Ht|exact Hd|exact Hnd| |exact Hnet|exact Htim|exact (Hsend He)|exact Hfiles].
  intros k p Hin. rewrite Forall_forall in Hall. exact (Hall _ Hin).
Qed.

(** C11: peers do not choose whom the user talks to. Once there is an active peer,
    it stays the active peer however many packets, messages, connections,
    timeouts and file transfers are processed, interleaved in any way: only the
    user's own commands and clicks switch it. *)
Theorem outside_keeps_active (PF : Platform) v a a' pool :
  my_active_peer_id (app_me a) = Some v ->
  rtc (loop_step (answer := answer) from_outside) (a, []) (a', pool) ->
  my_active_peer_id (app_me a') = Some v.
Proof.
  intros Ha Hr.
  set (I := fun b => my_active_peer_id (app_me b) = Some v /\ my_peer_id (app_me b) = my_peer_id (app_me a)).
  refine (proj1 (proj1 (pool_keeps I sending _ _ _ _ Hr _ (conj Ha eq_refl)))).
  apply (keeps_outside (my_peer_id (app_me a)) I); [by intros b []| |].
  - intros b b' Hc [H1 H2]. destruct Hc; by split.
  - intros w. unfold activate_if_none. apply (keeps_get_then _ _ _ (fun o => o = Some v)); [by intros b []|]. intros o ->. apply keeps_ret.
Qed.

(** ** What messages can do *)

(** A message no check stops: valid for the schema, its name a number. *)
Definition numeric_hello (id : pystr) (n port : Z) : dict :=
  [(py "type", JStr (py "hello")); (py "peer_id", JStr id); (py "sender_name", JInt n); (py "tcp_port", JInt port)].

Section Hostile.
Context `{PF : Platform} (env : forall w, answer w).
#[local] Abbreviation run m a := (perform (answer := answer) env m a).


(** A hello registers its claimed sender, whatever becomes of the reply. *)
Lemma run_hello sid name addr d port b :
  has_type "hello" d = true -> dict_get (py "type") d = Some (JStr (py "hello")) -> field (py "peer_id") (JStr []) d = JStr sid ->
  field (py "sender_name") (JStr (host_of addr)) d = name -> field (py "tcp_port") (JInt UI_TCP_PORT) d = port ->
  sid <> [] -> sid <> my_peer_id (app_me b) ->
  exists b' seen, run (on_network_message addr (NJson d)) b = (b', Ok tt) /\
    app_registry b' = fst (upsert_at seen (KStr sid) (JStr sid) name (host_of addr) port [] (app_registry b)) /\
    my_active_peer_id (app_me b') = Some (default (JStr sid) (my_active_peer_id (app_me b))).
Proof.
  intros Ht Htype Hid Hname Hport Hne Hown.
  rewrite run_publish_hello by (try (unfold has_type; by rewrite Htype); by rewrite Htype).
  assert (exists b' r, run (on_network_message_handshake addr d) (ask_next b) = (b', r) /\
    app_registry b' = fst (upsert_at (time_at (S (app_asked b))) (KStr sid) (JStr sid) name (host_of addr) port [] (app_registry b)) /\
    my_active_peer_id (app_me b') = Some (default (JStr sid) (my_active_peer_id (app_me b)))) as (b' & r & E & Hr & Ha).
  { unfold on_network_message_handshake. cbv zeta. rewrite Ht, Hid, Hname, Hport.
    destruct (run_learn_peer env sid name (host_of addr) port (ask_next b) Hne Hown) as (b1 & E1 & [Hr Ha _ _]).
    rewrite (run_then _ _ _ _ _ _ E1). cbn [negb]. rewrite run_get_then. unfold now. rewrite run_ask_then, perform_bind.
    match goal with |- context [run (manager_send addr ?ack) ?c] => destruct (run_send_frame env addr ack c) as (b2 & r & -> & Hr2 & Hm2) end.
    destruct r as [ok|e]; eexists b2, _; (split; [reflexivity|]); rewrite Hr2, Hm2; done. }
  exists b', (time_at (S (app_asked b))). split; [|done]. rewrite perform_bind, perform_catch, E. by destruct r as [[]|].
Qed.

Lemma run_msg arg a : arg <> [] ->
  run (cmd_msg arg) a = match match_peer arg (list_peers (app_registry a)) with
                        | Ok (Some p) => (refreshed (logged (py "[cyan]Active peer -> " ++ text (p_name p) ++ py "[/cyan]")
                                                       (with_me (set_active (p_peer_id p)) a)), Ok tt)
                        | Ok None => (logged (py "[red]No peer matching '" ++ arg ++ py "'[/red]") a, Ok tt)
                        | Err e => (a, Err e)
                        end.
Proof.
  intros Hne. unfold cmd_msg. replace (streq arg []) with false by (symmetry; apply not_true_is_false; by intros E%streq_spec).
  rewrite run_get_then. destruct (match_peer _ _) as [[p|]|e]; reflexivity.
Qed.
Lemma match_peer_snoc arg l p :
  match_peer arg l = Ok None -> match_peer arg (l ++ [p]) = match_peer arg [p].
Proof.
  induction l as [|q l IH]; [done|]. cbn [match_peer app]. destruct (str_method (p_name q)) as [n|]; [|done]. cbn [rbind].
  destruct (substringb _ _); [done|]. destruct (str_method (p_peer_id q)) as [i|]; [|done]. cbn [rbind].
  destruct (prefixb arg i); [done|]. exact IH.
Qed.

(** One unauthenticated message disables a command. A hello whose sender_name
    is a number passes validation and is registered by its handler; from then
    on /msg with any argument that matches no peer filed earlier raises
    AttributeError instead of answering that no peer matches. *)
Theorem numeric_name_breaks_msg addr id n port arg a :
  id <> [] -> id <> my_peer_id (app_me a) -> 0 < port < 65536 -> peer_get (KStr id) (app_registry a) = None ->
  arg <> [] -> match_peer arg (list_peers (app_registry a)) = Ok None ->
  validate_message (JObj (numeric_hello id n port)) = Ok (JObj (numeric_hello id n port)) /\
  snd (run (cmd_msg arg) a) = Ok tt /\
  exists a', run (on_network_message addr (NJson (numeric_hello id n port))) a = (a', Ok tt) /\
    snd (run (cmd_msg arg) a') = Err AttributeError.
Proof.
  intros Hne Hown Hport Hnew Harg Hmatch. split; [|split].
  - apply validate_message_accepts. cbv -[port_value]. by rewrite port_value_ok.
  - rewrite run_msg by done. by rewrite Hmatch.
  - destruct (run_hello id (JInt n) addr (numeric_hello id n port) (JInt port) a) as (a' & seen & E & Hr & _); try done.
    exists a'. split; [exact E|]. rewrite run_msg by done. rewrite Hr. unfold upsert_at. rewrite Hnew. cbn [fst].
    unfold list_peers in *. rewrite map_app. cbn [map snd]. by rewrite match_peer_snoc.
Qed.

(** An address is taken from whoever last claimed the identity. A chat message
    or a hello that any sender's factory builds with a known peer's id, arriving
    from any address, moves that peer's entry to the sender's address while its
    authenticated key is kept; if the peer is the active one, what the user types
    next goes to the sender. *)
Theorem claimed_sender_redirects_peer mnow mid addr victim name port line a p :
  registry_ok (my_peer_id (app_me a)) (app_registry a) ->
  peer_get (KStr victim) (app_registry a) = Some p -> victim <> [] -> victim <> my_peer_id (app_me a) ->
  (exists a' seen, run (on_network_message addr (NJson (make_hello mnow victim name port))) a = (a', Ok tt) /\
    peer_get (KStr victim) (app_registry a') = Some (MkPeer (JStr victim) (JStr name) (host_of addr) (JInt port) (p_public_key p) seen) /\
    (my_active_peer_id (app_me a) = Some (JStr victim) -> reached_at a' (host_of addr ++ py ":" ++ str_of_int port))) /\
  (forall cid ack, responsive env -> connections (net_manager (app_network a)) !! addr = Some cid ->
    encode_frame (JObj (make_chat_ack (time_at (S (app_asked a))) (JStr mid))) = Ok ack ->
    exists a' seen, run (on_network_message addr (NJson (make_chat_message mid mnow victim name line))) a = (a', Ok tt) /\
    peer_get (KStr victim) (app_registry a') = Some (MkPeer (JStr victim) (JStr name) (host_of addr) (JInt UI_TCP_PORT) (p_public_key p) seen) /\
    (my_active_peer_id (app_me a) = Some (JStr victim) -> reached_at a' (host_of addr ++ py ":" ++ str_of_int UI_TCP_PORT))).
Proof.
  intros Hreg Hk Hne Hown.
  assert (forall port seen a', app_registry a' = fst (upsert_at seen (KStr victim) (JStr victim) (JStr name) (host_of addr) (JInt port) [] (app_registry a)) ->
    my_active_peer_id (app_me a') = Some (default (JStr victim) (my_active_peer_id (app_me a))) ->
    peer_get (KStr victim) (app_registry a') = Some (MkPeer (JStr victim) (JStr name) (host_of addr) (JInt port) (p_public_key p) seen) /\
    (my_active_peer_id (app_me a) = Some (JStr victim) -> reached_at a' (host_of addr ++ py ":" ++ str_of_int port))) as Hafter.
  { intros q seen a' Hr Ha. pose proof (upsert_at_entry (my_peer_id (app_me a)) seen victim (JStr name) (host_of addr) (JInt q) _ Hreg) as Hg.
    rewrite Hk, <- Hr in Hg. split; [exact Hg|]. intros Hact. rewrite Hact in Ha. eexists (JStr victim), _. split; [exact Ha|].
    split; [unfold registry_get; cbn; by rewrite Hg|]. reflexivity. }
  split.
  - destruct (run_hello victim (JStr name) addr (make_hello mnow victim name port) (JInt port) a) as (a' & seen & E & Hr & Ha); try done.
    exists a', seen. split; [exact E|]. by apply Hafter.
  - intros cid ack Henv Hconn Hack.
    destruct (run_chat_received env Henv addr cid mid mnow victim name line ack a Hne Hown Hconn Hack) as (a' & E & [[seen Hr] Ha _ _ _]).
    exists a', seen. split; [exact E|]. by apply Hafter.
Qed.
End Hostile.

(** ** Renaming *)

Section Nickname.
Context `{PF : Platform} (env : forall w, answer w).
#[local] Abbreviation run m a := (perform (answer := answer) env m a).

Definition effects_added (es : list ui_effect) (a : ChatApp) : ChatApp :=
  with_screen (fun s => MkScreen (sc_title s) (sc_log s) (sc_sidebar s) (sc_effects s ++ es)) a.
Lemma run_datagrams payload port ips a :
  run (aeach on_output (map (fun t => SendTo payload t port) ips)) a
  = (effects_added (map (fun t => Net (SendTo payload t port)) ips) a, Ok tt).
Proof.
  revert a. induction ips as [|ip ips IH]; intros a.
  - cbn [map]. assert (effects_added [] a = a) as ->; [|done]. unfold effects_added, with_screen.
    destruct a as [[]]. cbn. by rewrite app_nil_r.
  - cbn [map aeach on_output]. unfold effect. rewrite run_set_then, IH. unfold effects_added, with_screen. cbn.
    by rewrite <- app_assoc.
Qed.

(** The checks of /nick. *)
Lemma run_nick arg a :
  arg <> [] -> nick_ok arg = true ->
  run (cmd_nick arg) a
  = run (abind (save_display_name (my_peer_id (app_me a)) arg)
           (fun _ => abind (ask host_at) (fun h => abind (aget app_discovery) (fun d =>
              abind (aeach on_output (broadcast_now d (broadcast_targets h)))
                (fun _ => log (py "[green]Nickname changed from '" ++ rich_escape (my_display_name (app_me a)) ++ py "' to '"
                               ++ rich_escape arg ++ py "'[/green]"))))))
        (renamed arg a).
Proof.
  intros Hne Hok. unfold cmd_nick. rewrite run_get_then.
  replace (streq arg []) with false by (symmetry; apply not_true_is_false; by intros E%streq_spec).
  unfold nick_ok in Hok. apply andb_true_iff in Hok as [Hc Hl]. apply negb_true_iff in Hc. rewrite Hc.
  rewrite (proj2 (Z.ltb_ge 32 (zlen arg))) by (by apply Z.leb_le). by rewrite run_set_then.
Qed.

Lemma run_save_display_name peer_id name r f' a :
  save_identity spill_at peer_id name identity_file (snd (app_files a)) = (r, f') ->
  run (save_display_name peer_id name) a = (with_files (fst (app_files a), f') a, r).
Proof.
  intros E. unfold save_display_name, perform, on_files. destruct (app_files a) as [s f]. cbn [fst snd] in *. by rewrite E.
Qed.

Lemma nick_refused arg a : arg <> [] -> nick_ok arg = false -> exists t, run (cmd_nick arg) a = (logged t a, Ok tt).
Proof.
  intros Hne Hok. unfold cmd_nick. rewrite run_get_then.
  replace (streq arg []) with false by (symmetry; apply not_true_is_false; by intros E%streq_spec).
  unfold nick_ok in Hok. destruct (existsb _ arg); [by eexists|]. cbn [negb andb] in Hok.
  rewrite (proj2 (Z.ltb_lt 32 (zlen arg))) by (by apply Z.leb_gt). by eexists.
Qed.
End Nickname.

(** An announcement makes the receiver show its sender's name. *)
Lemma announced_name now ip d e r :
  disc_ok d -> self_id d <> self_id e -> reg_ok (self_id e) r -> strip (self_name d) <> [] -> zlen (self_name d) <= 64 ->
  exists r' outs, handle_packet now e (build_payload d true) ip r = Ok (r', outs) /\
    p_name <$> peer_get (KStr (self_id d)) r' = Some (JStr (self_name d)).
Proof.
  intros Hd Hne Hr Hs Hl. rewrite (handle_announcement now e d ip r true Hd Hne).
  destruct (announcement_registers d (self_id e) ip r now Hd Hne Hr) as [_ Hg].
  assert (shown ip (self_name d) = self_name d) as Hshown.
  { unfold shown. replace (streq (strip (self_name d)) []) with false by (symmetry; apply not_true_is_false; by intros E%streq_spec).
    apply take_ge. unfold zlen in *. lia. }
  destruct (upsert_str _ _ _ _ _ _ _) as [r' outs]. cbn [fst] in Hg. eexists _, _. split; [reflexivity|]. rewrite Hg. cbn.
  by rewrite Hshown.
Qed.

(** C40: a nickname the command accepts takes effect everywhere. /nick with a name
    that passes its checks changes the display name, the title and the announced
    name, stores the name so that the identity loaded next has it and is
    otherwise unchanged, and broadcasts an announcement from which every device
    that hears it files this one under exactly that name; a name that fails the
    checks changes nothing. *)
Theorem nickname_takes_effect (PF : Platform) env (E : Ed25519) (K : Keyring) now ks w meta d c name a :
  let arg := c :: name in
  w_fs w = snd (app_files a) -> fs_ok (w_fs w) -> identity_file <> plaintext_fallback_path ks ->
  json_load identity_file (w_fs w) = Ok (JObj meta) -> json_ok (JObj meta) = true ->
  load_existing now identity_file ks w = Ok d -> di_device_id d = my_peer_id (app_me a) ->
  disc_ok (app_discovery a) -> self_id (app_discovery a) = my_peer_id (app_me a) ->
  str_ok arg = true -> strip arg = arg ->
  (nick_ok arg = true -> exists a' f', perform env (cmd_nick arg) a = (a', Ok tt) /\
     my_display_name (app_me a') = arg /\ sc_title (app_screen a') = title_of arg (my_peer_id (app_me a)) /\
     app_files a' = (fst (app_files a), f') /\
     load_existing now identity_file ks (World f' (w_mode w) (w_ring w))
       = Ok (MkIdentity (di_keypair d) (JStr arg) (di_created_at d) (di_storage_backend d)) /\
     (forall target, target ∈ broadcast_targets (host_at (app_asked a)) ->
        Net (SendTo (build_payload (app_discovery a') true) target BROADCAST_PORT) ∈ sc_effects (app_screen a')) /\
     (forall seen ip e r, my_peer_id (app_me a) <> self_id e -> reg_ok (self_id e) r ->
        exists r' outs, handle_packet seen e (build_payload (app_discovery a') true) ip r = Ok (r', outs) /\
          p_name <$> peer_get (KStr (my_peer_id (app_me a))) r' = Some (JStr arg))) /\
  (nick_ok arg = false -> exists t, perform env (cmd_nick arg) a = (logged t a, Ok tt)).
Proof.
  intros arg Hw Hfs Hpath Hj Hjok Hl Hid Hdisc Hself Hok Hstrip. split; [intros Hnick|by apply nick_refused].
  destruct (rename_keeps_identity E K spill_at now identity_file ks w meta d c name Hfs Hpath Hj Hjok Hl Hok) as [(f' & Hsave & Hload) _].
  rewrite Hid, Hw in Hsave. rewrite run_nick by done.
  rewrite (run_then _ _ _ _ _ _ (run_save_display_name env _ arg (Ok tt) f' (renamed arg a) Hsave)), run_ask_then, run_get_then.
  unfold broadcast_now. rewrite (run_then _ _ _ _ _ _ (run_datagrams env _ _ _ _)). eexists _, f'. split; [reflexivity|].
  unfold logged. cbn. split; [done|]. split; [by case_match|]. split; [done|]. split; [exact Hload|]. split.
  - intros target Ht. apply list_elem_of_In.
    match goal with |- In ?x (sc_effects (if ?b then set_log ?l ?s else _)) => replace (sc_effects (if b then set_log l s else s)) with (sc_effects s) by (by destruct b) end.
    cbn. apply in_app_iff. right. apply in_map_iff. exists target. split; [done|]. by apply list_elem_of_In.
  - intros seen ip e r Hne Hr. rewrite <- Hself in Hne |- *. apply (announced_name seen ip (rename_discovery arg (app_discovery a)) e r); try done.
    + destruct Hdisc as (H1 & H2 & H3 & _). exact (conj H1 (conj H2 (conj H3 Hok))).
    + cbn [self_name rename_discovery]. by rewrite Hstrip.
    + cbn [self_name rename_discovery]. unfold nick_ok in Hnick. zbool. lia.
Qed.

(** When the identity on disk is another one, saving raises after the name was
    changed: the session goes by a name that was neither stored nor announced. *)
Lemma failed_save_keeps_new_name (PF : Platform) env (E : Ed25519) (K : Keyring) now ks w meta d c name a :
  w_fs w = snd (app_files a) -> fs_ok (w_fs w) -> identity_file <> plaintext_fallback_path ks ->
  json_load identity_file (w_fs w) = Ok (JObj meta) -> json_ok (JObj meta) = true ->
  load_existing now identity_file ks w = Ok d -> my_peer_id (app_me a) <> di_device_id d ->
  str_ok (c :: name) = true -> nick_ok (c :: name) = true ->
  exists a', perform env (cmd_nick (c :: name)) a = (a', Err ValueError) /\ my_display_name (app_me a') = c :: name /\
    app_files a' = app_files a /\ sc_effects (app_screen a') = sc_effects (app_screen a).
Proof.
  intros Hw Hfs Hpath Hj Hjok Hl Hid Hok Hnick.
  destruct (rename_keeps_identity E K spill_at now identity_file ks w meta d c name Hfs Hpath Hj Hjok Hl Hok) as [_ Hsave].
  specialize (Hsave _ Hid). rewrite Hw in Hsave. rewrite run_nick by done.
  rewrite perform_bind, (run_save_display_name env _ _ _ _ (renamed (c :: name) a) Hsave). eexists. split; [reflexivity|].
  cbn. split; [done|]. split; [by destruct (app_files a)|done].
Qed.

(** ** Examples *)

Lemma demo_ann_registry : registry_ok (py "a1") (app_registry demo_ann).
Proof. split; [apply NoDup_singleton|]. constructor; [|constructor]. split; [reflexivity|discriminate]. Qed.

Lemma chat_end_to_end_witness :
  exists b1, perform (answer := answer) all_well (on_network_message (PF := demo_platform) (py "10.0.0.1:4000")
      (NJson (line_message (PF := demo_platform) (py "hi bob") demo_ann))) demo_bob = (b1, Ok tt) /\
    list.last (sc_log (app_screen b1)) = Some (py "[bold green]<ann>[/bold green] hi bob").
Proof.
  destruct (chat_end_to_end demo_platform demo_platform all_well (py " hi bob ") (py "10.0.0.2:5656") 0
    (py "10.0.0.1:4000") 0 demo_ann demo_bob) as (a1 & b1 & a2 & _ & _ & Hb & _ & Hshown & _).
  - intros addr. reflexivity.
  - vm_compute. discriminate.
  - vm_compute. reflexivity.
  - exists (JStr (py "b2")), (demo_peer "b2" "bob"). split; [reflexivity|]. split; vm_compute; reflexivity.
  - vm_compute. reflexivity.
  - vm_compute. reflexivity.
  - vm_compute. reflexivity.
  - vm_compute. reflexivity.
  - vm_compute. discriminate.
  - vm_compute. discriminate.
  - vm_compute. reflexivity.
  - reflexivity.
  - vm_compute. reflexivity.
  - reflexivity.
  - split; constructor.
  - discriminate.
  - discriminate.
  - exists b1. split; [exact Hb|]. apply Hshown. reflexivity.
Defined.

Lemma app_sound_witness :
  exists a0 a, on_mount (py "a1") (py "ann") [] (Ok tt) empty_fs = Ok a0 /\
    perform all_well (on_input_submitted (PF := demo_platform) (py "/nick zoe")) a0 = (a, Ok tt) /\
    my_display_name (app_me a) = py "zoe" /\ sc_title (app_screen a) = title_of (my_display_name (app_me a)) (py "a1").
Proof.
  destruct (on_mount (py "a1") (py "ann") [] (Ok tt) empty_fs) as [a0|e] eqn:Em; [|apply (f_equal is_ok) in Em; vm_compute in Em; discriminate Em].
  pose proof (f_equal (fun r => match r with
    | Ok a => match on_input_submitted (PF := demo_platform) (py "/nick zoe") a with
              | (b, Now (Ok tt)) => streq (my_display_name (app_me b)) (py "zoe")
              | _ => false
              end
    | Err _ => false
    end) Em) as Hb. cbv beta iota in Hb.
  destruct (on_input_submitted (PF := demo_platform) (py "/nick zoe") a0) as [a r] eqn:Er.
  assert (streq (my_display_name (app_me a)) (py "zoe") = true /\ r = Now (Ok tt)) as [Hz ->].
  { destruct r as [[[]|]|w k]; [split; [symmetry; rewrite <- Hb; vm_compute; reflexivity|reflexivity]| |]; vm_compute in Hb; discriminate Hb. }
  destruct (app_sound demo_platform (py "a1") (py "ann") [] (Ok tt) empty_fs a0 a [Now (Ok tt)]) as [Ht _].
  - exact Em.
  - reflexivity.
  - eapply rtc_l; [|apply rtc_refl]. eapply loop_start; [apply (start_line (py "/nick zoe"))|exact Er].
  - exists a0, a. split; [reflexivity|]. split; [unfold perform; rewrite Er; reflexivity|]. split; [by apply streq_spec|exact Ht].
Defined.

Lemma outside_keeps_active_witness :
  exists a' pool, rtc (loop_step (answer := answer) (from_outside (PF := demo_platform))) (demo_ann, []) (a', pool) /\
    length (app_registry a') = 2%nat /\ my_active_peer_id (app_me a') = Some (JStr (py "b2")).
Proof.
  set (hello := NJson (make_hello (float_of_int 1) (py "c3") (py "carl") 5656)).
  assert (admissible hello) as Hok by (vm_compute; reflexivity).
  set (m := on_network_message (PF := demo_platform) (py "10.0.0.9:1") hello).
  assert (length (app_registry (fst (m demo_ann))) = 2%nat) as Hl by (vm_compute; reflexivity).
  destruct (m demo_ann) as [a' r] eqn:Em. exists a', [r].
  assert (rtc (loop_step (answer := answer) (from_outside (PF := demo_platform))) (demo_ann, []) (a', [r])) as Hr
    by (eapply rtc_l; [|apply rtc_refl]; apply (loop_start _ m); [by apply outside_message|exact Em]).
  split; [exact Hr|]. split; [exact Hl|].
  apply (outside_keeps_active demo_platform _ demo_ann a' [r]); [reflexivity|exact Hr].
Defined.

Lemma numeric_name_breaks_msg_witness :
  exists a', perform all_well (on_network_message (PF := demo_platform) (py "10.0.0.9:1") (NJson (numeric_hello (py "c3") 7 5656))) demo_ann
      = (a', Ok tt) /\ snd (perform all_well (cmd_msg (PF := demo_platform) (py "zoe")) a') = Err AttributeError.
Proof.
  apply (numeric_name_breaks_msg (PF := demo_platform) all_well (py "10.0.0.9:1") (py "c3") 7 5656 (py "zoe") demo_ann).
  - discriminate.
  - discriminate.
  - lia.
  - vm_compute. reflexivity.
  - discriminate.
  - vm_compute. reflexivity.
Defined.

Lemma claimed_sender_redirects_peer_witness :
  exists a', perform all_well (on_network_message (PF := demo_platform) (py "10.0.0.66:4000")
      (NJson (make_hello (float_of_int 3) (py "b2") (py "bob") 5656))) demo_ann = (a', Ok tt) /\
    reached_at (PF := demo_platform) demo_ann (py "10.0.0.2:5656") /\
    reached_at (PF := demo_platform) a' (host_of (py "10.0.0.66:4000") ++ py ":" ++ str_of_int 5656).
Proof.
  destruct (claimed_sender_redirects_peer (PF := demo_platform) all_well (float_of_int 3) (py "m") (py "10.0.0.66:4000") (py "b2") (py "bob")
    5656 (py "hi") demo_ann (demo_peer "b2" "bob")) as [(a' & seen & E & _ & Hr) _].
  - exact demo_ann_registry.
  - vm_compute. reflexivity.
  - discriminate.
  - discriminate.
  - exists a'. split; [exact E|]. split; [|apply Hr; reflexivity].
    exists (JStr (py "b2")), (demo_peer "b2" "bob"). split; [reflexivity|]. split; vm_compute; reflexivity.
Defined.

(** The device of [IdentityStore]'s examples, renamed from the keyboard. *)
Definition demo_alice : ChatApp :=
  demo_chat_app (di_device_id demo_current) (py "alice") (public_key_bytes (di_keypair demo_current)) [] None (py "10.0.0.2:5656") (w_fs demo_stored).

Lemma nickname_takes_effect_witness :
  exists a' f', perform all_well (cmd_nick (PF := demo_platform) (py "bob")) demo_alice = (a', Ok tt) /\
    my_display_name (app_me a') = py "bob" /\ app_files a' = (FSession DOWNLOADS_DIR ∅ ∅, f') /\
    load_existing (float_of_int 6) demo_identity_file demo_store (@World toy_keyring f' ∅ (w_ring demo_stored))
    = Ok (MkIdentity (di_keypair demo_current) (JStr (py "bob")) (di_created_at demo_current) (py "keyring")).
Proof.
  destruct (nickname_takes_effect demo_platform all_well toy_ed25519 toy_keyring (float_of_int 6) demo_store demo_stored demo_meta demo_current
    98 (py "ob") demo_alice) as [Hok _].
  - reflexivity.
  - split; unfold demo_stored; cbn [w_fs fs_names fs_next].
    + intros p i [_ [= <-]]%lookup_singleton_Some. lia.
    + intros p q i [<- _]%lookup_singleton_Some [<- _]%lookup_singleton_Some. reflexivity.
  - discriminate.
  - vm_compute. reflexivity.
  - vm_compute. reflexivity.
  - apply (stored_identity_loads (E := toy_ed25519) (K := toy_keyring) demo_store demo_identity_file demo_meta 7%N).
    + vm_compute. reflexivity.
    + rewrite <- (app_nil_r demo_meta). apply metadata_describes.
    + reflexivity.
    + left. split; [reflexivity|]. vm_compute. reflexivity.
  - reflexivity.
  - split; [reflexivity|]. split; [vm_compute; reflexivity|]. split; [split; reflexivity|reflexivity].
  - reflexivity.
  - reflexivity.
  - vm_compute. reflexivity.
  - destruct Hok as (a' & f' & Hrun & Hname & _ & Hfiles & Hload & _); [reflexivity|].
    exists a', f'. split; [exact Hrun|]. split; [exact Hname|]. split; [exact Hfiles|exact Hload].
Defined.

(** The entry /connect adds for an unknown address is never refreshed: once it is
    older than the timeout, pruning removes it, and what the user types next is
    refused although the connection is open. *)
Definition slow_platform : Platform := {|
  isprintable := fun _ => true; lower_text := lower; rich_escape := fun s => s; markup_ok := fun _ => true; strip_texts := fun l => l;
  exn_text := fun _ => py "error"; time_at := fun n => float_of_int (20 * Z.of_nat n); uuid_at := fun _ => [];
  host_at := fun _ => HostInfo None None None None; spill_at := length; write_failure_at := fun _ => None; identity_file := [];
  os_at := fun _ => Host (fun _ => None) (fun p => py "/home/u/" ++ p); mdns_available := false |}.
Example connected_peer_expires :
  let a0 := demo_chat_app (py "a1") (py "ann") [] [] None (py "h:1") empty_fs in
  let a1 := fst (perform all_well (on_input_submitted (PF := slow_platform) (py "/connect 10.0.0.9")) a0) in
  let a2 := fst (perform all_well (on_prune (PF := slow_platform)) a1) in
  let a3 := fst (perform all_well (on_input_submitted (PF := slow_platform) (py "hello")) a2) in
  map p_ip (list_peers (app_registry a1)) = [py "10.0.0.9"] /\ list_peers (app_registry a2) = [] /\
  is_connected (py "10.0.0.9:5656") (net_manager (app_network a2)) = true /\
  list.last (sc_log (app_screen a3)) = Some (py "[red]No active peer. Use /msg <name> or /connect <ip> to select one.[/red]").
Proof. vm_compute. repeat split. Qed.
