(* ===== verification/ChatFileRuns.v ===== *)
(** * ui.py: straight runs of a file transfer

    What is put on a connection and read back at its other end; the sending
    side's command, answer and sending task; the receiving side's offer, chunks
    and completion. *)

From S2P Require Import Prelude PyStr PyFloat PyText Json JsonFacts PyValue Sha256 SecurityEvents EventBus Frame FileData Messages FileSys TextFile Transfer TransferFacts Peer Chat FileSession FileSessionFacts FloatFacts Discovery App Tasks ChatApp ChatLoop ChatAppFacts ChatAppRuns.
From stdpp Require Import base gmap sets strings list option list_numbers.
From Stdlib Require Import ZArith Lia Strings.Byte.
Open Scope Z_scope.
Open Scope peerc_scope.

(** ** What is put on a connection *)

Lemma framed_read ws ms turn fuel :
  Forall2 framed ws ms -> (length (concat ws) < fuel)%nat ->
  read_loop (fun _ => Ok tt) no_faults turn fuel (concat ws) = (ms, IncompleteReadError).
Proof.
  intros Hw. revert turn fuel. induction Hw as [|w m ws ms Hm _ IH]; intros turn [|fuel] Hf; cbn in Hf; [lia|done|lia|].
  cbn [concat read_loop]. change (no_faults turn) with (@None read_fault). rewrite Hm.
  destruct (next_message_ok _ _ _ _ (Hm (concat ws))) as [_ Hl]. rewrite IH; [done|]. rewrite length_app in *. lia.
Qed.

(** From [a] to [a'], [cid] was given the frames of [ms]; the connection table
    stayed. *)
Definition outbox (a : ChatApp) (cid : nat) : bytes := queued (net_manager (app_network a)) cid.
Definition table (a : ChatApp) : gmap pystr nat := connections (net_manager (app_network a)).
Record put (cid : nat) (ms : list net_message) (a a' : ChatApp) : Prop := {
  put_table : table a' = table a;
  put_frames : exists ws, Forall2 framed ws ms /\ outbox a' cid = outbox a cid ++ concat ws
}.
(** As the reader at the other end sees it. *)
Definition sent (cid : nat) (ms : list net_message) (a a' : ChatApp) : Prop :=
  exists w, outbox a' cid = outbox a cid ++ w /\ run_read_loop (fun _ => Ok tt) no_faults w = (ms, IncompleteReadError).
Lemma put_sent cid ms a a' : put cid ms a a' -> sent cid ms a a'.
Proof. intros [_ (ws & Hw & E)]. exists (concat ws). split; [exact E|]. apply framed_read; [exact Hw|lia]. Qed.

Lemma put_same cid a a' : app_network a' = app_network a -> put cid [] a a'.
Proof. intros E. split; [unfold table; by rewrite E|]. exists []. unfold outbox. rewrite E. cbn. by rewrite app_nil_r. Qed.
Lemma put_trans cid ms ms' a1 a2 a3 : put cid ms a1 a2 -> put cid ms' a2 a3 -> put cid (ms ++ ms') a1 a3.
Proof.
  intros [T1 (w1 & F1 & E1)] [T2 (w2 & F2 & E2)]. split; [congruence|]. exists (w1 ++ w2).
  split; [by apply Forall2_app|]. by rewrite E2, E1, concat_app, app_assoc.
Qed.
Lemma put_written cid bs m a a' :
  framed bs m -> app_network a' = app_network (sent_to cid bs a) -> put cid [m] a a'.
Proof.
  intros Hb E. unfold sent_to in E. cbn in E. split; [unfold table; by rewrite E|]. exists [bs]. split; [by repeat constructor|].
  unfold outbox, queued. rewrite E. cbn. rewrite lookup_insert_eq. cbn. by rewrite app_nil_r.
Qed.

(** ** Names of transfers *)

Lemma uuid_str_ok b : str_ok (uuid_str b) = true.
Proof.
  apply printable_str_ok. eapply List.Forall_impl; [|apply uuid_str_chars]. cbn. intros c [[n [Hn ->]]| ->]; [|done].
  unfold hexdigit. destruct (n <? 10) eqn:E; unfold printable; zbool; apply andb_true_iff; rewrite ?Z.leb_le, ?Z.ltb_lt; lia.
Qed.
Lemma checksum_ok c : str_ok (sha256_hex c) && negb (streq (sha256_hex c) []) = true.
Proof.
  unfold sha256_hex. rewrite printable_str_ok by apply hex_of_bytes_printable. cbn [andb]. apply negb_true_iff, not_true_is_false.
  intros E%streq_spec%(f_equal length). rewrite hex_of_bytes_length, sha256_length in E. done.
Qed.

Section FileRuns.
Context `{PF : Platform} (env : forall w, answer w).
Hypothesis Henv : responsive env.
#[local] Abbreviation run m a := (perform (answer := answer) env m a).

Lemma run_on_files_then {A B} (f : sstate -> result A * sstate) x st (k : A -> act ChatApp answer B) a :
  f (app_files a) = (Ok x, st) -> run (abind (on_files f) k) a = run (k x) (with_files st a).
Proof. intros E. rewrite perform_bind. unfold perform at 1, on_files. by rewrite E. Qed.

(** The file session alone acts on a message that is none of the others'. *)
Definition for_files (m : net_message) : Prop :=
  has_type "chat" (message_dict m) = false /\ has_type "chat_ack" (message_dict m) = false /\
  has_type "hello" (message_dict m) = false /\ has_type "hello_ack" (message_dict m) = false.
Lemma run_file_outcome on_offer addr m b b' r :
  for_files m -> run (file_network_message on_offer addr m) (ask_next b) = (b', r) ->
  run (deliver_message on_offer addr m) b = (b', Ok tt).
Proof.
  intros (H1 & H2 & H3 & H4) Hrun. unfold deliver_message, now. rewrite run_ask_then. unfold publish_to.
  change (collect_handlers app_bus _) with [H_CHAT; H_FILE; H_HANDSHAKE]. cbn [aeach].
  assert (run (acatch (network_handler on_offer H_CHAT addr m) (fun _ => aret tt)) (ask_next b) = (ask_next b, Ok tt)) as Hc
    by (apply run_catch_ok; change (network_handler on_offer H_CHAT addr m) with (chat_network_message addr (message_dict m));
        unfold chat_network_message; by rewrite H1, H2).
  rewrite (run_then _ _ _ _ _ _ Hc).
  rewrite (run_then _ _ tt b').
  2:{ change (network_handler on_offer H_FILE addr m) with (file_network_message on_offer addr m). rewrite perform_catch, Hrun.
      by destruct r as [[]|]. }
  rewrite (run_then _ _ tt b'); [done|]. apply run_catch_ok.
  change (network_handler on_offer H_HANDSHAKE addr m) with (on_network_message_handshake addr (message_dict m)).
  unfold on_network_message_handshake. by rewrite H3, H4.
Qed.
Lemma run_file_message on_offer addr m b b' :
  for_files m -> run (file_network_message on_offer addr m) (ask_next b) = (b', Ok tt) ->
  run (deliver_message on_offer addr m) b = (b', Ok tt).
Proof. apply run_file_outcome. Qed.

(** ** The offer *)

(** The transfer /send creates, and its offer. *)
Definition offered (a : ChatApp) (addr : pystr) (p : path) (content : bytes) : OutgoingTransfer :=
  Outgoing (uuid_at (app_asked a)) addr p (basename p) (zlen content) (sha256_hex content) OOffered None.
Definition offer_message (a : ChatApp) (p : path) (content : bytes) : dict :=
  make_file_offer (time_at (S (app_asked a))) (uuid_at (app_asked a)) [] [] (basename p) (zlen content) (sha256_hex content).
Definition offering (t : OutgoingTransfer) (a : ChatApp) : ChatApp :=
  with_files (set_outgoing (<[ot_transfer_id t := t]> (fs_outgoing (fst (app_files a)))) (fst (app_files a)), snd (app_files a)) a.

Lemma run_offer_file addr cid p content bs a :
  read_file (snd (app_files a)) p = Ok content -> table a !! addr = Some cid ->
  encode_frame (JObj (offer_message a p content)) = Ok bs ->
  run (offer_file addr p) a
  = (offering (offered a addr p content) (sent_to cid bs (ask_next (ask_next a))), Ok (Some (uuid_at (app_asked a)))).
Proof.
  intros Hr Hc Hbs. unfold offer_file. rewrite run_get_then. destruct (app_files a) as [s f] eqn:Ef. cbn [snd] in Hr.
  assert (forall u t, offer_file_begin f u t addr p
    = Ok (Outgoing u addr p (basename p) (zlen content) (sha256_hex content) OOffered None,
          [Send addr (make_file_offer t u [] [] (basename p) (zlen content) (sha256_hex content))])) as Hbegin
    by (intros u t; unfold offer_file_begin; by rewrite (getsize_content _ _ _ Hr), sha256_file_content, Hr).
  rewrite (run_lift_then _ _ (sha256_hex content)) by (by rewrite (getsize_content _ _ _ Hr), sha256_file_content, Hr).
  unfold new_uuid, now. rewrite !run_ask_then. rewrite (run_lift_then _ _ _ _ _ (Hbegin _ _)). cbn [ot_filename ot_size ot_checksum].
  change (app_asked (ask_next a)) with (S (app_asked a)). fold (offer_message a p content).
  set (a2 := ask_next (ask_next a)). unfold manager_send. rewrite (run_then _ _ true (sent_to cid bs a2)) by (by apply run_write).
  unfold perform, on_files. change (app_files (sent_to cid bs a2)) with (app_files a). rewrite Ef. unfold offering.
  change (app_files (sent_to cid bs a2)) with (app_files a). by rewrite Ef.
Qed.

Lemma run_send_command value addr cid p content bs a :
  strip value <> [] -> prefixb (py "/") (strip value) = true -> parse_command (strip value) = SendFile p -> p <> [] ->
  reached_at a addr -> table a !! addr = Some cid ->
  read_file (snd (app_files a)) p = Ok content -> encode_frame (JObj (offer_message a p content)) = Ok bs ->
  run (on_input_submitted value) a
  = (logged (py "[cyan]Offered " ++ basename p ++ py " (" ++ take 8 (uuid_at (app_asked a)) ++ py ")[/cyan]")
       (offering (offered a addr p content) (sent_to cid bs (ask_next (ask_next a)))), Ok tt).
Proof.
  intros Hne Hcmd Hparse Hp Hreach Hconn Hread Henc. unfold on_input_submitted. cbv zeta.
  replace (streq (strip value) []) with false by (symmetry; apply not_true_is_false; by intros E%streq_spec). rewrite Hcmd.
  unfold handle_command. rewrite Hparse. unfold cmd_send. rewrite run_get_then.
  assert (ChatApp.isfile (snd (app_files a)) p = true) as Hfile.
  { unfold ChatApp.isfile, exists_, isdir. unfold read_file in Hread. by destruct (fs_names _ !! p) as [[]|]. }
  destruct (app_files a) as [s f] eqn:Ef. cbn [snd] in Hfile. rewrite Hfile.
  replace (streq p []) with false by (symmetry; apply not_true_is_false; by intros E%streq_spec). cbn [orb negb].
  rewrite (run_then _ _ _ _ _ _ (run_reached env _ _ Hreach)), (run_then _ _ _ _ _ _ (run_connected env _ _ _ Hconn)).
  cbn [negb]. rewrite (run_then _ _ _ _ _ _ (run_offer_file _ cid p content bs a ltac:(by rewrite Ef) Hconn Henc)). apply run_log.
Qed.
(** ** The answer *)

Lemma size_kb_ok size : 0 <= size <= MAX_INCOMING_FILE_SIZE -> exists kb, size_kb size = Ok kb.
Proof.
  intros H. unfold size_kb. destruct (int_truediv_ok size 1024) as [x ->]; [unfold MAX_INCOMING_FILE_SIZE in H; lia|lia|]. cbn [rbind]. eauto.
Qed.

(** A session that accepts: it has no callback, or one that answers [True] and
    does nothing to the connections and the session. *)
Definition accepts (on_offer : offer_callback) : Prop := forall filename size who a, exists a',
  run (ask_offer on_offer filename size who) a = (a', Ok true) /\
  app_network a' = app_network a /\ app_files a' = app_files a /\ app_asked a' = app_asked a.
Lemma no_callback_accepts : accepts None.
Proof. intros filename size who a. by exists a. Qed.

(** What accepting an offer leaves at the receiver. *)
Definition accept_message (b : ChatApp) (tid : pystr) : dict := make_file_accept (time_at (S (S (S (app_asked b))))) (JStr tid).
Lemma run_offer on_offer addr cid t tid filename size checksum dest bs b :
  accepts on_offer ->
  let os := os_at (S (app_asked b)) in
  let '(s, f) := app_files b in
  let r0 := new_receiver tid filename size checksum [] dest CHUNK_SIZE in
  0 <= size <= MAX_INCOMING_FILE_SIZE -> check_disk_space os (fs_downloads_dir s) size DISK_SAFETY_MARGIN = true ->
  resolve_safe_dest_path os f filename (fs_downloads_dir s) = Ok dest ->
  (forall q, isabs (realpath os q) = true) -> fs_ok f -> fs_incoming s !! KStr tid = None ->
  table b !! addr = Some cid -> encode_frame (JObj (accept_message b tid)) = Ok bs ->
  exists b' it h f',
    run (deliver_message on_offer addr (NJson (make_file_offer t tid [] [] filename size checksum))) b = (b', Ok tt) /\
    app_network b' = app_network (sent_to cid bs b) /\ app_files b' = (set_incoming (<[KStr tid := it]> (fs_incoming s)) s, f') /\
    it = Incoming (JStr tid) addr filename size checksum (JStr (py "peer")) dest (get_part_path dest) 0 0 (Some h) /\
    recv_inv r0 f (as_receiver it, f') /\ fh_content h f' = [] /\ exists_ f dest = false.
Proof.
  intros Hyes os. destruct (app_files b) as [s f] eqn:Ef. intros r0 Hsz Hspace Hdest Habs Hf Hnew Hc Hbs.
  pose proof (resolve_dest_cases os f filename (fs_downloads_dir s) Habs) as Hres. rewrite Hdest in Hres.
  destruct Hres as (_ & _ & _ & _ & _ & Hd & Hpart & _).
  set (now3 := time_at (S (S (S (app_asked b))))).
  destruct (offer_answer_starts now3 addr tid filename size checksum (JStr (py "peer")) dest s f Hf ltac:(lia) Hnew Hpart)
    as (it & h & f' & Hans & Eit & Hinv & Hcont).
  set (b1 := ask_next b). set (b3 := ask_next (ask_next b1)).
  destruct (Hyes filename size (JStr (py "peer")) b3) as (b4 & Hb4 & Hn4 & Hf4 & Hq4).
  exists (sent_to cid bs (with_files (set_incoming (<[KStr tid := it]> (fs_incoming s)) s, f') (ask_next b4))), it, h, f'.
  split_and!; [|unfold sent_to; cbn; by rewrite Hn4|done..]. apply run_file_message; [done|]. fold b1.
  change (file_network_message on_offer addr (NJson ?d)) with (file_offer on_offer addr d). unfold file_offer.
  do 4 (erewrite run_lift_then by reflexivity).
  unfold now. rewrite !run_ask_then. change (app_asked b1) with (S (app_asked b)). fold os b3.
  rewrite (run_on_files_then _ (Some dest, [Offered (JStr tid) addr filename size]) (s, f)).
  2:{ change (app_files b3) with (app_files b). rewrite Ef. unfold handle_offer_check, safe_dest_path. rewrite (proj2 (Z.ltb_ge _ _)) by lia.
      rewrite Hspace. cbn [negb]. by rewrite Hdest. }
  replace (with_files (s, f) b3) with b3 by (unfold with_files; rewrite <- Ef; by destruct b).
  rewrite (run_then _ _ tt b3) by done.
  rewrite (run_then _ _ true b4) by exact Hb4.
  rewrite run_ask_then, Hq4. change (app_asked b3) with (S (S (S (app_asked b)))). fold now3.
  erewrite run_on_files_then; [|change (app_files (ask_next b4)) with (app_files b4); rewrite Hf4; change (app_files b3) with (app_files b); rewrite Ef; exact Hans].
  set (b5 := with_files _ (ask_next b4)). cbn [aeach file_effect]. rewrite (run_then _ _ tt (sent_to cid bs b5)); [done|].
  unfold manager_send. rewrite (run_then _ _ true (sent_to cid bs b5)); [done|]. apply run_write; [done| |done].
  unfold b5. cbn. by rewrite Hn4.
Qed.
(** ** The sending task *)

Lemma run_outgoing_get d tid t a :
  dict_item (py "transfer_id") d = Ok (JStr tid) -> fs_outgoing (fst (app_files a)) !! tid = Some t ->
  run (outgoing_get d) a = (a, Ok (Some t)).
Proof.
  intros Hd Ht. unfold outgoing_get. rewrite (run_lift_then _ _ (Some tid)) by (unfold outgoing_id; by rewrite Hd).
  rewrite run_get_then. destruct (app_files a) as [s f]. cbn in *. by rewrite Ht.
Qed.

Lemma run_accept addr now t a :
  fs_outgoing (fst (app_files a)) !! ot_transfer_id t = Some t ->
  exists a', run (on_network_message addr (NJson (make_file_accept now (JStr (ot_transfer_id t))))) a = (a', Ok tt) /\
    app_network a' = app_network a /\ snd (app_files a') = snd (app_files a) /\
    app_uploads a' = add_task t (app_uploads a) /\
    fs_outgoing (fst (app_files a')) !! ot_transfer_id t = Some (set_ostatus OSending (ot_ack t) t).
Proof.
  intros Ht. destruct (app_files a) as [s f] eqn:Ef. cbn [fst] in Ht.
  set (s' := set_outgoing (<[ot_transfer_id t := set_ostatus OSending (ot_ack t) t]> (fs_outgoing s)) s).
  exists (with_uploads (add_task t (app_uploads a)) (with_files (s', f) (ask_next a))). split.
  - apply run_file_message; [done|]. change (file_network_message app_offer addr (NJson ?d)) with (file_accept d).
    unfold file_accept. rewrite (run_then _ _ (Some t) (ask_next a)) by (apply (run_outgoing_get _ (ot_transfer_id t)); [done|cbn; by rewrite Ef]).
    rewrite (run_on_files_then _ tt (s', f)); [done|]. change (app_files (ask_next a)) with (app_files a). rewrite Ef.
    unfold handle_accept. by rewrite Ht.
  - cbn. by rewrite lookup_insert_eq.
Qed.

Lemma percent_text_ok done total : 0 <= done <= total -> total <= MAX_INCOMING_FILE_SIZE -> exists pct, percent_text done total = Ok pct.
Proof.
  intros Hd Ht. unfold percent_text. destruct (total =? 0) eqn:E; [eauto|]. zbool.
  destruct (int_truediv_ok done total) as [x ->]; [unfold MAX_INCOMING_FILE_SIZE in Ht; lia..|]. cbn [rbind]. eauto.
Qed.
Lemma run_progress tid done total a :
  0 <= done <= total -> total <= MAX_INCOMING_FILE_SIZE ->
  exists line, run (on_transfer_progress (JStr tid) done total) a = (logged line a, Ok tt).
Proof.
  intros Hd Ht. destruct (percent_text_ok done total Hd Ht) as [pct Hp]. unfold on_transfer_progress.
  rewrite (run_lift_then _ _ _ _ _ Hp). eexists. done.
Qed.

(** A chunk as the message its frame decodes to. *)
Definition chunk_message (tid : pystr) (c : chunk) : net_message :=
  let '(index, offset, data) := c in NFileData (FileDataMsg tid index offset data).
Lemma chunk_framed b c :
  length b = 16%nat -> 0 <= fst (fst c) < 2 ^ 32 -> 0 <= snd (fst c) < 2 ^ 64 -> zlen (chunk_data c) <= CHUNK_SIZE ->
  exists bs, encode_binary_frame (chunk_payload b c) = Ok bs /\ framed bs (chunk_message (uuid_str b) c).
Proof.
  destruct c as [[i o] d]. cbn [fst snd chunk_data chunk_payload chunk_message]. intros Hb Hi Ho Hd.
  assert (frame_ok (FBinary (b ++ be_encode 4 i ++ be_encode 8 o ++ d)) = true) as Hf.
  { cbn [frame_ok]. assert (zlen b = 16) as Eb by (unfold zlen; by rewrite Hb). rewrite !zlen_app, Eb.
    assert (forall n z, zlen (be_encode n z) = Z.of_nat n) as He by (intros n z; unfold zlen; by rewrite be_encode_length).
    rewrite !He. pose proof (zlen_nonneg d). unfold CHUNK_SIZE, DEFAULT_CHUNK_SIZE in Hd. unfold MAX_MESSAGE_SIZE.
    apply andb_true_iff. split; [apply Z.ltb_lt|apply Z.leb_le]; lia. }
  destruct (frame_ok_encodes _ Hf) as [bs Hbs]. exists bs. split; [exact Hbs|]. intros rest.
  apply (carried_message (OBinary (b ++ be_encode 4 i ++ be_encode 8 o ++ d))); [|exact Hbs]. split; [exact Hf|].
  by apply decode_file_data_parts.
Qed.

Lemma run_send_each b t cid cs index done a :
  length b = 16%nat -> ot_transfer_id t = uuid_str b -> table a !! ot_addr_key t = Some cid ->
  contiguous CHUNK_SIZE index done cs ->
  Forall (fun c : chunk => 0 <= fst (fst c) < 2 ^ 32 /\ 0 <= snd (fst c) < 2 ^ 64) cs ->
  0 <= done -> done + zlen (concat (map chunk_data cs)) <= ot_size t -> ot_size t <= MAX_INCOMING_FILE_SIZE ->
  exists a', run (send_each t cs done) a = (a', Ok true) /\ put cid (map (chunk_message (uuid_str b)) cs) a a' /\
    app_files a' = app_files a /\ app_uploads a' = app_uploads a.
Proof.
  intros Hb Htid. revert index done a. induction cs as [|[[i o] d] cs IH]; intros index done a Hc Hcont Hbd Hdone Hle Hmax.
  - exists a. split_and!; [done|by apply put_same|done..].
  - cbn [contiguous] in Hcont. destruct Hcont as (<- & -> & [Hd0 Hd] & Hcont). apply Forall_cons in Hbd as [[Hi Ho] Hbd]. cbn [fst snd] in Hi, Ho.
    cbn [map concat chunk_data snd] in Hle. rewrite zlen_app in Hle. pose proof (zlen_nonneg (concat (map chunk_data cs))). pose proof (zlen_nonneg d).
    destruct (chunk_framed b (i, done, d) Hb Hi Ho Hd) as (bs & Hbs & Hfr).
    destruct (run_progress (uuid_str b) (done + zlen d) (ot_size t) (sent_to cid bs a)) as [line Hline]; [lia|lia|].
    destruct (IH (i + 1) (done + zlen d) (logged line (sent_to cid bs a))) as (a' & Hrun & Hput & Hf & Hu); [done|done|done|lia|lia|done|].
    exists a'. split.
    + cbn [send_each]. rewrite Htid. rewrite (run_lift_then _ _ (chunk_payload b (i, done, d))) by (by apply encode_file_data_ok; [apply parse_uuid_str|..]).
      unfold manager_send_binary. rewrite (run_then _ _ true (sent_to cid bs a)) by (by apply run_write). cbn [negb].
      rewrite (run_then _ _ _ _ _ _ Hline). exact Hrun.
    + split_and!; [|done..]. change (map (chunk_message (uuid_str b)) ((i, done, d) :: cs)) with ([chunk_message (uuid_str b) (i, done, d)] ++ map (chunk_message (uuid_str b)) cs).
      eapply put_trans; [|exact Hput]. by apply (put_written cid bs).
Qed.
Definition received_text (p : path) : pystr := py "[green]File received: " ++ p ++ py "[/green]".
Definition done_message (t : OutgoingTransfer) : dict := make_file_done (ot_transfer_id t) (ot_checksum t).
Definition without (tid : pystr) (a : ChatApp) : ChatApp :=
  with_files (set_outgoing (delete tid (fs_outgoing (fst (app_files a)))) (fst (app_files a)), snd (app_files a)) a.

(** The task sends the file and waits; acknowledged, it reports success. *)
Lemma run_upload b t ts cid content a :
  let tid := ot_transfer_id t in
  up_tasks (app_uploads a) = t :: ts -> length b = 16%nat -> tid = uuid_str b -> table a !! ot_addr_key t = Some cid ->
  read_file (snd (app_files a)) (ot_filepath t) = Ok content -> ot_size t = zlen content -> zlen content <= MAX_INCOMING_FILE_SIZE ->
  (exists bs, encode_frame (JObj (done_message t)) = Ok bs /\ framed bs (NJson (done_message t))) ->
  exists cs a' K,
    contiguous CHUNK_SIZE 0 0 cs /\ concat (map chunk_data cs) = content /\
    suspends env begin_upload a a' (Acking tid) K /\
    put cid (map (chunk_message tid) cs ++ [NJson (done_message t)]) a a' /\
    app_files a' = (mark_outgoing tid OAwaitingAck (fst (app_files a)), snd (app_files a)) /\
    forall a4, up_acks (app_uploads a4) !! tid = Some true ->
      K false a4 = (without tid (logged (received_text (ot_filepath t)) a4), Ok tt).
Proof.
  intros tid Htasks Hb Htid Hconn Hread Hsz Hmax (bs & Hbs & Hfr).
  destruct (read_chunks_all _ _ _ Hread Hmax) as (cs & Hcs & Hc & Hcat & Hbd).
  set (a0 := with_uploads (MkUploads ts (up_acks (app_uploads a))) a).
  destruct (run_send_each b t cid cs 0 0 a0 Hb Htid Hconn Hc Hbd) as (a1 & Hrun & Hput & Hf & _); [lia|rewrite Hcat; lia|lia|].
  set (a2 := sent_to cid bs a1). set (a3 := with_files (mark_outgoing tid OAwaitingAck (fst (app_files a)), snd (app_files a)) a2).
  exists cs, a3. eexists. split; [done|]. split; [done|]. split; [|split; [|split; [done|]]].
  - unfold begin_upload. eapply suspends_after; [done|]. rewrite Htasks. eapply suspends_after; [done|]. fold a0.
    unfold send_chunks_task. apply suspends_bind, suspends_catch, suspends_catch.
    destruct (app_files a) as [s f] eqn:Ef. eapply suspends_after; [done|]. change (app_files (with_uploads _ _)) with (app_files a). rewrite Ef. cbn [snd] in Hcs.
    eapply suspends_after; [unfold perform, alift; rewrite Hcs; done|]. cbv beta.
    eapply suspends_after; [exact Hrun|]. cbn [negb].
    eapply suspends_after; [apply (run_write env _ _ cid bs); [exact Henv|change (table a1 !! ot_addr_key t = Some cid); rewrite (put_table _ _ _ _ Hput); exact Hconn|exact Hbs]|]. fold a2.
    eapply suspends_after; [unfold perform, on_files; change (app_files a2) with (app_files a1); rewrite Hf; change (app_files a0) with (app_files a); rewrite Ef; done|].
    apply suspends_bind, suspends_await.
  - eapply put_trans; [|eapply put_written; [exact Hfr|done]]. rewrite Htid. apply (put_trans cid [] _ a a0); [by apply put_same|exact Hput].
  - intros a4 Hack. cbv beta iota. rewrite run_get_then. fold tid. rewrite Hack. change (negb false && default false (Some true)) with true.
    unfold on_transfer_complete at 1. cbv beta iota. rewrite run_log. unfold without. by destruct a4 as [? ? ? ? ? ? [? ?] ? ? ?].
Qed.
(** ** The chunks *)

Hypothesis Hwrites : forall n, write_failure_at n = None.

Lemma run_chunk on_offer r0 f0 addr tid index offset d s t f h b :
  app_files b = (s, f) -> fs_incoming s !! KStr tid = Some t -> it_transfer_id t = JStr tid -> it_handle t = Some h ->
  recv_inv r0 f0 (as_receiver t, f) -> index = it_expected_chunk_index t -> offset = it_bytes_received t ->
  it_bytes_received t + zlen d <= r_size r0 -> r_size r0 <= MAX_INCOMING_FILE_SIZE ->
  exists b' t' f' h',
    run (deliver_message on_offer addr (chunk_message tid (index, offset, d))) b = (b', Ok tt) /\
    app_network b' = app_network b /\ app_files b' = (set_incoming (<[KStr tid := t']> (fs_incoming s)) s, f') /\
    it_transfer_id t' = JStr tid /\ it_handle t' = Some h' /\ recv_inv r0 f0 (as_receiver t', f') /\
    it_expected_chunk_index t' = it_expected_chunk_index t + 1 /\ it_bytes_received t' = it_bytes_received t + zlen d /\
    fh_content h' f' = fh_content h f ++ d.
Proof.
  intros Ef Ht Hid Hh Hi -> -> Hle Hmax.
  destruct (write_chunk_next r0 f0 spill_at d (as_receiver t) f h Hi Hh Hle) as (r1 & f1 & h1 & Hw & Hi1 & Hh1 & Hc1 & Hx1 & Hb1).
  cbn [as_receiver r_expected_chunk_index r_bytes_received] in Hw, Hx1, Hb1.
  pose proof (handle_chunk_refines spill_at None tid (it_expected_chunk_index t) (it_bytes_received t) d s f t Ht Hid ltac:(by rewrite Hh)) as Hr.
  rewrite Hw in Hr. destruct Hr as (t1 & Hch & Et1 & Hid1). subst r1. cbn in Hx1, Hb1, Hh1.
  set (b1 := with_files (set_incoming (<[KStr tid := t1]> (fs_incoming s)) s, f1) (ask_next (ask_next b))).
  assert (it_size t = r_size r0) as Esz by (destruct Hi as ((E & _) & _); exact E). destruct Hi as (_ & _ & Hb & _). cbn in Hb.
  pose proof (zlen_nonneg d).
  destruct (run_progress tid (it_bytes_received t1) (it_size t) b1) as [line Hline]; [lia|lia|].
  exists (logged line b1), t1, f1, h1. split_and!; try done. apply run_file_message; [done|].
  change (run (file_chunk (FileDataMsg tid (it_expected_chunk_index t) (it_bytes_received t) d)) (ask_next b) = (logged line b1, Ok tt)).
  unfold file_chunk. cbn [fd_transfer_id fd_sequence fd_offset fd_data]. rewrite run_ask_then, Hwrites.
  erewrite run_on_files_then; [|change (app_files (ask_next (ask_next b))) with (app_files b); rewrite Ef; exact Hch].
  cbn [aeach file_effect]. fold b1. rewrite (run_then _ _ _ _ _ _ Hline). done.
Qed.

Lemma run_chunks on_offer r0 f0 addr tid n cs s t f h b :
  app_files b = (s, f) -> fs_incoming s !! KStr tid = Some t -> it_transfer_id t = JStr tid -> it_handle t = Some h ->
  recv_inv r0 f0 (as_receiver t, f) -> contiguous n (it_expected_chunk_index t) (it_bytes_received t) cs ->
  it_bytes_received t + zlen (concat (map chunk_data cs)) <= r_size r0 -> r_size r0 <= MAX_INCOMING_FILE_SIZE ->
  exists b' t' f' h',
    run (aeach (deliver_message on_offer addr) (map (chunk_message tid) cs)) b = (b', Ok tt) /\
    app_network b' = app_network b /\ app_files b' = (set_incoming (<[KStr tid := t']> (fs_incoming s)) s, f') /\
    it_transfer_id t' = JStr tid /\ it_handle t' = Some h' /\ recv_inv r0 f0 (as_receiver t', f') /\
    fh_content h' f' = fh_content h f ++ concat (map chunk_data cs).
Proof.
  revert s t f h b. induction cs as [|[[i o] d] cs IH]; intros s t f h b Ef Ht Hid Hh Hi Hc Hle Hmax.
  - exists b, t, f, h. split_and!; try done; [|cbn; by rewrite app_nil_r]. rewrite Ef, insert_id by done. by destruct s.
  - cbn [contiguous] in Hc. destruct Hc as (-> & -> & Hd & Hc). cbn [map concat chunk_data snd] in *. rewrite zlen_app in Hle.
    pose proof (zlen_nonneg (concat (map chunk_data cs))).
    destruct (run_chunk on_offer r0 f0 addr tid (it_expected_chunk_index t) (it_bytes_received t) d s t f h b)
      as (b1 & t1 & f1 & h1 & Hr1 & Hn1 & Hf1 & Hid1 & Hh1 & Hi1 & Hx1 & Hb1 & Hc1); [done..|lia|done|].
    destruct (IH (set_incoming (<[KStr tid := t1]> (fs_incoming s)) s) t1 f1 h1 b1) as (b' & t' & f' & h' & Hr & Hn & Hf & Hid' & Hh' & Hi' & Hc');
      [done|by cbn; rewrite lookup_insert_eq|done..|by rewrite Hx1, Hb1|lia|done|].
    exists b', t', f', h'. split_and!; [|congruence| |done..|by rewrite Hc', Hc1, app_assoc].
    + cbn [aeach]. by rewrite (run_then _ _ _ _ _ _ Hr1).
    + rewrite Hf. unfold set_incoming. cbn [fs_incoming fs_outgoing fs_downloads_dir]. by rewrite insert_insert_eq.
Qed.

(** ** The completion *)

Definition ack_message (tid : pystr) : dict := make_file_complete_ack (JStr tid) true [].
Lemma run_done on_offer r0 f0 addr cid tid checksum s t f h content bs b :
  app_files b = (s, f) -> recv_inv r0 f0 (as_receiver t, f) -> fs_incoming s !! KStr tid = Some t ->
  it_transfer_id t = JStr tid -> it_handle t = Some h -> fh_content h f = content -> it_size t = zlen content ->
  it_expected_checksum t = sha256_hex content -> fs_names f0 !! r_dest_path r0 = None ->
  table b !! addr = Some cid -> encode_frame (JObj (ack_message tid)) = Ok bs ->
  exists b' f', run (deliver_message on_offer addr (NJson (make_file_done tid checksum))) b
      = (logged (received_text (r_dest_path r0)) b', Ok tt) /\
    app_network b' = app_network (sent_to cid bs b) /\ app_files b' = (set_incoming (delete (KStr tid) (fs_incoming s)) s, f') /\
    read_file f' (r_dest_path r0) = Ok content.
Proof.
  intros Ef Hi Ht Hid Hh Hc Hsz Hck Hfree Hconn Hbs.
  destruct (handle_done_publishes r0 f0 addr tid s t f h content Hi Ht Hid Hh Hc Hsz Hck Hfree) as (f1 & f2 & Hdone & Hend & Hfin).
  set (s' := set_incoming (delete (KStr tid) (fs_incoming s)) s). set (b1 := with_files (s', f1) (ask_next b)).
  exists (with_files (s', f2) (sent_to cid bs b1)), f2. split_and!; [|done..]. apply run_file_message; [done|].
  change (file_network_message on_offer addr (NJson ?d)) with (file_done addr d). unfold file_done. erewrite run_lift_then by reflexivity.
  erewrite run_on_files_then; [|change (app_files (ask_next b)) with (app_files b); rewrite Ef; exact Hdone]. cbv beta iota.
  change (make_file_complete_ack (JStr tid) true []) with (ack_message tid).
  rewrite (run_then _ _ tt (sent_to cid bs b1)).
  2:{ cbn [aeach file_effect]. rewrite (run_then _ _ tt (sent_to cid bs b1)); [done|].
      unfold manager_send. rewrite (run_then _ _ true (sent_to cid bs b1)) by (by apply run_write). done. }
  rewrite (run_on_files_then _ [Complete (JStr tid) true (Some (r_dest_path r0)) None] (s', f2)).
  - cbn [aeach file_effect]. unfold on_transfer_complete. rewrite (run_then _ _ _ _ _ _ (run_log env _ _)). done.
  - change (app_files (sent_to cid bs b1)) with (s', f1). cbv beta iota. by rewrite Hend.
Qed.

(** Everything the sending task sends, at the receiver. *)
Lemma run_download on_offer addr cid tid checksum name content sender dest s f0 f1 t h bs cs b :
  app_files b = (set_incoming (<[KStr tid := t]> (fs_incoming s)) s, f1) ->
  t = Incoming (JStr tid) addr name (zlen content) (sha256_hex content) sender dest (get_part_path dest) 0 0 (Some h) ->
  recv_inv (new_receiver tid name (zlen content) (sha256_hex content) [] dest CHUNK_SIZE) f0 (as_receiver t, f1) ->
  fh_content h f1 = [] -> exists_ f0 dest = false -> fs_incoming s !! KStr tid = None ->
  contiguous CHUNK_SIZE 0 0 cs -> concat (map chunk_data cs) = content -> zlen content <= MAX_INCOMING_FILE_SIZE ->
  table b !! addr = Some cid -> encode_frame (JObj (ack_message tid)) = Ok bs ->
  exists b' f',
    run (aeach (deliver_message on_offer addr) (map (chunk_message tid) cs ++ [NJson (make_file_done tid checksum)])) b
      = (logged (received_text dest) b', Ok tt) /\
    app_network b' = app_network (sent_to cid bs b) /\ app_files b' = (s, f') /\ read_file f' dest = Ok content.
Proof.
  intros Ef Et Hi Hc0 Hfree Hnew Hcont Hcat Hmax Hconn Hbs. set (r0 := new_receiver _ _ _ _ _ _ _) in Hi.
  set (s1 := set_incoming (<[KStr tid := t]> (fs_incoming s)) s) in *.
  destruct (run_chunks on_offer r0 f0 addr tid CHUNK_SIZE cs s1 t f1 h b Ef) as (b1 & t' & f' & h' & Hr1 & Hn1 & Hf1 & Hid & Hh & Hi' & Hc');
    [by cbn; rewrite lookup_insert_eq|by subst t|by subst t|exact Hi|by subst t|subst t; cbn; rewrite Hcat; lia|exact Hmax|].
  rewrite Hc0, Hcat in Hc'. cbn [app] in Hc'.
  assert (it_size t' = zlen content /\ it_expected_checksum t' = sha256_hex content) as [Es Ec]
    by (destruct Hi' as ((E1 & E2 & _) & _); exact (conj E1 E2)).
  destruct (run_done on_offer r0 f0 addr cid tid checksum (set_incoming (<[KStr tid := t']> (fs_incoming s1)) s1) t' f' h' content bs b1 Hf1 Hi')
    as (b2 & f2 & Hr2 & Hn2 & Hf2 & Hfin);
    [by cbn; rewrite lookup_insert_eq|exact Hid|exact Hh|exact Hc'|exact Es|exact Ec|by apply free_path|unfold table; by rewrite Hn1|exact Hbs|].
  exists b2, f2. split_and!; [| |rewrite Hf2|exact Hfin].
  - rewrite perform_each_app, (run_then _ _ _ _ _ _ Hr1). cbn [aeach]. by rewrite (run_then _ _ _ _ _ _ Hr2).
  - rewrite Hn2. unfold sent_to. cbn. by rewrite Hn1.
  - f_equal. unfold s1, set_incoming. cbn. rewrite insert_insert_eq, delete_insert_id by exact Hnew. by destruct s.
Qed.

Lemma run_complete_ack addr tid t a :
  fs_outgoing (fst (app_files a)) !! tid = Some t -> ot_transfer_id t = tid ->
  exists a', run (on_network_message addr (NJson (ack_message tid))) a = (a', Ok tt) /\
    app_uploads a' = set_ack tid true (app_uploads a).
Proof.
  intros Ht Hid. destruct (app_files a) as [s f] eqn:Ef. cbn [fst] in Ht.
  set (s' := handle_complete_ack tid true s).
  exists (with_uploads (set_ack tid true (app_uploads a)) (with_files (s', f) (ask_next a))). split; [|done].
  apply run_file_message; [done|]. change (file_network_message app_offer addr (NJson ?d)) with (file_complete_ack d).
  unfold file_complete_ack. rewrite (run_then _ _ (Some t) (ask_next a)) by (apply (run_outgoing_get _ tid); [done|cbn; by rewrite Ef]).
  change (truthy _) with true. rewrite Hid.
  rewrite (run_on_files_then _ tt (s', f)); [done|]. change (app_files (ask_next a)) with (app_files a). by rewrite Ef.
Qed.
End FileRuns.
