(* ===== verification/ChatFileProps.v ===== *)
(** * ui.py: a file, from one user's command to the other's disk

    And what the application's own offer dialog does to it. *)

From S2P Require Import Prelude PyStr PyFloat PyText Json JsonFacts PyValue Sha256 SecurityEvents EventBus Frame FileData Messages FileSys TextFile Transfer TransferFacts Peer Chat FileSession FileSessionFacts FloatFacts Discovery App Tasks ChatApp ChatLoop ChatAppFacts ChatAppRuns ChatFileRuns.
From stdpp Require Import base gmap sets strings list option list_numbers.
From Stdlib Require Import ZArith Lia Strings.Byte.
Open Scope Z_scope.
Open Scope peerc_scope.

(** A JSON message a frame has room for. *)
Definition fits (d : dict) : Prop := zlen (dumps (JObj d)) <= MAX_MESSAGE_SIZE.
Definition carried (d : dict) : Prop := exists bs, encode_frame (JObj d) = Ok bs /\ framed bs (NJson d).

(** The four control messages of a transfer reach the other end. *)
Lemma control_carried bts now1 now2 tid name content :
  tid = uuid_str bts -> kok [name] = true -> float_ok now1 = true -> float_ok now2 = true -> zlen content <= MAX_INCOMING_FILE_SIZE ->
  let ms := [make_file_offer now1 tid [] [] name (zlen content) (sha256_hex content); make_file_accept now2 (JStr tid);
             make_file_done tid (sha256_hex content); ack_message tid] in
  Forall fits ms -> Forall carried ms.
Proof.
  intros -> Hname Ht1 Ht2 Hmax ms Hfit. pose proof (uuid_str_ok bts) as Htok. pose proof (checksum_ok content) as Hck.
  pose proof (zlen_nonneg content). unfold ms in *. rewrite !Forall_cons in Hfit. destruct Hfit as (Hfo & Hfa & Hfd & Hfk & _).
  repeat (apply Forall_cons; split); [| | | |constructor]; apply produced_framed; try assumption.
  - apply P_file_offer; [cbn [sok forallb]; by rewrite Htok| |unfold MAX_INCOMING_FILE_SIZE in Hmax; lia|exact Ht1].
    cbn [kok forallb] in *. rewrite Hck, !andb_true_r in *. exact Hname.
  - by apply P_file_accept.
  - apply P_file_done. cbn [sok forallb]. apply andb_true_iff in Hck as [-> _]. by rewrite Htok.
  - by apply P_file_complete_ack.
Qed.

(** C9: a file from one user's command to the other device's disk and back. In the
    running application /send with the path of a file of at most 2 GiB puts one
    offer on the connection to the active peer. A receiving session that accepts
    offers (it has no offer callback, the default, or one that answers [True])
    answers with one accept message; the sending task then sends the file in
    chunks and the final message, and waits; what arrives, handled message by
    message, the writes to disk succeeding, leaves a file with exactly the
    sender's content under the checked destination, and one success
    acknowledgement; that wakes the sending task, which reports success and ends
    with the transfer forgotten on both sides. Empty files included. (The
    callback of this application is not one that accepts:
    [app_leaves_offers_unanswered].) *)
Theorem file_end_to_end (PFa PFb : Platform) env on_offer value p content bts addr cid addr_b cid_b dest a b :
  let tid := uuid_at (Platform := PFa) (app_asked a) in
  let offer := offer_message (PF := PFa) a p content in
  let accept := accept_message (PF := PFb) b tid in
  let final := make_file_done tid (sha256_hex content) in
  let ack := ack_message tid in
  let os := os_at (Platform := PFb) (S (app_asked b)) in
  let '(s, disk) := app_files b in
  responsive env -> accepts env on_offer -> (forall n, write_failure_at (Platform := PFb) n = None) ->
  prefixb (py "/") (strip value) = true -> parse_command (strip value) = SendFile p -> p <> [] ->
  reached_at (PF := PFa) a addr -> table a !! addr = Some cid -> up_tasks (app_uploads a) = [] ->
  read_file (snd (app_files a)) p = Ok content -> zlen content <= MAX_INCOMING_FILE_SIZE ->
  tid = uuid_str bts -> length bts = 16%nat -> kok [basename p] = true ->
  float_ok (time_at (Platform := PFa) (S (app_asked a))) = true -> float_ok (time_at (Platform := PFb) (3 + app_asked b)) = true ->
  Forall fits [offer; accept; final; ack] ->
  table b !! addr_b = Some cid_b -> fs_ok disk -> fs_incoming s !! KStr tid = None ->
  (forall q, isabs (realpath os q) = true) -> check_disk_space os (fs_downloads_dir s) (zlen content) DISK_SAFETY_MARGIN = true ->
  resolve_safe_dest_path os disk (basename p) (fs_downloads_dir s) = Ok dest ->
  exists a1 b1 a2 cs a3 K b2 a4 a5 disk',
    perform env (on_input_submitted (PF := PFa) value) a = (a1, Ok tt) /\ sent cid [NJson offer] a a1 /\
    perform env (deliver_message (PF := PFb) on_offer addr_b (NJson offer)) b = (b1, Ok tt) /\ sent cid_b [NJson accept] b b1 /\
    perform env (on_network_message (PF := PFa) addr (NJson accept)) a1 = (a2, Ok tt) /\
    suspends env (begin_upload (PF := PFa)) a2 a3 (Acking tid) K /\ sent cid (cs ++ [NJson final]) a2 a3 /\
    perform env (aeach (deliver_message (PF := PFb) on_offer addr_b) (cs ++ [NJson final])) b1
      = (logged (PF := PFb) (received_text dest) b2, Ok tt) /\ sent cid_b [NJson ack] b1 b2 /\
    perform env (on_network_message (PF := PFa) addr (NJson ack)) a3 = (a4, Ok tt) /\
    K false a4 = (a5, Ok tt) /\ a5 = without tid (logged (PF := PFa) (received_text p) a4) /\
    app_files b2 = (s, disk') /\ read_file disk' dest = Ok content.
Proof.
  intros tid offer accept final ack os. destruct (app_files b) as [s disk] eqn:Eb.
  intros Henv Hyes Hwrites Hslash Hparse Hp Hreach Hca Htasks Hread Hmax Htid Hb16 Hname Hta Htb Hfit Hcb Hfs Hnew Habs Hspace Hdest.
  assert (strip value <> []) as Hne by (by intros E; rewrite E in Hslash).
  pose proof (zlen_nonneg content) as Hlen.
  assert (Forall carried [offer; accept; final; ack]) as Hcar by (by apply (control_carried bts)).
  rewrite !Forall_cons in Hcar. destruct Hcar as ((bo & Ho & Fo) & (ba & Ha & Fa) & (bd & Hd & Fd) & (bk & Hk & Fk) & _).
  (* the offer *)
  set (t := offered (PF := PFa) a addr p content).
  pose proof (run_send_command (PF := PFa) env Henv value addr cid p content bo a Hne Hslash Hparse Hp Hreach Hca Hread Ho) as R1.
  fold t in R1. set (a1 := logged (PF := PFa) _ _) in R1.
  (* the answer *)
  pose proof (run_offer (PF := PFb) env Henv on_offer addr_b cid_b (time_at (Platform := PFa) (S (app_asked a))) tid (basename p) (zlen content) (sha256_hex content) dest ba b Hyes) as R2.
  rewrite Eb in R2. destruct R2 as (b1 & it & h & f1 & R2 & Hn1 & Hf1 & Eit & Hi1 & Hc1 & Hfree); try assumption; [lia|].
  set (r0 := new_receiver _ _ _ _ _ _ _) in Hi1.
  (* the sending task *)
  destruct (run_accept (PF := PFa) env addr (time_at (Platform := PFb) (S (S (S (app_asked b))))) t a1) as (a2 & R3 & Hn2 & Hd2 & Hu2 & Ho2).
  { cbn. by rewrite lookup_insert_eq. }
  destruct (run_upload (PF := PFa) env Henv bts t [] cid content a2) as (cs & a3 & K & Hcont & Hcat & R4 & Hput & Hf3 & HK);
    [by rewrite Hu2; cbn; rewrite Htasks|exact Hb16|exact Htid|unfold table; rewrite Hn2; exact Hca|by rewrite Hd2|reflexivity|exact Hmax|by exists bd|].
  (* the file arrives *)
  destruct (run_download (PF := PFb) env Henv Hwrites on_offer addr_b cid_b tid (sha256_hex content) (basename p) content (JStr (py "peer")) dest s disk f1 it h bk cs b1)
    as (b2 & disk' & R5 & Hn5 & Hf5 & Hfin); try assumption; [unfold table; rewrite Hn1; exact Hcb|].
  (* the acknowledgement *)
  destruct (run_complete_ack (PF := PFa) env addr tid (set_ostatus OAwaitingAck None t) a3) as (a4 & R6 & Hu4); [|done|].
  { rewrite Hf3. cbn [fst]. unfold mark_outgoing. change (ot_transfer_id t) with tid in *. rewrite Ho2. cbn. by rewrite lookup_insert_eq. }
  exists a1, b1, a2, (map (chunk_message tid) cs), a3, K, b2, a4, (without tid (logged (PF := PFa) (received_text p) a4)), disk'.
  split; [exact R1|]. split; [by apply put_sent, (put_written cid bo)|]. split; [exact R2|]. split; [by apply put_sent, (put_written cid_b ba)|].
  split; [exact R3|]. split; [exact R4|]. split; [by apply put_sent|]. split; [exact R5|]. split; [by apply put_sent, (put_written cid_b bk)|].
  split; [exact R6|]. split; [apply HK; rewrite Hu4; cbn; by rewrite lookup_insert_eq|]. done.
Qed.

(** The application never answers an offer. Its callback asks for a dialog with
    [push_screen_wait], which the library allows in a worker only, and it runs in
    the read loop of a connection; the exception ends the handler and stays in
    the event bus. Whatever an offer that passes the checks says, all it leaves
    is a line in the log: nothing is sent, and no transfer begins. *)
Theorem app_leaves_offers_unanswered (PF : Platform) env addr t tid filename size checksum dest b :
  let os := os_at (S (app_asked b)) in
  let '(s, f) := app_files b in
  0 <= size <= MAX_INCOMING_FILE_SIZE -> check_disk_space os (fs_downloads_dir s) size DISK_SAFETY_MARGIN = true ->
  resolve_safe_dest_path os f filename (fs_downloads_dir s) = Ok dest ->
  exists line, perform env (on_network_message addr (NJson (make_file_offer t tid [] [] filename size checksum))) b
    = (logged line (ask_next (ask_next (ask_next b))), Ok tt).
Proof.
  intros os. destruct (app_files b) as [s f] eqn:Ef. intros Hsz Hspace Hdest. destruct (size_kb_ok size Hsz) as [kb Hkb].
  set (b3 := ask_next (ask_next (ask_next b))). eexists. apply (run_file_outcome env app_offer addr _ b _ (Err NoActiveWorker)); [done|].
  change (file_network_message app_offer addr (NJson ?d)) with (file_offer app_offer addr d). unfold file_offer.
  do 4 (erewrite run_lift_then by reflexivity). unfold now. rewrite !run_ask_then.
  change (app_asked (ask_next b)) with (S (app_asked b)). fold os b3.
  rewrite (run_on_files_then env _ (Some dest, [Offered (JStr tid) addr filename size]) (s, f)).
  2:{ change (app_files b3) with (app_files b). rewrite Ef. unfold handle_offer_check, safe_dest_path. rewrite (proj2 (Z.ltb_ge _ _)) by lia.
      rewrite Hspace. cbn [negb]. by rewrite Hdest. }
  replace (with_files (s, f) b3) with b3 by (unfold with_files; rewrite <- Ef; by destruct b).
  rewrite (run_then env _ tt b3) by done. rewrite perform_bind. unfold app_offer, ask_offer, on_offer_received.
  rewrite (run_lift_then _ _ (rich_escape (py "peer"))) by reflexivity. rewrite (run_lift_then _ _ _ _ _ Hkb).
  rewrite (run_then _ _ _ _ _ _ (run_log env _ _)). reflexivity.
Qed.

(** Two devices on one network; the first has a file to send. *)
Definition ids_platform : Platform := {|
  isprintable := fun _ => true; lower_text := lower; rich_escape := fun s => s; markup_ok := fun _ => true; strip_texts := fun l => l;
  exn_text := fun _ => py "error"; time_at := fun n => float_of_int (Z.of_nat n); uuid_at := fun n => uuid_str (replicate 16 (z2b (Z.of_nat n)));
  host_at := fun _ => HostInfo None None None None; spill_at := length; write_failure_at := fun _ => None; identity_file := py "/h/.peerc/identity.json";
  os_at := fun _ => Host (fun _ => None) (fun p => py "/home/u/" ++ p); mdns_available := false |}.
Definition demo_sender : ChatApp :=
  demo_chat_app (py "a1") (py "ann") [] [(KStr (py "b2"), demo_peer "b2" "bob")] (Some (JStr (py "b2"))) (py "10.0.0.2:5656") demo_fs.

Lemma file_end_to_end_witness :
  exists b2 disk', app_files b2 = (fst (app_files demo_bob), disk') /\ read_file disk' (py "downloads/src") = Ok (pyb "abcde").
Proof.
  destruct (file_end_to_end ids_platform demo_platform all_well None (py " /send src") (py "src") (pyb "abcde") (replicate 16 (z2b 0))
    (py "10.0.0.2:5656") 0 (py "10.0.0.1:4000") 0 (py "downloads/src") demo_sender demo_bob)
    as (a1 & b1 & a2 & cs & a3 & K & b2 & a4 & a5 & disk' & H).
  - intros addr. reflexivity.
  - apply no_callback_accepts.
  - intros n. reflexivity.
  - vm_compute. reflexivity.
  - vm_compute. reflexivity.
  - discriminate.
  - exists (JStr (py "b2")), (demo_peer "b2" "bob"). split; [reflexivity|]. split; reflexivity.
  - reflexivity.
  - reflexivity.
  - vm_compute. reflexivity.
  - vm_compute. discriminate.
  - reflexivity.
  - reflexivity.
  - vm_compute. reflexivity.
  - vm_compute. reflexivity.
  - vm_compute. reflexivity.
  - repeat constructor; vm_compute; discriminate.
  - reflexivity.
  - split; [intros p i Hl|intros p q i Hl]; cbn in Hl; rewrite lookup_empty in Hl; discriminate Hl.
  - reflexivity.
  - intros q. reflexivity.
  - reflexivity.
  - vm_compute. reflexivity.
  - exists b2, disk'. split; apply H.
Defined.
