(* ===== verification/Startup.v ===== *)
(** * The start of the application, from its disk and keyring

    The beginning of [on_mount] of ui.py: the identity is loaded, or created on
    the first run, by the wrapper of discovery.py, then loaded again by
    core.identity for the public key; then the application is set up with what
    was learnt. The handlers of [ChatLoop] take over from there. *)

From S2P Require Import Prelude PyStr PyFloat Json JsonFacts PyValue Sha256 FileSys TextFile CryptoIface ToyCrypto Identity SecurityEvents EventBus Frame FileData Messages Transfer Peer Chat FileSession IdentityStore Discovery App Tasks ChatApp ChatLoop ChatAppFacts ChatAppRuns.
From stdpp Require Import base gmap sets strings list option relations.
From Stdlib Require Import ZArith Lia.
Open Scope Z_scope.
Open Scope peerc_scope.

Section Startup.
Context {E : Ed25519} {K : Keyring} `{PF : Platform}.

(** What the outside answers while the identity is loaded: the private keys the
    library would draw and the times it would read, for the first and the second
    load, and the name of the host. *)
Record start_answers : Type := MkStart {
  sa_umask : Z;
  sa_hostname : pystr;
  sa_fresh1 : ed_priv;
  sa_now1 : pyfloat;
  sa_fresh2 : ed_priv;
  sa_now2 : pyfloat
}.

(** The device id, the display name and the public key. *)
Definition load_my_identity (s : start_answers) (ks : KeyStore) : io world (pystr * json * bytes) :=
  let! (peer_id, display_name) :=
    discovery_load_or_create_identity spill_at (sa_umask s) (sa_fresh1 s) (sa_now1 s) (sa_hostname s) identity_file ks in
  let! d := load_or_create_identity spill_at (sa_umask s) (sa_fresh2 s) (sa_now2 s) None identity_file ks in
  iret (peer_id, display_name, public_key_bytes (di_keypair d)).
End Startup.

(** ** The first run *)

Section FirstRun.
Context {E : Ed25519} {EL : Ed25519Laws E} {K : Keyring} {KL : KeyringLaws K} `{PF : Platform}.

(** The name under which a first run goes. *)
Definition first_name (hostname : pystr) : pystr := match hostname with [] => py "peer" | _ => hostname end.

(** What holds before a first run: no identity file, and no older key in the keyring. *)
Definition first_start (s : start_answers) (ks : KeyStore) (w : world) : Prop :=
  fs_ok (w_fs w) /\ exists_ (w_fs w) identity_file = false /\ identity_file <> plaintext_fallback_path ks /\
  str_ok (sa_hostname s) = true /\ float_ok (sa_now1 s) = true /\ fallback_clear ks w.

(** The second load, and every later run, find what the first load stored. *)
Lemma first_run_identity s ks w x w1 : first_start s ks w -> load_my_identity s ks w = (Ok x, w1) ->
  let kp := generate_keypair (sa_fresh1 s) in
  x = (kp_device_id kp, JStr (first_name (sa_hostname s)), public_key_bytes kp) /\
  forall s', load_my_identity s' ks w1 = (Ok x, w1).
Proof.
  intros (Hf & Hx & Hne & Hn & Ht & Hc) Hl kp. unfold load_my_identity in Hl.
  apply ibind_ok in Hl as ([pid nm] & w2 & H1 & Hl). unfold discovery_load_or_create_identity in H1.
  apply ibind_ok in H1 as (d & w3 & H1 & [= <- <- ->]).
  destruct (first_run_persists E EL K KL spill_at (sa_umask s) (sa_fresh1 s) (sa_now1 s) (Some (sa_hostname s)) identity_file ks w d w2)
    as (Hkp & Hname & Hagain & _); try done; [by intros t [= <-]|].
  apply ibind_ok in Hl as (d2 & w4 & H2 & [= <- <-]). rewrite Hagain in H2. injection H2 as <- <-. cbn [di_keypair].
  unfold di_device_id. rewrite Hkp, Hname. fold kp. assert (match sa_hostname s with [] => py "peer" | c :: t => c :: t end = first_name (sa_hostname s)) as ->
    by (unfold first_name; by destruct (sa_hostname s)).
  split; [done|]. intros s'. unfold load_my_identity, discovery_load_or_create_identity, ibind.
  rewrite Hagain. cbn [iret]. rewrite Hagain. cbn [iret di_keypair di_name]. unfold di_device_id. cbn [di_keypair].
  rewrite Hkp, Hname. by destruct (sa_hostname s).
Qed.

Lemma hex_no_peer_prefix b : prefixb (py "peer-") (hex_of_bytes b) = false.
Proof.
  destruct b as [|x b]; [done|]. change (prefixb (py "peer-") (hex_of_bytes (x :: b))) with
    ((112 =? hexdigit (b2z x / 16)) && prefixb (py "eer-") (hexdigit (b2z x mod 16) :: hex_of_bytes b)).
  pose proof (b2z_range x). assert (b2z x / 16 < 16) by (apply Z.div_lt_upper_bound; lia). destruct (112 =? hexdigit (b2z x / 16)) eqn:E1; [|done]. zbool. exfalso.
  unfold hexdigit in E1. destruct (b2z x / 16 <? 10) eqn:E2; zbool; lia.
Qed.

(** C31: a device that starts for the first time becomes one consistent identity.
    After a successful first start the id the application goes by is the digest
    of the public key it announces; every later start, whatever the host and the
    random source answer, finds the same id, name and key and changes nothing on
    disk; over any interleaving of the running application's handlers id and key
    stay those; and at any time any other device that hears its announcement
    registers it under that id at the address the packet came from. *)
Theorem started_device_is_known s ks w peer_id name key w1 server a0 :
  first_start s ks w -> load_my_identity s ks w = (Ok (peer_id, JStr name, key), w1) ->
  on_mount peer_id name key server (w_fs w1) = Ok a0 ->
  peer_id = sha256_hex key /\ name = first_name (sa_hostname s) /\
  (forall s', load_my_identity s' ks w1 = (Ok (peer_id, JStr name, key), w1)) /\
  forall a, reachable a0 a ->
    my_peer_id (app_me a) = peer_id /\ self_id (app_discovery a) = peer_id /\ self_key (app_discovery a) = key /\
    forall now b ip r, str_ok (my_display_name (app_me a)) = true ->
      disc_ok b -> self_id b <> peer_id -> reg_ok (self_id b) r ->
      exists r' out, handle_packet now b (build_payload (app_discovery a) true) ip r = Ok (r', out) /\
        peer_get (KStr peer_id) r' = Some (announced (app_discovery a) ip now).
Proof.
  intros Hs Hl Hm. destruct (first_run_identity s ks w _ w1 Hs Hl) as [Ex Hagain]. injection Ex as Eid En Ek.
  assert (peer_id = sha256_hex key) as Hid by (by subst).
  assert (length key = 32%nat) as Hlen by (subst; apply ed_public_length).
  split; [done|]. split; [done|]. split; [done|]. intros a Hr.
  destruct (reachable_ok _ _ _ _ _ _ _ Hm ltac:(rewrite Hid; apply hex_no_peer_prefix) Hr) as [Hme _ Hd _ _ _ _].
  rewrite Hme, Hd. cbn [self_id self_key]. do 3 (split; [done|]). intros now b ip r Hname Hb Hne Hreg.
  set (d := MkDiscovery peer_id (my_display_name (app_me a)) UI_TCP_PORT key).
  assert (disc_ok d) as Hdisc by (split; [done|split; [done|split; [done|exact Hname]]]).
  rewrite (handle_announcement now b d ip r true Hdisc) by (by apply not_eq_sym).
  destruct (announcement_registers d (self_id b) ip r now Hdisc (not_eq_sym Hne) Hreg) as [_ Hget].
  destruct (upsert_str _ _ _ _ _ _ _) as [r' out]. by eexists _, _.
Qed.
End FirstRun.

(** A first start of the demo platform. *)
Definition demo_start : @start_answers toy_ed25519 := @MkStart toy_ed25519 18 (py "laptop") 7%N (float_of_int 5) 8%N (float_of_int 6).
Lemma started_device_is_known_witness :
  let run := @load_my_identity toy_ed25519 toy_keyring demo_platform in
  exists peer_id key w1 a0,
    run demo_start demo_store (demo_world true []) = (Ok (peer_id, JStr (py "laptop"), key), w1) /\
    @on_mount peer_id (py "laptop") key (Ok tt) (w_fs w1) = Ok a0 /\
    peer_id = sha256_hex key /\
    run (@MkStart toy_ed25519 18 (py "other") 9%N (float_of_int 7) 9%N (float_of_int 8)) demo_store w1 = (Ok (peer_id, JStr (py "laptop"), key), w1).
Proof.
  intros run.
  assert (match run demo_start demo_store (demo_world true []) with
          | (Ok (_, JStr n, _), _) => streq n (py "laptop")
          | _ => false
          end = true) as Hok by (vm_compute; reflexivity).
  destruct (run demo_start demo_store (demo_world true [])) as [[[[pid nm] key]|e] w1] eqn:E; [|discriminate Hok].
  destruct nm as [| | | |nm| |]; try discriminate Hok. apply streq_spec in Hok as ->.
  assert (is_ok (on_mount pid (py "laptop") key (Ok tt) (w_fs w1)) = true) as Hm.
  { unfold on_mount. destruct (makedirs DOWNLOADS_DIR (w_fs w1)) as [[u|x] disk] eqn:Ed; [reflexivity|]. exfalso.
    assert (is_ok (fst (makedirs DOWNLOADS_DIR (w_fs (snd (run demo_start demo_store (demo_world true [])))))) = true) as Hd
      by (vm_compute; reflexivity). rewrite E in Hd. cbn [snd] in Hd. rewrite Ed in Hd. discriminate Hd. }
  destruct (on_mount pid (py "laptop") key (Ok tt) (w_fs w1)) as [a0|] eqn:Ea; [|discriminate Hm].
  exists pid, key, w1, a0. split; [exact eq_refl|]. split; [exact Ea|].
  destruct (@started_device_is_known toy_ed25519 toy_ed25519_laws toy_keyring toy_keyring_laws demo_platform demo_start demo_store
    (demo_world true []) pid (py "laptop") key w1 (Ok tt) a0) as (H1 & _ & H2 & _).
  - split_and!; [apply empty_fs_ok|vm_compute; reflexivity|discriminate|vm_compute; reflexivity|vm_compute; reflexivity|].
    right. left. vm_compute. reflexivity.
  - exact E.
  - exact Ea.
  - split; [exact H1|apply H2].
Defined.
