(* ===== verification/Selection.v ===== *)
(** * ui.py: the selection in the chat log

    [apply_selection_to_strip] and the log widget's [render_line] and
    [get_selection], over the strips of the widget library. *)

From S2P Require Import Prelude PyStr Json ChatApp.
From stdpp Require Import base strings list option list_numbers.
From Stdlib Require Import ZArith Lia.
Open Scope Z_scope.
Open Scope peerc_scope.

(** ** The widget library *)

(** Strips, seen as the cells they occupy on the screen, and selections. *)
Class StripLib : Type := {
  Strip : Type;
  Style : Type;
  Selection : Type;
  cell : Type;
  cells : Strip -> list cell;
  restyle : Style -> cell -> cell;
  cell_length : Strip -> Z;
  strip_text : Strip -> pystr;
  divide : Strip -> list Z -> list Strip;
  apply_style : Style -> Strip -> Strip;
  join_strips : list Strip -> Strip;
  blank : Z -> Style -> Strip;
  crop_extend : Strip -> Z -> Z -> Style -> Strip;
  apply_offsets : Z -> Z -> Strip -> Strip;
  style_truthy : Style -> bool;
  bgcolor : Style -> bool;
  is_reverse : Style -> bool;
  reverse_style : Style;
  get_span : Selection -> Z -> option (Z * Z);
  extract : Selection -> pystr -> pystr;
  (** No character of the strip occupies the cells on both sides of a place. *)
  between_characters : Strip -> Z -> Prop
}.

(** Increasing places of a strip of [n] cells, from [pos] on. *)
Fixpoint ascending (pos n : Z) (cuts : list Z) : Prop :=
  match cuts with
  | [] => True
  | c :: cuts => pos < c <= n /\ ascending c n cuts
  end.
Fixpoint slices {A} (pos : Z) (cuts : list Z) (l : list A) : list (list A) :=
  match cuts with
  | [] => []
  | c :: cuts => take (Z.to_nat (c - pos)) l :: slices c cuts (drop (Z.to_nat (c - pos)) l)
  end.

(** What the library documents: a strip is cut at each place, a cut between
    characters changes none of them; styling goes cell by cell. *)
Class StripLaws `{StripLib} : Prop := {
  cell_length_cells s : cell_length s = zlen (cells s);
  divide_length s cuts : ascending 0 (zlen (cells s)) cuts -> length (divide s cuts) = length cuts;
  divide_cells s cuts :
    ascending 0 (zlen (cells s)) cuts -> Forall (between_characters s) cuts -> map cells (divide s cuts) = slices 0 cuts (cells s);
  apply_style_cells st s : cells (apply_style st s) = map (restyle st) (cells s);
  join_cells l : cells (join_strips l) = concat (map cells l)
}.

(** ** The code *)

(** [l[i]] *)
Definition py_item {A} (l : list A) (i : Z) : result A :=
  let i := if i <? 0 then zlen l + i else i in
  if i <? 0 then Err IndexError else
  match l !! Z.to_nat i with
  | Some x => Ok x
  | None => Err IndexError
  end.

Section Log.
Context `{StripLib}.

Definition apply_selection_to_strip (s : Strip) (start end_ : Z) (style : Style) : result Strip :=
  let cell_len := cell_length s in
  if cell_len =? 0 then Ok s else
  let end_ := if (end_ =? -1) || (cell_len <? end_) then cell_len else end_ in
  let start := Z.max 0 (Z.min start cell_len) in
  let end_ := Z.max 0 (Z.min end_ cell_len) in
  if end_ <=? start then Ok s else
  let cuts := (if 0 <? start then [start] else []) ++ [end_] ++ (if end_ <? cell_len then [cell_len] else []) in
  let parts := divide s cuts in
  let* (styled_parts, idx) := if 0 <? start then let* p := py_item parts 0 in Ok ([p], 1) else Ok ([], 0) in
  let* p := py_item parts idx in
  let styled_parts := styled_parts ++ [apply_style style p] in
  let idx := idx + 1 in
  let* styled_parts := if end_ <? cell_len then let* p := py_item parts idx in Ok (styled_parts ++ [p]) else Ok styled_parts in
  Ok (join_strips styled_parts).

(** The widget; [component_style] is the outcome of looking the style up. *)
Record LogView : Type := MkLogView {
  lv_lines : list Strip;
  lv_scroll : Z * Z;
  lv_width : Z;
  lv_rich_style : Style;
  lv_text_selection : option Selection;
  lv_component_style : result Style
}.

Definition get_selection (v : LogView) (selection : Selection) : pystr * pystr :=
  (extract selection (Json.join [10] (map (fun s => rstrip (strip_text s)) (lv_lines v))), [10]).

Definition selection_style (v : LogView) : Style :=
  match lv_component_style v with
  | Ok st => if negb (style_truthy st) || (negb (bgcolor st) && negb (is_reverse st)) then reverse_style else st
  | Err _ => reverse_style
  end.

Definition render_line (v : LogView) (y : Z) : result Strip :=
  let '(scroll_x, scroll_y) := lv_scroll v in
  let line_idx := scroll_y + y in
  if zlen (lv_lines v) <=? line_idx then Ok (blank (lv_width v) (lv_rich_style v)) else
  let* base_strip := py_item (lv_lines v) line_idx in
  let* base_strip :=
    match lv_text_selection v ≫= fun s => get_span s line_idx with
    | Some (start, end_) => apply_selection_to_strip base_strip start end_ (selection_style v)
    | None => Ok base_strip
    end in
  let line := crop_extend base_strip scroll_x (scroll_x + lv_width v) (lv_rich_style v) in
  Ok (apply_style (lv_rich_style v) (apply_offsets scroll_x line_idx line)).
End Log.

(** ** The selected span *)

Section SelectionFacts.
Context `{StripLaws}.

(** The span the code selects in [n] cells: -1 is the end. *)
Definition span_from (n start : Z) : Z := Z.max 0 (Z.min start n).
Definition span_to (n start end_ : Z) : Z :=
  Z.max (span_from n start) (if end_ =? -1 then n else span_from n end_).
(** The places the strip is cut at. *)
Definition span_cuts (n start end_ : Z) : list Z :=
  (if 0 <? span_from n start then [span_from n start] else []) ++ [span_to n start end_] ++
  (if span_to n start end_ <? n then [n] else []).

Lemma span_cuts_ascending n start end_ :
  span_from n start < span_to n start end_ -> ascending 0 n (span_cuts n start end_).
Proof.
  intros Hlt. unfold span_cuts. assert (0 <= span_from n start /\ span_to n start end_ <= n) as [H1 H2].
  { unfold span_from, span_to in *. destruct (end_ =? -1); unfold span_from in *; lia. }
  destruct (0 <? span_from n start) eqn:E1, (span_to n start end_ <? n) eqn:E2; zbool; cbn; lia.
Qed.

(** Past its early returns the code cuts at these places and joins the pieces,
    the selected one styled. *)
Definition assembled (st : Style) (before : bool) (parts : list Strip) : result Strip :=
  match before, parts with
  | true, p :: q :: rest => Ok (join_strips (p :: apply_style st q :: rest))
  | false, q :: rest => Ok (join_strips (apply_style st q :: rest))
  | _, _ => Err IndexError
  end.
Lemma apply_selection_cases s start end_ st :
  let n := zlen (cells s) in
  apply_selection_to_strip s start end_ st
  = if span_to n start end_ <=? span_from n start then Ok s
    else assembled st (0 <? span_from n start) (divide s (span_cuts n start end_)).
Proof.
  intros n. unfold apply_selection_to_strip. rewrite cell_length_cells. fold n. pose proof (zlen_nonneg (cells s)) as Hn. fold n in Hn.
  assert (Z.max 0 (Z.min (if (end_ =? -1) || (n <? end_) then n else end_) n) = if end_ =? -1 then n else span_from n end_) as He.
  { unfold span_from. destruct (end_ =? -1) eqn:E1, (n <? end_) eqn:E2; cbn [orb]; zbool; lia. }
  rewrite He. fold (span_from n start). set (a := span_from n start). set (b := if end_ =? -1 then n else span_from n end_).
  assert (span_to n start end_ = Z.max a b) as Eb by done. destruct (n =? 0) eqn:E0; zbool.
  { rewrite (proj2 (Z.leb_le _ _)); [done|]. rewrite Eb. unfold a, b, span_from. destruct (end_ =? -1); lia. }
  destruct (b <=? a) eqn:Eba; zbool; [by rewrite (proj2 (Z.leb_le _ _)) by lia|].
  rewrite (proj2 (Z.leb_gt (span_to _ _ _) _)) by lia.
  pose proof (divide_length s (span_cuts n start end_) (span_cuts_ascending n start end_ ltac:(fold a; lia))) as Hl.
  unfold span_cuts in *. fold a in Hl |- *. rewrite Eb, Z.max_r in * by lia.
  destruct (divide s _) as [|p [|q [|r [|]]]] eqn:Ed; destruct (0 <? a) eqn:Ea, (b <? n) eqn:Ebn; try discriminate Hl; done.
Qed.

(** The selection of any span of any line succeeds. *)
Theorem apply_selection_total s start end_ st : exists s', apply_selection_to_strip s start end_ st = Ok s'.
Proof.
  rewrite apply_selection_cases. cbv zeta. destruct (_ <=? _) eqn:E; [eauto|]. zbool.
  pose proof (divide_length s _ (span_cuts_ascending _ _ _ E)) as Hl. unfold assembled, span_cuts in *.
  destruct (divide s _) as [|p [|q [|r [|]]]]; destruct (0 <? _), (_ <? _); try discriminate Hl; eauto.
Qed.

(** Exactly the selected cells are restyled: those from [start] to [end_], both
    brought into the line, -1 standing for its end. *)
Theorem selection_styles_span s start end_ st :
  let n := zlen (cells s) in
  let a := Z.to_nat (span_from n start) in
  let b := Z.to_nat (span_to n start end_) in
  Forall (between_characters s) (span_cuts n start end_) ->
  exists s', apply_selection_to_strip s start end_ st = Ok s' /\
    cells s' = take a (cells s) ++ map (restyle st) (take (b - a) (drop a (cells s))) ++ drop b (cells s).
Proof.
  intros n a b Hbc. rewrite apply_selection_cases. fold n.
  assert (0 <= span_from n start <= span_to n start end_ /\ span_to n start end_ <= n) as [Hab Hbn].
  { pose proof (zlen_nonneg (cells s)). unfold span_to, span_from, n. destruct (end_ =? -1); lia. }
  destruct (_ <=? _) eqn:E; zbool.
  { exists s. split; [done|]. assert (b = a) as -> by (unfold a, b; lia). rewrite Nat.sub_diag, take_0. cbn. by rewrite take_drop. }
  pose proof (span_cuts_ascending n start end_ E) as Hasc. pose proof (divide_length s _ Hasc) as Hl. pose proof (divide_cells s _ Hasc Hbc) as Hc.
  unfold span_cuts in *. unfold assembled.
  destruct (0 <? span_from n start) eqn:E1, (span_to n start end_ <? n) eqn:E2; zbool;
    destruct (divide s _) as [|p [|q [|r [|]]]]; try discriminate Hl; eexists; (split; [reflexivity|]);
    rewrite join_cells; cbn [map concat app]; rewrite apply_style_cells; cbn in Hc; injection Hc; clear Hc.
  all: intros; repeat match goal with E : cells _ = _ |- _ => rewrite E; clear E end.
  all: rewrite ?Z.sub_0_r, ?Z2Nat.inj_sub by lia; fold a b; change (Z.to_nat 0) with 0%nat.
  all: assert (length (cells s) = Z.to_nat n) as Hlen by (unfold n, zlen; lia); assert (a <= b <= Z.to_nat n)%nat as Hn by (unfold a, b; lia).
  all: try (assert (a = 0%nat) as -> by (unfold a; lia)); rewrite ?drop_0, ?take_0, ?Nat.sub_0_r, ?app_nil_r; cbn [app].
  all: rewrite ?drop_drop; repeat (f_equal; try done).
  all: try (rewrite take_ge by (rewrite length_drop; lia); f_equal; lia).
  all: assert (b = Z.to_nat n) as Eb by (unfold b; lia); by rewrite (drop_ge _ b), app_nil_r by lia.
Qed.
End SelectionFacts.

(** Every line of the widget renders, whatever is selected. *)
Theorem render_line_total `{StripLaws} v y : 0 <= snd (lv_scroll v) + y -> exists s, render_line v y = Ok s.
Proof.
  intros Hy. unfold render_line. destruct (lv_scroll v) as [sx sy]. cbn [snd] in Hy. destruct (_ <=? _) eqn:E; [eauto|]. zbool.
  unfold py_item. rewrite !(proj2 (Z.ltb_ge (sy + y) 0)) by lia.
  destruct (lv_lines v !! Z.to_nat (sy + y)) as [base|] eqn:El.
  2: { apply lookup_ge_None in El. unfold zlen in E. lia. }
  rewrite ?(proj2 (Z.ltb_ge (sy + y) 0)) by lia. cbn [rbind]. destruct (_ ≫= _) as [[a b]|]; [|cbn; eauto]. cbn match.
  destruct (apply_selection_total base a b (selection_style v)) as [s' ->]. cbn. eauto.
Qed.

(** ** A library of single-cell characters, for examples *)

#[local] Instance plain_strips : StripLib := {|
  Strip := list (Z * bool); Style := bool; Selection := Z * Z; cell := Z * bool;
  cells s := s; restyle st c := (fst c, st || snd c); cell_length := zlen; strip_text s := map fst s;
  divide s cuts := slices 0 cuts s; apply_style st s := map (fun c => (fst c, st || snd c)) s; join_strips := @concat _;
  blank w st := replicate (Z.to_nat w) (32, st); crop_extend s a b st := take (Z.to_nat (b - a)) (drop (Z.to_nat a) s ++ replicate (Z.to_nat b) (32, st));
  apply_offsets _ _ s := s; style_truthy st := st; bgcolor st := st; is_reverse st := st; reverse_style := true;
  get_span sel _ := Some sel; extract sel t := take (Z.to_nat (snd sel)) t; between_characters _ _ := True |}.
Lemma slices_length {A} pos cuts (l : list A) : length (slices pos cuts l) = length cuts.
Proof. revert pos l. induction cuts as [|c cuts IH]; intros pos l; cbn; [done|by rewrite IH]. Qed.
#[local] Instance plain_laws : StripLaws.
Proof. split; try done; intros; cbn; [apply slices_length|by rewrite map_id|by rewrite map_id]. Qed.

Example selection_ex :
  apply_selection_to_strip (H := plain_strips) (map (fun c => (c, false)) (py "abcd")) 1 3 true
  = Ok [(97, false); (98, true); (99, true); (100, false)].
Proof. reflexivity. Qed.
Lemma selection_styles_span_witness :
  let s := map (fun c => (c, false)) (py "abcd") in
  exists s', apply_selection_to_strip (H := plain_strips) s 2 (-1) true = Ok s' /\
    s' = [(97, false); (98, false); (99, true); (100, true)].
Proof. intros s. apply (selection_styles_span (H := plain_strips) s 2 (-1) true). repeat constructor. Defined.
